(* ===== verification/_CoqProject ===== *)
-Q . S2P
Prelude.v
Machine.v
Pmm.v
StringC.v
Dts.v
Vmm.v
Sched.v
SpikeFile.v
Stat.v
Snprintf.v
Htif.v
SpikeUtils.v
Dev.v
Rfs.v
Vfs.v
File.v
Mount.v
Process.v
Fork.v
Elf.v
Load.v
Argv.v
Exec.v
Syscall.v
Trap.v
Asm.v
Typing.v
System.v
UserLib.v
Shell.v
Apps.v
