(* ===== verification/Prelude.v ===== *)
(** * A verification of the RISC-V proxy kernel (PKE)

    The program is a small proxy kernel for the Spike emulator: it boots in
    machine mode, builds its page table, mounts a RAM disk, loads a user program
    from a host ELF file, and then serves system calls, page faults and timer
    interrupts of up to 32 user processes.  This library models the C code of the
    kernel, of the Spike interface below it and of the user programs above it as
    executable Rocq functions and proves what makes its parts correct.
    Paths below are relative to the repository.

    ** Parts and files

    - [Prelude]: 64/32/8-bit integers with their wrap-around (util/types.h,
      util/functions.h), the address constants of kernel/memlayout.h and
      kernel/config.h, bit fields, lists of pages, tactics and hint databases.
    - [Machine]: physical memory (8-byte words; 4- and 1-byte accesses are fields
      of a word), control and status registers, [kstate] with one field per C
      global, and the monad [K] of kernel computations.  A computation returns
      ([Ok]), leaves for user mode by sret ([User], with the registers, pc and
      satp the user code starts with) or stops the machine ([Stop]: panic or
      failed kassert, shutdown, failed assert, an access that faults, or a loop
      that exceeds its bound).  Loads and stores go through the direct map and
      fault when misaligned or outside [DRAM_BASE, PHYS_TOP).
    - [Pmm]: kernel/pmm.c, the page allocator.  Its promise to the other parts is
      the class [PageAllocator]; [Vmm] is proved against the class and
      [pmm_allocator] discharges it.
    - [StringC]: util/string.c.
    - [Dts]: spike_interface/dts_parse.c, spike_memory.c and the discovery part of
      spike_htif.c: the scan of the flattened device tree, in machine mode, with
      its callbacks.
    - [Vmm]: kernel/vmm.c and the Sv39 macros of kernel/riscv.h.  [pt_rep] relates
      memory to a ghost tree of table pages, [leaf] is the entry of an address,
      [pt_ok] adds the free pages, disjoint from the tables.
    - [Sched]: kernel/sched.c, switch_to of kernel/process.c and return_to_user of
      kernel/strap_vector.S.
    - [SpikeFile]: spike_interface/spike_file.c, kernel/hostfs.c, frontend_syscall
      and sgetline of spike_interface/spike_utils.c; [Stat]: copy_stat and
      spike_file_stat of spike_file.c.
    - [Snprintf]: util/snprintf.c and vprintk; a va_list is a pointer to argument
      slots.
    - [Htif]: spike_interface/spike_htif.c, atomic.h and the transport half of
      spike_utils.c: locks, tohost and fromhost, console, power-off.  The rest of
      the library uses the abstract [SpikeFile.frontend_syscall]; [Htif] proves
      that the exchange of messages implements it.
    - [SpikeUtils]: sprint, shutdown, do_panic, kassert_fail and poweroff of
      spike_utils.c, run to their end.
    - [Dev], [Rfs], [Vfs], [File]: kernel/dev.c, rfs.c, vfs.c, file.c; structures are
      laid out in memory at their C offsets, function pointers are linker
      addresses and a call through one dispatches on the stored value.
      [Mount] proves what rfs_do_mount leaves on the RAM disk and what rfs_get_root
      reads back.
    - [Process]: kernel/process.c (process table, address spaces, fork, wait);
      [Fork] proves what do_fork gives the child.
    - [Elf]: kernel/elf.c and do_exec: loading programs and building argv; [Load]
      proves what load_file makes of a whole program file, against an interface,
      [HostFile], of a host that serves it; [Argv] proves the layout of the
      arguments on the new stack; [Exec] proves realloc_process and composes them
      into do_exec.
    - [Syscall]: kernel/syscall.c.
    - [Trap]: kernel/strap.c, kernel/machine/mtrap.c, kernel/machine/minit.c,
      kernel/kernel.c and the trap vector: from the trap to the next sret, and the
      boot sequence.
    - [Asm]: the assembly, instruction by instruction, on a register file:
      kernel/strap_vector.S, kernel/machine/mentry.S and mtrap_vector.S,
      util/load_store.S.
    - [Typing]: the C types of all globals ([well_typed]) and a logic, [stable], of
      the code that leaves scheduling alone; every function below the system calls
      is shown to be stable by one tactic and a hint database.
    - [System]: the composition of all parts.  A run is boot followed by any
      sequence of events from user mode, traps and machine timer interrupts, with
      arbitrary changes of registers and memory by the user in between; the
      invariants of all runs are proved from [Typing] and the scheduler's lemmas.
    - [UserLib], [Shell], [Apps]: user/user_lib.c, user/sh.c and the main functions
      of user/*.c, on a user machine with its own monad [U]: a program returns,
      leaves for good in a system call, faults, or is still waiting.  The kernel
      is the class [UserEnv] there.

    ** What the theorems show

    - Memory: from pmm_init on, free and owned pages partition the pool
      ([pmm_pool_conserved]); a freed page is the next one handed out.
    - Address translation: mapping then translating is the identity and disturbs
      nothing else, unmapping undoes it and returns the pages, remapping and
      exhaustion are refused, and the kernel's own map is the identity with write
      xor execute permissions ([user_vm_map_translates] and its companions).
    - Strings: the word-wise memcpy is the byte-wise memmove, memmove is right on
      overlap, strcmp, safestrcpy and atol meet their specifications.
    - Text: vsnprintf writes what a reference rendering of the format gives, cut to
      the buffer, and a number printed by it is read back by atol.
    - Scheduling: the linked ready queue refines a FIFO without duplicates under
      any sequence of operations; dispatch enters user mode with the saved
      context; yield, exit and the end of a time slice rotate the queue; an idle
      system shuts down.
    - The whole system: in every run, whenever user code runs, the READY processes
      are the current one and those of the queue, each once ([system_ready]); user
      mode is entered in the address space and with the trapframe of the current
      process ([system_user_entry]); globals, csrs and tables hold values of their
      C types ([system_typed]); and the scheduler never gives up with unfinished
      processes ([scheduler_never_stuck]).
    - Assembly: the trap vectors implement the operations the kernel model is
      written with ([vectors_refine]); a system call and a machine timer interrupt
      preserve every register but t6 ([ecall_roundtrip], [mtrapvec_timer]).
    - Processes: the initial address space exposes exactly the stack to user mode;
      fork copies data and stack, shares code and returns 0 in the child; a
      reaped process gives back exactly its pages; wait follows its contract;
      a program file is loaded segment by segment where its headers say
      ([load_file_loads]), and exec replaces the old program by it, with the
      arguments where main expects them ([do_exec_starts]).
    - Traps: a system call resumes after the ecall with its result, a timer tick is
      invisible within a slice, a store fault maps a page, machine-mode setup
      takes the memory size from the device tree and delegates exactly the listed
      traps.
    - Spike interface: the device tree scanner reports exactly the nodes and
      properties of a well-formed tree, and the memory size is that of the range
      holding the kernel; an HTIF exchange refines one host call; shutdown and
      do_panic make their requests in order and never return.
    - User programs: wait returns the first final answer; the shell executes
      exactly the words of a line and refuses operators; echo prints its arguments.
    - Files: RAM-disk blocks read back as written and the disk is contiguous;
      mounting formats it and its root directory is read back ([rfs_mount_root]); host
      descriptors are bound to host files; and the theorems whose doc comments say
      so state where the file code does not do what it means to (reference counts
      that never reach zero, a files_struct larger than its page, read and write
      that report success, lookups through a block number or a null device); the
      status of a host file is converted field by field.

    ** Loops and bounds

    A C for loop over an index range is [kfor] over the list of indices.  Other
    loops are [kwhile], which runs a body at most 2^64 times, by binary recursion
    on the bound so that it still computes.  No loop of the kernel that ends runs
    that long (each turn consumes an address or a count of 64 bits), and theorems
    about such loops state that they return: [kwhile_rule] asks for a decreasing
    measure below the bound, so running out ([Diverge]) is excluded by proof, never
    by assumption.  A loop that does not end is shown to be [Diverge].  page_walk
    recurses on the level, the queue walk of insert_to_ready_queue is a [kwhile].
    fdt_scan_helper recurses to at most 64 levels ([fdt_depth]): its frames would
    exhaust the 4 KiB boot stack before.  The loops of the user programs recurse on
    the text or the arguments left; strlen in user memory is bounded by the size of
    the memory map, which is proved enough; the two loops that wait for the kernel,
    wait and mysh, take a number of rounds and report [Waiting] when it runs out.

    ** Parameters

    The class [Platform] holds what is not C code of the repository: linker
    symbols and addresses ([trap_sec_start], [etext], [kernel_end], [link_addr])
    and the host behind HTIF ([host_call]: request number, arguments, memory and
    host state to result, memory and host state).  [Demo.platform] instantiates it,
    and the witnesses run the theorems on concrete states of it.  Functions that
    keep buffers on the kernel stack take the address of their frame as an
    argument.  The class [LinkWords] says that linker addresses are 64-bit; [StatLayout]
    is the C library's struct stat.  The class [Htif] adds the registers shared with the host and what the
    host does between two volatile reads; [UserEnv] is the kernel as a user program
    sees it.  What is assumed of the host or of the kernel is a named record
    ([spike_server], [shell_kernel], [console_kernel]), with an instance in the
    witnesses.

    ** Not modelled

    The messages the kernel prints while it runs (calls of sprint, and
    print_proc_vmspace, which only prints): they change no kernel state, so the
    models of kernel functions leave them out; sprint itself is modelled in
    [SpikeUtils].  The kernel does not enable supervisor interrupts for itself and
    runs on one hart, so kernel code is sequential, and the interleaving of user
    processes is the sequence of traps; machine timer interrupts are modelled when
    they interrupt user code, not inside the kernel.  On a trap the hardware also
    moves SIE to SPIE, which the kernel never reads.  The instruction and data
    accesses of user code are not translated; between two traps the user may do
    anything to memory, which over-approximates them.  The macros of riscv.h and
    the declarations that nothing uses, and prototypes without a body, have no
    counterpart.
    *)

From stdpp Require Export base decidable numbers list gmap strings.
From Stdlib Require Export ZArith Lia.

#[global] Open Scope Z_scope.

(* ------------------------------------------------------------------ *)
(** * Machine integers: util/types.h *)

Definition u64 (x : Z) : Z := x mod 2 ^ 64.
Definition u32 (x : Z) : Z := x mod 2 ^ 32.
Definition u8 (x : Z) : Z := x mod 2 ^ 8.
(** two's-complement reading of the low [w] bits *)
Definition sgn (w x : Z) : Z :=
  let y := x mod 2 ^ w in if y <? 2 ^ (w - 1) then y else y - 2 ^ w.
Definition s32 (x : Z) : Z := sgn 32 x.
Definition s64 (x : Z) : Z := sgn 64 x.

(** * util/functions.h, on [uint64] operands *)

Definition ROUNDUP (a b : Z) : Z := u64 ((u64 (a - 1) / b + 1) * b).
Definition ROUNDDOWN (a b : Z) : Z := a / b * b.
Definition MIN (a b : Z) : Z := if a <? b then a else b.

(** * Page geometry: kernel/riscv.h, kernel/memlayout.h, kernel/config.h *)

Definition PGSIZE : Z := 4096.
Definition PGSHIFT : Z := 12.
Definition DRAM_BASE : Z := 0x80000000.
Definition KERN_BASE : Z := 0x80000000.
Definition USER_STACK_TOP : Z := 0x7ffff000.
Definition USER_FREE_ADDRESS_START : Z := 0x00000000 + PGSIZE * 1024.
Definition PKE_MAX_ALLOWABLE_RAM : Z := 128 * 1024 * 1024.
Definition PHYS_TOP : Z := DRAM_BASE + PKE_MAX_ALLOWABLE_RAM.

(** The page an address lies in. *)
Definition page_of (a : Z) : Z := ROUNDDOWN a PGSIZE.

(* ------------------------------------------------------------------ *)
(** * Tactics and hint databases *)

Create HintDb pke discriminated.
Create Rewrite HintDb pke_bits.
Create Rewrite HintDb pke_st.

(** linear arithmetic with division and remainder by constants *)
Ltac dlia := Z.to_euclidean_division_equations; lia.

(** equality of tuples of loop variables *)
Ltac pair_lia := repeat match goal with |- (_, _) = (_, _) => f_equal end; lia.

(** turn the Z comparisons the code branches on into propositions *)
Ltac zbool :=
  repeat match goal with
  | H : (_ && _)%bool = true |- _ => apply andb_true_iff in H as [??]
  | H : (_ || _)%bool = false |- _ => apply orb_false_iff in H as [??]
  | H : (_ <? _) = true |- _ => apply Z.ltb_lt in H
  | H : (_ <? _) = false |- _ => apply Z.ltb_ge in H
  | H : (_ <=? _) = true |- _ => apply Z.leb_le in H
  | H : (_ <=? _) = false |- _ => apply Z.leb_gt in H
  | H : (_ =? _) = true |- _ => apply Z.eqb_eq in H
  | H : (_ =? _) = false |- _ => apply Z.eqb_neq in H
  | H : negb _ = true |- _ => apply negb_true_iff in H
  | H : negb _ = false |- _ => apply negb_false_iff in H
  end.

(** case analysis on the Z comparison that blocks the goal *)
Ltac zcase :=
  match goal with
  | |- context [?a <? ?b] => destruct (Z.ltb_spec a b)
  | |- context [?a <=? ?b] => destruct (Z.leb_spec a b)
  | |- context [?a =? ?b] => destruct (Z.eqb_spec a b)
  end.

(* ------------------------------------------------------------------ *)
(** * Facts on machine integers and pages *)

Lemma u64_range x : 0 <= u64 x < 2 ^ 64.
Proof. apply Z.mod_pos_bound; lia. Qed.
Lemma u64_small x : 0 <= x < 2 ^ 64 -> u64 x = x.
Proof. apply Z.mod_small. Qed.
Lemma u64_idemp x : u64 (u64 x) = u64 x.
Proof. apply u64_small, u64_range. Qed.
Lemma u32_range x : 0 <= u32 x < 2 ^ 32.
Proof. apply Z.mod_pos_bound; lia. Qed.
Lemma u32_small x : 0 <= x < 2 ^ 32 -> u32 x = x.
Proof. apply Z.mod_small. Qed.
Lemma s32_small x : - 2 ^ 31 <= x < 2 ^ 31 -> s32 x = x.
Proof. unfold s32, sgn. intros. zcase; dlia. Qed.
Lemma s32_range x : - 2 ^ 31 <= s32 x < 2 ^ 31.
Proof. unfold s32, sgn. pose proof (Z.mod_pos_bound x (2 ^ 32)). zcase; lia. Qed.

Lemma ROUNDUP_spec a :
  0 < a < 2 ^ 64 - PGSIZE ->
  ROUNDUP a PGSIZE mod PGSIZE = 0 /\ a <= ROUNDUP a PGSIZE < a + PGSIZE.
Proof.
  unfold ROUNDUP, PGSIZE. intros Ha.
  rewrite (u64_small (a - 1)) by lia. rewrite u64_small by dlia. dlia.
Qed.
Lemma ROUNDUP_id a :
  0 < a < 2 ^ 64 - PGSIZE -> a mod PGSIZE = 0 -> ROUNDUP a PGSIZE = a.
Proof. intros H ?. pose proof (ROUNDUP_spec a H). unfold PGSIZE in *. dlia. Qed.

Lemma page_of_aligned a : page_of a mod PGSIZE = 0.
Proof. unfold page_of, ROUNDDOWN, PGSIZE. dlia. Qed.
Lemma page_of_bounds a : page_of a <= a < page_of a + PGSIZE.
Proof. unfold page_of, ROUNDDOWN, PGSIZE. dlia. Qed.
Lemma page_of_in p a :
  p mod PGSIZE = 0 -> p <= a < p + PGSIZE -> page_of a = p.
Proof. unfold page_of, ROUNDDOWN, PGSIZE. dlia. Qed.
Lemma page_of_iff p a :
  p mod PGSIZE = 0 -> page_of a = p <-> p <= a < p + PGSIZE.
Proof. unfold page_of, ROUNDDOWN, PGSIZE. dlia. Qed.

(** * Bit fields of a machine word *)

Definition get_field (w sh n : Z) : Z := Z.land (Z.shiftr w sh) (Z.ones n).
Definition set_field (w sh n v : Z) : Z :=
  Z.lor (Z.ldiff w (Z.shiftl (Z.ones n) sh)) (Z.shiftl (Z.land v (Z.ones n)) sh).

(** bitwise extensionality: [bits i] leaves the goal at bit [i >= 0], with
    every bit of the standard operators computed by lookup lemmas *)
Lemma ones_testbit n i : 0 <= n -> 0 <= i -> Z.testbit (Z.ones n) i = (i <? n).
Proof.
  intros. zcase; [by rewrite Z.ones_spec_low by lia | by rewrite Z.ones_spec_high by lia].
Qed.
Lemma shiftl_testbit a n i :
  0 <= i -> Z.testbit (Z.shiftl a n) i = ((n <=? i) && Z.testbit a (i - n))%bool.
Proof.
  intros. rewrite Z.shiftl_spec by lia. zcase; simpl; [done|].
  by rewrite Z.testbit_neg_r by lia.
Qed.

Lemma get_field_testbit w sh n i :
  0 <= sh -> 0 <= n -> 0 <= i ->
  Z.testbit (get_field w sh n) i = ((i <? n) && Z.testbit w (i + sh))%bool.
Proof.
  intros. unfold get_field. rewrite Z.land_spec, Z.shiftr_spec, ones_testbit by lia.
  apply andb_comm.
Qed.
Lemma set_field_testbit w sh n v i :
  0 <= sh -> 0 <= n -> 0 <= i ->
  Z.testbit (set_field w sh n v) i =
  if ((sh <=? i) && (i <? sh + n))%bool then Z.testbit v (i - sh) else Z.testbit w i.
Proof.
  intros. unfold set_field.
  rewrite Z.lor_spec, Z.ldiff_spec, !shiftl_testbit, Z.land_spec by lia.
  destruct (Z.leb_spec sh i); simpl.
  - rewrite !ones_testbit by lia.
    destruct (Z.ltb_spec (i - sh) n), (Z.ltb_spec i (sh + n)); try lia; simpl;
      by rewrite ?andb_false_r, ?andb_true_r, ?orb_false_r.
  - by rewrite andb_true_r, orb_false_r.
Qed.

Lemma get_set_field_eq w sh n v :
  0 <= sh -> 0 <= n -> get_field (set_field w sh n v) sh n = v mod 2 ^ n.
Proof.
  intros. apply Z.bits_inj'. intros i Hi.
  rewrite get_field_testbit, set_field_testbit by lia.
  rewrite <- Z.land_ones, Z.land_spec, ones_testbit by lia.
  repeat zcase; simpl; try lia; rewrite ?andb_false_r, ?andb_true_r; try done.
  f_equal. lia.
Qed.
Lemma get_set_field_ne w sh n v sh' n' :
  0 <= sh -> 0 <= n -> 0 <= sh' -> 0 <= n' ->
  sh + n <= sh' \/ sh' + n' <= sh ->
  get_field (set_field w sh n v) sh' n' = get_field w sh' n'.
Proof.
  intros. apply Z.bits_inj'. intros i Hi.
  rewrite !get_field_testbit, set_field_testbit by lia.
  repeat zcase; simpl; try lia; done.
Qed.
Lemma get_field_range w sh n : 0 <= n -> 0 <= get_field w sh n < 2 ^ n.
Proof. intros. unfold get_field. rewrite Z.land_ones by lia. apply Z.mod_pos_bound. lia. Qed.
Lemma get_field_u64 w sh n :
  0 <= sh -> 0 <= n -> sh + n <= 64 -> get_field (u64 w) sh n = get_field w sh n.
Proof.
  intros. apply Z.bits_inj'. intros i Hi. rewrite !get_field_testbit by lia.
  zcase; simpl; [|done]. unfold u64. by rewrite Z.mod_pow2_bits_low by lia.
Qed.

#[export] Hint Rewrite ones_testbit shiftl_testbit get_field_testbit set_field_testbit
  using lia : pke_bits.

(** the characters of a string literal *)
Definition chars_of (x : string) : list Z :=
  (fun c => Z.of_N (Ascii.N_of_ascii c)) <$> String.list_ascii_of_string x.
