(* ===== verification/Machine.v ===== *)
(** The machine the kernel runs on, and the kernel state.

    - physical memory as 8-byte little-endian words (module-level [load64],
      [store64], [load32], ...), accessed by the kernel through the direct map;
    - the control and status registers the C code reads and writes;
    - the kernel's global variables (one field per C global) in [kstate];
    - the monad [K]: a kernel computation either returns ([Ok]), leaves for user
      mode through [sret] ([User]), or stops the machine ([Stop]): panic,
      assertion failure, shutdown, or an access outside the direct map.

    The linker symbols (kernel/kernel.lds) and the host reached through HTIF are
    not C code of the repository: they are the class [Platform]. *)

From S2P Require Import Prelude.

(* ------------------------------------------------------------------ *)
(** * Physical memory *)

(** Memory is a finite map from word numbers (address / 8) to words; a word
    that was never written reads as 0.  Values are reduced to 64 bits when
    loaded, so any map is a memory. *)
Definition load64 (m : gmap Z Z) (a : Z) : Z := u64 (default 0 (m !! (a / 8))).
Definition store64 (m : gmap Z Z) (a v : Z) : gmap Z Z := <[a / 8 := v]> m.

(** [n]-bit accesses inside one word, little endian *)
Definition bit_off (a : Z) : Z := 8 * (a mod 8).
Definition loadn (n : Z) (m : gmap Z Z) (a : Z) : Z := get_field (load64 m a) (bit_off a) n.
Definition storen (n : Z) (m : gmap Z Z) (a v : Z) : gmap Z Z :=
  store64 m a (set_field (load64 m a) (bit_off a) n v).
Definition load32 := loadn 32.
Definition store32 := storen 32.
Definition load8 := loadn 8.
Definition store8 := storen 8.

Lemma load64_range m a : 0 <= load64 m a < 2 ^ 64.
Proof. apply u64_range. Qed.
Lemma load64_store64_eq m a v : load64 (store64 m a v) a = u64 v.
Proof. unfold load64, store64. by rewrite lookup_insert_eq. Qed.
Lemma load64_store64_word m a b v :
  a / 8 = b / 8 -> load64 (store64 m a v) b = u64 v.
Proof. unfold load64, store64. intros ->. by rewrite lookup_insert_eq. Qed.
Lemma load64_store64_ne m a b v :
  a / 8 <> b / 8 -> load64 (store64 m a v) b = load64 m b.
Proof. intros. unfold load64, store64. by rewrite lookup_insert_ne. Qed.

(** [n]-bit fields do not straddle a word when the address is aligned. *)
Definition field_ok (n a : Z) : Prop := 0 <= n /\ bit_off a + n <= 64.
Lemma bit_off_range a : 0 <= bit_off a <= 56.
Proof. unfold bit_off. dlia. Qed.
Lemma field_ok_32 a : a mod 4 = 0 -> field_ok 32 a.
Proof. unfold field_ok, bit_off. dlia. Qed.
Lemma field_ok_8 a : field_ok 8 a.
Proof. unfold field_ok, bit_off. dlia. Qed.

Lemma loadn_storen_eq n m a v : field_ok n a -> loadn n (storen n m a v) a = v mod 2 ^ n.
Proof.
  intros [? ?]. pose proof (bit_off_range a). unfold loadn, storen.
  rewrite load64_store64_eq, get_field_u64 by lia. apply get_set_field_eq; lia.
Qed.
(** two accesses are disjoint when they touch different words, or different
    bits of the same word *)
Lemma loadn_storen_ne n n' m a b v :
  field_ok n a -> field_ok n' b ->
  a / 8 <> b / 8 \/ bit_off a + n <= bit_off b \/ bit_off b + n' <= bit_off a ->
  loadn n' (storen n m a v) b = loadn n' m b.
Proof.
  intros [? ?] [? ?] Hd. pose proof (bit_off_range a). pose proof (bit_off_range b).
  unfold loadn, storen. destruct (decide (a / 8 = b / 8)) as [E|E].
  - destruct Hd as [?|Hd]; [done|]. rewrite load64_store64_word by done.
    rewrite get_field_u64, get_set_field_ne by lia.
    unfold load64. by rewrite E.
  - by rewrite load64_store64_ne.
Qed.
Lemma load64_storen_ne n m a b v :
  a / 8 <> b / 8 -> load64 (storen n m a v) b = load64 m b.
Proof. apply load64_store64_ne. Qed.
Lemma loadn_store64_ne n m a b v :
  a / 8 <> b / 8 -> loadn n (store64 m a v) b = loadn n m b.
Proof. intros. unfold loadn. by rewrite load64_store64_ne. Qed.

(* ------------------------------------------------------------------ *)
(** * Frames: which pages a computation may write *)

(** [m'] and [m] agree on every word outside the pages of [P]. *)
Definition same_outside (P : gset Z) (m m' : gmap Z Z) : Prop :=
  forall a, page_of a ∉ P -> load64 m' a = load64 m a.

#[global] Instance same_outside_refl P : Reflexive (same_outside P).
Proof. by intros m a. Qed.
#[global] Instance same_outside_trans P : Transitive (same_outside P).
Proof. intros m1 m2 m3 H1 H2 a Ha. by rewrite H2, H1. Qed.
Lemma same_outside_mono P Q m m' : P ⊆ Q -> same_outside P m m' -> same_outside Q m m'.
Proof. intros HPQ H a Ha. apply H. set_solver. Qed.
Lemma page_of_word a b : a / 8 = b / 8 -> page_of a = page_of b.
Proof. unfold page_of, ROUNDDOWN, PGSIZE. dlia. Qed.
Lemma store64_outside m a v : same_outside {[page_of a]} m (store64 m a v).
Proof.
  intros b Hb. apply load64_store64_ne. intros E%page_of_word. set_solver.
Qed.
Lemma storen_outside n m a v : same_outside {[page_of a]} m (storen n m a v).
Proof. apply store64_outside. Qed.
Lemma load64_align m a : load64 m a = load64 m (8 * (a / 8)).
Proof. unfold load64. do 2 f_equal. f_equal. dlia. Qed.
Lemma outside_loadn P m m' n a : same_outside P m m' -> page_of a ∉ P -> loadn n m' a = loadn n m a.
Proof. intros H Ha. unfold loadn. by rewrite H. Qed.

(* ------------------------------------------------------------------ *)
(** * Registers, processes, the kernel state *)

(** CSRs named in the C sources. *)
Inductive csr :=
  | sstatus | satp | stvec | sepc | scause | stval | sip | sie | sscratch
  | mstatus | mepc | mtvec | mideleg | medeleg | mie | mscratch | mcause | mtval | misa | mhartid.
#[global] Instance csr_eq_dec : EqDecision csr.
Proof. solve_decision. Defined.

(** kernel/process.h: possible status of a process *)
Inductive proc_status := FREE | READY | RUNNING | BLOCKED | ZOMBIE.
#[global] Instance proc_status_eq_dec : EqDecision proc_status.
Proof. solve_decision. Defined.

(** kernel/process.h: struct process.  Pointers to page-allocated objects are
    physical addresses; [process *] pointers are indices of [procs]. *)
Record process := mkProcess {
  p_kstack : Z;
  p_pagetable : Z;
  p_trapframe : Z;
  p_mapped_info : Z;
  p_total_mapped_region : Z;
  p_pid : Z;
  p_status : proc_status;
  p_parent : option nat;
  p_queue_next : option nat;
  p_tick_count : Z;
  p_total_tick_count : Z;
  p_total_mem_count : Z;
  p_pfiles : Z;
}.

(** spike_interface/spike_file.h: spike_file_t *)
Record spike_file := mkSpikeFile { kfd : Z; refcnt : Z }.

(** What lies outside the C sources: symbols placed by kernel.lds, and the host
    that serves [frontend_syscall] requests (number, arguments), reading and
    writing the target's memory. *)
Class Platform := {
  trap_sec_start : Z;
  smode_trap_vector : Z;
  smode_trap_handler_addr : Z;
  etext : Z;
  kernel_end : Z;
  link_addr : string -> Z; (** where the linker places a function, a constant table or a string literal *)
  host_state : Type;
  host_call : Z -> list Z -> gmap Z Z -> host_state -> Z * gmap Z Z * host_state
}.

Section State.
Context {PLAT : Platform}.

Record kstate := mkState {
  k_mem : gmap Z Z; (** physical memory, by 8-byte word *)
  k_free_list : Z; (** g_free_mem_list.next *)
  k_free_mem_start_addr : Z; (** pmm.c: free_mem_start_addr *)
  k_free_mem_end_addr : Z; (** pmm.c: free_mem_end_addr *)
  k_mem_size : Z; (** g_mem_size *)
  k_procs : list process; (** procs[NPROC] *)
  k_current : option nat; (** current, as an index of procs (None: NULL) *)
  k_ready_queue_head : option nat; (** ready_queue_head *)
  k_ufree_page : Z; (** g_ufree_page *)
  k_ticks : Z; (** g_ticks *)
  k_kernel_pagetable : Z; (** g_kernel_pagetable *)
  k_csr : csr -> Z; (** control and status registers *)
  k_ramdisk0_base : Z; (** RAMDISK0_BASE_ADDR *)
  k_vdev_list : list Z; (** vdev_list[MAX_DEV] *)
  k_spike_files : list spike_file; (** spike_files[MAX_FILES] *)
  k_spike_fds : list (option nat); (** spike_fds[MAX_FDS], as indices of spike_files *)
  k_host : host_state; (** the host behind HTIF *)
}.
End State.

(** ** Field updates *)
Definition set_p_kstack (v : Z) (r : process) : process :=
  mkProcess v (r.(p_pagetable)) (r.(p_trapframe)) (r.(p_mapped_info)) (r.(p_total_mapped_region)) (r.(p_pid)) (r.(p_status)) (r.(p_parent)) (r.(p_queue_next)) (r.(p_tick_count)) (r.(p_total_tick_count)) (r.(p_total_mem_count)) (r.(p_pfiles)).
Definition set_p_pagetable (v : Z) (r : process) : process :=
  mkProcess (r.(p_kstack)) v (r.(p_trapframe)) (r.(p_mapped_info)) (r.(p_total_mapped_region)) (r.(p_pid)) (r.(p_status)) (r.(p_parent)) (r.(p_queue_next)) (r.(p_tick_count)) (r.(p_total_tick_count)) (r.(p_total_mem_count)) (r.(p_pfiles)).
Definition set_p_trapframe (v : Z) (r : process) : process :=
  mkProcess (r.(p_kstack)) (r.(p_pagetable)) v (r.(p_mapped_info)) (r.(p_total_mapped_region)) (r.(p_pid)) (r.(p_status)) (r.(p_parent)) (r.(p_queue_next)) (r.(p_tick_count)) (r.(p_total_tick_count)) (r.(p_total_mem_count)) (r.(p_pfiles)).
Definition set_p_mapped_info (v : Z) (r : process) : process :=
  mkProcess (r.(p_kstack)) (r.(p_pagetable)) (r.(p_trapframe)) v (r.(p_total_mapped_region)) (r.(p_pid)) (r.(p_status)) (r.(p_parent)) (r.(p_queue_next)) (r.(p_tick_count)) (r.(p_total_tick_count)) (r.(p_total_mem_count)) (r.(p_pfiles)).
Definition set_p_total_mapped_region (v : Z) (r : process) : process :=
  mkProcess (r.(p_kstack)) (r.(p_pagetable)) (r.(p_trapframe)) (r.(p_mapped_info)) v (r.(p_pid)) (r.(p_status)) (r.(p_parent)) (r.(p_queue_next)) (r.(p_tick_count)) (r.(p_total_tick_count)) (r.(p_total_mem_count)) (r.(p_pfiles)).
Definition set_p_pid (v : Z) (r : process) : process :=
  mkProcess (r.(p_kstack)) (r.(p_pagetable)) (r.(p_trapframe)) (r.(p_mapped_info)) (r.(p_total_mapped_region)) v (r.(p_status)) (r.(p_parent)) (r.(p_queue_next)) (r.(p_tick_count)) (r.(p_total_tick_count)) (r.(p_total_mem_count)) (r.(p_pfiles)).
Definition set_p_status (v : proc_status) (r : process) : process :=
  mkProcess (r.(p_kstack)) (r.(p_pagetable)) (r.(p_trapframe)) (r.(p_mapped_info)) (r.(p_total_mapped_region)) (r.(p_pid)) v (r.(p_parent)) (r.(p_queue_next)) (r.(p_tick_count)) (r.(p_total_tick_count)) (r.(p_total_mem_count)) (r.(p_pfiles)).
Definition set_p_parent (v : option nat) (r : process) : process :=
  mkProcess (r.(p_kstack)) (r.(p_pagetable)) (r.(p_trapframe)) (r.(p_mapped_info)) (r.(p_total_mapped_region)) (r.(p_pid)) (r.(p_status)) v (r.(p_queue_next)) (r.(p_tick_count)) (r.(p_total_tick_count)) (r.(p_total_mem_count)) (r.(p_pfiles)).
Definition set_p_queue_next (v : option nat) (r : process) : process :=
  mkProcess (r.(p_kstack)) (r.(p_pagetable)) (r.(p_trapframe)) (r.(p_mapped_info)) (r.(p_total_mapped_region)) (r.(p_pid)) (r.(p_status)) (r.(p_parent)) v (r.(p_tick_count)) (r.(p_total_tick_count)) (r.(p_total_mem_count)) (r.(p_pfiles)).
Definition set_p_tick_count (v : Z) (r : process) : process :=
  mkProcess (r.(p_kstack)) (r.(p_pagetable)) (r.(p_trapframe)) (r.(p_mapped_info)) (r.(p_total_mapped_region)) (r.(p_pid)) (r.(p_status)) (r.(p_parent)) (r.(p_queue_next)) v (r.(p_total_tick_count)) (r.(p_total_mem_count)) (r.(p_pfiles)).
Definition set_p_total_tick_count (v : Z) (r : process) : process :=
  mkProcess (r.(p_kstack)) (r.(p_pagetable)) (r.(p_trapframe)) (r.(p_mapped_info)) (r.(p_total_mapped_region)) (r.(p_pid)) (r.(p_status)) (r.(p_parent)) (r.(p_queue_next)) (r.(p_tick_count)) v (r.(p_total_mem_count)) (r.(p_pfiles)).
Definition set_p_total_mem_count (v : Z) (r : process) : process :=
  mkProcess (r.(p_kstack)) (r.(p_pagetable)) (r.(p_trapframe)) (r.(p_mapped_info)) (r.(p_total_mapped_region)) (r.(p_pid)) (r.(p_status)) (r.(p_parent)) (r.(p_queue_next)) (r.(p_tick_count)) (r.(p_total_tick_count)) v (r.(p_pfiles)).
Definition set_p_pfiles (v : Z) (r : process) : process :=
  mkProcess (r.(p_kstack)) (r.(p_pagetable)) (r.(p_trapframe)) (r.(p_mapped_info)) (r.(p_total_mapped_region)) (r.(p_pid)) (r.(p_status)) (r.(p_parent)) (r.(p_queue_next)) (r.(p_tick_count)) (r.(p_total_tick_count)) (r.(p_total_mem_count)) v.

Section Setters.
Context {PLAT : Platform}.
Definition set_k_mem (v : gmap Z Z) (r : kstate) : kstate :=
  mkState v (r.(k_free_list)) (r.(k_free_mem_start_addr)) (r.(k_free_mem_end_addr)) (r.(k_mem_size)) (r.(k_procs)) (r.(k_current)) (r.(k_ready_queue_head)) (r.(k_ufree_page)) (r.(k_ticks)) (r.(k_kernel_pagetable)) (r.(k_csr)) (r.(k_ramdisk0_base)) (r.(k_vdev_list)) (r.(k_spike_files)) (r.(k_spike_fds)) (r.(k_host)).
Definition set_k_free_list (v : Z) (r : kstate) : kstate :=
  mkState (r.(k_mem)) v (r.(k_free_mem_start_addr)) (r.(k_free_mem_end_addr)) (r.(k_mem_size)) (r.(k_procs)) (r.(k_current)) (r.(k_ready_queue_head)) (r.(k_ufree_page)) (r.(k_ticks)) (r.(k_kernel_pagetable)) (r.(k_csr)) (r.(k_ramdisk0_base)) (r.(k_vdev_list)) (r.(k_spike_files)) (r.(k_spike_fds)) (r.(k_host)).
Definition set_k_free_mem_start_addr (v : Z) (r : kstate) : kstate :=
  mkState (r.(k_mem)) (r.(k_free_list)) v (r.(k_free_mem_end_addr)) (r.(k_mem_size)) (r.(k_procs)) (r.(k_current)) (r.(k_ready_queue_head)) (r.(k_ufree_page)) (r.(k_ticks)) (r.(k_kernel_pagetable)) (r.(k_csr)) (r.(k_ramdisk0_base)) (r.(k_vdev_list)) (r.(k_spike_files)) (r.(k_spike_fds)) (r.(k_host)).
Definition set_k_free_mem_end_addr (v : Z) (r : kstate) : kstate :=
  mkState (r.(k_mem)) (r.(k_free_list)) (r.(k_free_mem_start_addr)) v (r.(k_mem_size)) (r.(k_procs)) (r.(k_current)) (r.(k_ready_queue_head)) (r.(k_ufree_page)) (r.(k_ticks)) (r.(k_kernel_pagetable)) (r.(k_csr)) (r.(k_ramdisk0_base)) (r.(k_vdev_list)) (r.(k_spike_files)) (r.(k_spike_fds)) (r.(k_host)).
Definition set_k_mem_size (v : Z) (r : kstate) : kstate :=
  mkState (r.(k_mem)) (r.(k_free_list)) (r.(k_free_mem_start_addr)) (r.(k_free_mem_end_addr)) v (r.(k_procs)) (r.(k_current)) (r.(k_ready_queue_head)) (r.(k_ufree_page)) (r.(k_ticks)) (r.(k_kernel_pagetable)) (r.(k_csr)) (r.(k_ramdisk0_base)) (r.(k_vdev_list)) (r.(k_spike_files)) (r.(k_spike_fds)) (r.(k_host)).
Definition set_k_procs (v : list process) (r : kstate) : kstate :=
  mkState (r.(k_mem)) (r.(k_free_list)) (r.(k_free_mem_start_addr)) (r.(k_free_mem_end_addr)) (r.(k_mem_size)) v (r.(k_current)) (r.(k_ready_queue_head)) (r.(k_ufree_page)) (r.(k_ticks)) (r.(k_kernel_pagetable)) (r.(k_csr)) (r.(k_ramdisk0_base)) (r.(k_vdev_list)) (r.(k_spike_files)) (r.(k_spike_fds)) (r.(k_host)).
Definition set_k_current (v : option nat) (r : kstate) : kstate :=
  mkState (r.(k_mem)) (r.(k_free_list)) (r.(k_free_mem_start_addr)) (r.(k_free_mem_end_addr)) (r.(k_mem_size)) (r.(k_procs)) v (r.(k_ready_queue_head)) (r.(k_ufree_page)) (r.(k_ticks)) (r.(k_kernel_pagetable)) (r.(k_csr)) (r.(k_ramdisk0_base)) (r.(k_vdev_list)) (r.(k_spike_files)) (r.(k_spike_fds)) (r.(k_host)).
Definition set_k_ready_queue_head (v : option nat) (r : kstate) : kstate :=
  mkState (r.(k_mem)) (r.(k_free_list)) (r.(k_free_mem_start_addr)) (r.(k_free_mem_end_addr)) (r.(k_mem_size)) (r.(k_procs)) (r.(k_current)) v (r.(k_ufree_page)) (r.(k_ticks)) (r.(k_kernel_pagetable)) (r.(k_csr)) (r.(k_ramdisk0_base)) (r.(k_vdev_list)) (r.(k_spike_files)) (r.(k_spike_fds)) (r.(k_host)).
Definition set_k_ufree_page (v : Z) (r : kstate) : kstate :=
  mkState (r.(k_mem)) (r.(k_free_list)) (r.(k_free_mem_start_addr)) (r.(k_free_mem_end_addr)) (r.(k_mem_size)) (r.(k_procs)) (r.(k_current)) (r.(k_ready_queue_head)) v (r.(k_ticks)) (r.(k_kernel_pagetable)) (r.(k_csr)) (r.(k_ramdisk0_base)) (r.(k_vdev_list)) (r.(k_spike_files)) (r.(k_spike_fds)) (r.(k_host)).
Definition set_k_ticks (v : Z) (r : kstate) : kstate :=
  mkState (r.(k_mem)) (r.(k_free_list)) (r.(k_free_mem_start_addr)) (r.(k_free_mem_end_addr)) (r.(k_mem_size)) (r.(k_procs)) (r.(k_current)) (r.(k_ready_queue_head)) (r.(k_ufree_page)) v (r.(k_kernel_pagetable)) (r.(k_csr)) (r.(k_ramdisk0_base)) (r.(k_vdev_list)) (r.(k_spike_files)) (r.(k_spike_fds)) (r.(k_host)).
Definition set_k_kernel_pagetable (v : Z) (r : kstate) : kstate :=
  mkState (r.(k_mem)) (r.(k_free_list)) (r.(k_free_mem_start_addr)) (r.(k_free_mem_end_addr)) (r.(k_mem_size)) (r.(k_procs)) (r.(k_current)) (r.(k_ready_queue_head)) (r.(k_ufree_page)) (r.(k_ticks)) v (r.(k_csr)) (r.(k_ramdisk0_base)) (r.(k_vdev_list)) (r.(k_spike_files)) (r.(k_spike_fds)) (r.(k_host)).
Definition set_k_csr (v : csr -> Z) (r : kstate) : kstate :=
  mkState (r.(k_mem)) (r.(k_free_list)) (r.(k_free_mem_start_addr)) (r.(k_free_mem_end_addr)) (r.(k_mem_size)) (r.(k_procs)) (r.(k_current)) (r.(k_ready_queue_head)) (r.(k_ufree_page)) (r.(k_ticks)) (r.(k_kernel_pagetable)) v (r.(k_ramdisk0_base)) (r.(k_vdev_list)) (r.(k_spike_files)) (r.(k_spike_fds)) (r.(k_host)).
Definition set_k_ramdisk0_base (v : Z) (r : kstate) : kstate :=
  mkState (r.(k_mem)) (r.(k_free_list)) (r.(k_free_mem_start_addr)) (r.(k_free_mem_end_addr)) (r.(k_mem_size)) (r.(k_procs)) (r.(k_current)) (r.(k_ready_queue_head)) (r.(k_ufree_page)) (r.(k_ticks)) (r.(k_kernel_pagetable)) (r.(k_csr)) v (r.(k_vdev_list)) (r.(k_spike_files)) (r.(k_spike_fds)) (r.(k_host)).
Definition set_k_vdev_list (v : list Z) (r : kstate) : kstate :=
  mkState (r.(k_mem)) (r.(k_free_list)) (r.(k_free_mem_start_addr)) (r.(k_free_mem_end_addr)) (r.(k_mem_size)) (r.(k_procs)) (r.(k_current)) (r.(k_ready_queue_head)) (r.(k_ufree_page)) (r.(k_ticks)) (r.(k_kernel_pagetable)) (r.(k_csr)) (r.(k_ramdisk0_base)) v (r.(k_spike_files)) (r.(k_spike_fds)) (r.(k_host)).
Definition set_k_spike_files (v : list spike_file) (r : kstate) : kstate :=
  mkState (r.(k_mem)) (r.(k_free_list)) (r.(k_free_mem_start_addr)) (r.(k_free_mem_end_addr)) (r.(k_mem_size)) (r.(k_procs)) (r.(k_current)) (r.(k_ready_queue_head)) (r.(k_ufree_page)) (r.(k_ticks)) (r.(k_kernel_pagetable)) (r.(k_csr)) (r.(k_ramdisk0_base)) (r.(k_vdev_list)) v (r.(k_spike_fds)) (r.(k_host)).
Definition set_k_spike_fds (v : list (option nat)) (r : kstate) : kstate :=
  mkState (r.(k_mem)) (r.(k_free_list)) (r.(k_free_mem_start_addr)) (r.(k_free_mem_end_addr)) (r.(k_mem_size)) (r.(k_procs)) (r.(k_current)) (r.(k_ready_queue_head)) (r.(k_ufree_page)) (r.(k_ticks)) (r.(k_kernel_pagetable)) (r.(k_csr)) (r.(k_ramdisk0_base)) (r.(k_vdev_list)) (r.(k_spike_files)) v (r.(k_host)).
Definition set_k_host (v : host_state) (r : kstate) : kstate :=
  mkState (r.(k_mem)) (r.(k_free_list)) (r.(k_free_mem_start_addr)) (r.(k_free_mem_end_addr)) (r.(k_mem_size)) (r.(k_procs)) (r.(k_current)) (r.(k_ready_queue_head)) (r.(k_ufree_page)) (r.(k_ticks)) (r.(k_kernel_pagetable)) (r.(k_csr)) (r.(k_ramdisk0_base)) (r.(k_vdev_list)) (r.(k_spike_files)) (r.(k_spike_fds)) v.
End Setters.

(* ------------------------------------------------------------------ *)
(** * Kernel computations *)

(** How the machine stops: [panic]/[kassert] (do_panic ends in shutdown(-1)),
    [shutdown(code)], [assert] (die ends in poweroff), a load or store outside
    the direct map or misaligned, or a loop whose bound was exceeded. *)
Inductive stop :=
  | Panic (site : string)
  | Shutdown (code : Z)
  | Poweroff (site : string)
  | Fault (a : Z)
  | Diverge.

(** The hart as [sret] leaves it: the registers of the trapframe, the pc, the
    address space. *)
Record user_entry := mkUser { ue_regs : list Z; ue_pc : Z; ue_satp : Z }.

Inductive res {PLAT : Platform} (A : Type) :=
  | Ok (a : A) (s : kstate)
  | User (u : user_entry) (s : kstate)
  | Stop (h : stop) (s : kstate).
Arguments Ok {_ _} _ _.
Arguments User {_ _} _ _.
Arguments Stop {_ _} _ _.

Definition K {PLAT : Platform} (A : Type) : Type := kstate -> res A.

Section Monad.
Context {PLAT : Platform}.

Definition ret {A} (a : A) : K A := fun s => Ok a s.
Definition bind {A B} (c : K A) (f : A -> K B) : K B :=
  fun s => match c s with
           | Ok a s' => f a s'
           | User u s' => User u s'
           | Stop h s' => Stop h s'
           end.
Definition halt {A} (h : stop) : K A := fun s => Stop h s.
Definition panic {A} (site : string) : K A := halt (Panic site).
Definition gets {A} (f : kstate -> A) : K A := fun s => Ok (f s) s.
Definition modify (f : kstate -> kstate) : K unit := fun s => Ok tt (f s).
End Monad.

Declare Scope kernel_scope.
Delimit Scope kernel_scope with kernel.
Notation "x <- c ;; k" := (bind c (fun x => k))
  (at level 100, c at next level, right associativity) : kernel_scope.
Notation "c ;;; k" := (bind c (fun _ => k))
  (at level 100, right associativity) : kernel_scope.
Notation "'when' b 'then' c" := (if b then c else ret tt)
  (at level 95, b at level 90, c at level 95) : kernel_scope.
#[global] Open Scope kernel_scope.

Section Primitives.
Context {PLAT : Platform}.

Lemma bind_Ok {A B} (c : K A) (f : A -> K B) s a s' :
  c s = Ok a s' -> (x <- c ;; f x) s = f a s'.
Proof. unfold bind. by intros ->. Qed.
Lemma bind_Stop {A B} (c : K A) (f : A -> K B) s h s' :
  c s = Stop h s' -> (x <- c ;; f x) s = Stop h s'.
Proof. unfold bind. by intros ->. Qed.
Lemma bind_User {A B} (c : K A) (f : A -> K B) s u s' :
  c s = User u s' -> (x <- c ;; f x) s = User u s'.
Proof. unfold bind. by intros ->. Qed.
Lemma bind_assoc {A B C} (c : K A) (f : A -> K B) (g : B -> K C) s :
  (y <- (x <- c ;; f x) ;; g y) s = (x <- c ;; y <- f x ;; g y) s.
Proof. unfold bind. by destruct (c s). Qed.
(** two binds with the same outcome of the head, or equal continuations *)
Lemma bind_head {A B} (c c' : K A) (f : A -> K B) s : c s = c' s -> (x <- c ;; f x) s = (x <- c' ;; f x) s.
Proof. unfold bind. by intros ->. Qed.
Lemma bind_ext {A B} (c : K A) (f g : A -> K B) s :
  (forall a s', c s = Ok a s' -> f a s' = g a s') -> (x <- c ;; f x) s = (x <- c ;; g x) s.
Proof. intros H. unfold bind. destruct (c s); [by apply H|done..]. Qed.
Lemma bind_ret {A B} (a : A) (f : A -> K B) s : (x <- ret a ;; f x) s = f a s.
Proof. done. Qed.

(** [for (i = ...; ...; ++i)] over a list of indices *)
Fixpoint kfor {A} (l : list A) (f : A -> K unit) : K unit :=
  match l with
  | [] => ret tt
  | i :: l' => f i ;;; kfor l' f
  end.

Lemma kfor_app {A} (l1 l2 : list A) f s :
  kfor (l1 ++ l2) f s = (kfor l1 f ;;; kfor l2 f) s.
Proof.
  revert s. induction l1 as [|i l1 IH]; intros s; simpl; [done|].
  unfold bind. by destruct (f i s) as [? s'| |].
Qed.

(** the kernel's invariant rule for bounded loops *)
Lemma kfor_inv {A} (I : list A -> kstate -> Prop) (l : list A) f s :
  I l s ->
  (forall i l' s1, I (i :: l') s1 -> exists s2, f i s1 = Ok tt s2 /\ I l' s2) ->
  exists s', kfor l f s = Ok tt s' /\ I [] s'.
Proof.
  intros Hl Hstep. revert s Hl. induction l as [|i l IH]; intros s Hl; simpl.
  - by exists s.
  - destruct (Hstep i l s Hl) as (s2 & E & H2). rewrite (bind_Ok _ _ _ _ _ E). eauto.
Qed.

(** ** Unbounded loops

    A C [while]/[for] loop is [kwhile body]: [body] maps the loop variables to
    the next iteration ([inl]) or to the value the loop ends with ([inr]).  The
    loop is cut after 2^64 iterations, by binary fuel, so evaluating it costs
    only the iterations that run; [kwhile_rule] is its total-correctness rule. *)
Fixpoint kloop {X R} (fuel : positive) (body : X -> K (X + R)) (x : X) : K (X + R) :=
  match fuel with
  | xH => body x
  | xO p => y <- kloop p body x ;;
            match y with inl x' => kloop p body x' | inr r => ret (inr r) end
  | xI p => y <- body x ;;
            match y with
            | inr r => ret (inr r)
            | inl x1 => z <- kloop p body x1 ;;
                        match z with inl x' => kloop p body x' | inr r => ret (inr r) end
            end
  end.
Definition loop_fuel : positive := 18446744073709551616.
Definition kwhile {X R} (body : X -> K (X + R)) (x : X) : K R :=
  y <- kloop loop_fuel body x ;;
  match y with inr r => ret r | inl _ => halt Diverge end.

(** the same loop with unary fuel, for induction *)
Fixpoint kiter {X R} (n : nat) (body : X -> K (X + R)) (x : X) : K (X + R) :=
  match n with
  | O => ret (inl x)
  | S n' => y <- body x ;;
            match y with inl x' => kiter n' body x' | inr r => ret (inr r) end
  end.
Lemma kiter_add {X R} n m (body : X -> K (X + R)) x s :
  kiter (n + m) body x s =
  (y <- kiter n body x ;;
   match y with inl x' => kiter m body x' | inr r => ret (inr r) end) s.
Proof.
  revert x s. induction n as [|n IH]; intros x s; simpl; [done|].
  rewrite bind_assoc. unfold bind. destruct (body x s) as [[x'|r] s'| |]; first [done | apply IH].
Qed.
Lemma kloop_iter {X R} p (body : X -> K (X + R)) x s :
  kloop p body x s = kiter (Pos.to_nat p) body x s.
Proof.
  revert x s. induction p as [p IH|p IH|]; intros x s.
  - rewrite Pos2Nat.inj_xI. simpl. unfold bind at 1 3.
    destruct (body x s) as [[x'|r] s'| |]; try done.
    rewrite Nat.add_0_r, kiter_add. unfold bind. rewrite IH.
    destruct (kiter _ _ _ s') as [[x1|r1] s1| |]; first [done | apply IH].
  - rewrite Pos2Nat.inj_xO. simpl. rewrite Nat.add_0_r, kiter_add. unfold bind.
    rewrite IH. destruct (kiter _ _ _ s) as [[x1|r1] s1| |]; first [done | apply IH].
  - simpl. unfold bind. by destruct (body x s) as [[x1|r1] s1| |].
Qed.

(** outcome of one iteration: either the loop goes on from [(x', s')] inside
    [N], or it is over with an outcome in [Q] *)
Definition iter_post {X R} (N : X -> kstate -> Prop) (Q : res R -> Prop)
    (o : res (X + R)) : Prop :=
  match o with
  | Ok (inl x') s' => N x' s'
  | Ok (inr r) s' => Q (Ok r s')
  | User u s' => Q (User u s')
  | Stop h s' => Q (Stop h s')
  end.

Lemma kiter_rule {X R} (I : X -> kstate -> Prop) (mu : X -> Z) (Q : res R -> Prop)
    (body : X -> K (X + R)) n x s :
  I x s -> 0 <= mu x < Z.of_nat n ->
  (forall x s, I x s -> iter_post (fun x' s' => I x' s' /\ 0 <= mu x' < mu x) Q (body x s)) ->
  iter_post (fun _ _ => False) Q (kiter n body x s).
Proof.
  intros HI Hmu Hstep. revert x s HI Hmu.
  induction n as [|n IH]; intros x s HI Hmu; [lia|]. simpl. unfold bind.
  specialize (Hstep x s HI). unfold iter_post in Hstep.
  destruct (body x s) as [[x'|r] s'| |]; simpl; try done.
  apply IH; [apply Hstep|lia].
Qed.

Lemma kloop_rule {X R} (I : X -> kstate -> Prop) (mu : X -> Z) (Q : res R -> Prop)
    (body : X -> K (X + R)) p x s :
  I x s -> 0 <= mu x < Z.pos p ->
  (forall x s, I x s -> iter_post (fun x' s' => I x' s' /\ 0 <= mu x' < mu x) Q (body x s)) ->
  iter_post (fun _ _ => False) Q (kloop p body x s).
Proof.
  intros HI Hmu Hstep. rewrite kloop_iter. apply (kiter_rule I mu); [done| |done].
  by rewrite positive_nat_Z.
Qed.

(** Total correctness of a loop: an invariant, and a measure that decreases. *)
Lemma kwhile_rule {X R} (I : X -> kstate -> Prop) (mu : X -> Z) (Q : res R -> Prop)
    (body : X -> K (X + R)) x s :
  I x s -> 0 <= mu x < 2 ^ 64 ->
  (forall x s, I x s -> iter_post (fun x' s' => I x' s' /\ 0 <= mu x' < mu x) Q (body x s)) ->
  Q (kwhile body x s).
Proof.
  intros HI Hmu Hstep. unfold kwhile, bind.
  assert (H := kloop_rule I mu Q body loop_fuel x s HI Hmu Hstep).
  by destruct (kloop _ _ _ s) as [[x1|r1] s1| |].
Qed.

(** Partial correctness: an invariant, without a measure; the loop may be cut. *)
Lemma kwhile_partial {X R} (I : X -> kstate -> Prop) (Q : res R -> Prop) (body : X -> K (X + R)) x s :
  I x s -> (forall x s, I x s -> iter_post I Q (body x s)) -> (forall s, Q (Stop Diverge s)) -> Q (kwhile body x s).
Proof.
  intros HI Hb Hd. unfold kwhile, bind. rewrite kloop_iter.
  assert (H : forall n x s, I x s -> iter_post I Q (kiter n body x s)).
  { clear x s HI. induction n as [|n IH]; intros x s HI; [done|]. simpl. unfold bind. specialize (Hb x s HI).
    destruct (body x s) as [[x'|r] s'| |]; [by apply IH|done..]. }
  specialize (H (Pos.to_nat loop_fuel) x s HI). by destruct (kiter _ body x s) as [[x'|r] s'| |].
Qed.

(** A loop that ends within the fuel, and one that never ends. *)
Lemma kwhile_iter {X R} n (body : X -> K (X + R)) x s r s' :
  kiter n body x s = Ok (inr r) s' -> Z.of_nat n <= 2 ^ 64 -> kwhile body x s = Ok r s'.
Proof.
  intros E Hn. unfold kwhile, bind. rewrite kloop_iter.
  replace (Pos.to_nat loop_fuel) with (n + (Pos.to_nat loop_fuel - n))%nat by (unfold loop_fuel; lia).
  rewrite kiter_add. unfold bind. by rewrite E.
Qed.
Lemma kwhile_forever {X R} (I : X -> kstate -> Prop) (body : X -> K (X + R)) x s :
  I x s -> (forall x s, I x s -> exists x' s', body x s = Ok (inl x') s' /\ I x' s') ->
  exists x' s', kwhile body x s = Stop Diverge s' /\ I x' s'.
Proof.
  intros HI Hb. assert (Hn : forall n, exists x' s', kiter n body x s = Ok (inl x') s' /\ I x' s').
  { intros n. revert x s HI. induction n as [|n IH]; intros x s HI; simpl; [by exists x, s|].
    destruct (Hb x s HI) as (x1 & s1 & E & H1). rewrite (bind_Ok _ _ _ _ _ E). by apply IH. }
  destruct (Hn (Pos.to_nat loop_fuel)) as (x' & s' & E & H'). exists x', s'. split; [|done].
  unfold kwhile, bind. by rewrite kloop_iter, E.
Qed.

(** What every iteration preserves, the loop preserves. *)
Lemma kwhile_frame {X R} (P : kstate -> kstate -> Prop) `{!Reflexive P, !Transitive P} (body : X -> K (X + R)) x s r s' :
  (forall x s y s', body x s = Ok y s' -> P s s') -> kwhile body x s = Ok r s' -> P s s'.
Proof.
  intros Hb. unfold kwhile, bind. rewrite kloop_iter.
  assert (Hi : forall n x s y s', kiter n body x s = Ok y s' -> P s s').
  { clear x s r s'. induction n as [|n IH]; intros x s y s'; simpl; [by intros [= _ <-]|].
    unfold bind. destruct (body x s) as [[x'|r] s1| |] eqn:E; [|intros [= _ <-]; by eapply Hb|done..].
    intros H. etrans; [by eapply Hb|by eapply IH]. }
  destruct (kiter _ body x s) as [[x'|r'] s1| |] eqn:E; [done| |done..]. intros [= _ <-]. by eapply Hi.
Qed.

(** ** Loads and stores through the direct map *)

(** the kernel page table maps [KERN_BASE, PHYS_TOP) one to one *)
Definition addr_ok (n a : Z) : bool :=
  (DRAM_BASE <=? a) && (a + n <=? PHYS_TOP) && (a mod n =? 0).

Definition ld64 (a : Z) : K Z :=
  fun s => if addr_ok 8 a then Ok (load64 s.(k_mem) a) s else Stop (Fault a) s.
Definition st64 (a v : Z) : K unit :=
  fun s => if addr_ok 8 a then Ok tt (set_k_mem (store64 s.(k_mem) a v) s)
           else Stop (Fault a) s.
Definition ld32 (a : Z) : K Z :=
  fun s => if addr_ok 4 a then Ok (load32 s.(k_mem) a) s else Stop (Fault a) s.
Definition st32 (a v : Z) : K unit :=
  fun s => if addr_ok 4 a then Ok tt (set_k_mem (store32 s.(k_mem) a v) s)
           else Stop (Fault a) s.
Definition ld8 (a : Z) : K Z :=
  fun s => if addr_ok 1 a then Ok (load8 s.(k_mem) a) s else Stop (Fault a) s.
Definition st8 (a v : Z) : K unit :=
  fun s => if addr_ok 1 a then Ok tt (set_k_mem (store8 s.(k_mem) a v) s)
           else Stop (Fault a) s.

(** ** Machine mode: physical addresses, without the direct map *)
Definition phys_ok (n a : Z) : bool := (0 <=? a) && (a + n <=? 2 ^ 56) && (a mod n =? 0).
Definition mld32 (a : Z) : K Z :=
  fun s => if phys_ok 4 a then Ok (load32 s.(k_mem) a) s else Stop (Fault a) s.
Definition mst32 (a v : Z) : K unit :=
  fun s => if phys_ok 4 a then Ok tt (set_k_mem (store32 s.(k_mem) a v) s) else Stop (Fault a) s.
Definition mld8 (a : Z) : K Z :=
  fun s => if phys_ok 1 a then Ok (load8 s.(k_mem) a) s else Stop (Fault a) s.

(** ** CSRs *)
Definition read_csr (r : csr) : K Z := gets (fun s => s.(k_csr) r).
Definition write_csr (r : csr) (v : Z) : K unit :=
  modify (fun s => set_k_csr (fun r' => if decide (r' = r) then v else s.(k_csr) r') s).

(** ** Processes: [procs[i].f], [p->f = v] *)
Definition null_proc : process :=
  mkProcess 0 0 0 0 0 0 FREE None None 0 0 0 0.
Definition proc (s : kstate) (i : nat) : process := default null_proc (s.(k_procs) !! i).
Definition getp {A} (i : nat) (f : process -> A) : K A := gets (fun s => f (proc s i)).
Definition setp (i : nat) (f : process -> process) : K unit :=
  modify (fun s => set_k_procs (alter f i s.(k_procs)) s).

(** the allocatable pages: aligned and inside the direct map *)
Definition page_ok (p : Z) : Prop :=
  p mod PGSIZE = 0 /\ DRAM_BASE <= p /\ p + PGSIZE <= PHYS_TOP.
#[global] Instance page_ok_dec p : Decision (page_ok p).
Proof. unfold page_ok. apply _. Defined.

Lemma page_ok_addr64 p i :
  page_ok p -> 0 <= i < 512 -> addr_ok 8 (p + 8 * i) = true.
Proof.
  unfold page_ok, addr_ok, PGSIZE, DRAM_BASE, PHYS_TOP, PKE_MAX_ALLOWABLE_RAM.
  intros. rewrite !andb_true_iff, !Z.leb_le, Z.eqb_eq. dlia.
Qed.
Lemma page_ok_addr p o n :
  page_ok p -> 0 < n -> PGSIZE mod n = 0 -> 0 <= o -> o + n <= PGSIZE -> o mod n = 0 ->
  addr_ok n (p + o) = true.
Proof.
  unfold page_ok, addr_ok. intros (Ha&?&?) Hn Hpn ? ? Ho.
  rewrite !andb_true_iff, !Z.leb_le, Z.eqb_eq. split_and!; [lia..|].
  apply Z.mod_divide in Ha; [|unfold PGSIZE; lia]. apply Z.mod_divide in Hpn; [|lia].
  apply Z.mod_divide; [lia|]. apply Z.divide_add_r.
  - etrans; eauto.
  - apply Z.mod_divide; [lia|done].
Qed.
Lemma page_ok_nonzero p : page_ok p -> p <> 0.
Proof. unfold page_ok, DRAM_BASE. lia. Qed.
Lemma page_ok_range p : page_ok p -> 0 <= p < 2 ^ 64 - PGSIZE.
Proof. unfold page_ok, PHYS_TOP, PKE_MAX_ALLOWABLE_RAM, DRAM_BASE, PGSIZE. lia. Qed.
Lemma page_of_slot p o : page_ok p -> 0 <= o < PGSIZE -> page_of (p + o) = p.
Proof. intros (?&?&?) ?. apply page_of_in; lia. Qed.

Lemma page_of_page p : page_ok p -> page_of p = p.
Proof. intros (?&?&?). apply page_of_in; unfold PGSIZE in *; lia. Qed.
Lemma page_ok_base p n : page_ok p -> 0 < n <= PGSIZE -> PGSIZE mod n = 0 -> addr_ok n p = true.
Proof. intros. replace p with (p + 0) by lia. apply page_ok_addr; try done; lia. Qed.

Lemma ld64_ok a s : addr_ok 8 a = true -> ld64 a s = Ok (load64 s.(k_mem) a) s.
Proof. unfold ld64. by intros ->. Qed.
Lemma st64_ok a v s :
  addr_ok 8 a = true -> st64 a v s = Ok tt (set_k_mem (store64 s.(k_mem) a v) s).
Proof. unfold st64. by intros ->. Qed.
Lemma ld32_ok a s : addr_ok 4 a = true -> ld32 a s = Ok (load32 s.(k_mem) a) s.
Proof. unfold ld32. by intros ->. Qed.
Lemma st32_ok a v s :
  addr_ok 4 a = true -> st32 a v s = Ok tt (set_k_mem (store32 s.(k_mem) a v) s).
Proof. unfold st32. by intros ->. Qed.
Lemma addr_ok_null n : addr_ok n 0 = false.
Proof. done. Qed.
End Primitives.

(** loops are unfolded by [kwhile_rule] only *)
#[global] Opaque kwhile.

#[export] Hint Resolve page_ok_nonzero page_ok_addr64 : pke.

(** run the head of a bind whose outcome is known *)
Ltac kstep := first [erewrite bind_Ok; [|solve [reflexivity | eauto with pke]]
                    | erewrite bind_Stop; [|solve [reflexivity | eauto with pke]]
                    | erewrite bind_User; [|solve [reflexivity | eauto with pke]]].

(* ------------------------------------------------------------------ *)
(** * A concrete platform, for evaluating the model on examples *)

Module Demo.
Definition platform : Platform := {|
  trap_sec_start := 0x80005000;
  smode_trap_vector := 0x80005004;
  smode_trap_handler_addr := 0x80001000;
  etext := 0x80010000;
  kernel_end := 0x80020000;
  link_addr := fun x => if bool_decide (x = "ramdisk0") then 0x80018000
                        else if bool_decide (x = "rfs_node_dirops") then 0x80018010
                        else if bool_decide (x = "rfs_node_fileops") then 0x80018030
                        else 0x80001000;
  host_state := Z; (* the answer to every request *)
  host_call := fun _ _ m h => (h, m, h)
|}.
(** the state at reset, on a machine with [size] bytes of memory *)
Definition state (size : Z) : @kstate platform :=
  @mkState platform ∅ 0 0 0 size (replicate 32 null_proc) None None
    USER_FREE_ADDRESS_START 0 0 (fun _ => 0) 0 (replicate 10 0)
    (replicate 128 (mkSpikeFile (-1) 0)) (replicate 128 None) 0.
End Demo.
