(* ===== verification/Pmm.v ===== *)
(** kernel/pmm.c: the physical page allocator.

    The free list is threaded through the free pages themselves
    ([list_node.next] is the first word of a free page) and its head is the
    kernel global [g_free_mem_list.next].  [free_pages s l] relates a kernel
    state to the list of its free pages; [PageAllocator] is the interface the
    memory-mapping and process components are verified against, and
    [pmm_allocator] discharges it. *)

From S2P Require Import Prelude Machine.

Section Pmm.
Context {PLAT : Platform}.

(* ------------------------------------------------------------------ *)
(** * The code *)

(** [if (current != NULL) current->total_mem_count += d] *)
Definition count_mem (d : Z) : K unit :=
  cur <- gets k_current ;;
  match cur with
  | None => ret tt
  | Some i => setp i (fun p => set_p_total_mem_count (s32 (p_total_mem_count p + d)) p)
  end.

Definition free_page (pa : Z) : K unit :=
  start <- gets k_free_mem_start_addr ;;
  end_ <- gets k_free_mem_end_addr ;;
  if negb (pa mod PGSIZE =? 0) || (pa <? start) || (end_ <=? pa) then panic "free_page"
  else
    next <- gets k_free_list ;;
    st64 pa next ;;;
    modify (set_k_free_list pa) ;;;
    count_mem (-1).

Definition alloc_page : K Z :=
  n <- gets k_free_list ;;
  (if n =? 0 then ret tt
   else next <- ld64 n ;; modify (set_k_free_list next)) ;;;
  count_mem 1 ;;;
  ret n.

(** [for (p = ROUNDUP(start, PGSIZE); p + PGSIZE < end; p += PGSIZE) free_page(p)] *)
Definition create_freepage_list (start end_ : Z) : K unit :=
  modify (set_k_free_list 0) ;;;
  kwhile (fun p => if u64 (p + PGSIZE) <? end_
                   then free_page p ;;; ret (inl (u64 (p + PGSIZE)))
                   else ret (inr tt))
         (ROUNDUP start PGSIZE).

Definition pmm_init : K unit :=
  let g_kernel_start := KERN_BASE in
  let g_kernel_end := kernel_end in
  let pke_kernel_size := u64 (g_kernel_end - g_kernel_start) in
  modify (set_k_free_mem_start_addr (ROUNDUP g_kernel_end PGSIZE)) ;;;
  sz0 <- gets k_mem_size ;;
  modify (set_k_mem_size (MIN PKE_MAX_ALLOWABLE_RAM sz0)) ;;;
  sz <- gets k_mem_size ;;
  if sz <? pke_kernel_size
  then panic "Error when recomputing physical memory size (g_mem_size)."
  else
    modify (set_k_free_mem_end_addr (u64 (sz + DRAM_BASE))) ;;;
    start <- gets k_free_mem_start_addr ;;
    end_ <- gets k_free_mem_end_addr ;;
    create_freepage_list start end_.

(* ------------------------------------------------------------------ *)
(** * Representation of the free list *)

Fixpoint free_chain (m : gmap Z Z) (head : Z) (l : list Z) : Prop :=
  match l with
  | [] => head = 0
  | p :: l' => head = p /\ page_ok p /\ free_chain m (load64 m p) l'
  end.

Definition in_pool (s : kstate) (p : Z) : Prop :=
  k_free_mem_start_addr s <= p < k_free_mem_end_addr s.

Definition free_pages (s : kstate) (l : list Z) : Prop :=
  free_chain (k_mem s) (k_free_list s) l /\ NoDup l /\ Forall (in_pool s) l.

(** What the allocator does not touch: everything but memory, the list head and
    the memory accounting of the current process. *)
Definition strip (s : kstate) : kstate :=
  set_k_mem ∅ (set_k_free_list 0
    (set_k_procs (map (set_p_total_mem_count 0) (k_procs s)) s)).
Definition kframe (s s' : kstate) : Prop := strip s' = strip s.

#[global] Instance kframe_equiv : Equivalence kframe.
Proof. unfold kframe. split; [by intros ?|by intros ???|intros ??? H1 H2; by rewrite H2]. Qed.

Lemma kframe_mem s m : kframe s (set_k_mem m s).
Proof. done. Qed.
Lemma kframe_free_list s h : kframe s (set_k_free_list h s).
Proof. done. Qed.
Lemma kframe_bounds s s' :
  kframe s s' ->
  k_free_mem_start_addr s' = k_free_mem_start_addr s /\
  k_free_mem_end_addr s' = k_free_mem_end_addr s.
Proof.
  intros H. split.
  - by apply (f_equal k_free_mem_start_addr) in H.
  - by apply (f_equal k_free_mem_end_addr) in H.
Qed.
Lemma kframe_current s s' : kframe s s' -> k_current s' = k_current s.
Proof. intros H. by apply (f_equal k_current) in H. Qed.
Lemma kframe_proc {A} (f : process -> A) s s' i :
  (forall n p, f (set_p_total_mem_count n p) = f p) ->
  kframe s s' -> f (proc s' i) = f (proc s i).
Proof.
  intros Hf H. apply (f_equal k_procs) in H. simpl in H.
  apply (f_equal (fun l => l !! i)) in H.
  change (map ?g ?l) with (g <$> l) in H. rewrite !list_lookup_fmap in H. unfold proc.
  destruct (k_procs s !! i) as [p|], (k_procs s' !! i) as [p'|]; simpl in H; try done; simpl.
  rewrite <- (Hf 0 p), <- (Hf 0 p'). congruence.
Qed.

Lemma kframe_procs s ps :
  map (set_p_total_mem_count 0) ps = map (set_p_total_mem_count 0) (k_procs s) ->
  kframe s (set_k_procs ps s).
Proof.
  intros H. unfold kframe, strip, set_k_mem, set_k_free_list, set_k_procs. simpl. by rewrite H.
Qed.

(** [count_mem] always returns, and only touches the accounting. *)
Lemma count_mem_ok d s :
  exists s', count_mem d s = Ok tt s' /\ kframe s s' /\ k_mem s' = k_mem s /\
    k_free_list s' = k_free_list s.
Proof.
  unfold count_mem, bind, gets. destruct (k_current s) as [i|] eqn:E; simpl; [|by exists s].
  eexists; split; [reflexivity|]. split_and!; [|done..].
  apply kframe_procs. apply list_eq. intros j. change (map ?g ?l) with (g <$> l). rewrite !list_lookup_fmap.
  destruct (decide (i = j)) as [->|].
  - rewrite list_lookup_alter_eq. by destruct (k_procs s !! j).
  - by rewrite list_lookup_alter_ne.
Qed.

Lemma free_chain_frame m m' head l :
  (forall p, p ∈ l -> load64 m' p = load64 m p) ->
  free_chain m head l -> free_chain m' head l.
Proof.
  revert head. induction l as [|p l IH]; intros head Hm; simpl; [done|].
  intros (?&?&Hc). split_and!; [done..|]. rewrite Hm by set_solver.
  apply IH; [|done]. intros. apply Hm. set_solver.
Qed.
Lemma free_chain_ok m head l : free_chain m head l -> Forall page_ok l.
Proof. revert head. induction l; intros head; simpl; [done|]. intros (?&?&?). eauto. Qed.
Lemma free_pages_frame s s' l :
  free_pages s l -> k_free_list s' = k_free_list s ->
  k_free_mem_start_addr s' = k_free_mem_start_addr s ->
  k_free_mem_end_addr s' = k_free_mem_end_addr s ->
  (forall p, p ∈ l -> load64 (k_mem s') p = load64 (k_mem s) p) ->
  free_pages s' l.
Proof.
  intros (Hc&Hn&Hf) E1 E2 E3 Hm. split_and!; [|done|].
  - rewrite E1. by eapply free_chain_frame.
  - eapply Forall_impl; [done|]. unfold in_pool. by rewrite E2, E3.
Qed.

(* ------------------------------------------------------------------ *)
(** * What each operation does *)

Lemma alloc_page_spec s p l :
  free_pages s (p :: l) ->
  exists s', alloc_page s = Ok p s' /\ free_pages s' l /\ kframe s s' /\ k_mem s' = k_mem s.
Proof.
  intros ((Hh&Hp&Hc)&Hn&Hf). inversion Hn; subst. inversion Hf; subst.
  set (s1 := set_k_free_list (load64 (k_mem s) (k_free_list s)) s).
  destruct (count_mem_ok 1 s1) as (s2 & E & Hk & Hm & Hl).
  exists s2. unfold alloc_page. rewrite (bind_Ok _ _ s (k_free_list s) s) by done.
  rewrite (bind_Ok _ _ s tt s1).
  2:{ destruct (Z.eqb_spec (k_free_list s) 0) as [E0|_]; [by apply page_ok_nonzero in Hp|].
      unfold bind. rewrite ld64_ok; [done|].
      by apply page_ok_base. }
  rewrite (bind_Ok _ _ _ _ _ E). split; [done|].
  destruct (kframe_bounds _ _ Hk) as [Hb1 Hb2]. split; [|split; [by etrans|done]].
  apply (free_pages_frame s1); try done. by rewrite Hm.
Qed.

Lemma alloc_page_exhausted s :
  free_pages s [] ->
  exists s', alloc_page s = Ok 0 s' /\ free_pages s' [] /\ kframe s s' /\ k_mem s' = k_mem s.
Proof.
  intros (Hc&Hn&Hf). simpl in Hc.
  destruct (count_mem_ok 1 s) as (s2 & E & Hk & Hm & Hl).
  exists s2. unfold alloc_page. rewrite (bind_Ok _ _ s (k_free_list s) s) by done.
  rewrite Hc. simpl. rewrite bind_ret, (bind_Ok _ _ _ _ _ E). split; [done|].
  split; [|done]. split_and!; [simpl; congruence|constructor|constructor].
Qed.

(** the guard of [free_page] *)
Definition freeable (s : kstate) (p : Z) : Prop := p mod PGSIZE = 0 /\ in_pool s p.

Lemma free_page_run s p :
  freeable s p -> page_ok p ->
  exists s', free_page p s = Ok tt s' /\ kframe s s' /\ k_free_list s' = p /\
    k_mem s' = store64 (k_mem s) p (k_free_list s).
Proof.
  intros (Ha&Hs&He) Hp.
  set (s1 := set_k_free_list p (set_k_mem (store64 (k_mem s) p (k_free_list s)) s)).
  destruct (count_mem_ok (-1) s1) as (s2 & E & Hk & Hm & Hl).
  exists s2. unfold free_page. do 2 rewrite (bind_Ok _ _ s _ s) by reflexivity.
  rewrite Ha, (proj2 (Z.ltb_ge _ _)), (proj2 (Z.leb_gt _ _)) by lia. simpl.
  rewrite (bind_Ok _ _ s (k_free_list s) s) by done.
  rewrite (bind_Ok _ _ s tt (set_k_mem (store64 (k_mem s) p (k_free_list s)) s)).
  2:{ apply st64_ok. by apply page_ok_base. }
  rewrite (bind_Ok _ _ _ tt s1) by done. rewrite E.
  split_and!; [done|by etrans|by rewrite Hl|by rewrite Hm].
Qed.

Lemma free_chain_range m head l : free_chain m head l -> 0 <= head < 2 ^ 64.
Proof.
  destruct l as [|p l]; simpl; [lia|]. intros (->&Hp%page_ok_range&_). unfold PGSIZE in Hp. lia.
Qed.

Lemma free_page_spec s p l :
  free_pages s l -> freeable s p -> page_ok p -> p ∉ l ->
  exists s', free_page p s = Ok tt s' /\ free_pages s' (p :: l) /\ kframe s s' /\
    same_outside {[p]} (k_mem s) (k_mem s').
Proof.
  intros (Hc&Hn&Hf) Hfr Hp Hnin.
  destruct (free_page_run s p Hfr Hp) as (s' & E & Hk & Hl & Hm).
  exists s'. destruct (kframe_bounds _ _ Hk) as [Hb1 Hb2].
  assert (Hpg : page_of p = p) by by apply page_of_page.
  split; [done|]. split_and!; [|done|].
  - split_and!.
    + split_and!; [done..|]. rewrite Hm, load64_store64_eq.
      rewrite u64_small by (by eapply free_chain_range).
      eapply free_chain_frame; [|done]. intros q Hq.
      apply load64_store64_ne. intros Eq%page_of_word. apply Hnin.
      pose proof (free_chain_ok _ _ _ Hc) as Hok. rewrite Forall_forall in Hok.
      rewrite Hpg, (page_of_page q) in Eq by auto. by subst.
    + by constructor.
    + destruct Hfr as [_ Hin]. unfold in_pool in *. constructor; [by rewrite Hb1, Hb2|].
      eapply Forall_impl; [done|]. simpl. by rewrite Hb1, Hb2.
  - rewrite Hm. rewrite <- Hpg at 1. apply store64_outside.
Qed.

(* ------------------------------------------------------------------ *)
(** * The interface of the allocator *)

(** [free s l]: [l] are the pages the allocator may still hand out in [s].  The
    laws are all a client needs: what [alloc_page] and [free_page] return, and
    that writing outside the free pages does not disturb the allocator. *)
Class PageAllocator (free : kstate -> list Z -> Prop) := {
  pa_pages s l : free s l -> NoDup l /\ Forall page_ok l;
  pa_alloc s p l : free s (p :: l) ->
    exists s', alloc_page s = Ok p s' /\ free s' l /\ kframe s s' /\ k_mem s' = k_mem s;
  pa_exhausted s : free s [] ->
    exists s', alloc_page s = Ok 0 s' /\ free s' [] /\ kframe s s' /\ k_mem s' = k_mem s;
  pa_free s p l : free s l -> freeable s p -> page_ok p -> p ∉ l ->
    exists s', free_page p s = Ok tt s' /\ free s' (p :: l) /\ kframe s s' /\
      same_outside {[p]} (k_mem s) (k_mem s');
  pa_frame s s' l : free s l -> k_free_list s' = k_free_list s ->
    k_free_mem_start_addr s' = k_free_mem_start_addr s ->
    k_free_mem_end_addr s' = k_free_mem_end_addr s ->
    (forall p, p ∈ l -> load64 (k_mem s') p = load64 (k_mem s) p) ->
    free s' l
}.

#[global] Instance pmm_allocator : PageAllocator free_pages.
Proof.
  split.
  - intros s l (Hc&Hn&_). eauto using free_chain_ok.
  - apply alloc_page_spec.
  - apply alloc_page_exhausted.
  - apply free_page_spec.
  - apply free_pages_frame.
Qed.

(** writes outside the free pages *)
Lemma pa_write {free} `{!PageAllocator free} s l m' (P : gset Z) :
  free s l -> same_outside P (k_mem s) m' -> (forall p, p ∈ l -> p ∉ P) ->
  free (set_k_mem m' s) l.
Proof.
  intros Hf Hm Hd. apply (pa_frame s); try done. intros p Hp. simpl. apply Hm.
  destruct (pa_pages _ _ Hf) as [_ Hok]. rewrite Forall_forall in Hok.
  rewrite page_of_page by auto. by apply Hd.
Qed.

(* ------------------------------------------------------------------ *)
(** * Initialisation *)

(** [n] consecutive pages from [start] on *)
Definition page_range (start : Z) (n : nat) : list Z :=
  (fun i => start + PGSIZE * Z.of_nat i) <$> seq 0 n.

Lemma page_range_S start n :
  page_range start (S n) = page_range start n ++ [start + PGSIZE * Z.of_nat n].
Proof. unfold page_range. by rewrite seq_S, fmap_app. Qed.
Lemma elem_of_page_range start n p :
  p ∈ page_range start n <-> exists i, (i < n)%nat /\ p = start + PGSIZE * Z.of_nat i.
Proof.
  unfold page_range. rewrite list_elem_of_fmap. setoid_rewrite elem_of_seq.
  split; intros (i&?&?); exists i; split; try done; lia.
Qed.
Lemma page_range_length start n : length (page_range start n) = n.
Proof. unfold page_range. by rewrite length_fmap, length_seq. Qed.

(** the number of pages [create_freepage_list] puts on the list *)
Definition pool_size (start end_ : Z) : nat := Z.to_nat ((end_ - start - 1) / PGSIZE).

Lemma create_freepage_list_spec s start end_ :
  k_free_mem_start_addr s = start -> k_free_mem_end_addr s = end_ ->
  start mod PGSIZE = 0 -> DRAM_BASE <= start -> start < end_ -> end_ <= PHYS_TOP ->
  exists s', create_freepage_list start end_ s = Ok tt s' /\
    free_pages s' (reverse (page_range start (pool_size start end_))) /\ kframe s s'.
Proof.
  intros Es Ee Ha Hlo Hne Hhi. unfold create_freepage_list.
  set (s1 := set_k_free_list 0 s). rewrite (bind_Ok _ _ s tt s1) by done.
  rewrite ROUNDUP_id by (unfold PHYS_TOP, PKE_MAX_ALLOWABLE_RAM, DRAM_BASE, PGSIZE in *; lia || done).
  set (N := pool_size start end_).
  apply (kwhile_rule
    (fun p s2 => exists i, (i <= N)%nat /\ p = start + PGSIZE * Z.of_nat i /\
       free_pages s2 (reverse (page_range start i)) /\ kframe s s2)
    (fun p => end_ - p)).
  - exists 0%nat. split_and!; [lia|lia| |done]. split_and!; [done|constructor|constructor].
  - unfold PHYS_TOP, PKE_MAX_ALLOWABLE_RAM, DRAM_BASE in *. lia.
  - intros p s2 (i & Hi & -> & Hf & Hk). destruct (kframe_bounds _ _ Hk) as [Hb1 Hb2].
    unfold N, pool_size, PHYS_TOP, PKE_MAX_ALLOWABLE_RAM, DRAM_BASE, PGSIZE in *.
    rewrite u64_small by dlia. destruct (Z.ltb_spec (start + 4096 * Z.of_nat i + 4096) end_).
    + assert (Hok : page_ok (start + 4096 * Z.of_nat i)).
      { unfold page_ok, PHYS_TOP, PKE_MAX_ALLOWABLE_RAM, DRAM_BASE, PGSIZE. dlia. }
      destruct (free_page_spec s2 (start + 4096 * Z.of_nat i) _ Hf)
        as (s3 & E & Hf3 & Hk3 & _); [|done| |].
      { split; [apply Hok|]. unfold in_pool. rewrite Hb1, Hb2. lia. }
      { rewrite elem_of_reverse, elem_of_page_range. intros (j&?&?). unfold PGSIZE in *. lia. }
      rewrite (bind_Ok _ _ _ _ _ E). simpl. split; [|lia].
      exists (S i). split_and!; [dlia|lia| |by etrans].
      by rewrite page_range_S, reverse_app.
    + simpl. exists s2. split_and!; [done| |done].
      assert (i = Z.to_nat ((end_ - start - 1) / 4096)) as <- by dlia. done.
Qed.

Lemma MIN_bounds a b : 0 <= a -> 0 <= b -> 0 <= MIN a b <= a.
Proof. unfold MIN. zcase; lia. Qed.

Lemma pmm_init_spec s :
  KERN_BASE < kernel_end < 2 ^ 64 - PGSIZE ->
  0 <= k_mem_size s ->
  let start := ROUNDUP kernel_end PGSIZE in
  let end_ := DRAM_BASE + MIN PKE_MAX_ALLOWABLE_RAM (k_mem_size s) in
  start < end_ ->
  exists s', pmm_init s = Ok tt s' /\
    free_pages s' (reverse (page_range start (pool_size start end_))) /\
    k_free_mem_start_addr s' = start /\ k_free_mem_end_addr s' = end_.
Proof.
  intros Hk Hs start end_ Hlt.
  assert (Hr := ROUNDUP_spec kernel_end). fold start in Hr.
  unfold KERN_BASE, PGSIZE in Hk, Hr. specialize (Hr ltac:(lia)). destruct Hr as [Hr1 Hr2].
  assert (Hm := MIN_bounds PKE_MAX_ALLOWABLE_RAM (k_mem_size s) ltac:(done) Hs).
  set (s1 := set_k_mem_size (MIN PKE_MAX_ALLOWABLE_RAM (k_mem_size s))
               (set_k_free_mem_start_addr start s)).
  set (s2 := set_k_free_mem_end_addr end_ s1).
  destruct (create_freepage_list_spec s2 start end_) as (s' & E & Hf & Hk');
    try done; try (unfold end_, PHYS_TOP, DRAM_BASE, PGSIZE in *; lia).
  exists s'. destruct (kframe_bounds _ _ Hk') as [Hb1 Hb2].
  split_and!; [|done..]. rewrite <- E. unfold pmm_init. do 4 (erewrite bind_Ok; [|reflexivity]).
  simpl. fold start.
  unfold KERN_BASE, end_, DRAM_BASE, PKE_MAX_ALLOWABLE_RAM in *.
  rewrite (u64_small (kernel_end - _)) by lia.
  rewrite (proj2 (Z.ltb_ge _ _)) by lia.
  rewrite (u64_small (_ + 2147483648)) by lia.
  do 3 (erewrite bind_Ok; [|reflexivity]). unfold s2, s1, end_. by rewrite Z.add_comm.
Qed.

(* ------------------------------------------------------------------ *)
(** * The allocator under arbitrary use *)

(** A client of the allocator: [owned] are the pages it holds.  It may allocate,
    write to the pages it owns, and free a page it owns. *)
Inductive pmm_step : kstate * list Z -> kstate * list Z -> Prop :=
  | step_alloc s s' p owned :
      alloc_page s = Ok p s' -> p <> 0 -> pmm_step (s, owned) (s', p :: owned)
  | step_alloc_null s s' owned :
      alloc_page s = Ok 0 s' -> pmm_step (s, owned) (s', owned)
  | step_write s m' owned :
      same_outside (list_to_set owned) (k_mem s) m' ->
      pmm_step (s, owned) (set_k_mem m' s, owned)
  | step_free s s' p o1 o2 :
      free_page p s = Ok tt s' -> pmm_step (s, o1 ++ p :: o2) (s', o1 ++ o2).

(** the free pages and the owned pages together are exactly the pool *)
Definition pmm_inv (pool : list Z) (so : kstate * list Z) : Prop :=
  exists l, free_pages so.1 l /\ l ++ so.2 ≡ₚ pool /\ Forall (in_pool so.1) so.2.

Lemma in_pool_frame s s' l : kframe s s' -> Forall (in_pool s) l -> Forall (in_pool s') l.
Proof.
  intros Hk H. destruct (kframe_bounds _ _ Hk) as [E1 E2].
  eapply Forall_impl; [done|]. unfold in_pool. by rewrite E1, E2.
Qed.

Lemma pmm_step_inv pool so so' :
  NoDup pool -> Forall page_ok pool ->
  pmm_step so so' -> pmm_inv pool so -> pmm_inv pool so'.
Proof.
  intros Hnd Hok Hstep (l & Hf & Hp & Ho). destruct Hstep as [s s' p o E Hp0|s s' o E|s m' o Hm|s s' p o1 o2 E];
    simpl in *.
  - destruct l as [|q l].
    { destruct (alloc_page_exhausted s Hf) as (s2 & E2 & _). congruence. }
    destruct (alloc_page_spec s q l Hf) as (s2 & E2 & Hf2 & Hk & _).
    rewrite E in E2. simplify_eq. exists l. simpl. split_and!; [done| |].
    + rewrite <- Hp. simpl. by rewrite Permutation_middle.
    + constructor; [|by eapply in_pool_frame].
      destruct Hf as (_&_&Hf). eapply in_pool_frame in Hf; [|done]. by inversion Hf.
  - destruct l as [|q l].
    { destruct (alloc_page_exhausted s Hf) as (s2 & E2 & Hf2 & Hk & _).
      rewrite E in E2. simplify_eq. exists []. simpl. eauto using in_pool_frame. }
    destruct (alloc_page_spec s q l Hf) as (s2 & E2 & _). rewrite E in E2. simplify_eq.
    destruct Hf as ((?&Hq&?)&_). by apply page_ok_nonzero in Hq.
  - exists l. split_and!; [|done|done]. eapply pa_write; [done|done|].
    intros p Hpl Hpo%elem_of_list_to_set. rewrite <- Hp in Hnd.
    apply NoDup_app in Hnd as (_&Hd&_). by eapply Hd.
  - rewrite <- Hp in Hnd, Hok. apply NoDup_app in Hnd as (_&Hd&Hno).
    assert (Hpo : p ∈ o1 ++ p :: o2) by set_solver.
    rewrite Forall_app in Hok. destruct Hok as [_ Hok]. rewrite Forall_forall in Hok, Ho.
    destruct (free_page_spec s p l Hf) as (s2 & E2 & Hf2 & Hk & _).
    { split; [by apply Hok|by apply Ho]. } { by apply Hok. } { intros ?. by eapply Hd. }
    rewrite E in E2. simplify_eq. exists (p :: l). simpl. split_and!; [done| |].
    + rewrite <- Hp. by rewrite <- !Permutation_middle.
    + eapply in_pool_frame; [done|]. apply Forall_forall. intros x Hx. apply Ho.
      rewrite elem_of_app, elem_of_cons in *. tauto.
Qed.

Lemma page_range_NoDup start n : NoDup (page_range start n).
Proof.
  unfold page_range. apply NoDup_fmap_2; [|apply NoDup_seq]. intros i j ?. unfold PGSIZE in *. lia.
Qed.

Lemma pmm_steps_inv pool so so' :
  NoDup pool -> Forall page_ok pool ->
  rtc pmm_step so so' -> pmm_inv pool so -> pmm_inv pool so'.
Proof. induction 3; eauto using pmm_step_inv. Qed.

(* ------------------------------------------------------------------ *)
(** * Properties *)

(** C4. After [pmm_init], and after any sequence of allocations, writes to owned
    pages and frees of owned pages by a client, the free list and the pages the
    client owns are together a permutation of the pool of pages between the end
    of the kernel and the end of memory: no page is handed out twice, none is
    both free and owned, and none is lost. *)
Theorem pmm_pool_conserved s0 :
  KERN_BASE < kernel_end < 2 ^ 64 - PGSIZE -> 0 <= k_mem_size s0 ->
  let start := ROUNDUP kernel_end PGSIZE in
  let end_ := DRAM_BASE + MIN PKE_MAX_ALLOWABLE_RAM (k_mem_size s0) in
  start < end_ ->
  exists s1, pmm_init s0 = Ok tt s1 /\
    forall s owned, rtc pmm_step (s1, []) (s, owned) ->
      exists l, free_pages s l /\ l ++ owned ≡ₚ page_range start (pool_size start end_).
Proof.
  intros Hk Hs start end_ Hlt.
  destruct (pmm_init_spec s0 Hk Hs Hlt) as (s1 & E & Hf & Hb1 & Hb2).
  exists s1. split; [done|]. intros s owned Hr.
  set (pool := page_range start (pool_size start end_)).
  assert (Hok : Forall page_ok pool).
  { rewrite <- Forall_reverse. by apply (pa_pages _ _ Hf). }
  destruct (pmm_steps_inv pool _ _ (page_range_NoDup _ _) Hok Hr) as (l & ? & ? & _).
  { exists (reverse pool). simpl. split_and!; [done| |constructor].
    by rewrite app_nil_r, reverse_Permutation. }
  by exists l.
Qed.

(** The allocator is a stack: a page given back is the next one handed out,
    and the pool, the rest of the kernel state and all memory but that page are
    then as before. *)
Theorem free_alloc_roundtrip s p l :
  free_pages s l -> freeable s p -> page_ok p -> p ∉ l ->
  exists s1 s2, free_page p s = Ok tt s1 /\ alloc_page s1 = Ok p s2 /\
    free_pages s2 l /\ kframe s s2 /\ same_outside {[p]} (k_mem s) (k_mem s2).
Proof.
  intros Hf Hfr Hp Hn. destruct (pa_free _ _ _ Hf Hfr Hp Hn) as (s1 & E1 & Hf1 & Hk1 & Hm1).
  destruct (pa_alloc _ _ _ Hf1) as (s2 & E2 & Hf2 & Hk2 & Hm2).
  exists s1, s2. split_and!; [done..|by etrans|by rewrite Hm2].
Qed.

(** [free_page] panics on exactly the addresses that are not page aligned or
    lie outside the managed range, and leaves the state alone when it does. *)
Theorem free_page_panics_iff s p :
  free_page p s = Stop (Panic "free_page") s <-> ~ freeable s p.
Proof.
  unfold free_page, freeable, in_pool. do 2 (erewrite bind_Ok; [|reflexivity]).
  destruct (Z.eqb_spec (p mod PGSIZE) 0), (Z.ltb_spec p (k_free_mem_start_addr s)),
    (Z.leb_spec (k_free_mem_end_addr s) p); simpl; try (split; [lia|done]).
  split; [|lia]. unfold bind, gets, st64. destruct (addr_ok 8 p); [|done].
  simpl. match goal with |- context [count_mem ?d ?st] => destruct (count_mem_ok d st) as (?&->&_) end. done.
Qed.
End Pmm.

Lemma pmm_pool_conserved_witness :
  exists s1, @pmm_init Demo.platform (Demo.state 0x30000) = Ok tt s1 /\
    forall s owned, rtc pmm_step (s1, []) (s, owned) ->
      exists l, free_pages s l /\ l ++ owned ≡ₚ page_range 0x80020000 15.
Proof.
  exact (@pmm_pool_conserved Demo.platform (Demo.state 0x30000)
           (conj eq_refl eq_refl) ltac:(discriminate) eq_refl).
Defined.

(** two pages above the kernel, one of them free *)
Definition demo_pool : @kstate Demo.platform :=
  set_k_free_list 0x80021000 (set_k_free_mem_start_addr 0x80020000
    (set_k_free_mem_end_addr 0x80023000 (Demo.state 0x30000))).

Lemma free_alloc_roundtrip_witness :
  exists s1 s2, free_page 0x80020000 demo_pool = Ok tt s1 /\
    alloc_page s1 = Ok 0x80020000 s2 /\ free_pages s2 [0x80021000] /\
    kframe demo_pool s2 /\ same_outside {[0x80020000]} (k_mem demo_pool) (k_mem s2).
Proof.
  apply (@free_alloc_roundtrip Demo.platform demo_pool 0x80020000 [0x80021000]).
  - split_and!; [by vm_compute|apply NoDup_singleton|by repeat constructor].
  - by vm_compute.
  - by vm_compute.
  - set_solver.
Defined.
