(* ===== verification/StringC.v ===== *)
(** util/string.c: the memory and string routines of the kernel, on physical
    memory.  Each routine is translated loop by loop (word loop and byte loop
    included) and related to a byte-level specification. *)

From S2P Require Import Prelude Machine.

Section StringC.
Context {PLAT : Platform}.

(* ------------------------------------------------------------------ *)
(** * The code *)

Definition memcpy (dest src len : Z) : K Z :=
  ds <- (if Z.land (Z.lor dest src) 7 =? 0
         then kwhile (fun '(d, p) =>
                if d <? dest + len - 7
                then v <- ld64 p ;; st64 d v ;;; ret (inl (d + 8, p + 8))
                else ret (inr (d, p))) (dest, src)
         else ret (dest, src)) ;;
  kwhile (fun '(d, p) =>
    if d <? dest + len then v <- ld8 p ;; st8 d v ;;; ret (inl (d + 1, p + 1))
    else ret (inr tt)) ds ;;;
  ret dest.

(** the word [memset] stores: the byte repeated eight times *)
Definition memset_word (byte : Z) : Z :=
  let w0 := Z.land byte 0xFF in
  let w1 := Z.lor w0 (Z.shiftl w0 8) in
  let w2 := Z.lor w1 (Z.shiftl w1 16) in
  Z.lor w2 (Z.shiftl (Z.shiftl w2 16) 16).

Definition memset (dest byte len : Z) : K Z :=
  (if Z.land (Z.lor dest len) 7 =? 0
   then kwhile (fun d => if d <? dest + len
                         then st64 d (memset_word byte) ;;; ret (inl (d + 8))
                         else ret (inr tt)) dest
   else kwhile (fun d => if d <? dest + len
                         then st8 d byte ;;; ret (inl (d + 1))
                         else ret (inr tt)) dest) ;;;
  ret dest.

(** strlen and strcmp run in supervisor mode ([ld8]) and, during boot, in machine
    mode ([mld8]): [ld] is the byte load of the mode. *)
Definition strlen_by (ld : Z -> K Z) (s : Z) : K Z :=
  kwhile (fun p => c <- ld p ;; if c =? 0 then ret (inr (p - s)) else ret (inl (p + 1))) s.
Definition strlen : Z -> K Z := strlen_by ld8.

Definition strcmp_by (ld : Z -> K Z) (s1 s2 : Z) : K Z :=
  kwhile (fun '(p1, p2) =>
    c1 <- ld p1 ;; c2 <- ld p2 ;;
    if negb (c1 =? 0) && (c1 =? c2) then ret (inl (p1 + 1, p2 + 1))
    else ret (inr (c1 - c2))) (s1, s2).
Definition strcmp : Z -> Z -> K Z := strcmp_by ld8.

Definition strcpy (dest src : Z) : K Z :=
  kwhile (fun '(d, p) =>
    c <- ld8 p ;; st8 d c ;;;
    if c =? 0 then ret (inr tt) else ret (inl (d + 1, p + 1))) (dest, src) ;;;
  ret dest.

Definition strchr (s c : Z) : K Z :=
  kwhile (fun p => x <- ld8 p ;;
    if x =? 0 then ret (inr 0)
    else if x =? c then ret (inr p) else ret (inl (p + 1))) s.

Definition strcat (dst src : Z) : K Z :=
  n <- strlen dst ;; strcpy (dst + n) src ;;; ret dst.

Definition atol (str : Z) : K Z :=
  str1 <- kwhile (fun p => c <- ld8 p ;;
            if c =? 32 then ret (inl (p + 1)) else ret (inr p)) str ;;
  c <- ld8 str1 ;;
  let sign := c =? 45 in
  let str2 := if (c =? 45) || (c =? 43) then str1 + 1 else str1 in
  res <- kwhile (fun '(p, r) => c <- ld8 p ;;
           if c =? 0 then ret (inr r)
           else ret (inl (p + 1, s64 (s64 (r * 10) + (c - 48))))) (str2, 0) ;;
  ret (if sign then s64 (- res) else res).

Definition memmove (dst src n : Z) : K Z :=
  (if (src <? dst) && (dst <? src + n)
   then kwhile (fun '(d, p, k) =>
          if 0 <? k then v <- ld8 (p - 1) ;; st8 (d - 1) v ;;; ret (inl (d - 1, p - 1, k - 1))
          else ret (inr tt)) (dst + n, src + n, n)
   else kwhile (fun '(d, p, k) =>
          if 0 <? k then v <- ld8 p ;; st8 d v ;;; ret (inl (d + 1, p + 1, k - 1))
          else ret (inr tt)) (dst, src, n)) ;;;
  ret dst.

Definition safestrcpy (s t n : Z) : K Z :=
  if n <=? 0 then ret s
  else
    e <- kwhile (fun '(d, p, k) =>
           if 0 <? k - 1
           then c <- ld8 p ;; st8 d c ;;;
                if negb (c =? 0) then ret (inl (d + 1, p + 1, k - 1)) else ret (inr (d + 1))
           else ret (inr d)) (s, t, n) ;;
    st8 e 0 ;;;
    ret s.

(* ------------------------------------------------------------------ *)
(** * Bytes and words *)

Definition region_ok (a n : Z) : Prop := 0 <= n /\ DRAM_BASE <= a /\ a + n <= PHYS_TOP.

Lemma addr_ok_1 a n i : region_ok a n -> 0 <= i < n -> addr_ok 1 (a + i) = true.
Proof.
  intros (?&?&?) ?. unfold addr_ok. rewrite !andb_true_iff, !Z.leb_le, Z.eqb_eq.
  rewrite Z.mod_1_r. lia.
Qed.
Lemma addr_ok_8 a n i :
  region_ok a n -> a mod 8 = 0 -> 0 <= i -> i + 8 <= n -> i mod 8 = 0 -> addr_ok 8 (a + i) = true.
Proof.
  intros (?&?&?) ? ? ? ?. unfold addr_ok. rewrite !andb_true_iff, !Z.leb_le, Z.eqb_eq.
  split_and!; [lia..|dlia].
Qed.

Lemma load8_range m a : 0 <= load8 m a < 256.
Proof. apply (get_field_range _ _ 8). lia. Qed.
Lemma load8_store8 m a b v :
  load8 (store8 m a v) b = if decide (a = b) then v mod 256 else load8 m b.
Proof.
  unfold load8, store8. case_decide as E.
  - subst. apply (loadn_storen_eq 8). apply field_ok_8.
  - apply loadn_storen_ne; try apply field_ok_8. unfold bit_off. dlia.
Qed.
Lemma load8_word m a b :
  a mod 8 = 0 -> a <= b < a + 8 -> load8 m b = get_field (load64 m a) (8 * (b - a)) 8.
Proof.
  intros. unfold load8, loadn, bit_off, load64.
  replace (b / 8) with (a / 8) by dlia. by replace (b mod 8) with (b - a) by dlia.
Qed.
Lemma load8_store64 m a b v :
  a mod 8 = 0 ->
  load8 (store64 m a v) b =
  if decide (a <= b < a + 8) then get_field v (8 * (b - a)) 8 else load8 m b.
Proof.
  intros. case_decide as E.
  - rewrite (load8_word _ a) by done. rewrite load64_store64_eq. apply get_field_u64; lia.
  - apply loadn_store64_ne. dlia.
Qed.

(** a word is its eight bytes *)
Lemma load64_bytes m m' a b :
  a mod 8 = 0 -> b mod 8 = 0 ->
  (forall i, 0 <= i < 8 -> load8 m (a + i) = load8 m' (b + i)) ->
  load64 m a = load64 m' b.
Proof.
  intros Ha Hb H. apply Z.bits_inj'. intros k Hk.
  destruct (Z.lt_ge_cases k 64) as [Hlt|Hge].
  2:{ pose proof (load64_range m a). pose proof (load64_range m' b).
      unfold load64, u64. by rewrite !Z.mod_pow2_bits_high by lia. }
  specialize (H (k / 8) ltac:(dlia)).
  rewrite (load8_word _ a), (load8_word _ b) in H by dlia.
  apply (f_equal (fun z => Z.testbit z (k mod 8))) in H.
  rewrite !get_field_testbit in H by dlia.
  rewrite (proj2 (Z.ltb_lt _ _)) in H by dlia. simpl in H.
  replace (k mod 8 + 8 * (a + k / 8 - a)) with k in H by dlia.
  by replace (k mod 8 + 8 * (b + k / 8 - b)) with k in H by dlia.
Qed.
(** a 32-bit field is its four bytes *)
Lemma load32_bytes m m' a b :
  a mod 4 = 0 -> b mod 4 = 0 -> (forall i, 0 <= i < 4 -> load8 m (a + i) = load8 m' (b + i)) -> load32 m a = load32 m' b.
Proof.
  intros Ha Hb H. apply Z.bits_inj'. intros k Hk. unfold load32, loadn. rewrite !get_field_testbit by (pose proof (bit_off_range a); pose proof (bit_off_range b); lia).
  destruct (Z.ltb_spec k 32) as [Hlt|]; [|done]. specialize (H (k / 8) ltac:(dlia)). unfold load8, loadn in H.
  apply (f_equal (fun z => Z.testbit z (k mod 8))) in H.
  rewrite !get_field_testbit in H by (try dlia; apply bit_off_range). rewrite (proj2 (Z.ltb_lt _ _)) in H by dlia. cbn [andb] in *.
  rewrite (load64_align m (a + k / 8)), (load64_align m' (b + k / 8)) in H.
  rewrite (load64_align m a), (load64_align m' b). unfold bit_off in *.
  replace (8 * ((a + k / 8) / 8)) with (8 * (a / 8)) in H by dlia. replace (8 * ((b + k / 8) / 8)) with (8 * (b / 8)) in H by dlia.
  replace (k mod 8 + 8 * ((a + k / 8) mod 8)) with (k + 8 * (a mod 8)) in H by dlia.
  by replace (k mod 8 + 8 * ((b + k / 8) mod 8)) with (k + 8 * (b mod 8)) in H by dlia.
Qed.

(** checked on all 256 bytes and 8 positions *)
Lemma memset_word_table :
  forallb (fun v => forallb (fun i =>
    get_field (memset_word (Z.of_nat v)) (8 * Z.of_nat i) 8 =? Z.of_nat v) (seq 0 8)) (seq 0 256) = true.
Proof. by vm_compute. Qed.
Lemma memset_word_byte b i :
  0 <= i < 8 -> get_field (memset_word b) (8 * i) 8 = b mod 256.
Proof.
  intros Hi. pose proof (Z.mod_pos_bound b 256 ltac:(lia)) as Hb.
  assert (E : memset_word b = memset_word (b mod 256)).
  { unfold memset_word. change 0xFF with (Z.ones 8). rewrite !Z.land_ones by lia.
    change (2 ^ 8) with 256. by rewrite Zmod_mod. }
  rewrite E. generalize dependent (b mod 256). intros v Hv _.
  pose proof memset_word_table as Ht. rewrite forallb_forall in Ht.
  specialize (Ht (Z.to_nat v)). rewrite forallb_forall in Ht.
  specialize (Ht ltac:(apply in_seq; lia) (Z.to_nat i) ltac:(apply in_seq; lia)).
  rewrite !Z2Nat.id in Ht by lia. by apply Z.eqb_eq.
Qed.

(* ------------------------------------------------------------------ *)
(** * memset and memcpy *)

Definition filled (m0 m : gmap Z Z) (dest k byte : Z) : Prop :=
  forall a, load8 m a = if decide (dest <= a < dest + k) then byte mod 256 else load8 m0 a.
Definition copied (m0 m : gmap Z Z) (dest src k : Z) : Prop :=
  forall a, load8 m a = if decide (dest <= a < dest + k) then load8 m0 (src + (a - dest))
                        else load8 m0 a.

Lemma land_7 a b : (Z.land (Z.lor a b) 7 =? 0) = true -> a mod 8 = 0 /\ b mod 8 = 0.
Proof.
  intros H%Z.eqb_eq. change 7 with (Z.ones 3) in H.
  assert (Hb : forall i, 0 <= i < 3 -> Z.testbit a i = false /\ Z.testbit b i = false).
  { intros i Hi. apply (f_equal (fun z => Z.testbit z i)) in H.
    rewrite Z.land_spec, Z.lor_spec, ones_testbit, (proj2 (Z.ltb_lt _ _)), Z.bits_0 in H by lia.
    rewrite andb_true_r in H. by apply orb_false_iff in H. }
  change 8 with (2 ^ 3). rewrite <- !Z.land_ones by lia.
  split; apply Z.bits_inj'; intros i Hi; rewrite Z.land_spec, ones_testbit, Z.bits_0 by lia;
    (destruct (Z.ltb_spec i 3); [|by rewrite andb_false_r]);
    by rewrite (proj1 (Hb i ltac:(lia))) || rewrite (proj2 (Hb i ltac:(lia))).
Qed.

(** one step of the byte and word loops *)
Lemma filled_byte m0 m dest k byte :
  filled m0 m dest k byte -> 0 <= k -> filled m0 (store8 m (dest + k) byte) dest (k + 1) byte.
Proof.
  intros H Hk a. rewrite load8_store8, H. repeat case_decide; lia || done.
Qed.
Lemma filled_word m0 m dest k byte :
  filled m0 m dest k byte -> 0 <= k -> (dest + k) mod 8 = 0 ->
  filled m0 (store64 m (dest + k) (memset_word byte)) dest (k + 8) byte.
Proof.
  intros H Hk Ha a. rewrite load8_store64, H by done. repeat case_decide; try lia; try done.
  by rewrite memset_word_byte by lia.
Qed.
Lemma copied_byte m0 m dest src k n :
  copied m0 m dest src k -> 0 <= k < n ->
  (src + n <= dest \/ dest + n <= src) ->
  copied m0 (store8 m (dest + k) (load8 m (src + k))) dest src (k + 1).
Proof.
  intros H Hk Hd a. rewrite load8_store8, !H.
  rewrite (decide_False (P := dest <= src + k < dest + k)) by lia.
  repeat case_decide; subst; try lia; try done.
  rewrite Z.mod_small by apply load8_range. f_equal. lia.
Qed.
Lemma copied_word m0 m dest src k n :
  copied m0 m dest src k -> 0 <= k -> k + 8 <= n ->
  (src + n <= dest \/ dest + n <= src) -> (dest + k) mod 8 = 0 -> (src + k) mod 8 = 0 ->
  copied m0 (store64 m (dest + k) (load64 m (src + k))) dest src (k + 8).
Proof.
  intros H Hk Hn Hd Ha Hb a. rewrite load8_store64, H by done.
  repeat case_decide; try lia; try done.
  transitivity (load8 m (src + (a - dest))).
  - rewrite (load8_word m (src + k)) by lia. f_equal. lia.
  - rewrite H. rewrite decide_False by lia. done.
Qed.

(** [while (d < dest + len) ...] fills the rest of the region *)
Lemma memset_bytes_loop s dest byte len :
  region_ok dest len ->
  exists m, kwhile (fun d => if d <? dest + len
                             then st8 d byte ;;; ret (inl (d + 1)) else ret (inr tt)) dest s
            = Ok tt (set_k_mem m s) /\ filled (k_mem s) m dest len byte.
Proof.
  intros Hr. apply (kwhile_rule
    (fun d s2 => exists k m, d = dest + k /\ 0 <= k <= len /\ s2 = set_k_mem m s /\
       filled (k_mem s) m dest k byte) (fun d => dest + len - d)
    (fun o => exists m, o = Ok tt (set_k_mem m s) /\ filled (k_mem s) m dest len byte)).
  - exists 0, (k_mem s). split_and!; [lia|lia|apply Hr|by destruct s|].
    intros a. by rewrite decide_False by lia.
  - destruct Hr as (?&?&?). unfold PHYS_TOP, PKE_MAX_ALLOWABLE_RAM, DRAM_BASE in *. lia.
  - intros d s2 (k & m & -> & Hk & -> & Hf).
    destruct (Z.ltb_spec (dest + k) (dest + len)); simpl.
    + unfold st8, bind. rewrite (addr_ok_1 dest len) by (done || lia). simpl. split; [|lia].
      exists (k + 1). eexists. split_and!; [lia..|done|]. apply filled_byte; [done|lia].
    + exists m. split; [done|]. by replace len with k by lia.
Qed.
Lemma memset_words_loop s dest byte len :
  region_ok dest len -> dest mod 8 = 0 -> len mod 8 = 0 ->
  exists m, kwhile (fun d => if d <? dest + len
                             then st64 d (memset_word byte) ;;; ret (inl (d + 8))
                             else ret (inr tt)) dest s
            = Ok tt (set_k_mem m s) /\ filled (k_mem s) m dest len byte.
Proof.
  intros Hr Ha Hl. apply (kwhile_rule
    (fun d s2 => exists k m, d = dest + k /\ 0 <= k <= len /\ k mod 8 = 0 /\
       s2 = set_k_mem m s /\ filled (k_mem s) m dest k byte) (fun d => dest + len - d)
    (fun o => exists m, o = Ok tt (set_k_mem m s) /\ filled (k_mem s) m dest len byte)).
  - exists 0, (k_mem s). split_and!; [lia|lia|apply Hr|done|by destruct s|].
    intros a. by rewrite decide_False by lia.
  - destruct Hr as (?&?&?). unfold PHYS_TOP, PKE_MAX_ALLOWABLE_RAM, DRAM_BASE in *. lia.
  - intros d s2 (k & m & -> & Hk & Hk8 & -> & Hf).
    destruct (Z.ltb_spec (dest + k) (dest + len)); simpl.
    + unfold st64, bind. rewrite (addr_ok_8 dest len) by (done || dlia). simpl. split; [|dlia].
      exists (k + 8). eexists. split_and!; [dlia..|done|]. apply filled_word; [done|lia|dlia].
    + exists m. split; [done|]. by replace len with k by lia.
Qed.

(** [memset] fills the region, whichever loop it takes. *)
Lemma memset_spec s dest byte len :
  region_ok dest len ->
  exists m, memset dest byte len s = Ok dest (set_k_mem m s) /\ filled (k_mem s) m dest len byte.
Proof.
  intros Hr. unfold memset. destruct (Z.land (Z.lor dest len) 7 =? 0) eqn:E.
  - apply land_7 in E as [Ha Hl]. destruct (memset_words_loop s dest byte len) as (m & E & Hf); [done..|].
    exists m. by rewrite (bind_Ok _ _ _ _ _ E).
  - destruct (memset_bytes_loop s dest byte len) as (m & E2 & Hf); [done..|].
    exists m. by rewrite (bind_Ok _ _ _ _ _ E2).
Qed.

(** the two loops of [memcpy], from any prefix already copied *)
Lemma memcpy_bytes_loop s dest src len k m :
  region_ok dest len -> region_ok src len -> (src + len <= dest \/ dest + len <= src) ->
  0 <= k <= len -> copied (k_mem s) m dest src k ->
  exists m', kwhile (fun '(d, p) =>
      if d <? dest + len then v <- ld8 p ;; st8 d v ;;; ret (inl (d + 1, p + 1))
      else ret (inr tt)) (dest + k, src + k) (set_k_mem m s)
    = Ok tt (set_k_mem m' s) /\ copied (k_mem s) m' dest src len.
Proof.
  intros Hd Hs Hdisj Hk0 Hc0. apply (kwhile_rule
    (fun dp s2 => exists k m, dp = (dest + k, src + k) /\ 0 <= k <= len /\
       s2 = set_k_mem m s /\ copied (k_mem s) m dest src k) (fun dp => dest + len - dp.1)
    (fun o => exists m, o = Ok tt (set_k_mem m s) /\ copied (k_mem s) m dest src len)).
  - by exists k, m.
  - destruct Hd as (?&?&?). unfold PHYS_TOP, PKE_MAX_ALLOWABLE_RAM, DRAM_BASE in *. simpl. lia.
  - clear k m Hk0 Hc0. intros dp s2 (k & m & -> & Hk & -> & Hc).
    destruct (Z.ltb_spec (dest + k) (dest + len)); simpl.
    + unfold ld8, st8, bind. rewrite (addr_ok_1 src len), (addr_ok_1 dest len) by (done || lia).
      simpl. split; [|lia]. exists (k + 1). eexists.
      split_and!; [pair_lia|lia..|done|]. apply (copied_byte _ _ _ _ _ len); try done; lia.
    + exists m. split; [done|]. by replace len with k by lia.
Qed.
Lemma memcpy_words_loop s dest src len :
  region_ok dest len -> region_ok src len -> (src + len <= dest \/ dest + len <= src) ->
  dest mod 8 = 0 -> src mod 8 = 0 ->
  exists k m, kwhile (fun '(d, p) =>
      if d <? dest + len - 7 then v <- ld64 p ;; st64 d v ;;; ret (inl (d + 8, p + 8))
      else ret (inr (d, p))) (dest, src) s
    = Ok (dest + k, src + k) (set_k_mem m s) /\ 0 <= k <= len /\ copied (k_mem s) m dest src k.
Proof.
  intros Hd Hs Hdisj Ha Hb. apply (kwhile_rule
    (fun dp s2 => exists k m, dp = (dest + k, src + k) /\ 0 <= k <= len /\ k mod 8 = 0 /\
       s2 = set_k_mem m s /\ copied (k_mem s) m dest src k) (fun dp => dest + len - dp.1)
    (fun o => exists k m, o = Ok (dest + k, src + k) (set_k_mem m s) /\ 0 <= k <= len /\
       copied (k_mem s) m dest src k)).
  - exists 0, (k_mem s). split_and!; [f_equal; lia|lia|apply Hd|done|by destruct s|].
    intros a. by rewrite decide_False by lia.
  - destruct Hd as (?&?&?). unfold PHYS_TOP, PKE_MAX_ALLOWABLE_RAM, DRAM_BASE in *. simpl. lia.
  - intros dp s2 (k & m & -> & Hk & Hk8 & -> & Hc).
    destruct (Z.ltb_spec (dest + k) (dest + len - 7)); simpl.
    + unfold ld64, st64, bind. rewrite (addr_ok_8 src len), (addr_ok_8 dest len) by (done || dlia).
      simpl. split; [|dlia]. exists (k + 8). eexists.
      split_and!; [f_equal; lia|dlia..|done|]. apply (copied_word _ _ _ _ _ len); try done; dlia.
    + by exists k, m.
Qed.

(** [memcpy] between disjoint regions copies every byte, whatever the alignment. *)
Lemma memcpy_spec s dest src len :
  region_ok dest len -> region_ok src len -> (src + len <= dest \/ dest + len <= src) ->
  exists m, memcpy dest src len s = Ok dest (set_k_mem m s) /\ copied (k_mem s) m dest src len.
Proof.
  intros Hd Hs Hdisj. unfold memcpy.
  assert (H : exists k m, (if Z.land (Z.lor dest src) 7 =? 0
         then kwhile (fun '(d, p) =>
                if d <? dest + len - 7
                then v <- ld64 p ;; st64 d v ;;; ret (inl (d + 8, p + 8))
                else ret (inr (d, p))) (dest, src)
         else ret (dest, src)) s = Ok (dest + k, src + k) (set_k_mem m s) /\
         0 <= k <= len /\ copied (k_mem s) m dest src k).
  { destruct (Z.land (Z.lor dest src) 7 =? 0) eqn:E.
    - apply land_7 in E as [Ha Hb]. by apply memcpy_words_loop.
    - exists 0, (k_mem s). rewrite !Z.add_0_r. split_and!; [by destruct s|lia|apply Hd|].
      intros a. by rewrite decide_False by lia. }
  destruct H as (k & m & E & Hk & Hc). rewrite (bind_Ok _ _ _ _ _ E).
  destruct (memcpy_bytes_loop s dest src len k m) as (m' & E' & Hc'); [done..|].
  exists m'. by rewrite (bind_Ok _ _ _ _ _ E').
Qed.

(** ** On pages *)

Lemma page_ok_region p : page_ok p -> region_ok p PGSIZE.
Proof. unfold page_ok, region_ok, PGSIZE. lia. Qed.

(** bytes outside a page unchanged, hence words outside it unchanged *)
Lemma bytes_outside_page m m' p :
  p mod PGSIZE = 0 -> (forall a, ~ (p <= a < p + PGSIZE) -> load8 m' a = load8 m a) ->
  same_outside {[p]} m m'.
Proof.
  intros Hp H a Ha. rewrite (load64_align m'), (load64_align m).
  assert (~ (p <= a < p + PGSIZE)) by (rewrite <- page_of_iff by done; set_solver).
  unfold PGSIZE in *. apply load64_bytes; [dlia..|]. intros i Hi. apply H. dlia.
Qed.

(** [memset(p, 0, PGSIZE)] *)
Lemma memset_page s p :
  page_ok p ->
  exists m, memset p 0 PGSIZE s = Ok p (set_k_mem m s) /\
    same_outside {[p]} (k_mem s) m /\ (forall i, 0 <= i < 512 -> load64 m (p + 8 * i) = 0).
Proof.
  intros Hp. destruct (memset_spec s p 0 PGSIZE (page_ok_region _ Hp)) as (m & E & Hf).
  exists m. split; [done|]. destruct Hp as (Ha&_). split.
  - apply bytes_outside_page; [done|]. intros a Hn. rewrite Hf. by rewrite decide_False.
  - unfold PGSIZE in *. intros i Hi. rewrite <- (u64_small 0) by done.
    change (u64 0) with (load64 ∅ 0). apply load64_bytes; [dlia|done|].
    intros j Hj. rewrite Hf, decide_True by lia. unfold load8, loadn, load64, get_field.
    rewrite lookup_empty. change (u64 (default 0 None)) with 0. by rewrite Z.shiftr_0_l.
Qed.

(** [memcpy(dst, src, PGSIZE)] between two pages *)
Lemma memcpy_page s dst src :
  page_ok dst -> page_ok src -> dst <> src ->
  exists m, memcpy dst src PGSIZE s = Ok dst (set_k_mem m s) /\
    same_outside {[dst]} (k_mem s) m /\
    (forall i, 0 <= i < 512 -> load64 m (dst + 8 * i) = load64 (k_mem s) (src + 8 * i)).
Proof.
  intros Hd Hs Hne. assert (Hdj : src + PGSIZE <= dst \/ dst + PGSIZE <= src).
  { destruct Hd as (?&_), Hs as (?&_). unfold PGSIZE in *. dlia. }
  destruct (memcpy_spec s dst src PGSIZE) as (m & E & Hc); [by apply page_ok_region..|done|].
  exists m. split; [done|]. destruct Hd as (Ha&_), Hs as (Hb&_). split.
  - apply bytes_outside_page; [done|]. intros a Hn. rewrite Hc. by rewrite decide_False.
  - unfold PGSIZE in *. intros i Hi. apply load64_bytes; [dlia..|].
    intros j Hj. rewrite Hc, decide_True by lia. f_equal. lia.
Qed.

(* ------------------------------------------------------------------ *)
(** * NUL-terminated strings *)

(** the bytes [l], none of them NUL, then a NUL, at [p] *)
Definition cstr (m : gmap Z Z) (p : Z) (l : list Z) : Prop :=
  (forall (i : nat) c, l !! i = Some c -> c <> 0 /\ load8 m (p + Z.of_nat i) = c) /\
  load8 m (p + Z.of_nat (length l)) = 0.
Definition cstr_at (m : gmap Z Z) (p : Z) (l : list Z) : Prop :=
  cstr m p l /\ region_ok p (Z.of_nat (length l) + 1).

(** the load [ld] reads the string [l] from [p] *)
Definition reads (ld : Z -> K Z) (s : kstate) (p : Z) (l : list Z) : Prop :=
  Z.of_nat (length l) < 2 ^ 64 /\
  forall i : nat, (i <= length l)%nat ->
    ld (p + Z.of_nat i) s = Ok (default 0 (l !! i)) s /\ (default 0 (l !! i) = 0 <-> i = length l).
Lemma cstr_byte m p l (i : nat) :
  cstr m p l -> (i <= length l)%nat ->
  load8 m (p + Z.of_nat i) = default 0 (l !! i) /\ (default 0 (l !! i) = 0 <-> i = length l).
Proof.
  intros [Hc H0] Hi. destruct (l !! i) as [c|] eqn:E; simpl.
  - destruct (Hc i c E) as [? ->]. apply lookup_lt_Some in E. split; [done|]. split; [done|lia].
  - apply lookup_ge_None in E. assert (i = length l) as -> by lia. by rewrite H0.
Qed.
Lemma cstr_at_ld8 s p l (i : nat) :
  cstr_at (k_mem s) p l -> (i <= length l)%nat ->
  ld8 (p + Z.of_nat i) s = Ok (default 0 (l !! i)) s /\
  (default 0 (l !! i) = 0 <-> i = length l).
Proof.
  intros [Hc Hr] Hi. unfold ld8. rewrite (addr_ok_1 p (Z.of_nat (length l) + 1)) by (done || lia).
  destruct (cstr_byte _ _ _ i Hc Hi) as [-> ?]. done.
Qed.
Lemma region_measure p n : region_ok p n -> 0 <= n < 2 ^ 64.
Proof. intros (?&?&?). unfold PHYS_TOP, PKE_MAX_ALLOWABLE_RAM, DRAM_BASE in *. lia. Qed.

Lemma cstr_at_reads s p l : cstr_at (k_mem s) p l -> reads ld8 s p l.
Proof.
  intros Hc. split; [pose proof (region_measure _ _ (proj2 Hc)); lia|]. intros i. by apply cstr_at_ld8.
Qed.

Lemma strlen_by_spec ld s p l : reads ld s p l -> strlen_by ld p s = Ok (Z.of_nat (length l)) s.
Proof.
  intros [Hm Hc]. unfold strlen_by.
  apply (kwhile_rule (fun q s2 => s2 = s /\ exists i : nat, (i <= length l)%nat /\ q = p + Z.of_nat i)
    (fun q => p + Z.of_nat (length l) - q) (fun o => o = Ok (Z.of_nat (length l)) s)).
  - split; [done|]. exists 0%nat. split; lia.
  - lia.
  - intros q s2 (-> & i & Hi & ->). destruct (Hc i Hi) as [E Hz].
    rewrite (bind_Ok _ _ _ _ _ E). destruct (Z.eqb_spec (default 0 (l !! i)) 0) as [Ez|Ez]; simpl.
    + apply Hz in Ez as ->. f_equal. lia.
    + rewrite Hz in Ez. split; [|lia]. split; [done|]. exists (S i). split; lia.
Qed.
Lemma strlen_spec s p l :
  cstr_at (k_mem s) p l -> strlen p s = Ok (Z.of_nat (length l)) s.
Proof. intros Hc. by apply strlen_by_spec, cstr_at_reads. Qed.

(** what [strcmp] computes: the difference at the first mismatch *)
Fixpoint strcmp_ref (l1 l2 : list Z) : Z :=
  match l1, l2 with
  | [], [] => 0
  | c1 :: _, [] => c1
  | [], c2 :: _ => - c2
  | c1 :: l1', c2 :: l2' => if c1 =? c2 then strcmp_ref l1' l2' else c1 - c2
  end.
Lemma strcmp_ref_step l1 l2 (i : nat) c :
  l1 !! i = Some c -> l2 !! i = Some c ->
  strcmp_ref (drop i l1) (drop i l2) = strcmp_ref (drop (S i) l1) (drop (S i) l2).
Proof.
  intros E1 E2. rewrite (drop_S l1 c i), (drop_S l2 c i) by done. simpl. by rewrite Z.eqb_refl.
Qed.
Lemma strcmp_ref_zero l1 l2 :
  Forall (.≠ 0) l1 -> Forall (.≠ 0) l2 -> strcmp_ref l1 l2 = 0 <-> l1 = l2.
Proof.
  intros H1. revert l2. induction H1 as [|c1 l1 Hc1 H1 IH]; intros [|c2 l2] H2; simpl.
  - done.
  - inversion H2; subst. split; [lia|done].
  - split; [lia|done].
  - inversion H2; subst. destruct (Z.eqb_spec c1 c2) as [->|].
    + rewrite IH by done. split; congruence.
    + split; [lia|congruence].
Qed.
Lemma cstr_nonzero m p l : cstr m p l -> Forall (.≠ 0) l.
Proof. intros [H _]. apply Forall_lookup. intros i c E. by apply (H i). Qed.

Lemma strcmp_ref_end l1 l2 (i : nat) :
  (i <= length l1)%nat -> (i <= length l2)%nat ->
  (default 0 (l1 !! i) = 0 \/ default 0 (l1 !! i) <> default 0 (l2 !! i)) ->
  (default 0 (l1 !! i) = 0 <-> i = length l1) -> (default 0 (l2 !! i) = 0 <-> i = length l2) ->
  strcmp_ref (drop i l1) (drop i l2) = default 0 (l1 !! i) - default 0 (l2 !! i).
Proof.
  intros H1 H2 Hd Hz1 Hz2.
  destruct (l1 !! i) as [c1|] eqn:E1, (l2 !! i) as [c2|] eqn:E2; simpl in *.
  - rewrite (drop_S l1 c1 i), (drop_S l2 c2 i) by done. simpl.
    apply lookup_lt_Some in E1. destruct (Z.eqb_spec c1 c2); lia.
  - rewrite (drop_S l1 c1 i) by done. apply lookup_ge_None in E2.
    rewrite (drop_ge l2) by lia. simpl. lia.
  - rewrite (drop_S l2 c2 i) by done. apply lookup_ge_None in E1.
    rewrite (drop_ge l1) by lia. simpl. lia.
  - apply lookup_ge_None in E1, E2. by rewrite !drop_ge by lia.
Qed.

Lemma strcmp_by_spec ld s p1 p2 l1 l2 :
  reads ld s p1 l1 -> reads ld s p2 l2 -> strcmp_by ld p1 p2 s = Ok (strcmp_ref l1 l2) s.
Proof.
  intros [Hm Hc1] [_ Hc2]. unfold strcmp_by.
  apply (kwhile_rule (fun q s2 => s2 = s /\ exists i : nat, (i <= length l1)%nat /\ (i <= length l2)%nat /\
      q = (p1 + Z.of_nat i, p2 + Z.of_nat i) /\ strcmp_ref (drop i l1) (drop i l2) = strcmp_ref l1 l2)
    (fun q => p1 + Z.of_nat (length l1) - q.1) (fun o => o = Ok (strcmp_ref l1 l2) s)).
  - split; [done|]. exists 0%nat. rewrite !drop_0, !Z.add_0_r. split_and!; done || lia.
  - simpl. lia.
  - intros q s2 (-> & i & Hi1 & Hi2 & -> & Hr).
    destruct (Hc1 i Hi1) as [E1 Hz1], (Hc2 i Hi2) as [E2 Hz2].
    rewrite (bind_Ok _ _ _ _ _ E1), (bind_Ok _ _ _ _ _ E2).
    destruct (Z.eqb_spec (default 0 (l1 !! i)) 0) as [Ez|Ez]; simpl.
    { rewrite <- Hr. f_equal. rewrite strcmp_ref_end; auto. }
    destruct (Z.eqb_spec (default 0 (l1 !! i)) (default 0 (l2 !! i))) as [Ee|Ee]; simpl.
    2:{ rewrite <- Hr. f_equal. rewrite strcmp_ref_end; auto. }
    assert (i < length l1)%nat as Hl1 by (rewrite Hz1 in Ez; lia).
    assert (i < length l2)%nat as Hl2 by (rewrite Ee, Hz2 in Ez; lia).
    split; [|lia]. split; [done|]. exists (S i). split_and!; [lia..|f_equal; lia|].
    destruct (lookup_lt_is_Some_2 l1 i Hl1) as [c1 L1], (lookup_lt_is_Some_2 l2 i Hl2) as [c2 L2].
    rewrite L1, L2 in Ee. simpl in Ee. subst. by rewrite <- (strcmp_ref_step l1 l2 i c2).
Qed.
Lemma strcmp_spec s p1 p2 l1 l2 :
  cstr_at (k_mem s) p1 l1 -> cstr_at (k_mem s) p2 l2 ->
  strcmp p1 p2 s = Ok (strcmp_ref l1 l2) s.
Proof. intros. by apply strcmp_by_spec; apply cstr_at_reads. Qed.

Lemma copied_cstr m0 m dest src l :
  copied m0 m dest src (Z.of_nat (length l) + 1) -> cstr m0 src l -> cstr m dest l.
Proof.
  intros Hc [Hs H0]. split.
  - intros i c E. destruct (Hs i c E) as [? <-]. split; [done|].
    apply lookup_lt_Some in E. rewrite Hc, decide_True by lia. f_equal. lia.
  - rewrite Hc, decide_True by lia. rewrite <- H0. f_equal. lia.
Qed.

(** [strcpy] copies the string and its terminator. *)
Lemma strcpy_spec s dest src l :
  let n := Z.of_nat (length l) + 1 in
  cstr_at (k_mem s) src l -> region_ok dest n -> (src + n <= dest \/ dest + n <= src) ->
  exists m, strcpy dest src s = Ok dest (set_k_mem m s) /\ copied (k_mem s) m dest src n.
Proof.
  intros n Hs Hd Hdisj. unfold strcpy.
  match goal with |- context [kwhile ?b ?x] => set (body := b); set (x0 := x) end.
  enough (exists m, kwhile body x0 s = Ok tt (set_k_mem m s) /\ copied (k_mem s) m dest src n)
    as (m & E & Hc) by (exists m; by rewrite (bind_Ok _ _ _ _ _ E)).
  pose proof (region_measure _ _ Hd).
  apply (kwhile_rule (fun q s2 => exists (i : nat) m, (i <= length l)%nat /\
      q = (dest + Z.of_nat i, src + Z.of_nat i) /\ s2 = set_k_mem m s /\
      copied (k_mem s) m dest src (Z.of_nat i)) (fun q => dest + n - q.1)
    (fun o => exists m, o = Ok tt (set_k_mem m s) /\ copied (k_mem s) m dest src n)).
  - exists 0%nat, (k_mem s). rewrite !Z.add_0_r. split_and!; [lia|done|by destruct s|].
    intros a. by rewrite decide_False by lia.
  - simpl. lia.
  - intros q s2 (i & m & Hi & -> & -> & Hc).
    destruct (cstr_at_ld8 s src l i Hs Hi) as [E Hz]. unfold body, ld8, st8, bind in *.
    rewrite (addr_ok_1 src n), (addr_ok_1 dest n) in * by (apply Hs || done || lia). simpl.
    assert (Hl : load8 m (src + Z.of_nat i) = load8 (k_mem s) (src + Z.of_nat i))
      by (rewrite Hc; apply decide_False; lia).
    rewrite Hl. simplify_eq/=. pose proof (copied_byte _ _ _ _ _ n Hc ltac:(lia) Hdisj) as Hc'.
    rewrite Hl in Hc'. destruct (Z.eqb_spec (load8 (k_mem s) (src + Z.of_nat i)) 0) as [Ez|Ez]; simpl.
    + eexists. split; [done|]. rewrite E, Hz in Ez. subst. done.
    + rewrite E, Hz in Ez. split; [|lia]. exists (S i). eexists.
      split_and!; [lia|pair_lia|done|]. by rewrite Nat2Z.inj_succ.
Qed.

(** the two loops of [memmove]: from the end when the destination overlaps the
    tail of the source, from the start otherwise *)
Lemma memmove_backward s dst src n :
  region_ok dst n -> region_ok src n -> src < dst ->
  exists m, kwhile (fun '(d, p, k) =>
      if 0 <? k then v <- ld8 (p - 1) ;; st8 (d - 1) v ;;; ret (inl (d - 1, p - 1, k - 1))
      else ret (inr tt)) (dst + n, src + n, n) s
    = Ok tt (set_k_mem m s) /\ copied (k_mem s) m dst src n.
Proof.
  intros Hd Hs Hlt. pose proof (region_measure _ _ Hd).
  apply (kwhile_rule (fun q s2 => exists k m, q = (dst + k, src + k, k) /\ 0 <= k <= n /\
    s2 = set_k_mem m s /\ (forall a, load8 m a = if decide (dst + k <= a < dst + n)
       then load8 (k_mem s) (src + (a - dst)) else load8 (k_mem s) a)) (fun q => q.2)
    (fun o => exists m, o = Ok tt (set_k_mem m s) /\ copied (k_mem s) m dst src n)).
  - exists n, (k_mem s). split_and!; [done|lia|lia|by destruct s|].
    intros a. by rewrite decide_False by lia.
  - done.
  - intros q s2 (k & m & -> & Hk & -> & Hc). destruct (Z.ltb_spec 0 k); simpl.
    + unfold ld8, st8, bind. rewrite <- !Z.add_sub_assoc, (addr_ok_1 src n), (addr_ok_1 dst n) by (done || lia).
      simpl. split; [|lia]. exists (k - 1). eexists. split_and!; [pair_lia|lia..|done|].
      intros a. rewrite load8_store8, !Hc.
      rewrite (decide_False (P := dst + k <= src + (k - 1) < dst + n)) by lia.
      repeat case_decide; subst; try lia; try done.
      rewrite Z.mod_small by apply load8_range. f_equal. lia.
    + exists m. split; [done|]. intros a. rewrite Hc. repeat case_decide; done || lia.
Qed.
Lemma memmove_forward s dst src n :
  region_ok dst n -> region_ok src n -> dst <= src \/ src + n <= dst ->
  exists m, kwhile (fun '(d, p, k) =>
      if 0 <? k then v <- ld8 p ;; st8 d v ;;; ret (inl (d + 1, p + 1, k - 1))
      else ret (inr tt)) (dst, src, n) s
    = Ok tt (set_k_mem m s) /\ copied (k_mem s) m dst src n.
Proof.
  intros Hd Hs Hor. pose proof (region_measure _ _ Hd).
  apply (kwhile_rule (fun q s2 => exists k m, q = (dst + k, src + k, n - k) /\ 0 <= k <= n /\
    s2 = set_k_mem m s /\ copied (k_mem s) m dst src k) (fun q => q.2)
    (fun o => exists m, o = Ok tt (set_k_mem m s) /\ copied (k_mem s) m dst src n)).
  - exists 0, (k_mem s). rewrite !Z.add_0_r, Z.sub_0_r. split_and!; [done|lia|apply Hd|by destruct s|].
    intros a. by rewrite decide_False by lia.
  - done.
  - intros q s2 (k & m & -> & Hk & -> & Hc). destruct (Z.ltb_spec 0 (n - k)); simpl.
    + unfold ld8, st8, bind. rewrite (addr_ok_1 src n), (addr_ok_1 dst n) by (done || lia).
      simpl. split; [|lia]. exists (k + 1). eexists. split_and!; [pair_lia|lia..|done|].
      intros a. rewrite load8_store8, !Hc.
      rewrite (decide_False (P := dst <= src + k < dst + k)) by lia.
      repeat case_decide; subst; try lia; try done.
      rewrite Z.mod_small by apply load8_range. f_equal. lia.
    + exists m. split; [done|]. by replace n with k by lia.
Qed.
Lemma memmove_spec s dst src n :
  region_ok dst n -> region_ok src n ->
  exists m, memmove dst src n s = Ok dst (set_k_mem m s) /\ copied (k_mem s) m dst src n.
Proof.
  intros Hd Hs. unfold memmove. destruct ((src <? dst) && (dst <? src + n)) eqn:E.
  - zbool. destruct (memmove_backward s dst src n) as (m & E' & Hc); [done..|].
    exists m. by rewrite (bind_Ok _ _ _ _ _ E').
  - destruct (memmove_forward s dst src n) as (m & E' & Hc); [done..| |].
    { apply andb_false_iff in E as [|]; zbool; lia. }
    exists m. by rewrite (bind_Ok _ _ _ _ _ E').
Qed.

(** [strcat] appends: [dst] holds the concatenation afterwards, and nothing else
    changes. *)
Lemma strcat_spec s dst src l1 l2 :
  let n := Z.of_nat (length l1) + Z.of_nat (length l2) + 1 in
  cstr_at (k_mem s) dst l1 -> cstr_at (k_mem s) src l2 -> region_ok dst n ->
  (src + (Z.of_nat (length l2) + 1) <= dst \/ dst + n <= src) ->
  exists m, strcat dst src s = Ok dst (set_k_mem m s) /\ cstr_at m dst (l1 ++ l2) /\
    (forall a, ~ (dst <= a < dst + n) -> load8 m a = load8 (k_mem s) a).
Proof.
  intros n H1 H2 Hr Hd. unfold strcat. rewrite (bind_Ok _ _ _ _ _ (strlen_spec _ _ _ H1)).
  destruct (strcpy_spec s (dst + Z.of_nat (length l1)) src l2) as (m & E & Hc); [done| |lia|].
  { destruct Hr as (?&?&?). unfold n in *. split_and!; lia. }
  rewrite (bind_Ok _ _ _ _ _ E). exists m. split; [done|].
  split; [|intros a Ha; rewrite Hc, decide_False; [done|unfold n in *; lia]].
  assert (Hlen : Z.of_nat (length (l1 ++ l2)) + 1 = n) by (rewrite length_app; unfold n; lia).
  split; [|by rewrite Hlen].
  pose proof (copied_cstr _ _ _ _ _ Hc (proj1 H2)) as [Hc2 H02].
  destruct H1 as [[Hc1 H01] _]. split.
  - intros i c E'. apply lookup_app_Some in E' as [E'|[Hi E']].
    + destruct (Hc1 i c E') as [? <-]. split; [done|]. apply lookup_lt_Some in E'.
      rewrite Hc, decide_False by lia. done.
    + destruct (Hc2 _ c E') as [? Hl]. split; [done|]. rewrite <- Hl. f_equal. lia.
  - rewrite <- H02. f_equal. rewrite length_app. lia.
Qed.

(** [strchr] finds the first occurrence. *)
Lemma strchr_spec s p l c :
  cstr_at (k_mem s) p l ->
  strchr p c s = Ok (match list_find (c =.) l with
                     | Some (i, _) => p + Z.of_nat i
                     | None => 0
                     end) s.
Proof.
  intros Hc. pose proof (region_measure _ _ (proj2 Hc)). unfold strchr.
  set (R := match list_find (c =.) l with Some (i, _) => p + Z.of_nat i | None => 0 end).
  apply (kwhile_rule (fun q s2 => s2 = s /\ exists i : nat, (i <= length l)%nat /\ q = p + Z.of_nat i /\
       (forall j x, l !! j = Some x -> (j < i)%nat -> c <> x))
    (fun q => p + Z.of_nat (length l) - q) (fun o => o = Ok R s)).
  - split; [done|]. exists 0%nat. split_and!; lia.
  - lia.
  - intros q s2 (-> & i & Hi & -> & Hn). destruct (cstr_at_ld8 s p l i Hc Hi) as [E Hz].
    rewrite (bind_Ok _ _ _ _ _ E). destruct (Z.eqb_spec (default 0 (l !! i)) 0) as [Ez|Ez]; simpl.
    + apply Hz in Ez as ->. f_equal. unfold R. destruct (list_find (c =.) l) as [[j x]|] eqn:F; [|done].
      apply list_find_Some in F as (Hj&->&_). exfalso. eapply Hn; [done| |done].
      by apply lookup_lt_Some in Hj.
    + rewrite Hz in Ez. destruct (lookup_lt_is_Some_2 l i ltac:(lia)) as [x Hx]. rewrite Hx. simpl.
      destruct (Z.eqb_spec x c) as [->|Hne]; simpl.
      * f_equal. unfold R. rewrite (proj2 (list_find_Some _ _ i c)); [done|]. split_and!; [done..|].
        intros j y Hy Hj. by apply (Hn j).
      * split; [|lia]. split; [done|]. exists (S i). split_and!; [lia..|].
        intros j y Hy Hj. destruct (decide (j = i)) as [->|]; [congruence|]. apply (Hn j); [done|lia].
Qed.

(** what the copying loop of [safestrcpy] leaves, stopping at [d + e] *)
Definition safe_copied (m0 m : gmap Z Z) (d n e : Z) (t : list Z) : Prop :=
  0 <= e < n /\
  (forall a, ~ (d <= a < d + n) -> load8 m a = load8 m0 a) /\
  (e = Z.of_nat (length t) \/ e = Z.of_nat (length t) + 1 /\ load8 m (d + Z.of_nat (length t)) = 0) /\
  (forall (i : nat) c, t !! i = Some c -> load8 m (d + Z.of_nat i) = c).

Lemma copied_take m0 m d p l (i j : nat) c :
  cstr m0 p l -> copied m0 m d p (Z.of_nat i) -> (j < i)%nat -> l !! j = Some c ->
  load8 m (d + Z.of_nat j) = c.
Proof.
  intros [Hl _] Hc Hj Ej. rewrite Hc, decide_True by lia. destruct (Hl j c Ej) as [_ <-]. f_equal. lia.
Qed.

Lemma safestrcpy_loop s d p l n :
  0 < n -> cstr_at (k_mem s) p l -> region_ok d n ->
  (p + (Z.of_nat (length l) + 1) <= d \/ d + n <= p) ->
  exists e m, kwhile (fun '(d, p, k) =>
      if 0 <? k - 1
      then c <- ld8 p ;; st8 d c ;;;
           if negb (c =? 0) then ret (inl (d + 1, p + 1, k - 1)) else ret (inr (d + 1))
      else ret (inr d)) (d, p, n) s
    = Ok (d + e) (set_k_mem m s) /\ safe_copied (k_mem s) m d n e (take (Z.to_nat (n - 1)) l).
Proof.
  intros Hn Hs Hd Hdisj. set (t := take (Z.to_nat (n - 1)) l).
  assert (Ht : length t = (Z.to_nat (n - 1) `min` length l)%nat) by apply length_take.
  apply (kwhile_rule (fun q s2 => exists (i : nat) m, (i <= length t)%nat /\
      q = (d + Z.of_nat i, p + Z.of_nat i, n - Z.of_nat i) /\ s2 = set_k_mem m s /\
      copied (k_mem s) m d p (Z.of_nat i)) (fun q => q.2)
    (fun o => exists e m, o = Ok (d + e) (set_k_mem m s) /\ safe_copied (k_mem s) m d n e t)).
  - exists 0%nat, (k_mem s). split_and!; [lia|pair_lia|by destruct s|].
    intros a. by rewrite decide_False by lia.
  - by apply region_measure in Hd.
  - intros q s2 (i & m & Hi & -> & -> & Hc).
    assert (Hout : forall a, ~ (d <= a < d + n) -> load8 m a = load8 (k_mem s) a)
      by (intros a Ha; rewrite Hc; apply decide_False; lia).
    destruct (Z.ltb_spec 0 (n - Z.of_nat i - 1)).
    2:{ exists (Z.of_nat i), m. split; [done|]. split_and!; [lia..|done|left; lia|].
        intros j c Ej. pose proof (lookup_lt_Some _ _ _ Ej). apply (copied_take (k_mem s) _ _ p l i j);
          [apply Hs|done|lia|by eapply lookup_take_Some]. }
    destruct (cstr_at_ld8 s p l i Hs ltac:(lia)) as [E Hz].
    assert (Hl : load8 m (p + Z.of_nat i) = default 0 (l !! i)).
    { unfold ld8 in E. destruct (addr_ok 1 _); [|done]. simplify_eq. rewrite Hc, decide_False by lia. done. }
    assert (Hc' : copied (k_mem s) (store8 m (d + Z.of_nat i) (load8 m (p + Z.of_nat i))) d p (Z.of_nat i + 1)).
    { apply (copied_byte _ _ _ _ _ (Z.of_nat i + 1)); [done|lia|lia]. }
    unfold ld8, st8, bind in *. rewrite (addr_ok_1 p (Z.of_nat (length l) + 1)) by (apply Hs || lia).
    rewrite (addr_ok_1 d n) by (done || lia). simpl. rewrite Hl in Hc' |- *.
    destruct (Z.eqb_spec (default 0 (l !! i)) 0) as [Ez|Ez]; simpl.
    + apply Hz in Ez. exists (Z.of_nat i + 1). eexists. split; [by rewrite Z.add_assoc|].
      split_and!; [lia..| |right; split; [lia|]|].
      * intros a Ha. rewrite load8_store8, decide_False by lia. by apply Hout.
      * rewrite load8_store8, decide_True by lia. by rewrite (proj2 Hz Ez).
      * intros j c Ej. pose proof (lookup_lt_Some _ _ _ Ej). apply (copied_take (k_mem s) _ _ p l (S i) j);
          [apply Hs|by rewrite Nat2Z.inj_succ|lia|by eapply lookup_take_Some].
    + rewrite Hz in Ez. split; [|lia]. exists (S i). eexists.
      split_and!; [lia|pair_lia|done|]. by rewrite Nat2Z.inj_succ.
Qed.

(** [safestrcpy] copies at most [n - 1] bytes and always terminates the result,
    inside the [n] bytes of the destination. *)
Lemma safestrcpy_spec s d p l n :
  0 < n -> cstr_at (k_mem s) p l -> region_ok d n ->
  (p + (Z.of_nat (length l) + 1) <= d \/ d + n <= p) ->
  exists m, safestrcpy d p n s = Ok d (set_k_mem m s) /\
    cstr m d (take (Z.to_nat (n - 1)) l) /\
    (forall a, ~ (d <= a < d + n) -> load8 m a = load8 (k_mem s) a).
Proof.
  intros Hn Hs Hd Hdisj. unfold safestrcpy. rewrite (proj2 (Z.leb_gt _ _)) by lia.
  destruct (safestrcpy_loop s d p l n Hn Hs Hd Hdisj) as (e & m & E & He & Hout & Hend & Hc).
  set (t := take (Z.to_nat (n - 1)) l) in *.
  rewrite (bind_Ok _ _ _ _ _ E). unfold st8, bind. rewrite (addr_ok_1 d n) by (done || lia).
  eexists. split; [reflexivity|]. simpl. split; [split|].
  - intros i c Hi. assert (Hil : l !! i = Some c) by (eapply lookup_take_Some; exact Hi).
    destruct (proj1 (proj1 Hs) i c Hil) as [? _]. split; [done|].
    pose proof (lookup_lt_Some _ _ _ Hi). rewrite load8_store8, decide_False by lia. by apply Hc.
  - rewrite load8_store8. case_decide; [done|]. destruct Hend as [->|[-> ?]]; [lia|done].
  - intros a Ha. rewrite load8_store8, decide_False by lia. by apply Hout.
Qed.

(** ** atol *)

(** the decimal value of a list of digits, from [r] on *)
Definition decimal (r : Z) (ds : list Z) : Z := fold_left (fun r d => r * 10 + d) ds r.
Definition atol_acc (r : Z) (l : list Z) : Z :=
  fold_left (fun r c => s64 (s64 (r * 10) + (c - 48))) l r.

Lemma s64_small x : - 2 ^ 63 <= x < 2 ^ 63 -> s64 x = x.
Proof. unfold s64, sgn. intros. zcase; dlia. Qed.
Lemma decimal_ge r ds : Forall (fun d => 0 <= d < 10) ds -> 0 <= r -> r <= decimal r ds.
Proof.
  intros H. revert r. induction H as [|d ds Hd H IH]; intros r Hr; simpl; [lia|].
  specialize (IH (r * 10 + d)). unfold decimal in *. simpl. lia.
Qed.
Lemma atol_acc_decimal r ds :
  Forall (fun d => 0 <= d < 10) ds -> 0 <= r -> decimal r ds < 2 ^ 63 ->
  atol_acc r ((fun d => d + 48) <$> ds) = decimal r ds.
Proof.
  intros H. revert r. induction H as [|d ds Hd H IH]; intros r Hr Hlt; simpl; [done|].
  pose proof (decimal_ge (r * 10 + d) ds H ltac:(lia)) as Hge.
  unfold atol_acc, decimal in *. simpl in *.
  rewrite (s64_small (r * 10)), s64_small by lia.
  replace (r * 10 + (d + 48 - 48)) with (r * 10 + d) by lia. apply IH; lia.
Qed.

Lemma atol_skip s p l (k : nat) :
  cstr_at (k_mem s) p l -> (k <= length l)%nat ->
  (forall i c, l !! i = Some c -> (i < k)%nat -> c = 32) -> l !! k <> Some 32 ->
  kwhile (fun p => c <- ld8 p ;; if c =? 32 then ret (inl (p + 1)) else ret (inr p)) p s
  = Ok (p + Z.of_nat k) s.
Proof.
  intros Hc Hk Hsp Hne. pose proof (region_measure _ _ (proj2 Hc)).
  apply (kwhile_rule (fun q s2 => s2 = s /\ exists i : nat, (i <= k)%nat /\ q = p + Z.of_nat i)
    (fun q => p + Z.of_nat k - q) (fun o => o = Ok (p + Z.of_nat k) s)).
  - split; [done|]. exists 0%nat. lia.
  - lia.
  - intros q s2 (-> & i & Hi & ->). destruct (cstr_at_ld8 s p l i Hc ltac:(lia)) as [E Hz].
    rewrite (bind_Ok _ _ _ _ _ E). destruct (decide (i = k)) as [->|Hik].
    + destruct (Z.eqb_spec (default 0 (l !! k)) 32) as [Ez|Ez]; simpl; [|done].
      destruct (l !! k); simpl in Ez; congruence.
    + destruct (lookup_lt_is_Some_2 l i ltac:(lia)) as [c Hl]. rewrite Hl. simpl.
      rewrite (Hsp i c Hl) by lia. simpl. split; [|lia]. split; [done|]. exists (S i). lia.
Qed.
Lemma atol_digits s p l (j : nat) :
  cstr_at (k_mem s) p l -> (j <= length l)%nat ->
  kwhile (fun '(p, r) => c <- ld8 p ;;
     if c =? 0 then ret (inr r)
     else ret (inl (p + 1, s64 (s64 (r * 10) + (c - 48))))) (p + Z.of_nat j, 0) s
  = Ok (atol_acc 0 (drop j l)) s.
Proof.
  intros Hc Hj. pose proof (region_measure _ _ (proj2 Hc)).
  apply (kwhile_rule (fun q s2 => s2 = s /\ exists i : nat, (j <= i <= length l)%nat /\ q.1 = p + Z.of_nat i /\
      atol_acc q.2 (drop i l) = atol_acc 0 (drop j l))
    (fun q => p + Z.of_nat (length l) - q.1) (fun o => o = Ok (atol_acc 0 (drop j l)) s)).
  - split; [done|]. exists j. split_and!; done || lia.
  - simpl. lia.
  - intros [q r] s2 (-> & i & Hi & Hq & Hr). simpl in Hq, Hr. subst q.
    destruct (cstr_at_ld8 s p l i Hc ltac:(lia)) as [E Hz].
    rewrite (bind_Ok _ _ _ _ _ E). destruct (Z.eqb_spec (default 0 (l !! i)) 0) as [Ez|Ez]; simpl.
    + apply Hz in Ez as ->. rewrite <- Hr, drop_all. done.
    + rewrite Hz in Ez. split; [|lia]. split; [done|].
      destruct (lookup_lt_is_Some_2 l i ltac:(lia)) as [c Hl]. exists (S i). split_and!; [lia..|].
      rewrite <- Hr, (drop_S l c i) by done. rewrite Hl. done.
Qed.

(** [atol] reads optional blanks, an optional sign and decimal digits. *)
Lemma atol_spec s p (k : nat) sg ds :
  (sg = [] \/ sg = [45] \/ sg = [43]) ->
  Forall (fun d => 0 <= d < 10) ds -> decimal 0 ds < 2 ^ 63 ->
  cstr_at (k_mem s) p (replicate k 32 ++ sg ++ ((fun d => d + 48) <$> ds)) ->
  atol p s = Ok (if decide (sg = [45]) then - decimal 0 ds else decimal 0 ds) s.
Proof.
  intros Hsg Hds Hlt Hc. set (digs := (fun d => d + 48) <$> ds) in *.
  set (l := replicate k 32 ++ sg ++ digs) in *.
  assert (Hdig : forall i c, digs !! i = Some c -> 48 <= c < 58).
  { intros i c E. unfold digs in E. rewrite list_lookup_fmap_Some in E. destruct E as (d & -> & E).
    rewrite Forall_lookup in Hds. apply Hds in E. lia. }
  assert (Hk : l !! k = (sg ++ digs) !! 0%nat).
  { unfold l. rewrite lookup_app_r by (rewrite length_replicate; lia). by rewrite length_replicate, Nat.sub_diag. }
  assert (Hlen : (k <= length l)%nat) by (unfold l; rewrite length_app, length_replicate; lia).
  unfold atol. erewrite bind_Ok.
  2:{ apply (atol_skip s p l k); try done.
      - intros i c E Hi. unfold l in E. rewrite lookup_app_l in E by (rewrite length_replicate; lia).
        by apply lookup_replicate in E as [-> _].
      - rewrite Hk. destruct Hsg as [->|[->| ->]]; simpl; try done.
        intros E%Hdig. lia. }
  destruct (cstr_at_ld8 s p l k Hc Hlen) as [E _]. rewrite (bind_Ok _ _ _ _ _ E), Hk.
  pose proof (decimal_ge 0 ds Hds ltac:(lia)) as Hge.
  assert (Hrun : forall j, drop j l = digs -> (j <= length l)%nat -> forall f : Z -> Z,
    (res <- kwhile (fun '(p, r) => c <- ld8 p ;;
       if c =? 0 then ret (inr r)
       else ret (inl (p + 1, s64 (s64 (r * 10) + (c - 48))))) (p + Z.of_nat j, 0) ;;
     ret (f res)) s = Ok (f (decimal 0 ds)) s).
  { intros j Hj Hjl f. rewrite (bind_Ok _ _ _ _ _ (atol_digits s p l j Hc Hjl)), Hj.
    unfold digs. by rewrite atol_acc_decimal. }
  assert (Hdrop : drop k l = sg ++ digs) by (unfold l; apply drop_app_length'; by rewrite length_replicate).
  destruct Hsg as [->|[->| ->]]; simpl.
  - assert (Hd0 : default 0 (digs !! 0%nat) <> 45 /\ default 0 (digs !! 0%nat) <> 43)
      by (destruct (digs !! 0%nat) eqn:E0; simpl; [apply Hdig in E0|]; lia).
    rewrite !(proj2 (Z.eqb_neq _ _)) by apply Hd0. simpl.
    by apply (Hrun k Hdrop Hlen (fun r => r)).
  - rewrite <- Z.add_assoc. change 1 with (Z.of_nat 1). rewrite <- Nat2Z.inj_add.
    rewrite (Hrun (k + 1)%nat); [by rewrite s64_small by lia| |].
    + by rewrite <- drop_drop, Hdrop.
    + unfold l. rewrite !length_app, length_replicate. simpl. lia.
  - rewrite <- Z.add_assoc. change 1 with (Z.of_nat 1). rewrite <- Nat2Z.inj_add.
    apply (Hrun (k + 1)%nat) with (f := fun r => r).
    + by rewrite <- drop_drop, Hdrop.
    + unfold l. rewrite !length_app, length_replicate. simpl. lia.
Qed.

(* ------------------------------------------------------------------ *)
(** * Properties *)

(** C33. [memcpy], with its word loop for aligned operands and its byte loop for
    the rest, does on disjoint regions exactly what the byte-wise [memmove]
    does: every byte of the destination is the source's, all others are
    untouched. *)
Theorem memcpy_equiv_memmove s dest src len :
  region_ok dest len -> region_ok src len -> (src + len <= dest \/ dest + len <= src) ->
  exists m1 m2, memcpy dest src len s = Ok dest (set_k_mem m1 s) /\
    memmove dest src len s = Ok dest (set_k_mem m2 s) /\
    forall a, load8 m1 a = load8 m2 a /\
      load8 m1 a = if decide (dest <= a < dest + len) then load8 (k_mem s) (src + (a - dest))
                   else load8 (k_mem s) a.
Proof.
  intros Hd Hs Hdj. destruct (memcpy_spec s dest src len Hd Hs Hdj) as (m1 & E1 & H1).
  destruct (memmove_spec s dest src len Hd Hs) as (m2 & E2 & H2).
  exists m1, m2. split_and!; [done..|]. intros a. by rewrite H1, H2.
Qed.

(** [memmove] is right for overlapping regions too: the destination receives
    the bytes the source held before the call. *)
Theorem memmove_overlap s dst src n :
  region_ok dst n -> region_ok src n ->
  exists m, memmove dst src n s = Ok dst (set_k_mem m s) /\
    forall i, 0 <= i < n -> load8 m (dst + i) = load8 (k_mem s) (src + i).
Proof.
  intros Hd Hs. destruct (memmove_spec s dst src n Hd Hs) as (m & E & H).
  exists m. split; [done|]. intros i Hi. rewrite H, decide_True by lia. f_equal. lia.
Qed.

(** [strcmp] returns 0 exactly on equal strings, and reads only. *)
Theorem strcmp_zero_iff_equal s p1 p2 l1 l2 :
  cstr_at (k_mem s) p1 l1 -> cstr_at (k_mem s) p2 l2 ->
  exists r, strcmp p1 p2 s = Ok r s /\ (r = 0 <-> l1 = l2).
Proof.
  intros H1 H2. exists (strcmp_ref l1 l2). split; [by apply strcmp_spec|].
  apply strcmp_ref_zero; eapply cstr_nonzero; [apply H1|apply H2].
Qed.

(** [safestrcpy(d, p, n)] leaves in [d] the first [n - 1] bytes of the string
    at [p], NUL-terminated, and writes nothing outside the [n] bytes of [d]. *)
Theorem safestrcpy_truncates s d p l n :
  0 < n -> cstr_at (k_mem s) p l -> region_ok d n ->
  (p + (Z.of_nat (length l) + 1) <= d \/ d + n <= p) ->
  exists m, safestrcpy d p n s = Ok d (set_k_mem m s) /\
    cstr m d (take (Z.to_nat (n - 1)) l) /\
    (forall a, ~ (d <= a < d + n) -> load8 m a = load8 (k_mem s) a).
Proof. apply safestrcpy_spec. Qed.

(** [atol] inverts decimal notation: on blanks, an optional sign and digits
    whose value fits a [long] it returns that value. *)
Theorem atol_decimal s p (k : nat) sg ds :
  (sg = [] \/ sg = [45] \/ sg = [43]) ->
  Forall (fun d => 0 <= d < 10) ds -> decimal 0 ds < 2 ^ 63 ->
  cstr_at (k_mem s) p (replicate k 32 ++ sg ++ ((fun d => d + 48) <$> ds)) ->
  atol p s = Ok (if decide (sg = [45]) then - decimal 0 ds else decimal 0 ds) s.
Proof. apply atol_spec. Qed.
End StringC.

(** ** Examples *)

(** memory with the bytes [l] and a NUL from [p] on *)
Definition put_str (p : Z) (l : list Z) (m : gmap Z Z) : gmap Z Z :=
  fold_left (fun m '(i, c) => store8 m (p + Z.of_nat i) c) (imap pair (l ++ [0])) m.
Definition demo_strings : @kstate Demo.platform :=
  set_k_mem (put_str 0x80030000 [32; 45; 52; 50] (put_str 0x80030100 [104; 105] ∅)) (Demo.state 0x100000).

Lemma cstr_check m p l :
  forallb (fun '(i, c) => negb (c =? 0) && (load8 m (p + Z.of_nat i) =? c)) (imap pair l)
  && (load8 m (p + Z.of_nat (length l)) =? 0) = true ->
  region_ok p (Z.of_nat (length l) + 1) -> cstr_at m p l.
Proof.
  intros [H H0]%andb_true_iff Hr. split; [|done]. split; [|by apply Z.eqb_eq].
  intros i c E. rewrite forallb_forall in H. specialize (H (i, c)). simpl in H.
  rewrite andb_true_iff, negb_true_iff, Z.eqb_neq, Z.eqb_eq in H. apply H.
  apply list_elem_of_In, list_elem_of_lookup. exists i. by rewrite list_lookup_imap, E.
Qed.

Lemma memcpy_equiv_memmove_witness :
  exists m1 m2, memcpy 0x80031004 0x80030000 13 demo_strings = Ok 0x80031004 (set_k_mem m1 demo_strings) /\
    memmove 0x80031004 0x80030000 13 demo_strings = Ok 0x80031004 (set_k_mem m2 demo_strings) /\
    forall a, load8 m1 a = load8 m2 a /\
      load8 m1 a = if decide (0x80031004 <= a < 0x80031004 + 13)
                   then load8 (k_mem demo_strings) (0x80030000 + (a - 0x80031004))
                   else load8 (k_mem demo_strings) a.
Proof.
  apply (memcpy_equiv_memmove demo_strings 0x80031004 0x80030000 13);
    [by vm_compute|by vm_compute|left; by vm_compute].
Defined.
Lemma memmove_overlap_witness :
  exists m, memmove 0x80030002 0x80030000 5 demo_strings = Ok 0x80030002 (set_k_mem m demo_strings) /\
    forall i, 0 <= i < 5 -> load8 m (0x80030002 + i) = load8 (k_mem demo_strings) (0x80030000 + i).
Proof. apply (memmove_overlap demo_strings 0x80030002 0x80030000 5); by vm_compute. Defined.
Lemma strcmp_zero_iff_equal_witness :
  exists r, strcmp 0x80030000 0x80030100 demo_strings = Ok r demo_strings /\
    (r = 0 <-> [32; 45; 52; 50] = [104; 105]).
Proof.
  apply (strcmp_zero_iff_equal demo_strings 0x80030000 0x80030100);
    (apply cstr_check; [by vm_compute|by vm_compute]).
Defined.
Lemma safestrcpy_truncates_witness :
  exists m, safestrcpy 0x80031000 0x80030000 3 demo_strings = Ok 0x80031000 (set_k_mem m demo_strings) /\
    cstr m 0x80031000 [32; 45] /\
    (forall a, ~ (0x80031000 <= a < 0x80031000 + 3) -> load8 m a = load8 (k_mem demo_strings) a).
Proof.
  apply (safestrcpy_truncates demo_strings 0x80031000 0x80030000 [32; 45; 52; 50] 3);
    [done|apply cstr_check; by vm_compute|by vm_compute|left; by vm_compute].
Defined.
Lemma atol_decimal_witness : atol 0x80030000 demo_strings = Ok (-42) demo_strings.
Proof.
  apply (atol_decimal demo_strings 0x80030000 1 [45] [4; 2]);
    [by right; left|repeat constructor; done|done|apply cstr_check; by vm_compute].
Defined.
