(* ===== verification/Dts.v ===== *)
(** The flattened device tree: spike_interface/dts_parse.c, the memory query of
    spike_interface/spike_memory.c and the HTIF discovery of
    spike_interface/spike_htif.c.

    The scanner runs in machine mode, on physical addresses ([mld8], [mld32]): the
    blob may lie in the boot ROM.  The recursion of [fdt_scan_helper] is
    bounded by [fdt_depth] levels (its frames would exhaust the 4 KiB boot stack
    long before); the loop over the tokens of a node is a [kwhile].  A callback
    table is a record of functions on the caller's [extra] data.  The meaning of
    a scan is a trace of events ([forest_events]): which nodes are opened, which
    properties are reported with which node, in which order. *)

From S2P Require Import Prelude Machine StringC.

(* ------------------------------------------------------------------ *)
(** * dts_parse.h *)

Definition FDT_MAGIC : Z := 0xd00dfeed.
Definition FDT_VERSION : Z := 17.
(** struct fdt_header: offsets of the fields in use *)
Definition FH_magic : Z := 0.
Definition FH_off_dt_struct : Z := 8.
Definition FH_off_dt_strings : Z := 12.
Definition FH_last_comp_version : Z := 24.

Definition FDT_BEGIN_NODE : Z := 1.
Definition FDT_END_NODE : Z := 2.
Definition FDT_PROP : Z := 3.
Definition FDT_NOP : Z := 4.
Definition FDT_END : Z := 9.

(** struct fdt_scan_node.  The [parent] pointer is the parent's value at the time
    the node is opened: a node is not changed any more once a child is scanned. *)
#[warnings="-register-all"]
Inductive fdt_scan_node := mkNode {
  n_parent : option fdt_scan_node;
  n_name : Z;
  n_address_cells : Z;
  n_size_cells : Z
}.
Definition set_n_parent (v : option fdt_scan_node) (n : fdt_scan_node) : fdt_scan_node :=
  mkNode v (n_name n) (n_address_cells n) (n_size_cells n).
Definition set_n_name (v : Z) (n : fdt_scan_node) : fdt_scan_node :=
  mkNode (n_parent n) v (n_address_cells n) (n_size_cells n).
Definition set_n_address_cells (v : Z) (n : fdt_scan_node) : fdt_scan_node :=
  mkNode (n_parent n) (n_name n) v (n_size_cells n).
Definition set_n_size_cells (v : Z) (n : fdt_scan_node) : fdt_scan_node :=
  mkNode (n_parent n) (n_name n) (n_address_cells n) v.

Record fdt_scan_prop := mkProp {
  pr_node : option fdt_scan_node;
  pr_name : Z;
  pr_value : Z;
  pr_len : Z
}.

(** struct fdt_cb; [E] is the type of the data behind [extra] *)
Record fdt_cb {PLAT : Platform} (E : Type) := mkCb {
  cb_open : option (fdt_scan_node -> E -> K E);
  cb_prop : fdt_scan_prop -> E -> K E;
  cb_done : option (fdt_scan_node -> E -> K E);
  cb_close : option (fdt_scan_node -> E -> K (Z * E))
}.
Arguments mkCb {_ _}.
Arguments cb_open {_ _}.
Arguments cb_prop {_ _}.
Arguments cb_done {_ _}.
Arguments cb_close {_ _}.

(* ------------------------------------------------------------------ *)
(** * dts_parse.c *)

Definition bswap (x : Z) : Z :=
  let y := Z.lor (u32 (Z.shiftl (Z.land x 0x00FF00FF) 8)) (Z.shiftr (Z.land x 0xFF00FF00) 8) in
  Z.lor (u32 (Z.shiftl (Z.land y 0x0000FFFF) 16)) (Z.shiftr (Z.land y 0xFFFF0000) 16).

Section Dts.
Context {PLAT : Platform}.

Definition strcmp_lit (p : Z) (lit : string) : K bool :=
  c <- strcmp_by mld8 p (link_addr lit) ;; ret (c =? 0).

Section Scan.
Context {E : Type}.
Variables (cb : fdt_cb E) (strings : Z).

Definition call_open (n : fdt_scan_node) (e : E) : K E :=
  match cb_open cb with Some f => f n e | None => ret e end.
(** [if (!last && node && cb->done) cb->done(node, cb->extra)] *)
Definition call_done (last : bool) (node : option fdt_scan_node) (e : E) : K E :=
  match last, node, cb_done cb with
  | false, Some n, Some f => f n e
  | _, _, _ => ret e
  end.

(** [if (node && !strcmp(prop.name, lit)) node->f = bswap(lex[3])] *)
Definition set_cells (set : Z -> fdt_scan_node -> fdt_scan_node) (lit : string)
    (node : option fdt_scan_node) (name lex : Z) : K (option fdt_scan_node) :=
  match node with
  | None => ret None
  | Some n => b <- strcmp_lit name lit ;;
              if b : bool then w <- mld32 (lex + 12) ;; ret (Some (set (s32 (bswap w)) n)) else ret (Some n)
  end.

(** the loop variables: lex, last, child, node, extra *)
Definition scan_state : Type := Z * bool * fdt_scan_node * option fdt_scan_node * E.

(** [while (lex != lex_next) *lex++ = bswap(FDT_NOP)] *)
Definition erase (lex lex_next : Z) : K unit :=
  kwhile (fun l => if l =? lex_next then ret (inr tt) else mst32 l (bswap FDT_NOP) ;;; ret (inl (l + 4))) lex.

Definition scan_token (helper : Z -> fdt_scan_node -> E -> K (Z * fdt_scan_node * E)) :
    scan_state -> K (scan_state + (Z * option fdt_scan_node * E)) :=
  fun '(lex, last, child, node, e) =>
    t <- mld32 lex ;;
    if bswap t =? FDT_NOP then ret (inl (lex + 4, last, child, node, e))
    else if bswap t =? FDT_PROP then
      if last then halt (Poweroff "!last")
      else
        off <- mld32 (lex + 8) ;;
        let name := strings + bswap off in
        len <- mld32 (lex + 4) ;;
        let len := s32 (bswap len) in
        let value := lex + 12 in
        node <- set_cells set_n_address_cells "#address-cells" node name lex ;;
        node <- set_cells set_n_size_cells "#size-cells" node name lex ;;
        let lex := lex + 4 * (3 + Z.quot (s32 (len + 3)) 4) in
        e <- cb_prop cb (mkProp node name value len) e ;;
        ret (inl (lex, last, child, node, e))
    else if bswap t =? FDT_BEGIN_NODE then
      e <- call_done last node e ;;
      let child := set_n_name (lex + 4) (set_n_parent node child) in
      e <- call_open child e ;;
      k <- strlen_by mld8 (n_name child) ;;
      r <- helper (lex + 4 * (2 + k / 4)) child e ;;
      let '(lex_next, child, e) := r in
      e <- match cb_close cb with
           | Some f => ce <- f child e ;;
                       (when fst ce =? -1 then erase lex lex_next) ;;; ret (snd ce)
           | None => ret e
           end ;;
      ret (inl (lex_next, true, child, node, e))
    else if bswap t =? FDT_END_NODE then
      e <- call_done last node e ;; ret (inr (lex + 4, node, e))
    else
      e <- call_done last node e ;; ret (inr (lex, node, e)).

Fixpoint fdt_scan_helper (depth : nat) (lex : Z) (node : option fdt_scan_node) (e : E) :
    K (Z * option fdt_scan_node * E) :=
  match depth with
  | O => halt Diverge
  | S depth' =>
      let child := mkNode node 0 2 1 in
      kwhile (scan_token (fun lex n e => r <- fdt_scan_helper depth' lex (Some n) e ;;
                let '(l, n', e') := r in ret (l, default n n', e'))) (lex, false, child, node, e)
  end.
End Scan.

Definition fdt_depth : nat := 64.

(** [fdt_get_address] and [fdt_get_size]: the value after the cells and the
    next word *)
Definition get_cells (cells value : Z) : K (Z * Z) :=
  kwhile (fun '(cells, value, result) =>
    if 0 <? cells then w <- mld32 value ;; ret (inl (cells - 1, value + 4, u64 (u64 (Z.shiftl result 32) + bswap w)))
    else ret (inr (value, result))) (cells, value, 0).
Definition fdt_get_address (node : fdt_scan_node) (value : Z) : K (Z * Z) := get_cells (n_address_cells node) value.
Definition fdt_get_size (node : fdt_scan_node) (value : Z) : K (Z * Z) := get_cells (n_size_cells node) value.

Definition fdt_scan {E} (fdt : Z) (cb : fdt_cb E) (e : E) : K E :=
  magic <- mld32 (fdt + FH_magic) ;;
  if negb (bswap magic =? FDT_MAGIC) then ret e
  else
    v <- mld32 (fdt + FH_last_comp_version) ;;
    if FDT_VERSION <? bswap v then ret e
    else
      o1 <- mld32 (fdt + FH_off_dt_strings) ;;
      let strings := fdt + bswap o1 in
      o2 <- mld32 (fdt + FH_off_dt_struct) ;;
      let lex := fdt + bswap o2 in
      r <- fdt_scan_helper cb strings fdt_depth lex None e ;;
      ret (snd r).

(* ------------------------------------------------------------------ *)
(** * spike_memory.c *)

Record mem_scan := mkMemScan { ms_memory : Z; ms_reg_value : Z; ms_reg_len : Z }.

Definition mem_open (node : fdt_scan_node) (scan : mem_scan) : K mem_scan := ret (mkMemScan 0 0 0).

Definition mem_prop (prop : fdt_scan_prop) (scan : mem_scan) : K mem_scan :=
  b <- strcmp_lit (pr_name prop) "device_type" ;;
  b <- (if b : bool then strcmp_lit (pr_value prop) "memory" else ret false) ;;
  if b : bool then ret (mkMemScan 1 (ms_reg_value scan) (ms_reg_len scan))
  else
    r <- strcmp_lit (pr_name prop) "reg" ;;
    if r : bool then ret (mkMemScan (ms_memory scan) (pr_value prop) (pr_len prop)) else ret scan.

(** one iteration of the loop of mem_done reads one range; fdt_get_address
    dereferences [node->parent] *)
Definition mem_step (node : fdt_scan_node) (end_ value : Z) : K (Z + Z) :=
  let self := link_addr "mem_done" in
  if 0 <? end_ - value then
    match n_parent node with
    | None => halt (Fault 0)
    | Some p =>
        vb <- fdt_get_address p value ;;
        let '(value, base) := vb in
        vs <- fdt_get_size p value ;;
        let '(value, size) := vs in
        (when (base <=? self) && (self <=? u64 (base + size)) then modify (set_k_mem_size size)) ;;;
        ret (inl value)
    end
  else ret (inr value).
Definition mem_done (node : fdt_scan_node) (scan : mem_scan) : K mem_scan :=
  let end_ := ms_reg_value scan + 4 * Z.quot (ms_reg_len scan) 4 in
  if ms_memory scan =? 0 then ret scan
  else if (ms_reg_value scan =? 0) || negb (Z.rem (ms_reg_len scan) 4 =? 0)
  then halt (Poweroff "scan->reg_value && scan->reg_len % 4 == 0")
  else
    value <- kwhile (mem_step node end_) (ms_reg_value scan) ;;
    if value =? end_ then ret scan else halt (Poweroff "end == value").

Definition mem_cb : fdt_cb mem_scan := mkCb (Some mem_open) mem_prop (Some mem_done) None.

(** the local [scan] is not initialised; mem_open clears it at the first node *)
Definition query_mem (fdt : Z) (scan : mem_scan) : K unit :=
  modify (set_k_mem_size 0) ;;;
  fdt_scan fdt mem_cb scan ;;;
  sz <- gets k_mem_size ;;
  if 0 <? sz then ret tt else halt (Poweroff "g_mem_size > 0").

(* ------------------------------------------------------------------ *)
(** * spike_htif.c: discovery *)

(** struct htif_scan, and the global [htif] *)
Record htif_scan := mkHtifScan { hs_compat : Z; hs_htif : Z }.
Definition htif_open (node : fdt_scan_node) (scan : htif_scan) : K htif_scan := ret (mkHtifScan 0 (hs_htif scan)).
Definition htif_prop (prop : fdt_scan_prop) (scan : htif_scan) : K htif_scan :=
  b <- strcmp_lit (pr_name prop) "compatible" ;;
  b <- (if b : bool then strcmp_lit (pr_value prop) "ucb,htif0" else ret false) ;;
  if b : bool then ret (mkHtifScan 1 (hs_htif scan)) else ret scan.
Definition htif_done (node : fdt_scan_node) (scan : htif_scan) : K htif_scan :=
  if hs_compat scan =? 0 then ret scan else ret (mkHtifScan (hs_compat scan) 1).
Definition htif_cb : fdt_cb htif_scan := mkCb (Some htif_open) htif_prop (Some htif_done) None.

(** returns the new value of the global [htif] *)
Definition query_htif (fdt : Z) (scan : htif_scan) : K Z :=
  r <- fdt_scan fdt htif_cb scan ;; ret (hs_htif r).

(* ------------------------------------------------------------------ *)
(** * Trees and their traces *)

(** a property in memory: addresses of name and value, length, and what the
    scanner reads of it: the name and the first word of the value *)
Record fprop := mkFprop { f_name : Z; f_value : Z; f_len : Z; f_str : list Z; f_word : Z }.
#[warnings="-register-all"]
Inductive ftree := FNode (name : Z) (props : list fprop) (kids : list ftree).

Definition named (p : fprop) (lit : string) : bool := bool_decide (f_str p = chars_of lit).

Inductive event := Open (n : fdt_scan_node) | Property (p : fdt_scan_prop) | Done (n : fdt_scan_node).

(** the node after a property has been seen *)
Definition see_prop (p : fprop) (n : fdt_scan_node) : fdt_scan_node :=
  let n := if named p "#address-cells" then set_n_address_cells (s32 (f_word p)) n else n in
  if named p "#size-cells" then set_n_size_cells (s32 (f_word p)) n else n.
Definition seen (ps : list fprop) (n : fdt_scan_node) : fdt_scan_node := fold_left (fun n p => see_prop p n) ps n.
Fixpoint prop_events (n : fdt_scan_node) (ps : list fprop) : list event :=
  match ps with
  | [] => []
  | p :: ps' => let n := see_prop p n in Property (mkProp (Some n) (f_name p) (f_value p) (f_len p)) :: prop_events n ps'
  end.

(** the nodes of a tree in document order, each with the structure it is scanned
    with and its properties, and that structure afterwards.  The children of a
    node share one structure, so a child starts with the cell counts its elder
    sibling left. *)
Fixpoint tree_nodes (n : fdt_scan_node) (t : ftree) : list (fdt_scan_node * list fprop) * fdt_scan_node :=
  let '(FNode name ps ts) := t in
  let n := set_n_name name n in
  let n' := seen ps n in
  let fix forest (c : fdt_scan_node) (ts : list ftree) :=
    match ts with
    | [] => []
    | t :: ts' => let '(l, c') := tree_nodes c t in l ++ forest c' ts'
    end in
  ((n, ps) :: forest (mkNode (Some n') 0 2 1) ts, n').
Fixpoint forest_nodes (c : fdt_scan_node) (ts : list ftree) : list (fdt_scan_node * list fprop) :=
  match ts with
  | [] => []
  | t :: ts' => let '(l, c') := tree_nodes c t in l ++ forest_nodes c' ts'
  end.

(** the trace of a scan *)
Definition node_events (x : fdt_scan_node * list fprop) : list event :=
  Open (fst x) :: prop_events (fst x) (snd x) ++ [Done (seen (snd x) (fst x))].
Definition tree_events (n : fdt_scan_node) (t : ftree) : list event * fdt_scan_node :=
  (flat_map node_events (fst (tree_nodes n t)), snd (tree_nodes n t)).
Definition forest_events (c : fdt_scan_node) (ts : list ftree) : list event :=
  flat_map node_events (forest_nodes c ts).

Section Events.
Context {E : Type}.
Variable (cb : fdt_cb E).
Definition run_event (ev : event) (e : E) : K E :=
  match ev with
  | Open n => call_open cb n e
  | Property p => cb_prop cb p e
  | Done n => call_done cb false (Some n) e
  end.
Fixpoint run_events (evs : list event) (e : E) : K E :=
  match evs with
  | [] => ret e
  | ev :: evs' => e <- run_event ev e ;; run_events evs' e
  end.
End Events.

(* ------------------------------------------------------------------ *)
(** * Trees in memory *)

(** a C string at a physical address *)
Definition mcstr (m : gmap Z Z) (p : Z) (l : list Z) : Prop :=
  cstr m p l /\ 0 <= p /\ p + Z.of_nat (length l) + 1 <= 2 ^ 56.
Lemma mcstr_reads s p l : mcstr (k_mem s) p l -> reads mld8 s p l.
Proof.
  intros (Hc & Hp & Hl). split; [lia|]. intros i Hi. destruct (cstr_byte _ _ _ i Hc Hi) as [E ?].
  unfold mld8, phys_ok. rewrite (proj2 (Z.leb_le _ _)), (proj2 (Z.leb_le _ _)), Z.mod_1_r by lia. cbn [andb Z.eqb]. by rewrite E.
Qed.
Lemma mld32_ok a s : phys_ok 4 a = true -> mld32 a s = Ok (load32 (k_mem s) a) s.
Proof. unfold mld32. by intros ->. Qed.

Section Encoding.
Variables (m : gmap Z Z) (strings : Z).

(** a big-endian word of the structure block *)
Definition word_at (lex w : Z) : Prop := phys_ok 4 lex = true /\ bswap (load32 m lex) = w.

Definition enc_prop (lex : Z) (p : fprop) (lex' : Z) : Prop :=
  exists len off, word_at lex FDT_PROP /\ word_at (lex + 4) len /\ word_at (lex + 8) off /\
    p.(f_len) = s32 len /\ 0 <= p.(f_len) < 2 ^ 31 - 4 /\ p.(f_name) = strings + off /\ p.(f_value) = lex + 12 /\
    mcstr m p.(f_name) p.(f_str) /\
    (named p "#address-cells" || named p "#size-cells" = true -> word_at (lex + 12) p.(f_word)) /\
    lex' = lex + 4 * (3 + (p.(f_len) + 3) / 4).

(** properties, then children, with FDT_NOP words anywhere *)
Inductive enc_props : Z -> list fprop -> Z -> Prop :=
  | ep_nil lex : enc_props lex [] lex
  | ep_nop lex ps lex' : word_at lex FDT_NOP -> enc_props (lex + 4) ps lex' -> enc_props lex ps lex'
  | ep_cons lex p l1 ps lex' : enc_prop lex p l1 -> enc_props l1 ps lex' -> enc_props lex (p :: ps) lex'.
Inductive enc_forest (T : Z -> ftree -> Z -> Prop) : Z -> list ftree -> Z -> Prop :=
  | ef_nil lex : enc_forest T lex [] lex
  | ef_nop lex ts lex' : word_at lex FDT_NOP -> enc_forest T (lex + 4) ts lex' -> enc_forest T lex ts lex'
  | ef_cons lex t l1 ts lex' : T lex t l1 -> enc_forest T l1 ts lex' -> enc_forest T lex (t :: ts) lex'.
(** a node of height at most [d] *)
Fixpoint enc_tree (d : nat) (lex : Z) (t : ftree) (lex' : Z) : Prop :=
  match d, t with
  | O, _ => False
  | S d', FNode name ps ts => exists str l1 l2,
      word_at lex FDT_BEGIN_NODE /\ name = lex + 4 /\ mcstr m name str /\
      enc_props (lex + 4 * (2 + Z.of_nat (length str) / 4)) ps l1 /\
      enc_forest (enc_tree d') l1 ts l2 /\ word_at l2 FDT_END_NODE /\ lex' = l2 + 4
  end.

Lemma enc_prop_lt lex p lex' : enc_prop lex p lex' -> lex + 12 <= lex'.
Proof. intros (len & off & _ & _ & _ & _ & ? & _ & _ & _ & _ & ->). dlia. Qed.
Lemma enc_props_le lex ps lex' : enc_props lex ps lex' -> lex <= lex'.
Proof. induction 1 as [| |? ? ? ? ? Hp%enc_prop_lt]; lia. Qed.
Lemma enc_forest_le T lex ts lex' :
  (forall l t l', T l t l' -> l + 4 <= l') -> enc_forest T lex ts lex' -> lex <= lex'.
Proof. intros HT. induction 1 as [| |? ? ? ? ? Ht%HT]; lia. Qed.
Lemma enc_tree_le d lex t lex' : enc_tree d lex t lex' -> lex + 4 <= lex'.
Proof.
  revert lex t lex'. induction d as [|d IH]; intros lex [name ps ts] lex'; [done|].
  intros (str & l1 & l2 & _ & _ & _ & Hp%enc_props_le & Hf%enc_forest_le & _ & ->); [|done]. dlia.
Qed.

Lemma word_at_ld lex w s : word_at lex w -> k_mem s = m -> mld32 lex s = Ok (load32 m lex) s.
Proof. intros [Ha _] <-. by apply mld32_ok. Qed.
Lemma word_at_range lex w : word_at lex w -> 0 <= lex < 2 ^ 63.
Proof. intros [Ha _]. unfold phys_ok in Ha. zbool. lia. Qed.

(** string literals of the callers are where the linker placed them *)
Definition literal (lit : string) : Prop := mcstr m (link_addr lit) (chars_of lit).

Lemma strcmp_lit_spec p l lit s :
  k_mem s = m -> literal lit -> mcstr m p l -> strcmp_lit p lit s = Ok (bool_decide (l = chars_of lit)) s.
Proof.
  intros Hm Hl Hp. unfold strcmp_lit. unfold literal in Hl. rewrite <- Hm in Hl, Hp.
  rewrite (bind_Ok _ _ _ _ _ (strcmp_by_spec mld8 s _ _ _ _ (mcstr_reads _ _ _ Hp) (mcstr_reads _ _ _ Hl))). unfold ret. f_equal. apply eq_true_iff_eq.
  rewrite bool_decide_eq_true, Z.eqb_eq. apply strcmp_ref_zero; eapply cstr_nonzero; [apply Hp|apply Hl].
Qed.
End Encoding.

(* ------------------------------------------------------------------ *)
(** * The scanner reports the trace *)

Section ScanSpec.
Context {E : Type}.
Variables (cb : fdt_cb E) (strings : Z) (m : gmap Z Z).
(** callbacks leave memory alone and close does not delete nodes, as those of
    the two callers *)
Hypothesis Hclose : cb_close cb = None.
Hypothesis Hframe : forall ev e s e' s', run_event cb ev e s = Ok e' s' -> k_mem s' = k_mem s.
Hypothesis Hac : literal m "#address-cells".
Hypothesis Hsc : literal m "#size-cells".

Lemma set_cells_spec set lit n p lex s :
  k_mem s = m -> literal m lit -> mcstr m (f_name p) (f_str p) -> (named p lit = true -> word_at m (lex + 12) (f_word p)) ->
  set_cells set lit (Some n) (f_name p) lex s = Ok (Some (if named p lit then set (s32 (f_word p)) n else n)) s.
Proof.
  intros Hm Hl Hp Hw. unfold set_cells. rewrite (bind_Ok _ _ _ _ _ (strcmp_lit_spec m _ _ _ s Hm Hl Hp)).
  change (bool_decide (f_str p = chars_of lit)) with (named p lit). destruct (named p lit); [|done].
  rewrite (bind_Ok _ _ _ _ _ (word_at_ld m _ _ s (Hw eq_refl) Hm)). destruct (Hw eq_refl) as [_ ->]. done.
Qed.

(** one token of each kind, in a node [n] *)
Lemma token_nop helper lex last child node e s :
  word_at m lex FDT_NOP -> k_mem s = m ->
  scan_token cb strings helper (lex, last, child, node, e) s = Ok (inl (lex + 4, last, child, node, e)) s.
Proof. intros H Hm. unfold scan_token. rewrite (bind_Ok _ _ _ _ _ (word_at_ld m _ _ s H Hm)). destruct H as [_ ->]. done. Qed.
Lemma token_prop helper lex p lex' child n e s :
  enc_prop m strings lex p lex' -> k_mem s = m ->
  scan_token cb strings helper (lex, false, child, Some n, e) s =
  (e' <- run_event cb (Property (mkProp (Some (see_prop p n)) (f_name p) (f_value p) (f_len p))) e ;;
   ret (inl (lex', false, child, Some (see_prop p n), e'))) s.
Proof.
  intros (len & off & H0 & H1 & H2 & Hlen & Hr & Hn & Hv & Hs & Hw & ->) Hm. unfold scan_token.
  rewrite (bind_Ok _ _ _ _ _ (word_at_ld m _ _ s H0 Hm)). destruct H0 as [_ ->]. cbn [Z.eqb Pos.eqb FDT_PROP FDT_NOP].
  rewrite (bind_Ok _ _ _ _ _ (word_at_ld m _ _ s H2 Hm)). cbv zeta. rewrite (bind_Ok _ _ _ _ _ (word_at_ld m _ _ s H1 Hm)).
  destruct H1 as [_ ->], H2 as [_ ->]. rewrite <- Hn, <- Hlen, <- Hv.
  rewrite (bind_Ok _ _ _ _ _ (set_cells_spec set_n_address_cells _ n p lex s Hm Hac Hs ltac:(intros E1; apply Hw; by rewrite E1))).
  rewrite (bind_Ok _ _ _ _ _ (set_cells_spec set_n_size_cells _ _ p lex s Hm Hsc Hs ltac:(intros E1; apply Hw; by rewrite E1, orb_true_r))).
  rewrite (s32_small (f_len p + 3)), Z.quot_div_nonneg by lia. done.
Qed.

Lemma run_events_app l1 l2 e s : run_events cb (l1 ++ l2) e s = (e' <- run_events cb l1 e ;; run_events cb l2 e') s.
Proof.
  revert e s. induction l1 as [|ev l1 IH]; intros e s; cbn [run_events app]; [done|].
  rewrite bind_assoc. apply bind_ext. intros. apply IH.
Qed.
Lemma run_events_app_bind {A} l1 l2 e (f : E -> K A) s :
  (e' <- run_events cb (l1 ++ l2) e ;; f e') s = (e1 <- run_events cb l1 e ;; e' <- run_events cb l2 e1 ;; f e') s.
Proof. rewrite <- bind_assoc. apply bind_head, run_events_app. Qed.
Lemma run_events_frame evs e s e' s' : run_events cb evs e s = Ok e' s' -> k_mem s' = k_mem s.
Proof.
  revert e s. induction evs as [|ev evs IH]; intros e s; cbn [run_events]; [by intros [= _ <-]|].
  unfold bind. destruct (run_event cb ev e s) as [e1 s1| |] eqn:E1; [|done..]. intros H. rewrite (IH _ _ H). by eapply Hframe.
Qed.

Lemma see_prop_parent p n : n_parent (see_prop p n) = n_parent n.
Proof. unfold see_prop. by destruct (named p "#address-cells"), (named p "#size-cells"). Qed.
Lemma seen_parent ps n : n_parent (seen ps n) = n_parent n.
Proof. unfold seen. revert n. induction ps as [|p ps IH]; intros n; simpl; [done|]. by rewrite IH, see_prop_parent. Qed.
Lemma tree_events_forest n name ps ts :
  tree_events n (FNode name ps ts) =
  (let n1 := set_n_name name n in
   (Open n1 :: prop_events n1 ps ++ [Done (seen ps n1)] ++ forest_events (mkNode (Some (seen ps n1)) 0 2 1) ts, seen ps n1)).
Proof. unfold tree_events, forest_events. cbn. do 2 f_equal. by rewrite <- app_assoc. Qed.
Lemma forest_events_cons c t ts :
  forest_events c (t :: ts) = fst (tree_events c t) ++ forest_events (snd (tree_events c t)) ts.
Proof. unfold tree_events, forest_events. cbn. destruct (tree_nodes c t) as [l c']. apply flat_map_app. Qed.
Lemma tree_events_parent n t : n_parent (snd (tree_events n t)) = n_parent n.
Proof. destruct t as [name ps ts]. rewrite tree_events_forest. simpl. by rewrite seen_parent. Qed.
Lemma set_n_parent_id n : set_n_parent (n_parent n) n = n.
Proof. by destruct n. Qed.

(** the events that remain in a call of the helper with [ps] and [ts] ahead *)
Definition done_events (last : bool) (node : option fdt_scan_node) : list event :=
  match last, node with false, Some n => [Done n] | _, _ => [] end.
Definition rest_events (last : bool) (node : option fdt_scan_node) (child : fdt_scan_node) (ps : list fprop) (ts : list ftree) : list event :=
  let node' := seen ps <$> node in
  from_option (fun n => prop_events n ps) [] node ++ done_events last node' ++ forest_events (set_n_parent node' child) ts.

Lemma call_done_events last node e s : call_done cb last node e s = run_events cb (done_events last node) e s.
Proof. destruct last, node; try done. cbn [done_events run_events run_event]. unfold bind. by destruct (call_done _ _ _ _ s). Qed.

(** where a call of the helper ends *)
Definition final_word (l2 w : Z) : Prop := word_at m l2 w /\ w <> FDT_NOP /\ w <> FDT_PROP /\ w <> FDT_BEGIN_NODE.
Definition next_lex (l2 w : Z) : Z := if w =? FDT_END_NODE then l2 + 4 else l2.

Definition helper_ok (d : nat) : Prop := forall lex ps l1 ts l2 w node e s,
  enc_props m strings lex ps l1 -> enc_forest m (enc_tree m strings d) l1 ts l2 -> final_word l2 w ->
  (node = None -> ps = []) -> k_mem s = m ->
  fdt_scan_helper cb strings (S d) lex node e s =
  (e' <- run_events cb (rest_events false node (mkNode node 0 2 1) ps ts) e ;; ret (next_lex l2 w, seen ps <$> node, e')) s.

Local Abbreviation token d := (scan_token cb strings (fun lex n e => r <- fdt_scan_helper cb strings d lex (Some n) e ;;
  let '(l, n', e') := r in ret (l, default n n', e'))).

Lemma token_begin d lex t lex' last child node e s :
  (forall d', d = S d' -> helper_ok d') -> enc_tree m strings d lex t lex' -> k_mem s = m ->
  token d (lex, last, child, node, e) s =
  (e' <- run_events cb (done_events last node ++ fst (tree_events (set_n_parent node child) t)) e ;;
   ret (inl (lex', true, snd (tree_events (set_n_parent node child) t), node, e'))) s.
Proof.
  intros IH Ht Hm. destruct d as [|d]; [done|]. specialize (IH d eq_refl). destruct t as [name ps ts].
  destruct Ht as (str & l1 & l2 & H0 & -> & Hs & Hp & Hf & Hend & ->). rewrite tree_events_forest. cbv zeta. cbn [fst snd].
  unfold scan_token. rewrite (bind_Ok _ _ _ _ _ (word_at_ld m _ _ s H0 Hm)). destruct H0 as [_ ->].
  cbn [Z.eqb Pos.eqb FDT_PROP FDT_NOP FDT_BEGIN_NODE].
  rewrite run_events_app_bind, (bind_head _ _ _ _ (call_done_events last node e s)). apply bind_ext.
  intros e1 s1 E1. pose proof (run_events_frame _ _ _ _ _ E1) as Hm1. rewrite Hm in Hm1. cbv zeta.
  set (n := set_n_name (lex + 4) (set_n_parent node child)).
  cbn [run_events run_event]. rewrite bind_assoc. apply bind_ext. intros e2 s2 E2.
  assert (Hm2 : k_mem s2 = m) by (rewrite <- Hm1; by apply (Hframe (Open n) e1 s1 e2 s2)).
  rewrite <- Hm2 in Hs. rewrite (bind_Ok _ _ _ _ _ (strlen_by_spec mld8 s2 _ _ (mcstr_reads _ _ _ Hs))).
  assert (Hfin : final_word l2 FDT_END_NODE) by done.
  assert (Hnode : Some n = None -> ps = []) by done.
  rewrite bind_assoc, (bind_head _ _ _ _ (IH _ ps l1 ts l2 FDT_END_NODE (Some n) e2 s2 Hp Hf Hfin Hnode Hm2)), bind_assoc.
  unfold rest_events. cbn [from_option fmap option_fmap option_map done_events].
  apply bind_ext. intros e3 s3 _. rewrite !bind_ret, Hclose, bind_ret. done.
Qed.

Lemma seen_nil (node : option fdt_scan_node) : seen [] <$> node = node.
Proof. by destruct node. Qed.
Lemma rest_events_prop n child p ps ts :
  rest_events false (Some n) child (p :: ps) ts =
  Property (mkProp (Some (see_prop p n)) (f_name p) (f_value p) (f_len p)) :: rest_events false (Some (see_prop p n)) child ps ts.
Proof. done. Qed.
Lemma rest_events_nil last node child ts :
  rest_events last node child [] ts = done_events last node ++ forest_events (set_n_parent node child) ts.
Proof. unfold rest_events. rewrite seen_nil. by destruct node. Qed.
Lemma rest_events_tree last node child t ts :
  let te := tree_events (set_n_parent node child) t in
  rest_events last node child [] (t :: ts) = (done_events last node ++ fst te) ++ rest_events true node (snd te) [] ts.
Proof.
  intros te. rewrite !rest_events_nil, forest_events_cons. fold te.
  assert (Hp : set_n_parent node (snd te) = snd te).
  { rewrite <- (set_n_parent_id (snd te)) at 2. f_equal. unfold te. by rewrite tree_events_parent. }
  rewrite Hp. by destruct node; rewrite <- app_assoc.
Qed.

(** an iteration that runs [c] and goes on: the outcome of the loop does not
    change *)
Lemma iter_post_bind {X R A} (N : X -> kstate -> Prop) (o : res R) (c : K A) (x' : A -> X) (k : A -> K R) s :
  (a <- c ;; k a) s = o -> (forall a s', c s = Ok a s' -> k a s' = o -> N (x' a) s') ->
  iter_post N (fun r => r = o) ((a <- c ;; ret (inl (x' a))) s).
Proof. unfold bind. destruct (c s); simpl; auto. Qed.

Lemma token_final helper l2 w last child node e s :
  final_word l2 w -> k_mem s = m ->
  scan_token cb strings helper (l2, last, child, node, e) s =
  (e' <- run_events cb (done_events last node) e ;; ret (inr (next_lex l2 w, node, e'))) s.
Proof.
  intros (H0 & Hn1 & Hn2 & Hn3) Hm. unfold scan_token, next_lex. rewrite (bind_Ok _ _ _ _ _ (word_at_ld m _ _ s H0 Hm)).
  destruct H0 as [_ ->]. do 3 rewrite (proj2 (Z.eqb_neq _ _)) by done.
  destruct (w =? FDT_END_NODE); apply bind_head, call_done_events.
Qed.

Lemma enc_start d lex ps l1 ts l2 w :
  enc_props m strings lex ps l1 -> enc_forest m (enc_tree m strings d) l1 ts l2 -> word_at m l2 w -> 0 <= lex.
Proof.
  intros Hp Hf Hw%word_at_range. destruct Hp as [lex|lex ? ? H0%word_at_range|lex ? ? ? ? (? & ? & H0%word_at_range & _)]; try lia.
  destruct Hf as [|? ? ? H0%word_at_range|? [] ? ? ? Ht]; [lia..|]. destruct d; [done|].
  destruct Ht as (? & ? & ? & H0%word_at_range & _). lia.
Qed.
Lemma helper_spec d : helper_ok d.
Proof.
  induction d as [d IH] using lt_wf_ind. intros lex ps l1 ts l2 w node e s Hp Hf Hw Hnode Hm.
  assert (IH' : forall d', d = S d' -> helper_ok d') by (intros d' ->; apply IH; lia). clear IH.
  set (o := (e' <- run_events cb _ e ;; _) s). cbn [fdt_scan_helper].
  pose proof (word_at_range _ _ _ (proj1 Hw)) as Hl2.
  assert (Hle : forall lex ps l1 ts, enc_props m strings lex ps l1 -> enc_forest m (enc_tree m strings d) l1 ts l2 -> lex <= l2).
  { intros ? ? ? ? H1%enc_props_le H2%enc_forest_le; [lia|]. intros ? ? ?. apply enc_tree_le. }
  apply (kwhile_rule (fun '(lex, last, child, node, e) s' => k_mem s' = m /\ exists ps l1 ts,
      enc_props m strings lex ps l1 /\ enc_forest m (enc_tree m strings d) l1 ts l2 /\
      (node = None -> ps = []) /\ (last = true -> ps = []) /\
      (e' <- run_events cb (rest_events last node child ps ts) e ;; ret (next_lex l2 w, seen ps <$> node, e')) s' = o)
    (fun '(lex, _, _, _, _) => l2 - lex) (fun r => r = o)).
  { split; [done|]. by exists ps, l1, ts. }
  { pose proof (Hle _ _ _ _ Hp Hf). assert (0 <= lex); [|lia]. eapply enc_start; [exact Hp|exact Hf|apply Hw]. }
  clearbody o. clear lex ps l1 ts node e s Hp Hf Hnode Hm.
  intros [[[[lex last] child] node] e] s (Hm & ps & l1 & ts & Hp & Hf & Hnode & Hlast & Ho).
  revert Hnode Hlast Ho. inversion Hp as [? E1 E2 E3|? ? ? Hn Hp' E1 E2 E3|? p l ps' ? H1 Hp' E1 E2 E3]; subst; intros Hnode Hlast Ho.
  - revert Hnode Hlast Ho. inversion Hf as [? E1 E2 E3|? ? ? Hn Hf' E1 E2 E3|? t l ts' ? Ht Hf' E1 E2 E3]; subst; intros Hnode Hlast Ho.
    + rewrite (token_final _ _ w) by done. rewrite rest_events_nil, seen_nil in Ho. unfold forest_events in Ho. cbn [forest_nodes flat_map] in Ho.
      rewrite app_nil_r in Ho. rewrite <- Ho. unfold bind. by destruct (run_events cb _ e s).
    + rewrite token_nop by done. pose proof (Hle _ _ _ _ (ep_nil _ _ _) Hf'). simpl. split; [|lia]. split; [done|].
      exists [], (l1 + 4), ts. split_and!; try done. constructor.
    + rewrite (token_begin d l1 t l) by done. rewrite rest_events_tree, run_events_app_bind in Ho.
      pose proof (enc_tree_le _ _ _ _ _ _ Ht). pose proof (Hle _ _ _ _ (ep_nil _ _ _) Hf').
      eapply iter_post_bind; [exact Ho|]. intros e1 s1 E1 Ho1. simpl. split; [|lia].
      split; [rewrite <- Hm; by eapply run_events_frame|]. exists [], l, ts'. split_and!; try done; constructor.
  - rewrite token_nop by done. pose proof (Hle _ _ _ _ Hp' Hf). simpl. split; [|lia]. split; [done|]. by exists ps, l1, ts.
  - destruct node as [n|]; [|by specialize (Hnode eq_refl)]. destruct last; [by specialize (Hlast eq_refl)|].
    pose proof (enc_prop_lt _ _ _ _ _ H1). pose proof (Hle _ _ _ _ Hp' Hf).
    rewrite (token_prop _ _ p l) by done. rewrite rest_events_prop in Ho. cbn [run_events] in Ho. rewrite bind_assoc in Ho.
    eapply iter_post_bind; [exact Ho|]. intros e1 s1 E1 Ho1. simpl. split; [|lia].
    split; [rewrite <- Hm; by eapply Hframe|]. by exists ps', l1, ts.
Qed.
End ScanSpec.

(* ------------------------------------------------------------------ *)
(** * fdt_scan *)

(** the blob at [fdt] describes the trees [ts] *)
Definition device_tree (m : gmap Z Z) (fdt : Z) (ts : list ftree) : Prop :=
  exists v strings lex l2 w, word_at m (fdt + FH_magic) FDT_MAGIC /\ word_at m (fdt + FH_last_comp_version) v /\ v <= FDT_VERSION /\
    word_at m (fdt + FH_off_dt_strings) (strings - fdt) /\ word_at m (fdt + FH_off_dt_struct) (lex - fdt) /\
    enc_forest m (enc_tree m strings (fdt_depth - 1)) lex ts l2 /\ final_word m l2 w /\
    literal m "#address-cells" /\ literal m "#size-cells".
Definition root_node : fdt_scan_node := mkNode None 0 2 1.

Lemma fdt_scan_spec {E} (cb : fdt_cb E) fdt ts e s :
  cb_close cb = None -> (forall ev e s e' s', run_event cb ev e s = Ok e' s' -> k_mem s' = k_mem s) ->
  device_tree (k_mem s) fdt ts -> fdt_scan fdt cb e s = run_events cb (forest_events root_node ts) e s.
Proof.
  intros Hc Hf (v & strings & lex & l2 & w & H1 & H2 & Hv & H3 & H4 & Ht & Hw & Ha & Hs). unfold fdt_scan.
  rewrite (bind_Ok _ _ _ _ _ (word_at_ld _ _ _ s H1 eq_refl)). destruct H1 as [_ ->]. rewrite Z.eqb_refl. cbn [negb].
  rewrite (bind_Ok _ _ _ _ _ (word_at_ld _ _ _ s H2 eq_refl)). destruct H2 as [_ ->]. rewrite (proj2 (Z.ltb_ge _ _)) by done.
  rewrite (bind_Ok _ _ _ _ _ (word_at_ld _ _ _ s H3 eq_refl)). cbv zeta.
  rewrite (bind_Ok _ _ _ _ _ (word_at_ld _ _ _ s H4 eq_refl)). destruct H3 as [_ ->], H4 as [_ ->].
  replace (fdt + (strings - fdt)) with strings by lia. replace (fdt + (lex - fdt)) with lex by lia.
  change fdt_depth with (S (fdt_depth - 1)).
  rewrite (bind_head _ _ _ _ (helper_spec cb strings (k_mem s) Hc Hf Ha Hs _ lex [] lex ts l2 w None e s (ep_nil _ _ _) Ht Hw (fun _ => eq_refl) eq_refl)).
  rewrite bind_assoc. unfold bind, rest_events. simpl. by destruct (run_events _ _ _ _).
Qed.

Lemma run_nodes {E} (cb : fdt_cb E) xs e s :
  run_events cb (flat_map node_events xs) e s =
  (fix go xs e := match xs with [] => ret e | x :: xs' => e <- run_events cb (node_events x) e ;; go xs' e end) xs e s.
Proof.
  revert e s. induction xs as [|x xs IH]; intros e s; [done|]. cbn [flat_map]. rewrite run_events_app.
  apply bind_ext. intros. apply IH.
Qed.

(** ** Discovery of HTIF *)

Section Queries.
Variables (m : gmap Z Z) (vals : Z -> list Z).

(** the property [name = "value"] *)
Definition is_prop (name value : string) (p : fprop) : bool :=
  named p name && bool_decide (vals (f_value p) = chars_of value).
Definition readable (name : string) (ps : list fprop) : Prop :=
  forall p, p ∈ ps -> mcstr m (f_name p) (f_str p) /\ (named p name = true -> mcstr m (f_value p) (vals (f_value p))).

Lemma is_prop_spec name value p n s :
  k_mem s = m -> literal m name -> literal m value -> mcstr m (f_name p) (f_str p) ->
  (named p name = true -> mcstr m (f_value p) (vals (f_value p))) ->
  (b <- strcmp_lit (pr_name (mkProp n (f_name p) (f_value p) (f_len p))) name ;;
   if b : bool then strcmp_lit (pr_value (mkProp n (f_name p) (f_value p) (f_len p))) value else ret false) s = Ok (is_prop name value p) s.
Proof.
  intros Hm Hn Hv Hp Hpv. cbn [pr_name pr_value]. rewrite (bind_Ok _ _ _ _ _ (strcmp_lit_spec m _ _ _ s Hm Hn Hp)). unfold is_prop.
  change (bool_decide (f_str p = chars_of name)) with (named p name). destruct (named p name); [|done].
  rewrite andb_true_l. apply (strcmp_lit_spec m); auto.
Qed.

(** ** Discovery of HTIF *)

Lemma htif_prop_spec p n scan s :
  k_mem s = m -> literal m "compatible" -> literal m "ucb,htif0" -> mcstr m (f_name p) (f_str p) ->
  (named p "compatible" = true -> mcstr m (f_value p) (vals (f_value p))) ->
  htif_prop (mkProp n (f_name p) (f_value p) (f_len p)) scan s =
  Ok (mkHtifScan (if is_prop "compatible" "ucb,htif0" p then 1 else hs_compat scan) (hs_htif scan)) s.
Proof.
  intros Hm H1 H2 Hp Hv. unfold htif_prop. rewrite <- bind_assoc, (bind_Ok _ _ _ _ _ (is_prop_spec _ _ p n s Hm H1 H2 Hp Hv)).
  destruct (is_prop _ _ p); [done|by destruct scan].
Qed.
Lemma htif_props ps n scan s :
  k_mem s = m -> literal m "compatible" -> literal m "ucb,htif0" -> readable "compatible" ps ->
  run_events htif_cb (prop_events n ps) scan s =
  Ok (mkHtifScan (if existsb (is_prop "compatible" "ucb,htif0") ps then 1 else hs_compat scan) (hs_htif scan)) s.
Proof.
  intros Hm H1 H2. revert n scan. induction ps as [|p ps IH]; intros n scan Hr; [by destruct scan|].
  cbn [prop_events run_events run_event htif_cb cb_prop]. destruct (Hr p ltac:(set_solver)) as [Hp Hv].
  rewrite (bind_Ok _ _ _ _ _ (htif_prop_spec p _ scan s Hm H1 H2 Hp Hv)), IH; [|intros q Hq; apply Hr; set_solver].
  cbn [existsb hs_compat hs_htif]. by destruct (is_prop _ _ p), (existsb _ ps).
Qed.
Definition node_htif (x : fdt_scan_node * list fprop) : bool := existsb (is_prop "compatible" "ucb,htif0") (snd x).
Lemma htif_nodes xs scan s :
  k_mem s = m -> literal m "compatible" -> literal m "ucb,htif0" -> Forall (fun x => readable "compatible" (snd x)) xs ->
  exists scan', run_events htif_cb (flat_map node_events xs) scan s = Ok scan' s /\
    hs_htif scan' = if existsb node_htif xs then 1 else hs_htif scan.
Proof.
  intros Hm H1 H2 Hr. revert scan. induction Hr as [|[n ps] xs Hx Hr IH]; intros scan; [by exists scan|].
  cbn [flat_map]. rewrite run_events_app. unfold node_events. cbn [fst snd run_events].
  set (c := existsb (is_prop "compatible" "ucb,htif0") ps).
  assert (E : run_events htif_cb (Open n :: prop_events n ps ++ [Done (seen ps n)]) scan s =
     Ok (mkHtifScan (if c then 1 else 0) (if c then 1 else hs_htif scan)) s).
  { cbn [run_events]. erewrite bind_Ok by reflexivity. rewrite run_events_app, (bind_Ok _ _ _ _ _ (htif_props ps n _ s Hm H1 H2 Hx)).
    fold c. by destruct c. }
  cbn [run_events] in E. rewrite (bind_Ok _ _ _ _ _ E). destruct (IH (mkHtifScan (if c then 1 else 0) (if c then 1 else hs_htif scan))) as (scan' & E' & Hs).
  exists scan'. split; [done|]. rewrite Hs. cbn [existsb]. unfold node_htif at 2. cbn [snd hs_htif]. fold c. by destruct c, (existsb node_htif xs).
Qed.

(** ** Memory ranges *)

(** the value of [k] cells from address [v] *)
Definition cells (v : Z) (k : nat) : Z :=
  fold_left (fun r i => u64 (u64 (Z.shiftl r 32) + bswap (load32 m (v + 4 * Z.of_nat i)))) (seq 0 k) 0.
Definition words_ok (v n : Z) : Prop := v mod 4 = 0 /\ 0 < v /\ v + 4 * n <= 2 ^ 56.

Lemma words_ok_ld v n i s :
  k_mem s = m -> words_ok v n -> 0 <= i < n -> mld32 (v + 4 * i) s = Ok (load32 m (v + 4 * i)) s.
Proof.
  intros <- (Ha & ? & ?) Hi. apply mld32_ok. unfold phys_ok. rewrite !andb_true_iff, !Z.leb_le, Z.eqb_eq. dlia.
Qed.
Lemma get_cells_spec c v s :
  k_mem s = m -> words_ok v (Z.of_nat (Z.to_nat c)) -> c < 2 ^ 32 ->
  get_cells c v s = Ok (v + 4 * Z.of_nat (Z.to_nat c), cells v (Z.to_nat c)) s.
Proof.
  intros Hm Hw Hc. unfold get_cells. set (k := Z.to_nat c) in *.
  apply (kwhile_rule (fun '(c', v', r) s' => s' = s /\ exists j, (j <= k)%nat /\ (c' = c - Z.of_nat j) /\ v' = v + 4 * Z.of_nat j /\ r = cells v j)
    (fun '(c', _, _) => Z.max 0 c') (fun o => o = Ok _ s)).
  - split; [done|]. exists 0%nat. split_and!; [lia..|done].
  - lia.
  - intros [[c' v'] r] s' (-> & j & Hj & -> & -> & ->). zcase.
    + rewrite (bind_Ok _ _ _ _ _ (words_ok_ld v _ (Z.of_nat j) s Hm Hw ltac:(lia))). simpl. split; [|lia]. split; [done|].
      exists (S j). split_and!; [lia..|]. unfold cells. by rewrite seq_S, fold_left_app.
    + simpl. do 2 f_equal; [lia|]. f_equal. lia.
Qed.

Definition is_mem : fprop -> bool := is_prop "device_type" "memory".
(** the last reg property *)
Definition last_reg (ps : list fprop) : option fprop :=
  fold_left (fun r p => if is_mem p then r else if named p "reg" then Some p else r) ps None.
Definition stride (p : fdt_scan_node) : nat := Z.to_nat (n_address_cells p) + Z.to_nat (n_size_cells p).
Definition range_at (p : fdt_scan_node) (v : Z) (i : nat) : Z * Z :=
  let a := v + 4 * Z.of_nat (stride p * i) in
  (cells a (Z.to_nat (n_address_cells p)), cells (a + 4 * Z.of_nat (Z.to_nat (n_address_cells p))) (Z.to_nat (n_size_cells p))).
(** the ranges a node adds: those of its reg property, if it is a memory node *)
Definition node_ranges (x : fdt_scan_node * list fprop) : list (Z * Z) :=
  if existsb is_mem (snd x) then
    match last_reg (snd x), n_parent (fst x) with
    | Some r, Some p => range_at p (f_value r) <$> seq 0 (Z.to_nat (f_len r) / (4 * stride p))
    | _, _ => []
    end
  else [].
Definition mem_node_ok (x : fdt_scan_node * list fprop) : Prop :=
  readable "device_type" (snd x) /\
  (existsb is_mem (snd x) = true -> exists r p k, last_reg (snd x) = Some r /\ n_parent (fst x) = Some p /\
     n_address_cells p < 2 ^ 32 /\ n_size_cells p < 2 ^ 32 /\ (0 < stride p)%nat /\
     f_len r = 4 * Z.of_nat (stride p * k) /\ words_ok (f_value r) (Z.of_nat (stride p * k))).
(** the size after looking at ranges: the last one around mem_done counts *)
Definition best_size (sz : Z) (rs : list (Z * Z)) : Z :=
  fold_left (fun sz '(base, size) =>
    if (base <=? link_addr "mem_done") && (link_addr "mem_done" <=? u64 (base + size)) then size else sz) rs sz.

Lemma mem_prop_spec p n scan s :
  k_mem s = m -> literal m "device_type" -> literal m "memory" -> literal m "reg" -> mcstr m (f_name p) (f_str p) ->
  (named p "device_type" = true -> mcstr m (f_value p) (vals (f_value p))) ->
  mem_prop (mkProp n (f_name p) (f_value p) (f_len p)) scan s =
  Ok (if is_mem p then mkMemScan 1 (ms_reg_value scan) (ms_reg_len scan)
      else if named p "reg" then mkMemScan (ms_memory scan) (f_value p) (f_len p) else scan) s.
Proof.
  intros Hm H1 H2 H3 Hp Hv. unfold mem_prop. rewrite <- bind_assoc, (bind_Ok _ _ _ _ _ (is_prop_spec _ _ p n s Hm H1 H2 Hp Hv)).
  fold is_mem. change (is_prop "device_type" "memory" p) with (is_mem p). destruct (is_mem p); [done|].
  cbn [pr_name pr_value pr_len]. rewrite (bind_Ok _ _ _ _ _ (strcmp_lit_spec m _ _ _ s Hm H3 Hp)).
  change (bool_decide (f_str p = chars_of "reg")) with (named p "reg"). by destruct (named p "reg").
Qed.

Definition scan_of (c : bool) (r : option fprop) : mem_scan :=
  mkMemScan (if c then 1 else 0) (from_option f_value 0 r) (from_option f_len 0 r).
Lemma mem_props ps n c r s :
  k_mem s = m -> literal m "device_type" -> literal m "memory" -> literal m "reg" -> readable "device_type" ps ->
  run_events mem_cb (prop_events n ps) (scan_of c r) s =
  Ok (scan_of (c || existsb is_mem ps)
       (fold_left (fun r p => if is_mem p then r else if named p "reg" then Some p else r) ps r)) s.
Proof.
  intros Hm H1 H2 H3. revert n c r. induction ps as [|p ps IH]; intros n c r Hr; [by rewrite orb_false_r|].
  cbn [prop_events run_events run_event mem_cb cb_prop]. destruct (Hr p ltac:(set_solver)) as [Hp Hv].
  rewrite (bind_Ok _ _ _ _ _ (mem_prop_spec p _ _ s Hm H1 H2 H3 Hp Hv)). cbn [existsb fold_left].
  assert (Hr' : readable "device_type" ps) by (intros q Hq; apply Hr; set_solver).
  destruct (is_mem p); [|destruct (named p "reg")].
  - change (mkMemScan 1 _ _) with (scan_of true r). rewrite IH by done. by rewrite orb_true_r.
  - change (mkMemScan _ (f_value p) (f_len p)) with (scan_of c (Some p)). by rewrite IH.
  - by rewrite IH.
Qed.

Lemma words_ok_sub v n i k : words_ok v n -> 0 <= i -> 0 <= k -> i + k <= n -> words_ok (v + 4 * i) k.
Proof. intros (?&?&?) ? ? ?. unfold words_ok. split; [dlia|lia]. Qed.
Lemma best_size_snoc sz rs r : best_size sz (rs ++ [r]) = best_size (best_size sz rs) [r].
Proof. apply fold_left_app. Qed.

Lemma mem_step_spec node p v k (j : nat) s :
  k_mem s = m -> n_parent node = Some p -> n_address_cells p < 2 ^ 32 -> n_size_cells p < 2 ^ 32 -> (0 < stride p)%nat -> (j < k)%nat ->
  words_ok v (Z.of_nat (stride p * k)) ->
  mem_step node (v + 4 * Z.of_nat (stride p * k)) (v + 4 * Z.of_nat (stride p * j)) s =
  Ok (inl (v + 4 * Z.of_nat (stride p * S j))) (set_k_mem_size (best_size (k_mem_size s) [range_at p v j]) s).
Proof.
  intros Hm Hp Ha Hz Hst Hj Hw. unfold mem_step. assert (Hlt : (stride p * S j <= stride p * k)%nat) by (apply Nat.mul_le_mono_l; lia).
  rewrite Nat.mul_succ_r in Hlt. rewrite (proj2 (Z.ltb_lt 0 _)) by lia. rewrite Hp.
  set (A := Z.to_nat (n_address_cells p)). set (B := Z.to_nat (n_size_cells p)). assert (HAB : stride p = (A + B)%nat) by done.
  set (a := v + 4 * Z.of_nat (stride p * j)).
  assert (HA : words_ok a (Z.of_nat A)) by (eapply words_ok_sub; [exact Hw|lia..]).
  assert (HB : words_ok (a + 4 * Z.of_nat A) (Z.of_nat B)).
  { unfold a. rewrite <- Z.add_assoc, <- Z.mul_add_distr_l. eapply words_ok_sub; [exact Hw|lia..]. }
  unfold fdt_get_address, fdt_get_size. rewrite (bind_Ok _ _ _ _ _ (get_cells_spec _ a s Hm HA Ha)). fold A.
  cbv beta iota. rewrite (bind_Ok _ _ _ _ _ (get_cells_spec _ (a + 4 * Z.of_nat A) s Hm HB Hz)). fold B. cbv beta iota.
  replace (v + 4 * Z.of_nat (stride p * S j)) with (a + 4 * Z.of_nat A + 4 * Z.of_nat B) by (unfold a; lia).
  unfold best_size, range_at. cbv zeta. fold A B a. cbn [fold_left].
  destruct (_ && _)%bool; [done|]. rewrite bind_ret. by destruct s.
Qed.

Lemma mem_done_spec node r p k s :
  k_mem s = m -> n_parent node = Some p -> n_address_cells p < 2 ^ 32 -> n_size_cells p < 2 ^ 32 -> (0 < stride p)%nat ->
  f_len r = 4 * Z.of_nat (stride p * k) -> words_ok (f_value r) (Z.of_nat (stride p * k)) ->
  mem_done node (scan_of true (Some r)) s =
  Ok (scan_of true (Some r)) (set_k_mem_size (best_size (k_mem_size s) (range_at p (f_value r) <$> seq 0 k)) s).
Proof.
  intros Hm Hp Ha Hz Hst Hlen Hw. unfold mem_done. cbn [scan_of ms_memory ms_reg_value ms_reg_len from_option Z.eqb].
  set (v := f_value r) in *.
  assert (Hv : (v =? 0) = false) by (apply Z.eqb_neq; destruct Hw as (_ & ? & ?); lia).
  rewrite Hv, Hlen. cbn [orb]. rewrite Z.rem_mod_nonneg, Z.quot_div_nonneg by lia.
  rewrite (Z.mul_comm 4), Z.mod_mul, Z.div_mul by lia. cbn [Z.eqb negb].
  set (end_ := v + 4 * Z.of_nat (stride p * k)).
  assert (E : kwhile (mem_step node end_) v s = Ok end_ (set_k_mem_size (best_size (k_mem_size s) (range_at p v <$> seq 0 k)) s)).
  { apply (kwhile_rule (fun value s' => exists j, (j <= k)%nat /\ value = v + 4 * Z.of_nat (stride p * j) /\
        s' = set_k_mem_size (best_size (k_mem_size s) (range_at p v <$> seq 0 j)) s) (fun x => end_ - x) (fun o => o = Ok _ _)).
    - exists 0%nat. split_and!; [lia|lia|by destruct s].
    - unfold end_. destruct Hw as (_ & ? & ?). lia.
    - intros x s' (j & Hj & -> & ->). destruct (decide (j = k)) as [->|Hne].
      + unfold mem_step. rewrite (proj2 (Z.ltb_ge 0 _)) by lia. done.
      + unfold end_. rewrite (mem_step_spec node p v k j) by (done || lia). simpl.
        assert ((stride p * S j <= stride p * k)%nat) by (apply Nat.mul_le_mono_l; lia). rewrite Nat.mul_succ_r in *. split; [|lia].
        exists (S j). split_and!; [lia|by rewrite Nat.mul_succ_r|]. rewrite seq_S, fmap_app. cbn [fmap list_fmap Nat.add]. by rewrite best_size_snoc. }
  rewrite (bind_Ok _ _ _ _ _ E), Z.eqb_refl. done.
Qed.

Lemma mem_nodes xs scan s :
  k_mem s = m -> literal m "device_type" -> literal m "memory" -> literal m "reg" -> Forall mem_node_ok xs ->
  exists scan', run_events mem_cb (flat_map node_events xs) scan s =
    Ok scan' (set_k_mem_size (best_size (k_mem_size s) (flat_map node_ranges xs)) s).
Proof.
  intros Hm H1 H2 H3 Hr. revert scan s Hm. induction Hr as [|[n ps] xs [Hrd Hx] Hr IH]; intros scan s Hm; [by exists scan; destruct s|].
  cbn [fst snd] in *. set (c := existsb is_mem ps) in *.
  assert (E : run_events mem_cb (node_events (n, ps)) scan s =
    Ok (scan_of c (last_reg ps)) (set_k_mem_size (best_size (k_mem_size s) (node_ranges (n, ps))) s)).
  { unfold node_events, node_ranges. cbn [fst snd run_events]. erewrite bind_Ok by reflexivity. rewrite run_events_app.
    change (mkMemScan 0 0 0) with (scan_of false None).
    rewrite (bind_Ok _ _ _ _ _ (mem_props ps n false None s Hm H1 H2 H3 Hrd)). fold c. cbn [orb]. fold (last_reg ps).
    cbn [run_events run_event call_done cb_done mem_cb]. destruct c; [|by destruct s].
    destruct (Hx eq_refl) as (r & p & k & Er & Ep & Ha & Hz & Hst & Hlen & Hw). rewrite Er, Ep.
    rewrite (bind_Ok _ _ _ _ _ (mem_done_spec (seen ps n) r p k s Hm ltac:(by rewrite seen_parent) Ha Hz Hst Hlen Hw)).
    replace (Z.to_nat (f_len r) / (4 * stride p))%nat with k; [done|]. rewrite Hlen. apply Nat.div_unique_exact; lia. }
  cbn [flat_map]. rewrite run_events_app, (bind_Ok _ _ _ _ _ E).
  destruct (IH (scan_of c (last_reg ps)) (set_k_mem_size (best_size (k_mem_size s) (node_ranges (n, ps))) s) Hm) as (scan' & E').
  exists scan'. rewrite E'. cbn [k_mem_size set_k_mem_size]. unfold best_size. by rewrite fold_left_app.
Qed.
End Queries.

(** ** The callbacks write no memory *)

Definition mem_same (s s' : kstate) : Prop := k_mem s' = k_mem s.
#[local] Instance mem_same_refl : Reflexive mem_same.
Proof. done. Qed.
#[local] Instance mem_same_trans : Transitive mem_same.
Proof. intros ? ? ? H1 H2. unfold mem_same in *. congruence. Qed.
(** a computation that, when it returns, leaves memory as it was *)
Definition quiet {A} (c : K A) : Prop := forall s a s', c s = Ok a s' -> mem_same s s'.
Lemma quiet_ret {A} (a : A) : quiet (ret a).
Proof. by intros s ? s' [= _ <-]. Qed.
Lemma quiet_halt {A} h : quiet (halt (A:=A) h).
Proof. done. Qed.
Lemma quiet_bind {A B} (c : K A) (f : A -> K B) : quiet c -> (forall a, quiet (f a)) -> quiet (x <- c ;; f x).
Proof. intros Hc Hf s b s'. unfold bind. destruct (c s) as [a s1| |] eqn:E; [|done..]. intros H. etrans; [by eapply Hc|by eapply Hf]. Qed.
Lemma quiet_kwhile {X R} (body : X -> K (X + R)) x : (forall x, quiet (body x)) -> quiet (kwhile body x).
Proof. intros Hb s r s'. apply (kwhile_frame mem_same). intros ? ? ? ?. apply Hb. Qed.
Lemma quiet_ld8 a : quiet (mld8 a).
Proof. intros s x s'. unfold mld8. destruct (phys_ok 1 a); [by intros [= _ <-]|done]. Qed.
Lemma quiet_ld32 a : quiet (mld32 a).
Proof. intros s x s'. unfold mld32. destruct (phys_ok 4 a); [by intros [= _ <-]|done]. Qed.
Lemma quiet_mem_size v : quiet (modify (set_k_mem_size v)).
Proof. by intros s x s' [= _ <-]. Qed.
Ltac quiet := repeat first
  [ apply quiet_ret | apply quiet_halt | apply quiet_ld8 | apply quiet_ld32 | apply quiet_mem_size
  | apply quiet_bind; [|intros] | apply quiet_kwhile; intros
  | match goal with |- quiet (if ?b then _ else _) => destruct b end
  | match goal with |- quiet (match ?x with _ => _ end) => destruct x end ].

Lemma quiet_strcmp p q : quiet (strcmp_by mld8 p q).
Proof. unfold strcmp_by. quiet. Qed.
Lemma quiet_strcmp_lit p lit : quiet (strcmp_lit p lit).
Proof. unfold strcmp_lit. apply quiet_bind; [apply quiet_strcmp|intros; quiet]. Qed.
Lemma quiet_get_cells c v : quiet (get_cells c v).
Proof. unfold get_cells. quiet. Qed.
Lemma htif_quiet ev e : quiet (run_event htif_cb ev e).
Proof.
  destruct ev; cbn; unfold htif_open, htif_prop, htif_done; quiet; apply quiet_strcmp_lit.
Qed.
Lemma mem_quiet ev e : quiet (run_event mem_cb ev e).
Proof.
  destruct ev; cbn; unfold mem_open, mem_prop, mem_done, mem_step, fdt_get_address, fdt_get_size; quiet;
    (apply quiet_strcmp_lit || apply quiet_get_cells).
Qed.

(** ** What boot needs of the blob *)

Record boot_tree (m : gmap Z Z) (dtb : Z) (ts : list ftree) (vals : Z -> list Z) : Prop := {
  bt_tree : device_tree m dtb ts;
  bt_lit x : x ∈ ["compatible"; "ucb,htif0"; "device_type"; "memory"; "reg"] -> literal m x;
  bt_htif : Forall (fun x => readable m vals "compatible" (snd x)) (forest_nodes root_node ts);
  bt_mem : Forall (mem_node_ok m vals) (forest_nodes root_node ts)
}.
Definition boot_mem_size (m : gmap Z Z) (ts : list ftree) (vals : Z -> list Z) : Z :=
  best_size 0 (flat_map (node_ranges m vals) (forest_nodes root_node ts)).

(* ------------------------------------------------------------------ *)
(** * Properties *)

(** C25. The scanner reports the device tree: on a well-formed blob, with callbacks
    that write no memory and delete no node, [fdt_scan] terminates and performs
    exactly the calls of the trace: for each node in document order open, one call
    per property in order with the cell counts seen so far, and done once, before
    its children. *)
Theorem fdt_scan_reports {E} (cb : fdt_cb E) fdt ts e s :
  cb_close cb = None -> (forall ev e s e' s', run_event cb ev e s = Ok e' s' -> k_mem s' = k_mem s) ->
  device_tree (k_mem s) fdt ts -> fdt_scan fdt cb e s = run_events cb (forest_events root_node ts) e s.
Proof. apply fdt_scan_spec. Qed.

(** The children of a node share one structure, which is initialised with the
    default cell counts only once: a child opened after a sibling that has an
    #address-cells property starts with the sibling's count instead of 2. *)
Theorem sibling_cells_leak c a b p ps ts1 ts2 :
  named p "#address-cells" = true -> named p "#size-cells" = false ->
  exists l n l', forest_nodes c [FNode a [p] ts1; FNode b ps ts2] = l ++ (n, ps) :: l' /\ n_name n = b /\
    n_address_cells n = s32 (f_word p).
Proof.
  intros H1 H2. cbn [forest_nodes tree_nodes seen fold_left]. unfold see_prop. rewrite H1, H2.
  eexists _, _, _. split; [reflexivity|]. done.
Qed.

Lemma query_htif_spec fdt ts vals scan s :
  let m := k_mem s in
  device_tree m fdt ts -> literal m "compatible" -> literal m "ucb,htif0" ->
  Forall (fun x => readable m vals "compatible" (snd x)) (forest_nodes root_node ts) ->
  query_htif fdt scan s =
  Ok (if existsb (node_htif vals) (forest_nodes root_node ts) then 1 else hs_htif scan) s.
Proof.
  intros m Ht H1 H2 Hr. unfold query_htif.
  rewrite (bind_head _ _ _ _ (fdt_scan_spec htif_cb fdt ts scan s eq_refl htif_quiet Ht)).
  destruct (htif_nodes m vals (forest_nodes root_node ts) scan s eq_refl H1 H2 Hr) as (scan' & E & Hs).
  unfold forest_events. rewrite (bind_Ok _ _ _ _ _ E), Hs. done.
Qed.

(** [query_htif] finds HTIF exactly when some node of the tree has the property
    compatible = "ucb,htif0"; otherwise [htif] keeps its value.  Nothing else
    changes. *)
Theorem query_htif_finds fdt ts vals scan s :
  let m := k_mem s in
  device_tree m fdt ts -> literal m "compatible" -> literal m "ucb,htif0" ->
  Forall (fun x => readable m vals "compatible" (snd x)) (forest_nodes root_node ts) ->
  query_htif fdt scan s =
  Ok (if existsb (node_htif vals) (forest_nodes root_node ts) then 1 else hs_htif scan) s.
Proof. apply query_htif_spec. Qed.

Lemma query_mem_spec fdt ts vals scan s :
  let m := k_mem s in
  let sz := best_size 0 (flat_map (node_ranges m vals) (forest_nodes root_node ts)) in
  device_tree m fdt ts -> literal m "device_type" -> literal m "memory" -> literal m "reg" ->
  Forall (mem_node_ok m vals) (forest_nodes root_node ts) ->
  query_mem fdt scan s =
  (if 0 <? sz then Ok tt (set_k_mem_size sz s) else Stop (Poweroff "g_mem_size > 0") (set_k_mem_size sz s)).
Proof.
  intros m sz Ht H1 H2 H3 Hr. unfold query_mem. erewrite bind_Ok by reflexivity. cbv beta.
  set (s0 := set_k_mem_size 0 s).
  rewrite (bind_head _ _ _ _ (fdt_scan_spec mem_cb fdt ts scan s0 eq_refl mem_quiet Ht)).
  destruct (mem_nodes m vals (forest_nodes root_node ts) scan s0 eq_refl H1 H2 H3 Hr) as (scan' & E).
  unfold forest_events. rewrite (bind_Ok _ _ _ _ _ E). erewrite bind_Ok by reflexivity. cbn [k_mem_size set_k_mem_size]. fold sz.
  change (k_mem_size s0) with 0. fold sz. by destruct (0 <? sz).
Qed.

(** [query_mem] sets [g_mem_size] to the size of the last range, among the reg
    properties of the memory nodes in document order, that contains the kernel's
    own code; when there is none (or its size is 0) the machine is powered off. *)
Theorem query_mem_size fdt ts vals scan s :
  let m := k_mem s in
  let sz := best_size 0 (flat_map (node_ranges m vals) (forest_nodes root_node ts)) in
  device_tree m fdt ts -> literal m "device_type" -> literal m "memory" -> literal m "reg" ->
  Forall (mem_node_ok m vals) (forest_nodes root_node ts) ->
  query_mem fdt scan s =
  (if 0 <? sz then Ok tt (set_k_mem_size sz s) else Stop (Poweroff "g_mem_size > 0") (set_k_mem_size sz s)).
Proof. apply query_mem_spec. Qed.
End Dts.

(* ------------------------------------------------------------------ *)
(** * Witnesses *)

(** the device tree of a machine with 1 MiB of memory and HTIF *)
Module DemoTree.
Definition lits : list string := ["#address-cells"; "#size-cells"; "device_type"; "reg"; "compatible"; "memory"; "ucb,htif0"].
Definition lit_addr (x : string) : Z :=
  match list_find (x =.) lits with Some (i, _) => 0x80018000 + 32 * Z.of_nat i | None => 0x80001000 end.
Definition platform : Platform := {|
  trap_sec_start := 0x80005000;
  smode_trap_vector := 0x80005004;
  smode_trap_handler_addr := 0x80001000;
  etext := 0x80010000;
  kernel_end := 0x80020000;
  link_addr := lit_addr;
  host_state := Z;
  host_call := fun _ _ m h => (h, m, h)
|}.
(** a string as big-endian words *)
Fixpoint pack (fuel : nat) (l : list Z) : list Z :=
  match fuel, l with
  | S f, a :: l' => (a * 2 ^ 24 + default 0 (l' !! 0%nat) * 2 ^ 16 + default 0 (l' !! 1%nat) * 2 ^ 8 + default 0 (l' !! 2%nat)) :: pack f (drop 3 l')
  | _, _ => []
  end.
Definition text (x : string) : list Z := pack 16 (chars_of x ++ [0]).
Definition structure : list Z :=
  [FDT_BEGIN_NODE; 0; FDT_PROP; 4; 0; 2; FDT_PROP; 4; 15; 2] ++
  [FDT_BEGIN_NODE] ++ text "memory@80000000" ++ [FDT_PROP; 7; 27] ++ text "memory" ++ [FDT_PROP; 16; 39; 0; 0x80000000; 0; 0x100000; FDT_END_NODE] ++
  [FDT_NOP; FDT_BEGIN_NODE] ++ text "htif" ++ [FDT_PROP; 10; 43] ++ text "ucb,htif0" ++ [FDT_END_NODE] ++
  [FDT_END_NODE; FDT_END].
Definition header : list Z := [FDT_MAGIC; 0; 0x100; 0x800; 0; 17; 16].
Definition names : list Z := flat_map (fun x => chars_of x ++ [0]) (take 5 lits).
Definition put_words (a : Z) (l : list Z) (m : gmap Z Z) : gmap Z Z :=
  fold_left (fun m '(i, w) => store32 m (a + 4 * Z.of_nat i) (bswap w)) (imap pair l) m.
Definition mem : gmap Z Z :=
  fold_left (fun m x => put_str (lit_addr x) (chars_of x) m) lits
    (put_words 0x82000000 header (put_words 0x82000100 structure (put_str 0x82000800 names ∅))).
Definition state : @kstate platform :=
  @mkState platform mem 0 0 0 0 (replicate 32 null_proc) None None
    USER_FREE_ADDRESS_START 0 0 (fun _ => 0) 0 (replicate 10 0)
    (replicate 128 (mkSpikeFile (-1) 0)) (replicate 128 None) 0.

Definition prop (off : Z) (name : string) (value len word : Z) : fprop :=
  mkFprop (0x82000800 + off) (0x82000100 + value) len (chars_of name) word.
Definition tree : list ftree :=
  [FNode 0x82000104 [prop 0 "#address-cells" 20 4 2; prop 15 "#size-cells" 36 4 2]
    [FNode 0x8200012c [prop 27 "device_type" 72 7 0; prop 39 "reg" 92 16 0] [];
     FNode 0x82000178 [prop 43 "compatible" 140 10 0] []]].
Definition vals (a : Z) : list Z := if a =? 0x82000148 then chars_of "memory" else chars_of "ucb,htif0".

Ltac word := match goal with |- word_at _ _ _ => split; vm_compute; reflexivity end.
Lemma mcstr_check m p l :
  forallb (fun '(i, c) => negb (c =? 0) && (load8 m (p + Z.of_nat i) =? c)) (imap pair l)
  && (load8 m (p + Z.of_nat (length l)) =? 0) = true ->
  DRAM_BASE <= p /\ p + (Z.of_nat (length l) + 1) <= PHYS_TOP -> mcstr m p l.
Proof.
  intros H [H1 H2]. unfold PHYS_TOP, PKE_MAX_ALLOWABLE_RAM, DRAM_BASE in *.
  assert (Hr : region_ok p (Z.of_nat (length l) + 1)) by (unfold region_ok, PHYS_TOP, PKE_MAX_ALLOWABLE_RAM, DRAM_BASE; lia).
  destruct (cstr_check m p l H Hr) as [Hc _]. split; [done|lia].
Qed.
Ltac cstring := apply mcstr_check; [vm_compute; reflexivity|vm_compute; split_and!; congruence].

Lemma literals x : x ∈ lits -> @literal platform mem x.
Proof.
  intros Hx. assert (Hb : forallb (fun x => forallb (fun '(i, c) => negb (c =? 0) && (load8 mem (lit_addr x + Z.of_nat i) =? c)) (imap pair (chars_of x))
    && (load8 mem (lit_addr x + Z.of_nat (length (chars_of x))) =? 0) && (0 <=? lit_addr x - DRAM_BASE) && (lit_addr x + (Z.of_nat (length (chars_of x)) + 1) <=? PHYS_TOP)) lits = true)
    by (vm_compute; reflexivity).
  rewrite forallb_forall in Hb. specialize (Hb x (proj1 (list_elem_of_In _ _) Hx)).
  apply andb_true_iff in Hb as [[Hb H1]%andb_true_iff H2]. apply Z.leb_le in H1, H2. apply mcstr_check; [exact Hb|]. change (@link_addr platform x) with (lit_addr x). lia.
Qed.
Lemma lit_ok x : bool_decide (x ∈ lits) = true -> @literal platform mem x.
Proof. intros Hx%bool_decide_eq_true. by apply literals. Qed.
Lemma prop_ok lex off len name word lex' :
  word_at mem lex FDT_PROP -> word_at mem (lex + 4) len -> word_at mem (lex + 8) off -> 0 <= len < 2 ^ 31 - 4 ->
  mcstr mem (0x82000800 + off) (chars_of name) ->
  (named (prop off name (lex + 12 - 0x82000100) len word) "#address-cells" || named (prop off name (lex + 12 - 0x82000100) len word) "#size-cells" = true ->
   word_at mem (lex + 12) word) ->
  lex' = lex + 4 * (3 + (len + 3) / 4) ->
  enc_prop mem 0x82000800 lex (prop off name (lex + 12 - 0x82000100) len word) lex'.
Proof.
  intros H1 H2 H3 Hl Hn Hw ->. exists len, off. cbn [f_len f_name f_value f_str f_word prop]. split_and!; try done; try lia.
  symmetry. apply s32_small. lia.
Qed.
Lemma device : @device_tree platform mem 0x82000000 tree.
Proof.
  exists 16, 0x82000800, 0x82000100, (0x82000100 + 160), FDT_END. split_and!; [word|word|discriminate|word|word| |split; [word|split_and!; discriminate]|apply literals; unfold lits; set_solver..].
  apply (ef_cons _ _ _ _ (0x82000100 + 160)); [|constructor].
  exists [], (0x82000100 + 40), (0x82000100 + 156). split_and!; [word|reflexivity|cstring| | |word|reflexivity].
  - apply (ep_cons _ _ _ _ (0x82000100 + 24)); [|apply (ep_cons _ _ _ _ (0x82000100 + 40)); [|constructor]].
    + apply (prop_ok (0x82000100 + 8) 0 4 "#address-cells"); [word|word|word|lia|cstring|intros _; word|reflexivity].
    + apply (prop_ok (0x82000100 + 24) 15 4 "#size-cells"); [word|word|word|lia|cstring|intros _; word|reflexivity].
  - apply (ef_cons _ _ _ _ (0x82000100 + 112)); [|apply ef_nop; [word|apply (ef_cons _ _ _ _ (0x82000100 + 156)); [|constructor]]].
    + exists (chars_of "memory@80000000"), (0x82000100 + 108), (0x82000100 + 108). split_and!; [word|reflexivity|cstring| |constructor|word|reflexivity].
      apply (ep_cons _ _ _ _ (0x82000100 + 80)); [|apply (ep_cons _ _ _ _ (0x82000100 + 108)); [|constructor]].
      * apply (prop_ok (0x82000100 + 60) 27 7 "device_type"); [word|word|word|lia|cstring|intros H; vm_compute in H; discriminate|reflexivity].
      * apply (prop_ok (0x82000100 + 80) 39 16 "reg"); [word|word|word|lia|cstring|intros H; vm_compute in H; discriminate|reflexivity].
    + exists (chars_of "htif"), (0x82000100 + 152), (0x82000100 + 152). split_and!; [word|reflexivity|cstring| |constructor|word|reflexivity].
      apply (ep_cons _ _ _ _ (0x82000100 + 152)); [|constructor].
      apply (prop_ok (0x82000100 + 128) 43 10 "compatible"); [word|word|word|lia|cstring|intros H; vm_compute in H; discriminate|reflexivity].
Qed.

Definition nodes : list (fdt_scan_node * list fprop) := Eval vm_compute in forest_nodes root_node tree.
Lemma nodes_eq : forest_nodes root_node tree = nodes.
Proof. vm_compute. reflexivity. Qed.
Lemma readable_ok name : name = "compatible" \/ name = "device_type" ->
  Forall (fun x => readable mem vals name (snd x)) nodes.
Proof.
  intros Hname. assert (Hp : forall ps, ps ∈ snd <$> nodes -> forall p, p ∈ ps -> mcstr mem (f_name p) (f_str p) /\
    (named p name = true -> mcstr mem (f_value p) (vals (f_value p)))).
  { intros ps Hps p Hp. assert (Hin : p ∈ concat (snd <$> nodes)) by (apply list_elem_of_In, in_concat; exists ps; by rewrite <- !list_elem_of_In).
    clear Hp Hps. apply list_elem_of_In in Hin. cbn in Hin. destruct Hin as [<-|[<-|[<-|[<-|[<-|[]]]]]]; (split; [cstring|]);
      intros Hn; destruct Hname as [->| ->]; try (vm_compute in Hn; discriminate); cstring. }
  apply Forall_forall. intros x Hx. unfold readable. apply Hp, list_elem_of_fmap. by exists x.
Qed.
Lemma memory_ok : Forall (@mem_node_ok mem vals) nodes.
Proof.
  pose proof (readable_ok "device_type" (or_intror eq_refl)) as Hr. rewrite Forall_forall in Hr.
  apply Forall_forall. intros x Hx. split; [by apply Hr|]. apply list_elem_of_In in Hx. unfold nodes in Hx. cbn in Hx.
  destruct Hx as [<-|[<-|[<-|[]]]]; intros Hm; try (vm_compute in Hm; discriminate). clear.
  eexists _, _, 1%nat. split_and!; [vm_compute; reflexivity|reflexivity|reflexivity|reflexivity|vm_compute; lia|reflexivity|].
  vm_compute. split_and!; congruence.
Qed.
End DemoTree.

Lemma demo_boot_tree : @boot_tree DemoTree.platform (k_mem DemoTree.state) 0x82000000 DemoTree.tree DemoTree.vals.
Proof.
  split; [exact DemoTree.device| |rewrite DemoTree.nodes_eq; apply DemoTree.readable_ok; auto|rewrite DemoTree.nodes_eq; exact DemoTree.memory_ok].
  intros x Hx. apply DemoTree.literals. unfold DemoTree.lits. set_solver.
Qed.
Lemma demo_boot_size : @boot_mem_size DemoTree.platform (k_mem DemoTree.state) DemoTree.tree DemoTree.vals = 0x100000.
Proof. vm_compute. reflexivity. Qed.

Definition demo_htif : htif_scan := mkHtifScan 0 0.
Lemma fdt_scan_reports_witness :
  @fdt_scan DemoTree.platform _ 0x82000000 htif_cb demo_htif DemoTree.state =
  run_events htif_cb (forest_events root_node DemoTree.tree) demo_htif DemoTree.state.
Proof. exact (fdt_scan_reports htif_cb 0x82000000 DemoTree.tree demo_htif DemoTree.state eq_refl htif_quiet DemoTree.device). Defined.
Lemma query_htif_finds_witness : @query_htif DemoTree.platform 0x82000000 demo_htif DemoTree.state = Ok 1 DemoTree.state.
Proof.
  assert (Hr := DemoTree.readable_ok "compatible" (or_introl eq_refl)). rewrite <- DemoTree.nodes_eq in Hr.
  rewrite (query_htif_finds 0x82000000 DemoTree.tree DemoTree.vals demo_htif DemoTree.state DemoTree.device
    (DemoTree.lit_ok "compatible" eq_refl) (DemoTree.lit_ok "ucb,htif0" eq_refl) Hr).
  assert (E : existsb (node_htif DemoTree.vals) (forest_nodes root_node DemoTree.tree) = true) by (vm_compute; reflexivity).
  by rewrite E.
Defined.
Lemma query_mem_size_witness :
  @query_mem DemoTree.platform 0x82000000 (mkMemScan 0 0 0) DemoTree.state = Ok tt (set_k_mem_size 0x100000 DemoTree.state).
Proof.
  assert (Hr := DemoTree.memory_ok). rewrite <- DemoTree.nodes_eq in Hr.
  rewrite (query_mem_size 0x82000000 DemoTree.tree DemoTree.vals (mkMemScan 0 0 0) DemoTree.state DemoTree.device
    (DemoTree.lit_ok "device_type" eq_refl) (DemoTree.lit_ok "memory" eq_refl)
    (DemoTree.lit_ok "reg" eq_refl) Hr).
  assert (E : @best_size DemoTree.platform 0 (flat_map (node_ranges (k_mem DemoTree.state) DemoTree.vals) (forest_nodes root_node DemoTree.tree)) = 0x100000)
    by (vm_compute; reflexivity).
  rewrite E. reflexivity.
Defined.
