(* ===== verification/Vmm.v ===== *)
(** kernel/vmm.c (and the Sv39 macros of kernel/riscv.h): page tables.

    A page table is a tree of pages in physical memory.  The ghost map [T] names
    its table pages by the path of indices that leads to them; [pt_rep m T root]
    says that the memory [m] holds that tree, and [leaf m T va] is the leaf entry
    of a virtual address (0 when no table exists).  All theorems are proved
    against the allocator interface [PageAllocator]. *)

From S2P Require Import Prelude Machine Pmm StringC.

(* ------------------------------------------------------------------ *)
(** * kernel/riscv.h, kernel/vmm.h *)

Definition PTE_V : Z := 1.
Definition PTE_R : Z := 2.
Definition PTE_W : Z := 4.
Definition PTE_X : Z := 8.
Definition PTE_U : Z := 16.
Definition PTE_A : Z := 64.
Definition PTE_D : Z := 128.
Definition PA2PTE (pa : Z) : Z := Z.shiftl (Z.shiftr pa 12) 10.
Definition PTE2PA (pte : Z) : Z := u64 (Z.shiftl (Z.shiftr pte 10) 12).
Definition PTE_FLAGS (pte : Z) : Z := Z.land pte 0x3FF.
Definition PXSHIFT (level : Z) : Z := PGSHIFT + 9 * level.
Definition PX (level va : Z) : Z := Z.land (Z.shiftr va (PXSHIFT level)) 0x1FF.
Definition MAXVA : Z := 2 ^ (9 + 9 + 9 + 12 - 1).
Definition SATP_SV39 : Z := Z.shiftl 8 60.
Definition MAKE_SATP (pagetable : Z) : Z := Z.lor SATP_SV39 (Z.shiftr pagetable 12).

Definition PROT_NONE : Z := 0.
Definition PROT_READ : Z := 1.
Definition PROT_WRITE : Z := 2.
Definition PROT_EXEC : Z := 4.

(** [*pte & PTE_x], as a truth value *)
Definition flag (pte f : Z) : bool := negb (Z.land pte f =? 0).

Section Vmm.
Context {PLAT : Platform}.

(* ------------------------------------------------------------------ *)
(** * The code *)

Definition prot_to_type (prot : Z) (user : bool) : Z :=
  let perm := 0 in
  let perm := if flag prot PROT_READ then Z.lor perm (Z.lor PTE_R PTE_A) else perm in
  let perm := if flag prot PROT_WRITE then Z.lor perm (Z.lor PTE_W PTE_D) else perm in
  let perm := if flag prot PROT_EXEC then Z.lor perm (Z.lor PTE_X PTE_A) else perm in
  let perm := if perm =? 0 then PTE_R else perm in
  if user then Z.lor perm PTE_U else perm.

(** the loop [for (level = 2; level > 0; level--)], and the final entry *)
Fixpoint page_walk_levels (level : nat) (pt va : Z) (alloc : bool) : K Z :=
  match level with
  | O => ret (pt + 8 * PX 0 va)
  | S level' =>
    let pte := pt + 8 * PX (Z.of_nat level) va in
    e <- ld64 pte ;;
    if flag e PTE_V then page_walk_levels level' (PTE2PA e) va alloc
    else if alloc then
      pt' <- alloc_page ;;
      if pt' =? 0 then ret 0
      else
        memset pt' 0 PGSIZE ;;;
        st64 pte (Z.lor (PA2PTE pt') PTE_V) ;;;
        page_walk_levels level' pt' va alloc
    else ret 0
  end.

Definition page_walk (page_dir va : Z) (alloc : bool) : K Z :=
  if MAXVA <=? va then panic "page_walk" else page_walk_levels 2 page_dir va alloc.

Definition map_pages (page_dir va size pa perm : Z) : K Z :=
  let last := ROUNDDOWN (u64 (va + size - 1)) PGSIZE in
  kwhile (fun '(first, pa) =>
    if first <=? last then
      pte <- page_walk page_dir first true ;;
      if pte =? 0 then ret (inr (-1))
      else
        e <- ld64 pte ;;
        if flag e PTE_V then panic "map_pages fails on mapping va to pa"
        else
          st64 pte (Z.lor (Z.lor (PA2PTE pa) perm) PTE_V) ;;;
          ret (inl (u64 (first + PGSIZE), u64 (pa + PGSIZE)))
    else ret (inr 0)) (ROUNDDOWN va PGSIZE, pa).

Definition lookup_pa (pagetable va : Z) : K Z :=
  if MAXVA <=? va then ret 0
  else
    pte <- page_walk pagetable va false ;;
    if pte =? 0 then ret 0
    else
      e <- ld64 pte ;;
      if negb (flag e PTE_V) || (negb (flag e PTE_R) && negb (flag e PTE_W)) then ret 0
      else ret (PTE2PA e).

Definition kern_vm_map (page_dir va pa sz perm : Z) : K unit :=
  r <- map_pages page_dir va sz pa perm ;;
  if r =? 0 then ret tt else panic "kern_vm_map".

Definition kern_vm_init : K unit :=
  t_page_dir <- alloc_page ;;
  memset t_page_dir 0 PGSIZE ;;;
  kern_vm_map t_page_dir KERN_BASE DRAM_BASE (u64 (etext - KERN_BASE))
    (prot_to_type (Z.lor PROT_READ PROT_EXEC) false) ;;;
  kern_vm_map t_page_dir etext etext (u64 (PHYS_TOP - etext))
    (prot_to_type (Z.lor PROT_READ PROT_WRITE) false) ;;;
  modify (set_k_kernel_pagetable t_page_dir).

Definition user_va_to_pa (page_dir va : Z) : K Z :=
  page_addr <- lookup_pa page_dir va ;;
  if page_addr =? 0 then ret 0
  else ret (u64 (page_addr + Z.land va (Z.shiftl 1 PGSHIFT - 1))).

Definition user_vm_map (page_dir va size pa perm : Z) : K unit :=
  r <- map_pages page_dir va size pa perm ;;
  if r =? 0 then ret tt else panic "fail to user_vm_map .".

Definition user_vm_unmap (page_dir va size : Z) (free : bool) : K unit :=
  if negb (va mod PGSIZE =? 0) then panic "uvmunmap: not aligned"
  else
    kwhile (fun a =>
      if a <? u64 (va + size) then
        pte <- page_walk page_dir a false ;;
        if pte =? 0 then panic "uvmunmap: walk"
        else
          e <- ld64 pte ;;
          if negb (flag e PTE_V) then panic "uvmunmap: not mapped"
          else if PTE_FLAGS e =? PTE_V then panic "uvmunmap: not a leaf"
          else
            (if free then free_page (PTE2PA e) else ret tt) ;;;
            st64 pte 0 ;;;
            ret (inl (u64 (a + PGSIZE)))
      else ret (inr tt)) va.

(* ------------------------------------------------------------------ *)
(** * Bits of entries and addresses *)

Lemma flag_bit e n : 0 <= n -> flag e (2 ^ n) = Z.testbit e n.
Proof.
  intros Hn. unfold flag.
  destruct (Z.eqb_spec (Z.land e (2 ^ n)) 0) as [E|E]; simpl.
  - apply (f_equal (fun z => Z.testbit z n)) in E.
    rewrite Z.land_spec, Z.pow2_bits_true, Z.bits_0, andb_true_r in E by lia. done.
  - destruct (Z.testbit e n) eqn:B; [done|]. destruct E. apply Z.bits_inj'. intros i Hi.
    rewrite Z.land_spec, Z.bits_0, Z.pow2_bits_eqb by lia.
    destruct (Z.eqb_spec n i) as [->|]; [by rewrite B|apply andb_false_r].
Qed.

Lemma PA2PTE_testbit pa i :
  0 <= i -> Z.testbit (PA2PTE pa) i = ((10 <=? i) && Z.testbit pa (i + 2))%bool.
Proof.
  intros. unfold PA2PTE. rewrite shiftl_testbit by lia. zcase; simpl; [|done].
  rewrite Z.shiftr_spec by lia. f_equal. lia.
Qed.

(** an entry built from a page address and permission bits *)
Definition mkpte (pa perm : Z) : Z := Z.lor (Z.lor (PA2PTE pa) perm) PTE_V.

Lemma mkpte_testbit_low pa perm i :
  0 <= i < 10 -> Z.testbit (mkpte pa perm) i = ((i =? 0) || Z.testbit perm i)%bool.
Proof.
  intros. unfold mkpte. rewrite !Z.lor_spec, PA2PTE_testbit by lia.
  rewrite (proj2 (Z.leb_gt _ _)) by lia. simpl. rewrite orb_comm.
  change PTE_V with (2 ^ 0). rewrite Z.pow2_bits_eqb by lia. by rewrite Z.eqb_sym.
Qed.
Lemma mkpte_testbit_high pa perm i :
  0 <= perm < 1024 -> 10 <= i -> Z.testbit (mkpte pa perm) i = Z.testbit pa (i + 2).
Proof.
  intros. unfold mkpte. rewrite !Z.lor_spec, PA2PTE_testbit by lia.
  rewrite (proj2 (Z.leb_le _ _)) by lia. simpl.
  rewrite <- (Z.mod_small perm (2 ^ 10)), Z.mod_pow2_bits_high by lia.
  change PTE_V with (2 ^ 0). rewrite Z.pow2_bits_eqb by lia.
  rewrite (proj2 (Z.eqb_neq _ _)) by lia. by rewrite !orb_false_r.
Qed.

(** what an entry maps to is the page it was built from *)
Lemma PTE2PA_mkpte pa perm :
  0 <= perm < 1024 -> 0 <= pa < 2 ^ 64 -> pa mod PGSIZE = 0 -> PTE2PA (mkpte pa perm) = pa.
Proof.
  intros Hp Hpa Ha. unfold PTE2PA, u64. apply Z.bits_inj'. intros i Hi.
  destruct (Z.lt_ge_cases i 64).
  - rewrite Z.mod_pow2_bits_low, shiftl_testbit by lia.
    destruct (Z.leb_spec 12 i); simpl.
    + rewrite Z.shiftr_spec, mkpte_testbit_high by lia. f_equal. lia.
    + symmetry. change PGSIZE with (2 ^ 12) in Ha.
      rewrite <- (Z.mod_pow2_bits_low pa 12) by lia. by rewrite Ha, Z.bits_0.
  - rewrite Z.mod_pow2_bits_high by lia.
    rewrite <- (Z.mod_small pa (2 ^ 64)), Z.mod_pow2_bits_high by lia. done.
Qed.
Lemma flag_mkpte_V pa perm : flag (mkpte pa perm) PTE_V = true.
Proof. change PTE_V with (2 ^ 0). rewrite flag_bit, mkpte_testbit_low by lia. done. Qed.
Lemma mkpte_range pa perm : 0 <= perm < 1024 -> 0 <= pa < 2 ^ 64 -> 0 <= mkpte pa perm < 2 ^ 64.
Proof.
  intros. assert (mkpte pa perm = mkpte pa perm mod 2 ^ 64) as ->; [|apply Z.mod_pos_bound; lia].
  apply Z.bits_inj'. intros i Hi. destruct (Z.lt_ge_cases i 64).
  - by rewrite Z.mod_pow2_bits_low by lia.
  - rewrite Z.mod_pow2_bits_high, mkpte_testbit_high by lia.
    by rewrite <- (Z.mod_small pa (2 ^ 64)), Z.mod_pow2_bits_high by lia.
Qed.
Lemma mkpte_table q : Z.lor (PA2PTE q) PTE_V = mkpte q 0.
Proof. unfold mkpte. by rewrite Z.lor_0_r. Qed.

Lemma PX_div level va : 0 <= level -> PX level va = (va / 2 ^ (12 + 9 * level)) mod 512.
Proof.
  intros. unfold PX, PXSHIFT, PGSHIFT. change 0x1FF with (Z.ones 9).
  by rewrite Z.land_ones, Z.shiftr_div_pow2 by lia.
Qed.
Lemma PX_range level va : 0 <= level -> 0 <= PX level va < 512.
Proof. intros. rewrite PX_div by done. apply Z.mod_pos_bound. lia. Qed.
(** the three indices determine the page of an address below [MAXVA] *)
Lemma PX_inj va1 va2 :
  0 <= va1 < MAXVA -> 0 <= va2 < MAXVA ->
  (PX 2 va1 = PX 2 va2 /\ PX 1 va1 = PX 1 va2 /\ PX 0 va1 = PX 0 va2) <-> page_of va1 = page_of va2.
Proof.
  unfold MAXVA, page_of, ROUNDDOWN, PGSIZE. intros. rewrite !PX_div by lia.
  change (2 ^ (12 + 9 * 2)) with 1073741824. change (2 ^ (12 + 9 * 1)) with 2097152.
  change (2 ^ (12 + 9 * 0)) with 4096. change (2 ^ (9 + 9 + 9 + 12 - 1)) with 274877906944 in *.
  split; [intros (?&?&?); dlia|intros; split_and!; dlia].
Qed.
Lemma PX_page level va1 va2 :
  0 <= level -> page_of va1 = page_of va2 -> PX level va1 = PX level va2.
Proof.
  intros Hl E. rewrite !PX_div by done. f_equal.
  rewrite Z.pow_add_r by lia. rewrite <- !Z.div_div by lia. f_equal.
  unfold page_of, ROUNDDOWN, PGSIZE in E. change (2 ^ 12) with 4096. lia.
Qed.

(* ------------------------------------------------------------------ *)
(** * Representation of a page table *)

(** the indices that lead to the table of a level *)
Definition idx_path (va : Z) (level : nat) : list Z :=
  match level with
  | 0%nat => [PX 2 va; PX 1 va]
  | 1%nat => [PX 2 va]
  | _ => []
  end.

Record pt_rep (m : gmap Z Z) (T : gmap (list Z) Z) (root : Z) : Prop := {
  pr_root : T !! [] = Some root;
  pr_ok path p : T !! path = Some p -> page_ok p;
  pr_inj path1 path2 p : T !! path1 = Some p -> T !! path2 = Some p -> path1 = path2;
  pr_parent path i p : T !! (path ++ [i]) = Some p -> is_Some (T !! path) /\ 0 <= i < 512;
  pr_entry path p i : T !! path = Some p -> (length path < 2)%nat -> 0 <= i < 512 ->
    match T !! (path ++ [i]) with
    | Some q => load64 m (p + 8 * i) = mkpte q 0
    | None => flag (load64 m (p + 8 * i)) PTE_V = false
    end
}.

(** the leaf entry of [va]; 0 (invalid) when its table does not exist *)
Definition leaf (m : gmap Z Z) (T : gmap (list Z) Z) (va : Z) : Z :=
  match T !! idx_path va 0 with
  | Some p => load64 m (p + 8 * PX 0 va)
  | None => 0
  end.

Definition table_pages (T : gmap (list Z) Z) : gset Z := map_img T.
Lemma elem_of_table_pages T p : p ∈ table_pages T <-> exists path, T !! path = Some p.
Proof. apply elem_of_map_img. Qed.

Lemma slot_word_inj p1 p2 i1 i2 :
  page_ok p1 -> page_ok p2 -> 0 <= i1 < 512 -> 0 <= i2 < 512 ->
  (p1 + 8 * i1) / 8 = (p2 + 8 * i2) / 8 -> p1 = p2 /\ i1 = i2.
Proof. unfold page_ok, PGSIZE. dlia. Qed.
Lemma slot_page p i : page_ok p -> 0 <= i < 512 -> page_of (p + 8 * i) = p.
Proof. intros. apply page_of_slot; [done|]. unfold PGSIZE. lia. Qed.

(** a page table only depends on its own pages *)
Lemma pt_rep_frame m m' T root :
  pt_rep m T root ->
  (forall path p i, T !! path = Some p -> (length path < 2)%nat -> 0 <= i < 512 ->
     load64 m' (p + 8 * i) = load64 m (p + 8 * i)) ->
  pt_rep m' T root.
Proof.
  intros [H1 H2 H3 H4 H5] Hm. split; try done.
  intros path p i Hp Hl Hi. rewrite (Hm path p i) by done. by apply H5.
Qed.
Lemma pt_rep_outside m m' T root (P : gset Z) :
  pt_rep m T root -> same_outside P m m' -> P ## table_pages T -> pt_rep m' T root.
Proof.
  intros H Hm Hd. eapply pt_rep_frame; [done|]. intros path p i Hp _ Hi.
  apply Hm. rewrite slot_page by (try done; by eapply pr_ok). intros HP.
  apply (Hd p HP). apply elem_of_table_pages. eauto.
Qed.
Lemma leaf_outside m m' T root (P : gset Z) va :
  pt_rep m T root -> same_outside P m m' -> P ## table_pages T -> leaf m' T va = leaf m T va.
Proof.
  intros H Hm Hd. unfold leaf. destruct (T !! idx_path va 0) as [p|] eqn:E; [|done].
  apply Hm. rewrite slot_page by (try (by eapply pr_ok); apply PX_range; lia). intros HP.
  apply (Hd p HP). apply elem_of_table_pages. eauto.
Qed.

(** writing a leaf entry changes that leaf only *)
Lemma pt_rep_store_leaf m T root va p v :
  pt_rep m T root -> T !! idx_path va 0 = Some p ->
  pt_rep (store64 m (p + 8 * PX 0 va) v) T root.
Proof.
  intros H Hp. eapply pt_rep_frame; [done|]. intros path q i Hq Hl Hi.
  apply load64_store64_ne. intros E.
  apply slot_word_inj in E as [-> _]; try (by eapply pr_ok); [|apply PX_range; lia|done].
  rewrite (pr_inj _ _ _ H _ _ _ Hq Hp) in Hl. simpl in Hl. lia.
Qed.
Lemma leaf_store m T root va va' p v :
  pt_rep m T root -> T !! idx_path va 0 = Some p -> 0 <= va < MAXVA -> 0 <= va' < MAXVA ->
  0 <= v < 2 ^ 64 ->
  leaf (store64 m (p + 8 * PX 0 va) v) T va' =
  if decide (page_of va' = page_of va) then v else leaf m T va'.
Proof.
  intros H Hp Hva Hva' Hv. unfold leaf. case_decide as E.
  - assert (idx_path va' 0 = idx_path va 0) as ->
      by (simpl; by rewrite (PX_page 2 va' va), (PX_page 1 va' va)).
    rewrite Hp, (PX_page 0 va' va) by done. rewrite load64_store64_eq. by apply u64_small.
  - destruct (T !! idx_path va' 0) as [q|] eqn:Hq; [|done].
    apply load64_store64_ne. intros E'.
    apply slot_word_inj in E' as [-> E0]; try (by eapply pr_ok); try (apply PX_range; lia).
    pose proof (pr_inj _ _ _ H _ _ _ Hq Hp) as E1. simpl in E1. simplify_eq.
    apply E. apply PX_inj; [done..|]. by rewrite E0.
Qed.
(** ** Adding a table *)

(** [m'] is [m] with a fresh zeroed table [q] hooked into entry [i] of [p] *)
Definition hooked (m m' : gmap Z Z) (p i q : Z) : Prop :=
  (forall a, page_of a <> q -> a / 8 <> (p + 8 * i) / 8 -> load64 m' a = load64 m a) /\
  load64 m' (p + 8 * i) = mkpte q 0 /\
  (forall j, 0 <= j < 512 -> load64 m' (q + 8 * j) = 0).

Lemma pt_rep_insert m m' T root path p i q :
  pt_rep m T root -> T !! path = Some p -> (length path < 2)%nat -> 0 <= i < 512 ->
  T !! (path ++ [i]) = None -> page_ok q -> q ∉ table_pages T -> hooked m m' p i q ->
  pt_rep m' (<[path ++ [i] := q]> T) root.
Proof.
  intros H Hp Hl Hi Hnone Hq Hnew (Hm & Hslot & Hz).
  assert (Hfresh : forall path', T !! path' <> Some q)
    by (intros path' E; apply Hnew, elem_of_table_pages; eauto).
  split.
  - rewrite lookup_insert_ne; [apply H|]. by destruct path.
  - intros path' p'. rewrite lookup_insert. case_decide; [by intros [= <-]|]. by apply H.
  - intros p1 p2 r. rewrite !lookup_insert. repeat case_decide; simplify_eq; try done.
    + intros [= ->] E. by apply Hfresh in E.
    + intros E [= ->]. by apply Hfresh in E.
    + by apply H.
  - intros path' j r. rewrite !lookup_insert. case_decide as E.
    + apply app_inj_tail in E as [<- <-]. intros _. split; [|done].
      rewrite decide_False; [by eexists|]. intros E. by rewrite E, Hp in Hnone.
    + intros E'. destruct (pr_parent _ _ _ H _ _ _ E') as [[r' Hr'] Hj]. split; [|done].
      case_decide; by eexists.
  - intros path' p' j. rewrite (lookup_insert T (path ++ [i]) path'). case_decide as E.
    + intros [= <-] Hl' Hj. subst path'.
      rewrite lookup_insert_ne by (intros E%(f_equal length); rewrite !length_app in E; simpl in E; lia).
      assert (T !! ((path ++ [i]) ++ [j]) = None) as ->.
      { destruct (T !! ((path ++ [i]) ++ [j])) as [r|] eqn:Er; [|done].
        destruct (pr_parent _ _ _ H _ _ _ Er) as [[r' Hr'] _]. congruence. }
      by rewrite Hz.
    + intros Hp' Hl' Hj. destruct (decide (path' = path /\ j = i)) as [[-> ->]|Hne].
      * rewrite lookup_insert_eq. by assert (p' = p) as -> by congruence.
      * rewrite lookup_insert_ne by (intros E'; apply app_inj_tail in E' as [-> ->]; by apply Hne).
        rewrite Hm; [by apply H| |].
        -- rewrite slot_page by (try done; by eapply pr_ok). intros ->. by eapply Hfresh.
        -- intros E'. apply slot_word_inj in E' as [-> ->]; try done; try (by eapply pr_ok).
           apply Hne. split; [|done]. by eapply pr_inj.
Qed.
Lemma leaf_insert m m' T root path p i q va :
  pt_rep m T root -> T !! path = Some p -> (length path < 2)%nat -> 0 <= i < 512 ->
  T !! (path ++ [i]) = None -> page_ok q -> q ∉ table_pages T -> hooked m m' p i q ->
  leaf m' (<[path ++ [i] := q]> T) va = leaf m T va.
Proof.
  intros H Hp Hl Hi Hnone Hq Hnew (Hm & Hslot & Hz). unfold leaf.
  rewrite lookup_insert. case_decide as E.
  - rewrite <- E, Hnone. apply Hz, PX_range. lia.
  - destruct (T !! idx_path va 0) as [r|] eqn:Er; [|done]. apply Hm.
    + rewrite slot_page by (try (by eapply pr_ok); apply PX_range; lia). intros ->.
      apply Hnew, elem_of_table_pages. eauto.
    + intros E'. apply slot_word_inj in E' as [-> _]; try done; try (by eapply pr_ok).
      2:{ apply PX_range; lia. }
      rewrite <- (pr_inj _ _ _ H _ _ _ Er Hp) in Hl. simpl in Hl. lia.
Qed.

(* ------------------------------------------------------------------ *)
(** * Walking *)

Section Walk.
Context {free : kstate -> list Z -> Prop} {PA : PageAllocator free}.

(** [s'], [T'] and [l'] are a later state of the page table and the allocator:
    tables are only added, they come from the free pages, and only table pages
    are written. *)
Record pt_step (root : Z) (x x' : kstate * gmap (list Z) Z * list Z) : Prop := {
  ps_rep : pt_rep (k_mem x'.1.1) x'.1.2 root;
  ps_sub : x.1.2 ⊆ x'.1.2;
  ps_free : free x'.1.1 x'.2;
  ps_used : exists used, x.2 = used ++ x'.2 /\
      forall p, p ∈ table_pages x'.1.2 -> p ∈ table_pages x.1.2 \/ p ∈ used;
  ps_frame : kframe x.1.1 x'.1.1;
  ps_mem : same_outside (table_pages x'.1.2) (k_mem x.1.1) (k_mem x'.1.1)
}.

(** the free pages are not table pages *)
Definition pt_sep (T : gmap (list Z) Z) (l : list Z) : Prop :=
  forall p, p ∈ l -> p ∉ table_pages T.

Definition pt_ok (root : Z) (s : kstate) (T : gmap (list Z) Z) (l : list Z) : Prop :=
  pt_rep (k_mem s) T root /\ free s l /\ pt_sep T l.

Lemma pt_step_refl root s T l : pt_ok root s T l -> pt_step root (s, T, l) (s, T, l).
Proof. intros (?&?&?). split; simpl; try done. exists []. set_solver. Qed.
Lemma table_pages_mono T T' : T ⊆ T' -> table_pages T ⊆ table_pages T'.
Proof.
  intros H p [path E]%elem_of_table_pages. apply elem_of_table_pages. exists path.
  by eapply lookup_weaken.
Qed.
Lemma pt_step_trans root x y z : pt_step root x y -> pt_step root y z -> pt_step root x z.
Proof.
  intros [? Hs1 ? (u1 & E1 & Hu1) Hk1 Hm1] [? Hs2 ? (u2 & E2 & Hu2) Hk2 Hm2]. split; try done.
  - by etrans.
  - exists (u1 ++ u2). rewrite E1, E2, app_assoc. split; [done|]. set_solver.
  - by etrans.
  - etrans; [|done]. eapply same_outside_mono; [|done]. by apply table_pages_mono.
Qed.
(** stepping keeps free pages and table pages apart *)
Lemma pt_step_ok root s T l s' T' l' :
  pt_ok root s T l -> pt_step root (s, T, l) (s', T', l') -> pt_ok root s' T' l'.
Proof.
  intros (_&Hf&Hsep) [? _ ? (u & E & Hu) _ _]. simpl in *. split_and!; [done..|].
  intros p Hp Ht. destruct (Hu p Ht) as [Ht'|Hin].
  - apply (Hsep p); [|done]. rewrite E. set_solver.
  - destruct (pa_pages _ _ Hf) as [Hn _]. rewrite E in Hn. apply NoDup_app in Hn as (_&Hd&_).
    by apply (Hd p).
Qed.

(** ** The walk *)

Lemma idx_child va n :
  (n <= 1)%nat -> idx_path va n = idx_path va (S n) ++ [PX (Z.of_nat (S n)) va].
Proof. intros. destruct n as [|[|n]]; [done..|lia]. Qed.
Lemma idx_path_length va n : (n <= 1)%nat -> (length (idx_path va (S n)) < 2)%nat.
Proof. intros. destruct n as [|[|n]]; simpl; lia. Qed.
Lemma PX_nat_range n va : 0 <= PX (Z.of_nat n) va < 512.
Proof. apply PX_range. lia. Qed.

(** the entry a walk without allocation finds *)
Definition walk_result (T : gmap (list Z) Z) (va : Z) : Z :=
  match T !! idx_path va 0 with Some p => p + 8 * PX 0 va | None => 0 end.

(** entry of the current level: its load succeeds, and tells whether the child exists *)
Lemma walk_entry root s T va n pt :
  pt_rep (k_mem s) T root -> (n <= 1)%nat -> T !! idx_path va (S n) = Some pt ->
  let slot := pt + 8 * PX (Z.of_nat (S n)) va in
  exists e, ld64 slot s = Ok e s /\
    match T !! idx_path va n with
    | Some q => flag e PTE_V = true /\ PTE2PA e = q
    | None => flag e PTE_V = false
    end.
Proof.
  intros H Hn Hpt slot. pose proof (PX_nat_range (S n) va) as Hi.
  assert (page_ok pt) as Hok by (by eapply pr_ok).
  exists (load64 (k_mem s) slot). split; [apply ld64_ok; by apply page_ok_addr64|].
  pose proof (pr_entry _ _ _ H _ _ _ Hpt (idx_path_length va n Hn) Hi) as He.
  rewrite <- idx_child in He by done. destruct (T !! idx_path va n) as [q|] eqn:Eq; [|done].
  unfold slot. rewrite He. assert (page_ok q) as Hq by (by eapply pr_ok).
  split; [apply flag_mkpte_V|]. apply PTE2PA_mkpte; [lia| |apply Hq].
  apply page_ok_range in Hq. unfold PGSIZE in *. lia.
Qed.

Lemma walk_child_none root m T va n :
  pt_rep m T root -> (n <= 1)%nat -> T !! idx_path va n = None -> T !! idx_path va 0 = None.
Proof.
  intros H Hn E. destruct n as [|[|n]]; [done| |lia].
  destruct (T !! idx_path va 0) as [p|] eqn:E0; [|done].
  rewrite (idx_child va 0) in E0 by lia. apply (pr_parent _ _ _ H) in E0 as [[r Hr] _].
  congruence.
Qed.

Lemma page_walk_levels_noalloc root s T va n pt :
  pt_rep (k_mem s) T root -> (n <= 2)%nat -> T !! idx_path va n = Some pt ->
  page_walk_levels n pt va false s = Ok (walk_result T va) s.
Proof.
  intros H. revert pt. induction n as [|n IH]; intros pt Hn Hpt.
  - simpl. unfold walk_result. by rewrite Hpt.
  - destruct (walk_entry root s T va n pt H ltac:(lia) Hpt) as (e & E & He).
    cbn [page_walk_levels]. rewrite (bind_Ok _ _ _ _ _ E).
    destruct (T !! idx_path va n) as [q|] eqn:Eq.
    + destruct He as [-> ->]. apply IH; [lia|done].
    + rewrite He. unfold walk_result.
      by rewrite (walk_child_none root (k_mem s) T va n) by (done || lia).
Qed.

(** allocating, clearing and hooking a table *)
Lemma hook_table root s T l va n pt q :
  pt_ok root s T (q :: l) -> (n <= 1)%nat -> T !! idx_path va (S n) = Some pt ->
  T !! idx_path va n = None ->
  let slot := pt + 8 * PX (Z.of_nat (S n)) va in
  exists s', (forall f : Z -> K Z,
     (p <- alloc_page ;; if p =? 0 then ret 0
      else memset p 0 PGSIZE ;;; st64 slot (Z.lor (PA2PTE p) PTE_V) ;;; f p) s = f q s') /\
    pt_step root (s, T, q :: l) (s', <[idx_path va n := q]> T, l) /\
    (forall va', leaf (k_mem s') (<[idx_path va n := q]> T) va' = leaf (k_mem s) T va').
Proof.
  intros (H & Hf & Hsep) Hn Hpt Hnone slot. pose proof (PX_nat_range (S n) va) as Hi.
  destruct (pa_pages _ _ Hf) as [Hnd Hoks]. inversion Hnd; subst. inversion Hoks; subst.
  destruct (pa_alloc _ _ _ Hf) as (s1 & E1 & Hf1 & Hk1 & Hm1).
  destruct (memset_page s1 q) as (m & E2 & Hm2 & Hz); [done|]. rewrite Hm1 in Hm2.
  assert (page_ok pt) as Hok by (by eapply pr_ok).
  assert (Hq : q ∉ table_pages T) by (apply Hsep; set_solver).
  assert (Hptq : pt <> q) by (intros ->; apply Hq, elem_of_table_pages; eauto).
  set (m' := store64 m slot (Z.lor (PA2PTE q) PTE_V)). set (s' := set_k_mem m' s1).
  assert (Hpg : page_of slot = pt) by by apply slot_page.
  assert (Hhook : hooked (k_mem s) m' pt (PX (Z.of_nat (S n)) va) q).
  { split_and!.
    - intros a Ha Hw. unfold m'. rewrite load64_store64_ne by done. apply Hm2. set_solver.
    - unfold m'. rewrite load64_store64_eq, mkpte_table. apply u64_small, mkpte_range; [lia|].
      pose proof (page_ok_range q ltac:(done)). unfold PGSIZE in *. lia.
    - intros j Hj. unfold m'. rewrite load64_store64_ne; [by apply Hz|].
      intros E%page_of_word. rewrite Hpg, slot_page in E by done. congruence. }
  assert (Hout : same_outside ({[q]} ∪ {[pt]}) (k_mem s) m').
  { intros a Ha. unfold m'. rewrite load64_store64_ne; [apply Hm2; set_solver|].
    intros E%page_of_word. rewrite Hpg in E. set_solver. }
  rewrite (idx_child va n) in * by lia.
  exists s'. split_and!.
  - intros f. rewrite (bind_Ok _ _ _ _ _ E1).
    rewrite (proj2 (Z.eqb_neq _ _)) by by apply page_ok_nonzero.
    rewrite (bind_Ok _ _ _ _ _ E2). erewrite bind_Ok; [reflexivity|].
    rewrite st64_ok by by apply page_ok_addr64. done.
  - split; cbn [fst snd].
    + by eapply pt_rep_insert; eauto using idx_path_length.
    + by apply insert_subseteq.
    + eapply (pa_write s1); [done|by rewrite Hm1|]. intros p Hp.
      assert (p <> q) by (intros ->; done). assert (p <> pt); [|set_solver].
      intros ->. apply (Hsep pt); [set_solver|]. apply elem_of_table_pages. eauto.
    + exists [q]. split; [done|]. intros p [path E]%elem_of_table_pages.
      rewrite lookup_insert in E. case_decide; [set_solver|]. left. apply elem_of_table_pages. eauto.
    + etrans; [done|]. apply kframe_mem.
    + eapply same_outside_mono; [|done]. intros p. rewrite elem_of_union, !elem_of_singleton, elem_of_table_pages.
      intros [->| ->]; [exists (idx_path va (S n) ++ [PX (Z.of_nat (S n)) va]); by rewrite lookup_insert_eq|].
      exists (idx_path va (S n)). rewrite lookup_insert_ne; [done|]. intros E. rewrite E in Hnone. congruence.
  - intros va'. by eapply leaf_insert; eauto using idx_path_length.
Qed.
(** The walk with allocation.  [D] is a budget of table paths: while there are as
    many free pages as paths of [D] without a table, walks along [D] succeed. *)
Lemma page_walk_levels_alloc root va n s T l pt D :
  pt_ok root s T l -> (n <= 2)%nat -> T !! idx_path va n = Some pt ->
  (forall k, (k < n)%nat -> idx_path va k ∈ D) -> (size (D ∖ dom T) <= length l)%nat ->
  exists p s' T' l', page_walk_levels n pt va true s = Ok (p + 8 * PX 0 va) s' /\
    T' !! idx_path va 0 = Some p /\ pt_step root (s, T, l) (s', T', l') /\
    (forall va', leaf (k_mem s') T' va' = leaf (k_mem s) T va') /\
    (size (D ∖ dom T') <= length l')%nat.
Proof.
  revert s T l pt. induction n as [|n IH]; intros s T l pt Hok Hn Hpt HD Hsz.
  - exists pt, s, T, l. split_and!; try done. by apply pt_step_refl.
  - destruct (walk_entry root s T va n pt ltac:(apply Hok) ltac:(lia) Hpt) as (e & E & He).
    cbn [page_walk_levels]. rewrite (bind_Ok _ _ _ _ _ E).
    destruct (T !! idx_path va n) as [q|] eqn:Eq.
    + destruct He as [-> ->]. apply IH; try done; [lia|]. intros k Hk. apply HD. lia.
    + rewrite He. assert (Hin : idx_path va n ∈ D ∖ dom T).
      { apply elem_of_difference. split; [apply HD; lia|]. by apply not_elem_of_dom. }
      destruct l as [|q l].
      { simpl in Hsz. assert (D ∖ dom T ≡ ∅) by (apply size_empty_inv; lia). set_solver. }
      destruct (hook_table root s T l va n pt q Hok ltac:(lia) Hpt Eq) as (s1 & E1 & Hst1 & Hlf1).
      rewrite E1. destruct (IH s1 (<[idx_path va n:=q]> T) l q)
        as (p & s' & T' & l' & E' & Hp & Hst & Hlf & Hsz');
        [by eapply pt_step_ok|lia|apply lookup_insert_eq|intros; apply HD; lia| |].
      { assert (D ∖ dom (<[idx_path va n:=q]> T) = (D ∖ dom T) ∖ {[idx_path va n]}) as ->
          by (rewrite dom_insert_L; set_solver).
        rewrite size_difference by (by apply singleton_subseteq_l). rewrite size_singleton. simpl in Hsz. lia. }
      exists p, s', T', l'. split_and!; [done|done|by eapply pt_step_trans| |done].
      intros va'. by rewrite Hlf.
Qed.

Definition walk_paths (va : Z) : gset (list Z) := {[idx_path va 0; idx_path va 1]}.

Lemma page_walk_alloc root va s T l D :
  pt_ok root s T l -> 0 <= va < MAXVA -> walk_paths va ⊆ D -> (size (D ∖ dom T) <= length l)%nat ->
  exists p s' T' l', page_walk root va true s = Ok (p + 8 * PX 0 va) s' /\
    T' !! idx_path va 0 = Some p /\ pt_step root (s, T, l) (s', T', l') /\
    (forall va', leaf (k_mem s') T' va' = leaf (k_mem s) T va') /\
    (size (D ∖ dom T') <= length l')%nat.
Proof.
  intros Hok Hva HD Hsz. unfold page_walk. rewrite (proj2 (Z.leb_gt _ _)) by lia.
  apply page_walk_levels_alloc; try done; [destruct Hok as (Hr&_); apply Hr|].
  unfold walk_paths in HD. intros [|[|k]] Hk; [set_solver..|lia].
Qed.

(** the walk when no page is left and the leaf table is missing *)
Lemma page_walk_levels_exhausted root va n s T pt :
  pt_ok root s T [] -> (n <= 2)%nat -> T !! idx_path va n = Some pt -> T !! idx_path va 0 = None ->
  exists s', page_walk_levels n pt va true s = Ok 0 s' /\ pt_step root (s, T, []) (s', T, []) /\
    k_mem s' = k_mem s.
Proof.
  intros Hok. revert pt. induction n as [|n IH]; intros pt Hn Hpt Hnone; [congruence|].
  destruct (walk_entry root s T va n pt ltac:(apply Hok) ltac:(lia) Hpt) as (e & E & He).
  cbn [page_walk_levels]. rewrite (bind_Ok _ _ _ _ _ E).
  destruct (T !! idx_path va n) as [q|] eqn:Eq.
  - destruct He as [-> ->]. by apply IH; [lia|..].
  - rewrite He. destruct Hok as (Hr & Hf & Hsep).
    destruct (pa_exhausted _ Hf) as (s1 & E1 & Hf1 & Hk1 & Hm1).
    exists s1. rewrite (bind_Ok _ _ _ _ _ E1). split_and!; [done| |done].
    split; cbn [fst snd]; try done; [by rewrite Hm1|exists []; set_solver|by rewrite Hm1].
Qed.
Lemma page_walk_noalloc root va s T :
  pt_rep (k_mem s) T root -> 0 <= va < MAXVA ->
  page_walk root va false s = Ok (walk_result T va) s.
Proof.
  intros Hr Hva. unfold page_walk. rewrite (proj2 (Z.leb_gt _ _)) by lia.
  eapply page_walk_levels_noalloc; [done|lia|apply Hr].
Qed.

(** ** lookup_pa and user_va_to_pa *)

(** the physical page a leaf entry gives access to *)
Definition pte_pa (e : Z) : Z :=
  if negb (flag e PTE_V) || (negb (flag e PTE_R) && negb (flag e PTE_W)) then 0 else PTE2PA e.

Lemma walk_result_zero root m T va :
  pt_rep m T root -> walk_result T va = 0 <-> T !! idx_path va 0 = None.
Proof.
  intros Hr. unfold walk_result. destruct (T !! idx_path va 0) as [p|] eqn:E; [|done].
  pose proof (pr_ok _ _ _ Hr _ _ E) as (?&?&_). pose proof (PX_range 0 va).
  unfold DRAM_BASE in *. split; [lia|done].
Qed.
Lemma ld_leaf root s T va p :
  pt_rep (k_mem s) T root -> T !! idx_path va 0 = Some p ->
  ld64 (p + 8 * PX 0 va) s = Ok (leaf (k_mem s) T va) s.
Proof.
  intros Hr E. unfold leaf. rewrite E. apply ld64_ok, page_ok_addr64; [by eapply pr_ok|].
  apply PX_range. lia.
Qed.

Lemma lookup_pa_spec root va s T :
  pt_rep (k_mem s) T root -> 0 <= va ->
  lookup_pa root va s = Ok (if va <? MAXVA then pte_pa (leaf (k_mem s) T va) else 0) s.
Proof.
  intros Hr Hva. unfold lookup_pa. destruct (Z.leb_spec MAXVA va).
  { by rewrite (proj2 (Z.ltb_ge _ _)) by lia. }
  rewrite (proj2 (Z.ltb_lt _ _)) by lia.
  rewrite (bind_Ok _ _ _ _ _ (page_walk_noalloc _ _ _ _ Hr (conj Hva H))).
  destruct (T !! idx_path va 0) as [p|] eqn:E.
  - rewrite (proj2 (Z.eqb_neq _ _)) by (rewrite walk_result_zero by done; congruence).
    unfold walk_result. rewrite E, (bind_Ok _ _ _ _ _ (ld_leaf _ _ _ _ _ Hr E)).
    unfold pte_pa. by destruct (_ || _).
  - unfold walk_result, leaf. by rewrite E.
Qed.

Lemma user_va_to_pa_spec root va s T :
  pt_rep (k_mem s) T root -> 0 <= va < MAXVA ->
  user_va_to_pa root va s =
  Ok (let pa := pte_pa (leaf (k_mem s) T va) in if pa =? 0 then 0 else u64 (pa + va mod PGSIZE)) s.
Proof.
  intros Hr Hva. unfold user_va_to_pa.
  rewrite (bind_Ok _ _ _ _ _ (lookup_pa_spec _ _ _ _ Hr (proj1 Hva))).
  rewrite (proj2 (Z.ltb_lt _ _)) by lia. cbv zeta. destruct (_ =? 0); [done|].
  change (Z.shiftl 1 PGSHIFT - 1) with (Z.ones 12). by rewrite Z.land_ones by lia.
Qed.
(** an existing leaf table is found without allocating *)
Lemma page_walk_levels_existing root s T va alloc n pt p :
  pt_rep (k_mem s) T root -> (n <= 2)%nat -> T !! idx_path va n = Some pt ->
  T !! idx_path va 0 = Some p ->
  page_walk_levels n pt va alloc s = Ok (p + 8 * PX 0 va) s.
Proof.
  intros H. revert pt. induction n as [|n IH]; intros pt Hn Hpt Hp.
  - assert (pt = p) as -> by congruence. done.
  - destruct (walk_entry root s T va n pt H ltac:(lia) Hpt) as (e & E & He).
    cbn [page_walk_levels]. rewrite (bind_Ok _ _ _ _ _ E).
    destruct (T !! idx_path va n) as [q|] eqn:Eq.
    + destruct He as [-> ->]. apply IH; [lia|done..].
    + exfalso. apply (walk_child_none root (k_mem s)) in Eq; [congruence|done|lia].
Qed.
Lemma page_walk_existing root s T va alloc p :
  pt_rep (k_mem s) T root -> 0 <= va < MAXVA -> T !! idx_path va 0 = Some p ->
  page_walk root va alloc s = Ok (p + 8 * PX 0 va) s.
Proof.
  intros Hr Hva Hp. unfold page_walk. rewrite (proj2 (Z.leb_gt _ _)) by lia.
  eapply page_walk_levels_existing; [done|lia|apply Hr|done].
Qed.
Lemma leaf_valid_table m T va : flag (leaf m T va) PTE_V = true -> is_Some (T !! idx_path va 0).
Proof. unfold leaf. by destruct (T !! idx_path va 0). Qed.

(** writing a leaf entry is a step of the page table *)
Lemma leaf_slot_nonzero root m T va p :
  pt_rep m T root -> T !! idx_path va 0 = Some p -> p + 8 * PX 0 va <> 0.
Proof.
  intros Hr E. pose proof (walk_result_zero root m T va Hr) as Hz. unfold walk_result in Hz.
  rewrite E in Hz. intros E0. by apply Hz in E0.
Qed.
Lemma store_leaf_outside root m T va p v :
  pt_rep m T root -> T !! idx_path va 0 = Some p ->
  same_outside (table_pages T) m (store64 m (p + 8 * PX 0 va) v).
Proof.
  intros Hr Hp. eapply same_outside_mono; [|apply store64_outside].
  rewrite slot_page by (by eapply pr_ok || (apply PX_range; lia)).
  intros x ->%elem_of_singleton. apply elem_of_table_pages. eauto.
Qed.
Lemma st_leaf root s T l va p v :
  pt_ok root s T l -> T !! idx_path va 0 = Some p ->
  let s' := set_k_mem (store64 (k_mem s) (p + 8 * PX 0 va) v) s in
  st64 (p + 8 * PX 0 va) v s = Ok tt s' /\ pt_step root (s, T, l) (s', T, l).
Proof.
  intros (Hr & Hf & Hsep) Hp s'. assert (page_ok p) as Hok by (by eapply pr_ok).
  split; [apply st64_ok, page_ok_addr64; [done|apply PX_range; lia]|].
  pose proof (store_leaf_outside _ _ _ _ _ v Hr Hp) as Hout.
  split; cbn [fst snd]; try done.
  - by apply pt_rep_store_leaf.
  - by eapply pa_write.
  - exists []. set_solver.
Qed.

(** ** map_pages *)

(** one iteration, when memory suffices *)
Lemma map_one root s T l va pa perm D :
  pt_ok root s T l -> 0 <= va < MAXVA -> 0 <= pa < 2 ^ 64 -> 0 <= perm < 1024 ->
  flag (leaf (k_mem s) T va) PTE_V = false ->
  walk_paths va ⊆ D -> (size (D ∖ dom T) <= length l)%nat ->
  exists s' T' l', (forall (X : Type) (x : X),
     (pte <- page_walk root va true ;;
      if pte =? 0 then ret (inr (-1))
      else e <- ld64 pte ;;
        if flag e PTE_V then panic "map_pages fails on mapping va to pa"
        else st64 pte (Z.lor (Z.lor (PA2PTE pa) perm) PTE_V) ;;; ret (inl x)) s
     = Ok (inl x) s') /\
    pt_step root (s, T, l) (s', T', l') /\ (size (D ∖ dom T') <= length l')%nat /\
    (forall a, 0 <= a < MAXVA -> leaf (k_mem s') T' a =
       if decide (page_of a = page_of va) then mkpte pa perm else leaf (k_mem s) T a).
Proof.
  intros Hok Hva Hpa Hperm Hinv HD Hsz.
  destruct (page_walk_alloc root va s T l D Hok Hva HD Hsz)
    as (p & s1 & T1 & l1 & E1 & Hp & Hst1 & Hlf1 & Hsz1).
  pose proof (pt_step_ok _ _ _ _ _ _ _ Hok Hst1) as Hok1. destruct Hok1 as (Hr1 & Hf1 & Hsep1).
  destruct (st_leaf root s1 T1 l1 va p (mkpte pa perm)) as [E2 Hst2]; [done..|].
  eexists _, T1, l1. split_and!.
  - intros X x. rewrite (bind_Ok _ _ _ _ _ E1).
    rewrite (proj2 (Z.eqb_neq _ _)) by (by eapply leaf_slot_nonzero).
    rewrite (bind_Ok _ _ _ _ _ (ld_leaf _ _ _ _ _ Hr1 Hp)), Hlf1, Hinv.
    by rewrite (bind_Ok _ _ _ _ _ E2).
  - by eapply pt_step_trans.
  - done.
  - intros a Ha. simpl. rewrite (leaf_store _ _ root) by (done || by apply mkpte_range).
    case_decide; [done|]. apply Hlf1.
Qed.

Lemma map_pages_spec root s T l va size pa perm D :
  let first := page_of va in
  let n := (page_of (va + size - 1) - first) / PGSIZE + 1 in
  pt_ok root s T l -> 0 <= va -> 0 < size -> va + size <= MAXVA -> 0 <= perm < 1024 ->
  0 <= pa -> pa + n * PGSIZE < 2 ^ 64 ->
  (forall a, first <= a < first + n * PGSIZE -> flag (leaf (k_mem s) T a) PTE_V = false) ->
  (forall a, first <= a < first + n * PGSIZE -> walk_paths a ⊆ D) ->
  (base.size (D ∖ dom T) <= length l)%nat ->
  exists s' T' l', map_pages root va size pa perm s = Ok 0 s' /\
    pt_step root (s, T, l) (s', T', l') /\
    (base.size (D ∖ dom T') <= length l')%nat /\
    (forall a, 0 <= a < MAXVA -> leaf (k_mem s') T' a =
       if decide (first <= a < first + n * PGSIZE)
       then mkpte (pa + (page_of a - first)) perm else leaf (k_mem s) T a).
Proof.
  intros first n Hok Hva Hsz Hmax Hperm Hpa Hpan Hinv HD Hsz0. unfold map_pages.
  set (last := ROUNDDOWN (u64 (va + size - 1)) PGSIZE).
  assert (Hl : last = page_of (va + size - 1)).
  { unfold last. unfold MAXVA in *. by rewrite u64_small by lia. }
  assert (Hn : last = first + (n - 1) * PGSIZE /\ 1 <= n /\ 0 <= first /\ last < MAXVA /\ first mod PGSIZE = 0).
  { rewrite Hl. unfold n, first, page_of, ROUNDDOWN, PGSIZE, MAXVA in *. split_and!; dlia. }
  clearbody n last. destruct Hn as (Hn & Hn1 & Hf0 & HlM & Hfa). clear Hl.
  change (ROUNDDOWN va PGSIZE) with first.
  apply (kwhile_rule
    (fun x s2 => exists i T2 l2, x = (first + i * PGSIZE, pa + i * PGSIZE) /\ 0 <= i <= n /\
       pt_step root (s, T, l) (s2, T2, l2) /\ (base.size (D ∖ dom T2) <= length l2)%nat /\
       (forall a, 0 <= a < MAXVA -> leaf (k_mem s2) T2 a =
         if decide (first <= a < first + i * PGSIZE)
         then mkpte (pa + (page_of a - first)) perm else leaf (k_mem s) T a))
    (fun x => last + PGSIZE - x.1)
    (fun o => exists s' T' l', o = Ok 0 s' /\ pt_step root (s, T, l) (s', T', l') /\
       (base.size (D ∖ dom T') <= length l')%nat /\
       (forall a, 0 <= a < MAXVA -> leaf (k_mem s') T' a =
         if decide (first <= a < first + n * PGSIZE)
         then mkpte (pa + (page_of a - first)) perm else leaf (k_mem s) T a))).
  - exists 0, T, l. split_and!; [pair_lia|lia|lia|by apply pt_step_refl|done|].
    intros a Ha. by rewrite decide_False by lia.
  - cbn [fst]. unfold MAXVA, PGSIZE in *. lia.
  - intros x s2 (i & T2 & l2 & -> & Hi & Hst & Hlen2 & Hlf). unfold PGSIZE, MAXVA in *.
    destruct (Z.leb_spec (first + i * 4096) last).
    2:{ exists s2, T2, l2. assert (i = n) as -> by lia. split_and!; done. }
    assert (Hok2 : pt_ok root s2 T2 l2) by (by eapply pt_step_ok).
    destruct (map_one root s2 T2 l2 (first + i * 4096) (pa + i * 4096) perm D)
      as (s3 & T3 & l3 & E & Hst3 & Hlen3 & Hlf3); unfold MAXVA; try done; try lia; [|apply HD; lia|].
    { rewrite Hlf, decide_False by (unfold MAXVA; lia). apply Hinv. lia. }
    rewrite E. simpl. rewrite !u64_small by lia. split; [|lia].
    exists (i + 1), T3, l3. split_and!; [pair_lia|lia|lia|by eapply pt_step_trans|done|].
    intros a Ha. rewrite Hlf3, Hlf by done. unfold page_of, ROUNDDOWN, PGSIZE in *.
    repeat case_decide; try (exfalso; dlia); f_equal; dlia.
Qed.
(** mapping over a valid entry panics *)
Lemma map_pages_remap root s T l va size pa perm :
  pt_ok root s T l -> 0 <= va -> 0 < size -> va + size <= MAXVA ->
  flag (leaf (k_mem s) T va) PTE_V = true ->
  map_pages root va size pa perm s = Stop (Panic "map_pages fails on mapping va to pa") s.
Proof.
  intros (Hr & Hf & Hsep) Hva Hsz Hmax Hv.
  assert (Hpv : page_of va <= va) by apply page_of_bounds.
  assert (Hp0 : 0 <= page_of va) by (unfold page_of, ROUNDDOWN, PGSIZE; dlia).
  assert (Hlf : leaf (k_mem s) T (page_of va) = leaf (k_mem s) T va).
  { assert (page_of (page_of va) = page_of va) as E by (unfold page_of, ROUNDDOWN, PGSIZE; dlia).
    unfold leaf. simpl. by rewrite !(fun k H => PX_page k _ _ H E) by lia. }
  rewrite <- Hlf in Hv. destruct (leaf_valid_table _ _ _ Hv) as [p Hp].
  unfold map_pages. change (ROUNDDOWN va PGSIZE) with (page_of va).
  apply (kwhile_rule (fun x s2 => x = (page_of va, pa) /\ s2 = s) (fun _ => 0)); [done|lia|].
  intros x s2 [-> ->]. rewrite (proj2 (Z.leb_le _ _)).
  2:{ unfold MAXVA in *. rewrite u64_small by lia. unfold page_of, ROUNDDOWN, PGSIZE. dlia. }
  erewrite bind_Ok; [|eapply page_walk_existing; [done|lia|done]].
  rewrite (proj2 (Z.eqb_neq _ _)) by (by eapply leaf_slot_nonzero).
  rewrite (bind_Ok _ _ _ _ _ (ld_leaf _ _ _ _ _ Hr Hp)), Hv. done.
Qed.

(** ** user_vm_unmap *)

(** an entry [user_vm_unmap] accepts: valid, with some other flag set *)
Definition unmappable (e : Z) : Prop := flag e PTE_V = true /\ PTE_FLAGS e <> PTE_V.

(** a page that may be given back to the allocator *)
Definition returnable (s : kstate) (T : gmap (list Z) Z) (l : list Z) (p : Z) : Prop :=
  freeable s p /\ page_ok p /\ (p ∉ l) /\ (p ∉ table_pages T).

Lemma unmap_one root s T l va (fr : bool) :
  let e := leaf (k_mem s) T va in
  pt_ok root s T l -> 0 <= va < MAXVA -> unmappable e ->
  (fr = true -> returnable s T l (PTE2PA e)) ->
  exists s', (forall (X R : Type) (x : X),
     (pte <- page_walk root va false ;;
      if pte =? 0 then panic "uvmunmap: walk"
      else e <- ld64 pte ;;
        if negb (flag e PTE_V) then panic "uvmunmap: not mapped"
        else if PTE_FLAGS e =? PTE_V then panic "uvmunmap: not a leaf"
        else (if fr then free_page (PTE2PA e) else ret tt) ;;; st64 pte 0 ;;; ret (@inl X R x)) s
     = Ok (inl x) s') /\
    pt_ok root s' T ((if fr then [PTE2PA e] else []) ++ l) /\ kframe s s' /\
    same_outside (table_pages T ∪ (if fr then {[PTE2PA e]} else ∅)) (k_mem s) (k_mem s') /\
    (forall a, 0 <= a < MAXVA -> leaf (k_mem s') T a =
       if decide (page_of a = page_of va) then 0 else leaf (k_mem s) T a).
Proof.
  intros e (Hr & Hf & Hsep) Hva [HV Hfl] Hret.
  destruct (leaf_valid_table _ _ _ HV) as [p Hp].
  (* the state after the optional free *)
  assert (H1 : exists s1, (if fr then free_page (PTE2PA e) else ret tt) s = Ok tt s1 /\
    pt_ok root s1 T ((if fr then [PTE2PA e] else []) ++ l) /\ kframe s s1 /\
    same_outside (if fr then {[PTE2PA e]} else ∅) (k_mem s) (k_mem s1) /\
    (forall a, leaf (k_mem s1) T a = leaf (k_mem s) T a)).
  { destruct fr; [|exists s; split_and!; done].
    destruct (Hret eq_refl) as (Hfr & Hpok & Hnl & Hnt).
    destruct (pa_free _ _ _ Hf Hfr Hpok Hnl) as (s1 & E1 & Hf1 & Hk1 & Hm1).
    assert (Hdj : {[PTE2PA e]} ## table_pages T) by set_solver.
    exists s1. split_and!; [done|split_and!; [by eapply pt_rep_outside|done|]|done..|].
    - intros q Hq. apply elem_of_cons in Hq as [->|Hq]; [done|by apply Hsep].
    - intros a. by eapply leaf_outside. }
  destruct H1 as (s1 & E1 & Hok1 & Hk1 & Hm1 & Hlf1). destruct Hok1 as (Hr1 & Hf1 & Hsep1).
  destruct (st_leaf root s1 T _ va p 0 (conj Hr1 (conj Hf1 Hsep1)) Hp) as [E2 Hst2].
  eexists. split_and!.
  - intros X R x. erewrite bind_Ok; [|by eapply page_walk_existing].
    rewrite (proj2 (Z.eqb_neq _ _)) by (by eapply leaf_slot_nonzero).
    rewrite (bind_Ok _ _ _ _ _ (ld_leaf _ _ _ _ _ Hr Hp)). fold e. rewrite HV.
    rewrite (proj2 (Z.eqb_neq _ _)) by done. simpl.
    by rewrite (bind_Ok _ _ _ _ _ E1), (bind_Ok _ _ _ _ _ E2).
  - split_and!; [apply Hst2..|done].
  - etrans; [done|]. apply kframe_mem.
  - etrans; [eapply same_outside_mono; [|done]; set_solver|].
    eapply same_outside_mono; [|by eapply store_leaf_outside]. set_solver.
  - intros a Ha. simpl. rewrite (leaf_store _ _ root) by done. case_decide; [done|]. apply Hlf1.
Qed.
(** the physical pages of [n] virtual pages from [va] on *)
Definition mapped_pages (m : gmap Z Z) (T : gmap (list Z) Z) (va : Z) (n : nat) : list Z :=
  (fun i : nat => PTE2PA (leaf m T (va + PGSIZE * Z.of_nat i))) <$> seq 0 n.

Lemma mapped_pages_S m T va n :
  mapped_pages m T va (S n) = mapped_pages m T va n ++ [PTE2PA (leaf m T (va + PGSIZE * Z.of_nat n))].
Proof. unfold mapped_pages. by rewrite seq_S, fmap_app. Qed.
Lemma mapped_pages_elem m T va n i :
  (i < n)%nat -> PTE2PA (leaf m T (va + PGSIZE * Z.of_nat i)) ∈ mapped_pages m T va n.
Proof. intros. apply list_elem_of_fmap. exists i. split; [done|]. apply elem_of_seq. lia. Qed.

Lemma mapped_pages_fresh m T va n i :
  NoDup (mapped_pages m T va n) -> (i < n)%nat ->
  PTE2PA (leaf m T (va + PGSIZE * Z.of_nat i)) ∉ mapped_pages m T va i.
Proof.
  intros Hnd Hi. assert (mapped_pages m T va (S i) `prefix_of` mapped_pages m T va n) as [k Hk].
  { unfold mapped_pages. replace n with (S i + (n - S i))%nat by lia. rewrite seq_app, fmap_app.
    by eexists. }
  rewrite Hk in Hnd. apply NoDup_app in Hnd as (Hnd & _). rewrite mapped_pages_S in Hnd.
  apply NoDup_app in Hnd as (_ & Hd & _). intros Hin. apply (Hd _ Hin). set_solver.
Qed.

Lemma user_vm_unmap_spec root s T l va n (fr : bool) :
  let pas := mapped_pages (k_mem s) T va n in
  let size := PGSIZE * Z.of_nat n in
  pt_ok root s T l -> va mod PGSIZE = 0 -> 0 <= va -> va + size <= MAXVA ->
  (forall i, (i < n)%nat -> unmappable (leaf (k_mem s) T (va + PGSIZE * Z.of_nat i))) ->
  (fr = true -> NoDup pas /\ forall p, p ∈ pas -> returnable s T l p) ->
  exists s', user_vm_unmap root va size fr s = Ok tt s' /\
    pt_ok root s' T ((if fr then reverse pas else []) ++ l) /\ kframe s s' /\
    same_outside (table_pages T ∪ (if fr then list_to_set pas else ∅)) (k_mem s) (k_mem s') /\
    (forall a, 0 <= a < MAXVA -> leaf (k_mem s') T a =
       if decide (va <= a < va + size) then 0 else leaf (k_mem s) T a).
Proof.
  intros pas size Hok Hal Hva Hmax Hun Hret. unfold user_vm_unmap. rewrite Hal. simpl negb.
  set (pre i := mapped_pages (k_mem s) T va i).
  apply (kwhile_rule
    (fun a s2 => exists i : nat, a = va + PGSIZE * Z.of_nat i /\ (i <= n)%nat /\
       pt_ok root s2 T ((if fr then reverse (pre i) else []) ++ l) /\ kframe s s2 /\
       same_outside (table_pages T ∪ (if fr then list_to_set (pre i) else ∅)) (k_mem s) (k_mem s2) /\
       (forall a, 0 <= a < MAXVA -> leaf (k_mem s2) T a =
          if decide (va <= a < va + PGSIZE * Z.of_nat i) then 0 else leaf (k_mem s) T a))
    (fun a => va + size - a)
    (fun o => exists s', o = Ok tt s' /\
      pt_ok root s' T ((if fr then reverse pas else []) ++ l) /\ kframe s s' /\
      same_outside (table_pages T ∪ (if fr then list_to_set pas else ∅)) (k_mem s) (k_mem s') /\
      (forall a, 0 <= a < MAXVA -> leaf (k_mem s') T a =
       if decide (va <= a < va + size) then 0 else leaf (k_mem s) T a))).
  - exists 0%nat. split_and!; [lia|lia|by destruct fr|done|done|].
    intros a Ha. by rewrite decide_False by lia.
  - unfold size, MAXVA, PGSIZE in *. lia.
  - intros a s2 (i & -> & Hi & Hok2 & Hk2 & Hm2 & Hlf2). unfold MAXVA in *.
    rewrite (u64_small (va + size)) by (unfold size, PGSIZE in *; lia).
    destruct (Z.ltb_spec (va + PGSIZE * Z.of_nat i) (va + size)) as [Hlt|Hge].
    2:{ assert (i = n) as -> by (unfold size, PGSIZE in *; lia). by exists s2. }
    assert (Hin : (i < n)%nat) by (unfold size, PGSIZE in *; lia).
    assert (Hsame : leaf (k_mem s2) T (va + PGSIZE * Z.of_nat i) = leaf (k_mem s) T (va + PGSIZE * Z.of_nat i)).
    { rewrite Hlf2, decide_False by (unfold size, PGSIZE in *; lia). done. }
    destruct (unmap_one root s2 T ((if fr then reverse (pre i) else []) ++ l) (va + PGSIZE * Z.of_nat i) fr)
      as (s3 & E & Hok3 & Hk3 & Hm3 & Hlf3); [done|unfold size, MAXVA, PGSIZE in *; lia|rewrite Hsame; by apply Hun| |].
    { intros ->. destruct (Hret eq_refl) as [Hnd Hr]. rewrite Hsame.
      destruct (Hr _ (mapped_pages_elem (k_mem s) T va n i Hin)) as (Hfr & Hp & Hnl & Hnt).
      destruct (kframe_bounds _ _ Hk2) as [Eb1 Eb2]. split_and!; [|done| |done].
      - unfold freeable, in_pool in *. by rewrite Eb1, Eb2.
      - rewrite elem_of_app, elem_of_reverse. intros [Hx|?]; [|done].
        by apply (mapped_pages_fresh (k_mem s) T va n i). }
    rewrite E. simpl. rewrite u64_small by (unfold size, PGSIZE in *; lia).
    split; [|unfold size, PGSIZE in *; lia]. rewrite Hsame in Hok3, Hm3.
    exists (S i). unfold pre. rewrite mapped_pages_S. split_and!; [lia|lia| |by etrans| |].
    + destruct fr; [|done]. by rewrite reverse_app.
    + etrans; [eapply same_outside_mono; [|done]|eapply same_outside_mono; [|done]]; destruct fr; set_solver.
    + intros a Ha. rewrite Hlf3, Hlf2 by done. unfold page_of, ROUNDDOWN, PGSIZE in *.
      repeat case_decide; try done; exfalso; dlia.
Qed.
(** ** A fresh page table *)

Definition fresh_table (root : Z) : gmap (list Z) Z := {[ [] := root ]}.

Lemma pt_rep_fresh m root :
  page_ok root -> (forall i, 0 <= i < 512 -> load64 m (root + 8 * i) = 0) ->
  pt_rep m (fresh_table root) root.
Proof.
  intros Hok Hz. unfold fresh_table. split.
  - apply lookup_singleton_eq.
  - intros path p [<- <-]%lookup_singleton_Some. done.
  - intros p1 p2 p [<- _]%lookup_singleton_Some [<- _]%lookup_singleton_Some. done.
  - intros path i p [E _]%lookup_singleton_Some. by destruct path.
  - intros path p i [<- <-]%lookup_singleton_Some _ Hi. simpl.
    rewrite lookup_singleton_ne by done. by rewrite Hz.
Qed.
Lemma leaf_fresh m root va : leaf m (fresh_table root) va = 0.
Proof. unfold leaf, fresh_table. by rewrite lookup_singleton_ne. Qed.
Lemma table_pages_fresh root : table_pages (fresh_table root) = {[root]}.
Proof. unfold table_pages, fresh_table. apply map_img_singleton_L. Qed.

(** allocating and clearing a page directory *)
Lemma new_page_dir s root l :
  free s (root :: l) ->
  exists s', (forall A (f : Z -> K A),
     (t <- alloc_page ;; memset t 0 PGSIZE ;;; f t) s = f root s') /\
    pt_ok root s' (fresh_table root) l /\ kframe s s' /\
    same_outside {[root]} (k_mem s) (k_mem s').
Proof.
  intros Hf. destruct (pa_pages _ _ Hf) as [Hnd Hoks]. inversion Hnd; subst. inversion Hoks; subst.
  destruct (pa_alloc _ _ _ Hf) as (s1 & E1 & Hf1 & Hk1 & Hm1).
  destruct (memset_page s1 root) as (m & E2 & Hm2 & Hz); [done|]. rewrite Hm1 in Hm2.
  exists (set_k_mem m s1). split_and!.
  - intros A f. by rewrite (bind_Ok _ _ _ _ _ E1), (bind_Ok _ _ _ _ _ E2).
  - split_and!; [by apply pt_rep_fresh| |].
    + eapply (pa_write s1); [done|by rewrite Hm1|]. set_solver.
    + intros p Hp. rewrite table_pages_fresh. set_solver.
  - etrans; [done|]. apply kframe_mem.
  - done.
Qed.

(** ** The kernel page table *)

(** the tables of the direct map: one level-1 table and 64 leaf tables *)
Definition kernel_paths : gset (list Z) :=
  list_to_set ([2] :: ((fun j : nat => [2; Z.of_nat j]) <$> seq 0 64)).
Lemma kernel_paths_size (T : gmap (list Z) Z) : (size (kernel_paths ∖ dom T) <= 65)%nat.
Proof.
  etrans; [apply (subseteq_size _ kernel_paths); set_solver|].
  by vm_compute.
Qed.
Lemma kernel_paths_walk a : KERN_BASE <= a < PHYS_TOP -> walk_paths a ⊆ kernel_paths.
Proof.
  unfold KERN_BASE, PHYS_TOP, PKE_MAX_ALLOWABLE_RAM, DRAM_BASE. intros Ha.
  assert (E2 : PX 2 a = 2) by (rewrite PX_div by lia; change (2 ^ (12 + 9 * 2)) with 1073741824; dlia).
  assert (E1 : 0 <= PX 1 a < 64) by (rewrite PX_div by lia; change (2 ^ (12 + 9 * 1)) with 2097152; dlia).
  unfold walk_paths, kernel_paths. simpl idx_path. rewrite E2.
  intros x [->%elem_of_singleton| ->%elem_of_singleton]%elem_of_union;
    rewrite elem_of_list_to_set, elem_of_cons; [right|by left].
  apply list_elem_of_fmap. exists (Z.to_nat (PX 1 a)). rewrite Z2Nat.id by lia.
  split; [done|]. apply elem_of_seq. lia.
Qed.

Definition text_perm : Z := prot_to_type (Z.lor PROT_READ PROT_EXEC) false.
Definition data_perm : Z := prot_to_type (Z.lor PROT_READ PROT_WRITE) false.

Lemma kern_vm_map_spec root s T l va size pa perm D :
  let first := page_of va in
  let n := (page_of (va + size - 1) - first) / PGSIZE + 1 in
  pt_ok root s T l -> 0 <= va -> 0 < size -> va + size <= MAXVA -> 0 <= perm < 1024 ->
  0 <= pa -> pa + n * PGSIZE < 2 ^ 64 ->
  (forall a, first <= a < first + n * PGSIZE -> flag (leaf (k_mem s) T a) PTE_V = false) ->
  (forall a, first <= a < first + n * PGSIZE -> walk_paths a ⊆ D) ->
  (base.size (D ∖ dom T) <= length l)%nat ->
  exists s' T' l', kern_vm_map root va pa size perm s = Ok tt s' /\
    pt_step root (s, T, l) (s', T', l') /\
    (base.size (D ∖ dom T') <= length l')%nat /\
    (forall a, 0 <= a < MAXVA -> leaf (k_mem s') T' a =
       if decide (first <= a < first + n * PGSIZE)
       then mkpte (pa + (page_of a - first)) perm else leaf (k_mem s) T a).
Proof.
  intros. destruct (map_pages_spec root s T l va size pa perm D) as (s' & T' & l' & E & ?); try done.
  exists s', T', l'. split; [|done]. unfold kern_vm_map. by rewrite (bind_Ok _ _ _ _ _ E).
Qed.

Lemma kern_vm_init_spec s l :
  free s l -> (66 <= length l)%nat ->
  KERN_BASE < etext < PHYS_TOP -> etext mod PGSIZE = 0 ->
  exists s' T l', kern_vm_init s = Ok tt s' /\
    pt_ok (k_kernel_pagetable s') s' T l' /\
    forall a, 0 <= a < MAXVA -> leaf (k_mem s') T a =
      if decide (KERN_BASE <= a < etext) then mkpte (page_of a) text_perm
      else if decide (etext <= a < PHYS_TOP) then mkpte (page_of a) data_perm else 0.
Proof.
  intros Hf Hlen He Hal. destruct l as [|root l]; simpl in Hlen; [lia|].
  destruct (new_page_dir s root l Hf) as (s1 & E1 & Hok1 & _).
  set (T1 := fresh_table root) in *.
  assert (Hp1 : page_of KERN_BASE = KERN_BASE) by done.
  assert (Hp2 : page_of (KERN_BASE + (etext - KERN_BASE) - 1) = etext - PGSIZE).
  { unfold page_of, ROUNDDOWN, KERN_BASE, PGSIZE in *. dlia. }
  assert (Hp3 : page_of etext = etext) by (unfold page_of, ROUNDDOWN, PGSIZE in *; dlia).
  assert (Hp4 : page_of (etext + (PHYS_TOP - etext) - 1) = PHYS_TOP - PGSIZE).
  { replace (etext + _ - 1) with (PHYS_TOP - 1) by lia. done. }
  assert (Hd1 : KERN_BASE + ((etext - PGSIZE - KERN_BASE) / PGSIZE + 1) * PGSIZE = etext).
  { unfold KERN_BASE, PGSIZE in *. dlia. }
  assert (Hd2 : etext + ((PHYS_TOP - PGSIZE - etext) / PGSIZE + 1) * PGSIZE = PHYS_TOP).
  { unfold PHYS_TOP, PKE_MAX_ALLOWABLE_RAM, DRAM_BASE, PGSIZE in *. dlia. }
  assert (Hmax : PHYS_TOP < MAXVA /\ PHYS_TOP < 2 ^ 64 /\ 0 < KERN_BASE) by done.
  assert (DRAM_BASE = KERN_BASE) as HDK by done.
  destruct (kern_vm_map_spec root s1 T1 l KERN_BASE (etext - KERN_BASE) DRAM_BASE text_perm kernel_paths)
    as (s2 & T2 & l2 & E2 & Hst2 & Hsz2 & Hlf2); rewrite ?Hp1, ?Hp2, ?Hd1;
    try first [done | rewrite ?HDK, ?Hd1, ?Hd2; lia].
  { intros a Ha. unfold T1. by rewrite leaf_fresh. }
  { intros a Ha. apply kernel_paths_walk. lia. }
  { pose proof (kernel_paths_size T1). lia. }
  rewrite Hp1, Hp2, Hd1 in Hlf2.
  destruct (kern_vm_map_spec root s2 T2 l2 etext (PHYS_TOP - etext) etext data_perm kernel_paths)
    as (s3 & T3 & l3 & E3 & Hst3 & Hsz3 & Hlf3); rewrite ?Hp3, ?Hp4, ?Hd2;
    try first [done | rewrite ?HDK, ?Hd1, ?Hd2; lia].
  { by eapply pt_step_ok. }
  { intros a Ha. rewrite Hlf2, decide_False by (unfold PHYS_TOP, PKE_MAX_ALLOWABLE_RAM, DRAM_BASE, KERN_BASE, MAXVA in *; lia).
    unfold T1. by rewrite leaf_fresh. }
  { intros a Ha. apply kernel_paths_walk. lia. }
  rewrite Hp3, Hp4, Hd2 in Hlf3.
  exists (set_k_kernel_pagetable root s3), T3, l3. split_and!.
  - unfold kern_vm_init. rewrite E1.
    rewrite (u64_small (etext - KERN_BASE)), (u64_small (PHYS_TOP - etext))
      by (unfold PHYS_TOP, PKE_MAX_ALLOWABLE_RAM, DRAM_BASE, KERN_BASE in *; lia).
    by rewrite (bind_Ok _ _ _ _ _ E2), (bind_Ok _ _ _ _ _ E3).
  - destruct (pt_step_ok _ _ _ _ _ _ _ (pt_step_ok _ _ _ _ _ _ _ Hok1 Hst2) Hst3) as (Hr & Hf3 & Hsep).
    split_and!; [done| |done]. by apply (pa_frame s3).
  - intros a Ha. simpl. rewrite Hlf3, Hlf2 by done. unfold T1. rewrite leaf_fresh.
    repeat case_decide; try lia; try done; f_equal; unfold KERN_BASE, DRAM_BASE; lia.
Qed.
(** ** Mapping whole pages *)

Lemma set_size_union_le (X Y : gset (list Z)) : (size (X ∪ Y) <= size X + size Y)%nat.
Proof.
  rewrite size_union_alt. assert (size (Y ∖ X) <= size Y)%nat by (apply subseteq_size; set_solver). lia.
Qed.
Lemma set_size_list_le (l : list (list Z)) : (size (list_to_set (C := gset (list Z)) l) <= length l)%nat.
Proof.
  induction l as [|x l IH]; simpl; [by vm_compute|].
  etrans; [apply set_size_union_le|]. rewrite size_singleton. lia.
Qed.

(** the tables that [n] pages from [va] on may need *)
Definition region_paths (va : Z) (n : nat) : gset (list Z) :=
  list_to_set (mjoin ((fun i : nat => [idx_path (va + PGSIZE * Z.of_nat i) 0;
                                       idx_path (va + PGSIZE * Z.of_nat i) 1]) <$> seq 0 n)).
Lemma region_paths_size va n : (size (region_paths va n) <= 2 * n)%nat.
Proof.
  assert (H : forall m k, length (mjoin ((fun i : nat =>
    [idx_path (va + PGSIZE * Z.of_nat i) 0; idx_path (va + PGSIZE * Z.of_nat i) 1]) <$> seq k m)) = (2 * m)%nat).
  { induction m as [|m IH]; intros k; simpl; [done|]. rewrite IH. lia. }
  rewrite <- (H n 0%nat). apply set_size_list_le.
Qed.
Lemma idx_path_page va1 va2 level : page_of va1 = page_of va2 -> idx_path va1 level = idx_path va2 level.
Proof.
  intros E. destruct level as [|[|]]; simpl; [|by rewrite (PX_page 2 _ _ ltac:(lia) E)|done].
  by rewrite (PX_page 2 _ _ ltac:(lia) E), (PX_page 1 _ _ ltac:(lia) E).
Qed.
Lemma region_paths_walk va n a :
  va mod PGSIZE = 0 -> va <= a < va + PGSIZE * Z.of_nat n -> walk_paths a ⊆ region_paths va n.
Proof.
  intros Hal Ha. set (i := Z.to_nat ((a - va) / PGSIZE)).
  assert (E : page_of a = page_of (va + PGSIZE * Z.of_nat i)).
  { unfold page_of, ROUNDDOWN, i, PGSIZE in *. dlia. }
  assert (Hi : (i < n)%nat) by (unfold i, PGSIZE in *; dlia).
  unfold walk_paths, region_paths. rewrite !(idx_path_page _ _ _ E).
  intros p Hp. rewrite elem_of_list_to_set, list_elem_of_join.
  eexists. split; [|apply list_elem_of_fmap; exists i; split; [done|apply elem_of_seq; lia]].
  set_solver.
Qed.

(** paths that are never tables, to account for the pages that are left *)
Definition spare_paths (k : nat) : gset (list Z) := list_to_set ((fun i : nat => [512 + Z.of_nat i]) <$> seq 0 k).
Lemma spare_paths_size k : size (spare_paths k) = k.
Proof.
  unfold spare_paths. rewrite size_list_to_set.
  - by rewrite length_fmap, length_seq.
  - apply NoDup_fmap_2; [|apply NoDup_seq]. intros i j [= E]. lia.
Qed.
Lemma spare_paths_disjoint m T root k : pt_rep m T root -> spare_paths k ## dom T.
Proof.
  intros Hr p Hp Hd. apply elem_of_list_to_set, list_elem_of_fmap in Hp as (i & -> & _).
  apply elem_of_dom in Hd as [q Hq].
  destruct (pr_parent _ _ _ Hr [] (512 + Z.of_nat i) q Hq) as [_ ?]. lia.
Qed.

Lemma user_vm_map_spec root s T l va n pa perm :
  pt_ok root s T l -> va mod PGSIZE = 0 -> 0 <= va -> (0 < n)%nat ->
  va + PGSIZE * Z.of_nat n <= MAXVA -> 0 <= perm < 1024 ->
  0 <= pa -> pa + PGSIZE * Z.of_nat n < 2 ^ 64 ->
  (forall a, va <= a < va + PGSIZE * Z.of_nat n -> flag (leaf (k_mem s) T a) PTE_V = false) ->
  (2 * n <= length l)%nat ->
  exists s' T' l', user_vm_map root va (PGSIZE * Z.of_nat n) pa perm s = Ok tt s' /\
    pt_step root (s, T, l) (s', T', l') /\ (length l <= length l' + 2 * n)%nat /\
    (forall a, 0 <= a < MAXVA -> leaf (k_mem s') T' a =
       if decide (va <= a < va + PGSIZE * Z.of_nat n)
       then mkpte (pa + (page_of a - va)) perm else leaf (k_mem s) T a).
Proof.
  intros Hok Hal Hva Hn Hmax Hperm Hpa Hpan Hinv Hlen.
  assert (Hf : page_of va = va) by (unfold page_of, ROUNDDOWN, PGSIZE in *; dlia).
  set (k := (length l - 2 * n)%nat).
  set (D := region_paths va n ∪ spare_paths k).
  assert (Hnp : (page_of (va + PGSIZE * Z.of_nat n - 1) - page_of va) / PGSIZE + 1 = Z.of_nat n).
  { rewrite Hf. unfold page_of, ROUNDDOWN, PGSIZE in *. dlia. }
  destruct (map_pages_spec root s T l va (PGSIZE * Z.of_nat n) pa perm D)
    as (s' & T' & l' & E & Hst & Hsz & Hlf); rewrite ?Hnp, ?Hf, ?(Z.mul_comm _ PGSIZE);
    try done; try (unfold PGSIZE; lia).
  { intros a Ha. etrans; [by apply (region_paths_walk va n)|]. set_solver. }
  { etrans; [apply (subseteq_size _ D); set_solver|]. unfold D.
    etrans; [apply set_size_union_le|]. pose proof (region_paths_size va n). rewrite spare_paths_size.
    unfold k. lia. }
  rewrite Hnp, Hf, (Z.mul_comm _ PGSIZE) in Hlf.
  exists s', T', l'. split_and!; [|done| |done].
  - unfold user_vm_map. by rewrite (bind_Ok _ _ _ _ _ E).
  - assert (size (spare_paths k) <= size (D ∖ dom T'))%nat as Hle.
    { apply subseteq_size. pose proof (spare_paths_disjoint _ _ _ k (ps_rep _ _ _ Hst)). set_solver. }
    rewrite spare_paths_size in Hle. unfold k in Hle. lia.
Qed.
End Walk.
#[local] Arguments pt_step free root x x' : clear implicits.
#[local] Arguments pt_ok free root s T l : clear implicits.

(* ------------------------------------------------------------------ *)
(** * Properties *)

(** what [user_va_to_pa] returns for an address of a mapped page *)
Lemma pte_pa_mkpte pa perm :
  0 <= perm < 1024 -> 0 <= pa < 2 ^ 64 -> pa mod PGSIZE = 0 ->
  flag perm PTE_R || flag perm PTE_W = true -> pte_pa (mkpte pa perm) = pa.
Proof.
  intros Hp Hpa Hal Hrw. unfold pte_pa. rewrite flag_mkpte_V, PTE2PA_mkpte by done.
  assert (E : forall n, 0 < n < 10 -> flag (mkpte pa perm) (2 ^ n) = flag perm (2 ^ n)).
  { intros n Hn. rewrite !flag_bit, mkpte_testbit_low by lia.
    by rewrite (proj2 (Z.eqb_neq _ _)) by lia. }
  change PTE_R with (2 ^ 1) in *. change PTE_W with (2 ^ 2) in *. rewrite !E by lia.
  by destruct (flag perm (2 ^ 1)), (flag perm (2 ^ 2)).
Qed.

(** C1. Mapping then translating is the identity.  When the pages from [va] on
    are unmapped and two free pages per mapped page are left, [user_vm_map]
    succeeds; afterwards [user_va_to_pa] sends every address of the range to
    the corresponding physical address, translates every other address as
    before, and no memory but page tables was written. *)
Theorem user_vm_map_translates root s T l va n pa perm :
  pt_ok free_pages root s T l -> va mod PGSIZE = 0 -> 0 <= va -> (0 < n)%nat ->
  va + PGSIZE * Z.of_nat n <= MAXVA ->
  0 <= perm < 1024 -> flag perm PTE_R || flag perm PTE_W = true ->
  pa mod PGSIZE = 0 -> 0 < pa -> pa + PGSIZE * Z.of_nat n < 2 ^ 64 ->
  (forall a, va <= a < va + PGSIZE * Z.of_nat n -> flag (leaf (k_mem s) T a) PTE_V = false) ->
  (2 * n <= length l)%nat ->
  exists s' T' l', user_vm_map root va (PGSIZE * Z.of_nat n) pa perm s = Ok tt s' /\
    pt_ok free_pages root s' T' l' /\ l' `suffix_of` l /\
    same_outside (table_pages T') (k_mem s) (k_mem s') /\
    forall a, 0 <= a < MAXVA ->
      exists v, user_va_to_pa root a s = Ok v s /\
        user_va_to_pa root a s' =
          Ok (if decide (va <= a < va + PGSIZE * Z.of_nat n) then pa + (a - va) else v) s'.
Proof.
  intros Hok Hal Hva Hn Hmax Hp Hrw Hpal Hpa Hpan Hinv Hlen.
  destruct (user_vm_map_spec root s T l va n pa perm) as (s' & T' & l' & E & Hst & _ & Hlf); try done; [lia|].
  pose proof (pt_step_ok _ _ _ _ _ _ _ Hok Hst) as Hok'.
  exists s', T', l'. split_and!; [done|done| |apply Hst|].
  { destruct (ps_used _ _ _ Hst) as (u & Eu & _). by exists u. }
  intros a Ha. destruct Hok as (Hr & _), Hok' as (Hr' & _).
  eexists. split; [by apply (user_va_to_pa_spec _ _ _ T)|].
  rewrite (user_va_to_pa_spec _ _ _ T'), Hlf by done. case_decide; [|done].
  assert (Hb : page_of a <= a < page_of a + PGSIZE /\ va <= page_of a /\ (page_of a - va) mod PGSIZE = 0)
    by (unfold page_of, ROUNDDOWN, PGSIZE in *; dlia).
  cbv zeta. rewrite pte_pa_mkpte; [|done|unfold PGSIZE in *; lia|unfold PGSIZE in *; dlia|done].
  rewrite (proj2 (Z.eqb_neq _ _)) by lia. f_equal.
  rewrite u64_small; unfold page_of, ROUNDDOWN, PGSIZE in *; dlia.
Qed.

(** C19. [user_vm_unmap] with [free] set, on mapped pages whose physical pages
    belong to the allocator: it succeeds, every address of the range translates
    to 0 afterwards and every other one as before, and the physical pages are
    free again, the last one unmapped first. *)
Theorem user_vm_unmap_releases root s T l va n :
  let pas := mapped_pages (k_mem s) T va n in
  pt_ok free_pages root s T l -> va mod PGSIZE = 0 -> 0 <= va ->
  va + PGSIZE * Z.of_nat n <= MAXVA ->
  (forall i, (i < n)%nat -> unmappable (leaf (k_mem s) T (va + PGSIZE * Z.of_nat i))) ->
  NoDup pas -> (forall p, p ∈ pas -> returnable s T l p) ->
  exists s', user_vm_unmap root va (PGSIZE * Z.of_nat n) true s = Ok tt s' /\
    pt_ok free_pages root s' T (reverse pas ++ l) /\
    forall a, 0 <= a < MAXVA ->
      exists v, user_va_to_pa root a s = Ok v s /\
        user_va_to_pa root a s' =
          Ok (if decide (va <= a < va + PGSIZE * Z.of_nat n) then 0 else v) s'.
Proof.
  intros pas Hok Hal Hva Hmax Hun Hnd Hret.
  destruct (user_vm_unmap_spec root s T l va n true) as (s' & E & Hok' & _ & _ & Hlf); try done.
  exists s'. split_and!; [done..|]. intros a Ha. destruct Hok as (Hr & _), Hok' as (Hr' & _).
  eexists. split; [by apply (user_va_to_pa_spec _ _ _ T)|].
  rewrite (user_va_to_pa_spec _ _ _ T), Hlf by done. by case_decide.
Qed.

(** Remapping is refused: when the first page of the range already has a
    valid entry, [user_vm_map] panics and changes nothing. *)
Theorem user_vm_map_refuses_remap root s T l va size pa perm :
  pt_ok free_pages root s T l -> 0 <= va -> 0 < size -> va + size <= MAXVA ->
  flag (leaf (k_mem s) T va) PTE_V = true ->
  user_vm_map root va size pa perm s = Stop (Panic "map_pages fails on mapping va to pa") s.
Proof.
  intros. unfold user_vm_map. by erewrite bind_Stop; [|by eapply map_pages_remap].
Qed.

(** Running out of memory is reported: with no free page and no leaf table
    for [va], [user_vm_map] panics, and memory is unchanged. *)
Theorem user_vm_map_out_of_memory root s T va size pa perm :
  pt_ok free_pages root s T [] -> 0 <= va -> 0 < size -> va + size <= MAXVA ->
  T !! idx_path va 0 = None ->
  exists s', user_vm_map root va size pa perm s = Stop (Panic "fail to user_vm_map .") s' /\
    k_mem s' = k_mem s /\ free_pages s' [].
Proof.
  intros Hok Hva Hsz Hmax Hnone.
  assert (Hb : 0 <= page_of va <= va /\ page_of (page_of va) = page_of va)
    by (unfold page_of, ROUNDDOWN, PGSIZE; dlia). destruct Hb as [Hb Hpp].
  destruct (page_walk_levels_exhausted root (page_of va) 2 s T root) as (s1 & E1 & Hst & Hm); [done|lia| | |].
  { destruct Hok as (Hr&_). apply Hr. } { by rewrite (idx_path_page _ va). }
  exists s1. split_and!; [|done|apply Hst].
  assert (E : map_pages root va size pa perm s = Ok (-1) s1).
  { unfold map_pages. change (ROUNDDOWN va PGSIZE) with (page_of va).
    apply (kwhile_rule (fun x s2 => x = (page_of va, pa) /\ s2 = s) (fun _ => 0)); [done|lia|].
    intros x s2 [-> ->]. unfold MAXVA in *. rewrite (proj2 (Z.leb_le _ _)).
    2:{ rewrite u64_small by lia. unfold page_of, ROUNDDOWN, PGSIZE in *. dlia. }
    erewrite bind_Ok; [|unfold page_walk; rewrite (proj2 (Z.leb_gt _ _)) by (unfold MAXVA; lia); exact E1].
    done. }
  unfold user_vm_map. by rewrite (bind_Ok _ _ _ _ _ E).
Qed.

(** C20. [kern_vm_init] builds the direct map: with 66 free pages it succeeds, the
    new kernel page table translates every address of [KERN_BASE, PHYS_TOP) to
    itself and no other, the kernel text is readable and executable but not
    writable, the rest readable and writable but not executable, and nothing is
    accessible from user mode. *)
Theorem kern_vm_init_direct_map s l :
  free_pages s l -> (66 <= length l)%nat ->
  KERN_BASE < etext < PHYS_TOP -> etext mod PGSIZE = 0 ->
  exists s' T l', kern_vm_init s = Ok tt s' /\
    let root := k_kernel_pagetable s' in
    pt_ok free_pages root s' T l' /\
    forall a, 0 <= a < MAXVA ->
      let e := leaf (k_mem s') T a in
      lookup_pa root a s' = Ok (if decide (KERN_BASE <= a < PHYS_TOP) then page_of a else 0) s' /\
      (KERN_BASE <= a < etext ->
         flag e PTE_X = true /\ flag e PTE_W = false /\ flag e PTE_U = false) /\
      (etext <= a < PHYS_TOP ->
         flag e PTE_X = false /\ flag e PTE_W = true /\ flag e PTE_U = false).
Proof.
  intros Hf Hlen He Hal. destruct (kern_vm_init_spec s l) as (s' & T & l' & E & Hok & Hlf); try done.
  exists s', T, l'. split; [done|]. intros root. split; [done|]. intros a Ha e.
  assert (Hmax : PHYS_TOP < 2 ^ 64 /\ 0 < KERN_BASE) by done.
  assert (Hpg : 0 <= page_of a <= a /\ page_of a mod PGSIZE = 0)
    by (unfold page_of, ROUNDDOWN, PGSIZE; dlia).
  assert (Hfl : forall perm n, 0 < n < 10 -> flag (mkpte (page_of a) perm) (2 ^ n) = Z.testbit perm n).
  { intros perm n Hn. rewrite flag_bit, mkpte_testbit_low by lia.
    by rewrite (proj2 (Z.eqb_neq _ _)) by lia. }
  destruct Hok as (Hr & _). rewrite (lookup_pa_spec _ _ _ T), (proj2 (Z.ltb_lt _ _)) by (done || lia).
  unfold e. rewrite Hlf by done.
  change PTE_X with (2 ^ 3). change PTE_W with (2 ^ 2). change PTE_U with (2 ^ 4).
  split; [|split; intros Hin].
  - f_equal. repeat case_decide; try lia; try done; apply pte_pa_mkpte; done || lia.
  - rewrite decide_True by lia. by rewrite !Hfl by lia.
  - rewrite decide_False, decide_True by lia. by rewrite !Hfl by lia.
Qed.
End Vmm.

Arguments pt_step {_} free root x x'.
Arguments pt_ok {_} free root s T l.
(* ------------------------------------------------------------------ *)
(** * Witnesses *)

(** an empty page table at 0x80020000, and two free pages *)
Definition demo_vm : @kstate Demo.platform :=
  set_k_mem {[ 0x80021000 / 8 := 0x80022000 ]} (set_k_free_list 0x80021000
    (set_k_free_mem_start_addr 0x80020000
      (set_k_free_mem_end_addr 0x80030000 (Demo.state 0x30000)))).

Lemma demo_vm_ok :
  pt_ok free_pages 0x80020000 demo_vm (fresh_table 0x80020000) [0x80021000; 0x80022000].
Proof.
  split_and!.
  - apply pt_rep_fresh; [by vm_compute|]. intros i Hi. simpl. unfold load64.
    rewrite lookup_singleton_ne; [done|]. dlia.
  - split_and!; [by vm_compute| |by repeat constructor].
    repeat constructor; set_solver.
  - intros p. rewrite table_pages_fresh. set_solver.
Qed.

(** the same with one page mapped at virtual address 0x400000 *)
Lemma demo_mapped :
  exists s T l, user_vm_map 0x80020000 0x400000 PGSIZE 0x80025000 (PTE_R + PTE_W) demo_vm = Ok tt s /\
    pt_ok free_pages 0x80020000 s T l /\ l `suffix_of` [0x80021000; 0x80022000] /\
    table_pages T ⊆ {[0x80020000; 0x80021000; 0x80022000]} /\ kframe demo_vm s /\
    leaf (k_mem s) T 0x400000 = mkpte 0x80025000 (PTE_R + PTE_W).
Proof.
  destruct (user_vm_map_spec 0x80020000 demo_vm (fresh_table 0x80020000) [0x80021000; 0x80022000]
    0x400000 1 0x80025000 (PTE_R + PTE_W)) as (s & T & l & E & Hst & _ & Hlf);
    [apply demo_vm_ok|done|lia|lia|done|done|lia|done|intros a _; by rewrite leaf_fresh|simpl; lia|].
  exists s, T, l. destruct (ps_used _ _ _ Hst) as (u & Eu & Hu). cbn [snd] in Eu.
  split_and!; [exact E| | | |apply Hst|].
  - eapply pt_step_ok; [|exact Hst]. apply demo_vm_ok.
  - exists u. exact Eu.
  - intros p Hp. rewrite !elem_of_union, !elem_of_singleton. destruct (Hu p Hp) as [H|H].
    + change (p ∈ table_pages (fresh_table 0x80020000)) in H.
      rewrite table_pages_fresh, elem_of_singleton in H. auto.
    + assert (Hp' : p ∈ [0x80021000; 0x80022000]) by (rewrite Eu; by apply elem_of_app; left).
      rewrite !elem_of_cons, elem_of_nil in Hp'. tauto.
  - clear E. rewrite Hlf by done. rewrite decide_True by done. by vm_compute.
Qed.

Lemma user_vm_map_translates_witness :
  exists s' T' l', user_vm_map 0x80020000 0x400000 PGSIZE 0x80025000 (PTE_R + PTE_W) demo_vm = Ok tt s' /\
    pt_ok free_pages 0x80020000 s' T' l' /\ l' `suffix_of` [0x80021000; 0x80022000] /\
    same_outside (table_pages T') (k_mem demo_vm) (k_mem s') /\
    forall a, 0 <= a < MAXVA ->
      exists v, user_va_to_pa 0x80020000 a demo_vm = Ok v demo_vm /\
        user_va_to_pa 0x80020000 a s' =
          Ok (if decide (0x400000 <= a < 0x400000 + PGSIZE * Z.of_nat 1)
              then 0x80025000 + (a - 0x400000) else v) s'.
Proof.
  apply (user_vm_map_translates 0x80020000 demo_vm (fresh_table 0x80020000)
    [0x80021000; 0x80022000] 0x400000 1 0x80025000 (PTE_R + PTE_W));
    [apply demo_vm_ok|done|lia|lia|done|done|done|done|lia|done|intros a _; by rewrite leaf_fresh|simpl; lia].
Defined.

Lemma user_vm_unmap_releases_witness :
  exists (s : @kstate Demo.platform) T l s', pt_ok free_pages 0x80020000 s T l /\
    leaf (k_mem s) T 0x400000 = mkpte 0x80025000 (PTE_R + PTE_W) /\
    user_vm_unmap 0x80020000 0x400000 (PGSIZE * Z.of_nat 1) true s = Ok tt s' /\
    pt_ok free_pages 0x80020000 s' T (0x80025000 :: l).
Proof.
  destruct demo_mapped as (s & T & l & _ & Hok & Hl & HT & Hk & Hlf).
  assert (Hpa : mapped_pages (k_mem s) T 0x400000 1 = [0x80025000])
    by (change (mapped_pages (k_mem s) T 0x400000 1) with [PTE2PA (leaf (k_mem s) T 0x400000)]; by rewrite Hlf).
  destruct (user_vm_unmap_releases 0x80020000 s T l 0x400000 1) as (s' & E' & Hok' & _); try done.
  - intros [|i] Hi; [|lia]. change (unmappable (leaf (k_mem s) T 0x400000)). by rewrite Hlf.
  - rewrite Hpa. apply NoDup_singleton.
  - rewrite Hpa. intros p ->%list_elem_of_singleton. destruct (kframe_bounds _ _ Hk) as [E1 E2].
    split_and!; [|by vm_compute| |].
    + unfold freeable, in_pool. by rewrite E1, E2.
    + intros Hin. destruct Hl as [u Eu].
      assert (Hp : 0x80025000 ∈ [0x80021000; 0x80022000]) by (rewrite Eu; by apply elem_of_app; right).
      by rewrite !elem_of_cons, elem_of_nil in Hp; destruct Hp as [?|[?|?]].
    + intros Hin%HT. rewrite !elem_of_union, !elem_of_singleton in Hin. by destruct Hin as [[?|?]|?].
  - exists s, T, l, s'. split_and!; [done..|]. by rewrite Hpa in Hok'.
Defined.

Lemma user_vm_map_refuses_remap_witness :
  exists s, user_vm_map 0x80020000 0x400000 PGSIZE 0x80025000 (PTE_R + PTE_W) demo_vm = Ok tt s /\
    user_vm_map 0x80020000 0x400000 PGSIZE 0x80026000 (PTE_R + PTE_W) s
    = Stop (Panic "map_pages fails on mapping va to pa") s.
Proof.
  destruct demo_mapped as (s & T & l & E & Hok & _ & _ & _ & Hlf).
  exists s. split; [exact E|]. clear E. apply (user_vm_map_refuses_remap 0x80020000 s T l); try done.
  rewrite Hlf. apply flag_mkpte_V.
Defined.

(** an empty page table and no free page *)
Definition demo_full : @kstate Demo.platform := Demo.state 0x30000.

Lemma user_vm_map_out_of_memory_witness :
  exists s', user_vm_map 0x80020000 0x400000 PGSIZE 0x80025000 (PTE_R + PTE_W) demo_full
      = Stop (Panic "fail to user_vm_map .") s' /\ k_mem s' = k_mem demo_full /\ free_pages s' [].
Proof.
  apply (user_vm_map_out_of_memory 0x80020000 demo_full (fresh_table 0x80020000)); try done.
  split_and!.
  - apply pt_rep_fresh; [by vm_compute|]. done.
  - split_and!; [done|constructor|constructor].
  - intros p. set_solver.
Defined.

Lemma kern_vm_init_direct_map_witness :
  exists s s' T l', @pmm_init Demo.platform (Demo.state 0x80000) = Ok tt s /\
    kern_vm_init s = Ok tt s' /\
    pt_ok free_pages (k_kernel_pagetable s') s' T l' /\
    lookup_pa (k_kernel_pagetable s') 0x80001234 s' = Ok 0x80001000 s'.
Proof.
  destruct (@pmm_init_spec Demo.platform (Demo.state 0x80000)) as (s & E & Hf & _); [done|done|done|].
  destruct (@kern_vm_init_direct_map Demo.platform s _ Hf) as (s' & T & l' & E' & Hok & Ha); [|clear E; done|clear E; done|].
  { rewrite length_reverse, page_range_length. by apply Nat.leb_le. }
  exists s, s', T, l'. split_and!; [exact E|exact E'|exact Hok|]. clear E E'.
  destruct (Ha 0x80001234) as (Hlk & _); [done|]. rewrite Hlk. by rewrite decide_True.
Defined.
