(* ===== verification/Sched.v ===== *)
(** kernel/sched.c, and the switch to user mode of kernel/process.c.

    The ready queue is threaded through [procs[]] by [queue_next]; [queue s l]
    relates a kernel state to the list of the queued processes, head first.
    [insert_to_ready_queue] and [schedule] refine a FIFO of process indices.

    [schedule] never returns: it leaves for user mode ([User]), shuts the machine
    down, or panics. *)

From S2P Require Import Prelude Machine Pmm Vmm.

(** kernel/riscv.h *)
Definition SSTATUS_SPP : Z := 0x100.
Definition SSTATUS_SPIE : Z := 0x20.

(** kernel/process.h: offsets of struct trapframe *)
Definition TF_sp : Z := 8.
Definition TF_a0 : Z := 72.
Definition TF_a7 : Z := 128.
Definition TF_kernel_sp : Z := 248.
Definition TF_kernel_trap : Z := 256.
Definition TF_epc : Z := 264.
Definition TF_kernel_satp : Z := 272.
Definition TF_size : Z := 280.
Definition NPROC : nat := 32.

Section Sched.
Context {PLAT : Platform}.

(* ------------------------------------------------------------------ *)
(** * The code *)

(** the registers [restore_all_registers] loads (offsets 0, 8, ..., 240) *)
Definition trap_regs (m : gmap Z Z) (tf : Z) : list Z :=
  (fun i : nat => load64 m (tf + 8 * Z.of_nat i)) <$> seq 0 31.

(** kernel/strap_vector.S: return_to_user.  The trapframe page is mapped at its
    physical address in every user page table, so the loads after the switch of
    satp read the same memory. *)
Definition return_to_user {A} (tf user_satp : Z) : K A :=
  write_csr satp user_satp ;;;
  write_csr sscratch tf ;;;
  ld64 tf ;;; ld64 (tf + 240) ;;;
  pc <- read_csr sepc ;;
  fun s => User (mkUser (trap_regs (k_mem s) tf) pc user_satp) s.

Definition switch_to {A} (proc : nat) : K A :=
  modify (set_k_current (Some proc)) ;;;
  write_csr stvec smode_trap_vector ;;;
  tf <- getp proc p_trapframe ;;
  kstack <- getp proc p_kstack ;;
  st64 (tf + TF_kernel_sp) kstack ;;;
  ksatp <- read_csr satp ;;
  st64 (tf + TF_kernel_satp) ksatp ;;;
  st64 (tf + TF_kernel_trap) smode_trap_handler_addr ;;;
  x <- read_csr sstatus ;;
  let x := Z.land x (Z.lnot SSTATUS_SPP) in
  let x := Z.lor x SSTATUS_SPIE in
  write_csr sstatus x ;;;
  epc <- ld64 (tf + TF_epc) ;;
  write_csr sepc epc ;;;
  pagetable <- getp proc p_pagetable ;;
  return_to_user tf (MAKE_SATP pagetable).

Definition insert_to_ready_queue (proc : nat) : K unit :=
  head <- gets k_ready_queue_head ;;
  match head with
  | None =>
      setp proc (set_p_status READY) ;;;
      setp proc (set_p_queue_next None) ;;;
      modify (set_k_ready_queue_head (Some proc))
  | Some p0 =>
      (* the loop ends with the last element, or with None on an early return *)
      last <- kwhile (fun p =>
        next <- getp p p_queue_next ;;
        match next with
        | None => ret (inr (Some p))
        | Some p' => if Nat.eqb p proc then ret (inr None) else ret (inl p')
        end) p0 ;;
      match last with
      | None => ret tt
      | Some p =>
          if Nat.eqb p proc then ret tt
          else
            setp p (set_p_queue_next (Some proc)) ;;;
            setp proc (set_p_status READY) ;;;
            setp proc (set_p_queue_next None)
      end
  end.

(** [procs[i].status] is FREE or ZOMBIE for all i *)
Definition should_shutdown (s : kstate) : bool :=
  forallb (fun i => bool_decide (p_status (proc s i) = FREE) ||
                    bool_decide (p_status (proc s i) = ZOMBIE)) (seq 0 NPROC).

Definition schedule {A} : K A :=
  head <- gets k_ready_queue_head ;;
  match head with
  | None =>
      b <- gets should_shutdown ;;
      if b then halt (Shutdown 0)
      else panic "Not handled: we should let system wait for unfinished processes."
  | Some p =>
      modify (set_k_current (Some p)) ;;;
      st <- getp p p_status ;;
      if bool_decide (st = READY) then
        next <- getp p p_queue_next ;;
        modify (set_k_ready_queue_head next) ;;;
        (* [current->status == RUNNING;] compares and assigns nothing *)
        switch_to p
      else halt (Poweroff "current->status == READY")
  end.

(* ------------------------------------------------------------------ *)
(** * Processes *)

(** the state after [setp i f] *)
Definition updp (i : nat) (f : process -> process) (s : kstate) : kstate :=
  set_k_procs (alter f i (k_procs s)) s.

Lemma setp_run i f s : setp i f s = Ok tt (updp i f s).
Proof. done. Qed.
Lemma updp_length i f s : length (k_procs (updp i f s)) = length (k_procs s).
Proof. apply length_alter. Qed.
Lemma proc_updp_eq s i f : (i < length (k_procs s))%nat -> proc (updp i f s) i = f (proc s i).
Proof.
  intros Hi. unfold proc, updp. simpl. rewrite list_lookup_alter_eq.
  destruct (k_procs s !! i) as [p|] eqn:E; [done|]. apply lookup_ge_None in E. lia.
Qed.
Lemma proc_updp_ne s i j f : i <> j -> proc (updp i f s) j = proc s j.
Proof. intros. unfold proc, updp. simpl. by rewrite list_lookup_alter_ne. Qed.
Lemma proc_updp s i j f :
  (i < length (k_procs s))%nat -> proc (updp i f s) j = if decide (i = j) then f (proc s j) else proc s j.
Proof. intros. case_decide; subst; [by apply proc_updp_eq|by apply proc_updp_ne]. Qed.
Lemma proc_head s h i : proc (set_k_ready_queue_head h s) i = proc s i.
Proof. done. Qed.

(** [s'] differs from [s] only in process table and queue head *)
Definition sched_frame (s s' : kstate) : Prop :=
  s' = set_k_procs (k_procs s') (set_k_ready_queue_head (k_ready_queue_head s') s) /\
  length (k_procs s') = length (k_procs s).

(* ------------------------------------------------------------------ *)
(** * The queue as a list *)

Fixpoint qchain (s : kstate) (head : option nat) (l : list nat) : Prop :=
  match l with
  | [] => head = None
  | i :: l' => head = Some i /\ (i < length (k_procs s))%nat /\
               qchain s (p_queue_next (proc s i)) l'
  end.
Definition queue (s : kstate) (l : list nat) : Prop :=
  qchain s (k_ready_queue_head s) l /\ NoDup l /\ length (k_procs s) = NPROC.

Lemma qchain_frame s s' h l :
  length (k_procs s') = length (k_procs s) ->
  (forall i, i ∈ l -> p_queue_next (proc s' i) = p_queue_next (proc s i)) ->
  qchain s h l -> qchain s' h l.
Proof.
  intros Hlen. revert h. induction l as [|i l IH]; intros h Hn; simpl; [done|].
  intros (-> & ? & Hc). rewrite Hlen. split_and!; [done..|]. rewrite Hn by set_solver.
  apply IH; [|done]. intros. apply Hn. set_solver.
Qed.
Lemma qchain_app s h l1 l2 i :
  qchain s h (l1 ++ i :: l2) -> exists h', qchain s h' (i :: l2).
Proof.
  revert h. induction l1 as [|j l1 IH]; intros h; simpl; [by exists h|].
  intros (_ & _ & H). eauto.
Qed.
Lemma qchain_bound s h l i : qchain s h l -> i ∈ l -> (i < length (k_procs s))%nat.
Proof.
  revert h. induction l as [|j l IH]; intros h; simpl; [set_solver|].
  intros (_ & ? & Hc) [->|?]%elem_of_cons; eauto.
Qed.
(** the queue is the same list whichever way it is read *)
Lemma qchain_det s h l1 l2 : qchain s h l1 -> qchain s h l2 -> l1 = l2.
Proof.
  revert h l2. induction l1 as [|i l1 IH]; intros h [|j l2]; simpl; naive_solver.
Qed.

(** appending to a chain: relink its last element *)
Lemma qchain_snoc s s' h l i :
  length (k_procs s') = length (k_procs s) -> (i < length (k_procs s))%nat ->
  NoDup l -> i ∉ l -> qchain s h l -> l <> [] ->
  (forall j, j ∈ l -> Some j <> last l -> p_queue_next (proc s' j) = p_queue_next (proc s j)) ->
  (forall j, last l = Some j -> p_queue_next (proc s' j) = Some i) ->
  p_queue_next (proc s' i) = None ->
  qchain s' h (l ++ [i]).
Proof.
  intros Hlen Hi. revert h. induction l as [|j l IH]; intros h Hnd Hnin Hc Hne Hsame Hlast Hnil; [done|].
  simpl in *. destruct Hc as (-> & Hj & Hc). rewrite Hlen. split_and!; [done..|].
  inversion Hnd as [|? ? Hjl Hnd']; subst. destruct l as [|k l].
  - simpl. rewrite (Hlast j eq_refl), Hlen. done.
  - assert (Hjn : Some j <> last (j :: k :: l)).
    { rewrite last_cons_cons. intros E%eq_sym%last_Some_elem_of. done. }
    rewrite Hsame by (done || set_solver). apply IH; [done|set_solver|done|done| | |done].
    + intros j' Hj' Hl'. apply Hsame; [set_solver|]. by rewrite last_cons_cons.
    + intros j' Hj'. apply Hlast. by rewrite last_cons_cons.
Qed.
(** a queue holds at most [NPROC] processes *)
Lemma queue_length s l : queue s l -> (length l <= NPROC)%nat.
Proof.
  intros (Hc & Hnd & Hlen). rewrite <- Hlen, <- (length_seq (length (k_procs s)) 0).
  apply submseteq_length, NoDup_submseteq; [done|]. intros i Hi. apply elem_of_seq.
  pose proof (qchain_bound _ _ _ _ Hc Hi). lia.
Qed.

(** ** insert_to_ready_queue *)

Definition position (l : list nat) (p : nat) : Z := Z.of_nat (default 0%nat (fst <$> list_find (eq p) l)).
Lemma position_split l1 l2 p : p ∉ l1 -> position (l1 ++ p :: l2) p = Z.of_nat (length l1).
Proof.
  intros H. unfold position. assert (list_find (eq p) (l1 ++ p :: l2) = Some (length l1, p)) as ->; [|done].
  apply list_find_Some. split_and!; [by rewrite list_lookup_middle|done|].
  intros j y Hj Hlt ->. apply H. rewrite lookup_app_l in Hj by done. by eapply list_elem_of_lookup_2.
Qed.

(** the browsing loop: it stops at [proc], or at the end of the queue *)
Lemma queue_browse s l p0 proc :
  queue s (p0 :: l) ->
  exists r, kwhile (fun p =>
        next <- getp p p_queue_next ;;
        match next with
        | None => ret (inr (Some p))
        | Some p' => if Nat.eqb p proc then ret (inr None) else ret (inl p')
        end) p0 s = Ok r s /\
    if decide (proc ∈ p0 :: l) then r = None \/ r = Some proc else r = last (p0 :: l).
Proof.
  intros Hq. pose proof (queue_length _ _ Hq) as Hlen. destruct Hq as (Hc & Hnd & _).
  set (L := p0 :: l) in *.
  apply (kwhile_rule (fun p s' => s' = s /\ exists l1 l2, L = l1 ++ p :: l2 /\ (proc ∉ l1) /\
           qchain s (Some p) (p :: l2))
         (fun p => Z.of_nat (length L) - position L p)).
  - split; [done|]. exists [], l. split_and!; [done|set_solver|].
    by destruct Hc as (_ & ? & ?).
  - assert (position L p0 = 0) as -> by (apply (position_split [] l); set_solver).
    unfold NPROC in Hlen. simpl in *. lia.
  - intros p s' (-> & l1 & l2 & E & Hnin & _ & Hp & Hn). unfold bind, getp, gets. cbn [iter_post].
    assert (Hpl : p ∉ l1).
    { rewrite E in Hnd. apply NoDup_app in Hnd as (_ & Hd & _). intros H. apply (Hd p H). set_solver. }
    destruct l2 as [|p' l2]; simpl in Hn.
    + rewrite Hn. cbn [iter_post ret]. eexists; split; [done|]. rewrite E, last_snoc.
      case_decide as Hin; [|done]. right.
      rewrite elem_of_app, list_elem_of_singleton in Hin. destruct Hin as [?| ->]; done.
    + destruct Hn as (-> & Hp' & Hn). destruct (Nat.eqb_spec p proc) as [->|Hne]; simpl.
      { eexists; split; [done|]. rewrite decide_True by (rewrite E; set_solver). by left. }
      assert (E2 : L = (l1 ++ [p]) ++ p' :: l2) by by rewrite <- app_assoc.
      assert (Hpl' : p' ∉ l1 ++ [p]).
      { rewrite E2 in Hnd. apply NoDup_app in Hnd as (_ & Hd & _).
        intros H. apply (Hd p' H). set_solver. }
      split; [split; [done|]; exists (l1 ++ [p]), l2; rewrite <- app_assoc; split_and!; try done; set_solver|].
      assert (position L p = Z.of_nat (length l1)) as -> by (rewrite E; by apply position_split).
      assert (position L p' = Z.of_nat (length l1) + 1) as ->
        by (rewrite E2, position_split, length_app by done; simpl; lia).
      apply (f_equal length) in E. rewrite length_app in E. simpl in E. lia.
Qed.

(** inserting a process that is not queued appends it *)
Lemma insert_new s l i :
  queue s l -> (i < NPROC)%nat -> i ∉ l ->
  exists s', insert_to_ready_queue i s = Ok tt s' /\ queue s' (l ++ [i]) /\ sched_frame s s' /\
    proc s' i = set_p_queue_next None (set_p_status READY (proc s i)) /\
    (forall j, j <> i -> exists q, proc s' j = set_p_queue_next q (proc s j)).
Proof.
  intros Hq Hi Hnin. pose proof Hq as (Hc & Hnd & Hlen). unfold insert_to_ready_queue.
  erewrite bind_Ok; [|reflexivity]. rewrite <- Hlen in Hi. destruct l as [|p0 l].
  - simpl in Hc. rewrite Hc. unfold bind, modify. rewrite !setp_run.
    set (s2 := updp i _ (updp i _ s)).
    assert (Hl2 : length (k_procs s2) = length (k_procs s)) by (unfold s2; by rewrite !updp_length).
    assert (H2 : proc s2 i = set_p_queue_next None (set_p_status READY (proc s i)))
      by (unfold s2; by rewrite !proc_updp_eq by (by rewrite ?updp_length)).
    eexists. split; [reflexivity|]. split_and!.
    + split_and!; [|apply NoDup_singleton|exact (eq_trans Hl2 Hlen)].
      cbn [app qchain]. split_and!; [done|by change (i < length (k_procs s2))%nat; rewrite Hl2|].
      by rewrite proc_head, H2.
    + split; [done|apply Hl2].
    + by rewrite proc_head, H2.
    + intros j Hj. exists (p_queue_next (proc s j)). unfold s2. rewrite proc_head, !proc_updp_ne by done.
      by destruct (proc s j).
  - destruct (queue_browse s l p0 i Hq) as (r & E & Hr). rewrite decide_False in Hr by done.
    pose proof Hc as (Eh & _). rewrite Eh, (bind_Ok _ _ _ _ _ E). clear E.
    destruct (last (p0 :: l)) as [p|] eqn:El; [|by apply last_None in El].
    subst r. pose proof (last_Some_elem_of _ _ El) as Hp.
    assert (Hpi : p <> i) by (intros ->; done).
    assert (Hpb : (p < length (k_procs s))%nat) by (by eapply qchain_bound).
    rewrite (proj2 (Nat.eqb_neq _ _)) by done. unfold bind. rewrite !setp_run.
    set (s2 := updp i _ (updp i _ (updp p _ s))).
    assert (Hl2 : length (k_procs s2) = length (k_procs s)) by (unfold s2; by rewrite !updp_length).
    assert (H2 : proc s2 i = set_p_queue_next None (set_p_status READY (proc s i))).
    { unfold s2. rewrite !proc_updp_eq by (by rewrite ?updp_length). by rewrite proc_updp_ne. }
    assert (H3 : forall j, j <> i -> proc s2 j = if decide (p = j) then set_p_queue_next (Some i) (proc s j) else proc s j).
    { intros j Hj. unfold s2. rewrite !proc_updp_ne by done. by apply proc_updp. }
    exists s2. split_and!; [done| | |done|].
    + split_and!; [|apply NoDup_app; split_and!; [done|set_solver|apply NoDup_singleton]|exact (eq_trans Hl2 Hlen)].
      apply (qchain_snoc s s2 _ (p0 :: l)); try done.
      * intros j Hj Hl. rewrite H3 by (intros ->; done). rewrite decide_False; [done|congruence].
      * intros j Hj. rewrite H3 by (intros ->; congruence). rewrite decide_True; [done|congruence].
      * by rewrite H2.
    + split; [done|apply Hl2].
    + intros j Hj. rewrite H3 by done. case_decide; [by eexists|].
      exists (p_queue_next (proc s j)). by destruct (proc s j).
Qed.

(** inserting a queued process changes nothing *)
Lemma insert_queued s l i : queue s l -> i ∈ l -> insert_to_ready_queue i s = Ok tt s.
Proof.
  intros Hq Hin. unfold insert_to_ready_queue. destruct l as [|p0 l]; [set_solver|].
  destruct (queue_browse s l p0 i Hq) as (r & E & Hr). rewrite decide_True in Hr by done.
  destruct Hq as ((Eh & _) & _). erewrite bind_Ok; [|reflexivity]. rewrite Eh, (bind_Ok _ _ _ _ _ E).
  by destruct Hr as [-> | ->]; rewrite ?Nat.eqb_refl.
Qed.
(** ** switch_to and schedule *)

(** the CSRs after a switch to [pagetable], [epc], [tf] *)
Definition user_csrs (c : csr -> Z) (tf epc pagetable : Z) : csr -> Z := fun r =>
  match r with
  | stvec => smode_trap_vector
  | sstatus => Z.lor (Z.land (c sstatus) (Z.lnot SSTATUS_SPP)) SSTATUS_SPIE
  | sepc => epc
  | satp => MAKE_SATP pagetable
  | sscratch => tf
  | r => c r
  end.

(** what switch_to writes into the trapframe *)
Definition armed (m : gmap Z Z) (tf kstack ksatp : Z) : gmap Z Z :=
  store64 (store64 (store64 m (tf + TF_kernel_sp) kstack) (tf + TF_kernel_satp) ksatp)
    (tf + TF_kernel_trap) smode_trap_handler_addr.

Lemma armed_load m tf kstack ksatp a :
  tf mod 8 = 0 -> a / 8 <> (tf + 248) / 8 -> a / 8 <> (tf + 256) / 8 -> a / 8 <> (tf + 272) / 8 ->
  load64 (armed m tf kstack ksatp) a = load64 m a.
Proof.
  intros. unfold armed, TF_kernel_sp, TF_kernel_satp, TF_kernel_trap. by rewrite !load64_store64_ne by done.
Qed.
Lemma armed_regs m tf kstack ksatp :
  tf mod 8 = 0 -> trap_regs (armed m tf kstack ksatp) tf = trap_regs m tf.
Proof.
  intros. unfold trap_regs. apply list_fmap_ext. intros k i [-> Hi]%lookup_seq.
  apply armed_load; dlia.
Qed.
Lemma armed_outside m tf kstack ksatp :
  page_ok tf -> same_outside {[tf]} m (armed m tf kstack ksatp).
Proof.
  intros Hp. unfold armed. repeat (etrans; [|eapply same_outside_mono; [|apply store64_outside]]); [done|..];
    rewrite page_of_slot by (done || unfold TF_kernel_sp, TF_kernel_satp, TF_kernel_trap, PGSIZE; lia); done.
Qed.
Lemma trap_regs_insert m p (k : nat) v :
  page_ok p -> (k < 31)%nat -> 0 <= v < 2 ^ 64 ->
  trap_regs (store64 m (p + 8 * Z.of_nat k) v) p = <[k := v]> (trap_regs m p).
Proof.
  intros Hp Hk Hv. assert (Hal : p mod 8 = 0) by (destruct Hp; unfold PGSIZE in *; dlia).
  assert (Hl : forall m, length (trap_regs m p) = 31%nat) by (intros; unfold trap_regs; by rewrite length_fmap, length_seq).
  apply (list_eq_same_length _ _ 31); [by rewrite length_insert|done|].
  intros j x y Hj Hx Hy. unfold trap_regs in *. rewrite list_lookup_fmap, lookup_seq_lt in Hx by done. simpl in Hx.
  destruct (decide (k = j)) as [->|Hne].
  - rewrite list_lookup_insert_eq in Hy by (by rewrite Hl). rewrite load64_store64_eq, u64_small in Hx by done. congruence.
  - rewrite list_lookup_insert_ne in Hy by done. rewrite list_lookup_fmap, lookup_seq_lt in Hy by done. simpl in Hy.
    rewrite load64_store64_ne in Hx; [congruence|]. dlia.
Qed.

Lemma switch_to_spec {A} s i :
  let p := proc s i in
  let tf := p_trapframe p in
  let epc := load64 (k_mem s) (tf + TF_epc) in
  page_ok tf ->
  exists c', switch_to (A := A) i s =
    User (mkUser (trap_regs (k_mem s) tf) epc (MAKE_SATP (p_pagetable p)))
      (set_k_csr c' (set_k_mem (armed (k_mem s) tf (p_kstack p) (k_csr s satp)) (set_k_current (Some i) s))) /\
    (forall r, c' r = user_csrs (k_csr s) tf epc (p_pagetable p) r).
Proof.
  intros p tf epc Htf. assert (Hal : tf mod 8 = 0) by (destruct Htf; unfold PGSIZE in *; dlia).
  assert (Hok : forall o, 0 <= o -> o + 8 <= PGSIZE -> o mod 8 = 0 -> addr_ok 8 (tf + o) = true)
    by (intros; by apply page_ok_addr).
  assert (Hok0 : addr_ok 8 tf = true) by by apply page_ok_base.
  assert (E1 : addr_ok 8 (tf + TF_kernel_sp) = true) by by apply Hok.
  assert (E2 : addr_ok 8 (tf + TF_kernel_satp) = true) by by apply Hok.
  assert (E3 : addr_ok 8 (tf + TF_kernel_trap) = true) by by apply Hok.
  assert (E4 : addr_ok 8 (tf + TF_epc) = true) by by apply Hok.
  assert (E5 : addr_ok 8 (tf + 240) = true) by by apply Hok.
  clear Hok. unfold switch_to, return_to_user.
  repeat (erewrite bind_Ok; [|first [reflexivity | apply st64_ok; eassumption | apply ld64_ok; eassumption]]).
  cbv beta.
  match goal with |- context [User _ ?st] => exists (k_csr st) end. split.
  - f_equal.
    + f_equal.
      * exact (armed_regs (k_mem s) tf (p_kstack p) (k_csr s satp) Hal).
      * apply (armed_load (k_mem s) tf (p_kstack p) (k_csr s satp) (tf + 264)); dlia.
  - intros r. destruct r; try reflexivity.
    apply (armed_load (k_mem s) tf (p_kstack p) (k_csr s satp) (tf + 264)); dlia.
Qed.
(** the state [schedule] leaves in when it dispatches [i] *)
Lemma schedule_pop {A} s i l :
  queue s (i :: l) -> p_status (proc s i) = READY -> page_ok (p_trapframe (proc s i)) ->
  exists u s', schedule (A := A) s = User u s' /\ queue s' l /\
    ue_regs u = trap_regs (k_mem s) (p_trapframe (proc s i)) /\
    ue_pc u = load64 (k_mem s) (p_trapframe (proc s i) + TF_epc) /\
    ue_satp u = MAKE_SATP (p_pagetable (proc s i)) /\
    k_current s' = Some i /\ k_procs s' = k_procs s /\
    k_free_list s' = k_free_list s /\
    (forall r, k_csr s' r = user_csrs (k_csr s) (p_trapframe (proc s i)) (ue_pc u) (p_pagetable (proc s i)) r) /\
    same_outside {[p_trapframe (proc s i)]} (k_mem s) (k_mem s').
Proof.
  intros (Hc & Hnd & Hlen) Hst Htf. simpl in Hc. destruct Hc as (Eh & Hi & Hc).
  set (s1 := set_k_ready_queue_head (p_queue_next (proc s i)) (set_k_current (Some i) s)).
  destruct (switch_to_spec (A := A) s1 i Htf) as (c' & E & Hcsr).
  eexists _, _. split.
  { unfold schedule. erewrite bind_Ok; [|reflexivity]. rewrite Eh.
    do 2 (erewrite bind_Ok; [|reflexivity]). change (proc (set_k_current _ s) i) with (proc s i).
    rewrite Hst. rewrite bool_decide_true by done. do 2 (erewrite bind_Ok; [|reflexivity]). exact E. }
  split_and!; try done.
  - split_and!; [|by inversion Hnd|done]. by apply (qchain_frame s).
  - by apply armed_outside.
Qed.

(** ** The scheduler as a FIFO *)

Inductive sched_op := Insert (i : nat) | Dispatch.

(** running operations; the dispatched processes in order *)
Fixpoint run_ops (ops : list sched_op) (s : kstate) : option (list nat * kstate) :=
  match ops with
  | [] => Some ([], s)
  | Insert i :: ops' =>
      match insert_to_ready_queue i s with Ok _ s' => run_ops ops' s' | _ => None end
  | Dispatch :: ops' =>
      match schedule (A := unit) s with
      | User _ s' =>
          match k_current s', run_ops ops' s' with
          | Some i, Some (out, s2) => Some (i :: out, s2)
          | _, _ => None
          end
      | _ => None
      end
  end.
(** the abstract queue: insertion at the end unless present, removal at the front *)
Fixpoint fifo_ops (ops : list sched_op) (l : list nat) : option (list nat * list nat) :=
  match ops with
  | [] => Some ([], l)
  | Insert i :: ops' => fifo_ops ops' (if decide (i ∈ l) then l else l ++ [i])
  | Dispatch :: ops' =>
      match l with
      | [] => None
      | i :: l' => match fifo_ops ops' l' with Some (out, l2) => Some (i :: out, l2) | None => None end
      end
  end.

(** processes that can be dispatched *)
Definition runnable (s : kstate) (l : list nat) : Prop :=
  (forall i, i ∈ l -> p_status (proc s i) = READY) /\
  (forall i, (i < NPROC)%nat -> page_ok (p_trapframe (proc s i))).

Lemma runnable_insert s s' l i :
  runnable s l -> proc s' i = set_p_queue_next None (set_p_status READY (proc s i)) ->
  (forall j, j <> i -> exists q, proc s' j = set_p_queue_next q (proc s j)) ->
  runnable s' (l ++ [i]).
Proof.
  intros [Hr Ht] Hi Hj.
  assert (Htf : forall j, p_trapframe (proc s' j) = p_trapframe (proc s j)).
  { intros j. destruct (decide (j = i)) as [->|Hne]; [by rewrite Hi|]. by destruct (Hj j Hne) as [q ->]. }
  split; [|intros j; by rewrite Htf; auto].
  intros j. rewrite elem_of_app, list_elem_of_singleton.
  destruct (decide (j = i)) as [->|Hne]; [by rewrite Hi|]. intros [Hin|?]; [|done].
  destruct (Hj j Hne) as [q ->]. by apply Hr.
Qed.

Lemma schedule_empty {A} s :
  queue s [] -> schedule (A := A) s =
    Stop (if should_shutdown s then Shutdown 0
          else Panic "Not handled: we should let system wait for unfinished processes.") s.
Proof.
  intros (Hh & _). simpl in Hh. unfold schedule. erewrite bind_Ok; [|reflexivity]. rewrite Hh.
  erewrite bind_Ok; [|reflexivity]. by destruct (should_shutdown s).
Qed.

(* ------------------------------------------------------------------ *)
(** * Properties *)

(** C3. The scheduler refines a FIFO queue without duplicates: any sequence of
    [insert_to_ready_queue] and [schedule] calls, from a well-formed ready queue
    of runnable processes, dispatches the same processes in the same order as
    the abstract queue (insert at the end unless present, take from the front)
    and ends in a state whose ready queue is the abstract one; when the abstract
    queue runs empty at a dispatch, [schedule] does not dispatch. *)
Theorem sched_refines_fifo ops s l :
  queue s l -> runnable s l -> (forall i, Insert i ∈ ops -> (i < NPROC)%nat) ->
  match fifo_ops ops l with
  | Some (out, l') => exists s', run_ops ops s = Some (out, s') /\ queue s' l' /\ runnable s' l'
  | None => run_ops ops s = None
  end.
Proof.
  revert s l. induction ops as [|op ops IH]; intros s l Hq Hr Hi; simpl; [by exists s|].
  assert (Hi' : forall i, Insert i ∈ ops -> (i < NPROC)%nat) by (intros; apply Hi; set_solver).
  destruct op as [i|].
  - case_decide as Hin.
    { rewrite (insert_queued s l) by done. by apply IH. }
    destruct (insert_new s l i) as (s' & -> & Hq' & _ & Hp & Hj); [done|apply Hi; set_solver|done|].
    apply IH; [done|by eapply runnable_insert|done].
  - destruct l as [|i l]; [by rewrite (schedule_empty s)|]. destruct Hr as [Hrs Htf].
    assert (Hb : (i < NPROC)%nat).
    { destruct Hq as ((_ & Hb & _) & _ & <-). done. }
    destruct (schedule_pop (A := unit) s i l Hq (Hrs i ltac:(set_solver)) (Htf i Hb))
      as (u & s' & -> & Hq' & _ & _ & _ & Hcur & Hps & _).
    assert (Hr' : runnable s' l).
    { split; intros j; unfold proc; rewrite Hps; intros; [apply Hrs; set_solver|by apply Htf]. }
    specialize (IH s' l Hq' Hr' Hi'). rewrite Hcur. destruct (fifo_ops ops l) as [[out l2]|].
    + destruct IH as (s2 & -> & ? & ?). by exists s2.
    + by rewrite IH.
Qed.

(** [schedule] leaves for user mode in the process at the head of the queue:
    its saved registers and pc, its address space, previous privilege user with
    interrupts enabled (SPP clear, SPIE set); the process becomes [current] and
    leaves the queue, its trapframe holds its kernel stack, the kernel page table
    and the trap handler, and no process changes status: the dispatched one
    stays READY. *)
Theorem schedule_dispatches s i l :
  let p := proc s i in
  queue s (i :: l) -> p_status p = READY -> page_ok (p_trapframe p) ->
  exists s', schedule (A := unit) s =
      User (mkUser (trap_regs (k_mem s) (p_trapframe p)) (load64 (k_mem s) (p_trapframe p + TF_epc))
                   (MAKE_SATP (p_pagetable p))) s' /\
    queue s' l /\ k_current s' = Some i /\
    Z.testbit (k_csr s' sstatus) 8 = false /\ Z.testbit (k_csr s' sstatus) 5 = true /\
    (forall j, p_status (proc s' j) = p_status (proc s j)) /\
    same_outside {[p_trapframe p]} (k_mem s) (k_mem s').
Proof.
  intros p Hq Hst Htf. destruct (schedule_pop (A := unit) s i l Hq Hst Htf)
    as ([regs pc sa] & s' & E & Hq' & Er & Ep & Es & Hcur & Hps & _ & Hcsr & Hm).
  cbn [ue_regs ue_pc ue_satp] in *. subst regs pc sa.
  exists s'. split_and!; try done.
  - rewrite Hcsr. unfold user_csrs. cbv iota. rewrite Z.lor_spec, Z.land_spec, Z.lnot_spec by lia. change (Z.testbit SSTATUS_SPP 8) with true. by rewrite andb_false_r.
  - rewrite Hcsr. unfold user_csrs. cbv iota. by rewrite Z.lor_spec, orb_true_r.
  - intros j. unfold proc. by rewrite Hps.
Qed.

(** With an empty ready queue [schedule] never goes on: it shuts the machine
    down with code 0 when every process is FREE or ZOMBIE, and panics otherwise. *)
Theorem schedule_idle s :
  let idle := forall i, (i < NPROC)%nat -> p_status (proc s i) = FREE \/ p_status (proc s i) = ZOMBIE in
  queue s [] ->
  (idle -> schedule (A := unit) s = Stop (Shutdown 0) s) /\
  (~ idle -> schedule (A := unit) s =
     Stop (Panic "Not handled: we should let system wait for unfinished processes.") s).
Proof.
  intros idle Hq. rewrite (schedule_empty s Hq).
  assert (Hiff : should_shutdown s = true <-> idle).
  { unfold should_shutdown. rewrite forallb_forall. setoid_rewrite in_seq.
    setoid_rewrite orb_true_iff. setoid_rewrite bool_decide_eq_true.
    split; intros H i Hi; apply H; lia. }
  split; intros Hd; [by rewrite (proj2 Hiff Hd)|].
  destruct (should_shutdown s); [by destruct Hd; apply Hiff|done].
Qed.
End Sched.
(* ------------------------------------------------------------------ *)
(** * Witnesses *)

(** an empty queue and 32 processes that share a trapframe page *)
Definition demo_procs : @kstate Demo.platform :=
  set_k_procs (replicate 32 (set_p_trapframe 0x80030000 null_proc)) (Demo.state 0x100000).

Lemma demo_procs_queue : queue demo_procs [].
Proof. split_and!; [done|constructor|done]. Qed.
Lemma demo_proc i : (i < NPROC)%nat -> proc demo_procs i = set_p_trapframe 0x80030000 null_proc.
Proof.
  intros Hi. unfold proc. change (k_procs demo_procs) with (replicate 32 (set_p_trapframe 0x80030000 null_proc)).
  by rewrite lookup_replicate_2.
Qed.
Lemma demo_procs_runnable : runnable demo_procs [].
Proof.
  split; [set_solver|]. intros i Hi.
  rewrite demo_proc by done. by vm_compute.
Qed.

Lemma sched_refines_fifo_witness :
  exists s', run_ops [Insert 3; Insert 1; Insert 3; Dispatch; Insert 3; Dispatch] demo_procs
      = Some ([3; 1]%nat, s') /\ queue s' [3%nat] /\ runnable s' [3%nat].
Proof.
  apply (sched_refines_fifo [Insert 3; Insert 1; Insert 3; Dispatch; Insert 3; Dispatch] demo_procs []).
  - apply demo_procs_queue.
  - apply demo_procs_runnable.
  - intros i Hi. rewrite !elem_of_cons, elem_of_nil in Hi. unfold NPROC.
    destruct Hi as [[= ->]|[[= ->]|[[= ->]|[?|[[= ->]|[?|?]]]]]]; lia || done.
Defined.

(** process 2 is the only one in the queue *)
Definition demo_ready : @kstate Demo.platform :=
  set_k_ready_queue_head (Some 2%nat) (updp 2 (set_p_status READY) demo_procs).

Lemma schedule_dispatches_witness :
  exists s', schedule (A := unit) demo_ready = User (mkUser (replicate 31 0) 0 (MAKE_SATP 0)) s' /\
    queue s' [] /\ k_current s' = Some 2%nat /\ p_status (proc s' 2) = READY.
Proof.
  destruct (schedule_dispatches demo_ready 2 []) as (s' & E & Hq & Hc & _ & _ & Hst & _).
  - split_and!; [split_and!; [done|apply Nat.ltb_lt; by vm_compute|done]|apply NoDup_singleton|done].
  - done.
  - by vm_compute.
  - exists s'. split_and!; [exact E|exact Hq|exact Hc|]. rewrite Hst. done.
Defined.

Lemma schedule_idle_witness :
  schedule (A := unit) demo_procs = Stop (Shutdown 0) demo_procs.
Proof.
  apply (schedule_idle demo_procs); [apply demo_procs_queue|].
  intros i Hi. left. by rewrite demo_proc.
Defined.
