(* ===== verification/SpikeFile.v ===== *)
(** spike_interface/spike_file.c, kernel/hostfs.c: files of the host.

    [spike_files[]] is the table of open host files with their reference counts,
    [spike_fds[]] maps kernel descriptors to entries of that table.  A
    [spike_file_t *] is an index of [spike_files]; [NULL] is [None]; an [ERR_PTR]
    is [inr].  The host itself is the parameter [host_call] of [Platform].

    The kernel runs on one hart with interrupts off while these functions run, so
    [atomic_read], [atomic_set], [atomic_add] and [atomic_cas] (atomic.h) are the
    plain accesses they expand to. *)

From S2P Require Import Prelude Machine StringC.

(** spike_file.h, spike_htif.h *)
Definition MAX_FILES : nat := 128.
Definition MAX_FDS : nat := 128.
Definition INIT_FILE_REF : Z := 3.
Definition ENOMEM : Z := 12.
Definition AT_FDCWD : Z := -100.
Definition HTIFSYS_exit : Z := 93.
Definition HTIFSYS_read : Z := 63.
Definition HTIFSYS_write : Z := 64.
Definition HTIFSYS_openat : Z := 56.
Definition HTIFSYS_close : Z := 57.
Definition HTIFSYS_lseek : Z := 62.
Definition HTIFSYS_pread : Z := 67.

Section SpikeFile.
Context {PLAT : Platform}.

(* ------------------------------------------------------------------ *)
(** * The code *)

(** spike_utils.c: frontend_syscall.  The eight words of [magic_mem] reach the
    host; the first one is its answer. *)
Definition frontend_syscall (n : Z) (args : list Z) : K Z := fun s =>
  let '(r, m, h) := host_call n (u64 <$> args) (k_mem s) (k_host s) in
  Ok (s64 r) (set_k_host h (set_k_mem m s)).

Definition null_file : spike_file := mkSpikeFile 0 0.
(** [f->kfd], [f->refcnt] *)
Definition getf {A} (f : nat) (g : spike_file -> A) : K A :=
  gets (fun s => g (default null_file (k_spike_files s !! f))).
Definition setf (f : nat) (g : spike_file -> spike_file) : K unit :=
  modify (fun s => set_k_spike_files (alter g f (k_spike_files s)) s).
Definition set_refcnt (r : Z) (f : spike_file) : spike_file := mkSpikeFile (kfd f) r.
Definition set_kfd (k : Z) (f : spike_file) : spike_file := mkSpikeFile k (refcnt f).

Definition spike_file_decref (f : nat) : K unit :=
  old <- getf f refcnt ;;
  setf f (set_refcnt (u32 (old - 1))) ;;;
  if old =? 2 then
    k <- getf f kfd ;;
    setf f (set_refcnt 0) ;;;
    frontend_syscall HTIFSYS_close [k; 0; 0; 0; 0; 0; 0] ;;;
    ret tt
  else ret tt.

Definition spike_file_incref (f : nat) : K unit :=
  prev <- getf f refcnt ;;
  setf f (set_refcnt (u32 (prev + 1))) ;;;
  if 0 <? prev then ret tt else panic "prev > 0".

(** [spike_fds[i]] and [atomic_cas(&spike_fds[i], cmp, swp)], inside the array *)
Definition fd_in_range (i : Z) : bool := (0 <=? i) && (i <? Z.of_nat MAX_FDS).
Definition get_fd (i : Z) : K (option nat) :=
  if fd_in_range i then gets (fun s => mjoin (k_spike_fds s !! Z.to_nat i)) else halt (Fault i).
Definition cas_fd (i : Z) (cmp swp : option nat) : K (option nat) :=
  old <- get_fd i ;;
  (when bool_decide (old = cmp) then
     modify (fun s => set_k_spike_fds (<[Z.to_nat i := swp]> (k_spike_fds s)) s)) ;;;
  ret old.

Definition spike_file_close (f : option nat) : K Z :=
  match f with
  | None => ret (-1)
  | Some f =>
      k <- getf f kfd ;;
      old <- cas_fd k (Some f) None ;;
      spike_file_decref f ;;;
      if negb (bool_decide (old = Some f)) then ret (-1)
      else spike_file_decref f ;;; ret 0
  end.

(** the scan of spike_files for a slot whose count is 0 *)
Definition spike_file_get_free : K (option nat) :=
  files <- gets k_spike_files ;;
  match list_find (fun f => refcnt f = 0) (take MAX_FILES files) with
  | Some (f, _) => setf f (set_refcnt INIT_FILE_REF) ;;; ret (Some f)
  | None => ret None
  end.

(** the scan of spike_fds for a free descriptor *)
Definition spike_file_dup (f : nat) : K Z :=
  fds <- gets k_spike_fds ;;
  match list_find (fun d => d = None) (take MAX_FDS fds) with
  | Some (i, _) =>
      modify (fun s => set_k_spike_fds (<[i := Some f]> (k_spike_fds s)) s) ;;;
      spike_file_incref f ;;;
      ret (Z.of_nat i)
  | None => ret (-1)
  end.

Definition spike_file_init : K unit :=
  kfor [0; 1; 2] (fun i =>
    f <- spike_file_get_free ;;
    match f with
    | None => halt (Fault 0)
    | Some f => setf f (set_kfd i) ;;; spike_file_dup f ;;; ret tt
    end).

Definition spike_file_openat (dirfd fn flags mode : Z) : K (nat + Z) :=
  f <- spike_file_get_free ;;
  match f with
  | None => ret (inr (- ENOMEM))
  | Some f =>
      n <- strlen fn ;;
      let fn_size := n + 1 in
      r <- frontend_syscall HTIFSYS_openat [dirfd; fn; fn_size; flags; mode; 0; 0] ;;
      if 0 <=? r then setf f (set_kfd (s32 r)) ;;; ret (inl f)
      else spike_file_decref f ;;; ret (inr r)
  end.
Definition spike_file_open (fn flags mode : Z) : K (nat + Z) :=
  spike_file_openat AT_FDCWD fn flags mode.

(** [f->kfd] of a possibly null [f] *)
Definition kfd_of (f : option nat) : K Z :=
  match f with None => halt (Fault 0) | Some f => getf f kfd end.
Definition spike_file_write (f : option nat) (buf size : Z) : K Z :=
  k <- kfd_of f ;; frontend_syscall HTIFSYS_write [k; buf; size; 0; 0; 0; 0].
Definition spike_file_pread (f : option nat) (buf size offset : Z) : K Z :=
  k <- kfd_of f ;; frontend_syscall HTIFSYS_pread [k; buf; size; offset; 0; 0; 0].
Definition spike_file_read (f : option nat) (buf size : Z) : K Z :=
  k <- kfd_of f ;; frontend_syscall HTIFSYS_read [k; buf; size; 0; 0; 0; 0].
Definition spike_file_lseek (f : option nat) (ptr dir : Z) : K Z :=
  k <- kfd_of f ;; frontend_syscall HTIFSYS_lseek [k; ptr; dir; 0; 0; 0; 0].

(** the compare-and-swap loop succeeds at its first iteration *)
Definition spike_file_get (fd : Z) : K (option nat) :=
  if negb (fd_in_range fd) then ret None
  else
    f <- get_fd fd ;;
    match f with
    | None => ret None
    | Some f =>
        old_cnt <- getf f refcnt ;;
        if old_cnt =? 0 then ret None
        else setf f (set_refcnt (u32 (old_cnt + 1))) ;;; ret (Some f)
    end.

(** ** kernel/hostfs.c *)

Definition host_open (pathname flags : Z) : K Z :=
  f <- spike_file_open pathname flags 0 ;;
  match f with
  | inr _ => ret (-1)
  | inl f =>
      fd <- spike_file_dup f ;;
      if fd <? 0 then spike_file_decref f ;;; ret (-1)
      else ret fd
  end.
Definition host_read (fd buf count : Z) : K Z :=
  f <- spike_file_get fd ;; r <- spike_file_read f buf count ;; ret (s32 r).
Definition host_write (fd buf count : Z) : K Z :=
  f <- spike_file_get fd ;; r <- spike_file_write f buf count ;; ret (s32 r).
Definition host_close (fd : Z) : K Z :=
  f <- spike_file_get fd ;; spike_file_close f.

(** spike_utils.c: sgetline *)
Definition sgetline (dst size : Z) : K unit :=
  r <- spike_file_read (Some 0%nat) dst size ;;
  let n := s32 r in
  st8 (u64 (dst + (n - 1))) 0.
(* ------------------------------------------------------------------ *)
(** * Well-formed tables *)

(** both tables have their size, counts are 32-bit, and a descriptor refers to a
    file that is in use *)
Record files_wf (s : kstate) : Prop := {
  fw_files : length (k_spike_files s) = MAX_FILES;
  fw_fds : length (k_spike_fds s) = MAX_FDS;
  fw_ref i f : k_spike_fds s !! i = Some (Some f) ->
    exists x, k_spike_files s !! f = Some x /\ 0 < refcnt x
}.

Definition file (s : kstate) (f : nat) : spike_file := default null_file (k_spike_files s !! f).
Definition updf (f : nat) (g : spike_file -> spike_file) (s : kstate) : kstate :=
  set_k_spike_files (alter g f (k_spike_files s)) s.

Lemma setf_run f g s : setf f g s = Ok tt (updf f g s).
Proof. done. Qed.
Lemma getf_run {A} f (g : spike_file -> A) s : getf f g s = Ok (g (file s f)) s.
Proof. done. Qed.
Lemma file_updf_eq s f g : (f < length (k_spike_files s))%nat -> file (updf f g s) f = g (file s f).
Proof.
  intros Hf. unfold file, updf. simpl. rewrite list_lookup_alter_eq.
  destruct (k_spike_files s !! f) eqn:E; [done|]. apply lookup_ge_None in E. lia.
Qed.
Lemma file_updf_ne s f f' g : f <> f' -> file (updf f g s) f' = file s f'.
Proof. intros. unfold file, updf. simpl. by rewrite list_lookup_alter_ne. Qed.
Lemma updf_length s f g : length (k_spike_files (updf f g s)) = length (k_spike_files s).
Proof. apply length_alter. Qed.
Lemma updf_updf s f g1 g2 : updf f g2 (updf f g1 s) = updf f (fun x => g2 (g1 x)) s.
Proof.
  unfold updf, set_k_spike_files. simpl. f_equal. apply list_eq. intros j.
  destruct (decide (f = j)) as [<-|]; [|by rewrite !list_lookup_alter_ne].
  rewrite !list_lookup_alter_eq. by destruct (k_spike_files s !! f).
Qed.
Lemma updf_ext s f g1 g2 : g1 (file s f) = g2 (file s f) -> updf f g1 s = updf f g2 s.
Proof.
  intros E. unfold updf, set_k_spike_files. f_equal. apply list_eq. intros j.
  destruct (decide (f = j)) as [<-|]; [|by rewrite !list_lookup_alter_ne].
  rewrite !list_lookup_alter_eq. unfold file in E. by destruct (k_spike_files s !! f); simpl in *; [f_equal|].
Qed.

(** the first free slot and the first free descriptor *)
Definition first_free_file (s : kstate) (f : nat) : Prop :=
  (exists x, k_spike_files s !! f = Some x /\ refcnt x = 0) /\
  forall j y, (j < f)%nat -> k_spike_files s !! j = Some y -> refcnt y <> 0.
Definition first_free_fd (s : kstate) (i : nat) : Prop :=
  k_spike_fds s !! i = Some None /\
  forall j d, (j < i)%nat -> k_spike_fds s !! j = Some d -> d <> None.

Lemma get_free_spec s f :
  length (k_spike_files s) = MAX_FILES -> first_free_file s f ->
  spike_file_get_free s = Ok (Some f) (updf f (set_refcnt INIT_FILE_REF) s).
Proof.
  intros Hl ((x & Hx & H0) & Hj). unfold spike_file_get_free. erewrite bind_Ok; [|reflexivity].
  rewrite take_ge by lia.
  assert (list_find (fun f => refcnt f = 0) (k_spike_files s) = Some (f, x)) as ->; [|done].
  apply list_find_Some. split_and!; [done..|]. intros j y Hy Hlt. by eapply Hj.
Qed.
Lemma get_free_none s :
  (forall x, x ∈ k_spike_files s -> refcnt x <> 0) -> spike_file_get_free s = Ok None s.
Proof.
  intros H. unfold spike_file_get_free. erewrite bind_Ok; [|reflexivity].
  assert (list_find (fun f => refcnt f = 0) (take MAX_FILES (k_spike_files s)) = None) as ->; [|done].
  apply list_find_None. apply Forall_forall. intros x Hx%elem_of_take. 
  destruct Hx as (i & Hi & _). apply H. by eapply list_elem_of_lookup_2.
Qed.
Lemma dup_spec s f i :
  length (k_spike_fds s) = MAX_FDS -> first_free_fd s i -> 0 < refcnt (file s f) ->
  spike_file_dup f s =
    Ok (Z.of_nat i) (updf f (set_refcnt (u32 (refcnt (file s f) + 1)))
                      (set_k_spike_fds (<[i := Some f]> (k_spike_fds s)) s)).
Proof.
  intros Hl (Hx & Hj) Hr. unfold spike_file_dup. erewrite bind_Ok; [|reflexivity].
  rewrite take_ge by lia.
  assert (list_find (fun d => d = None) (k_spike_fds s) = Some (i, None)) as ->.
  { apply list_find_Some. split_and!; [done..|]. intros j y Hy Hlt. by eapply Hj. }
  erewrite bind_Ok; [|reflexivity]. unfold spike_file_incref. rewrite bind_assoc.
  erewrite bind_Ok; [|reflexivity]. rewrite bind_assoc. erewrite bind_Ok; [|reflexivity].
  by rewrite (proj2 (Z.ltb_lt _ _)).
Qed.
Lemma decref_spec s f :
  refcnt (file s f) <> 2 ->
  spike_file_decref f s = Ok tt (updf f (set_refcnt (u32 (refcnt (file s f) - 1))) s).
Proof.
  intros H. unfold spike_file_decref. erewrite bind_Ok; [|reflexivity].
  erewrite bind_Ok; [|reflexivity]. by rewrite (proj2 (Z.eqb_neq _ _)).
Qed.
Lemma get_spec s fd f :
  (fd < MAX_FDS)%nat -> k_spike_fds s !! fd = Some (Some f) -> 0 < refcnt (file s f) ->
  spike_file_get (Z.of_nat fd) s =
    Ok (Some f) (updf f (set_refcnt (u32 (refcnt (file s f) + 1))) s).
Proof.
  intros Hb Hd Hr. unfold spike_file_get, get_fd.
  assert (Hir : fd_in_range (Z.of_nat fd) = true).
  { unfold fd_in_range, MAX_FDS in *. rewrite andb_true_iff, Z.leb_le, Z.ltb_lt. lia. }
  rewrite Hir. simpl. erewrite bind_Ok; [|reflexivity]. rewrite Nat2Z.id, Hd. simpl.
  erewrite bind_Ok; [|reflexivity]. rewrite (proj2 (Z.eqb_neq _ _)) by (unfold file in Hr; lia).
  done.
Qed.
(** ** host_open *)

(** the host's answer to opening the path at [fn] *)
Definition open_request (s : kstate) (fn n flags : Z) : Z * gmap Z Z * host_state :=
  host_call HTIFSYS_openat (u64 <$> [AT_FDCWD; fn; n + 1; flags; 0; 0; 0]) (k_mem s) (k_host s).

Lemma updf_insert s f g x :
  k_spike_files s !! f = Some x -> k_spike_files (updf f g s) = <[f := g x]> (k_spike_files s).
Proof.
  intros Hx. unfold updf. simpl. apply list_eq. intros j.
  destruct (decide (f = j)) as [<-|]; [|by rewrite list_lookup_alter_ne, list_lookup_insert_ne].
  rewrite list_lookup_alter_eq, Hx, list_lookup_insert_eq; [done|]. by eapply lookup_lt_Some.
Qed.

(** [s'] is [s] with slot [f] set to [x], descriptors [fds], and the host at [(m, h)] *)
Record host_step (s s' : kstate) (f : nat) (x : spike_file) (fds : list (option nat))
    (m : gmap Z Z) (h : host_state) : Prop := {
  hs_files : k_spike_files s' = <[f := x]> (k_spike_files s);
  hs_fds : k_spike_fds s' = fds;
  hs_mem : k_mem s' = m;
  hs_host : k_host s' = h;
  hs_rest : s' = set_k_spike_files (k_spike_files s') (set_k_spike_fds fds (set_k_mem m (set_k_host h s)))
}.

Lemma openat_spec s fn l flags f r m h :
  cstr_at (k_mem s) fn l -> length (k_spike_files s) = MAX_FILES -> first_free_file s f ->
  open_request s fn (Z.of_nat (length l)) flags = (r, m, h) ->
  exists s', spike_file_open fn flags 0 s = Ok (if 0 <=? s64 r then inl f else inr (s64 r)) s' /\
    host_step s s' f (if 0 <=? s64 r then mkSpikeFile (s32 (s64 r)) 3
                      else mkSpikeFile (kfd (file s f)) 2) (k_spike_fds s) m h.
Proof.
  intros Hc Hl Hf Hr. pose proof Hf as ((x & Hx & H0) & _).
  assert (Hfx : file s f = x) by (unfold file; by rewrite Hx).
  assert (Hlt : (f < length (k_spike_files s))%nat) by by eapply lookup_lt_Some.
  unfold spike_file_open, spike_file_openat. rewrite (bind_Ok _ _ _ _ _ (get_free_spec s f Hl Hf)).
  set (s1 := updf f _ s). rewrite (bind_Ok _ _ _ _ _ (strlen_spec s1 fn l Hc)).
  set (s2 := set_k_host h (set_k_mem m s1)).
  rewrite (bind_Ok _ _ _ (s64 r) s2).
  2:{ unfold frontend_syscall. unfold open_request in Hr. change (k_mem s1) with (k_mem s).
      change (k_host s1) with (k_host s). by rewrite Hr. }
  assert (H2 : file s2 f = mkSpikeFile (kfd x) 3).
  { change (file s2 f) with (file s1 f). unfold s1. rewrite file_updf_eq by done. by rewrite Hfx. }
  assert (Hx2 : k_spike_files s2 !! f = Some (mkSpikeFile (kfd x) 3)).
  { change (k_spike_files s2) with (k_spike_files s1). unfold s1. rewrite (updf_insert s f _ x) by done.
    rewrite list_lookup_insert_eq by done. done. }
  assert (Hins : forall g, k_spike_files (updf f g s2) = <[f := g (mkSpikeFile (kfd x) 3)]> (k_spike_files s)).
  { intros g. rewrite (updf_insert s2 f g _ Hx2). change (k_spike_files s2) with (k_spike_files s1).
    unfold s1. rewrite (updf_insert s f _ x) by done. by rewrite list_insert_insert_eq. }
  destruct (Z.leb_spec 0 (s64 r)).
  - erewrite bind_Ok; [|apply setf_run]. eexists. split; [done|]. by split; [apply Hins|..].
  - rewrite (bind_Ok _ _ _ _ _ (decref_spec s2 f ltac:(by rewrite H2))). eexists. split; [done|].
    split; try done. rewrite Hins, H2, Hfx. done.
Qed.

Lemma host_open_ok s fn l flags f i r m h :
  cstr_at (k_mem s) fn l -> files_wf s -> first_free_file s f -> first_free_fd s i ->
  open_request s fn (Z.of_nat (length l)) flags = (r, m, h) -> 0 <= r < 2 ^ 31 ->
  exists s', host_open fn flags s = Ok (Z.of_nat i) s' /\
    host_step s s' f (mkSpikeFile r 4) (<[i := Some f]> (k_spike_fds s)) m h.
Proof.
  intros Hc Hwf Hf Hi Hr Hrng.
  destruct (openat_spec s fn l flags f r m h) as (s1 & E1 & Hst); [done|apply Hwf|done..|].
  assert (Er : s64 r = r) by (apply s64_small; lia).
  assert (Er2 : s32 r = r) by (unfold s32, sgn; change (2 ^ 32) with 4294967296; change (2 ^ (32 - 1)) with 2147483648; zcase; dlia).
  rewrite Er, (proj2 (Z.leb_le _ _)), Er2 in * by lia.
  assert (Hlt : (f < length (k_spike_files s))%nat).
  { destruct Hf as ((x & Hx & _) & _). by eapply lookup_lt_Some. }
  assert (Hf1 : k_spike_files s1 !! f = Some (mkSpikeFile r 3)).
  { rewrite (hs_files _ _ _ _ _ _ _ Hst). by apply list_lookup_insert_eq. }
  assert (Hf1' : file s1 f = mkSpikeFile r 3) by (unfold file; by rewrite Hf1).
  unfold host_open. rewrite (bind_Ok _ _ _ _ _ E1).
  rewrite (bind_Ok _ _ _ _ _ (dup_spec s1 f i ltac:(rewrite (hs_fds _ _ _ _ _ _ _ Hst); apply Hwf)
    ltac:(unfold first_free_fd; by rewrite (hs_fds _ _ _ _ _ _ _ Hst)) ltac:(by rewrite Hf1'))).
  rewrite (proj2 (Z.ltb_ge _ _)) by lia. eexists. split; [done|]. rewrite Hf1'.
  assert (Efd := hs_fds _ _ _ _ _ _ _ Hst).
  split.
  - rewrite (updf_insert _ f _ (mkSpikeFile r 3)) by done. simpl.
    rewrite (hs_files _ _ _ _ _ _ _ Hst). by rewrite list_insert_insert_eq.
  - simpl. by rewrite Efd.
  - apply Hst.
  - apply Hst.
  - rewrite Efd. rewrite (hs_rest _ _ _ _ _ _ _ Hst) at 1. done.
Qed.
(** the free slots of the file table *)
Definition nfree (s : kstate) : nat := length (filter (fun x => refcnt x = 0) (k_spike_files s)).

Lemma nfree_use s s' f x y :
  k_spike_files s !! f = Some x -> refcnt x = 0 -> refcnt y <> 0 ->
  k_spike_files s' = <[f := y]> (k_spike_files s) -> S (nfree s') = nfree s.
Proof.
  intros Hx H0 Hy E. unfold nfree. rewrite E. pose proof (lookup_lt_Some _ _ _ Hx) as Hlt.
  rewrite insert_take_drop by done. rewrite <- (take_drop_middle _ _ _ Hx) at 3.
  rewrite !filter_app, !filter_cons, decide_False, decide_True by done.
  rewrite !length_app. simpl. lia.
Qed.

(* ------------------------------------------------------------------ *)
(** * Properties *)

(** A successful [host_open] returns the first free descriptor, bound to the
    first free slot of the file table, which records the host descriptor; every
    other descriptor and slot is as before; and a [host_read] on the new
    descriptor is a read request to the host for that host descriptor. *)
Theorem host_open_binds s fn l flags f i r m h :
  cstr_at (k_mem s) fn l -> files_wf s -> first_free_file s f -> first_free_fd s i ->
  open_request s fn (Z.of_nat (length l)) flags = (r, m, h) -> 0 <= r < 2 ^ 31 ->
  exists s', host_open fn flags s = Ok (Z.of_nat i) s' /\
    k_spike_files s' = <[f := mkSpikeFile r 4]> (k_spike_files s) /\
    k_spike_fds s' = <[i := Some f]> (k_spike_fds s) /\ k_mem s' = m /\ k_host s' = h /\
    forall buf count, exists s'', host_read (Z.of_nat i) buf count s' =
      Ok (s32 (s64 (host_call HTIFSYS_read (u64 <$> [r; buf; count; 0; 0; 0; 0]) m h).1.1)) s''.
Proof.
  intros Hc Hwf Hf Hi Hr Hrng.
  destruct (host_open_ok s fn l flags f i r m h) as (s' & E & Hst); try done.
  exists s'. split; [done|]. destruct Hst as [H1 H2 H3 H4 _]. split_and!; [done..|].
  intros buf count.
  assert (Hlt : (f < length (k_spike_files s))%nat) by (destruct Hf as ((x & Hx & _) & _); by eapply lookup_lt_Some).
  assert (Hlti : (i < length (k_spike_fds s))%nat) by (destruct Hi as (Hx & _); by eapply lookup_lt_Some).
  assert (Hff : file s' f = mkSpikeFile r 4) by (unfold file; by rewrite H1, list_lookup_insert_eq).
  unfold host_read. erewrite bind_Ok; [|apply (get_spec s' i f)].
  2:{ by rewrite <- (fw_fds s Hwf). } 2:{ rewrite H2. by apply list_lookup_insert_eq. } 2:{ by rewrite Hff. }
  rewrite Hff. set (s1 := updf f _ s').
  assert (Hk : kfd (file s1 f) = r).
  { unfold s1. rewrite file_updf_eq; [by rewrite Hff|]. by rewrite H1, length_insert. }
  unfold spike_file_read, kfd_of. rewrite bind_assoc. rewrite (bind_Ok _ _ _ r s1) by (by rewrite getf_run, Hk).
  unfold bind, frontend_syscall. change (k_mem s1) with (k_mem s'). change (k_host s1) with (k_host s').
  rewrite H3, H4. destruct (host_call _ _ _ _) as [[r' m'] h']. by eexists.
Qed.

(** Closing does not release: after a successful [host_open] whose host
    descriptor has the same number as the kernel one, [host_close] returns 0 and
    frees the descriptor, but the file slot keeps a reference count of 3, so it
    is not free, and the host is never asked to close the file. *)
Theorem host_close_leaks s fn l flags f i m h :
  cstr_at (k_mem s) fn l -> files_wf s -> first_free_file s f -> first_free_fd s i ->
  open_request s fn (Z.of_nat (length l)) flags = (Z.of_nat i, m, h) ->
  exists s1 s2, host_open fn flags s = Ok (Z.of_nat i) s1 /\
    host_close (Z.of_nat i) s1 = Ok 0 s2 /\
    k_spike_fds s2 = k_spike_fds s /\
    k_spike_files s2 = <[f := mkSpikeFile (Z.of_nat i) 3]> (k_spike_files s) /\
    k_host s2 = h /\ k_mem s2 = m /\ S (nfree s2) = nfree s.
Proof.
  intros Hc Hwf Hf Hi Hr. pose proof Hf as ((x & Hx & H0) & _).
  pose proof (lookup_lt_Some _ _ _ Hx) as Hlt.
  assert (Hlti : (i < length (k_spike_fds s))%nat) by (destruct Hi as (Hd & _); by eapply lookup_lt_Some).
  assert (Hib : (i < MAX_FDS)%nat) by by rewrite <- (fw_fds s Hwf).
  destruct (host_open_ok s fn l flags f i (Z.of_nat i) m h) as (s1 & E & Hst); try done.
  { unfold MAX_FDS in Hib. lia. }
  destruct Hst as [H1 H2 H3 H4 _].
  assert (Hf1 : k_spike_files s1 !! f = Some (mkSpikeFile (Z.of_nat i) 4))
    by (rewrite H1; by apply list_lookup_insert_eq).
  assert (Hff : file s1 f = mkSpikeFile (Z.of_nat i) 4) by (unfold file; by rewrite Hf1).
  assert (Hl1 : (f < length (k_spike_files s1))%nat) by by eapply lookup_lt_Some.
  assert (Hd1 : k_spike_fds s1 !! i = Some (Some f)) by (rewrite H2; by apply list_lookup_insert_eq).
  set (s2 := updf f (set_refcnt 5) s1).
  set (s3 := set_k_spike_fds (<[i := None]> (k_spike_fds s1)) s2).
  assert (Hff3 : file s3 f = mkSpikeFile (Z.of_nat i) 5).
  { change (file s3 f) with (file s2 f). unfold s2. rewrite file_updf_eq by done. by rewrite Hff. }
  set (s4 := updf f (set_refcnt 4) s3).
  assert (Hff4 : file s4 f = mkSpikeFile (Z.of_nat i) 4).
  { unfold s4. rewrite file_updf_eq, Hff3; [done|]. change (k_spike_files s3) with (k_spike_files s2).
    unfold s2. by rewrite updf_length. }
  exists s1, (updf f (set_refcnt 3) s4). split; [done|].
  assert (Hk4 : k_spike_files (updf f (set_refcnt 3) s4) = <[f := mkSpikeFile (Z.of_nat i) 3]> (k_spike_files s)).
  { unfold s4. rewrite updf_updf. rewrite (updf_insert s3 f _ (mkSpikeFile (Z.of_nat i) 5)).
    - change (k_spike_files s3) with (k_spike_files s2). unfold s2.
      by rewrite (updf_insert s1 f _ _ Hf1), H1, !list_insert_insert_eq.
    - change (k_spike_files s3) with (k_spike_files s2). unfold s2.
      rewrite (updf_insert s1 f _ _ Hf1). by apply list_lookup_insert_eq. }
  split_and!; [| |done|done|done|].
  - unfold host_close. erewrite bind_Ok; [|by apply (get_spec s1 i f); [done..|rewrite Hff]].
    rewrite Hff. change (updf f _ s1) with s2. unfold spike_file_close.
    rewrite (bind_Ok _ _ _ (Z.of_nat i) s2).
    2:{ rewrite getf_run. by rewrite (Hff3 : file s2 f = _). }
    rewrite (bind_Ok _ _ _ (Some f) s3).
    2:{ unfold cas_fd, get_fd. rewrite (bind_Ok _ _ _ (Some f) s2).
        - by rewrite bool_decide_true, Nat2Z.id.
        - assert (fd_in_range (Z.of_nat i) = true) as ->.
          { unfold fd_in_range, MAX_FDS in *. rewrite andb_true_iff, Z.leb_le, Z.ltb_lt. lia. }
          unfold gets. rewrite Nat2Z.id. change (k_spike_fds s2) with (k_spike_fds s1). by rewrite Hd1. }
    erewrite bind_Ok; [|apply decref_spec; by rewrite Hff3]. rewrite Hff3. change (updf f _ s3) with s4.
    rewrite bool_decide_true by done. cbn [negb].
    erewrite bind_Ok; [|apply decref_spec; by rewrite Hff4]. by rewrite Hff4.
  - change (k_spike_fds (updf f _ s4)) with (<[i := None]> (k_spike_fds s1)). rewrite H2, list_insert_insert_eq.
    apply list_insert_id. by destruct Hi.
  - eapply (nfree_use s _ f x); [exact Hx|exact H0| |exact Hk4]. done.
Qed.

(** Failed opens use up the table: when the host refuses, [host_open] returns
    -1 and no descriptor changes, but the slot it tried stays in use (with count
    2); and once no slot is free, [host_open] returns -1 without asking the
    host. *)
Theorem host_open_failure s fn l flags r m h :
  cstr_at (k_mem s) fn l -> files_wf s ->
  open_request s fn (Z.of_nat (length l)) flags = (r, m, h) -> s64 r < 0 ->
  (nfree s = 0%nat -> host_open fn flags s = Ok (-1) s) /\
  (forall f, first_free_file s f ->
    exists s', host_open fn flags s = Ok (-1) s' /\ k_spike_fds s' = k_spike_fds s /\
      refcnt (file s' f) = 2 /\ S (nfree s') = nfree s).
Proof.
  intros Hc Hwf Hr Hneg. split.
  - intros Hn. unfold host_open, spike_file_open, spike_file_openat.
    rewrite bind_assoc, (bind_Ok _ _ _ None s); [done|]. apply get_free_none. intros x Hx H0.
    unfold nfree in Hn. apply length_zero_iff_nil in Hn.
    assert (Hin : x ∈ filter (fun x => refcnt x = 0) (k_spike_files s)) by by apply list_elem_of_filter.
    rewrite Hn in Hin. by apply elem_of_nil in Hin.
  - intros f Hf. pose proof Hf as ((x & Hx & H0) & _).
    destruct (openat_spec s fn l flags f r m h) as (s' & E & Hst); [done|apply Hwf|done..|].
    rewrite (proj2 (Z.leb_gt _ _)) in * by lia. destruct Hst as [H1 H2 _ _ _].
    exists s'. unfold host_open. rewrite (bind_Ok _ _ _ _ _ E). split_and!; [done|done| |].
    + unfold file. rewrite H1, list_lookup_insert_eq; [done|]. by eapply lookup_lt_Some.
    + eapply (nfree_use s s' f x); [exact Hx|exact H0| |exact H1]. done.
Qed.

(** Reading or writing a descriptor that is not open dereferences a null
    pointer: [spike_file_get] returns NULL and its result is not checked. *)
Theorem host_io_bad_fd s fd buf count :
  fd_in_range fd = false \/ k_spike_fds s !! Z.to_nat fd = Some None ->
  host_read fd buf count s = Stop (Fault 0) s /\ host_write fd buf count s = Stop (Fault 0) s.
Proof.
  intros H. assert (E : spike_file_get fd s = Ok None s).
  { unfold spike_file_get, get_fd. destruct (fd_in_range fd) eqn:Ef; [|done]. cbn [negb].
    destruct H as [H|H]; [done|]. erewrite bind_Ok; [|reflexivity]. by rewrite H. }
  unfold host_read, host_write. by rewrite !(bind_Ok _ _ _ _ _ E).
Qed.
End SpikeFile.
(* ------------------------------------------------------------------ *)
(** * Witnesses: empty tables, a host that always answers [a] *)

Definition demo_host (a : Z) : @kstate Demo.platform := @set_k_host Demo.platform a demo_strings.

Lemma demo_host_wf a : files_wf (demo_host a).
Proof.
  split; [done|done|]. intros i f. change (k_spike_fds (demo_host a)) with (replicate 128 (@None nat)).
  by intros [? _]%lookup_replicate_1.
Qed.
Lemma demo_host_file a : first_free_file (demo_host a) 0.
Proof. split; [by eexists|]. lia. Qed.
Lemma demo_host_fd a : first_free_fd (demo_host a) 0.
Proof. split; [done|]. lia. Qed.
Lemma demo_host_path a : cstr_at (k_mem (demo_host a)) 0x80030100 [104; 105].
Proof. apply cstr_check; by vm_compute. Qed.

Lemma host_open_binds_witness :
  exists s', host_open 0x80030100 2 (demo_host 7) = Ok (Z.of_nat 0) s' /\
    k_spike_files s' = <[0%nat := mkSpikeFile 7 4]> (k_spike_files (demo_host 7)) /\
    k_spike_fds s' = <[0%nat := Some 0%nat]> (k_spike_fds (demo_host 7)).
Proof.
  destruct (host_open_binds (demo_host 7) 0x80030100 [104; 105] 2 0 0 7 (k_mem (demo_host 7)) 7)
    as (s' & E & H1 & H2 & _);
    [apply demo_host_path|apply demo_host_wf|apply demo_host_file|apply demo_host_fd|done|lia|].
  exists s'. split_and!; [exact E|exact H1|exact H2].
Defined.
Lemma host_close_leaks_witness :
  exists s1 s2, host_open 0x80030100 2 (demo_host 0) = Ok (Z.of_nat 0) s1 /\
    host_close (Z.of_nat 0) s1 = Ok 0 s2 /\ S (nfree s2) = nfree (demo_host 0).
Proof.
  destruct (host_close_leaks (demo_host 0) 0x80030100 [104; 105] 2 0 0 (k_mem (demo_host 0)) 0)
    as (s1 & s2 & E1 & E2 & _ & _ & _ & _ & Hn);
    [apply demo_host_path|apply demo_host_wf|apply demo_host_file|apply demo_host_fd|done|].
  exists s1, s2. split_and!; [exact E1|exact E2|exact Hn].
Defined.
Lemma host_open_failure_witness :
  exists s', host_open 0x80030100 2 (demo_host (-2)) = Ok (-1) s' /\ S (nfree s') = nfree (demo_host (-2)).
Proof.
  destruct (host_open_failure (demo_host (-2)) 0x80030100 [104; 105] 2 (-2) (k_mem (demo_host (-2))) (-2))
    as [_ H]; [apply demo_host_path|apply demo_host_wf|done|done|].
  destruct (H 0%nat (demo_host_file (-2))) as (s' & E & _ & _ & Hn). exists s'. split; [exact E|exact Hn].
Defined.
Lemma host_io_bad_fd_witness :
  host_read 5 0x80030000 1 (demo_host 0) = Stop (Fault 0) (demo_host 0) /\
  host_write 5 0x80030000 1 (demo_host 0) = Stop (Fault 0) (demo_host 0).
Proof. apply (host_io_bad_fd (demo_host 0) 5 0x80030000 1). by right. Defined.
