(* ===== verification/Stat.v ===== *)
(** spike_interface/spike_file.c: copy_stat and spike_file_stat.

    The host fills a [struct frontend_stat] (spike_file.h); copy_stat converts it,
    field by field, to the C library's [struct stat].  The layout of the latter is
    not in the repository: it is the class [StatLayout], with the laws every C
    structure obeys. *)

From S2P Require Import Prelude Machine StringC SpikeFile.

(** the fields copy_stat sets *)
Inductive stat_field :=
  | st_dev | st_ino | st_mode | st_nlink | st_uid | st_gid | st_rdev | st_size
  | st_blksize | st_blocks | st_atime | st_mtime | st_ctime.
#[global] Instance stat_field_eq_dec : EqDecision stat_field.
Proof. solve_decision. Defined.
Definition stat_fields : list stat_field :=
  [st_dev; st_ino; st_mode; st_nlink; st_uid; st_gid; st_rdev; st_size; st_blksize; st_blocks; st_atime; st_mtime; st_ctime].

(** struct frontend_stat: offset and size in bytes of the field it is copied from *)
Definition frontend_stat (f : stat_field) : Z * Z :=
  match f with
  | st_dev => (0, 8) | st_ino => (8, 8) | st_mode => (16, 4) | st_nlink => (20, 4) | st_uid => (24, 4) | st_gid => (28, 4)
  | st_rdev => (32, 8) | st_size => (48, 8) | st_blksize => (56, 4) | st_blocks => (64, 8)
  | st_atime => (72, 8) | st_mtime => (88, 8) | st_ctime => (104, 8)
  end.
Definition sizeof_frontend_stat : Z := 128.
Definition HTIFSYS_fstat : Z := 80.

(** offset and size in bytes of the fields of struct stat *)
Class StatLayout := {
  stat_off : stat_field -> Z;
  stat_bytes : stat_field -> Z;
  sizeof_stat : Z
}.
(** fields are naturally aligned, inside the structure, and do not overlap *)
Record layout_ok (L : StatLayout) : Prop := {
  lo_bytes f : stat_bytes f ∈ [1; 2; 4; 8];
  lo_align f : stat_off f mod stat_bytes f = 0;
  lo_inside f : 0 <= stat_off f /\ stat_off f + stat_bytes f <= sizeof_stat;
  lo_disjoint f g : f <> g -> stat_off f + stat_bytes f <= stat_off g \/ stat_off g + stat_bytes g <= stat_off f
}.

Section Stat.
Context {PLAT : Platform} {L : StatLayout}.

(* ------------------------------------------------------------------ *)
(** * The code *)

(** loads and stores of [k] bytes *)
Definition ldb (k a : Z) : K Z := fun s => if addr_ok k a then Ok (loadn (8 * k) (k_mem s) a) s else Stop (Fault a) s.
Definition stb (k a v : Z) : K unit := fun s =>
  if addr_ok k a then Ok tt (set_k_mem (storen (8 * k) (k_mem s) a v) s) else Stop (Fault a) s.

(** the assignments, one field after the other; a value is cut to the field *)
Definition copy_stat (dest src : Z) : K unit :=
  kfor stat_fields (fun f =>
    v <- ldb (snd (frontend_stat f)) (src + fst (frontend_stat f)) ;;
    stb (stat_bytes f) (dest + stat_off f) v).

(** [buf] is where the local lies *)
Definition spike_file_stat (buf : Z) (f : option nat) (s : Z) : K Z :=
  k <- kfd_of f ;;
  ret' <- frontend_syscall HTIFSYS_fstat [k; buf; 0; 0; 0; 0; 0] ;;
  copy_stat s buf ;;;
  ret (s32 ret').

(* ------------------------------------------------------------------ *)
(** * Accesses of some bytes *)

Lemma field_ok_bytes k a : k ∈ [1; 2; 4; 8] -> a mod k = 0 -> field_ok (8 * k) a.
Proof.
  intros Hk Ha. unfold field_ok, bit_off. rewrite !elem_of_cons, elem_of_nil in Hk. destruct Hk as [->|[->|[->|[->|[]]]]]; dlia.
Qed.
Lemma loadn_storen_bytes k k' m a b v :
  k ∈ [1; 2; 4; 8] -> k' ∈ [1; 2; 4; 8] -> a mod k = 0 -> b mod k' = 0 -> a + k <= b \/ b + k' <= a ->
  loadn (8 * k') (storen (8 * k) m a v) b = loadn (8 * k') m b.
Proof.
  intros Hk Hk' Ha Hb Hd. apply loadn_storen_ne; [by apply field_ok_bytes..|]. unfold bit_off. dlia.
Qed.
Lemma ldb_ok k a s : addr_ok k a = true -> ldb k a s = Ok (loadn (8 * k) (k_mem s) a) s.
Proof. unfold ldb. by intros ->. Qed.
Lemma stb_ok k a v s : addr_ok k a = true -> stb k a v s = Ok tt (set_k_mem (storen (8 * k) (k_mem s) a v) s).
Proof. unfold stb. by intros ->. Qed.

Lemma frontend_stat_ok f :
  snd (frontend_stat f) ∈ [1; 2; 4; 8] /\ fst (frontend_stat f) mod snd (frontend_stat f) = 0 /\
  0 <= fst (frontend_stat f) /\ fst (frontend_stat f) + snd (frontend_stat f) <= sizeof_frontend_stat.
Proof. destruct f; split_and!; done || (rewrite !elem_of_cons; auto). Qed.
Lemma stat_fields_all f : f ∈ stat_fields.
Proof. destruct f; unfold stat_fields; set_solver. Qed.
Lemma stat_fields_NoDup : NoDup stat_fields.
Proof. apply (bool_decide_unpack (NoDup stat_fields)). by vm_compute. Qed.

(** placed at an 8-aligned address, a naturally aligned field is aligned *)
Lemma placed p o k : k ∈ [1; 2; 4; 8] -> p mod 8 = 0 -> o mod k = 0 -> (p + o) mod k = 0.
Proof.
  intros Hk Hp Ho. rewrite !elem_of_cons, elem_of_nil in Hk. destruct Hk as [->|[->|[->|[->|[]]]]]; dlia.
Qed.
Lemma placed_addr p o k n :
  k ∈ [1; 2; 4; 8] -> p mod 8 = 0 -> o mod k = 0 -> 0 <= o -> o + k <= n -> region_ok p n -> addr_ok k (p + o) = true.
Proof.
  intros Hk Hp Ho H0 Hn (_ & Hlo & Hhi). unfold addr_ok. rewrite !andb_true_iff, !Z.leb_le, Z.eqb_eq. split_and!; [lia|lia|by apply placed].
Qed.

(* ------------------------------------------------------------------ *)
(** * Properties *)

Section Copy.
Variables (dest src : Z).
Hypothesis HL : layout_ok L.
Hypothesis Hdest : dest mod 8 = 0 /\ region_ok dest sizeof_stat.
Hypothesis Hsrc : src mod 8 = 0 /\ region_ok src sizeof_frontend_stat.
Hypothesis Hdisj : dest + sizeof_stat <= src \/ src + sizeof_frontend_stat <= dest.

(** the value a field receives *)
Definition copied_field (m : gmap Z Z) (f : stat_field) : Z :=
  loadn (8 * snd (frontend_stat f)) m (src + fst (frontend_stat f)) mod 2 ^ (8 * stat_bytes f).

Lemma copy_fields fs s :
  NoDup fs ->
  exists m, kfor fs (fun f => v <- ldb (snd (frontend_stat f)) (src + fst (frontend_stat f)) ;; stb (stat_bytes f) (dest + stat_off f) v) s =
      Ok tt (set_k_mem m s) /\
    (forall f, f ∈ fs -> loadn (8 * stat_bytes f) m (dest + stat_off f) = copied_field (k_mem s) f) /\
    (forall k b, k ∈ [1; 2; 4; 8] -> b mod k = 0 -> (forall f, f ∈ fs -> dest + stat_off f + stat_bytes f <= b \/ b + k <= dest + stat_off f) ->
       loadn (8 * k) m b = loadn (8 * k) (k_mem s) b).
Proof.
  intros Hnd. revert s. induction Hnd as [|f fs Hf Hnd IH]; intros s; cbn [kfor].
  { exists (k_mem s). split; [by destruct s|]. split; [set_solver|done]. }
  destruct (frontend_stat_ok f) as (Hk & Ha & H0 & Hn). destruct HL as [Lb La Li Ld]. destruct Hdest as [Hd1 Hd2], Hsrc as [Hs1 Hs2].
  rewrite bind_assoc, (bind_Ok _ _ _ _ _ (ldb_ok _ _ s (placed_addr _ _ _ _ Hk Hs1 Ha H0 Hn Hs2))).
  destruct (Li f) as [Hi0 Hin]. set (v := loadn _ _ _).
  rewrite (bind_Ok _ _ _ _ _ (stb_ok _ _ v s (placed_addr _ _ _ _ (Lb f) Hd1 (La f) Hi0 Hin Hd2))).
  set (m1 := storen _ _ _ _). destruct (IH (set_k_mem m1 s)) as (m & E & Hin' & Hout). exists m. split; [done|].
  assert (Hal : forall g, (dest + stat_off g) mod stat_bytes g = 0) by (intros g; by apply placed).
  split.
  - intros g [->|Hg]%elem_of_cons.
    + rewrite Hout; [|done|done|intros g Hg; assert (g <> f) by (intros ->; done); destruct (Ld g f); [done|lia|lia]].
      cbn [k_mem set_k_mem]. unfold m1. rewrite loadn_storen_eq by (by apply field_ok_bytes). done.
    + rewrite Hin' by done. unfold copied_field. f_equal. cbn [k_mem set_k_mem]. unfold m1.
      destruct (frontend_stat_ok g) as (Hk' & Ha' & H0' & Hn'). apply loadn_storen_bytes; [done|done|done|by apply placed|].
      unfold sizeof_frontend_stat in *. lia.
  - intros k b Hkb Hb Hd. rewrite Hout; [|done|done|intros g Hg; apply Hd; set_solver]. cbn [k_mem set_k_mem]. unfold m1.
    apply loadn_storen_bytes; [done|done|done|done|]. apply Hd. set_solver.
Qed.

(** C38. [spike_file_stat] on an open file asks the host for the status of the host file
    and returns its answer as an int; afterwards every field of the caller's struct
    stat holds the corresponding field of the host's structure, cut to its size, and
    memory outside the structure is as the host left it.  This holds also when the
    host reports an error: then the structure receives the uninitialised buffer. *)
Theorem spike_file_stat_fills s f r mh h :
  host_call HTIFSYS_fstat (u64 <$> [kfd (file s f); src; 0; 0; 0; 0; 0]) (k_mem s) (k_host s) = (r, mh, h) ->
  exists m, spike_file_stat src (Some f) dest s = Ok (s32 (s64 r)) (set_k_mem m (set_k_host h s)) /\
    (forall g, loadn (8 * stat_bytes g) m (dest + stat_off g) = copied_field mh g) /\
    (forall b, b + 8 <= dest \/ dest + sizeof_stat <= b -> b mod 8 = 0 -> load64 m b = load64 mh b).
Proof.
  intros Hh. destruct (copy_fields stat_fields (set_k_host h (set_k_mem mh s)) stat_fields_NoDup) as (m & E & Hin & Hout).
  exists m. unfold spike_file_stat. erewrite bind_Ok by reflexivity. split_and!.
  - erewrite bind_Ok; [|unfold frontend_syscall; cbv zeta; fold (file s f); rewrite Hh; reflexivity].
    unfold copy_stat. by rewrite (bind_Ok _ _ _ _ _ E).
  - intros g. apply Hin, stat_fields_all.
  - intros b Hb Hal. specialize (Hout 8 b ltac:(set_solver) Hal).
    assert (Hld : forall m, loadn (8 * 8) m b = load64 m b).
    { intros m'. unfold loadn, bit_off, get_field. rewrite Hal. pose proof (load64_range m' b).
      rewrite Z.shiftr_0_r. first [rewrite Z.land_ones by lia | idtac]. apply Z.mod_small. lia. }
    rewrite !Hld in Hout. apply Hout. intros g _. destruct (lo_inside _ HL g). lia.
Qed.
End Copy.
End Stat.

(* ------------------------------------------------------------------ *)
(** * Witnesses *)

(** a layout with 16-bit device, inode, link and owner fields *)
#[local] Instance demo_layout : StatLayout := {|
  stat_off f := match f with
    | st_dev => 0 | st_ino => 2 | st_mode => 4 | st_nlink => 8 | st_uid => 10 | st_gid => 12 | st_rdev => 14 | st_size => 16
    | st_atime => 24 | st_mtime => 40 | st_ctime => 56 | st_blksize => 72 | st_blocks => 80 end;
  stat_bytes f := match f with st_mode => 4 | st_dev | st_ino | st_nlink | st_uid | st_gid | st_rdev => 2 | _ => 8 end;
  sizeof_stat := 88
|}.
Lemma demo_layout_ok : layout_ok demo_layout.
Proof.
  split.
  - intros []; cbn; set_solver.
  - by intros [].
  - intros []; cbn; lia.
  - intros [] []; cbn; intros; first [done | lia].
Qed.
(** the buffer holds a device number that does not fit the 16-bit field, and a size *)
Definition demo_stat : @kstate Demo.platform :=
  set_k_mem (store64 (store64 ∅ 0x80040000 0x12345) 0x80040030 4711) (Demo.state 0).
Lemma demo_region a n : forallb (fun x => x) [a mod 8 =? 0; 0 <=? n; DRAM_BASE <=? a; a + n <=? PHYS_TOP] = true -> a mod 8 = 0 /\ region_ok a n.
Proof. cbn [forallb]. rewrite !andb_true_iff, Z.eqb_eq, !Z.leb_le. intros (? & ? & ? & ? & _). by split. Qed.
Lemma spike_file_stat_fills_witness :
  exists m, spike_file_stat 0x80040000 (Some 0%nat) 0x80041000 demo_stat = Ok 0 (set_k_mem m demo_stat) /\
    loadn 16 m 0x80041000 = 0x2345 /\ loadn 64 m 0x80041010 = 4711.
Proof.
  destruct (spike_file_stat_fills (PLAT := Demo.platform) 0x80041000 0x80040000 demo_layout_ok (demo_region 0x80041000 88 eq_refl) (demo_region 0x80040000 128 eq_refl) ltac:(by right)
    demo_stat 0 0 (k_mem demo_stat) (k_host demo_stat) eq_refl) as (m & E & Hf & _).
  exists m. split; [exact E|]. split; [exact (Hf st_dev)|exact (Hf st_size)].
Defined.
