(* ===== verification/Snprintf.v ===== *)
(** Formatted output: util/snprintf.c, and the printing functions of
    spike_interface/spike_utils.c built on it.

    [vsnprintf] runs on physical memory.  A [va_list] is, as in the RISC-V
    calling convention, a pointer to consecutive 8-byte argument slots: [va_arg]
    reads the slot (its low half for an [int]) and advances the pointer.  The
    reference semantics is [render], a function from the format and the argument
    words to the text; [vsnprintf_spec] states that the code writes that text,
    cut to the buffer. *)

From S2P Require Import Prelude Machine StringC SpikeFile.

(* ------------------------------------------------------------------ *)
(** * Code *)

Section Snprintf.
Context {PLAT : Platform}.

(** [if (++pos < n) out[pos - 1] = c;] *)
Definition putc (out n pos c : Z) : K Z :=
  let pos := u64 (pos + 1) in
  (when pos <? n then st8 (out + pos - 1) c) ;;; ret pos.

(** [va_arg(vl, int)] and [longarg ? va_arg(vl, long) : va_arg(vl, int)] *)
Definition va_int (vl : Z) : K (Z * Z) := w <- ld32 vl ;; ret (s32 w, vl + 8).
Definition va_num (longarg : bool) (vl : Z) : K (Z * Z) :=
  if longarg then w <- ld64 vl ;; ret (s64 w, vl + 8) else va_int vl.

Definition hexchar (d : Z) : Z := if d <? 10 then 48 + d else 97 + d - 10.
Definition put_hex (out n : Z) (longarg : bool) (num pos : Z) : K Z :=
  kwhile (fun '(i, pos) =>
    if i <? 0 then ret (inr pos)
    else
      let d := Z.land (Z.shiftr num (4 * i)) 0xF in
      pos <- putc out n pos (hexchar d) ;;
      ret (inl (i - 1, pos))) (2 * (if longarg then 8 else 4) - 1, pos).

(** [for (long nn = num; nn /= 10; digits++);] *)
Definition count_digits (num : Z) : K Z :=
  kwhile (fun '(nn, digits) =>
    let nn := Z.quot nn 10 in
    if nn =? 0 then ret (inr digits) else ret (inl (nn, digits + 1))) (num, 1).
Definition put_digits (out n num digits pos : Z) : K unit :=
  kwhile (fun '(i, num) =>
    if i <? 0 then ret (inr tt)
    else
      (when u64 (pos + i + 1) <? n then st8 (out + pos + i) (48 + Z.rem num 10)) ;;;
      ret (inl (i - 1, Z.quot num 10))) (digits - 1, num).
Definition put_dec (out n num pos : Z) : K Z :=
  np <- (if num <? 0 then pos <- putc out n pos 45 ;; ret (s64 (- num), pos) else ret (num, pos)) ;;
  let '(num, pos) := np in
  digits <- count_digits num ;;
  put_digits out n num digits pos ;;;
  ret (u64 (pos + digits)).

Definition put_string (out n s2 pos : Z) : K Z :=
  kwhile (fun '(s2, pos) =>
    c <- ld8 s2 ;;
    if c =? 0 then ret (inr pos)
    else pos <- putc out n pos c ;; ret (inl (s2 + 1, pos))) (s2, pos).

(** the loop variables: format, longarg, pos, vl *)
Definition conv_state : Type := bool * bool * Z * Z.

(** the switch on the character after %, one case per conversion *)
Definition conversion (out n c : Z) (longarg : bool) (pos vl : Z) : K conv_state :=
  if c =? 108 (* l *) then ret (true, true, pos, vl)
  else if (c =? 112) || (c =? 120) (* p, x *) then
    lp <- (if c =? 112 then
             pos <- putc out n pos 48 ;; pos <- putc out n pos 120 ;; ret (true, pos)
           else ret (longarg, pos)) ;;
    let '(longarg, pos) := lp in
    a <- va_num longarg vl ;;
    let '(num, vl) := a in
    pos <- put_hex out n longarg num pos ;;
    ret (false, false, pos, vl)
  else if c =? 100 (* d *) then
    a <- va_num longarg vl ;;
    let '(num, vl) := a in
    pos <- put_dec out n num pos ;;
    ret (false, false, pos, vl)
  else if c =? 115 (* s *) then
    s2 <- ld64 vl ;;
    pos <- put_string out n s2 pos ;;
    ret (false, false, pos, vl + 8)
  else if c =? 99 (* c *) then
    a <- va_int vl ;;
    let '(ch, vl) := a in
    pos <- putc out n pos (u8 ch) ;;
    ret (false, false, pos, vl)
  else ret (true, longarg, pos, vl).

Definition vsnprintf_step (out n : Z) : Z * conv_state -> K (Z * conv_state + Z) :=
  fun '(s, (format, longarg, pos, vl)) =>
    c <- ld8 s ;;
    if c =? 0 then ret (inr pos)
    else
      st <- (if format then conversion out n c longarg pos vl
             else if c =? 37 (* % *) then ret (true, longarg, pos, vl)
             else pos <- putc out n pos c ;; ret (false, longarg, pos, vl)) ;;
      ret (inl (s + 1, st)).

Definition vsnprintf (out n s vl : Z) : K Z :=
  pos <- kwhile (vsnprintf_step out n) (s, (false, false, 0, vl)) ;;
  (if pos <? n then st8 (out + pos) 0
   else if negb (n =? 0) then st8 (out + n - 1) 0
   else ret tt) ;;;
  ret (s32 pos).

(** consecutive words from [a] on: the argument slots a variadic function saves,
    or the elements of an array *)
Fixpoint st_words (a : Z) (l : list Z) : K unit :=
  match l with
  | [] => ret tt
  | w :: l' => st64 a (u64 w) ;;; st_words (a + 8) l'
  end.

(** spike_utils.c: vprintk.  [out] is the address of its 256-byte local buffer;
    [stderr] is the third entry of spike_files. *)
Definition vprintk (out s vl : Z) : K Z :=
  res <- vsnprintf out 256 s vl ;;
  spike_file_write (Some 2%nat) out (if u64 res <? 256 then res else 256).

(* ------------------------------------------------------------------ *)
(** * Reference semantics *)

Definition hex_text (k : nat) (w : Z) : list Z :=
  (fun i : nat => hexchar (w / 16 ^ Z.of_nat i mod 16)) <$> reverse (seq 0 k).

(** decimal digits, most significant first *)
Fixpoint dec_digits (fuel : nat) (z : Z) : list Z :=
  match fuel with
  | O => []
  | S fuel' => if z <? 10 then [z] else dec_digits fuel' (z / 10) ++ [z mod 10]
  end.
Definition digits_of (z : Z) : list Z := dec_digits 20 z.
Definition dec_text (z : Z) : list Z :=
  if z <? 0 then 45 :: ((fun d => d + 48) <$> digits_of (- z))
  else (fun d => d + 48) <$> digits_of z.

Definition arg_num (longarg : bool) (w : Z) : Z := if longarg then s64 w else s32 w.

(** the text of the format [f] read in mode [format]/[longarg]; [None] when the
    arguments run out, a %s argument is not a string of [str], or %ld is given
    the most negative long, whose negation overflows *)
Fixpoint render (str : Z -> option (list Z)) (format longarg : bool) (f args : list Z) : option (list Z) :=
  match f with
  | [] => Some []
  | c :: f' =>
      if format then
        if c =? 108 then render str true true f' args
        else if (c =? 112) || (c =? 120) || (c =? 100) || (c =? 115) || (c =? 99) then
          w ← head args;
          piece ← (if c =? 112 then Some ([48; 120] ++ hex_text 16 w)
                   else if c =? 120 then Some (hex_text (if longarg then 16 else 8) w)
                   else if c =? 100 then
                     if arg_num longarg w =? - 2 ^ 63 then None else Some (dec_text (arg_num longarg w))
                   else if c =? 115 then str w
                   else Some [w mod 256]);
          rest ← render str false false f' (tail args);
          Some (piece ++ rest)
        else render str true longarg f' args
      else if c =? 37 then render str true longarg f' args
      else rest ← render str false longarg f' args; Some (c :: rest)
  end.

(* ------------------------------------------------------------------ *)
(** * Text in the buffer *)

Section Buffer.
Variables (out n : Z).

(** [txt] has been emitted to the buffer [out[0..n)], of which at most [n - 1]
    bytes are stored; nothing else changed *)
Definition emitted (m0 m : gmap Z Z) (txt : list Z) : Prop :=
  forall a, load8 m a =
    if decide (out <= a < out + Z.min (Z.of_nat (length txt)) (n - 1))
    then txt !!! Z.to_nat (a - out) else load8 m0 a.

Definition short (txt : list Z) : Prop := Z.of_nat (length txt) < 2 ^ 31.
Definition chars (txt : list Z) : Prop := Forall (fun c => 0 <= c < 256) txt.

Hypothesis Hout : region_ok out n.

Lemma out_bounds : 0 <= n < 2 ^ 31 /\ 0 <= out < 2 ^ 32.
Proof. destruct Hout as (?&?&?). unfold PHYS_TOP, PKE_MAX_ALLOWABLE_RAM, DRAM_BASE in *. lia. Qed.
Lemma emitted_nil m : emitted m m [].
Proof. intros a. rewrite decide_False; [done|simpl; lia]. Qed.
Lemma emitted_byte m0 m txt c :
  emitted m0 m txt -> 0 <= c < 256 -> Z.of_nat (length txt) + 1 < n ->
  emitted m0 (store8 m (out + Z.of_nat (length txt)) c) (txt ++ [c]).
Proof.
  intros H Hc Hn a. rewrite load8_store8, length_app, H. simpl.
  destruct (decide (out + Z.of_nat (length txt) = a)) as [<-|Hne].
  - rewrite decide_True by lia. replace (Z.to_nat _) with (length txt) by lia.
    rewrite list_lookup_total_middle by done. by apply Z.mod_small.
  - destruct (decide (out <= a < out + Z.min (Z.of_nat (length txt)) (n - 1))).
    + rewrite decide_True by lia. by rewrite lookup_total_app_l by lia.
    + by rewrite decide_False by lia.
Qed.
Lemma emitted_full m0 m txt more :
  emitted m0 m txt -> n <= Z.of_nat (length txt) + 1 -> emitted m0 m (txt ++ more).
Proof.
  intros H Hn a. rewrite H, length_app.
  destruct (decide (out <= a < out + Z.min (Z.of_nat (length txt)) (n - 1))).
  - rewrite decide_True by lia. by rewrite lookup_total_app_l by lia.
  - by rewrite decide_False by lia.
Qed.
Lemma emitted_outside m0 m txt a : emitted m0 m txt -> ~ (out <= a < out + n) -> load8 m a = load8 m0 a.
Proof. intros H Ha. rewrite H. rewrite decide_False; [done|lia]. Qed.

(** a buffer step from [txt]: it emits [more] and returns [r] *)
Definition emits {A} (m0 : gmap Z Z) (s : kstate) (c : K A) (txt more : list Z) (r : A) : Prop :=
  emitted m0 (k_mem s) txt -> exists m, c s = Ok r (set_k_mem m s) /\ emitted m0 m (txt ++ more).

Lemma st8_ok a v s : addr_ok 1 a = true -> st8 a v s = Ok tt (set_k_mem (store8 (k_mem s) a v) s).
Proof. unfold st8. by intros ->. Qed.

Lemma putc_emits m0 s txt c :
  short txt -> 0 <= c < 256 ->
  emits m0 s (putc out n (Z.of_nat (length txt)) c) txt [c] (Z.of_nat (length txt) + 1).
Proof.
  intros Ht Hc H. pose proof out_bounds. unfold putc, short in *. rewrite u64_small by lia. zcase.
  - exists (store8 (k_mem s) (out + Z.of_nat (length txt)) c). split; [|apply emitted_byte; [done..|lia]].
    erewrite bind_Ok; [done|]. replace (out + (Z.of_nat (length txt) + 1) - 1) with (out + Z.of_nat (length txt)) by lia.
    apply st8_ok. eapply addr_ok_1; [done|lia].
  - exists (k_mem s). split; [by destruct s|]. apply emitted_full; [done|lia].
Qed.

(** a loop that emits one character per iteration *)
Lemma emit_loop {X} (body : X * Z -> K (X * Z + Z)) (xs : nat -> X) m0 s txt more :
  short (txt ++ more) -> chars more ->
  (forall j c m, more !! j = Some c -> emitted m0 m (txt ++ take j more) ->
     body (xs j, Z.of_nat (length txt + j)) (set_k_mem m s) =
     (pos <- putc out n (Z.of_nat (length txt + j)) c ;; ret (inl (xs (S j), pos))) (set_k_mem m s)) ->
  (forall pos m, emitted m0 m (txt ++ more) -> body (xs (length more), pos) (set_k_mem m s) = Ok (inr pos) (set_k_mem m s)) ->
  emits m0 s (kwhile body (xs 0%nat, Z.of_nat (length txt))) txt more (Z.of_nat (length (txt ++ more))).
Proof.
  unfold short. rewrite length_app. intros Hs Hc Hstep Hend H.
  apply (kwhile_rule (fun x s' => exists j m, (j <= length more)%nat /\ x = (xs j, Z.of_nat (length txt + j)) /\
     s' = set_k_mem m s /\ emitted m0 m (txt ++ take j more)) (fun x => Z.of_nat (length txt + length more) - x.2)
     (fun o => exists m, o = Ok _ (set_k_mem m s) /\ emitted m0 m (txt ++ more))).
  { exists 0%nat, (k_mem s). rewrite Nat.add_0_r, take_0, app_nil_r. split_and!; [lia|done|by destruct s|done]. }
  { simpl. lia. }
  intros x s' (j & m & Hj & -> & -> & Hm). destruct (decide (j = length more)) as [->|Hne].
  { rewrite take_ge in Hm by lia. rewrite Hend by done. by exists m. }
  destruct (lookup_lt_is_Some_2 more j ltac:(lia)) as [c Ec].
  assert (Hlen : Z.of_nat (length (txt ++ take j more)) = Z.of_nat (length txt + j)) by (rewrite length_app, length_take; lia).
  destruct (putc_emits m0 (set_k_mem m s) (txt ++ take j more) c) as (m' & E & Hm');
    [unfold short; lia|exact (Forall_lookup_1 _ _ _ _ Hc Ec)|done|].
  rewrite Hlen in E. rewrite (Hstep j c m Ec Hm), (bind_Ok _ _ _ _ _ E). simpl. split; [|lia].
  exists (S j), m'. split_and!; [lia|do 2 f_equal; lia|done|]. by rewrite (take_S_r _ _ _ Ec), app_assoc.
Qed.

Lemma put_string_emits m0 s txt p l :
  short (txt ++ l) -> cstr_at m0 p l -> (p + Z.of_nat (length l) + 1 <= out \/ out + n <= p) ->
  emits m0 s (put_string out n p (Z.of_nat (length txt))) txt l (Z.of_nat (length (txt ++ l))).
Proof.
  intros Hs [[Hl Hz] Hr] Hd. unfold put_string.
  replace (p, _) with ((fun j : nat => p + Z.of_nat j) 0%nat, Z.of_nat (length txt)) by (f_equal; lia).
  assert (Hld : forall (j : nat) m t, (j <= length l)%nat -> emitted m0 m t ->
    ld8 (p + Z.of_nat j) (set_k_mem m s) = Ok (load8 m0 (p + Z.of_nat j)) (set_k_mem m s)).
  { intros j m t Hj Hm. unfold ld8. rewrite (addr_ok_1 p _ (Z.of_nat j) Hr) by lia. f_equal. eapply emitted_outside; [done|lia]. }
  apply (emit_loop _ (fun j => p + Z.of_nat j)); [done| | |].
  - apply Forall_lookup. intros j c Ec. destruct (Hl j c Ec) as [_ <-]. apply load8_range.
  - intros j c m Ec Hm. pose proof (lookup_lt_Some _ _ _ Ec). rewrite (bind_Ok _ _ _ _ _ (Hld j m _ ltac:(lia) Hm)).
    destruct (Hl j c Ec) as [Hnz ->]. rewrite (proj2 (Z.eqb_neq c 0)) by done.
    replace (p + Z.of_nat (S j)) with (p + Z.of_nat j + 1) by lia. done.
  - intros pos m Hm. rewrite (bind_Ok _ _ _ _ _ (Hld (length l) m _ ltac:(lia) Hm)). by rewrite Hz.
Qed.

(** ** Numbers *)

Lemma get_field_mod w x sh k : 0 <= sh -> 0 <= k -> sh + k <= w -> get_field (x mod 2 ^ w) sh k = get_field x sh k.
Proof.
  intros. apply Z.bits_inj'. intros i Hi. rewrite !get_field_testbit by lia.
  zcase; simpl; [|done]. by rewrite Z.mod_pow2_bits_low by lia.
Qed.
Lemma sgn_mod w x : 0 < w -> sgn w x mod 2 ^ w = x mod 2 ^ w.
Proof.
  intros. unfold sgn. pose proof (Z.pow_pos_nonneg 2 w). zcase; [by rewrite Z.mod_mod by lia|].
  rewrite <- (Z.mod_mod x (2 ^ w)) at 2 by lia. apply Z.cong_iff_0. 
  replace (_ - _ - _) with (- (1) * 2 ^ w) by lia. apply Z.mod_mul. lia.
Qed.
Lemma nibble lng w i :
  0 <= i < (if lng : bool then 16 else 8) -> Z.land (Z.shiftr (arg_num lng w) (4 * i)) 0xF = w / 16 ^ i mod 16.
Proof.
  intros Hi. change 0xF with (Z.ones 4). change (get_field (arg_num lng w) (4 * i) 4 = w / 16 ^ i mod 16).
  set (wd := if lng then 64 else 32).
  assert (E : arg_num lng w = sgn wd w) by (by destruct lng).
  rewrite E, <- (get_field_mod wd), sgn_mod, get_field_mod by (unfold wd; destruct lng; lia).
  unfold get_field. rewrite Z.land_ones, Z.shiftr_div_pow2 by lia. f_equal. f_equal. rewrite Z.pow_mul_r by lia. done.
Qed.

Lemma hexchar_char d : 0 <= d < 16 -> 0 <= hexchar d < 256.
Proof. unfold hexchar. zcase; lia. Qed.
Lemma hex_lookup k w j : (j < k)%nat -> hex_text k w !! j = Some (hexchar (w / 16 ^ (Z.of_nat k - 1 - Z.of_nat j) mod 16)).
Proof.
  intros. unfold hex_text. rewrite list_lookup_fmap, reverse_lookup by (rewrite length_seq; lia). rewrite length_seq, lookup_seq_lt by lia.
  simpl. do 5 f_equal. lia.
Qed.
Lemma hex_text_length k w : length (hex_text k w) = k.
Proof. unfold hex_text. by rewrite length_fmap, length_reverse, length_seq. Qed.
Lemma hex_chars k w : chars (hex_text k w).
Proof.
  apply Forall_fmap, Forall_forall. intros i _. apply hexchar_char. apply Z.mod_pos_bound. lia.
Qed.

Lemma put_hex_emits m0 s txt lng w :
  let h := hex_text (if lng : bool then 16 else 8) w in
  short (txt ++ h) ->
  emits m0 s (put_hex out n lng (arg_num lng w) (Z.of_nat (length txt))) txt h (Z.of_nat (length (txt ++ h))).
Proof.
  intros h Hs. unfold put_hex. set (k := if lng then 16%nat else 8%nat) in *.
  assert (Hk : Z.of_nat k = 2 * (if lng then 8 else 4)) by (unfold k; destruct lng; lia).
  replace (_ - 1, _) with ((fun j : nat => Z.of_nat k - 1 - Z.of_nat j) 0%nat, Z.of_nat (length txt)) by (f_equal; lia).
  apply (emit_loop _ (fun j => Z.of_nat k - 1 - Z.of_nat j)); [done|apply hex_chars| |].
  - intros j c m Ec _. pose proof (lookup_lt_Some _ _ _ Ec) as Hj. unfold h in Ec, Hj. rewrite hex_text_length in Hj.
    rewrite hex_lookup in Ec by done. injection Ec as <-. rewrite (proj2 (Z.ltb_ge _ 0)) by lia. cbv zeta.
    rewrite nibble by (destruct lng; lia).
    replace (Z.of_nat k - 1 - Z.of_nat (S j)) with (Z.of_nat k - 1 - Z.of_nat j - 1) by lia. done.
  - intros pos m _. unfold h. rewrite hex_text_length. by rewrite (proj2 (Z.ltb_lt _ 0)) by lia.
Qed.

Lemma dec_digits_fuel f f' z :
  0 <= z < 10 ^ Z.of_nat (S f) -> z < 10 ^ Z.of_nat (S f') -> dec_digits (S f) z = dec_digits (S f') z.
Proof.
  revert f' z. induction f as [|f IH]; intros f' z Hz Hz'; cbn [dec_digits]; destruct (Z.ltb_spec z 10); try done; [lia|].
  destruct f' as [|f']; [lia|]. f_equal.
  rewrite (Nat2Z.inj_succ (S f)), (Nat2Z.inj_succ (S f')), !Z.pow_succ_r in * by lia. apply IH; dlia.
Qed.
Lemma digits_of_step z :
  0 <= z < 2 ^ 63 -> digits_of z = if z <? 10 then [z] else digits_of (z / 10) ++ [z mod 10].
Proof.
  intros. unfold digits_of. rewrite (dec_digits_fuel 19 20) by lia.
  change (dec_digits 21 z) with (if z <? 10 then [z] else dec_digits 20 (z / 10) ++ [z mod 10]). done.
Qed.
Lemma digits_of_ind (P : Z -> list Z -> Prop) :
  (forall z, 0 <= z < 10 -> P z [z]) ->
  (forall z ds, 10 <= z < 2 ^ 63 -> ds <> [] -> P (z / 10) ds -> P z (ds ++ [z mod 10])) ->
  forall z, 0 <= z < 2 ^ 63 -> P z (digits_of z).
Proof.
  intros H0 HS z [Hz Hlt].
  cut (P z (digits_of z) /\ digits_of z <> []); [by intros []|].
  revert z Hz Hlt. apply (Zlt_0_ind (fun z => z < 2 ^ 63 -> P z (digits_of z) /\ digits_of z <> [])).
  intros z IH Hz Hlt. rewrite digits_of_step by lia. zcase; [split; [apply H0; lia|done]|].
  destruct (IH (z / 10)) as [IH1 IH2]; [dlia..|]. split; [apply HS; [lia|done|done]|].
  by destruct (digits_of (z / 10)).
Qed.
Lemma digits_of_range z : 0 <= z < 2 ^ 63 -> Forall (fun d => 0 <= d < 10) (digits_of z).
Proof.
  apply (digits_of_ind (fun _ l => Forall (fun d => 0 <= d < 10) l)); clear z; intros z.
  - intros Hz. by constructor.
  - intros ds Hz _ H. apply Forall_app. split; [done|]. constructor; [dlia|done].
Qed.
Lemma digits_of_decimal z : 0 <= z < 2 ^ 63 -> decimal 0 (digits_of z) = z.
Proof.
  apply (digits_of_ind (fun z l => decimal 0 l = z)); clear z; intros z; [done|].
  intros ds Hz _ H. unfold decimal in *. rewrite fold_left_app, H. simpl. dlia.
Qed.
Lemma digits_of_length z : 0 <= z < 2 ^ 63 -> (1 <= length (digits_of z) <= 20)%nat.
Proof.
  intros Hz. split.
  - revert Hz. apply (digits_of_ind (fun _ l => (1 <= length l)%nat)); clear z; intros z; [simpl; lia|].
    intros ds _ _ H. rewrite length_app. lia.
  - unfold digits_of. generalize 20%nat. intros f. revert z Hz. induction f as [|f IH]; intros z Hz; simpl; [lia|].
    zcase; simpl; [lia|]. rewrite length_app. simpl. specialize (IH (z / 10) ltac:(dlia)). lia.
Qed.

Lemma count_digits_spec z s : 0 <= z < 2 ^ 63 -> count_digits z s = Ok (Z.of_nat (length (digits_of z))) s.
Proof.
  intros Hz. unfold count_digits.
  apply (kwhile_rule (fun '(nn, d) s' => s' = s /\ 0 <= nn < 2 ^ 63 /\ d + Z.of_nat (length (digits_of nn)) = 1 + Z.of_nat (length (digits_of z)))
     (fun x => x.1) (fun o => o = Ok _ s)); [split_and!; [done|lia..]|simpl; lia|].
  intros [nn d] s' (-> & Hn & Hd). rewrite digits_of_step in Hd by done.
  cbv zeta. rewrite Z.quot_div_nonneg by lia. destruct (Z.eqb_spec (nn / 10) 0) as [E|E]; simpl.
  - rewrite (proj2 (Z.ltb_lt nn 10)) in Hd by dlia. simpl in Hd. f_equal. lia.
  - rewrite (proj2 (Z.ltb_ge nn 10)) in Hd by dlia. rewrite length_app in Hd. simpl in Hd. split_and!; [done|dlia..].
Qed.

(** the digits of [put_digits] are stored from the last one to the first *)
Definition tail_emitted (m1 m : gmap Z Z) (pos : Z) (pre suf : list Z) : Prop :=
  forall a, load8 m a =
    if decide (out + pos + Z.of_nat (length pre) <= a < out + Z.min (pos + Z.of_nat (length pre + length suf)) (n - 1))
    then suf !!! Z.to_nat (a - out - pos - Z.of_nat (length pre)) + 48 else load8 m1 a.
Lemma tail_emitted_byte m1 m pos pre d suf :
  tail_emitted m1 m pos (pre ++ [d]) suf -> 0 <= d < 10 -> 0 <= pos -> pos + Z.of_nat (length pre) + 1 < n ->
  tail_emitted m1 (store8 m (out + pos + Z.of_nat (length pre)) (48 + d)) pos pre (d :: suf).
Proof.
  intros H Hd Hp Hn a. rewrite load8_store8, H, length_app. simpl.
  destruct (decide (out + pos + Z.of_nat (length pre) = a)) as [<-|Hne].
  - rewrite decide_True by lia. replace (Z.to_nat _) with 0%nat by lia. simpl. rewrite Z.mod_small by lia. lia.
  - destruct (decide (out + pos + Z.of_nat (length pre + 1) <= a < _)).
    + rewrite decide_True by lia. f_equal.
      replace (Z.to_nat (a - out - pos - Z.of_nat (length pre))) with (S (Z.to_nat (a - out - pos - Z.of_nat (length pre + 1)))) by lia. done.
    + by rewrite decide_False by lia.
Qed.
Lemma tail_emitted_full m1 m pos pre d suf :
  tail_emitted m1 m pos (pre ++ [d]) suf -> 0 <= pos -> n <= pos + Z.of_nat (length pre) + 1 ->
  tail_emitted m1 m pos pre (d :: suf).
Proof.
  intros H Hp Hn a. rewrite H, length_app. simpl. rewrite !decide_False by lia. done.
Qed.

Lemma put_digits_spec m1 s txt z :
  0 <= z < 2 ^ 63 -> short txt -> k_mem s = m1 ->
  exists m, put_digits out n z (Z.of_nat (length (digits_of z))) (Z.of_nat (length txt)) s = Ok tt (set_k_mem m s) /\
    tail_emitted m1 m (Z.of_nat (length txt)) [] (digits_of z).
Proof.
  intros Hz Ht Hm1. pose proof out_bounds. unfold short in Ht. set (pos := Z.of_nat (length txt)) in *. unfold put_digits.
  pose proof (digits_of_length z Hz) as Hlen.
  apply (kwhile_rule (fun '(i, num) s' => exists pre suf m, s' = set_k_mem m s /\ digits_of z = pre ++ suf /\
      i = Z.of_nat (length pre) - 1 /\ tail_emitted m1 m pos pre suf /\ (pre = [] \/ (pre = digits_of num /\ 0 <= num < 2 ^ 63)))
    (fun x => x.1 + 1)
    (fun o => exists m, o = Ok tt (set_k_mem m s) /\ tail_emitted m1 m pos [] (digits_of z))).
  { exists (digits_of z), [], (k_mem s). rewrite app_nil_r. split_and!; [by destruct s|done|done| |auto].
    intros a. rewrite decide_False by (simpl; lia). by rewrite Hm1. }
  { simpl. lia. }
  intros [i num] s' (pre & suf & m & -> & E & -> & Hte & Hpre). zcase.
  { destruct pre; [|simpl in *; lia]. exists m. split; [done|]. by rewrite E. }
  destruct Hpre as [->|[Hpre Hnum]]; [simpl in *; lia|].
  pose proof (digits_of_range z Hz) as Hrange. rewrite E in Hrange. apply Forall_app in Hrange as [Hrange _].
  assert (exists pre' d, pre = pre' ++ [d] /\ Z.rem num 10 = d /\ (pre' = [] \/ (pre' = digits_of (num / 10) /\ 0 <= num / 10 < 2 ^ 63)))
    as (pre' & d & -> & Hrem & Hpre').
  { rewrite digits_of_step in Hpre by done. rewrite Z.rem_mod_nonneg by lia. destruct (Z.ltb_spec num 10).
    - exists [], num. split_and!; [done|apply Z.mod_small; lia|auto].
    - exists (digits_of (num / 10)), (num mod 10). split_and!; [done..|]. right. split; [done|dlia]. }
  assert (Hd : 0 <= d < 10) by (rewrite Forall_app, Forall_singleton in Hrange; tauto).
  apply (f_equal length) in E as El. rewrite !length_app in *. simpl in *.
  rewrite u64_small by lia. rewrite Hrem, Z.quot_div_nonneg by lia.
  replace (Z.of_nat (length pre' + 1) - 1) with (Z.of_nat (length pre')) by lia. rewrite <- app_assoc in E.
  zcase.
  - erewrite bind_Ok; [|apply st8_ok; rewrite <- Z.add_assoc; eapply addr_ok_1; [done|lia]]. simpl. split; [|lia].
    eexists pre', (d :: suf), _. split_and!; [done|done|lia| |done]. by apply tail_emitted_byte; [..|lia|lia].
  - rewrite bind_ret. simpl. split; [|lia].
    exists pre', (d :: suf), m. split_and!; [done|done|lia| |done]. by apply tail_emitted_full; [..|lia|lia].
Qed.

Lemma tail_emitted_emitted m0 m1 m txt ds :
  emitted m0 m1 txt -> tail_emitted m1 m (Z.of_nat (length txt)) [] ds -> emitted m0 m (txt ++ ((fun d => d + 48) <$> ds)).
Proof.
  intros H1 H2 a. rewrite H2, H1, length_app, length_fmap. simpl.
  destruct (decide (_ <= a < _)) as [Ha|Ha].
  - rewrite decide_True by lia. rewrite lookup_total_app_r by lia.
    rewrite (list_lookup_total_fmap (A:=Z) (B:=Z) _ ds) by lia. do 2 f_equal. lia.
  - destruct (decide (_ <= a < _)) as [Hb|Hb].
    + rewrite decide_True by lia. by rewrite lookup_total_app_l by lia.
    + by rewrite decide_False by lia.
Qed.

Lemma put_nat_emits m0 s txt z :
  0 <= z < 2 ^ 63 -> short txt ->
  emits m0 s (digits <- count_digits z ;; put_digits out n z digits (Z.of_nat (length txt)) ;;;
              ret (u64 (Z.of_nat (length txt) + digits)))
    txt ((fun d => d + 48) <$> digits_of z) (Z.of_nat (length (txt ++ ((fun d => d + 48) <$> digits_of z)))).
Proof.
  intros Hz Ht H. pose proof (digits_of_length z Hz). destruct (put_digits_spec _ s txt z Hz Ht eq_refl) as (m & E & Hm).
  exists m. split; [|by eapply tail_emitted_emitted].
  rewrite (bind_Ok _ _ _ _ _ (count_digits_spec z s Hz)), (bind_Ok _ _ _ _ _ E).
  rewrite length_app, length_fmap. unfold ret, short in *. f_equal. rewrite u64_small; lia.
Qed.

Lemma short_app_l txt more : short (txt ++ more) -> short txt.
Proof. unfold short. rewrite length_app. lia. Qed.
Lemma emits_seq {A B} m0 s (c : K A) (f : A -> K B) txt p1 p2 a b :
  emits m0 s c txt p1 a -> (forall m, emits m0 (set_k_mem m s) (f a) (txt ++ p1) p2 b) ->
  emits m0 s (x <- c ;; f x) txt (p1 ++ p2) b.
Proof.
  intros H1 H2 H. destruct (H1 H) as (m1 & E1 & Hm1). destruct (H2 m1 Hm1) as (m2 & E2 & Hm2).
  exists m2. rewrite app_assoc. split; [|done]. by rewrite (bind_Ok _ _ _ _ _ E1), E2.
Qed.
Lemma emits_ret {A B} m0 s (c : K A) (f : A -> B) txt p a :
  emits m0 s c txt p a -> emits m0 s (x <- c ;; ret (f x)) txt p (f a).
Proof. intros H1 H. destruct (H1 H) as (m1 & E1 & Hm1). exists m1. split; [|done]. by rewrite (bind_Ok _ _ _ _ _ E1). Qed.
Lemma emits_pure {A B} m0 s (c : K A) (f : A -> K B) txt p a b :
  (forall m, emitted m0 m txt -> c (set_k_mem m s) = Ok a (set_k_mem m s)) -> emits m0 s (f a) txt p b ->
  emits m0 s (x <- c ;; f x) txt p b.
Proof.
  intros Hc H1 H. destruct (H1 H) as (m1 & E1 & Hm1). exists m1. split; [|done].
  specialize (Hc (k_mem s)). replace (set_k_mem (k_mem s) s) with s in Hc by (by destruct s).
  by rewrite (bind_Ok _ _ _ _ _ (Hc H)).
Qed.

Lemma put_dec_emits m0 s txt z :
  - 2 ^ 63 < z < 2 ^ 63 -> short (txt ++ dec_text z) ->
  emits m0 s (put_dec out n z (Z.of_nat (length txt))) txt (dec_text z) (Z.of_nat (length (txt ++ dec_text z))).
Proof.
  intros Hz Ht. unfold put_dec, dec_text in *. destruct (Z.ltb_spec z 0).
  - set (ds := (fun d => d + 48) <$> digits_of (- z)) in *. change (45 :: ds) with ([45] ++ ds) in *. rewrite app_assoc in *.
    eapply emits_seq; [apply emits_ret, putc_emits; [by apply short_app_l, short_app_l in Ht|lia]|]. intros m. cbv beta iota zeta.
    rewrite s64_small by lia. replace (Z.of_nat (length txt) + 1) with (Z.of_nat (length (txt ++ [45]))) by (rewrite length_app; simpl; lia).
    apply put_nat_emits; [lia|]. by apply short_app_l in Ht.
  - eapply emits_pure; [done|]. cbv beta iota zeta. apply put_nat_emits; [lia|]. by apply short_app_l in Ht.
Qed.

(** ** Arguments *)

Section Arguments.
Variables (m0 : gmap Z Z) (str : Z -> option (list Z)).
Hypothesis Hstr : forall p l, str p = Some l -> cstr_at m0 p l /\ (p + Z.of_nat (length l) + 1 <= out \/ out + n <= p).

(** the argument slots from [vl] on *)
Definition args_at (vl : Z) (args : list Z) : Prop :=
  vl mod 8 = 0 /\ region_ok vl (8 * Z.of_nat (length args)) /\
  (vl + 8 * Z.of_nat (length args) <= out \/ out + n <= vl) /\
  forall (i : nat) w, args !! i = Some w -> load64 m0 (vl + 8 * Z.of_nat i) = w.

Lemma args_at_cons vl w args : args_at vl (w :: args) -> args_at (vl + 8) args.
Proof.
  intros (Ha & (? & ? & ?) & Hd & Hl). unfold args_at, region_ok in *. cbn [length] in *. split_and!; try lia; [dlia|].
  intros i w' E. rewrite <- (Hl (S i) w' E). f_equal. lia.
Qed.
Lemma args_at_ld64 vl w args m txt s :
  args_at vl (w :: args) -> emitted m0 m txt -> ld64 vl (set_k_mem m s) = Ok w (set_k_mem m s).
Proof.
  intros (Ha & Hr & Hd & Hl) Hm. cbn [length] in *. rewrite ld64_ok.
  - f_equal. rewrite <- (Hl 0%nat w eq_refl), Z.mul_0_r, Z.add_0_r. apply load64_bytes; [done..|].
    intros i Hi. eapply emitted_outside; [done|]. lia.
  - replace vl with (vl + 0) by lia. eapply addr_ok_8; try done. lia.
Qed.
Lemma args_at_ld32 vl w args m txt s :
  args_at vl (w :: args) -> emitted m0 m txt -> ld32 vl (set_k_mem m s) = Ok (w mod 2 ^ 32) (set_k_mem m s).
Proof.
  intros H Hm. pose proof (args_at_ld64 vl w args m txt s H Hm) as E. unfold ld64 in E.
  destruct (addr_ok 8 vl) eqn:Ea; [|done]. injection E as E. destruct H as (Ha & _).
  rewrite ld32_ok; [|unfold addr_ok in *; zbool; rewrite !andb_true_iff, !Z.leb_le, Z.eqb_eq; dlia].
  f_equal. unfold load32, loadn, bit_off. change (k_mem (set_k_mem m s)) with m in *. rewrite E, Ha. unfold get_field.
  rewrite Z.land_ones by lia. by rewrite Z.shiftr_0_r.
Qed.
Lemma s32_mod w : s32 (w mod 2 ^ 32) = s32 w.
Proof. unfold s32, sgn. by rewrite Z.mod_mod by lia. Qed.
Lemma va_num_args vl lng w args m txt s :
  args_at vl (w :: args) -> emitted m0 m txt -> va_num lng vl (set_k_mem m s) = Ok (arg_num lng w, vl + 8) (set_k_mem m s).
Proof.
  intros H Hm. unfold va_num, va_int. destruct lng; simpl.
  - by rewrite (bind_Ok _ _ _ _ _ (args_at_ld64 _ _ _ _ _ s H Hm)).
  - rewrite (bind_Ok _ _ _ _ _ (args_at_ld32 _ _ _ _ _ s H Hm)). by rewrite s32_mod.
Qed.
Lemma arg_num_range lng w : - 2 ^ 63 <= arg_num lng w < 2 ^ 63.
Proof.
  destruct lng; simpl; [|pose proof (s32_range w); lia]. unfold s64, sgn. pose proof (Z.mod_pos_bound w (2 ^ 64)). zcase; lia.
Qed.

(** a step of the format loop on the characters [c :: f']: it emits [piece] and
    goes on with [f'] *)
Definition step_emits (s : kstate) (c : K conv_state) (txt f' rest : list Z) : Prop :=
  exists piece rest' fmt lng vl args, rest = piece ++ rest' /\ render str fmt lng f' args = Some rest' /\ args_at vl args /\
    emits m0 s c txt piece (fmt, lng, Z.of_nat (length (txt ++ piece)), vl).

Lemma conversion_step s txt c f' lng vl args rest :
  render str true lng (c :: f') args = Some rest -> args_at vl args -> short (txt ++ rest) ->
  step_emits s (conversion out n c lng (Z.of_nat (length txt)) vl) txt f' rest.
Proof.
  intros Hr Ha Hs. cbn [render] in Hr. unfold conversion.
  assert (Hskip : forall fmt lg, render str fmt lg f' args = Some rest ->
    step_emits s (ret (fmt, lg, Z.of_nat (length txt), vl)) txt f' rest).
  { intros fmt lg Hrest. exists [], rest, fmt, lg, vl, args. split_and!; [done..|]. intros H.
    exists (k_mem s). rewrite app_nil_r. split; [by destruct s|done]. }
  destruct (c =? 108) eqn:E1; [by apply Hskip|].
  destruct ((c =? 112) || (c =? 120) || (c =? 100) || (c =? 115) || (c =? 99))%bool eqn:Ec.
  2:{ repeat (apply orb_false_iff in Ec as [Ec ?]). rewrite Ec. repeat match goal with H : (_ =? _) = false |- _ => rewrite H end.
      by apply Hskip. }
  destruct args as [|w args]; [done|]. apply bind_Some in Hr as (w' & [= <-] & Hr). apply bind_Some in Hr as (piece & Hp & Hr). apply bind_Some in Hr as (rest' & Hr' & Hr). injection Hr as <-.
  rewrite app_assoc in Hs. apply short_app_l in Hs.
  exists piece, rest', false, false, (vl + 8), args. split_and!; [done..|by eapply args_at_cons|].
  destruct (c =? 112) eqn:E2; simpl; [|destruct (c =? 120) eqn:E3; simpl; [|destruct (c =? 100) eqn:E4; [|destruct (c =? 115) eqn:E5]]].
  - injection Hp as <-. zbool. subst c. change (48 :: 120 :: hex_text 16 w) with (([48] ++ [120]) ++ hex_text 16 w) in *.
    set (h := hex_text 16 w) in *.
    assert (Hs2 : short (txt ++ [48])) by (unfold short in *; rewrite !length_app in *; simpl in *; lia).
    eapply emits_seq; [eapply emits_seq; [apply putc_emits; [by apply short_app_l in Hs|lia]|]|].
    + intros m. replace (Z.of_nat (length txt) + 1) with (Z.of_nat (length (txt ++ [48]))) by (rewrite length_app; simpl; lia).
      apply (emits_ret _ _ _ (fun p => (true, p))). by apply putc_emits; [|lia].
    + intros m. cbv beta iota. eapply emits_pure; [intros m' Hm'; exact (va_num_args vl true w args m' _ _ Ha Hm')|].
      cbv beta iota. apply (emits_ret _ _ _ (fun p => (false, false, p, vl + 8))).
      replace (Z.of_nat (length (txt ++ [48])) + 1) with (Z.of_nat (length (txt ++ [48] ++ [120]))) by (rewrite !length_app; simpl; lia).
      rewrite !app_assoc in *. by apply (put_hex_emits _ _ _ true).
  - injection Hp as <-. eapply emits_pure; [done|]. cbv beta iota.
    eapply emits_pure; [intros m' Hm'; exact (va_num_args vl lng w args m' _ _ Ha Hm')|].
    cbv beta iota. apply (emits_ret _ _ _ (fun p => (false, false, p, vl + 8))). by apply put_hex_emits.
  - destruct (Z.eqb_spec (arg_num lng w) (- 2 ^ 63)) as [|Hne]; [done|]. injection Hp as <-.
    eapply emits_pure; [intros m' Hm'; exact (va_num_args vl lng w args m' _ _ Ha Hm')|].
    cbv beta iota. apply (emits_ret _ _ _ (fun p => (false, false, p, vl + 8))). pose proof (arg_num_range lng w). apply put_dec_emits; [lia|done].
  - eapply emits_pure; [intros m' Hm'; exact (args_at_ld64 vl w args m' _ _ Ha Hm')|]. destruct (Hstr w piece Hp).
    cbv beta iota. apply (emits_ret _ _ _ (fun p => (false, false, p, vl + 8))). by apply put_string_emits.
  - injection Hp as <-. apply orb_true_iff in Ec as [Ec|Ec]; [by repeat (apply orb_true_iff in Ec as [Ec|Ec]); congruence|]. rewrite Ec.
    eapply emits_pure; [intros m' Hm'; exact (va_num_args vl false w args m' _ _ Ha Hm')|]. cbv beta iota.
    replace (u8 (arg_num false w)) with (w mod 256).
    2:{ simpl. unfold u8, s32. change 256 with (2 ^ 8). rewrite <- (Z.mod_mod_divide w (2 ^ 32) (2 ^ 8)), <- (sgn_mod 32) by (try (by exists (2 ^ 24)); lia).
        by rewrite Z.mod_mod_divide by (by exists (2 ^ 24)). }
    apply (emits_ret _ _ _ (fun p => (false, false, p, vl + 8))).
    replace (Z.of_nat (length (txt ++ [w mod 256]))) with (Z.of_nat (length txt) + 1) by (rewrite length_app; simpl; lia).
    apply putc_emits; [by apply short_app_l in Hs|dlia].
Qed.

(** ** The format loop *)

Lemma format_step s txt c f' fmt lng vl args rest :
  render str fmt lng (c :: f') args = Some rest -> args_at vl args -> short (txt ++ rest) -> 0 <= c < 256 ->
  step_emits s (if fmt then conversion out n c lng (Z.of_nat (length txt)) vl
                else if c =? 37 then ret (true, lng, Z.of_nat (length txt), vl)
                else pos <- putc out n (Z.of_nat (length txt)) c ;; ret (false, lng, pos, vl)) txt f' rest.
Proof.
  intros Hr Ha Hs Hc. destruct fmt; [by eapply conversion_step|]. cbn [render] in Hr. destruct (c =? 37).
  - exists [], rest, true, lng, vl, args. split_and!; [done..|]. intros H.
    exists (k_mem s). rewrite app_nil_r. split; [by destruct s|done].
  - apply bind_Some in Hr as (rest' & Hr' & Hr). injection Hr as <-.
    exists [c], rest', false, lng, vl, args. split_and!; [done..|]. apply (emits_ret _ _ _ (fun p => (false, lng, p, vl))).
    rewrite length_app, Nat2Z.inj_add. apply putc_emits; [by apply short_app_l in Hs|done].
Qed.

Lemma format_loop s fs f vl args text :
  k_mem s = m0 -> cstr_at m0 fs f -> (fs + Z.of_nat (length f) + 1 <= out \/ out + n <= fs) ->
  args_at vl args -> render str false false f args = Some text -> short text ->
  exists m, kwhile (vsnprintf_step out n) (fs, (false, false, 0, vl)) s = Ok (Z.of_nat (length text)) (set_k_mem m s) /\
    emitted m0 m text.
Proof.
  intros Hm0 [[Hf Hz] Hfr] Hd Ha Hr Hs.
  apply (kwhile_rule (fun '(p, (fmt, lng, pos, v)) s' => exists (k : nat) txt rest args m,
      p = fs + Z.of_nat k /\ (k <= length f)%nat /\ render str fmt lng (drop k f) args = Some rest /\ text = txt ++ rest /\
      args_at v args /\ pos = Z.of_nat (length txt) /\ s' = set_k_mem m s /\ emitted m0 m txt)
    (fun x => fs + Z.of_nat (length f) - x.1)
    (fun o => exists m, o = Ok (Z.of_nat (length text)) (set_k_mem m s) /\ emitted m0 m text)).
  { exists 0%nat, [], text, args, m0. split_and!; try done; [lia|lia|by rewrite <- Hm0; destruct s|apply emitted_nil]. }
  { simpl. pose proof (region_measure _ _ Hfr). lia. }
  intros [p [[[fmt lng] pos] v]] s' (k & txt & rest & ar & m & -> & Hk & Hrest & Htext & Hav & -> & -> & Hm).
  unfold vsnprintf_step.
  assert (Hld : ld8 (fs + Z.of_nat k) (set_k_mem m s) = Ok (load8 m0 (fs + Z.of_nat k)) (set_k_mem m s)).
  { unfold ld8. rewrite (addr_ok_1 fs _ (Z.of_nat k) Hfr) by lia. f_equal. eapply emitted_outside; [done|lia]. }
  rewrite (bind_Ok _ _ _ _ _ Hld). destruct (decide (k = length f)) as [->|Hne].
  { rewrite Hz. rewrite drop_all in Hrest. injection Hrest as <-. rewrite app_nil_r in Htext. subst txt. by exists m. }
  destruct (lookup_lt_is_Some_2 f k ltac:(lia)) as [c Ec]. destruct (Hf k c Ec) as [Hnz Ec'].
  assert (Hc : 0 <= c < 256) by (rewrite <- Ec'; apply load8_range).
  rewrite Ec', (proj2 (Z.eqb_neq c 0)) by done. rewrite (drop_S _ _ _ Ec) in Hrest.
  destruct (format_step (set_k_mem m s) txt c (drop (S k) f) fmt lng v ar rest) as (piece & rest' & fmt' & lng' & v' & ar' & -> & Hr' & Ha' & He);
    [done|done|by rewrite <- Htext|done|].
  destruct (He Hm) as (m' & Es & Hm'). rewrite (bind_Ok _ _ _ _ _ Es). simpl. split; [|lia].
  exists (S k), (txt ++ piece), rest', ar', m'. split_and!; try done; [lia|lia|by rewrite <- app_assoc].
Qed.
End Arguments.
End Buffer.

(* ------------------------------------------------------------------ *)
(** * vsnprintf *)

(** what vsnprintf needs of its inputs: the buffer, the format and the argument
    slots lie in memory apart from each other, and so do the strings of %s *)
Record inputs (m : gmap Z Z) (out n fs vl : Z) (f args : list Z) (str : Z -> option (list Z)) : Prop := {
  in_out : region_ok out n;
  in_fmt : cstr_at m fs f;
  in_fmt_out : fs + Z.of_nat (length f) + 1 <= out \/ out + n <= fs;
  in_args : args_at out n m vl args;
  in_str p l : str p = Some l -> cstr_at m p l /\ (p + Z.of_nat (length l) + 1 <= out \/ out + n <= p)
}.

(** the buffer holds the text, cut to [n - 1] bytes, and its terminator *)
Definition holds (m0 m : gmap Z Z) (out n : Z) (text : list Z) : Prop :=
  let t := take (Z.to_nat (n - 1)) text in
  (forall a, ~ (out <= a < out + n) -> load8 m a = load8 m0 a) /\
  (0 < n -> (forall i c, t !! i = Some c -> load8 m (out + Z.of_nat i) = c) /\ load8 m (out + Z.of_nat (length t)) = 0).

Lemma emitted_holds m0 m out n text a :
  emitted out n m0 m text -> 0 < n -> a = out + Z.min (Z.of_nat (length text)) (n - 1) ->
  holds m0 (store8 m a 0) out n text.
Proof.
  intros H Hn ->. split.
  - intros b Hb. rewrite load8_store8, decide_False by lia. by eapply emitted_outside.
  - intros _. split.
    + intros i c Hi. apply lookup_take_Some in Hi as [Hi Hlt]. pose proof (lookup_lt_Some _ _ _ Hi).
      rewrite load8_store8, decide_False by lia. rewrite H, decide_True by lia.
      replace (Z.to_nat _) with i by lia. by apply list_lookup_total_correct.
    + rewrite length_take, load8_store8, decide_True by lia. done.
Qed.

Lemma vsnprintf_spec s out n fs vl f args str text :
  inputs (k_mem s) out n fs vl f args str ->
  render str false false f args = Some text -> Z.of_nat (length text) < 2 ^ 31 ->
  exists m, vsnprintf out n fs vl s = Ok (Z.of_nat (length text)) (set_k_mem m s) /\ holds (k_mem s) m out n text.
Proof.
  intros [Ho Hf Hfo Ha Hst] Hr Hs. destruct (format_loop out n Ho (k_mem s) str Hst s fs f vl args text) as (m & E & Hm); try done.
  unfold vsnprintf. rewrite (bind_Ok _ _ _ _ _ E). rewrite s32_small by lia. pose proof (out_bounds out n Ho).
  destruct (Z.ltb_spec (Z.of_nat (length text)) n); [|destruct (Z.eqb_spec n 0) as [->|Hn]; cbn [negb]].
  - exists (store8 m (out + Z.of_nat (length text)) 0).
    split; [erewrite bind_Ok; [|apply st8_ok; eapply addr_ok_1; [done|lia]]; done|].
    apply emitted_holds; [done|lia|lia].
  - exists m. split; [by rewrite bind_ret|]. split; [|lia]. intros a _. rewrite Hm. by rewrite decide_False by lia.
  - exists (store8 m (out + (n - 1)) 0).
    split; [rewrite <- Z.add_sub_assoc; erewrite bind_Ok; [|apply st8_ok; eapply addr_ok_1; [done|lia]]; done|].
    apply emitted_holds; [done|lia|lia].
Qed.

Lemma holds_cstr m0 m out n text :
  holds m0 m out n text -> Z.of_nat (length text) < n -> Forall (.≠ 0) text -> cstr m out text.
Proof.
  intros [_ H] Hn Hz. destruct H as [H1 H2]; [lia|]. rewrite take_ge in H1, H2 by lia. split; [|done].
  intros i c Hi. split; [by eapply Forall_lookup_1 in Hz|by apply H1].
Qed.

(* ------------------------------------------------------------------ *)
(** * Words in memory *)

Fixpoint store_words (a : Z) (l : list Z) (m : gmap Z Z) : gmap Z Z :=
  match l with
  | [] => m
  | w :: l' => store_words (a + 8) l' (store64 m a (u64 w))
  end.
Lemma st_words_run a l s :
  (forall i, 0 <= i < Z.of_nat (length l) -> addr_ok 8 (a + 8 * i) = true) ->
  st_words a l s = Ok tt (set_k_mem (store_words a l (k_mem s)) s).
Proof.
  revert a s. induction l as [|w l IH]; intros a s Ha; cbn [st_words store_words]; [by destruct s|].
  assert (H0 : addr_ok 8 a = true) by (rewrite <- (Z.add_0_r a); apply (Ha 0); simpl; lia).
  rewrite (bind_Ok _ _ _ _ _ (st64_ok _ _ _ H0)), IH; [done|].
  intros i Hi. replace (a + 8 + 8 * i) with (a + 8 * (i + 1)) by lia. apply Ha. simpl. lia.
Qed.
Lemma store_words_before a l m b : b / 8 < a / 8 -> load64 (store_words a l m) b = load64 m b.
Proof.
  revert a m. induction l as [|w l IH]; intros a m Hb; [done|]. cbn [store_words]. rewrite IH by dlia.
  apply load64_store64_ne. lia.
Qed.
Lemma store_words_word a l m (j : nat) w :
  l !! j = Some w -> load64 (store_words a l m) (a + 8 * Z.of_nat j) = u64 w.
Proof.
  revert a m j. induction l as [|v l IH]; intros a m j Hj; [done|]. cbn [store_words]. destruct j as [|j].
  - injection Hj as <-. rewrite Z.add_0_r, store_words_before by dlia. by rewrite load64_store64_eq, u64_idemp.
  - rewrite <- (IH (a + 8) (store64 m a (u64 v)) j Hj). f_equal. lia.
Qed.
Lemma store_words_frame a l m b :
  a mod 8 = 0 -> ~ (a <= b < a + 8 * Z.of_nat (length l)) -> load8 (store_words a l m) b = load8 m b.
Proof.
  revert a m. induction l as [|w l IH]; intros a m Ha Hb; [done|]. cbn [store_words length] in *. rewrite IH by dlia.
  rewrite load8_store64 by done. by rewrite decide_False by lia.
Qed.

(* ------------------------------------------------------------------ *)
(** * Properties *)

(** C15. [vsnprintf] writes what the format means: the returned length is that of
    the whole text; the buffer receives as much of the text as fits in n - 1 bytes
    and a terminating NUL, and nothing is written outside the buffer (nothing at
    all when n is 0). *)
Theorem vsnprintf_renders s out n fs vl f args str text :
  inputs (k_mem s) out n fs vl f args str ->
  render str false false f args = Some text -> Z.of_nat (length text) < 2 ^ 31 ->
  exists m, vsnprintf out n fs vl s = Ok (Z.of_nat (length text)) (set_k_mem m s) /\ holds (k_mem s) m out n text.
Proof. apply vsnprintf_spec. Qed.

Lemma dec_text_number z :
  - 2 ^ 63 < z < 2 ^ 63 ->
  exists sg ds, (sg = [] \/ sg = [45] \/ sg = [43]) /\ Forall (fun d => 0 <= d < 10) ds /\ decimal 0 ds < 2 ^ 63 /\
    dec_text z = sg ++ ((fun d => d + 48) <$> ds) /\ (if decide (sg = [45]) then - decimal 0 ds else decimal 0 ds) = z /\
    (length ds <= 20)%nat.
Proof.
  intros Hz. unfold dec_text. destruct (Z.ltb_spec z 0).
  - exists [45], (digits_of (- z)). rewrite digits_of_decimal by lia. pose proof (digits_of_length (- z) ltac:(lia)).
    split_and!; [auto|apply digits_of_range; lia|lia|done|simpl; lia|lia].
  - exists [], (digits_of z). rewrite digits_of_decimal by lia. pose proof (digits_of_length z ltac:(lia)).
    split_and!; [auto|apply digits_of_range; lia|lia|done|simpl; lia|lia].
Qed.

(** C34. Printing a number and parsing it back gives the number: for every long
    but the most negative one, [atol] reads from a buffer of 22 bytes or more the
    value that [vsnprintf] wrote there with the format [%ld]. *)
Theorem printed_number_parses s out n fs vl z :
  inputs (k_mem s) out n fs vl [37; 108; 100] [u64 z] (fun _ => None) -> 22 <= n -> - 2 ^ 63 < z < 2 ^ 63 ->
  exists len s', vsnprintf out n fs vl s = Ok len s' /\ atol out s' = Ok z s'.
Proof.
  intros Hin Hn Hz. destruct (dec_text_number z Hz) as (sg & ds & Hsg & Hds & Hlt & Et & Ev & Hlen).
  assert (Ez : s64 (u64 z) = z).
  { unfold s64, sgn, u64. rewrite Z.mod_mod by lia. fold (sgn 64 z). change (sgn 64 z) with (s64 z). apply s64_small. lia. }
  assert (Hl : (length (dec_text z) <= 21)%nat).
  { rewrite Et, length_app, length_fmap. destruct Hsg as [->|[->| ->]]; simpl; lia. }
  destruct (vsnprintf_spec s out n fs vl _ _ _ (dec_text z) Hin) as (m & E & Hm); [|lia|].
  { simpl. rewrite Ez. rewrite (proj2 (Z.eqb_neq z _)) by lia. simpl. by rewrite app_nil_r. }
  eexists _, _. split; [exact E|]. rewrite <- Ev.
  apply (atol_spec _ _ 0 sg ds); [done..|]. simpl. rewrite <- Et. split.
  - eapply holds_cstr; [exact Hm|lia|]. rewrite Et. apply Forall_app. split; [destruct Hsg as [->|[->| ->]]; by repeat constructor|].
    apply Forall_fmap. eapply Forall_impl; [exact Hds|]. simpl. lia.
  - destruct (in_out _ _ _ _ _ _ _ _ Hin) as (?&?&?). unfold region_ok. lia.
Qed.

(** [vprintk] asks the host for one write to the host file behind stderr, of
    the formatted text; a text of 256 bytes or more is cut to 255 bytes followed
    by the terminating NUL, which is sent as well. *)
Theorem vprintk_writes s out fs vl f args str text :
  inputs (k_mem s) out 256 fs vl f args str ->
  render str false false f args = Some text -> Z.of_nat (length text) < 2 ^ 31 ->
  exists m, holds (k_mem s) m out 256 text /\
    vprintk out fs vl s =
    spike_file_write (Some 2%nat) out (Z.min (Z.of_nat (length text)) 256) (set_k_mem m s).
Proof.
  intros Hin Hr Hs. destruct (vsnprintf_spec s out 256 fs vl f args str text Hin Hr Hs) as (m & E & Hm).
  exists m. split; [done|]. unfold vprintk. rewrite (bind_Ok _ _ _ _ _ E). rewrite u64_small by lia.
  do 2 f_equal. zcase; lia.
Qed.
End Snprintf.

(* ------------------------------------------------------------------ *)
(** * Witnesses *)

(** the format "%d %s %x" and [7], a string "hi", [255]; the format "%ld" and -42 *)
Definition demo_fmt : @kstate Demo.platform :=
  set_k_mem (put_str 0x80030000 [37; 100; 32; 37; 115; 32; 37; 120] (put_str 0x80030100 [104; 105] (put_str 0x80030200 [37; 108; 100]
    (store64 (store64 (store64 (store64 ∅ 0x80031000 7) 0x80031008 0x80030100) 0x80031010 255) 0x80031100 (u64 (-42))))))
    (Demo.state 0x100000).
Definition demo_str (p : Z) : option (list Z) := if p =? 0x80030100 then Some [104; 105] else None.

Lemma args_check m vl args out n :
  vl mod 8 = 0 -> region_ok vl (8 * Z.of_nat (length args)) -> (vl + 8 * Z.of_nat (length args) <= out \/ out + n <= vl) ->
  forallb (fun '(i, w) => load64 m (vl + 8 * Z.of_nat i) =? w) (imap pair args) = true -> args_at out n m vl args.
Proof.
  intros Ha Hr Hd Hb. split_and!; [done..|]. intros i w Hi. rewrite forallb_forall in Hb.
  specialize (Hb (i, w)). apply Z.eqb_eq, Hb, list_elem_of_In, list_elem_of_lookup. exists i. by rewrite list_lookup_imap, Hi.
Qed.
Lemma demo_inputs n : 0 <= n <= 256 ->
  inputs (k_mem demo_fmt) 0x80032000 n 0x80030000 0x80031000 [37; 100; 32; 37; 115; 32; 37; 120] [7; 0x80030100; 255] demo_str.
Proof.
  intros Hn. assert (Hr : forall a, 0x80030000 <= a <= 0x80032000 -> region_ok a 256)
    by (intros a Ha; unfold region_ok, DRAM_BASE, PHYS_TOP, PKE_MAX_ALLOWABLE_RAM, DRAM_BASE; lia).
  assert (Hr' : forall a k, 0x80030000 <= a <= 0x80032000 -> 0 <= k <= 256 -> region_ok a k)
    by (intros a k Ha Hk; destruct (Hr a Ha) as (?&?&?); unfold region_ok; lia).
  split.
  - apply Hr'; lia.
  - apply cstr_check; [vm_compute; reflexivity|apply Hr'; simpl; lia].
  - simpl. lia.
  - apply args_check; [reflexivity|apply Hr'; simpl; lia|simpl; lia|vm_compute; reflexivity].
  - intros p l. unfold demo_str. destruct (Z.eqb_spec p 0x80030100) as [->|]; [|done]. intros [= <-].
    split; [apply cstr_check; [vm_compute; reflexivity|apply Hr'; simpl; lia]|simpl; lia].
Qed.

Lemma vsnprintf_renders_witness :
  exists m, vsnprintf 0x80032000 8 0x80030000 0x80031000 demo_fmt = Ok 13 (set_k_mem m demo_fmt) /\
    holds (k_mem demo_fmt) m 0x80032000 8 [55; 32; 104; 105; 32; 48; 48; 48; 48; 48; 48; 102; 102].
Proof.
  apply (vsnprintf_renders demo_fmt 0x80032000 8 0x80030000 0x80031000 _ _ _ [55; 32; 104; 105; 32; 48; 48; 48; 48; 48; 48; 102; 102] (demo_inputs 8 ltac:(lia)));
    [vm_compute; reflexivity|simpl; lia].
Defined.
Lemma vprintk_writes_witness :
  exists m, holds (k_mem demo_fmt) m 0x80032000 256 [55; 32; 104; 105; 32; 48; 48; 48; 48; 48; 48; 102; 102] /\
    vprintk 0x80032000 0x80030000 0x80031000 demo_fmt = spike_file_write (Some 2%nat) 0x80032000 13 (set_k_mem m demo_fmt).
Proof.
  apply (vprintk_writes demo_fmt 0x80032000 0x80030000 0x80031000 _ _ _ [55; 32; 104; 105; 32; 48; 48; 48; 48; 48; 48; 102; 102] (demo_inputs 256 ltac:(lia)));
    [vm_compute; reflexivity|simpl; lia].
Defined.
Lemma printed_number_parses_witness :
  exists len s', vsnprintf 0x80032000 22 0x80030200 0x80031100 demo_fmt = Ok len s' /\ atol 0x80032000 s' = Ok (-42) s'.
Proof.
  apply (printed_number_parses demo_fmt); [|lia|lia].
  split; [unfold region_ok, DRAM_BASE, PHYS_TOP, PKE_MAX_ALLOWABLE_RAM, DRAM_BASE; lia| |simpl; lia| |done].
  - apply cstr_check; [vm_compute; reflexivity|]. unfold region_ok, DRAM_BASE, PHYS_TOP, PKE_MAX_ALLOWABLE_RAM, DRAM_BASE; simpl; lia.
  - apply args_check; [reflexivity| |simpl; lia|vm_compute; reflexivity]. unfold region_ok, DRAM_BASE, PHYS_TOP, PKE_MAX_ALLOWABLE_RAM, DRAM_BASE; simpl; lia.
Defined.
