(* ===== verification/Htif.v ===== *)
(** The host-target interface: spike_interface/spike_htif.c, the spin locks of
    spike_interface/atomic.h, and frontend_syscall and the console output of
    spike_interface/spike_utils.c on top of them.

    The words [tohost] and [fromhost], the console buffer and the locks are the
    record [hregs], a part of the host-side state reached through the class
    [Htif].  The host runs beside the target: [host_act] is what it does between
    two volatile reads of the target.  What the target relies on is stated as
    [serves], a finite sequence of host actions that ends with the answer.  The
    main theorem is a refinement: the exchange of messages implements the abstract
    [SpikeFile.frontend_syscall] that the rest of the development uses. *)

From S2P Require Import Prelude Machine StringC SpikeFile Snprintf.

(* ------------------------------------------------------------------ *)
(** * spike_htif.h: messages *)

Definition TOHOST_CMD (dev cmd payload : Z) : Z :=
  Z.lor (Z.lor (u64 (Z.shiftl dev 56)) (u64 (Z.shiftl cmd 48))) (u64 payload).
Definition FROMHOST_DEV (v : Z) : Z := Z.shiftr v 56.
Definition FROMHOST_CMD (v : Z) : Z := Z.shiftr (u64 (Z.shiftl v 8)) 56.
Definition FROMHOST_DATA (v : Z) : Z := Z.shiftr (u64 (Z.shiftl v 16)) 16.

(** tohost, fromhost, htif_console_buf, htif_lock, and the lock of
    frontend_syscall *)
Record hregs := mkRegs {
  r_tohost : Z; r_fromhost : Z; r_console_buf : Z; r_htif_lock : Z; r_call_lock : Z
}.
Definition set_tohost_reg (v : Z) (r : hregs) : hregs :=
  mkRegs v (r_fromhost r) (r_console_buf r) (r_htif_lock r) (r_call_lock r).
Definition set_fromhost_reg (v : Z) (r : hregs) : hregs :=
  mkRegs (r_tohost r) v (r_console_buf r) (r_htif_lock r) (r_call_lock r).
Definition set_console_buf (v : Z) (r : hregs) : hregs :=
  mkRegs (r_tohost r) (r_fromhost r) v (r_htif_lock r) (r_call_lock r).
Definition set_htif_lock (v : Z) (r : hregs) : hregs :=
  mkRegs (r_tohost r) (r_fromhost r) (r_console_buf r) v (r_call_lock r).
Definition set_call_lock (v : Z) (r : hregs) : hregs :=
  mkRegs (r_tohost r) (r_fromhost r) (r_console_buf r) (r_htif_lock r) v.

(** The host with its registers.  Host calls of the platform do not depend on
    the registers. *)
Class Htif (PLAT : Platform) := {
  regs : host_state -> hregs;
  set_regs : hregs -> host_state -> host_state;
  host_act : gmap Z Z -> host_state -> gmap Z Z * host_state;
  regs_set r h : regs (set_regs r h) = r;
  set_set r r' h : set_regs r' (set_regs r h) = set_regs r' h;
  set_regs_id h : set_regs (regs h) h = h;
  host_call_regs n a m r h :
    host_call n a m (set_regs r h) = let '(x, m', h') := host_call n a m h in (x, m', set_regs r h')
}.

Section Htif.
Context {PLAT : Platform} {HTIF : Htif PLAT}.

(** a volatile read: the host may have acted before *)
Definition vread (f : hregs -> Z) : K Z := fun s =>
  let '(m, h) := host_act (k_mem s) (k_host s) in
  Ok (f (regs h)) (set_k_host h (set_k_mem m s)).
(** reading and writing globals of the target *)
Definition rget (f : hregs -> Z) : K Z := gets (fun s => f (regs (k_host s))).
Definition rput (g : hregs -> hregs) : K unit :=
  modify (fun s => set_k_host (set_regs (g (regs (k_host s))) (k_host s)) s).

(* ------------------------------------------------------------------ *)
(** * atomic.h *)

(** a lock: how it is read and written *)
Record lock := mkLock { l_get : hregs -> Z; l_set : Z -> hregs -> hregs }.
Definition htif_lock : lock := mkLock r_htif_lock set_htif_lock.
Definition call_lock : lock := mkLock r_call_lock set_call_lock.

Definition spinlock_trylock (l : lock) : K Z :=
  res <- rget (l_get l) ;; rput (l_set l (-1)) ;;; ret res.
Definition spinlock_lock (l : lock) : K unit :=
  kwhile (fun _ : unit =>
    kwhile (fun _ : unit => v <- rget (l_get l) ;; if negb (v =? 0) then ret (inl tt) else ret (inr tt)) tt ;;;
    r <- spinlock_trylock l ;;
    if negb (r =? 0) then ret (inl tt) else ret (inr tt)) tt.
Definition spinlock_unlock (l : lock) : K unit := rput (l_set l 0).

(* ------------------------------------------------------------------ *)
(** * spike_htif.c *)

Definition check_fromhost : K unit :=
  fh <- vread r_fromhost ;;
  if fh =? 0 then ret tt
  else
    rput (set_fromhost_reg 0) ;;;
    if negb (FROMHOST_DEV fh =? 1) then halt (Poweroff "FROMHOST_DEV(fh) == 1")
    else if FROMHOST_CMD fh =? 0 then rput (set_console_buf (1 + u8 (FROMHOST_DATA fh)))
    else if FROMHOST_CMD fh =? 1 then ret tt
    else halt (Poweroff "0").

Definition set_tohost (dev cmd data : Z) : K unit :=
  kwhile (fun _ : unit =>
    t <- vread r_tohost ;;
    if negb (t =? 0) then check_fromhost ;;; ret (inl tt) else ret (inr tt)) tt ;;;
  rput (set_tohost_reg (TOHOST_CMD dev cmd data)).

(** the wait for the answer *)
Definition await (dev cmd : Z) : K unit :=
  kwhile (fun _ : unit =>
    fh <- vread r_fromhost ;;
    if negb (fh =? 0) then
      if (FROMHOST_DEV fh =? dev) && (FROMHOST_CMD fh =? cmd)
      then rput (set_fromhost_reg 0) ;;; ret (inr tt)
      else check_fromhost ;;; ret (inl tt)
    else ret (inl tt)) tt.

Definition do_tohost_fromhost (dev cmd data : Z) : K unit :=
  spinlock_lock htif_lock ;;;
  set_tohost dev cmd data ;;;
  await dev cmd ;;;
  spinlock_unlock htif_lock.

Definition htif_syscall (arg : Z) : K unit := do_tohost_fromhost 0 0 arg.

Definition htif_console_putchar (ch : Z) : K unit :=
  spinlock_lock htif_lock ;;;
  set_tohost 1 1 (u8 ch) ;;;
  spinlock_unlock htif_lock.

Definition htif_console_getchar : K Z :=
  spinlock_lock htif_lock ;;;
  check_fromhost ;;;
  ch <- rget r_console_buf ;;
  (when 0 <=? ch then rput (set_console_buf (-1)) ;;; set_tohost 1 0 0) ;;;
  spinlock_unlock htif_lock ;;;
  ret (ch - 1).

Definition htif_poweroff : K unit :=
  kwhile (fun _ : unit => rput (set_fromhost_reg 0) ;;; rput (set_tohost_reg 1) ;;; ret (inl tt)) tt.

(* ------------------------------------------------------------------ *)
(** * spike_utils.c *)

(** magic_mem, a static array of eight words *)
Definition magic_mem : Z := link_addr "magic_mem".
Definition frontend_syscall_htif (n : Z) (args : list Z) : K Z :=
  spinlock_lock call_lock ;;;
  st_words magic_mem (n :: args) ;;;
  htif_syscall magic_mem ;;;
  r <- ld64 magic_mem ;;
  spinlock_unlock call_lock ;;;
  ret (s64 r).

Definition mcall_console_putchar (htif ch : Z) : K Z :=
  (when negb (htif =? 0) then htif_console_putchar ch) ;;; ret 0.
Definition putstring (htif s : Z) : K unit :=
  kwhile (fun s => c <- ld8 s ;;
    if c =? 0 then ret (inr tt) else mcall_console_putchar htif c ;;; ret (inl (s + 1))) s.
(** [buf] is the local buffer *)
Definition vprintm (htif buf s vl : Z) : K unit :=
  vsnprintf buf 256 s vl ;;; putstring htif buf.

(* ------------------------------------------------------------------ *)
(** * Registers *)

(** the state with other registers *)
Definition with_regs (r : hregs) (s : kstate) : kstate := set_k_host (set_regs r (k_host s)) s.
Definition regs_of (s : kstate) : hregs := regs (k_host s).
(** the state after an action of the host *)
Definition acted (s : kstate) : kstate :=
  let '(m, h) := host_act (k_mem s) (k_host s) in set_k_host h (set_k_mem m s).

Lemma regs_with r s : regs_of (with_regs r s) = r.
Proof. unfold regs_of, with_regs. cbn. apply regs_set. Qed.
Lemma with_with r r' s : with_regs r' (with_regs r s) = with_regs r' s.
Proof. unfold with_regs. cbn. by rewrite set_set. Qed.
Lemma with_regs_of s : with_regs (regs_of s) s = s.
Proof. unfold with_regs, regs_of. rewrite set_regs_id. by destruct s. Qed.
Lemma vread_run f s : vread f s = Ok (f (regs_of (acted s))) (acted s).
Proof. unfold vread, acted, regs_of. by destruct (host_act _ _). Qed.
Lemma rget_run f s : rget f s = Ok (f (regs_of s)) s.
Proof. done. Qed.
Lemma rput_run g s : rput g s = Ok tt (with_regs (g (regs_of s)) s).
Proof. done. Qed.

(** ** Messages *)

Lemma cmd_fields dev cmd data :
  0 <= dev < 256 -> 0 <= cmd < 256 -> 0 <= data < 2 ^ 48 ->
  FROMHOST_DEV (TOHOST_CMD dev cmd data) = dev /\ FROMHOST_CMD (TOHOST_CMD dev cmd data) = cmd /\
  FROMHOST_DATA (TOHOST_CMD dev cmd data) = data.
Proof.
  intros Hd Hc Hp.
  assert (E : TOHOST_CMD dev cmd data = dev * 2 ^ 56 + cmd * 2 ^ 48 + data).
  { unfold TOHOST_CMD. rewrite !u64_small by (rewrite ?Z.shiftl_mul_pow2; lia). rewrite !Z.shiftl_mul_pow2 by lia.
    assert (Hlor : forall a b n, 0 <= n -> 0 <= b < 2 ^ n -> Z.lor (a * 2 ^ n) b = a * 2 ^ n + b).
    { intros a b n Hn Hb. assert (Hz : Z.land (a * 2 ^ n) b = 0); [|by rewrite <- Z.lxor_lor, <- Z.add_nocarry_lxor].
      apply Z.bits_inj'. intros i Hi. rewrite Z.land_spec, Z.bits_0. destruct (Z.ltb_spec i n).
      - by rewrite Z.mul_pow2_bits_low by lia.
      - rewrite <- (Z.mod_small b (2 ^ n)), Z.mod_pow2_bits_high by lia. apply andb_false_r. }
    rewrite (Hlor dev (cmd * 2 ^ 48) 56) by lia.
    replace (dev * 2 ^ 56 + cmd * 2 ^ 48) with ((dev * 2 ^ 8 + cmd) * 2 ^ 48) by lia. rewrite Hlor by lia. lia. }
  rewrite E. unfold FROMHOST_DEV, FROMHOST_CMD, FROMHOST_DATA, u64. rewrite !Z.shiftr_div_pow2, !Z.shiftl_mul_pow2 by lia.
  split_and!; dlia.
Qed.

(** ** Locks *)

(** a lock is one field of the registers *)
Class LockOk (l : lock) := {
  lock_get_set v r : l_get l (l_set l v r) = v;
  lock_set_set v w r : l_set l v (l_set l w r) = l_set l v r;
  lock_set_get r : l_set l (l_get l r) r = r
}.
#[global] Instance htif_lock_ok : LockOk htif_lock.
Proof. split; by intros; destruct r. Qed.
#[global] Instance call_lock_ok : LockOk call_lock.
Proof. split; by intros; destruct r. Qed.

Lemma spinlock_lock_free l s :
  l_get l (regs_of s) = 0 -> spinlock_lock l s = Ok tt (with_regs (l_set l (-1) (regs_of s)) s).
Proof.
  intros Hl. unfold spinlock_lock. apply (kwhile_iter 1); [|done]. cbn [kiter]. rewrite !bind_assoc.
  erewrite bind_Ok; [|apply (kwhile_iter 1); [|done]; cbn [kiter]; rewrite bind_assoc, (bind_Ok _ _ _ _ _ (rget_run _ _)), Hl; reflexivity].
  unfold spinlock_trylock. rewrite !bind_assoc, (bind_Ok _ _ _ _ _ (rget_run _ _)), Hl.
  rewrite !bind_assoc, (bind_Ok _ _ _ _ _ (rput_run _ _)). done.
Qed.

(* ------------------------------------------------------------------ *)
(** * An exchange *)

(** what check_fromhost does with a message of the console *)
Definition console_regs (fh : Z) (r : hregs) : hregs :=
  let r := set_fromhost_reg 0 r in
  if FROMHOST_CMD fh =? 0 then set_console_buf (1 + u8 (FROMHOST_DATA fh)) r else r.
Definition console_message (fh : Z) : Prop := fh <> 0 /\ FROMHOST_DEV fh = 1 /\ (FROMHOST_CMD fh = 0 \/ FROMHOST_CMD fh = 1).
Definition answer (dev cmd fh : Z) : Prop := fh <> 0 /\ FROMHOST_DEV fh = dev /\ FROMHOST_CMD fh = cmd.

(** within [n] polls of fromhost the host answers the message (dev, cmd): it may
    do nothing for a while, and send console input first *)
Inductive serves (dev cmd : Z) : nat -> kstate -> kstate -> Prop :=
  | sv_now s : answer dev cmd (r_fromhost (regs_of (acted s))) -> serves dev cmd 1 s (acted s)
  | sv_wait n s s' : r_fromhost (regs_of (acted s)) = 0 -> serves dev cmd n (acted s) s' -> serves dev cmd (S n) s s'
  | sv_console n s s' :
      let fh := r_fromhost (regs_of (acted s)) in
      let s2 := acted (acted s) in
      let fh2 := r_fromhost (regs_of s2) in
      fh <> 0 -> ~ answer dev cmd fh -> console_message fh2 ->
      serves dev cmd n (with_regs (console_regs fh2 (regs_of s2)) s2) s' -> serves dev cmd (S n) s s'.

Lemma check_fromhost_console s :
  let fh := r_fromhost (regs_of (acted s)) in
  console_message fh -> check_fromhost s = Ok tt (with_regs (console_regs fh (regs_of (acted s))) (acted s)).
Proof.
  intros fh (Hnz & Hd & Hc). unfold check_fromhost. rewrite (bind_Ok _ _ _ _ _ (vread_run _ _)). fold fh.
  rewrite (proj2 (Z.eqb_neq fh 0)) by done. rewrite (bind_Ok _ _ _ _ _ (rput_run _ _)), Hd. cbn [Z.eqb Pos.eqb negb]. unfold console_regs.
  destruct Hc as [-> | ->]; cbn [Z.eqb Pos.eqb]; [|done]. rewrite rput_run, regs_with, with_with. done.
Qed.

Lemma answer_test dev cmd fh : fh <> 0 -> (FROMHOST_DEV fh =? dev) && (FROMHOST_CMD fh =? cmd) = true <-> answer dev cmd fh.
Proof. intros. rewrite andb_true_iff, !Z.eqb_eq. unfold answer. tauto. Qed.

Lemma await_serves dev cmd n s s' :
  serves dev cmd n s s' -> Z.of_nat n <= 2 ^ 64 ->
  await dev cmd s = Ok tt (with_regs (set_fromhost_reg 0 (regs_of s')) s').
Proof.
  intros Hs Hn. unfold await. apply (kwhile_iter n); [|done]. clear Hn.
  induction Hs as [s Ha|n s s' H0 Hs IH|n s s' fh s2 fh2 Hnz Hna Hc Hs IH]; cbn [kiter]; rewrite bind_assoc, (bind_Ok _ _ _ _ _ (vread_run _ _)).
  - pose proof (proj1 Ha) as Hnz. rewrite (proj2 (Z.eqb_neq _ 0) Hnz). cbn [negb].
    rewrite (proj2 (answer_test dev cmd _ Hnz)) by done. rewrite bind_assoc, (bind_Ok _ _ _ _ _ (rput_run _ _)). done.
  - rewrite H0. cbn [Z.eqb negb]. rewrite bind_ret. apply IH.
  - fold fh. rewrite (proj2 (Z.eqb_neq _ 0) Hnz). cbn [negb].
    destruct ((FROMHOST_DEV fh =? dev) && (FROMHOST_CMD fh =? cmd)) eqn:E; [by apply answer_test in E|].
    rewrite bind_assoc, (bind_Ok _ _ _ _ _ (check_fromhost_console (acted s) Hc)), bind_ret. apply IH.
Qed.

Lemma set_tohost_idle dev cmd data s :
  r_tohost (regs_of (acted s)) = 0 ->
  set_tohost dev cmd data s = Ok tt (with_regs (set_tohost_reg (TOHOST_CMD dev cmd data) (regs_of (acted s))) (acted s)).
Proof.
  intros H. unfold set_tohost. erewrite bind_Ok; [apply rput_run|].
  apply (kwhile_iter 1); [|done]. cbn [kiter]. rewrite bind_assoc, (bind_Ok _ _ _ _ _ (vread_run _ _)), H. done.
Qed.

Lemma do_tohost_fromhost_spec dev cmd data n s s' :
  let s1 := acted (with_regs (set_htif_lock (-1) (regs_of s)) s) in
  r_htif_lock (regs_of s) = 0 -> r_tohost (regs_of s1) = 0 ->
  serves dev cmd n (with_regs (set_tohost_reg (TOHOST_CMD dev cmd data) (regs_of s1)) s1) s' -> Z.of_nat n <= 2 ^ 64 ->
  do_tohost_fromhost dev cmd data s = Ok tt (with_regs (set_htif_lock 0 (set_fromhost_reg 0 (regs_of s'))) s').
Proof.
  intros s1 Hl Hi Hs Hn. unfold do_tohost_fromhost.
  rewrite (bind_Ok _ _ _ _ _ (spinlock_lock_free htif_lock s Hl)), (bind_Ok _ _ _ _ _ (set_tohost_idle dev cmd data _ Hi)).
  rewrite (bind_Ok _ _ _ _ _ (await_serves _ _ _ _ _ Hs Hn)). unfold spinlock_unlock. rewrite rput_run, regs_with, with_with. done.
Qed.

(* ------------------------------------------------------------------ *)
(** * frontend_syscall *)

(** the words of magic_mem *)
Definition magic (n : Z) (args : list Z) (m : gmap Z Z) : gmap Z Z :=
  store_words magic_mem (n :: args) m.
Definition request (m : gmap Z Z) (p : Z) : list Z := (fun i : nat => load64 m (p + 8 * Z.of_nat i)) <$> seq 1 7.

(** what Spike does: nothing while both registers are 0; it answers a system call
    after serving the request in memory, whose first word receives the result *)
Record spike_server : Prop := {
  sp_idle s : r_tohost (regs_of s) = 0 -> r_fromhost (regs_of s) = 0 -> acted s = s;
  sp_call p s : 0 < p < 2 ^ 48 -> r_tohost (regs_of s) = TOHOST_CMD 0 0 p -> r_fromhost (regs_of s) = 0 ->
    let '(x, m, h) := host_call (load64 (k_mem s) p) (request (k_mem s) p) (k_mem s) (k_host s) in
    exists n fh, Z.of_nat n <= 2 ^ 64 /\ answer 0 0 fh /\
      serves 0 0 n s (with_regs (set_tohost_reg 0 (set_fromhost_reg fh (regs_of s))) (set_k_host h (set_k_mem (store64 m p x) s)))
}.

Lemma magic_request n args m :
  length args = 7%nat -> load64 (magic n args m) magic_mem = u64 n /\ request (magic n args m) magic_mem = u64 <$> args.
Proof.
  intros Hl. unfold magic. split.
  - rewrite <- (store_words_word magic_mem (n :: args) m 0 n eq_refl). f_equal. lia.
  - unfold request. apply list_eq. intros j. rewrite !list_lookup_fmap. destruct (decide (j < 7)%nat) as [Hj|Hj].
    + destruct (lookup_lt_is_Some_2 args j ltac:(lia)) as [w Ew]. rewrite lookup_seq_lt, Ew by lia. cbn [fmap option_fmap option_map]. f_equal.
      by rewrite <- (store_words_word magic_mem (n :: args) m (S j) w Ew).
    + rewrite !lookup_ge_None_2; [done|lia|rewrite length_seq; lia].
Qed.

Lemma host_call_keeps_regs n a m h x m' h' : host_call n a m h = (x, m', h') -> regs h' = regs h.
Proof.
  intros E. pose proof (host_call_regs n a m (regs h) h) as H. rewrite set_regs_id, E in H. injection H as H.
  rewrite H. by rewrite regs_set.
Qed.
Lemma s64_u64 x : s64 (u64 x) = s64 x.
Proof. unfold s64, sgn, u64. by rewrite Z.mod_mod by lia. Qed.

(** locks free, no message under way *)
Definition quiet_regs (r : hregs) : Prop := r_tohost r = 0 /\ r_fromhost r = 0 /\ r_htif_lock r = 0 /\ r_call_lock r = 0.

Lemma magic_range : addr_ok 8 (magic_mem + 8 * 0) = true -> 0 < magic_mem < 2 ^ 48.
Proof. unfold addr_ok. intros H. zbool. unfold PHYS_TOP, PKE_MAX_ALLOWABLE_RAM, DRAM_BASE in *. lia. Qed.

Lemma frontend_syscall_spec n args s :
  spike_server -> quiet_regs (regs_of s) -> 0 <= n < 2 ^ 64 -> length args = 7%nat ->
  (forall i, 0 <= i < 8 -> addr_ok 8 (magic_mem + 8 * i) = true) ->
  let '(x, m, h) := host_call n (u64 <$> args) (magic n args (k_mem s)) (k_host s) in
  frontend_syscall_htif n args s = Ok (s64 x) (set_k_host h (set_k_mem (store64 m magic_mem x) s)).
Proof.
  intros Hsp (Ht & Hf & Hh & Hc) Hn Hlen Haddr. destruct (host_call n _ _ _) as [[x m] h] eqn:E.
  unfold frontend_syscall_htif. rewrite (bind_Ok _ _ _ _ _ (spinlock_lock_free call_lock s Hc)).
  set (r1 := l_set call_lock (-1) (regs_of s)).
  assert (Em : st_words magic_mem (n :: args) (with_regs r1 s) = Ok tt (with_regs r1 (set_k_mem (magic n args (k_mem s)) s))).
  { rewrite st_words_run; [done|]. intros i Hi. apply Haddr. simpl in Hi. lia. }
  rewrite (bind_Ok _ _ _ _ _ Em). set (s2 := set_k_mem (magic n args (k_mem s)) s).
  destruct (magic_request n args (k_mem s) Hlen) as [Hw Hr]. rewrite u64_small in Hw by lia.
  set (r2 := set_htif_lock (-1) r1). set (r3 := set_tohost_reg (TOHOST_CMD 0 0 magic_mem) r2).
  assert (Hidle : acted (with_regs (set_htif_lock (-1) (regs_of (with_regs r1 s2))) (with_regs r1 s2)) = with_regs r2 s2).
  { rewrite regs_with, with_with. fold r2. apply (sp_idle Hsp); rewrite regs_with; done. }
  pose proof (sp_call Hsp magic_mem (with_regs r3 s2)) as Hcall. rewrite regs_with in Hcall.
  specialize (Hcall (magic_range (Haddr 0 ltac:(lia))) eq_refl Hf).
  change (k_mem (with_regs r3 s2)) with (magic n args (k_mem s)) in Hcall.
  change (k_host (with_regs r3 s2)) with (set_regs r3 (k_host s)) in Hcall. rewrite Hw, Hr, host_call_regs, E in Hcall.
  destruct Hcall as (k & fh & Hk & Hfh & Hs).
  assert (Ecall := do_tohost_fromhost_spec 0 0 magic_mem k (with_regs r1 s2) _ ltac:(by rewrite regs_with)
    ltac:(rewrite Hidle, regs_with; exact Ht) ltac:(rewrite Hidle, regs_with, with_with; exact Hs) Hk).
  rewrite regs_with, with_with in Ecall. unfold htif_syscall. rewrite (bind_Ok _ _ _ _ _ Ecall).
  erewrite bind_Ok; [|apply ld64_ok; replace magic_mem with (magic_mem + 8 * 0) by lia; apply Haddr; lia].
  unfold spinlock_unlock. rewrite (bind_Ok _ _ _ _ _ (rput_run _ _)), regs_with, with_with.
  unfold ret. f_equal.
  - change (k_mem (with_regs _ _)) with (store64 m magic_mem x). by rewrite load64_store64_eq, s64_u64.
  - unfold with_regs. cbn [k_host set_k_host]. rewrite set_set.
    assert (Hrg : l_set call_lock 0 (set_htif_lock 0 (set_fromhost_reg 0 (set_tohost_reg 0 (set_fromhost_reg fh r3)))) = regs h).
    { rewrite (host_call_keeps_regs _ _ _ _ _ _ _ E). unfold r3, r2, r1, regs_of in *. destruct (regs (k_host s)).
      cbn in Ht, Hf, Hh, Hc |- *. by subst. }
    rewrite Hrg, set_regs_id. done.
Qed.

(* ------------------------------------------------------------------ *)
(** * Properties *)

(** C14. The transport implements the host calls the kernel is written against: with
    Spike serving, [frontend_syscall] through HTIF (lock, request in magic_mem,
    message, wait, result) returns, and it returns the value and reaches the state
    of the abstract host call on the request, but for the first word of magic_mem,
    which holds the result.  The registers and locks are idle again afterwards. *)
Theorem frontend_syscall_refines n args s :
  spike_server -> quiet_regs (regs_of s) -> 0 <= n < 2 ^ 64 -> length args = 7%nat ->
  (forall i, 0 <= i < 8 -> addr_ok 8 (magic_mem + 8 * i) = true) ->
  exists x s1 m', frontend_syscall n args (set_k_mem (magic n args (k_mem s)) s) = Ok x s1 /\
    frontend_syscall_htif n args s = Ok x (set_k_mem m' s1) /\
    (forall a, a / 8 <> magic_mem / 8 -> load64 m' a = load64 (k_mem s1) a) /\ regs_of s1 = regs_of s.
Proof.
  intros Hsp Hq Hn Hl Ha. pose proof (frontend_syscall_spec n args s Hsp Hq Hn Hl Ha) as H.
  unfold frontend_syscall. cbn [k_mem k_host set_k_mem].
  destruct (host_call n _ _ _) as [[x m] h] eqn:E. eexists _, _, _. split; [reflexivity|]. split; [rewrite H; reflexivity|]. split.
  - intros a Hne. by apply load64_store64_ne.
  - unfold regs_of. cbn. by eapply host_call_keeps_regs.
Qed.

(** Messages are decoded to what was encoded, for 8-bit devices and commands and
    48-bit payloads. *)
Theorem message_roundtrip dev cmd data :
  0 <= dev < 256 -> 0 <= cmd < 256 -> 0 <= data < 2 ^ 48 ->
  FROMHOST_DEV (TOHOST_CMD dev cmd data) = dev /\ FROMHOST_CMD (TOHOST_CMD dev cmd data) = cmd /\
  FROMHOST_DATA (TOHOST_CMD dev cmd data) = data.
Proof. apply cmd_fields. Qed.

(** A lock that is held is never obtained: with one hart, taking the lock of
    frontend_syscall or of the HTIF twice spins for ever. *)
Theorem spinlock_held_spins l s :
  l_get l (regs_of s) <> 0 -> exists s', spinlock_lock l s = Stop Diverge s' /\ k_mem s' = k_mem s.
Proof.
  intros Hl. assert (Hin : exists x' : unit, exists s',
    kwhile (R := unit) (fun _ : unit => v <- rget (l_get l) ;; if negb (v =? 0) then ret (inl tt) else ret (inr tt)) tt s = Stop Diverge s' /\ s' = s).
  { apply (kwhile_forever (fun _ s' => s' = s)); [done|]. intros x s' ->. exists tt, s. split; [|done].
    rewrite (bind_Ok _ _ _ _ _ (rget_run _ _)), (proj2 (Z.eqb_neq _ _) Hl). done. }
  destruct Hin as (_ & s' & E & ->). exists s. split; [|done]. unfold spinlock_lock.
  apply (kwhile_rule (fun _ s' => s' = s) (fun _ => 0) (fun o => o = Stop Diverge s)); [done|lia|].
  intros x s' ->. rewrite (bind_Stop _ _ _ _ _ E). done.
Qed.

(** [htif_poweroff] does not return: it keeps writing the power-off command. *)
Theorem htif_poweroff_forever s :
  exists s', htif_poweroff s = Stop Diverge s' /\ k_mem s' = k_mem s.
Proof.
  destruct (kwhile_forever (R := unit) (fun (_ : unit) s' => k_mem s' = k_mem s)
    (fun _ : unit => rput (set_fromhost_reg 0) ;;; rput (set_tohost_reg 1) ;;; ret (inl tt)) tt s) as (_ & s' & E & H); [done| |eauto].
  intros [] s1 H1. eexists tt, _. split; [reflexivity|]. done.
Qed.

(** Console input is delivered: a character sent by the host is returned, and the
    next one is requested. *)
Theorem console_getchar_delivers s ch :
  let s1 := acted (with_regs (set_htif_lock (-1) (regs_of s)) s) in
  let s2 := acted (with_regs (set_console_buf (-1) (console_regs (TOHOST_CMD 1 0 ch) (regs_of s1))) s1) in
  r_htif_lock (regs_of s) = 0 -> 0 <= ch < 256 -> r_fromhost (regs_of s1) = TOHOST_CMD 1 0 ch -> r_tohost (regs_of s2) = 0 ->
  htif_console_getchar s = Ok ch (with_regs (set_htif_lock 0 (set_tohost_reg (TOHOST_CMD 1 0 0) (regs_of s2))) s2).
Proof.
  intros s1 s2 Hl Hch Hf Ht. destruct (cmd_fields 1 0 ch) as (Hd & Hc & Hp); [lia..|].
  assert (Hnz : TOHOST_CMD 1 0 ch <> 0) by (intros E; rewrite E in Hd; done).
  assert (Ec : check_fromhost (with_regs (set_htif_lock (-1) (regs_of s)) s) =
    Ok tt (with_regs (console_regs (TOHOST_CMD 1 0 ch) (regs_of s1)) s1)).
  { rewrite <- Hf. apply check_fromhost_console. fold s1. rewrite Hf. split_and!; auto. }
  unfold htif_console_getchar. rewrite (bind_Ok _ _ _ _ _ (spinlock_lock_free htif_lock s Hl)).
  rewrite (bind_Ok _ _ _ _ _ Ec), (bind_Ok _ _ _ _ _ (rget_run _ _)), regs_with.
  assert (Eb : r_console_buf (console_regs (TOHOST_CMD 1 0 ch) (regs_of s1)) = 1 + ch).
  { unfold console_regs. rewrite Hc, Hp. cbn. unfold u8. rewrite Z.mod_small by lia. done. }
  rewrite Eb, (proj2 (Z.leb_le 0 _)) by lia. rewrite bind_assoc, (bind_Ok _ _ _ _ _ (rput_run _ _)), regs_with, with_with.
  rewrite (bind_Ok _ _ _ _ _ (set_tohost_idle 1 0 0 _ Ht)). unfold spinlock_unlock.
  rewrite (bind_Ok _ _ _ _ _ (rput_run _ _)), regs_with, with_with. unfold ret. f_equal. lia.
Qed.
End Htif.

(* ------------------------------------------------------------------ *)
(** * Witnesses *)

(** a host that serves a request at the first poll *)
Module DemoHost.
Definition platform : Platform := {|
  trap_sec_start := 0x80005000;
  smode_trap_vector := 0x80005004;
  smode_trap_handler_addr := 0x80001000;
  etext := 0x80010000;
  kernel_end := 0x80020000;
  link_addr := fun _ => 0x80018000;
  host_state := hregs * Z;
  host_call := fun n _ m h => (h.2 + n, m, h)
|}.
Definition act (m : gmap Z Z) (h : hregs * Z) : gmap Z Z * (hregs * Z) :=
  let p := r_tohost h.1 in
  if p =? 0 then (m, h)
  else (store64 m p (h.2 + load64 m p), (set_tohost_reg 0 (set_fromhost_reg 1 h.1), h.2)).
#[global] Instance htif : Htif platform.
Proof.
  refine {| regs := (fst : @host_state platform -> hregs); set_regs := (fun r h => (r, snd h) : @host_state platform); host_act := act |}.
  - done.
  - done.
  - by intros [].
  - done.
Defined.
Definition state : @kstate platform :=
  @mkState platform ∅ 0 0 0 0 (replicate 32 null_proc) None None
    USER_FREE_ADDRESS_START 0 0 (fun _ => 0) 0 (replicate 10 0)
    (replicate 128 (mkSpikeFile (-1) 0)) (replicate 128 None) (mkRegs 0 0 0 0 0, 5).
Lemma server : spike_server (PLAT := platform).
Proof.
  split.
  - intros s H0 _. destruct s as [m ? ? ? ? ? ? ? ? ? ? ? ? ? ? ? h]. unfold acted, regs_of in *. cbn in *. unfold act. rewrite H0. done.
  - intros p s Hp Ht Hf. change (TOHOST_CMD 0 0 p) with (u64 p) in Ht. rewrite u64_small in Ht by lia.
    cbn [host_call platform]. exists 1%nat, 1. split_and!; [done|split_and!; done|].
    assert (E : acted s = with_regs (set_tohost_reg 0 (set_fromhost_reg 1 (regs_of s)))
      (set_k_host (k_host s) (set_k_mem (store64 (k_mem s) p (snd (k_host s) + load64 (k_mem s) p)) s))).
    { unfold acted, with_regs, regs_of in *. cbn in *. unfold act. rewrite Ht, (proj2 (Z.eqb_neq p 0)) by lia. done. }
    rewrite <- E. apply sv_now. rewrite E, regs_with. done.
Qed.
End DemoHost.

Lemma frontend_syscall_refines_witness : exists x s1 m',
  frontend_syscall (PLAT := DemoHost.platform) 64 [1; 2; 3; 4; 5; 6; 7] (set_k_mem (magic (PLAT := DemoHost.platform) 64 [1; 2; 3; 4; 5; 6; 7] ∅) DemoHost.state) = Ok x s1 /\
  frontend_syscall_htif (HTIF := DemoHost.htif) 64 [1; 2; 3; 4; 5; 6; 7] DemoHost.state = Ok x (set_k_mem m' s1).
Proof.
  destruct (frontend_syscall_refines 64 [1; 2; 3; 4; 5; 6; 7] DemoHost.state DemoHost.server) as (x & s1 & m' & E1 & E2 & _).
  - done.
  - lia.
  - done.
  - intros i Hi. change (addr_ok 8 (0x80018000 + 8 * i) = true). apply page_ok_addr64; [by vm_compute|lia].
  - exists x, s1, m'. split; [exact E1|exact E2].
Defined.
Lemma message_roundtrip_witness :
  FROMHOST_DEV (TOHOST_CMD 1 0 65) = 1 /\ FROMHOST_CMD (TOHOST_CMD 1 0 65) = 0 /\ FROMHOST_DATA (TOHOST_CMD 1 0 65) = 65.
Proof. apply (message_roundtrip 1 0 65); lia. Defined.
Lemma spinlock_held_spins_witness :
  exists s', spinlock_lock (HTIF := DemoHost.htif) call_lock
    (with_regs (HTIF := DemoHost.htif) (mkRegs 0 0 0 0 (-1)) DemoHost.state) = Stop Diverge s' /\ k_mem s' = ∅.
Proof. apply (spinlock_held_spins call_lock (with_regs (HTIF := DemoHost.htif) (mkRegs 0 0 0 0 (-1)) DemoHost.state)). done. Defined.
