(* ===== verification/SpikeUtils.v ===== *)
(** The last words of the kernel: sprint, shutdown, poweroff, do_panic and
    kassert_fail of spike_interface/spike_utils.c.

    A call of a variadic function passes its arguments in registers, which the
    callee saves to the slots its [va_list] points to: [frames] gives the address
    of those slots in sprint and in do_panic, and of the text buffer in vprintk.
    The rest of the development stops at these functions ([Panic], [Shutdown],
    [Poweroff] of the machine model); here they run to their end, which is an
    endless loop after the request that ends the emulation. *)

From S2P Require Import Prelude Machine StringC SpikeFile Snprintf Htif.

(* ------------------------------------------------------------------ *)
(** * Code *)

Record frames := mkFrames { fr_out : Z; fr_sprint : Z; fr_panic : Z }.

Section SpikeUtils.
Context {PLAT : Platform} {HTIF : Htif PLAT}.
Variable fr : frames.

Definition sprint (s : Z) (args : list Z) : K unit :=
  st_words (fr_sprint fr) args ;;;
  vprintk (fr_out fr) s (fr_sprint fr) ;;;
  ret tt.
Definition printk (s : Z) (args : list Z) : K unit := sprint s args.

(** [while (1);] *)
Definition spin : K unit := kwhile (fun _ : unit => ret (inl tt)) tt.

Definition exit_format : string := "System is shutting down with exit code %d.\n".
Definition shutdown (code : Z) : K unit :=
  sprint (link_addr exit_format) [code] ;;;
  frontend_syscall HTIFSYS_exit [code; 0; 0; 0; 0; 0; 0] ;;;
  spin.

(** the variadic sprint is passed the [va_list] itself, a pointer to the slots *)
Definition do_panic (s : Z) (args : list Z) : K unit :=
  st_words (fr_panic fr) args ;;;
  sprint s [fr_panic fr] ;;;
  shutdown (-1).
Definition kassert_fail (ra s : Z) : K unit :=
  do_panic (link_addr "assertion failed @ %p: %s\n") [ra; s] ;;;
  shutdown (-1).

(** [assert(htif)] calls poweroff again when [htif] is 0 *)
Fixpoint poweroff (depth : nat) (htif : Z) : K unit :=
  match depth with
  | O => halt Diverge
  | S depth' =>
      (when htif =? 0 then
         sprint (link_addr "%s:%d: assertion failed: %s\n") [link_addr "spike_interface/spike_utils.c"; 90; link_addr "htif"] ;;;
         poweroff depth' htif) ;;;
      sprint (link_addr "Power off\r\n") [] ;;;
      htif_poweroff
  end.

(* ------------------------------------------------------------------ *)
(** * Printing *)

(** the state after the host has served a request *)
Definition served (n : Z) (args : list Z) (s : kstate) : kstate :=
  let '(_, m, h) := host_call n (u64 <$> args) (k_mem s) (k_host s) in set_k_host h (set_k_mem m s).
(** stderr is the host's file descriptor 2 *)
Definition std_ready (s : kstate) : Prop := kfd (file s 2) = 2.

Lemma frontend_served n args s : exists x, frontend_syscall n args s = Ok x (served n args s).
Proof. unfold frontend_syscall, served. destruct (host_call _ _ _ _) as [[x m] h]. eauto. Qed.
Lemma served_std n args s : std_ready s -> std_ready (served n args s).
Proof. unfold served, std_ready. by destruct (host_call _ _ _ _) as [[x m] h]. Qed.

(** the memory with the message in the buffer *)
Definition printed (m m' : gmap Z Z) (args text : list Z) : Prop :=
  holds (store_words (fr_sprint fr) args m) m' (fr_out fr) 256 text.

Lemma sprint_spec s fs f args str text :
  inputs (store_words (fr_sprint fr) args (k_mem s)) (fr_out fr) 256 fs (fr_sprint fr) f (u64 <$> args) str ->
  render str false false f (u64 <$> args) = Some text -> Z.of_nat (length text) < 256 -> std_ready s ->
  exists m, printed (k_mem s) m args text /\
    sprint fs args s = Ok tt (served HTIFSYS_write [2; fr_out fr; Z.of_nat (length text); 0; 0; 0; 0] (set_k_mem m s)).
Proof.
  intros Hin Hr Hl Hstd. set (s1 := set_k_mem (store_words (fr_sprint fr) args (k_mem s)) s).
  destruct (vsnprintf_spec s1 (fr_out fr) 256 fs (fr_sprint fr) f (u64 <$> args) str text Hin Hr ltac:(lia)) as (m & E & Hm).
  exists m. split; [exact Hm|]. unfold sprint. destruct (in_args _ _ _ _ _ _ _ _ Hin) as (Ha & Hrg & _). rewrite length_fmap in Hrg.
  rewrite (bind_Ok _ _ _ tt s1).
  2:{ apply st_words_run. intros i Hi. destruct Hrg as (?&?&?). unfold addr_ok. zbool. dlia. }
  unfold vprintk. rewrite bind_assoc, (bind_Ok _ _ _ _ _ E), u64_small by lia. rewrite (proj2 (Z.ltb_lt _ _)) by lia.
  unfold spike_file_write, kfd_of. rewrite !bind_assoc, (bind_Ok _ _ _ _ _ (getf_run _ _ _)).
  replace (kfd (file (set_k_mem m s1) 2)) with 2 by done.
  destruct (frontend_served HTIFSYS_write [2; fr_out fr; Z.of_nat (length text); 0; 0; 0; 0] (set_k_mem m s1)) as [x Ex].
  rewrite (bind_Ok _ _ _ _ _ Ex). done.
Qed.

(* ------------------------------------------------------------------ *)
(** * Messages *)

Definition apart (a n b k : Z) : Prop := a + n <= b \/ b + k <= a.
(** the buffer and the slots lie in memory, apart from each other *)
Record frames_ok : Prop := {
  fo_out : region_ok (fr_out fr) 256;
  fo_sprint : fr_sprint fr mod 8 = 0 /\ region_ok (fr_sprint fr) 64;
  fo_panic : fr_panic fr mod 8 = 0 /\ region_ok (fr_panic fr) 64;
  fo_out_sprint : apart (fr_out fr) 256 (fr_sprint fr) 64
}.
(** the string [l] at [p] is apart from all of them *)
Record message (m : gmap Z Z) (p : Z) (l : list Z) : Prop := {
  mg_str : cstr_at m p l;
  mg_out : apart p (Z.of_nat (length l) + 1) (fr_out fr) 256;
  mg_sprint : apart p (Z.of_nat (length l) + 1) (fr_sprint fr) 64;
  mg_panic : apart p (Z.of_nat (length l) + 1) (fr_panic fr) 64
}.

Lemma message_same m m' p l :
  (forall a, p <= a < p + Z.of_nat (length l) + 1 -> load8 m' a = load8 m a) -> message m p l -> message m' p l.
Proof.
  intros H [[[Hc H0] Hr] Ho Hs Hp]. split; try done. split; [|done]. split.
  - intros i c Hi. pose proof (lookup_lt_Some _ _ _ Hi). destruct (Hc i c Hi) as [? <-]. split; [done|]. apply H. lia.
  - rewrite <- H0. apply H. lia.
Qed.
Lemma message_slots m a args p l :
  (a = fr_sprint fr \/ a = fr_panic fr) -> (length args <= 8)%nat -> frames_ok ->
  message m p l -> message (store_words a args m) p l.
Proof.
  intros Ha Hl Hf Hm. apply (message_same m); [|done]. intros b Hb. destruct Hf as [_ [] [] _], Hm as [_ _ ? ?]. unfold apart in *.
  apply store_words_frame; destruct Ha as [-> | ->]; try done; lia.
Qed.
Lemma message_printed m m' args text p l :
  frames_ok -> (length args <= 8)%nat -> printed m m' args text -> message m p l -> message m' p l.
Proof.
  intros Hf Hl [Hm _] Hg. apply (message_same (store_words (fr_sprint fr) args m)); [|apply message_slots; auto].
  intros a Ha. apply Hm. destruct Hg as [_ ? _ _]. unfold apart in *. lia.
Qed.

Lemma message_inputs m fs f args (str : Z -> option (list Z)) :
  frames_ok -> (length args <= 8)%nat -> message m fs f -> (forall p l, str p = Some l -> message m p l) ->
  inputs (store_words (fr_sprint fr) args m) (fr_out fr) 256 fs (fr_sprint fr) f (u64 <$> args) str.
Proof.
  intros Hf Hl Hm Hs. pose proof Hf as [Ho [Ha Hr] _ Hd]. unfold apart in *.
  assert (Hin : forall p l, message m p l ->
    cstr_at (store_words (fr_sprint fr) args m) p l /\ (p + Z.of_nat (length l) + 1 <= fr_out fr \/ fr_out fr + 256 <= p)).
  { intros p l Hp. pose proof (message_slots m _ args p l (or_introl eq_refl) Hl Hf Hp) as []. unfold apart in *. split; [done|lia]. }
  split; [done|by apply Hin|by apply Hin| |by intros; apply Hin, Hs].
  unfold args_at. rewrite length_fmap. split_and!; [done|unfold region_ok in *; lia|lia|].
  intros i w Hi. rewrite list_lookup_fmap in Hi. destruct (args !! i) as [v|] eqn:Ev; [|done]. injection Hi as <-.
  by apply store_words_word.
Qed.
Lemma sprint_message s fs f args str text :
  frames_ok -> (length args <= 8)%nat -> message (k_mem s) fs f -> (forall p l, str p = Some l -> message (k_mem s) p l) ->
  render str false false f (u64 <$> args) = Some text -> Z.of_nat (length text) < 256 -> std_ready s ->
  exists m, printed (k_mem s) m args text /\
    sprint fs args s = Ok tt (served HTIFSYS_write [2; fr_out fr; Z.of_nat (length text); 0; 0; 0; 0] (set_k_mem m s)).
Proof. intros. eapply sprint_spec; [by apply message_inputs|done..]. Qed.

(** ** The exit message *)

Definition exit_chars : list Z := chars_of "System is shutting down with exit code " ++ [37; 100; 46; 10].
Definition exit_text (code : Z) : list Z := chars_of "System is shutting down with exit code " ++ dec_text code ++ [46; 10].

Lemma render_plain str pre f args :
  Forall (fun c => c <> 37) pre -> render str false false (pre ++ f) args = app pre <$> render str false false f args.
Proof.
  induction pre as [|c pre IH]; intros Hp; [cbn [app]; destruct (render str false false f args); reflexivity|].
  apply Forall_cons in Hp as [Hc Hp]. cbn [app render]. rewrite (proj2 (Z.eqb_neq c 37)), IH by done.
  destruct (render str false false f args); reflexivity.
Qed.
Lemma exit_rendered code : - 2 ^ 31 <= code < 2 ^ 31 -> render (fun _ => None) false false exit_chars [u64 code] = Some (exit_text code).
Proof.
  intros Hc. unfold exit_chars. rewrite render_plain by (repeat constructor; done). cbn [render Z.eqb Pos.eqb orb head tail arg_num].
  assert (E : s32 (u64 code) = code).
  { unfold s32, sgn, u64. rewrite Z.mod_mod_divide by (by exists (2 ^ 32)). apply s32_small. lia. }
  cbn [mbind option_bind]. rewrite E. rewrite (proj2 (Z.eqb_neq code (- 2 ^ 63))) by lia. done.
Qed.
Lemma dec_text_length code : - 2 ^ 31 <= code < 2 ^ 31 -> (length (dec_text code) <= 21)%nat.
Proof.
  intros Hc. unfold dec_text. zcase; rewrite ?length_cons, length_fmap.
  - pose proof (digits_of_length (- code) ltac:(lia)). lia.
  - pose proof (digits_of_length code ltac:(lia)). lia.
Qed.
Lemma exit_text_length code : - 2 ^ 31 <= code < 2 ^ 31 -> Z.of_nat (length (exit_text code)) < 256.
Proof.
  intros Hc. pose proof (dec_text_length code Hc). unfold exit_text. rewrite !length_app. simpl. lia.
Qed.

(** the requests of a shutdown *)
Definition write_request (text : list Z) : list Z := [2; fr_out fr; Z.of_nat (length text); 0; 0; 0; 0].
Definition exit_request (code : Z) : list Z := [code; 0; 0; 0; 0; 0; 0].

Lemma spin_diverges s : spin s = Stop Diverge s.
Proof.
  destruct (kwhile_forever (R := unit) (fun (_ : unit) s' => s' = s) (fun _ : unit => ret (inl tt)) tt s) as (_ & s' & E & ->); [done| |done].
  intros x s' ->. by exists tt, s.
Qed.
Lemma shutdown_spec code s :
  frames_ok -> message (k_mem s) (link_addr exit_format) exit_chars -> std_ready s -> - 2 ^ 31 <= code < 2 ^ 31 ->
  exists m, printed (k_mem s) m [code] (exit_text code) /\
    shutdown code s = Stop Diverge (served HTIFSYS_exit (exit_request code) (served HTIFSYS_write (write_request (exit_text code)) (set_k_mem m s))).
Proof.
  intros Hf Hm Hs Hc.
  destruct (sprint_message s _ _ [code] (fun _ => None) (exit_text code) Hf ltac:(simpl; lia) Hm ltac:(done) (exit_rendered code Hc)
    (exit_text_length code Hc) Hs) as (m & Hp & E).
  exists m. split; [done|]. unfold shutdown. rewrite (bind_Ok _ _ _ _ _ E). fold (write_request (exit_text code)).
  set (s1 := served HTIFSYS_write _ _). destruct (frontend_served HTIFSYS_exit (exit_request code) s1) as [x Ex].
  fold (exit_request code). rewrite (bind_Ok _ _ _ _ _ Ex). apply spin_diverges.
Qed.

(* ------------------------------------------------------------------ *)
(** * Properties *)

(** C37. [shutdown] tells the host and never returns: it has the exit message with
    the code written to stderr, then requests the end of the emulation with the
    same code, in this order, and spins. *)
Theorem shutdown_reports code s :
  frames_ok -> message (k_mem s) (link_addr exit_format) exit_chars -> std_ready s -> - 2 ^ 31 <= code < 2 ^ 31 ->
  exists m, printed (k_mem s) m [code] (exit_text code) /\
    shutdown code s = Stop Diverge (served HTIFSYS_exit (exit_request code) (served HTIFSYS_write (write_request (exit_text code)) (set_k_mem m s))).
Proof. apply shutdown_spec. Qed.

(** C32. [do_panic] prints its message and shuts down with code -1, but the message
    is rendered with the address of the argument slots in place of the arguments:
    the values [args] passed to it are not printed. *)
Theorem do_panic_reports s fs f args str text :
  (forall a m h, snd (fst (host_call HTIFSYS_write a m h)) = m) ->
  frames_ok -> (length args <= 8)%nat -> std_ready s ->
  message (k_mem s) fs f -> (forall p l, str p = Some l -> message (k_mem s) p l) ->
  message (k_mem s) (link_addr exit_format) exit_chars ->
  render str false false f [u64 (fr_panic fr)] = Some text -> Z.of_nat (length text) < 256 ->
  exists m1 m2,
    let s1 := served HTIFSYS_write (write_request text) (set_k_mem m1 s) in
    let s2 := served HTIFSYS_write (write_request (exit_text (-1))) (set_k_mem m2 s1) in
    printed (store_words (fr_panic fr) args (k_mem s)) m1 [fr_panic fr] text /\
    printed m1 m2 [-1] (exit_text (-1)) /\
    do_panic fs args s = Stop Diverge (served HTIFSYS_exit (exit_request (-1)) s2).
Proof.
  intros Hw Hf Hl Hs Hm Hstr He Hr Ht. set (s0 := set_k_mem (store_words (fr_panic fr) args (k_mem s)) s).
  assert (Hk : forall p l, message (k_mem s) p l -> message (k_mem s0) p l) by (intros; apply message_slots; auto).
  destruct (sprint_message s0 fs f [fr_panic fr] str text) as (m1 & Hp1 & E1); try done; [simpl; lia|by apply Hk|by eauto|].
  exists m1. set (s1 := served HTIFSYS_write (write_request text) (set_k_mem m1 s)).
  assert (Hm1 : k_mem s1 = m1).
  { unfold s1, served. specialize (Hw (u64 <$> write_request text) m1 (k_host s)). cbn.
    destruct (host_call HTIFSYS_write _ _ _) as [[x m'] h']. done. }
  destruct (shutdown_spec (-1) s1) as (m2 & Hp2 & E2); [done| |by apply served_std|lia|].
  { rewrite Hm1. eapply message_printed; [done| |exact Hp1|by apply Hk]. simpl. lia. }
  rewrite Hm1 in Hp2. exists m2. split_and!; [done|done|]. unfold do_panic. rewrite (bind_Ok _ _ _ tt s0).
  2:{ apply st_words_run. intros i Hi. destruct (fo_panic Hf) as [? (?&?&?)]. unfold addr_ok. zbool. dlia. }
  rewrite (bind_Ok _ _ _ _ _ E1). exact E2.
Qed.
End SpikeUtils.

(* ------------------------------------------------------------------ *)
(** * Witnesses *)

Definition demo_frames : frames := mkFrames 0x80030000 0x80031000 0x80032000.
Definition demo_format : list Z := chars_of "syscall " ++ [37; 108; 100; 10].
Definition demo_messages : @kstate DemoHost.platform :=
  set_k_spike_files (<[2%nat := mkSpikeFile 2 3]> (k_spike_files DemoHost.state))
    (set_k_mem (put_str 0x80018000 exit_chars (put_str 0x80019000 demo_format ∅)) DemoHost.state).
Lemma demo_frames_ok : frames_ok demo_frames.
Proof. split; cbn; unfold apart, region_ok, PHYS_TOP, PKE_MAX_ALLOWABLE_RAM, DRAM_BASE; split_and?; first [reflexivity|lia]. Qed.
Lemma demo_message p l :
  (p, l) = (0x80018000, exit_chars) \/ (p, l) = (0x80019000, demo_format) -> message demo_frames (k_mem demo_messages) p l.
Proof.
  intros [[= -> ->]|[= -> ->]].
  all: split; [|vm_compute; first [left; discriminate|right; discriminate]..].
  all: apply cstr_check; [vm_compute; reflexivity|vm_compute; by split_and!].
Qed.
Lemma shutdown_reports_witness : exists s', shutdown demo_frames 3 demo_messages = Stop Diverge s'.
Proof.
  destruct (shutdown_reports demo_frames 3 demo_messages) as (m & _ & E).
  - apply demo_frames_ok.
  - apply demo_message. auto.
  - done.
  - lia.
  - eexists. exact E.
Defined.
(** panicking with argument 99 prints the address 0x80032000 = 2147688448 *)
Lemma do_panic_reports_witness : exists m1 s',
  printed demo_frames (store_words 0x80032000 [99] (k_mem demo_messages)) m1 [0x80032000] (chars_of "syscall 2147688448" ++ [10]) /\
  do_panic demo_frames 0x80019000 [99] demo_messages = Stop Diverge s'.
Proof.
  destruct (do_panic_reports demo_frames demo_messages 0x80019000 demo_format [99] (fun _ => None) (chars_of "syscall 2147688448" ++ [10]))
    as (m1 & m2 & H1 & _ & E).
  - done.
  - apply demo_frames_ok.
  - simpl. lia.
  - done.
  - apply demo_message. auto.
  - done.
  - apply demo_message. auto.
  - vm_compute. reflexivity.
  - vm_compute. reflexivity.
  - exists m1. eexists. split; [exact H1|exact E].
Defined.
