(* ===== verification/Dev.v ===== *)
(** kernel/dev.c: the RAM disk.

    The disk is [RAMDISK0_BLOCK] pages taken from the page allocator one at a
    time; its base is the last page allocated, so it is one region only because
    the allocator hands out descending pages ([init_ramdisk0_contiguous]).

    C function pointers are addresses of the linker's symbol table
    ([link_addr]); a call through a pointer runs the function of that address and
    faults on any other value. *)

From S2P Require Import Prelude Machine Pmm StringC.

Definition RAMDISK0 : Z := 0.
Definition RAMDISK0_BLOCK : Z := 128.
Definition RAMDISK0_BSIZE : Z := PGSIZE.
Definition MAX_DEV : nat := 10.

(** struct vfs_dev_t (vfs.h), struct device (dev.h) *)
Definition VDEV_devname : Z := 0.
Definition VDEV_listidx : Z := 8.
Definition VDEV_dev : Z := 16.
Definition VDEV_fs : Z := 24.
Definition DEV_blocks : Z := 0.
Definition DEV_blocksize : Z := 4.
Definition DEV_input : Z := 8.
Definition DEV_output : Z := 16.

Section Dev.
Context {PLAT : Platform}.

(* ------------------------------------------------------------------ *)
(** * The code *)

Definition ramdisk0_input (buffer blkno : Z) : K Z :=
  if (blkno <? 0) || (RAMDISK0_BLOCK <=? blkno)
  then panic "RAM Disk0: input block No out of range!"
  else
    base <- gets k_ramdisk0_base ;;
    let dst := u64 (base + blkno * RAMDISK0_BSIZE) in
    memcpy dst buffer RAMDISK0_BSIZE ;;; ret 0.

Definition ramdisk0_output (buffer blkno : Z) : K Z :=
  if (blkno <? 0) || (RAMDISK0_BLOCK <=? blkno)
  then panic "RAM Disk0: input block No out of range!"
  else
    base <- gets k_ramdisk0_base ;;
    let src := u64 (base + blkno * RAMDISK0_BSIZE) in
    memcpy buffer src RAMDISK0_BSIZE ;;; ret 0.

Definition dev_init_ramdisk0 : K unit :=
  pdev <- alloc_page ;;
  st64 (pdev + VDEV_devname) (link_addr "ramdisk0") ;;;
  st32 (pdev + VDEV_listidx) RAMDISK0 ;;;
  pd <- alloc_page ;;
  st32 (pd + DEV_blocks) RAMDISK0_BLOCK ;;;
  st32 (pd + DEV_blocksize) RAMDISK0_BSIZE ;;;
  st64 (pd + DEV_input) (link_addr "ramdisk0_input") ;;;
  st64 (pd + DEV_output) (link_addr "ramdisk0_output") ;;;
  st64 (pdev + VDEV_dev) pd ;;;
  modify (fun s => set_k_vdev_list (<[Z.to_nat RAMDISK0 := pdev]> (k_vdev_list s)) s).

Definition init_ramdisk0 : K unit :=
  let alloc_times := (RAMDISK0_BLOCK * RAMDISK0_BSIZE - 1) / PGSIZE + 1 in
  kfor (seq 0 (Z.to_nat alloc_times)) (fun _ =>
    p <- alloc_page ;; modify (set_k_ramdisk0_base p)).

Definition dev_init : K unit := init_ramdisk0 ;;; dev_init_ramdisk0.

(** dev.h: dop_input, dop_output *)
Definition dop_input (dev buffer blkno : Z) : K Z :=
  f <- ld64 (dev + DEV_input) ;;
  if f =? u64 (link_addr "ramdisk0_input") then ramdisk0_input buffer blkno else halt (Fault f).
Definition dop_output (dev buffer blkno : Z) : K Z :=
  f <- ld64 (dev + DEV_output) ;;
  if f =? u64 (link_addr "ramdisk0_output") then ramdisk0_output buffer blkno else halt (Fault f).

(* ------------------------------------------------------------------ *)
(** * The disk *)

(** the disk is a region of the direct map *)
Definition disk_ok (base : Z) : Prop :=
  base mod PGSIZE = 0 /\ DRAM_BASE <= base /\ base + RAMDISK0_BLOCK * PGSIZE <= PHYS_TOP.
Definition disk_block (base b : Z) : Z := base + b * PGSIZE.

Lemma disk_block_ok base b : disk_ok base -> 0 <= b < RAMDISK0_BLOCK -> page_ok (disk_block base b).
Proof. unfold disk_ok, page_ok, disk_block, RAMDISK0_BLOCK, PGSIZE. dlia. Qed.
Lemma disk_block_u64 base b :
  disk_ok base -> 0 <= b < RAMDISK0_BLOCK -> u64 (base + b * RAMDISK0_BSIZE) = disk_block base b.
Proof.
  intros H Hb. apply u64_small. destruct (page_ok_range _ (disk_block_ok base b H Hb)) as [? ?].
  unfold disk_block, PGSIZE, RAMDISK0_BSIZE in *. unfold PGSIZE in *. lia.
Qed.

(** one page copied *)
Definition page_copied (m m' : gmap Z Z) (dst src : Z) : Prop :=
  same_outside {[dst]} m m' /\ forall i, 0 <= i < 512 -> load64 m' (dst + 8 * i) = load64 m (src + 8 * i).

Lemma ramdisk0_input_spec s buffer b :
  disk_ok (k_ramdisk0_base s) -> 0 <= b < RAMDISK0_BLOCK -> page_ok buffer ->
  disk_block (k_ramdisk0_base s) b <> buffer ->
  exists m, ramdisk0_input buffer b s = Ok 0 (set_k_mem m s) /\
    page_copied (k_mem s) m (disk_block (k_ramdisk0_base s) b) buffer.
Proof.
  intros Hd Hb Hbuf Hne. unfold ramdisk0_input.
  rewrite (proj2 (Z.ltb_ge _ _)), (proj2 (Z.leb_gt _ _)) by lia. simpl.
  erewrite bind_Ok; [|reflexivity]. rewrite disk_block_u64 by done.
  destruct (memcpy_page s (disk_block (k_ramdisk0_base s) b) buffer) as (m & E & Hm & Hc);
    [by apply disk_block_ok|done|done|].
  exists m. unfold RAMDISK0_BSIZE. by rewrite (bind_Ok _ _ _ _ _ E).
Qed.
Lemma ramdisk0_output_spec s buffer b :
  disk_ok (k_ramdisk0_base s) -> 0 <= b < RAMDISK0_BLOCK -> page_ok buffer ->
  disk_block (k_ramdisk0_base s) b <> buffer ->
  exists m, ramdisk0_output buffer b s = Ok 0 (set_k_mem m s) /\
    page_copied (k_mem s) m buffer (disk_block (k_ramdisk0_base s) b).
Proof.
  intros Hd Hb Hbuf Hne. unfold ramdisk0_output.
  rewrite (proj2 (Z.ltb_ge _ _)), (proj2 (Z.leb_gt _ _)) by lia. simpl.
  erewrite bind_Ok; [|reflexivity]. rewrite disk_block_u64 by done.
  destruct (memcpy_page s buffer (disk_block (k_ramdisk0_base s) b)) as (m & E & Hm & Hc);
    [done|by apply disk_block_ok|done|].
  exists m. unfold RAMDISK0_BSIZE. by rewrite (bind_Ok _ _ _ _ _ E).
Qed.
Lemma init_ramdisk0_loop s start n j k :
  free_pages s (reverse (page_range start (k + n))) ->
  exists s', kfor (seq j k) (fun _ => p <- alloc_page ;; modify (set_k_ramdisk0_base p)) s = Ok tt s' /\
    free_pages s' (reverse (page_range start n)) /\
    k_ramdisk0_base s' = (if k is 0%nat then k_ramdisk0_base s else start + PGSIZE * Z.of_nat n) /\
    k_mem s' = k_mem s.
Proof.
  revert s j. induction k as [|k IH]; intros s j Hf; simpl; [by exists s|].
  change (S k + n)%nat with (S (k + n)) in Hf. rewrite page_range_S, reverse_app in Hf.
  destruct (pa_alloc _ _ _ Hf) as (s1 & E1 & Hf1 & Hk1 & Hm1).
  set (p := start + PGSIZE * Z.of_nat (k + n)) in *.
  destruct (IH (set_k_ramdisk0_base p s1) (S j)) as (s' & E & Hf' & Hb & Hm).
  { by apply (pa_frame s1). }
  exists s'. rewrite (bind_Ok _ _ _ tt (set_k_ramdisk0_base p s1)).
  2:{ by rewrite (bind_Ok _ _ _ _ _ E1). }
  split_and!; [done|done| |by rewrite Hm]. rewrite Hb. destruct k; [|done]. done.
Qed.

(* ------------------------------------------------------------------ *)
(** * Properties *)

(** C30. The RAM disk is one contiguous region: when the free list is a descending
    run of [n >= 128] pages from [start] up, as [pmm_init] builds it,
    [init_ramdisk0] takes the top 128 of them and leaves the base at the lowest,
    so blocks 0 to 127 are exactly the pages taken, and the pages below stay
    free. *)
Theorem init_ramdisk0_contiguous s start n :
  free_pages s (reverse (page_range start n)) -> (128 <= n)%nat ->
  exists s', init_ramdisk0 s = Ok tt s' /\
    let base := k_ramdisk0_base s' in
    disk_ok base /\ base = start + PGSIZE * (Z.of_nat n - 128) /\
    free_pages s' (reverse (page_range start (n - 128))) /\
    (forall p, p ∈ page_range start n ->
       (p ∈ page_range start (n - 128) <-> ~ exists b, 0 <= b < RAMDISK0_BLOCK /\ p = disk_block base b)).
Proof.
  intros Hf Hn. destruct (pa_pages _ _ Hf) as [_ Hok]. rewrite Forall_reverse, Forall_forall in Hok.
  destruct (init_ramdisk0_loop s start (n - 128) 0 128) as (s' & E & Hf' & Hb & _).
  { by replace (128 + (n - 128))%nat with n by lia. }
  exists s'. split; [exact E|]. intros base. change (base = start + PGSIZE * Z.of_nat (n - 128)) in Hb.
  assert (Hbase : base = start + PGSIZE * (Z.of_nat n - 128)) by (rewrite Hb; unfold PGSIZE; lia).
  assert (Hlo : page_ok base) by (apply Hok, elem_of_page_range; exists (n - 128)%nat; split; [lia|by rewrite Hb]).
  assert (Hhi : page_ok (start + PGSIZE * Z.of_nat (n - 1)))
    by (apply Hok, elem_of_page_range; exists (n - 1)%nat; split; [lia|done]).
  split_and!; [|done|done|].
  - unfold disk_ok, page_ok, RAMDISK0_BLOCK, PGSIZE in *. lia.
  - intros p (i & Hi & ->)%elem_of_page_range. rewrite elem_of_page_range.
    unfold disk_block, RAMDISK0_BLOCK, PGSIZE in *. split.
    + intros (j & Hj & E') (b & Hb' & E2). lia.
    + intros Hno. exists i. split; [|done]. destruct (decide (i < n - 128)%nat); [done|].
      destruct Hno. exists (Z.of_nat i - (Z.of_nat n - 128)). lia.
Qed.

(** C17. Blocks read back as written: after [ramdisk0_input] of a buffer to block
    [b], [ramdisk0_output] of block [b] gives the same 4096 bytes, and of any
    other block what it held before. *)
Theorem ramdisk0_roundtrip s a c b b' :
  let base := k_ramdisk0_base s in
  disk_ok base -> 0 <= b < RAMDISK0_BLOCK -> 0 <= b' < RAMDISK0_BLOCK -> page_ok a -> page_ok c ->
  (forall k, 0 <= k < RAMDISK0_BLOCK -> disk_block base k <> a /\ disk_block base k <> c) ->
  exists m1 m2, ramdisk0_input a b s = Ok 0 (set_k_mem m1 s) /\
    ramdisk0_output c b' (set_k_mem m1 s) = Ok 0 (set_k_mem m2 s) /\
    forall i, 0 <= i < 512 -> load64 m2 (c + 8 * i) =
      load64 (k_mem s) ((if decide (b = b') then a else disk_block base b') + 8 * i).
Proof.
  intros base Hd Hb Hb' Ha Hc Hne.
  destruct (ramdisk0_input_spec s a b) as (m1 & E1 & Ho1 & Hc1); [done..|by apply Hne|].
  destruct (ramdisk0_output_spec (set_k_mem m1 s) c b') as (m2 & E2 & Ho2 & Hc2); [done..|by apply Hne|].
  exists m1, m2. split_and!; [done..|]. intros i Hi. rewrite Hc2 by done. simpl. fold base.
  case_decide as E; [subst b'; by apply Hc1|]. apply Ho1.
  rewrite page_of_slot; [|by apply disk_block_ok|unfold PGSIZE; lia].
  rewrite elem_of_singleton. fold base. unfold disk_block, PGSIZE. lia.
Qed.

(** A block number outside [0, 128) panics and touches nothing. *)
Theorem ramdisk0_out_of_range s buffer b :
  b < 0 \/ RAMDISK0_BLOCK <= b ->
  ramdisk0_input buffer b s = Stop (Panic "RAM Disk0: input block No out of range!") s /\
  ramdisk0_output buffer b s = Stop (Panic "RAM Disk0: input block No out of range!") s.
Proof.
  intros H. unfold ramdisk0_input, ramdisk0_output.
  destruct (Z.ltb_spec b 0), (Z.leb_spec RAMDISK0_BLOCK b); simpl; done || lia.
Qed.
End Dev.
(* ------------------------------------------------------------------ *)
(** * Witnesses *)

Lemma init_ramdisk0_contiguous_witness :
  exists s s', @pmm_init Demo.platform (Demo.state 0x100000) = Ok tt s /\
    init_ramdisk0 s = Ok tt s' /\ k_ramdisk0_base s' = 0x80020000 + PGSIZE * (223 - 128).
Proof.
  destruct (@pmm_init_spec Demo.platform (Demo.state 0x100000)) as (s & E & Hf & _); [done|done|done|].
  destruct (init_ramdisk0_contiguous s 0x80020000 223 Hf) as (s' & E' & _ & Hb & _).
  { by apply Nat.leb_le. }
  exists s, s'. split_and!; [exact E|exact E'|exact Hb].
Defined.

Definition demo_disk : @kstate Demo.platform := set_k_ramdisk0_base 0x80100000 demo_strings.

Lemma ramdisk0_roundtrip_witness :
  exists m1 m2, ramdisk0_input 0x80030000 5 demo_disk = Ok 0 (set_k_mem m1 demo_disk) /\
    ramdisk0_output 0x80031000 5 (set_k_mem m1 demo_disk) = Ok 0 (set_k_mem m2 demo_disk) /\
    forall i, 0 <= i < 512 -> load64 m2 (0x80031000 + 8 * i) = load64 (k_mem demo_disk) (0x80030000 + 8 * i).
Proof.
  apply (ramdisk0_roundtrip demo_disk 0x80030000 0x80031000 5 5); try done.
  intros k Hk. change (k_ramdisk0_base demo_disk) with 0x80100000. unfold disk_block, RAMDISK0_BLOCK, PGSIZE in *. lia.
Defined.
Lemma ramdisk0_out_of_range_witness :
  ramdisk0_input 0x80030000 128 demo_disk = Stop (Panic "RAM Disk0: input block No out of range!") demo_disk /\
  ramdisk0_output 0x80030000 128 demo_disk = Stop (Panic "RAM Disk0: input block No out of range!") demo_disk.
Proof. apply (ramdisk0_out_of_range demo_disk 0x80030000 128). by right. Defined.
