(* ===== verification/Rfs.v ===== *)
(** kernel/rfs.c: the RAM file system, with alloc_fs and alloc_inode of
    kernel/vfs.c.

    Structures live in pages of physical memory at the offsets the C compiler
    gives them (lp64).  An out-parameter of the C code is a component of the
    result. *)

From S2P Require Import Prelude Machine Pmm StringC Dev.

Definition RFS_TYPE : Z := 0.
Definition RFS_MAGIC : Z := 12345.
Definition RFS_BLKSIZE : Z := PGSIZE.
Definition RFS_MAX_INODE_NUM : Z := 10.
Definition RFS_NDIRECT : Z := 10.
Definition RFS_BLKN_SUPER : Z := 0.
Definition RFS_BLKN_INODE : Z := 1.
Definition RFS_BLKN_BITMAP : Z := 11.
Definition RFS_BLKN_FREE : Z := 12.
Definition T_FREE : Z := 0.
Definition T_DEV : Z := 1.
Definition T_DIR : Z := 2.
Definition T_FILE : Z := 3.

(** struct rfs_fs; it is the first member of struct fs *)
Definition RFS_magic : Z := 0.
Definition RFS_size : Z := 4.
Definition RFS_nblocks : Z := 8.
Definition RFS_ninodes : Z := 12.
Definition RFS_dev : Z := 16.
Definition RFS_freemap : Z := 24.
Definition RFS_dirty : Z := 32.
Definition RFS_buffer : Z := 40.
(** struct fs *)
Definition FS_type : Z := 48.
Definition FS_sync : Z := 56.
Definition FS_get_root : Z := 64.
Definition FS_unmount : Z := 72.
Definition FS_cleanup : Z := 80.
(** struct rfs_dinode; it is the first member of struct inode *)
Definition DI_size : Z := 0.
Definition DI_type : Z := 4.
Definition DI_nlinks : Z := 8.
Definition DI_blocks : Z := 12.
Definition DI_addrs : Z := 16.
(** struct inode *)
Definition IN_type : Z := 96.
Definition IN_inum : Z := 100.
Definition IN_ref : Z := 104.
Definition IN_fs : Z := 112.
Definition IN_ops : Z := 120.
(** struct rfs_direntry *)
Definition DE_inum : Z := 0.
Definition DE_name : Z := 4.
Definition sizeof_direntry : Z := 32.

(** struct fstat (file.h) *)
Record fstat := mkFstat { st_mode : Z; st_nlinks : Z; st_blocks : Z; st_size : Z }.

Section Rfs.
Context {PLAT : Platform}.

(* ------------------------------------------------------------------ *)
(** * The code *)

Definition alloc_fs (fs_type : Z) : K Z :=
  fs <- alloc_page ;; st32 (fs + FS_type) fs_type ;;; ret fs.
Definition alloc_inode (in_type : Z) : K Z :=
  node <- alloc_page ;; st32 (node + IN_type) in_type ;;; ret node.

Definition rfs_r1block (rfs blkno : Z) : K Z :=
  dev <- ld64 (rfs + RFS_dev) ;; buffer <- ld64 (rfs + RFS_buffer) ;; dop_output dev buffer blkno.
Definition rfs_w1block (rfs blkno : Z) : K Z :=
  dev <- ld64 (rfs + RFS_dev) ;; buffer <- ld64 (rfs + RFS_buffer) ;; dop_input dev buffer blkno.

(** [if ((ret = c) != 0) panic(site)] *)
Definition check (c : K Z) (site : string) : K unit :=
  r <- c ;; if r =? 0 then ret tt else panic site.

(** the fields of a dinode, as rfs_do_mount writes them *)
Definition set_dinode (p size type nlinks blocks : Z) : K unit :=
  st32 (p + DI_size) size ;;; st32 (p + DI_type) type ;;;
  st32 (p + DI_nlinks) nlinks ;;; st32 (p + DI_blocks) blocks.

(** ** rfs_do_mount, by the steps its comments number *)

(** 1 to 2.2: the fs structure, with an io buffer *)
Definition rfs_alloc (dev : Z) : K Z :=
  fs <- alloc_fs RFS_TYPE ;;
  let prfs := fs in
  st64 (prfs + RFS_dev) dev ;;;
  st32 (prfs + RFS_dirty) 0 ;;;
  buffer <- alloc_page ;;
  st64 (prfs + RFS_buffer) buffer ;;;
  ret fs.
(** 2.3: the superblock *)
Definition rfs_write_super (prfs : Z) : K unit :=
  st32 (prfs + RFS_magic) RFS_MAGIC ;;;
  st32 (prfs + RFS_size) (1 + RFS_MAX_INODE_NUM + 1 + RFS_MAX_INODE_NUM * RFS_NDIRECT) ;;;
  st32 (prfs + RFS_nblocks) (RFS_MAX_INODE_NUM * RFS_NDIRECT) ;;;
  st32 (prfs + RFS_ninodes) RFS_MAX_INODE_NUM ;;;
  buffer <- ld64 (prfs + RFS_buffer) ;;
  memcpy buffer (prfs + RFS_magic) RFS_BLKSIZE ;;;
  check (rfs_w1block prfs RFS_BLKN_SUPER) "RFS: failed to write superblock!".
(** 2.4: the bitmap, the first data block used *)
Definition rfs_write_bitmap (prfs : Z) : K unit :=
  freemap <- alloc_page ;;
  st64 (prfs + RFS_freemap) freemap ;;;
  freemap <- ld64 (prfs + RFS_freemap) ;;
  memset freemap 0 RFS_BLKSIZE ;;;
  freemap <- ld64 (prfs + RFS_freemap) ;;
  st32 freemap 1 ;;;
  buffer <- ld64 (prfs + RFS_buffer) ;;
  freemap <- ld64 (prfs + RFS_freemap) ;;
  memcpy buffer freemap RFS_BLKSIZE ;;;
  check (rfs_w1block prfs RFS_BLKN_BITMAP) "RFS: failed to write bitmap!".
(** 2.5: the free inodes, and the inode of the root directory *)
Definition rfs_write_inodes (prfs pinode : Z) : K unit :=
  set_dinode pinode 0 T_FREE 0 0 ;;;
  kwhile (fun i =>
    ninodes <- ld32 (prfs + RFS_ninodes) ;;
    if i <? s32 ninodes then
      check (rfs_w1block prfs (RFS_BLKN_INODE + i)) "RFS: failed to write inodes!" ;;;
      ret (inl (i + 1))
    else ret (inr tt)) 1.
Definition rfs_write_root (prfs pinode : Z) : K unit :=
  set_dinode pinode sizeof_direntry T_DIR 1 1 ;;;
  st64 (pinode + DI_addrs) RFS_BLKN_FREE ;;;
  check (rfs_w1block prfs RFS_BLKN_INODE) "RFS: failed to write root inode!".
(** 2.6: the block of the root directory *)
Definition rfs_write_dir (prfs : Z) : K unit :=
  pdir <- ld64 (prfs + RFS_buffer) ;;
  st32 (pdir + DE_inum) RFS_BLKN_INODE ;;;
  strcpy (pdir + DE_name) (link_addr "/") ;;;
  check (rfs_w1block prfs RFS_BLKN_FREE) "RFS: failed to write root inode!".
(** 3: the operations of the file system *)
Definition rfs_set_ops (fs : Z) : K unit :=
  st64 (fs + FS_sync) (link_addr "rfs_sync") ;;;
  st64 (fs + FS_get_root) (link_addr "rfs_get_root") ;;;
  st64 (fs + FS_unmount) (link_addr "rfs_unmount") ;;;
  st64 (fs + FS_cleanup) (link_addr "rfs_cleanup").

Definition rfs_do_mount (dev vfs_fs : Z) : K Z :=
  fs <- rfs_alloc dev ;;
  let prfs := fs in
  rfs_write_super prfs ;;;
  rfs_write_bitmap prfs ;;;
  pinode <- ld64 (prfs + RFS_buffer) ;;
  rfs_write_inodes prfs pinode ;;;
  rfs_write_root prfs pinode ;;;
  rfs_write_dir prfs ;;;
  rfs_set_ops fs ;;;
  st64 vfs_fs fs ;;;
  ret 0.

Definition rfs_sync (fs : Z) : K Z := panic "RFS: rfs_sync unimplemented!".
Definition rfs_unmount (fs : Z) : K Z := ret 0.
Definition rfs_cleanup (fs : Z) : K unit := ret tt.
Definition rfs_opendir (node open_flags : Z) : K Z := ret 0.
Definition rfs_openfile (node open_flags : Z) : K Z := ret 0.
Definition rfs_close (node : Z) : K Z := ret 0.

Definition rfs_get_ops (type : Z) : K Z :=
  if type =? T_DIR then ret (link_addr "rfs_node_dirops")
  else if type =? T_FILE then ret (link_addr "rfs_node_fileops")
  else panic "RFS: invalid file type".

Definition rfs_create_inode (prfs din ino : Z) : K (Z * Z) :=
  node <- alloc_inode RFS_TYPE ;;
  let dnode := node in
  kfor [DI_size; DI_type; DI_nlinks; DI_blocks] (fun o => v <- ld32 (din + o) ;; st32 (dnode + o) v) ;;;
  kfor (seq 0 (Z.to_nat RFS_NDIRECT)) (fun i =>
    v <- ld64 (din + DI_addrs + 8 * Z.of_nat i) ;; st64 (dnode + DI_addrs + 8 * Z.of_nat i) v) ;;;
  st32 (node + IN_inum) ino ;;;
  st32 (node + IN_ref) 0 ;;;
  st64 (node + IN_fs) prfs ;;;
  type <- ld32 (dnode + DI_type) ;;
  ops <- rfs_get_ops (s32 type) ;;
  st64 (node + IN_ops) ops ;;;
  ret (0, node).

Definition rfs_load_dinode (prfs ino : Z) : K (Z * Z) :=
  check (rfs_r1block prfs RFS_BLKN_INODE) "RFS: failed to read inode!" ;;;
  dnode <- ld64 (prfs + RFS_buffer) ;;
  r <- rfs_create_inode prfs dnode ino ;;
  if r.1 =? 0 then ret (0, r.2) else panic "RFS: failed to create inode from dinode!".

Definition rfs_get_root (fs : Z) : K Z :=
  r <- rfs_load_dinode fs RFS_BLKN_INODE ;;
  if r.1 =? 0 then ret r.2 else panic "RFS: failed to load root inode!".

Definition rfs_fstat (node : Z) : K (Z * fstat) :=
  type <- ld32 (node + DI_type) ;; nlinks <- ld32 (node + DI_nlinks) ;;
  blocks <- ld32 (node + DI_blocks) ;; size <- ld32 (node + DI_size) ;;
  ret (0, mkFstat (s32 type) (s32 nlinks) (s32 blocks) (s32 size)).

(** the number of directory entries of block [i]: [nde] after the if *)
Definition dir_entries (size i : Z) : Z :=
  let nde := s32 (size - i * RFS_BLKSIZE) in
  if RFS_BLKSIZE <? nde then RFS_BLKSIZE / sizeof_direntry
  else s32 (u64 nde / sizeof_direntry).

(** the entries of one block: [inl] goes on, [inr] is the inode found *)
Definition rfs_lookup_block (prfs de nde path : Z) : K (option Z) :=
  kwhile (fun j =>
    if j <? nde then
      let e := de + sizeof_direntry * j in
      inum <- ld32 (e + DE_inum) ;;
      c <- strcmp (e + DE_name) path ;;
      if c =? 0 then
        rfs_r1block prfs (s32 inum) ;;;
        buffer <- ld64 (prfs + RFS_buffer) ;;
        inum' <- ld32 (e + DE_inum) ;;
        r <- rfs_create_inode prfs buffer (s32 inum') ;;
        ret (inr (Some r.2))
      else ret (inl (j + 1))
    else ret (inr None)) 0.

(** (0, Some node): found; (1, None): not found, the out-parameter is not set *)
Definition rfs_lookup (node path : Z) : K (Z * option Z) :=
  let dnode := node in
  prfs <- ld64 (node + IN_fs) ;;
  c0 <- ld8 path ;;
  (if c0 =? 47 then
     c1 <- ld8 (path + 1) ;;
     (if c1 =? 0 then panic "rfs_lookup: no file name specified!" else ret tt)
   else panic "rfs_lookup: not an absolute path!") ;;;
  let path := path + 1 in
  kwhile (fun i =>
    blocks <- ld32 (dnode + DI_blocks) ;;
    if i <? s32 blocks then
      de <- ld64 (dnode + DI_addrs + 8 * i) ;;
      size <- ld32 (dnode + DI_size) ;;
      r <- rfs_lookup_block prfs de (dir_entries (s32 size) i) path ;;
      match r with
      | Some n => ret (inr (0, Some n))
      | None => ret (inl (i + 1))
      end
    else ret (inr (1, None))) 0.
(* ------------------------------------------------------------------ *)
(** * Properties *)

(** the dinode rfs_do_mount writes for the root directory: one block, one entry,
    and the number of that block in [addrs[0]] *)
Record root_dinode (m : gmap Z Z) (node : Z) : Prop := {
  rd_blocks : load32 m (node + DI_blocks) = 1;
  rd_size : load32 m (node + DI_size) = sizeof_direntry;
  rd_addr : load64 m (node + DI_addrs) = RFS_BLKN_FREE
}.

(** C40. Looking up any file in the root directory faults: the directory block is
    taken from [addrs[0]], which holds the block number 12 and not a memory
    address, so the first directory entry is read from address 12. *)
Theorem rfs_lookup_root_faults s node path c l :
  page_ok node -> root_dinode (k_mem s) node -> cstr_at (k_mem s) path (47 :: c :: l) ->
  rfs_lookup node path s = Stop (Fault RFS_BLKN_FREE) s.
Proof.
  intros Hn [Hb Hsz Ha] Hc. unfold rfs_lookup.
  rewrite (bind_Ok _ _ _ _ _ (ld64_ok _ s (page_ok_addr node IN_fs 8 Hn ltac:(done) ltac:(done) ltac:(done) ltac:(done) ltac:(done)))).
  destruct (cstr_at_ld8 s path _ 0 Hc ltac:(simpl; lia)) as [E0 _].
  destruct (cstr_at_ld8 s path _ 1 Hc ltac:(simpl; lia)) as [E1 _].
  rewrite Z.add_0_r in E0. rewrite (bind_Ok _ _ _ _ _ E0).
  change (default 0 ((47 :: c :: l) !! 0%nat)) with 47. change (47 =? 47) with true. cbv iota.
  change (default 0 ((47 :: c :: l) !! 1%nat)) with c in E1. change (Z.of_nat 1) with 1 in E1.
  rewrite bind_assoc, (bind_Ok _ _ _ _ _ E1).
  assert (Hc0 : c <> 0) by (destruct Hc as [[Hc _] _]; by apply (Hc 1%nat c)).
  rewrite (proj2 (Z.eqb_neq _ _)), bind_ret by done.
  apply (kwhile_rule (fun i s' => i = 0 /\ s' = s) (fun _ => 0)); [done|lia|].
  intros i s' [-> ->]. erewrite bind_Ok; [|apply ld32_ok, page_ok_addr; done]. rewrite Hb.
  change (0 <? s32 1) with true. cbv iota. rewrite Z.mul_0_r, Z.add_0_r.
  erewrite bind_Ok; [|apply ld64_ok, page_ok_addr; done]. rewrite Ha.
  erewrite bind_Ok; [|apply ld32_ok, page_ok_addr; done]. rewrite Hsz.
  change (dir_entries (s32 sizeof_direntry) 0) with 1.
  assert (E : rfs_lookup_block (load64 (k_mem s) (node + IN_fs)) RFS_BLKN_FREE 1 (path + 1) s =
    Stop (Fault RFS_BLKN_FREE) s).
  { unfold rfs_lookup_block. apply (kwhile_rule (fun j s' => j = 0 /\ s' = s) (fun _ => 0)); [done|lia|].
    intros j s' [-> ->]. done. }
  by rewrite (bind_Stop _ _ _ _ _ E).
Qed.
End Rfs.
(* ------------------------------------------------------------------ *)
(** * Witnesses *)

(** a root inode at 0x80031000, and the path "/a" *)
Definition demo_root : @kstate Demo.platform :=
  set_k_mem (put_str 0x80030000 [47; 97]
    (store64 (store32 (store32 ∅ 0x80031000 32) 0x8003100c 1) 0x80031010 12)) (Demo.state 0x100000).
Lemma rfs_lookup_root_faults_witness :
  rfs_lookup 0x80031000 0x80030000 demo_root = Stop (Fault 12) demo_root.
Proof.
  apply (rfs_lookup_root_faults demo_root 0x80031000 0x80030000 97 []);
    [by vm_compute|split; by vm_compute|apply cstr_check; by vm_compute].
Defined.
