(* ===== verification/Vfs.v ===== *)
(** kernel/vfs.c: devices and path lookup.

    A path [device:/file] is looked up in the file system mounted on the device,
    any other path belongs to the host. *)

From S2P Require Import Prelude Machine Pmm StringC SpikeFile Dev Rfs.

(** file.h, spike_file.h *)
Definition MASK_FILEMODE : Z := 3.
Definition O_RDONLY : Z := 0.
Definition O_WRONLY : Z := 1.
Definition O_RDWR : Z := 2.

Section Vfs.
Context {PLAT : Platform}.

(* ------------------------------------------------------------------ *)
(** * The code *)

(** the loop of vfs_mount and vfs_get_root over [vdev_list]: the entry whose name
    equals [devname], or the last one; a null entry is dereferenced *)
Definition find_device (devname : Z) : K Z :=
  kwhile (fun '(i, pdev_t) =>
    if Nat.ltb i MAX_DEV then
      pdev_t <- gets (fun s => default 0 (k_vdev_list s !! i)) ;;
      name <- ld64 (pdev_t + VDEV_devname) ;;
      c <- strcmp name devname ;;
      if c =? 0 then ret (inr pdev_t) else ret (inl (S i, pdev_t))
    else ret (inr pdev_t)) (0%nat, 0).

Definition vfs_mount (devname : Z) (mountfunc : Z -> Z -> K Z) : K Z :=
  pdev_t <- find_device devname ;;
  if pdev_t =? 0 then panic "vfs_mount: Cannot find the device entry!"
  else
    pdevice <- ld64 (pdev_t + VDEV_dev) ;;
    mountfunc pdevice (pdev_t + VDEV_fs) ;;;
    ret 0.

(** vfs.h: fsop_get_root *)
Definition fsop_get_root (fs : Z) : K Z :=
  f <- ld64 (fs + FS_get_root) ;;
  if f =? u64 (link_addr "rfs_get_root") then rfs_get_root fs else halt (Fault f).

Definition vfs_get_root (devname : Z) : K (Z * Z) :=
  pdev_t <- find_device devname ;;
  if pdev_t =? 0 then panic "vfs_get_root: Cannot find the device entry!"
  else
    fs <- ld64 (pdev_t + VDEV_fs) ;;
    rootdir <- fsop_get_root fs ;;
    if rootdir =? 0 then panic "vfs_get_root: failed to get root dir inode!"
    else ret (0, rootdir).

(** (return value, subpath, root directory inode) *)
Definition get_device (path : Z) : K (Z * Z * Z) :=
  colon <- kwhile (fun i =>
    c <- ld8 (path + i) ;;
    if c =? 0 then ret (inr (-1))
    else if c =? 58 then ret (inr i)
    else ret (inl (i + 1))) 0 ;;
  if colon <? 0 then ret (-1, path, 0)
  else
    st8 (path + colon) 0 ;;;
    r <- vfs_get_root path ;;
    ret (r.1, path + colon + 1, r.2).

(** vfs.h: vop_lookup, vop_fstat; the file table has no lookup function *)
Definition vop_lookup (node path : Z) : K (Z * option Z) :=
  ops <- ld64 (node + IN_ops) ;;
  if ops =? u64 (link_addr "rfs_node_dirops") then rfs_lookup node path
  else if ops =? u64 (link_addr "rfs_node_fileops") then halt (Fault 0)
  else halt (Fault ops).
Definition vop_fstat (node : Z) : K (Z * fstat) :=
  ops <- ld64 (node + IN_ops) ;;
  if (ops =? u64 (link_addr "rfs_node_dirops")) || (ops =? u64 (link_addr "rfs_node_fileops"))
  then rfs_fstat node else halt (Fault ops).

Definition vfs_lookup (path : Z) : K (Z * option Z) :=
  d <- get_device path ;;
  let '(r, path, dir) := d in
  if r =? -1 then ret (-1, Some 0)
  else
    c <- ld8 path ;;
    if negb (c =? 47) then panic "vfs_lookup: invalid file path!"
    else vop_lookup dir path.

(** the second component is the inode; [None] is an indeterminate pointer *)
Definition vfs_open (path flags : Z) : K (Z * option Z) :=
  let mode := Z.land flags MASK_FILEMODE in
  if negb ((mode =? O_RDONLY) || (mode =? O_WRONLY) || (mode =? O_RDWR))
  then panic "fs_open: invalid open flags!"
  else
    r <- vfs_lookup path ;;
    if r.1 =? -1 then kfd <- host_open path flags ;; ret (kfd, None)
    else ret (0, r.2).

(** rfs.c: rfs_mount, rfs_init *)
Definition rfs_mount (devname : Z) : K Z := vfs_mount devname rfs_do_mount.
Definition rfs_init : K unit :=
  r <- rfs_mount (link_addr "ramdisk0") ;;
  if r =? 0 then ret tt else panic "failed: rfs: rfs_mount".
(* ------------------------------------------------------------------ *)
(** * Path lookup *)

(** the scan for the colon: its position, or -1 *)
Lemma colon_scan s path l :
  cstr_at (k_mem s) path l ->
  kwhile (fun i =>
    c <- ld8 (path + i) ;;
    if c =? 0 then ret (inr (-1))
    else if c =? 58 then ret (inr i)
    else ret (inl (i + 1))) 0 s =
  Ok (match list_find (eq 58) l with Some (i, _) => Z.of_nat i | None => -1 end) s.
Proof.
  intros Hc. pose proof (region_measure _ _ (proj2 Hc)) as Hm.
  apply (kwhile_rule (fun i s' => s' = s /\ exists k : nat, i = Z.of_nat k /\ (k <= length l)%nat /\ 58 ∉ take k l)
    (fun i => Z.of_nat (length l) - i)).
  - split; [done|]. exists 0%nat. split_and!; [done|lia|set_solver].
  - lia.
  - intros i s' (-> & k & -> & Hk & Hnin). destruct (cstr_at_ld8 s path l k Hc Hk) as [E Hz].
    rewrite (bind_Ok _ _ _ _ _ E). destruct (l !! k) as [c|] eqn:Ek; simpl in *.
    + pose proof (lookup_lt_Some _ _ _ Ek) as Hlt.
      destruct (Z.eqb_spec c 0) as [->|Hc0]; [destruct Hz as [Hz _]; specialize (Hz eq_refl); lia|].
      assert (Hfind : forall j y, l !! j = Some y -> (j < k)%nat -> 58 <> y).
      { intros j y Hy Hj <-. apply Hnin. apply list_elem_of_lookup. exists j. by rewrite lookup_take_lt. }
      destruct (Z.eqb_spec c 58) as [->|Hc58]; simpl.
      * assert (list_find (eq 58) l = Some (k, 58)) as ->; [|done]. apply list_find_Some. done.
      * split; [split; [done|]|lia]. exists (S k). split_and!; [lia|lia|].
        rewrite (take_S_r _ _ c) by done. rewrite elem_of_app, list_elem_of_singleton. intros [?|?]; [done|congruence].
    + apply lookup_ge_None in Ek. rewrite take_ge in Hnin by lia.
      assert (list_find (eq 58) l = None) as ->; [|done].
      apply list_find_None, Forall_forall. intros x Hx <-. done.
Qed.

Lemma get_device_host s path l :
  cstr_at (k_mem s) path l -> 58 ∉ l -> get_device path s = Ok (-1, path, 0) s.
Proof.
  intros Hc Hn. unfold get_device. rewrite (bind_Ok _ _ _ _ _ (colon_scan s path l Hc)).
  assert (list_find (eq 58) l = None) as ->; [|done].
  apply list_find_None, Forall_forall. intros x Hx <-. done.
Qed.

(* ------------------------------------------------------------------ *)
(** * Properties *)

(** A path without a colon belongs to the host: [vfs_open] in a valid access
    mode is exactly [host_open] of that path, and the path is not modified. *)
Theorem vfs_open_host s path flags l :
  cstr_at (k_mem s) path l -> 58 ∉ l -> Z.land flags MASK_FILEMODE <> 3 ->
  vfs_open path flags s = (kfd <- host_open path flags ;; ret (kfd, None)) s.
Proof.
  intros Hc Hn Hfl. unfold vfs_open.
  assert (Hmode : 0 <= Z.land flags MASK_FILEMODE < 4).
  { change MASK_FILEMODE with (Z.ones 2). rewrite Z.land_ones by lia. apply Z.mod_pos_bound. lia. }
  set (mode := Z.land flags MASK_FILEMODE) in *.
  assert ((mode =? O_RDONLY) || (mode =? O_WRONLY) || (mode =? O_RDWR) = true) as ->.
  { unfold O_RDONLY, O_WRONLY, O_RDWR. repeat (zcase; simpl; try done). lia. }
  cbn [negb]. rewrite (bind_Ok _ _ _ (-1, Some 0) s); [done|].
  unfold vfs_lookup. by rewrite (bind_Ok _ _ _ _ _ (get_device_host s path l Hc Hn)).
Qed.

(** Naming a device that is not mounted crashes the kernel: when the first
    device has another name and the second slot of [vdev_list] is empty, the
    search dereferences the null entry instead of reporting that the device does
    not exist. *)
Theorem unknown_device_faults s devname pdev rest l1 l2 :
  k_vdev_list s = pdev :: 0 :: rest -> page_ok pdev ->
  cstr_at (k_mem s) (load64 (k_mem s) (pdev + VDEV_devname)) l1 -> cstr_at (k_mem s) devname l2 -> l1 <> l2 ->
  vfs_get_root devname s = Stop (Fault 0) s.
Proof.
  intros Hv Hp H1 H2 Hne. unfold vfs_get_root.
  assert (E : find_device devname s = Stop (Fault 0) s).
  { unfold find_device. apply (kwhile_rule
      (fun x s' => s' = s /\ (x = (0%nat, 0) \/ x = (1%nat, pdev))) (fun x => 1 - Z.of_nat x.1)).
    - split; [done|by left].
    - simpl. lia.
    - intros x s' (-> & [-> | ->]).
      + cbn [Nat.ltb Nat.leb MAX_DEV]. erewrite bind_Ok; [|reflexivity]. rewrite Hv. cbn [lookup list_lookup default from_option].
        erewrite bind_Ok; [|apply ld64_ok, page_ok_addr; done].
        rewrite (bind_Ok _ _ _ _ _ (strcmp_spec s _ _ _ _ H1 H2)).
        rewrite (proj2 (Z.eqb_neq _ _)) by (rewrite strcmp_ref_zero by (eapply cstr_nonzero; (apply H1 || apply H2)); done).
        split; [split; [done|by right]|simpl; lia].
      + cbn [Nat.ltb Nat.leb MAX_DEV]. erewrite bind_Ok; [|reflexivity]. by rewrite Hv. }
  by rewrite (bind_Stop _ _ _ _ _ E).
Qed.
End Vfs.
(* ------------------------------------------------------------------ *)
(** * Witnesses *)

Lemma vfs_open_host_witness :
  vfs_open 0x80030100 2 (demo_host 7) = (kfd <- host_open 0x80030100 2 ;; ret (kfd, None)) (demo_host 7).
Proof.
  apply (vfs_open_host (demo_host 7) 0x80030100 2 [104; 105]); [apply demo_host_path| |done].
  apply (bool_decide_unpack _). by vm_compute.
Defined.

(** one device, named by the string at 0x80030000 *)
Definition demo_device : @kstate Demo.platform :=
  set_k_vdev_list (0x80040000 :: replicate 9 0)
    (set_k_mem (store64 (k_mem demo_strings) 0x80040000 0x80030000) demo_strings).
Lemma unknown_device_faults_witness :
  vfs_get_root 0x80030100 demo_device = Stop (Fault 0) demo_device.
Proof.
  apply (unknown_device_faults demo_device 0x80030100 0x80040000 (replicate 8 0) [32; 45; 52; 50] [104; 105]);
    [done|by vm_compute|apply cstr_check; by vm_compute|apply cstr_check; by vm_compute|done].
Defined.
