(* ===== verification/File.v ===== *)
(** kernel/file.c: the open-file table of a process.

    struct files_struct is 4112 bytes (a pointer, 128 entries of 32 bytes, an int)
    and is allocated as one page: its field [nfile] (offset 4104) and the inode of
    entry 127 lie in the page after it. *)

From S2P Require Import Prelude Machine Pmm StringC SpikeFile Dev Rfs Vfs.

(** enum in struct file *)
Definition FD_HOST : Z := 0.
Definition FD_NONE : Z := 1.
Definition FD_OPENED : Z := 2.
Definition FD_CLOSED : Z := 3.
(** struct files_struct *)
Definition PF_cwd : Z := 0.
Definition PF_ofile : Z := 8.
Definition PF_nfile : Z := 4104.
(** struct file *)
Definition FI_status : Z := 0.
Definition FI_readable : Z := 4.
Definition FI_writable : Z := 8.
Definition FI_fd : Z := 12.
Definition FI_off : Z := 16.
Definition FI_ref : Z := 20.
Definition FI_node : Z := 24.
Definition sizeof_file : Z := 32.

Section File.
Context {PLAT : Platform}.

(* ------------------------------------------------------------------ *)
(** * The code *)

Definition fs_init : K unit := dev_init ;;; rfs_init.

(** [&pfiles->ofile[fd]] *)
Definition ofile (pfiles fd : Z) : Z := u64 (pfiles + PF_ofile + sizeof_file * fd).

(** [current->f], faulting when there is no current process *)
Definition cur {A} (f : process -> A) : K A :=
  c <- gets k_current ;;
  match c with Some i => getp i f | None => halt (Fault 0) end.

(** [++pfiles->nfile] *)
Definition inc_nfile (pfiles : Z) : K unit :=
  n <- ld32 (pfiles + PF_nfile) ;; st32 (pfiles + PF_nfile) (u32 (n + 1)).

(** the search for a free entry; the last entry examined *)
Definition find_entry (pfiles : Z) : K Z :=
  kwhile (fun fd =>
    st <- ld32 (ofile pfiles fd + FI_status) ;;
    if st =? FD_NONE then ret (inr fd)
    else if fd + 1 <? Z.of_nat MAX_FILES then ret (inl (fd + 1))
    else panic "do_ram_open: no file entry for current process!") 0.

Definition do_open (pathname flags : Z) : K Z :=
  let mode := Z.land flags MASK_FILEMODE in
  let readable := if (mode =? O_RDONLY) || (mode =? O_RDWR) then 1 else 0 in
  let writable := if (mode =? O_WRONLY) || (mode =? O_RDWR) then 1 else 0 in
  if negb ((mode =? O_RDONLY) || (mode =? O_WRONLY) || (mode =? O_RDWR))
  then panic "do_ram_open: invalid open flags!"
  else
    r <- vfs_open pathname flags ;;
    pfiles <- cur p_pfiles ;;
    let '(rc, node) := r in
    pfile <-
      (if negb (rc =? 0) then
         let fd := rc in
         let pfile := ofile pfiles fd in
         st32 (pfile + FI_status) FD_HOST ;;;
         st32 (pfile + FI_fd) fd ;;;
         ret pfile
       else
         fd <- find_entry pfiles ;;
         let pfile := ofile pfiles fd in
         st32 (pfile + FI_status) FD_OPENED ;;;
         st32 (pfile + FI_readable) readable ;;;
         st32 (pfile + FI_writable) writable ;;;
         st32 (pfile + FI_fd) fd ;;;
         st32 (pfile + FI_ref) 1 ;;;
         match node with
         | None => halt (Fault 0)
         | Some node =>
             st64 (pfile + FI_node) node ;;;
             st32 (pfile + FI_off) 0 ;;;
             st <- vop_fstat node ;;
             if st.1 =? 0 then st32 (pfile + FI_off) (st_size st.2) ;;; ret pfile
             else panic "do_ram_open: failed to get file status!"
         end) ;;
    inc_nfile pfiles ;;;
    fd <- ld32 (pfile + FI_fd) ;;
    ret (s32 fd).

Definition do_read (fd buf count : Z) : K Z := ret (-1).
Definition do_write (fd buf count : Z) : K Z := ret (-1).
Definition do_close (fd : Z) : K Z := ret (-1).

(** one iteration of the first loop of files_create *)
Definition host_entry (pfiles : Z) (i : nat) : K unit :=
  f <- gets (fun s => default null_file (k_spike_files s !! i)) ;;
  if kfd f =? -1 then ret tt
  else
    let e := ofile pfiles (Z.of_nat i) in
    st32 (e + FI_status) FD_HOST ;;;
    st32 (e + FI_fd) (kfd f) ;;;
    st32 (e + FI_ref) (refcnt f) ;;;
    inc_nfile pfiles.
(** one iteration of the second loop *)
Definition none_entry (pfiles : Z) (i : nat) : K unit :=
  let e := ofile pfiles (Z.of_nat i) in
  st <- ld32 (e + FI_status) ;;
  if st =? FD_HOST then ret tt
  else st32 (e + FI_status) FD_NONE ;;; st32 (e + FI_ref) 0.

Definition files_create : K Z :=
  pfiles <- alloc_page ;;
  st64 (pfiles + PF_cwd) 0 ;;;
  st32 (pfiles + PF_nfile) 0 ;;;
  kfor (seq 0 MAX_FILES) (host_entry pfiles) ;;;
  kfor (seq 0 MAX_FILES) (none_entry pfiles) ;;;
  ret pfiles.

Definition files_destroy (pfiles : Z) : K unit := free_page pfiles.
(* ------------------------------------------------------------------ *)
(** * files_create *)

(** host files in use among the first [k] *)
Definition nopen (s : kstate) (k : nat) : nat :=
  length (filter (fun f => kfd f <> -1) (take k (k_spike_files s))).

Lemma nopen_S s k f :
  k_spike_files s !! k = Some f -> nopen s (S k) = (nopen s k + if decide (kfd f = (-1)%Z) then 0 else 1)%nat.
Proof.
  intros Hf. unfold nopen. rewrite (take_S_r _ _ f) by done. rewrite filter_app, filter_cons, length_app.
  repeat case_decide; done.
Qed.
Lemma nopen_bound s k : (nopen s k <= k)%nat.
Proof. unfold nopen. etrans; [apply length_filter|]. rewrite length_take. lia. Qed.

Lemma ofile_addr p (i : nat) o :
  page_ok p -> (i < MAX_FILES)%nat -> 0 <= o <= 20 -> o mod 4 = 0 ->
  addr_ok 4 (ofile p (Z.of_nat i) + o) = true /\ page_of (ofile p (Z.of_nat i) + o) = p /\
  (ofile p (Z.of_nat i) + o) mod 4 = 0.
Proof.
  intros Hp Hi Ho Ho4. pose proof (page_ok_range p Hp). unfold MAX_FILES in Hi.
  unfold ofile, PF_ofile, sizeof_file. rewrite u64_small by (unfold PGSIZE in *; lia).
  replace (p + 8 + 32 * Z.of_nat i + o) with (p + (8 + 32 * Z.of_nat i + o)) by lia.
  destruct Hp as (Hal & Hlo & Hhi). split_and!.
  - apply page_ok_addr; unfold page_ok, PGSIZE in *; try done; dlia.
  - apply page_of_slot; unfold page_ok, PGSIZE in *; try done; dlia.
  - unfold PGSIZE in *. dlia.
Qed.

(** writes of files_create: its own page, and the word of [nfile] *)
Definition files_frame (p : Z) (m m' : gmap Z Z) : Prop :=
  forall a, page_of a <> p -> a / 8 <> (p + PF_nfile) / 8 -> load64 m' a = load64 m a.
Lemma files_frame_trans p m1 m2 m3 : files_frame p m1 m2 -> files_frame p m2 m3 -> files_frame p m1 m3.
Proof. intros H1 H2 a Ha Hb. by rewrite H2, H1. Qed.

Lemma nfile_word p a : page_ok p -> page_of a = p -> (p + PF_nfile) / 8 <> a / 8.
Proof.
  intros (Hal & _ & _) Ha. apply page_of_iff in Ha; [|done]. unfold PF_nfile, PGSIZE in *. dlia.
Qed.
(** a 32-bit store inside the page *)
Lemma file_store p m a v :
  page_ok p -> page_of a = p -> a mod 4 = 0 ->
  files_frame p m (store32 m a v) /\ load32 (store32 m a v) (p + PF_nfile) = load32 m (p + PF_nfile).
Proof.
  intros Hp Ha H4. pose proof (nfile_word p a Hp Ha) as Hne. split.
  - intros b Hb _. apply load64_storen_ne. intros E%page_of_word. congruence.
  - unfold load32, store32, loadn. by rewrite load64_storen_ne by congruence.
Qed.

Lemma host_entry_spec p s (k : nat) n :
  page_ok p -> page_ok (p + PGSIZE) -> (k < MAX_FILES)%nat -> length (k_spike_files s) = MAX_FILES ->
  load32 (k_mem s) (p + PF_nfile) = Z.of_nat n -> (n < MAX_FILES)%nat ->
  exists m f, host_entry p k s = Ok tt (set_k_mem m s) /\ k_spike_files s !! k = Some f /\
    load32 m (p + PF_nfile) = Z.of_nat (n + if decide (kfd f = (-1)%Z) then 0 else 1) /\
    files_frame p (k_mem s) m.
Proof.
  intros Hp Hp2 Hk Hlen Hn Hnb. destruct (lookup_lt_is_Some_2 (k_spike_files s) k ltac:(lia)) as [f Hf].
  unfold host_entry. erewrite bind_Ok; [|reflexivity]. rewrite Hf. simpl (default _ _).
  destruct (Z.eqb_spec (kfd f) (-1)) as [E|E].
  { exists (k_mem s), f. rewrite decide_True, Nat.add_0_r by done. split_and!; try done. by destruct s. }
  destruct (ofile_addr p k FI_status) as (A1 & P1 & M1); try done.
  destruct (ofile_addr p k FI_fd) as (A2 & P2 & M2); try done.
  destruct (ofile_addr p k FI_ref) as (A3 & P3 & M3); try done.
  assert (An : addr_ok 4 (p + PF_nfile) = true).
  { replace (p + PF_nfile) with (p + PGSIZE + 8) by (unfold PF_nfile, PGSIZE; lia). by apply page_ok_addr. }
  assert (Fn : field_ok 32 (p + PF_nfile)).
  { apply field_ok_32. destruct Hp. unfold PF_nfile, PGSIZE in *. dlia. }
  rewrite (bind_Ok _ _ _ _ _ (st32_ok _ FD_HOST s A1)). set (m1 := store32 (k_mem s) _ _).
  destruct (file_store p (k_mem s) (ofile p (Z.of_nat k) + FI_status) FD_HOST) as [F1 N1]; try done. fold m1 in F1, N1.
  erewrite bind_Ok; [|apply st32_ok, A2]. cbn [k_mem set_k_mem]. set (m2 := store32 m1 _ _).
  destruct (file_store p m1 (ofile p (Z.of_nat k) + FI_fd) (kfd f)) as [F2 N2]; try done. fold m2 in F2, N2.
  erewrite bind_Ok; [|apply st32_ok, A3]. cbn [k_mem set_k_mem]. set (m3 := store32 m2 _ _).
  destruct (file_store p m2 (ofile p (Z.of_nat k) + FI_ref) (refcnt f)) as [F3 N3]; try done. fold m3 in F3, N3.
  unfold inc_nfile. erewrite bind_Ok; [|apply ld32_ok, An]. cbn [k_mem set_k_mem]. rewrite N3, N2, N1, Hn.
  rewrite st32_ok by done. cbn [k_mem set_k_mem].
  eexists _, f. split; [reflexivity|]. split_and!; [done| |].
  - unfold load32, store32. rewrite loadn_storen_eq by done. rewrite decide_False by done.
    unfold u32, MAX_FILES in *. rewrite Z.mod_mod by done. rewrite Z.mod_small by lia. lia.
  - do 3 (eapply files_frame_trans; [eassumption|]). intros a Ha Hb. by apply load64_storen_ne.
Qed.
Lemma none_entry_spec p s (k : nat) :
  page_ok p -> (k < MAX_FILES)%nat ->
  exists m, none_entry p k s = Ok tt (set_k_mem m s) /\
    load32 m (p + PF_nfile) = load32 (k_mem s) (p + PF_nfile) /\ files_frame p (k_mem s) m.
Proof.
  intros Hp Hk. destruct (ofile_addr p k FI_status) as (A1 & P1 & M1); try done.
  destruct (ofile_addr p k FI_ref) as (A3 & P3 & M3); try done.
  unfold none_entry. erewrite bind_Ok; [|apply ld32_ok, A1]. destruct (_ =? FD_HOST).
  { exists (k_mem s). split_and!; try done. by destruct s. }
  rewrite (bind_Ok _ _ _ _ _ (st32_ok _ FD_NONE s A1)). rewrite st32_ok by done. cbn [k_mem set_k_mem].
  destruct (file_store p (k_mem s) (ofile p (Z.of_nat k) + FI_status) FD_NONE) as [F1 N1]; try done.
  destruct (file_store p (store32 (k_mem s) (ofile p (Z.of_nat k) + FI_status) FD_NONE)
    (ofile p (Z.of_nat k) + FI_ref) 0) as [F3 N3]; try done.
  eexists. split; [reflexivity|]. split; [by rewrite N3, N1|by eapply files_frame_trans].
Qed.

(** a loop over [seq 0 n] that only changes memory *)
Lemma kfor_mem (I : nat -> gmap Z Z -> Prop) (f : nat -> K unit) s n :
  I 0%nat (k_mem s) ->
  (forall k m, (k < n)%nat -> I k m -> exists m', f k (set_k_mem m s) = Ok tt (set_k_mem m' (set_k_mem m s)) /\ I (S k) m') ->
  exists m', kfor (seq 0 n) f s = Ok tt (set_k_mem m' s) /\ I n m'.
Proof.
  intros H0 Hstep.
  destruct (kfor_inv (fun l s' => exists k m, l = seq k (n - k) /\ (k <= n)%nat /\ s' = set_k_mem m s /\ I k m)
    (seq 0 n) f s) as (s' & E & k & m & Hl & Hk & -> & HI).
  - exists 0%nat, (k_mem s). rewrite Nat.sub_0_r. split_and!; [done|lia|by destruct s|done].
  - intros i l' s1 (k & m & Hl & Hk & -> & HI). destruct (n - k)%nat as [|d] eqn:Hd; [done|].
    simpl in Hl. injection Hl as -> ->. destruct (Hstep k m ltac:(lia) HI) as (m' & E & HI').
    exists (set_k_mem m' s). split; [done|]. exists (S k), m'. split_and!; [|lia|done|done].
    f_equal. lia.
  - destruct (n - k)%nat eqn:Hd; [|done]. assert (k = n) as -> by lia. exists m. done.
Qed.

Lemma files_create_spec s p l :
  free_pages s (p :: l) -> page_ok (p + PGSIZE) -> length (k_spike_files s) = MAX_FILES ->
  exists s', files_create s = Ok p s' /\ kframe s s' /\
    load32 (k_mem s') (p + PF_nfile) = Z.of_nat (nopen s MAX_FILES) /\ files_frame p (k_mem s) (k_mem s').
Proof.
  intros Hf Hp2 Hlen. destruct (pa_pages _ _ Hf) as [_ Hoks]. inversion Hoks as [|? ? Hp _]; subst.
  destruct (pa_alloc _ _ _ Hf) as (s1 & E1 & _ & Hk1 & Hm1).
  assert (Hlen1 : k_spike_files s1 = k_spike_files s) by (apply (f_equal k_spike_files) in Hk1; done).
  assert (An : addr_ok 4 (p + PF_nfile) = true).
  { replace (p + PF_nfile) with (p + PGSIZE + 8) by (unfold PF_nfile, PGSIZE; lia). by apply page_ok_addr. }
  assert (Fn : field_ok 32 (p + PF_nfile)).
  { apply field_ok_32. destruct Hp. unfold PF_nfile, PGSIZE in *. dlia. }
  assert (A0 : addr_ok 8 (p + PF_cwd) = true) by by apply page_ok_addr.
  set (m2 := store32 (store64 (k_mem s1) (p + PF_cwd) 0) (p + PF_nfile) 0). set (s2 := set_k_mem m2 s1).
  assert (Hf2 : files_frame p (k_mem s) m2).
  { intros a Ha Hb. unfold m2, store32. rewrite load64_storen_ne by done. rewrite <- Hm1. apply load64_store64_ne.
    intros E%page_of_word. unfold PF_cwd in E. rewrite Z.add_0_r, page_of_page in E by done. congruence. }
  destruct (kfor_mem (fun k m => load32 m (p + PF_nfile) = Z.of_nat (nopen s k) /\ files_frame p (k_mem s) m)
    (host_entry p) s2 MAX_FILES) as (m3 & E3 & Hn3 & Hf3).
  { split; [|done]. unfold load32. cbn [k_mem set_k_mem s2]. unfold m2, store32. by rewrite loadn_storen_eq. }
  { intros k m Hk [Hn Hfr]. destruct (host_entry_spec p (set_k_mem m s2) k (nopen s k)) as (m' & f & E & Hl & Hn' & Hfr'); try done.
    - by rewrite <- Hlen, <- Hlen1.
    - pose proof (nopen_bound s k). lia.
    - exists m'. split; [done|]. split; [|by eapply files_frame_trans].
      rewrite Hn', (nopen_S s k f); [done|]. rewrite <- Hlen1. exact Hl. }
  destruct (kfor_mem (fun k m => load32 m (p + PF_nfile) = Z.of_nat (nopen s MAX_FILES) /\ files_frame p (k_mem s) m)
    (none_entry p) (set_k_mem m3 s2) MAX_FILES) as (m4 & E4 & Hn4 & Hf4); [done| |].
  { intros k m Hk [Hn Hfr]. destruct (none_entry_spec p (set_k_mem m (set_k_mem m3 s2)) k Hp Hk) as (m' & E & Hn' & Hfr').
    exists m'. split; [done|]. split; [by rewrite Hn'|by eapply files_frame_trans]. }
  exists (set_k_mem m4 s1). split_and!; [|etrans; [done|apply kframe_mem]|done|done].
  unfold files_create. rewrite (bind_Ok _ _ _ _ _ E1), (bind_Ok _ _ _ _ _ (st64_ok _ _ _ A0)).
  erewrite bind_Ok; [|apply st32_ok, An]. change (set_k_mem (store32 _ _ 0) _) with s2.
  by rewrite (bind_Ok _ _ _ _ _ E3), (bind_Ok _ _ _ _ _ E4).
Qed.

(* ------------------------------------------------------------------ *)
(** * Properties *)

(** C39. [files_create] writes outside its page: struct files_struct is larger
    than a page, so the count of open host files is stored in the second word of
    the next physical page, and this is the only word changed outside the
    allocated page.  When that page holds a page table, entry 1 is overwritten;
    with the three standard files open its low half becomes 3, a valid readable
    entry. *)
Theorem files_create_overflows s p l :
  free_pages s (p :: l) -> page_ok (p + PGSIZE) -> length (k_spike_files s) = MAX_FILES ->
  exists s', files_create s = Ok p s' /\
    load32 (k_mem s') (p + PGSIZE + 8) = Z.of_nat (nopen s MAX_FILES) /\
    (forall a, page_of a <> p -> a / 8 <> (p + PGSIZE + 8) / 8 -> load64 (k_mem s') a = load64 (k_mem s) a).
Proof.
  intros Hf Hp2 Hlen. destruct (files_create_spec s p l Hf Hp2 Hlen) as (s' & E & _ & Hn & Hfr).
  exists s'. unfold files_frame in Hfr. replace (p + PF_nfile) with (p + PGSIZE + 8) in * by (unfold PF_nfile, PGSIZE; lia).
  done.
Qed.

(** [open] refuses invalid access modes before looking anything up. *)
Theorem do_open_invalid_flags s pathname flags :
  Z.land flags MASK_FILEMODE = 3 ->
  do_open pathname flags s = Stop (Panic "do_ram_open: invalid open flags!") s.
Proof. intros H. unfold do_open. by rewrite H. Qed.
End File.
(* ------------------------------------------------------------------ *)
(** * Witnesses *)

(** one free page at 0x80021000, three host files open *)
Definition demo_files : @kstate Demo.platform :=
  set_k_spike_files ([mkSpikeFile 0 4; mkSpikeFile 1 4; mkSpikeFile 2 4] ++ replicate 125 (mkSpikeFile (-1) 0)) demo_pool.
Lemma files_create_overflows_witness :
  exists s', files_create demo_files = Ok 0x80021000 s' /\ load32 (k_mem s') 0x80022008 = 3.
Proof.
  destruct (files_create_overflows demo_files 0x80021000 []) as (s' & E & Hn & _).
  - split_and!; [by vm_compute|apply NoDup_singleton|by repeat constructor].
  - by vm_compute.
  - done.
  - exists s'. split; [exact E|exact Hn].
Defined.
