(* ===== verification/Mount.v ===== *)
(** Formatting and mounting of the RAM file system (kernel/rfs.c): what
    rfs_do_mount leaves on the RAM disk, and that rfs_get_root reads the root
    directory back from it. *)

From S2P Require Import Prelude Machine Pmm StringC Dev Rfs Vfs File.

Section Mount.
Context {PLAT : Platform}.

(* ------------------------------------------------------------------ *)
(** * Fields and pages *)

Lemma load32_store32_ne m a b v : a mod 4 = 0 -> b mod 4 = 0 -> a <> b -> load32 (store32 m a v) b = load32 m b.
Proof. intros Ha Hb Hne. apply loadn_storen_ne; [by apply field_ok_32..|]. unfold bit_off. dlia. Qed.
(** a copied page has the same fields *)
Lemma page_copied_loadn m m' dst src n o :
  page_copied m m' dst src -> dst mod PGSIZE = 0 -> src mod PGSIZE = 0 -> 0 <= o < PGSIZE ->
  loadn n m' (dst + o) = loadn n m (src + o).
Proof.
  intros [_ Hc] Hd Hs Ho. specialize (Hc (o / 8)). unfold PGSIZE in *. specialize (Hc ltac:(dlia)). unfold loadn.
  rewrite (load64_align m'), (load64_align m). replace (8 * ((dst + o) / 8)) with (dst + 8 * (o / 8)) by dlia.
  replace (8 * ((src + o) / 8)) with (src + 8 * (o / 8)) by dlia. rewrite Hc. f_equal. unfold bit_off. dlia.
Qed.
Lemma st32_page p o v s :
  page_ok p -> 0 <= o -> o + 4 <= PGSIZE -> o mod 4 = 0 -> st32 (p + o) v s = Ok tt (set_k_mem (store32 (k_mem s) (p + o) v) s).
Proof. intros. apply st32_ok, page_ok_addr; done. Qed.
Lemma st64_page p o v s :
  page_ok p -> 0 <= o -> o + 8 <= PGSIZE -> o mod 8 = 0 -> st64 (p + o) v s = Ok tt (set_k_mem (store64 (k_mem s) (p + o) v) s).
Proof. intros. apply st64_ok, page_ok_addr; done. Qed.
Lemma ld64_page p o s :
  page_ok p -> 0 <= o -> o + 8 <= PGSIZE -> o mod 8 = 0 -> ld64 (p + o) s = Ok (load64 (k_mem s) (p + o)) s.
Proof. intros. apply ld64_ok, page_ok_addr; done. Qed.
Lemma ld32_page p o s :
  page_ok p -> 0 <= o -> o + 4 <= PGSIZE -> o mod 4 = 0 -> ld32 (p + o) s = Ok (load32 (k_mem s) (p + o)) s.
Proof. intros. apply ld32_ok, page_ok_addr; done. Qed.

(* ------------------------------------------------------------------ *)
(** * rfs_create_inode *)

(** the fields of a dinode, in the copy made of it *)
Record dinode_copy (m m' : gmap Z Z) (din node : Z) : Prop := {
  dc_head o : o ∈ [DI_size; DI_type; DI_nlinks; DI_blocks] -> load32 m' (node + o) = load32 m (din + o);
  dc_addrs i : 0 <= i < RFS_NDIRECT -> load64 m' (node + DI_addrs + 8 * i) = load64 m (din + DI_addrs + 8 * i)
}.
Lemma copy_head din node s :
  page_ok din -> page_ok node -> din <> node ->
  exists m, kfor [DI_size; DI_type; DI_nlinks; DI_blocks] (fun o => v <- ld32 (din + o) ;; st32 (node + o) v) s = Ok tt (set_k_mem m s) /\
    same_outside {[node]} (k_mem s) m /\ (forall o, o ∈ [DI_size; DI_type; DI_nlinks; DI_blocks] -> load32 m (node + o) = load32 (k_mem s) (din + o)) /\
    (forall o, DI_addrs <= o -> load64 m (node + o) = load64 (k_mem s) (node + o)).
Proof.
  intros Hd Hn Hne. assert (Hal : node mod 8 = 0) by (destruct Hn; unfold PGSIZE in *; dlia).
  destruct (kfor_inv (fun L s' => exists D m, [DI_size; DI_type; DI_nlinks; DI_blocks] = D ++ L /\ s' = set_k_mem m s /\ same_outside {[node]} (k_mem s) m /\
      (forall o, o ∈ D -> load32 m (node + o) = load32 (k_mem s) (din + o)) /\
      (forall o, DI_addrs <= o -> load64 m (node + o) = load64 (k_mem s) (node + o))) [DI_size; DI_type; DI_nlinks; DI_blocks]
    (fun o => v <- ld32 (din + o) ;; st32 (node + o) v) s) as (s' & E & D & m & HD & -> & Ho & HI & HF).
  - exists [], (k_mem s). split_and!; [done|by destruct s|done|intros o Ho; set_solver|done].
  - intros o L s1 (D & m & HD & -> & Ho & HI & HF). assert (Hin : o ∈ [DI_size; DI_type; DI_nlinks; DI_blocks]) by (rewrite HD; set_solver).
    assert (Hdist : o ∉ D).
    { assert (Hnd : NoDup [DI_size; DI_type; DI_nlinks; DI_blocks]) by (by apply (bool_decide_unpack _)). rewrite HD in Hnd. apply NoDup_app in Hnd as (_ & H1 & _). intros HoD. apply (H1 o HoD). set_solver. }
    assert (Hsub : forall o', o' ∈ o :: D -> o' mod 4 = 0 /\ 0 <= o' < 16).
    { intros o' Ho'. assert (Hin' : o' ∈ [DI_size; DI_type; DI_nlinks; DI_blocks]) by (rewrite HD; set_solver).
      unfold DI_size, DI_type, DI_nlinks, DI_blocks in Hin'. rewrite !elem_of_cons, elem_of_nil in Hin'. dlia. }
    destruct (Hsub o ltac:(set_solver)) as [Ho4 Ho16].
    exists (set_k_mem (store32 m (node + o) (load32 (k_mem s) (din + o))) s). split.
    { erewrite bind_Ok; [|apply ld32_page; (done || (unfold PGSIZE; lia))]. cbn [k_mem set_k_mem]. rewrite st32_page by (done || (unfold PGSIZE; lia)).
      unfold load32. rewrite (outside_loadn {[node]} (k_mem s)); [by destruct s|done|]. rewrite page_of_slot by (done || (unfold PGSIZE; lia)). set_solver. }
    exists (D ++ [o]), (store32 m (node + o) (load32 (k_mem s) (din + o))). split_and!; [by rewrite HD, <- app_assoc|done| | |].
    + etrans; [exact Ho|]. eapply same_outside_mono; [|apply storen_outside]. by rewrite page_of_slot by (done || (unfold PGSIZE; lia)).
    + intros o' [Ho'| ->%list_elem_of_singleton]%elem_of_app.
      * destruct (Hsub o' ltac:(set_solver)). assert (o' <> o) by (intros ->; done).
        rewrite load32_store32_ne by dlia. by apply HI.
      * unfold load32 at 1, store32. rewrite loadn_storen_eq by (apply field_ok_32; dlia). apply Z.mod_small. by apply (get_field_range _ _ 32).
    + intros o' Ho'. unfold store32, DI_addrs in *. rewrite load64_storen_ne by dlia. by apply HF.
  - rewrite app_nil_r in HD. subst D. by exists m.
Qed.
Lemma copy_addrs din node s :
  page_ok din -> page_ok node -> din <> node ->
  exists m, kfor (seq 0 (Z.to_nat RFS_NDIRECT)) (fun i => v <- ld64 (din + DI_addrs + 8 * Z.of_nat i) ;; st64 (node + DI_addrs + 8 * Z.of_nat i) v) s = Ok tt (set_k_mem m s) /\
    same_outside {[node]} (k_mem s) m /\ (forall i, 0 <= i < RFS_NDIRECT -> load64 m (node + DI_addrs + 8 * i) = load64 (k_mem s) (din + DI_addrs + 8 * i)) /\
    (forall o, 0 <= o < DI_addrs \/ IN_type <= o -> load64 m (node + o) = load64 (k_mem s) (node + o)).
Proof.
  intros Hd Hn Hne. assert (Hal : node mod 8 = 0) by (destruct Hn; unfold PGSIZE in *; dlia).
  destruct (kfor_mem (fun k m => same_outside {[node]} (k_mem s) m /\
      (forall i, 0 <= i < Z.of_nat k -> load64 m (node + DI_addrs + 8 * i) = load64 (k_mem s) (din + DI_addrs + 8 * i)) /\
      (forall o, 0 <= o < DI_addrs \/ IN_type <= o -> load64 m (node + o) = load64 (k_mem s) (node + o)))
    (fun i => v <- ld64 (din + DI_addrs + 8 * Z.of_nat i) ;; st64 (node + DI_addrs + 8 * Z.of_nat i) v) s (Z.to_nat RFS_NDIRECT)) as (m & E & H1 & H2 & H3).
  - split_and!; [done|intros; lia|done].
  - intros k m Hk (Ho & Hc & Hr). change (Z.to_nat RFS_NDIRECT) with 10%nat in Hk.
    assert (Hv : load64 m (din + DI_addrs + 8 * Z.of_nat k) = load64 (k_mem s) (din + DI_addrs + 8 * Z.of_nat k)).
    { apply Ho. rewrite <- Z.add_assoc, page_of_slot by (done || (unfold DI_addrs, PGSIZE; lia)). set_solver. }
    eexists. split.
    { rewrite <- !Z.add_assoc. erewrite bind_Ok; [|apply ld64_page; (done || unfold DI_addrs, PGSIZE; dlia)]. cbn [k_mem set_k_mem].
      rewrite !Z.add_assoc, Hv, <- Z.add_assoc. rewrite st64_page by (done || unfold DI_addrs, PGSIZE; dlia). done. }
    cbn [k_mem set_k_mem]. split_and!.
    + etrans; [exact Ho|]. eapply same_outside_mono; [|apply store64_outside]. by rewrite page_of_slot by (done || (unfold DI_addrs, PGSIZE; lia)).
    + intros i Hi. rewrite Z.add_assoc. destruct (decide (i = Z.of_nat k)) as [->|Hik].
      * rewrite load64_store64_eq. apply u64_small, load64_range.
      * rewrite load64_store64_ne by dlia. apply Hc. lia.
    + intros o Hr'. rewrite load64_store64_ne by (unfold DI_addrs, IN_type in *; dlia). by apply Hr.
  - exists m. split_and!; [done|done| |done]. intros i Hi. by apply H2.
Qed.
(** the fields of struct inode that are not in the dinode *)
Record inode_at (m : gmap Z Z) (node ino prfs : Z) (ops : string) : Prop := {
  ia_type : load32 m (node + IN_type) = RFS_TYPE;
  ia_inum : load32 m (node + IN_inum) = ino;
  ia_ref : load32 m (node + IN_ref) = 0;
  ia_fs : load64 m (node + IN_fs) = prfs;
  ia_ops : load64 m (node + IN_ops) = u64 (link_addr ops)
}.
Definition ops_name (type : Z) : string := if type =? T_DIR then "rfs_node_dirops" else "rfs_node_fileops".
Lemma rfs_get_ops_ok type s : type = T_DIR \/ type = T_FILE -> rfs_get_ops type s = Ok (link_addr (ops_name type)) s.
Proof. by intros [-> | ->]. Qed.

(** the stores that follow the copy of the dinode *)
Lemma inode_stores m node ino prfs ops :
  page_ok node -> 0 <= ino < 2 ^ 32 -> 0 <= prfs < 2 ^ 64 -> load32 m (node + IN_type) = RFS_TYPE ->
  let m' := store64 (store32 (store32 m (node + IN_inum) ino) (node + IN_ref) 0) (node + IN_fs) prfs in
  let m2 := store64 m' (node + IN_ops) (link_addr ops) in
  inode_at m2 node ino prfs ops /\ same_outside {[node]} m m2 /\
  (forall o, 0 <= o < IN_type -> load64 m' (node + o) = load64 m (node + o) /\ load64 m2 (node + o) = load64 m (node + o)).
Proof.
  intros Hn Hino Hprfs Hty m' m2. assert (Hal : node mod 8 = 0) by (destruct Hn; unfold PGSIZE in *; dlia).
  split_and!; [split|..].
  - rewrite <- Hty. unfold m2, m', store32, load32, IN_type, IN_inum, IN_ref, IN_fs, IN_ops. rewrite !loadn_store64_ne by dlia.
    by rewrite !loadn_storen_ne by (try (apply field_ok_32; dlia); unfold bit_off; dlia).
  - unfold m2, m', load32, IN_inum, IN_ref, IN_fs, IN_ops. rewrite !loadn_store64_ne by dlia. fold (load32 (store32 (store32 m (node + 100) ino) (node + 104) 0) (node + 100)).
    rewrite load32_store32_ne by dlia. unfold load32, store32. rewrite loadn_storen_eq by (apply field_ok_32; dlia). by apply Z.mod_small.
  - unfold m2, m', store32, load32, IN_ref, IN_fs, IN_ops. rewrite !loadn_store64_ne by dlia. by rewrite loadn_storen_eq by (apply field_ok_32; dlia).
  - unfold m2, m', IN_fs, IN_ops. rewrite load64_store64_ne, load64_store64_eq by dlia. by apply u64_small.
  - unfold m2. by rewrite load64_store64_eq.
  - unfold m2, m'. do 2 (etrans; [|eapply same_outside_mono; [|apply store64_outside]; rewrite page_of_slot by done; done]).
    do 2 (etrans; [|eapply same_outside_mono; [|apply storen_outside]; rewrite page_of_slot by done; done]). done.
  - intros o Ho. assert (E : load64 m' (node + o) = load64 m (node + o)).
    { unfold m', store32, IN_type, IN_inum, IN_ref, IN_fs in *. by rewrite load64_store64_ne, !load64_storen_ne by dlia. }
    split; [done|]. rewrite <- E. unfold m2, IN_type, IN_ops in *. by rewrite load64_store64_ne by dlia.
Qed.
Lemma create_inode prfs din ino type s node l :
  page_ok din -> din <> node -> 0 <= ino < 2 ^ 32 -> 0 <= prfs < 2 ^ 64 -> load32 (k_mem s) (din + DI_type) = type -> type = T_DIR \/ type = T_FILE ->
  free_pages s (node :: l) ->
  exists s', rfs_create_inode prfs din ino s = Ok (0, node) s' /\ free_pages s' l /\ kframe s s' /\ same_outside {[node]} (k_mem s) (k_mem s') /\
    dinode_copy (k_mem s) (k_mem s') din node /\ inode_at (k_mem s') node ino prfs (ops_name type).
Proof.
  intros Hd Hne Hino Hprfs Hty Hdt Hf. destruct (pa_pages _ _ Hf) as [[Hnl _]%NoDup_cons [Hn _]%Forall_cons].
  assert (Hal : node mod 8 = 0) by (destruct Hn; unfold PGSIZE in *; dlia).
  destruct (pa_alloc _ _ _ Hf) as (s1 & E1 & Hf1 & Hk1 & Hm1).
  assert (Hdin : forall o, 0 <= o < PGSIZE -> page_of (din + o) ∉ ({[node]} : gset Z)) by (intros; rewrite page_of_slot by done; set_solver).
  set (m1 := store32 (k_mem s) (node + IN_type) RFS_TYPE).
  assert (Ho1 : same_outside {[node]} (k_mem s) m1) by (eapply same_outside_mono; [|apply storen_outside]; by rewrite page_of_slot).
  destruct (copy_head din node (set_k_mem m1 s1) Hd Hn Hne) as (m2 & E2 & Ho2 & Hh2 & Hf2).
  destruct (copy_addrs din node (set_k_mem m2 s1) Hd Hn Hne) as (m3 & E3 & Ho3 & Ha3 & Hr3). cbn [k_mem set_k_mem] in *.
  assert (Ht3 : load32 m3 (node + IN_type) = RFS_TYPE).
  { unfold load32, loadn. rewrite Hr3, Hf2 by (unfold IN_type, DI_addrs; lia). change (load32 m1 (node + IN_type) = RFS_TYPE).
    unfold m1, load32, store32. by rewrite loadn_storen_eq by (apply field_ok_32; unfold IN_type; dlia). }
  destruct (inode_stores m3 node ino prfs (ops_name type) Hn Hino Hprfs Ht3) as (Hia & Ho5 & Hlow).
  set (m4 := store64 (store32 (store32 m3 (node + IN_inum) ino) (node + IN_ref) 0) (node + IN_fs) prfs) in *.
  set (m5 := store64 m4 (node + IN_ops) (link_addr (ops_name type))) in *.
  assert (Hos : same_outside {[node]} (k_mem s) m5) by (etrans; [exact Ho1|]; etrans; [exact Ho2|]; etrans; [exact Ho3|exact Ho5]).
  assert (Hhead : forall o, o ∈ [DI_size; DI_type; DI_nlinks; DI_blocks] -> 0 <= o < DI_addrs /\ load32 m3 (node + o) = load32 (k_mem s) (din + o)).
  { intros o Ho. assert (Hr : 0 <= o < DI_addrs) by (unfold DI_size, DI_type, DI_nlinks, DI_blocks, DI_addrs in *; rewrite !elem_of_cons, elem_of_nil in Ho; lia).
    split; [done|]. transitivity (load32 m2 (node + o)); [unfold load32, loadn; by rewrite Hr3 by auto|]. rewrite Hh2 by done.
    unfold load32. apply (outside_loadn {[node]}); [done|]. apply Hdin. unfold DI_addrs, PGSIZE in *. lia. }
  exists (set_k_mem m5 s1). split_and!; [|apply (pa_write s1 _ m5 {[node]}); [done|by rewrite Hm1|set_solver]|exact Hk1|exact Hos|split|exact Hia]; cbn [k_mem set_k_mem].
  - unfold rfs_create_inode, alloc_inode. rewrite bind_assoc, (bind_Ok _ _ _ _ _ E1), bind_assoc. erewrite bind_Ok; [|by apply st32_page]. rewrite bind_ret, Hm1. fold m1.
    rewrite (bind_Ok _ _ _ _ _ E2). change (set_k_mem m2 _) with (set_k_mem m2 s1). rewrite (bind_Ok _ _ _ _ _ E3). do 2 (erewrite bind_Ok; [|by apply st32_page]). erewrite bind_Ok; [|by apply st64_page].
    cbn [k_mem set_k_mem]. fold m4. erewrite bind_Ok; [|by apply ld32_page]. cbn [k_mem set_k_mem].
    assert (Ht : load32 m4 (node + DI_type) = type).
    { rewrite <- Hty, <- (proj2 (Hhead DI_type ltac:(set_solver))). unfold load32, loadn. by rewrite (proj1 (Hlow DI_type ltac:(done))). }
    rewrite Ht. replace (s32 type) with type by (by destruct Hdt as [-> | ->]).
    rewrite (bind_Ok _ _ _ _ _ (rfs_get_ops_ok type _ Hdt)). erewrite bind_Ok; [|by apply st64_page]. done.
  - intros o Ho. destruct (Hhead o Ho) as [Hr <-]. unfold load32, loadn. by rewrite (proj2 (Hlow o ltac:(unfold DI_addrs, IN_type in *; lia))).
  - intros i Hi. rewrite <- Z.add_assoc. assert (Hr : 0 <= DI_addrs + 8 * i < IN_type) by (unfold RFS_NDIRECT, DI_addrs, IN_type in *; lia).
    rewrite (proj2 (Hlow _ Hr)), Z.add_assoc, Ha3 by done. rewrite <- Z.add_assoc, Ho2, Ho1; [done|..]; apply Hdin; unfold PGSIZE, IN_type in *; lia.
Qed.
(* ------------------------------------------------------------------ *)
(** * The mounted device *)

Section Disk.
Variables (base dev fs buf fm pfs : Z).
Let blk (b : Z) : Z := disk_block base b.

(** the disk, the device structure, the three pages of the file system, and
    the word that receives its address *)
Record mount_pages : Prop := {
  mp_disk : disk_ok base;
  mp_dev : page_ok dev;
  mp_fs : page_ok fs;
  mp_buf : page_ok buf;
  mp_fm : page_ok fm;
  mp_sep : NoDup [dev; fs; buf; fm];
  mp_off b : 0 <= b < RAMDISK0_BLOCK -> blk b ∉ [dev; fs; buf; fm];
  (** the string literals of the kernel are below the memory pages are taken from *)
  mp_low p : p ∈ [base; fs; buf; fm] -> link_addr "/" + 2 <= p;
  mp_pfs : addr_ok 8 pfs = true;
  mp_pfs_sep : page_of pfs ∉ [dev; fs; buf; fm];
  mp_pfs_off b : 0 <= b < RAMDISK0_BLOCK -> page_of pfs <> blk b
}.
Hypothesis Hmp : mount_pages.

(** the pointers through which a block is transferred *)
Record env (m : gmap Z Z) : Prop := {
  en_dev : load64 m (fs + RFS_dev) = dev;
  en_buf : load64 m (fs + RFS_buffer) = buf;
  en_in : load64 m (dev + DEV_input) = u64 (link_addr "ramdisk0_input");
  en_out : load64 m (dev + DEV_output) = u64 (link_addr "ramdisk0_output")
}.

Lemma in_page p o : page_ok p -> 0 <= o < PGSIZE -> page_of (p + o) = p.
Proof. apply page_of_slot. Qed.
Lemma env_outside p m m' : same_outside {[p]} m m' -> p <> fs -> p <> dev -> env m -> env m'.
Proof.
  intros Ho H1 H2 []. destruct Hmp. split; rewrite Ho; try done;
    rewrite in_page by (done || (unfold RFS_dev, RFS_buffer, DEV_input, DEV_output, PGSIZE; lia)); set_solver.
Qed.
(** pages that differ *)
Lemma seps : fs <> dev /\ buf <> fs /\ buf <> dev /\ fm <> fs /\ fm <> dev /\ fm <> buf /\
  forall b, 0 <= b < RAMDISK0_BLOCK -> blk b <> fs /\ blk b <> dev /\ blk b <> buf /\ blk b <> fm.
Proof.
  destruct Hmp as [_ _ _ _ _ Hnd Hoff _ _ _ _]. rewrite !NoDup_cons, !elem_of_cons in Hnd. destruct Hnd as (H1 & H2 & H3 & _).
  split_and!; try (intros ->; tauto). intros b Hb. specialize (Hoff b Hb). rewrite !elem_of_cons in Hoff.
  split_and!; intros E; rewrite E in Hoff; tauto.
Qed.

Lemma w1block s b site :
  env (k_mem s) -> k_ramdisk0_base s = base -> 0 <= b < RAMDISK0_BLOCK ->
  exists m, check (rfs_w1block fs b) site s = Ok tt (set_k_mem m s) /\ page_copied (k_mem s) m (blk b) buf /\ env m.
Proof.
  intros He Hb Hr. pose proof He as []. destruct Hmp. destruct seps as (_ & _ & _ & _ & _ & _ & Hs). destruct (Hs b Hr) as (S1 & S2 & S3 & _).
  destruct (ramdisk0_input_spec s buf b) as (m & E & Hc); [by rewrite Hb|done|done|by rewrite Hb|]. rewrite Hb in Hc.
  exists m. split_and!; [|done|by apply (env_outside (blk b) (k_mem s)); [apply Hc|..]].
  unfold check, rfs_w1block. rewrite bind_assoc.
  rewrite (bind_Ok _ _ _ _ _ (ld64_ok _ s (page_ok_addr fs RFS_dev 8 mp_fs0 ltac:(done) ltac:(done) ltac:(done) ltac:(done) ltac:(done)))), bind_assoc.
  rewrite (bind_Ok _ _ _ _ _ (ld64_ok _ s (page_ok_addr fs RFS_buffer 8 mp_fs0 ltac:(done) ltac:(done) ltac:(done) ltac:(done) ltac:(done)))).
  rewrite en_dev0, en_buf0. unfold dop_input. rewrite bind_assoc.
  rewrite (bind_Ok _ _ _ _ _ (ld64_ok _ s (page_ok_addr dev DEV_input 8 mp_dev0 ltac:(done) ltac:(done) ltac:(done) ltac:(done) ltac:(done)))).
  rewrite en_in0, Z.eqb_refl. by rewrite (bind_Ok _ _ _ _ _ E).
Qed.
(** memory changed only in the pages of the file system and in the blocks [bs] *)
Definition wrote (bs : list Z) (m m' : gmap Z Z) : Prop := forall a,
  page_of a ∉ [fs; buf; fm] -> (forall b, b ∈ bs -> page_of a <> blk b) -> load64 m' a = load64 m a.
Lemma wrote_app bs bs' m1 m2 m3 : wrote bs m1 m2 -> wrote bs' m2 m3 -> wrote (bs ++ bs') m1 m3.
Proof. intros H1 H2 a Ha Hb. rewrite H2, H1; [done|done|..|done|]; intros b Hin; apply Hb; set_solver. Qed.
Lemma wrote_page bs p m m' : same_outside {[p]} m m' -> p ∈ [fs; buf; fm] -> wrote bs m m'.
Proof. intros Ho Hp a Ha _. apply Ho. intros E%elem_of_singleton. by rewrite E in Ha. Qed.
Lemma wrote_blk b m m' : page_copied m m' (blk b) buf -> wrote [b] m m'.
Proof. intros [Ho _] a _ Hb. apply Ho. intros E%elem_of_singleton. by apply (Hb b); [set_solver|]. Qed.
(** a block that was not written keeps its contents *)
Definition keeps (b : Z) (m m' : gmap Z Z) : Prop := forall o, 0 <= o < PGSIZE -> load64 m' (blk b + o) = load64 m (blk b + o).
Lemma keeps_loadn b m m' n o : keeps b m m' -> 0 <= o < PGSIZE -> loadn n m' (blk b + o) = loadn n m (blk b + o).
Proof. intros H Ho. unfold loadn. by rewrite H. Qed.
Lemma wrote_keeps bs m m' b : wrote bs m m' -> 0 <= b < RAMDISK0_BLOCK -> b ∉ bs -> keeps b m m'.
Proof.
  intros Hw Hb Hn o Ho. apply Hw; rewrite in_page by (done || by apply disk_block_ok, Hb; apply Hmp).
  - rewrite !elem_of_cons, elem_of_nil. destruct seps as (_ & _ & _ & _ & _ & _ & Hs). destruct (Hs b Hb). tauto.
  - intros c Hc. assert (b <> c) by (intros ->; done). unfold blk, disk_block, PGSIZE. lia.
Qed.
Lemma outside_keeps p m m' b : same_outside {[p]} m m' -> 0 <= b < RAMDISK0_BLOCK -> p <> blk b -> keeps b m m'.
Proof. intros H Hb Hp o Ho. apply H. rewrite in_page by (done || by apply disk_block_ok, Hb; apply Hmp). set_solver. Qed.
(** what a block holds after it was written from the buffer *)
Lemma block_field m m' b n o :
  page_copied m m' (blk b) buf -> 0 <= b < RAMDISK0_BLOCK -> 0 <= o < PGSIZE -> loadn n m' (blk b + o) = loadn n m (buf + o).
Proof. intros Hc Hb Ho. eapply page_copied_loadn; [done|by apply disk_block_ok, Hb; apply Hmp|apply Hmp|done]. Qed.

(** ** The superblock *)
Record super_at (m : gmap Z Z) (p : Z) : Prop := {
  sb_magic : load32 m (p + RFS_magic) = RFS_MAGIC;
  sb_size : load32 m (p + RFS_size) = 112;
  sb_nblocks : load32 m (p + RFS_nblocks) = 100;
  sb_ninodes : load32 m (p + RFS_ninodes) = 10
}.
Lemma write_super s :
  env (k_mem s) -> k_ramdisk0_base s = base ->
  exists m, rfs_write_super fs s = Ok tt (set_k_mem m s) /\ env m /\ same_outside {[fs; buf; blk 0]} (k_mem s) m /\
    super_at m (blk 0) /\ load32 m (fs + RFS_ninodes) = 10.
Proof.
  intros He Hb. pose proof Hmp as [Hdk Hdv Hfs Hbf Hfm _ _ _ _ _ _]. destruct seps as (S1 & S2 & S3 & S4 & S5 & S6 & Sb).
  assert (Hal : fs mod 8 = 0) by (destruct Hfs; unfold PGSIZE in *; dlia).
  set (m1 := store32 (store32 (store32 (store32 (k_mem s) (fs + RFS_magic) RFS_MAGIC) (fs + RFS_size) 112) (fs + RFS_nblocks) 100) (fs + RFS_ninodes) 10).
  assert (H1 : super_at m1 fs).
  { split; unfold m1, RFS_magic, RFS_size, RFS_nblocks, RFS_ninodes, load32, store32.
    all: repeat first [rewrite loadn_storen_eq by (apply field_ok_32; dlia); done
                      |rewrite loadn_storen_ne by (try (apply field_ok_32; dlia); unfold bit_off; dlia)]. }
  assert (Ho1 : same_outside {[fs]} (k_mem s) m1).
  { unfold m1. repeat (etrans; [|eapply same_outside_mono; [|apply storen_outside]; rewrite in_page by done; done]). done. }
  assert (Hld : forall o, o = RFS_dev \/ o = RFS_buffer -> load64 m1 (fs + o) = load64 (k_mem s) (fs + o)).
  { intros o Ho. unfold m1, store32. rewrite !load64_storen_ne; [done|..]; unfold RFS_dev, RFS_buffer, RFS_magic, RFS_size, RFS_nblocks, RFS_ninodes in *; dlia. }
  assert (He1 : env m1).
  { destruct He. split; rewrite ?Hld by auto; try done; rewrite Ho1; try done;
      rewrite in_page by (done || (unfold DEV_input, DEV_output, PGSIZE; lia)); set_solver. }
  destruct (memcpy_page (set_k_mem m1 s) buf fs Hbf Hfs S2) as (m2 & E2 & Ho2 & Hc2).
  assert (He2 : env m2) by (by apply (env_outside buf m1)).
  destruct (w1block (set_k_mem m2 s) 0 "RFS: failed to write superblock!" He2 Hb) as (m3 & E3 & Hc3 & He3); [done|].
  exists m3. split_and!.
  - unfold rfs_write_super. do 4 (erewrite bind_Ok; [|by apply st32_page]). cbn [k_mem set_k_mem].
    change (set_k_mem _ _) with (set_k_mem m1 s) at 1.
    erewrite bind_Ok; [|by apply ld64_page]. cbn [k_mem set_k_mem]. rewrite (en_buf _ He1). change (fs + RFS_magic) with (fs + 0). rewrite Z.add_0_r.
    unfold RFS_BLKSIZE. by rewrite (bind_Ok _ _ _ _ _ E2).
  - done.
  - etrans; [eapply same_outside_mono; [|exact Ho1]; set_solver|]. etrans; [eapply same_outside_mono; [|exact Ho2]; set_solver|].
    eapply same_outside_mono; [|apply Hc3]. set_solver.
  - assert (Hf : forall o, 0 <= o < PGSIZE -> load32 m3 (blk 0 + o) = load32 m1 (fs + o)).
    { intros o Ho. unfold load32. rewrite (block_field m2) by done. eapply page_copied_loadn; [split; [exact Ho2|exact Hc2]|apply Hbf|apply Hfs|done]. }
    destruct H1. split; rewrite Hf; done.
  - unfold load32. rewrite (outside_loadn {[blk 0]} m2), (outside_loadn {[buf]} m1).
    + apply H1.
    + done.
    + rewrite in_page by done. set_solver.
    + apply Hc3.
    + rewrite in_page by done. destruct (Sb 0 ltac:(done)). set_solver.
Qed.
(** ** The bitmap *)

(** the pages of the file system and the disk are not free *)
Definition unfree (l : list Z) : Prop := forall p, p ∈ l -> (p ∉ [dev; fs; buf; fm]) /\ forall b, 0 <= b < RAMDISK0_BLOCK -> p <> blk b.
Lemma wrote_free bs s m l :
  free_pages s l -> unfree l -> Forall (fun c => 0 <= c < RAMDISK0_BLOCK) bs -> wrote bs (k_mem s) m -> free_pages (set_k_mem m s) l.
Proof.
  intros Hf Hu Hbs Hw. apply (pa_frame s); try done. intros p Hp. destruct (pa_pages _ _ Hf) as [_ Hok]. rewrite Forall_forall in Hok.
  destruct (Hu p Hp) as [H1 H2]. rewrite Forall_forall in Hbs. apply Hw; rewrite (page_of_page p) by auto; [set_solver|]. intros b Hb. by apply H2, Hbs.
Qed.
Lemma write_bitmap s l :
  env (k_mem s) -> k_ramdisk0_base s = base -> free_pages s (fm :: l) -> unfree l ->
  exists s', rfs_write_bitmap fs s = Ok tt s' /\ free_pages s' l /\ kframe s s' /\ env (k_mem s') /\ wrote [11] (k_mem s) (k_mem s') /\
    load32 (k_mem s') (blk 11 + 0) = 1 /\ (forall i, 1 <= i < 512 -> load64 (k_mem s') (blk 11 + 8 * i) = 0) /\
    load32 (k_mem s') (fs + RFS_ninodes) = load32 (k_mem s) (fs + RFS_ninodes).
Proof.
  intros He Hb Hf Hu. pose proof Hmp as [Hdk Hdv Hfs Hbf Hfm _ _ _ _ _ _]. destruct seps as (S1 & S2 & S3 & S4 & S5 & S6 & Sb). destruct (Sb 11 ltac:(done)) as (B1 & B2 & B3 & B4).
  assert (Hal : fs mod 8 = 0 /\ fm mod 8 = 0) by (destruct Hfs, Hfm; unfold PGSIZE in *; split; dlia). destruct Hal as [Hal1 Hal2].
  destruct (pa_alloc _ _ _ Hf) as (s1 & E1 & Hf1 & Hk1 & Hm1). assert (Hb1 : k_ramdisk0_base s1 = base) by (apply (f_equal k_ramdisk0_base) in Hk1; by rewrite <- Hb).
  assert (Hfm64 : 0 <= fm < 2 ^ 64) by (pose proof (page_ok_range fm Hfm); unfold PGSIZE in *; lia).
  set (m1 := store64 (k_mem s) (fs + RFS_freemap) fm).
  assert (Ho1 : same_outside {[fs]} (k_mem s) m1) by (eapply same_outside_mono; [|apply store64_outside]; rewrite in_page by done; done).
  assert (Hfm1 : load64 m1 (fs + RFS_freemap) = fm) by (unfold m1; rewrite load64_store64_eq; by apply u64_small).
  assert (He1 : env m1).
  { destruct He. split; [| |rewrite Ho1; [done|]..].
    - unfold m1. rewrite load64_store64_ne; [done|unfold RFS_dev, RFS_freemap; dlia].
    - unfold m1. rewrite load64_store64_ne; [done|unfold RFS_buffer, RFS_freemap; dlia].
    - rewrite in_page by done. set_solver.
    - rewrite in_page by done. set_solver. }
  destruct (memset_page (set_k_mem m1 s1) fm Hfm) as (m2 & E2 & Ho2 & Hz2).
  set (m3 := store32 m2 fm 1). assert (Ho3 : same_outside {[fm]} m1 m3).
  { etrans; [exact Ho2|]. eapply same_outside_mono; [|apply storen_outside]. by rewrite page_of_page. }
  assert (He3 : env m3) by (by apply (env_outside fm m1)).
  assert (Hfm3 : forall m, same_outside {[fm]} m1 m -> load64 m (fs + RFS_freemap) = fm).
  { intros m Hm. rewrite Hm by (rewrite in_page by done; set_solver). done. }
  destruct (memcpy_page (set_k_mem m3 s1) buf fm Hbf Hfm ltac:(done)) as (m4 & E4 & Ho4 & Hc4).
  assert (He4 : env m4) by (by apply (env_outside buf m3)).
  destruct (w1block (set_k_mem m4 s1) 11 "RFS: failed to write bitmap!" He4 Hb1) as (m5 & E5 & Hc5 & He5); [done|].
  assert (Hw : wrote [11] (k_mem s) m5).
  { apply (wrote_app [] [11] _ m4); [|by apply wrote_blk]. apply (wrote_app [] [] _ m3); [|apply (wrote_page _ buf); [done|set_solver]].
    apply (wrote_app [] [] _ m1); [apply (wrote_page _ fs); [done|set_solver]|apply (wrote_page _ fm); [done|set_solver]]. }
  assert (Hrun : rfs_write_bitmap fs s = Ok tt (set_k_mem m5 s1)).
  { unfold rfs_write_bitmap. rewrite (bind_Ok _ _ _ _ _ E1). erewrite bind_Ok; [|by apply st64_page]. rewrite Hm1. fold m1.
    erewrite bind_Ok; [|by apply ld64_page]. cbn [k_mem set_k_mem]. rewrite Hfm1. unfold RFS_BLKSIZE. rewrite (bind_Ok _ _ _ _ _ E2).
    erewrite bind_Ok; [|by apply ld64_page]. cbn [k_mem set_k_mem]. rewrite (Hfm3 m2 Ho2).
    erewrite bind_Ok; [|apply st32_ok, page_ok_base; done]. cbn [k_mem set_k_mem]. fold m3.
    erewrite bind_Ok; [|by apply ld64_page]. erewrite bind_Ok; [|by apply ld64_page]. cbn [k_mem set_k_mem]. rewrite (en_buf _ He3), (Hfm3 m3 Ho3).
    rewrite (bind_Ok _ _ _ _ _ E4). exact E5. }
  assert (Hf5 : forall n o, 0 <= o < PGSIZE -> loadn n m5 (blk 11 + o) = loadn n m3 (fm + o)).
  { intros n o Ho. rewrite (block_field m4) by done. eapply page_copied_loadn; [split; [exact Ho4|exact Hc4]|apply Hbf|apply Hfm|done]. }
  exists (set_k_mem m5 s1). split_and!; [exact Hrun| |exact Hk1|exact He5|exact Hw|..]; cbn [k_mem set_k_mem].
  - apply (wrote_free [11]); [done|done|by repeat constructor|]. by rewrite Hm1.
  - unfold load32. rewrite Hf5, Z.add_0_r by done. unfold m3, store32. rewrite loadn_storen_eq by (apply field_ok_32; dlia). done.
  - intros i Hi. destruct Hc5 as [_ Hc5]. rewrite Hc5, Hc4 by lia. cbn [k_mem set_k_mem]. unfold m3, store32. rewrite load64_storen_ne by dlia. by apply Hz2; lia.
  - unfold load32. rewrite (outside_loadn {[blk 11]} m4), (outside_loadn {[buf]} m3), (outside_loadn {[fm]} m1); try done; try apply Hc5;
      try (rewrite in_page by done; set_solver).
    unfold m1. rewrite loadn_store64_ne; [done|]. unfold RFS_freemap, RFS_ninodes. dlia.
Qed.
(** ** The inodes *)
Record dinode_at (m : gmap Z Z) (p size type nlinks blocks : Z) : Prop := {
  dn_size : load32 m (p + DI_size) = size;
  dn_type : load32 m (p + DI_type) = type;
  dn_nlinks : load32 m (p + DI_nlinks) = nlinks;
  dn_blocks : load32 m (p + DI_blocks) = blocks
}.
Lemma dinode_at_eq m m' p q size type nlinks blocks :
  (forall n o, 0 <= o < PGSIZE -> loadn n m' (q + o) = loadn n m (p + o)) -> dinode_at m p size type nlinks blocks -> dinode_at m' q size type nlinks blocks.
Proof. intros H []. by split; unfold load32; rewrite H. Qed.

(** setting the buffer, then writing it to a block *)
Lemma via_buffer s m1 b site :
  env (k_mem s) -> k_ramdisk0_base s = base -> same_outside {[buf]} (k_mem s) m1 -> 0 <= b < RAMDISK0_BLOCK ->
  exists m, check (rfs_w1block fs b) site (set_k_mem m1 s) = Ok tt (set_k_mem m s) /\ env m /\ wrote [b] (k_mem s) m /\ page_copied m1 m (blk b) buf.
Proof.
  intros He Hb Ho Hr. destruct seps as (S1 & S2 & S3 & _). assert (He1 : env m1) by (by apply (env_outside buf (k_mem s))).
  destruct (w1block (set_k_mem m1 s) b site He1 Hb Hr) as (m & E & Hc & He2). exists m. split_and!; [exact E|done| |done].
  apply (wrote_app [] [b] _ m1); [apply (wrote_page _ buf); [done|set_solver]|by apply wrote_blk].
Qed.
Lemma set_dinode_spec p size type nlinks blocks s :
  page_ok p -> 0 <= size < 2 ^ 32 -> 0 <= type < 2 ^ 32 -> 0 <= nlinks < 2 ^ 32 -> 0 <= blocks < 2 ^ 32 ->
  exists m, set_dinode p size type nlinks blocks s = Ok tt (set_k_mem m s) /\ same_outside {[p]} (k_mem s) m /\ dinode_at m p size type nlinks blocks.
Proof.
  intros Hp H1 H2 H3 H4. assert (Hal : p mod 8 = 0) by (destruct Hp; unfold PGSIZE in *; dlia).
  exists (store32 (store32 (store32 (store32 (k_mem s) (p + DI_size) size) (p + DI_type) type) (p + DI_nlinks) nlinks) (p + DI_blocks) blocks). split_and!.
  - unfold set_dinode. do 3 (erewrite bind_Ok; [|by apply st32_page]). rewrite st32_page by done. by destruct s.
  - cbn [k_mem set_k_mem]. repeat (etrans; [|eapply same_outside_mono; [|apply storen_outside]; rewrite in_page by done; done]). done.
  - cbn [k_mem set_k_mem]. split; unfold DI_size, DI_type, DI_nlinks, DI_blocks, load32, store32.
    all: repeat first [rewrite loadn_storen_eq by (apply field_ok_32; dlia); rewrite Z.mod_small by done; done
                      |rewrite loadn_storen_ne by (try (apply field_ok_32; dlia); unfold bit_off; dlia)].
Qed.
(** the blocks of the free inodes *)
Definition free_inodes (m : gmap Z Z) (n : Z) : Prop := forall i, 1 <= i < n -> dinode_at m (blk (RFS_BLKN_INODE + i)) 0 T_FREE 0 0.
Lemma write_inodes s :
  env (k_mem s) -> k_ramdisk0_base s = base -> load32 (k_mem s) (fs + RFS_ninodes) = 10 ->
  exists m, rfs_write_inodes fs buf s = Ok tt (set_k_mem m s) /\ env m /\ wrote (seqZ 2 9) (k_mem s) m /\ free_inodes m 10.
Proof.
  intros He Hb Hn. pose proof Hmp as [Hdk Hdv Hfs Hbf Hfm _ _ _ _ _ _]. destruct seps as (S1 & S2 & S3 & S4 & S5 & S6 & Sb).
  destruct (set_dinode_spec buf 0 T_FREE 0 0 s) as (m1 & E1 & Ho1 & Hd1); [done..|].
  unfold rfs_write_inodes. rewrite (bind_Ok _ _ _ _ _ E1).
  apply (kwhile_rule (fun i s' => 1 <= i <= 10 /\ exists m, s' = set_k_mem m s /\ env m /\ wrote (seqZ 2 (i - 1)) (k_mem s) m /\
      dinode_at m buf 0 T_FREE 0 0 /\ load32 m (fs + RFS_ninodes) = 10 /\ free_inodes m i) (fun i => 10 - i)).
  - split; [lia|]. exists m1. split_and!; [done|by apply (env_outside buf (k_mem s))|apply (wrote_page _ buf); [done|set_solver]|done| |intros i Hi; lia].
    unfold load32. rewrite (outside_loadn {[buf]} (k_mem s)) by (done || (rewrite in_page by done; set_solver)). done.
  - lia.
  - intros i s' (Hi & m & -> & Hem & Hw & Hd & Hni & Hfr). erewrite bind_Ok; [|by apply ld32_page]. cbn [k_mem set_k_mem]. rewrite Hni.
    change (s32 10) with 10. destruct (Z.ltb_spec i 10) as [Hlt|Hge].
    + destruct (w1block (set_k_mem m s) (RFS_BLKN_INODE + i) "RFS: failed to write inodes!" Hem Hb) as (m' & E' & Hc & He'); [unfold RFS_BLKN_INODE, RAMDISK0_BLOCK; lia|].
      rewrite (bind_Ok _ _ _ _ _ E'). cbn. unfold RFS_BLKN_INODE in *. assert (Hr : 0 <= 1 + i < RAMDISK0_BLOCK) by (unfold RAMDISK0_BLOCK; lia). destruct (Sb (1 + i) Hr) as (B1 & B2 & B3 & B4).
      split; [|lia]. split; [lia|]. exists m'. split_and!; [done|done| | | |].
      * replace (i + 1 - 1) with (i - 1 + 1) by lia. rewrite seqZ_app by lia. eapply wrote_app; [exact Hw|]. replace (2 + (i - 1)) with (1 + i) by lia. by apply wrote_blk.
      * eapply dinode_at_eq; [|exact Hd]. intros n o Ho. apply (outside_loadn {[blk (1 + i)]}); [apply Hc|]. rewrite in_page by done. set_solver.
      * unfold load32. rewrite (outside_loadn {[blk (1 + i)]} m); [done|apply Hc|]. rewrite in_page by done. set_solver.
      * intros j Hj. destruct (decide (j = i)) as [->|Hne].
        -- eapply dinode_at_eq; [|exact Hd]. intros n o Ho. by apply block_field.
        -- eapply dinode_at_eq; [|apply (Hfr j); lia]. intros n o Ho. unfold RFS_BLKN_INODE. apply keeps_loadn; [|done].
           eapply wrote_keeps; [by apply wrote_blk|unfold RAMDISK0_BLOCK; lia|]. rewrite list_elem_of_singleton. lia.
    + assert (i = 10) as -> by lia. cbn. exists m. done.
Qed.
(** the inode of the root directory: one block, one entry *)
Lemma write_root s :
  env (k_mem s) -> k_ramdisk0_base s = base ->
  exists m, rfs_write_root fs buf s = Ok tt (set_k_mem m s) /\ env m /\ wrote [1] (k_mem s) m /\
    dinode_at m (blk 1) sizeof_direntry T_DIR 1 1 /\ load64 m (blk 1 + DI_addrs) = RFS_BLKN_FREE.
Proof.
  intros He Hb. pose proof Hmp as [Hdk Hdv Hfs Hbf Hfm _ _ _ _ _ _].
  destruct (set_dinode_spec buf sizeof_direntry T_DIR 1 1 s) as (m1 & E1 & Ho1 & Hd1); [done..|].
  set (m2 := store64 m1 (buf + DI_addrs) RFS_BLKN_FREE).
  assert (Ho2 : same_outside {[buf]} (k_mem s) m2).
  { etrans; [exact Ho1|]. eapply same_outside_mono; [|apply store64_outside]. by rewrite in_page. }
  destruct (via_buffer s m2 1 "RFS: failed to write root inode!" He Hb Ho2) as (m3 & E3 & He3 & Hw3 & Hc3); [done|].
  exists m3. split_and!; [|done|done| |].
  - unfold rfs_write_root. rewrite (bind_Ok _ _ _ _ _ E1). erewrite bind_Ok; [|by apply st64_page]. cbn [k_mem set_k_mem]. exact E3.
  - apply (dinode_at_eq m2 m3 buf); [intros; by apply block_field|]. assert (buf mod 8 = 0) by (destruct Hbf; unfold PGSIZE in *; dlia).
    destruct Hd1. split; unfold m2, load32; rewrite loadn_store64_ne by (unfold DI_size, DI_type, DI_nlinks, DI_blocks, DI_addrs; dlia); done.
  - destruct Hc3 as [_ Hc3]. specialize (Hc3 2 ltac:(lia)). change (8 * 2) with DI_addrs in Hc3. rewrite Hc3. unfold m2. by rewrite load64_store64_eq.
Qed.
(** ** The root directory *)

(** what is below the pages of the file system and the disk does not change *)
Lemma wrote_low bs m m' a :
  wrote bs m m' -> Forall (fun c => 0 <= c < RAMDISK0_BLOCK) bs -> a < link_addr "/" + 2 -> load8 m' a = load8 m a.
Proof.
  intros Hw Hbs Ha. unfold load8, loadn. rewrite Hw; [done|..].
  - intros Hin. assert (link_addr "/" + 2 <= page_of a) by (apply Hmp; set_solver). pose proof (page_of_bounds a). lia.
  - intros b Hb E. rewrite Forall_forall in Hbs. specialize (Hbs b Hb). assert (link_addr "/" + 2 <= base) by (apply Hmp; set_solver).
    pose proof (page_of_bounds a). unfold blk, disk_block, PGSIZE in *. lia.
Qed.
Lemma wrote_slash bs m m' :
  wrote bs m m' -> Forall (fun c => 0 <= c < RAMDISK0_BLOCK) bs -> cstr_at m (link_addr "/") [47] -> cstr_at m' (link_addr "/") [47].
Proof.
  intros Hw Hbs [[Hc H0] Hr]. split; [|done]. split.
  - intros i c Hi. pose proof (lookup_lt_Some _ _ _ Hi) as Hlt. cbn in Hlt. rewrite (wrote_low bs m m') by (done || lia). by apply Hc.
  - rewrite (wrote_low bs m m') by (done || (cbn; lia)). done.
Qed.
Definition root_entry (m : gmap Z Z) (p : Z) : Prop := load32 m (p + DE_inum) = RFS_BLKN_INODE /\ cstr m (p + DE_name) [47].
Lemma write_dir s :
  env (k_mem s) -> k_ramdisk0_base s = base -> cstr_at (k_mem s) (link_addr "/") [47] ->
  exists m, rfs_write_dir fs s = Ok tt (set_k_mem m s) /\ env m /\ wrote [12] (k_mem s) m /\ root_entry m (blk 12).
Proof.
  intros He Hb Hc. pose proof Hmp as [Hdk Hdv Hfs Hbf Hfm _ _ Hlow _ _ _]. pose proof (Hlow buf ltac:(set_solver)) as Hl.
  assert (Hal : buf mod PGSIZE = 0) by apply Hbf. pose proof (page_ok_range buf Hbf) as Hrg.
  set (m1 := store32 (k_mem s) (buf + DE_inum) RFS_BLKN_INODE).
  assert (Ho1 : same_outside {[buf]} (k_mem s) m1) by (eapply same_outside_mono; [|apply storen_outside]; by rewrite in_page).
  assert (Hc1 : cstr_at m1 (link_addr "/") [47]) by (apply (wrote_slash [] (k_mem s)); [apply (wrote_page _ buf); [done|set_solver]|done|done]).
  destruct (strcpy_spec (set_k_mem m1 s) (buf + DE_name) (link_addr "/") [47]) as (m2 & E2 & Hc2); [done| |unfold DE_name; cbn; lia|].
  { destruct Hbf as (? & ? & ?). unfold region_ok, DE_name, PGSIZE in *. cbn. lia. }
  cbn [k_mem set_k_mem] in Hc2.
  assert (Ho2 : same_outside {[buf]} (k_mem s) m2).
  { etrans; [exact Ho1|]. apply bytes_outside_page; [done|]. intros a Ha. rewrite Hc2, decide_False; [done|]. unfold DE_name, PGSIZE in *. cbn in *. lia. }
  destruct (via_buffer s m2 12 "RFS: failed to write root inode!" He Hb Ho2) as (m3 & E3 & He3 & Hw3 & Hc3); [done|].
  exists m3. split_and!; [|done|done|split].
  - unfold rfs_write_dir. erewrite bind_Ok; [|by apply ld64_page]. rewrite (en_buf _ He). erewrite bind_Ok; [|by apply st32_page].
    fold m1. rewrite (bind_Ok _ _ _ _ _ E2). exact E3.
  - unfold load32. rewrite (block_field m2) by done.
    transitivity (load32 m1 (buf + DE_inum)); [|unfold m1, load32, store32; rewrite loadn_storen_eq by (apply field_ok_32; unfold DE_inum, PGSIZE in *; dlia); done].
    apply load32_bytes; [unfold DE_inum, PGSIZE in *; dlia..|]. intros i Hi. rewrite Hc2, decide_False; [done|]. unfold DE_inum, DE_name. lia.
  - pose proof (copied_cstr _ _ _ _ _ Hc2 (proj1 Hc1)) as [Hb2 H02].
    assert (Hf : forall o, 0 <= o < PGSIZE -> load8 m3 (blk 12 + o) = load8 m2 (buf + o)) by (intros; by apply block_field).
    split.
    + intros i c Hi. pose proof (lookup_lt_Some _ _ _ Hi) as Hlt. cbn in Hlt. rewrite <- Z.add_assoc, Hf, Z.add_assoc by (unfold DE_name, PGSIZE; lia). by apply Hb2.
    + rewrite <- Z.add_assoc, Hf, Z.add_assoc by done. done.
Qed.
(** ** Allocation and operations *)
Definition dev_ops (m : gmap Z Z) : Prop :=
  load64 m (dev + DEV_input) = u64 (link_addr "ramdisk0_input") /\ load64 m (dev + DEV_output) = u64 (link_addr "ramdisk0_output").

Lemma alloc_structures s l :
  dev_ops (k_mem s) -> free_pages s (fs :: buf :: l) ->
  exists s', rfs_alloc dev s = Ok fs s' /\ free_pages s' l /\ kframe s s' /\ env (k_mem s') /\ same_outside {[fs]} (k_mem s) (k_mem s').
Proof.
  intros [Hi Ho] Hf. pose proof Hmp as [Hdk Hdv Hfs Hbf Hfm _ _ _ _ _ _]. destruct seps as (S1 & S2 & S3 & _).
  assert (Hal : fs mod 8 = 0) by (destruct Hfs; unfold PGSIZE in *; dlia).
  pose proof (page_ok_range dev Hdv). pose proof (page_ok_range buf Hbf).
  destruct (pa_pages _ _ Hf) as [Hnd _]. apply NoDup_cons in Hnd as [Hnf Hnd]. apply NoDup_cons in Hnd as [Hnb _].
  destruct (pa_alloc _ _ _ Hf) as (s1 & E1 & Hf1 & Hk1 & Hm1).
  set (m1 := store32 (store64 (store32 (k_mem s) (fs + FS_type) RFS_TYPE) (fs + RFS_dev) dev) (fs + RFS_dirty) 0).
  assert (Ho1 : same_outside {[fs]} (k_mem s) m1).
  { unfold m1. etrans; [|eapply same_outside_mono; [|apply storen_outside]; by rewrite in_page].
    etrans; [|eapply same_outside_mono; [|apply store64_outside]; by rewrite in_page].
    eapply same_outside_mono; [|apply storen_outside]; by rewrite in_page. }
  assert (Hf1' : free_pages (set_k_mem m1 s1) (buf :: l)).
  { apply (pa_write s1 _ m1 {[fs]}); [done|by rewrite Hm1|]. intros p Hp. rewrite elem_of_singleton. by intros ->. }
  destruct (pa_alloc _ _ _ Hf1') as (s2 & E2 & Hf2 & Hk2 & Hm2). cbn [k_mem set_k_mem] in Hm2.
  set (m2 := store64 m1 (fs + RFS_buffer) buf).
  assert (Ho2 : same_outside {[fs]} (k_mem s) m2).
  { etrans; [exact Ho1|]. eapply same_outside_mono; [|apply store64_outside]. by rewrite in_page. }
  exists (set_k_mem m2 s2). split_and!; [| | | |exact Ho2].
  - unfold rfs_alloc, alloc_fs. rewrite bind_assoc, (bind_Ok _ _ _ _ _ E1), bind_assoc. erewrite bind_Ok; [|by apply st32_page]. rewrite bind_ret.
    erewrite bind_Ok; [|by apply st64_page]. erewrite bind_Ok; [|by apply st32_page]. cbn [k_mem set_k_mem]. rewrite Hm1.
    change (set_k_mem m1 (set_k_mem _ _)) with (set_k_mem m1 s1). fold m1.
    rewrite (bind_Ok _ _ _ _ _ E2). erewrite bind_Ok; [|by apply st64_page]. by rewrite Hm2.
  - apply (pa_write s2 _ m2 {[fs]}); [done| |intros p Hp; rewrite elem_of_singleton; intros ->; set_solver].
    rewrite Hm2. eapply same_outside_mono; [|apply store64_outside]. by rewrite in_page.
  - etrans; [exact Hk1|]. exact Hk2.
  - cbn [k_mem set_k_mem]. split.
    + unfold m2, m1, store32. rewrite load64_store64_ne, load64_storen_ne, load64_store64_eq by (unfold RFS_dev, RFS_buffer, RFS_dirty; dlia). unfold PGSIZE in *. apply u64_small. lia.
    + unfold m2. rewrite load64_store64_eq. unfold PGSIZE in *. apply u64_small. lia.
    + rewrite Ho2; [done|]. rewrite in_page by done. set_solver.
    + rewrite Ho2; [done|]. rewrite in_page by done. set_solver.
Qed.
Record fs_ops (m : gmap Z Z) : Prop := {
  fo_sync : load64 m (fs + FS_sync) = u64 (link_addr "rfs_sync");
  fo_get_root : load64 m (fs + FS_get_root) = u64 (link_addr "rfs_get_root");
  fo_unmount : load64 m (fs + FS_unmount) = u64 (link_addr "rfs_unmount");
  fo_cleanup : load64 m (fs + FS_cleanup) = u64 (link_addr "rfs_cleanup")
}.
Lemma set_ops s :
  env (k_mem s) -> exists m, rfs_set_ops fs s = Ok tt (set_k_mem m s) /\ env m /\ same_outside {[fs]} (k_mem s) m /\ fs_ops m.
Proof.
  intros He. pose proof Hmp as [Hdk Hdv Hfs Hbf Hfm _ _ _ _ _ _]. destruct seps as (S1 & _). assert (Hal : fs mod 8 = 0) by (destruct Hfs; unfold PGSIZE in *; dlia).
  set (m := store64 (store64 (store64 (store64 (k_mem s) (fs + FS_sync) (link_addr "rfs_sync")) (fs + FS_get_root) (link_addr "rfs_get_root"))
    (fs + FS_unmount) (link_addr "rfs_unmount")) (fs + FS_cleanup) (link_addr "rfs_cleanup")).
  assert (Ho : same_outside {[fs]} (k_mem s) m).
  { unfold m. repeat (etrans; [|eapply same_outside_mono; [|apply store64_outside]; rewrite in_page by done; done]). done. }
  assert (Hne : forall o, 0 <= o < FS_sync -> load64 m (fs + o) = load64 (k_mem s) (fs + o)).
  { intros o Hr. unfold m. rewrite !load64_store64_ne; [done|..]; unfold FS_sync, FS_get_root, FS_unmount, FS_cleanup in *; dlia. }
  exists m. split_and!; [|destruct He; split|exact Ho|].
  - unfold rfs_set_ops. do 3 (erewrite bind_Ok; [|by apply st64_page]). by rewrite st64_page.
  - by rewrite Hne.
  - by rewrite Hne.
  - rewrite Ho; [done|]. rewrite in_page by done. set_solver.
  - rewrite Ho; [done|]. rewrite in_page by done. set_solver.
  - split; unfold m; repeat first [by rewrite load64_store64_eq|rewrite load64_store64_ne by (unfold FS_sync, FS_get_root, FS_unmount, FS_cleanup; dlia)].
Qed.
(* ------------------------------------------------------------------ *)
(** * rfs_do_mount *)

(** the image rfs_do_mount writes: the layout of its comment *)
Record formatted (m : gmap Z Z) : Prop := {
  fd_super : super_at m (blk RFS_BLKN_SUPER);
  fd_root : dinode_at m (blk RFS_BLKN_INODE) sizeof_direntry T_DIR 1 1;
  fd_root_addr : load64 m (blk RFS_BLKN_INODE + DI_addrs) = RFS_BLKN_FREE;
  fd_inodes : free_inodes m RFS_MAX_INODE_NUM;
  fd_bitmap : load32 m (blk RFS_BLKN_BITMAP + 0) = 1;
  fd_bits i : 1 <= i < 512 -> load64 m (blk RFS_BLKN_BITMAP + 8 * i) = 0;
  fd_dir : root_entry m (blk RFS_BLKN_FREE)
}.
(** a mounted file system *)
Record mounted (m : gmap Z Z) : Prop := {
  mo_env : env m;
  mo_fs : load64 m pfs = fs;
  mo_ops : fs_ops m;
  mo_disk : formatted m
}.

(** each part of the image survives the later writes *)
Lemma super_keep m m' b : keeps b m m' -> super_at m (blk b) -> super_at m' (blk b).
Proof. intros Hk []. by split; unfold load32; erewrite keeps_loadn. Qed.
Lemma dinode_keep m m' b z t n k : keeps b m m' -> dinode_at m (blk b) z t n k -> dinode_at m' (blk b) z t n k.
Proof. intros Hk. apply dinode_at_eq. intros. by apply keeps_loadn. Qed.
Lemma entry_keep m m' b : keeps b m m' -> root_entry m (blk b) -> root_entry m' (blk b).
Proof.
  intros Hk [H1 [H2 H3]]. split; [unfold load32; by erewrite keeps_loadn|]. split.
  - intros i c Hi. pose proof (lookup_lt_Some _ _ _ Hi) as Hlt. cbn in Hlt. rewrite <- Z.add_assoc. unfold load8.
    erewrite keeps_loadn; [|done|unfold DE_name, PGSIZE; lia]. rewrite Z.add_assoc. by apply H2.
  - rewrite <- Z.add_assoc. unfold load8. erewrite keeps_loadn by done. rewrite Z.add_assoc. by apply H3.
Qed.
Lemma formatted_keep m m' : (forall b, 0 <= b < RAMDISK0_BLOCK -> keeps b m m') -> formatted m -> formatted m'.
Proof.
  intros Hk []. split.
  - by eapply super_keep; [apply Hk|].
  - by eapply dinode_keep; [apply Hk|].
  - by rewrite (Hk RFS_BLKN_INODE).
  - intros i Hi. eapply dinode_keep; [apply Hk|by apply fd_inodes0]. unfold RFS_BLKN_INODE, RFS_MAX_INODE_NUM, RAMDISK0_BLOCK in *. lia.
  - unfold load32. by rewrite (keeps_loadn _ m) by (done || by apply Hk).
  - intros i Hi. rewrite (Hk RFS_BLKN_BITMAP); [by apply fd_bits0|done|unfold PGSIZE; lia].
  - by eapply entry_keep; [apply Hk|].
Qed.
(** the image, assembled from what each step wrote *)
Lemma formatted_steps m1 m2 m3 m4 m5 :
  super_at m1 (blk 0) ->
  wrote [11] m1 m2 -> load32 m2 (blk 11 + 0) = 1 -> (forall i, 1 <= i < 512 -> load64 m2 (blk 11 + 8 * i) = 0) ->
  wrote (seqZ 2 9) m2 m3 -> free_inodes m3 10 ->
  wrote [1] m3 m4 -> dinode_at m4 (blk 1) sizeof_direntry T_DIR 1 1 -> load64 m4 (blk 1 + DI_addrs) = RFS_BLKN_FREE ->
  wrote [12] m4 m5 -> root_entry m5 (blk 12) -> formatted m5.
Proof.
  intros Hs W1 Hb Hbs W2 Hi W3 Hr Ha W4 He.
  assert (W45 : wrote [1; 12] m3 m5) by (by apply (wrote_app [1] [12] _ m4)).
  assert (W25 : wrote (seqZ 2 9 ++ [1; 12]) m2 m5) by (by apply (wrote_app _ _ _ m3)).
  assert (W15 : wrote ([11] ++ seqZ 2 9 ++ [1; 12]) m1 m5) by (by apply (wrote_app _ _ _ m2)).
  assert (Hd : forall (b : Z) (l : list Z), bool_decide (b ∈ l) = false -> b ∉ l) by (intros b l; by rewrite bool_decide_eq_false).
  split.
  - eapply super_keep; [eapply wrote_keeps; [exact W15|done|by apply Hd]|done].
  - eapply dinode_keep; [eapply wrote_keeps; [exact W4|done|by apply Hd]|done].
  - rewrite (wrote_keeps _ _ _ _ W4); [exact Ha|done|by apply Hd|done].
  - intros i Hr'. eapply dinode_keep; [eapply wrote_keeps; [exact W45|..]|by apply Hi]; unfold RFS_BLKN_INODE, RFS_MAX_INODE_NUM, RAMDISK0_BLOCK in *; [lia|].
    rewrite !elem_of_cons, elem_of_nil. lia.
  - unfold load32. rewrite (keeps_loadn _ m2); [exact Hb|eapply wrote_keeps; [exact W25|done|by apply Hd]|done].
  - intros i Hr'. rewrite (wrote_keeps _ _ _ _ W25); [by apply Hbs|done|by apply Hd|unfold PGSIZE; lia].
  - done.
Qed.
(** pages that take no part in the mount *)
Definition unused (l : list Z) : Prop := unfree l /\ page_of pfs ∉ l.

Lemma mount s l :
  dev_ops (k_mem s) -> k_ramdisk0_base s = base -> cstr_at (k_mem s) (link_addr "/") [47] ->
  free_pages s (fs :: buf :: fm :: l) -> unused l ->
  exists s', rfs_do_mount dev pfs s = Ok 0 s' /\ free_pages s' l /\ kframe s s' /\ mounted (k_mem s').
Proof.
  intros Hops Hb Hsl Hf [Hu Hpl]. pose proof Hmp as [Hdk Hdv Hfs Hbf Hfm _ _ _ Hp1 Hp2 Hp3]. destruct seps as (S1 & S2 & S3 & S4 & S5 & S6 & Sb).
  pose proof (page_ok_range fs Hfs) as Hr64.
  destruct (alloc_structures s (fm :: l) Hops Hf) as (s1 & E1 & Hf1 & Hk1 & He1 & Ho1).
  assert (Hb1 : k_ramdisk0_base s1 = base) by (apply (f_equal k_ramdisk0_base) in Hk1; by rewrite <- Hb).
  destruct (write_super s1 He1 Hb1) as (m2 & E2 & He2 & Ho2 & Hs2 & Hn2).
  destruct (Sb 0 ltac:(done)) as (B1 & B2 & B3 & B4).
  assert (Hf2 : free_pages (set_k_mem m2 s1) (fm :: l)).
  { apply (pa_write s1 _ m2 {[fs; buf; blk 0]}); [done|done|]. intros p [->|Hp]%elem_of_cons; [set_solver|]. destruct (Hu p Hp) as [H1 H2].
    specialize (H2 0 ltac:(done)). set_solver. }
  destruct (write_bitmap (set_k_mem m2 s1) l He2 Hb1 Hf2 Hu) as (s3 & E3 & Hf3 & Hk3 & He3 & W3 & Hbm & Hbits & Hn3). cbn [k_mem set_k_mem] in *.
  assert (Hb3 : k_ramdisk0_base s3 = base) by (apply (f_equal k_ramdisk0_base) in Hk3; by rewrite <- Hb1).
  destruct (write_inodes s3 He3 Hb3 ltac:(by rewrite Hn3)) as (m4 & E4 & He4 & W4 & Hin).
  destruct (write_root (set_k_mem m4 s3) He4 Hb3) as (m5 & E5 & He5 & W5 & Hroot & Haddr).
  assert (W05 : wrote ([0] ++ [11] ++ seqZ 2 9 ++ [1]) (k_mem s) m5).
  { apply (wrote_app _ _ _ m2); [|eapply wrote_app; [exact W3|]; by eapply wrote_app]. apply (wrote_app [] [0] _ (k_mem s1)).
    - apply (wrote_page _ fs); [done|set_solver].
    - intros a Ha1 Ha2. apply Ho2. specialize (Ha2 0 ltac:(set_solver)). set_solver. }
  assert (Hrng : Forall (fun c => 0 <= c < RAMDISK0_BLOCK) ([0] ++ [11] ++ seqZ 2 9 ++ [1])) by (by vm_compute; repeat constructor).
  destruct (write_dir (set_k_mem m5 s3) He5 Hb3) as (m6 & E6 & He6 & W6 & Hdir); [by eapply wrote_slash|].
  destruct (set_ops (set_k_mem m6 s3) He6) as (m7 & E7 & He7 & Ho7 & Hop7). cbn [k_mem set_k_mem] in *.
  set (m8 := store64 m7 pfs fs). assert (Ho8 : same_outside {[page_of pfs]} m7 m8) by apply store64_outside.
  assert (Hfmt : formatted m6) by (by apply (formatted_steps m2 (k_mem s3) m4 m5)).
  assert (Hfmt8 : formatted m8).
  { apply (formatted_keep m7); [intros b Hr; apply (outside_keeps (page_of pfs)); auto|].
    apply (formatted_keep m6); [|done]. intros b Hr. apply (outside_keeps fs); [done|done|]. destruct (Sb b Hr). congruence. }
  exists (set_k_mem m8 s3). split_and!; [| | |split; [|unfold m8|split|]; cbn [k_mem set_k_mem]].
  - unfold rfs_do_mount. rewrite (bind_Ok _ _ _ _ _ E1), (bind_Ok _ _ _ _ _ E2), (bind_Ok _ _ _ _ _ E3).
    erewrite bind_Ok; [|by apply ld64_page]. rewrite (en_buf _ He3), (bind_Ok _ _ _ _ _ E4), (bind_Ok _ _ _ _ _ E5), (bind_Ok _ _ _ _ _ E6), (bind_Ok _ _ _ _ _ E7).
    erewrite bind_Ok; [|by apply st64_ok]. done.
  - apply (pa_write (set_k_mem m7 s3) _ m8 {[page_of pfs]}); [|done|set_solver].
    apply (wrote_free (seqZ 2 9 ++ [1] ++ [12] ++ [])); [done|done|by vm_compute; repeat constructor|].
    eapply wrote_app; [exact W4|]. eapply wrote_app; [exact W5|]. eapply wrote_app; [exact W6|]. apply (wrote_page _ fs); [done|set_solver].
  - etrans; [exact Hk1|]. exact Hk3.
  - by apply (env_outside (page_of pfs) m7); [|set_solver..|].
  - rewrite load64_store64_eq. apply u64_small. unfold PGSIZE in *. lia.
  - rewrite Ho8; [apply Hop7|rewrite in_page by done; set_solver].
  - rewrite Ho8; [apply Hop7|rewrite in_page by done; set_solver].
  - rewrite Ho8; [apply Hop7|rewrite in_page by done; set_solver].
  - rewrite Ho8; [apply Hop7|rewrite in_page by done; set_solver].
  - done.
Qed.
(* ------------------------------------------------------------------ *)
(** * The root directory of a mounted file system *)

Lemma mounted_outside p m m' :
  same_outside {[p]} m m' -> p ∉ [dev; fs; page_of pfs] -> (forall b, 0 <= b < RAMDISK0_BLOCK -> p <> blk b) -> mounted m -> mounted m'.
Proof.
  intros Ho Hp Hb [He Hf [] Hd]. rewrite !elem_of_cons, elem_of_nil in Hp. pose proof (mp_fs Hmp) as Hfs.
  split; [apply (env_outside p m); tauto|rewrite Ho; [done|]; rewrite elem_of_singleton; intros E; apply Hp; auto| |].
  - split; rewrite Ho by (rewrite in_page by done; rewrite elem_of_singleton; intros E; apply Hp; auto); done.
  - apply (formatted_keep m); [|done]. intros b Hr. apply (outside_keeps p); auto.
Qed.
Lemma r1block s b site :
  env (k_mem s) -> k_ramdisk0_base s = base -> 0 <= b < RAMDISK0_BLOCK ->
  exists m, check (rfs_r1block fs b) site s = Ok tt (set_k_mem m s) /\ page_copied (k_mem s) m buf (blk b).
Proof.
  intros [] Hb Hr. pose proof Hmp as [Hdk Hdv Hfs Hbf Hfm _ _ _ _ _ _]. destruct seps as (_ & _ & _ & _ & _ & _ & Hs). destruct (Hs b Hr) as (_ & _ & S3 & _).
  destruct (ramdisk0_output_spec s buf b) as (m & E & Hc); [by rewrite Hb|done|done|by rewrite Hb|]. rewrite Hb in Hc.
  exists m. split; [|done]. unfold check, rfs_r1block. rewrite bind_assoc. erewrite bind_Ok; [|by apply ld64_page]. rewrite bind_assoc. erewrite bind_Ok; [|by apply ld64_page].
  rewrite en_dev0, en_buf0. unfold dop_output. rewrite bind_assoc. erewrite bind_Ok; [|by apply ld64_page].
  rewrite en_out0, Z.eqb_refl. by rewrite (bind_Ok _ _ _ _ _ E).
Qed.
Lemma get_root s node l :
  mounted (k_mem s) -> k_ramdisk0_base s = base -> free_pages s (node :: l) -> unused (node :: l) ->
  exists s', fsop_get_root fs s = Ok node s' /\ free_pages s' l /\ kframe s s' /\ mounted (k_mem s') /\
    dinode_at (k_mem s') node sizeof_direntry T_DIR 1 1 /\ load64 (k_mem s') (node + DI_addrs) = RFS_BLKN_FREE /\
    inode_at (k_mem s') node RFS_BLKN_INODE fs "rfs_node_dirops".
Proof.
  intros Hm Hb Hf [Hu Hpn]. pose proof Hmp as [Hdk Hdv Hfs Hbf Hfm _ _ _ _ Hp2 _]. destruct seps as (S1 & S2 & S3 & _ & _ & _ & Sb).
  destruct (Hu node ltac:(set_solver)) as [Hn1 Hn2]. pose proof (page_ok_range fs Hfs) as Hr64. unfold PGSIZE in Hr64.
  destruct (r1block s 1 "RFS: failed to read inode!" (mo_env _ Hm) Hb ltac:(done)) as (m1 & E1 & Hc1).
  assert (Hm1 : mounted m1).
  { apply (mounted_outside buf (k_mem s)); [apply Hc1|set_solver| |done]. intros b Hr. destruct (Sb b Hr) as (_ & _ & ? & _). congruence. }
  assert (Hdi : dinode_at m1 buf sizeof_direntry T_DIR 1 1).
  { eapply dinode_at_eq; [|apply (fd_root _ (mo_disk _ Hm))]. intros n o Ho. eapply page_copied_loadn; [exact Hc1|apply Hbf| |done]. by apply disk_block_ok. }
  assert (Hf1 : free_pages (set_k_mem m1 s) (node :: l)).
  { apply (pa_write s _ m1 {[buf]}); [done|apply Hc1|]. intros p Hp. destruct (Hu p Hp) as [Hne _]. set_solver. }
  destruct (create_inode fs buf RFS_BLKN_INODE T_DIR (set_k_mem m1 s) node l) as (s2 & E2 & Hf2 & Hk2 & Ho2 & [Hh Ha] & Hia);
    [done|set_solver|done|lia|apply Hdi|by left|done|]. cbn [k_mem set_k_mem] in *.
  exists s2. split_and!; [|done|exact Hk2| |destruct Hdi; split; by rewrite Hh by set_solver| |exact Hia].
  - unfold fsop_get_root. erewrite bind_Ok; [|by apply ld64_page]. rewrite (fo_get_root _ (mo_ops _ Hm)), Z.eqb_refl.
    unfold rfs_get_root, rfs_load_dinode. rewrite !bind_assoc, (bind_Ok _ _ _ _ _ E1), bind_assoc. erewrite bind_Ok; [|by apply ld64_page].
    cbn [k_mem set_k_mem]. rewrite (en_buf _ (mo_env _ Hm1)), bind_assoc, (bind_Ok _ _ _ _ _ E2). done.
  - apply (mounted_outside node m1); [done|set_solver|done|done].
  - specialize (Ha 0 ltac:(done)). rewrite !Z.mul_0_r, !Z.add_0_r in Ha. rewrite Ha. destruct Hc1 as [_ Hc1]. specialize (Hc1 2 ltac:(lia)).
    change (8 * 2) with DI_addrs in Hc1. rewrite Hc1. apply Hm.
Qed.
End Disk.
End Mount.
(* ------------------------------------------------------------------ *)
(** * Witnesses *)

(** four free pages from 0x80020000, the device structure at 0x80030000, the
    entry of the device list at 0x80031000 and the disk at 0x80100000 *)
Definition demo_mount : @kstate Demo.platform :=
  set_k_ramdisk0_base 0x80100000 (set_k_free_list 0x80020000 (set_k_free_mem_start_addr 0x80020000 (set_k_free_mem_end_addr 0x80024000
    (set_k_mem (put_str 0x80001000 [47] (store64 (store64 (store64 (store64 (store64 ∅ (0x80030000 + DEV_input) 0x80001000)
      (0x80030000 + DEV_output) 0x80001000) 0x80020000 0x80021000) 0x80021000 0x80022000) 0x80022000 0x80023000)) (Demo.state 0x200000))))).
