(* ===== verification/Process.v ===== *)
(** kernel/process.c: the process table, fork, wait.

    A process owns pages: its trapframe, page directory, kernel stack, user
    stack, region table ([mapped_info], 16-byte entries) and file table.  The
    fields of [struct process] are in [procs]; everything they point to is in
    physical memory. *)

From S2P Require Import Prelude Machine Pmm StringC Vmm Sched SpikeFile File.

(** enum segment_type *)
Definition CODE_SEGMENT : Z := 0.
Definition DATA_SEGMENT : Z := 1.
Definition STACK_SEGMENT : Z := 2.
Definition CONTEXT_SEGMENT : Z := 3.
Definition SYSTEM_SEGMENT : Z := 4.
(** struct mapped_region *)
Definition MR_va : Z := 0.
Definition MR_npages : Z := 8.
Definition MR_seg_type : Z := 12.
Definition sizeof_region : Z := 16.

(** prot_to_type(PROT_WRITE | PROT_READ, 1) and the like *)
Definition perm_user_rw : Z := prot_to_type (Z.lor PROT_WRITE PROT_READ) true.
Definition perm_kern_rw : Z := prot_to_type (Z.lor PROT_WRITE PROT_READ) false.
Definition perm_kern_rx : Z := prot_to_type (Z.lor PROT_READ PROT_EXEC) false.
Definition perm_user_rwx : Z := prot_to_type (Z.lor (Z.lor PROT_WRITE PROT_READ) PROT_EXEC) true.

Section Process.
Context {PLAT : Platform}.

(* ------------------------------------------------------------------ *)
(** * The code *)

Definition init_proc_pool : K unit :=
  modify (fun s => set_k_procs (replicate NPROC null_proc) s) ;;;
  kfor (seq 0 NPROC) (fun i =>
    setp i (fun p => set_p_total_mem_count 0 (set_p_total_tick_count 0 (set_p_tick_count 0
                      (set_p_pid (Z.of_nat i) (set_p_status FREE p)))))).

(** the first process structure that is FREE *)
Definition find_free_proc (s : kstate) : option nat :=
  fst <$> list_find (fun p => p_status p = FREE) (take NPROC (k_procs s)).

(** [mapped_info[j]] *)
Definition region (info j : Z) : Z := info + sizeof_region * j.
Definition set_region (info j va npages seg_type : Z) : K unit :=
  st64 (region info j + MR_va) va ;;;
  st32 (region info j + MR_npages) npages ;;;
  st32 (region info j + MR_seg_type) seg_type.

(** the page mappings and regions every address space starts with: user stack,
    trapframe and trap vector (alloc_process and realloc_process) *)
Definition map_initial (i : nat) (user_stack : Z) : K unit :=
  pt <- getp i p_pagetable ;; tf <- getp i p_trapframe ;; info <- getp i p_mapped_info ;;
  user_vm_map pt (USER_STACK_TOP - PGSIZE) PGSIZE user_stack perm_user_rw ;;;
  set_region info 0 (USER_STACK_TOP - PGSIZE) 1 STACK_SEGMENT ;;;
  user_vm_map pt tf PGSIZE tf perm_kern_rw ;;;
  set_region info 1 tf 1 CONTEXT_SEGMENT ;;;
  user_vm_map pt trap_sec_start PGSIZE trap_sec_start perm_kern_rx ;;;
  set_region info 2 trap_sec_start 1 SYSTEM_SEGMENT.

Definition alloc_process : K nat :=
  o <- gets find_free_proc ;;
  match o with
  | None => panic "cannot find any free process structure."
  | Some i =>
      setp i (set_p_total_mem_count 0) ;;;
      tf <- alloc_page ;; setp i (set_p_trapframe tf) ;;;
      memset tf 0 TF_size ;;;
      pt <- alloc_page ;; setp i (set_p_pagetable pt) ;;;
      memset pt 0 PGSIZE ;;;
      ks <- alloc_page ;; setp i (set_p_kstack (u64 (ks + PGSIZE))) ;;;
      user_stack <- alloc_page ;;
      st64 (tf + TF_sp) USER_STACK_TOP ;;;
      info <- alloc_page ;; setp i (set_p_mapped_info info) ;;;
      memset info 0 PGSIZE ;;;
      map_initial i user_stack ;;;
      setp i (set_p_total_mapped_region 3) ;;;
      setp i (set_p_total_tick_count 0) ;;;
      setp i (set_p_tick_count 0) ;;;
      pf <- files_create ;; setp i (set_p_pfiles pf) ;;;
      ret i
  end.

Definition free_process (proc : nat) : K Z :=
  setp proc (set_p_status ZOMBIE) ;;; ret 0.

(** [for (j = 0; j < p->total_mapped_region; ++j)]: the bound is read again at
    each iteration *)
Definition for_regions (i : nat) (body : Z -> K unit) : K unit :=
  kwhile (fun j =>
    n <- getp i p_total_mapped_region ;;
    if j <? n then body j ;;; ret (inl (j + 1)) else ret (inr tt)) 0.

(** unmapping of one region, by its type (realloc_process and do_wait) *)
Definition unmap_region (i : nat) (j : Z) : K unit :=
  pt <- getp i p_pagetable ;; info <- getp i p_mapped_info ;;
  ty <- ld32 (region info j + MR_seg_type) ;;
  va <- ld64 (region info j + MR_va) ;;
  npages <- ld32 (region info j + MR_npages) ;;
  let size := u32 (npages * PGSIZE) in
  if (ty =? STACK_SEGMENT) || (ty =? CONTEXT_SEGMENT) || (ty =? DATA_SEGMENT)
  then user_vm_unmap pt va size true
  else if ty =? CODE_SEGMENT then user_vm_unmap pt va size false
  else ret tt.

Definition realloc_process (i : nat) : K unit :=
  for_regions i (unmap_region i) ;;;
  old <- getp i p_pagetable ;;
  free_page old ;;;
  tf <- alloc_page ;; setp i (set_p_trapframe tf) ;;;
  memset tf 0 TF_size ;;;
  pt <- alloc_page ;; setp i (set_p_pagetable pt) ;;;
  memset pt 0 PGSIZE ;;;
  user_stack <- alloc_page ;;
  st64 (tf + TF_sp) USER_STACK_TOP ;;;
  info <- getp i p_mapped_info ;;
  memset info 0 PGSIZE ;;;
  map_initial i user_stack ;;;
  setp i (set_p_total_mapped_region 3) ;;;
  setp i (set_p_tick_count 0) ;;;
  setp i (set_p_total_tick_count 0) ;;;
  setp i (set_p_total_mem_count 3).

(** [*child->trapframe = *parent->trapframe] *)
Definition copy_trapframe (dst src : Z) : K unit :=
  kfor (seq 0 35) (fun k => v <- ld64 (src + 8 * Z.of_nat k) ;; st64 (dst + 8 * Z.of_nat k) v).

(** the region the child registers for a code or data segment *)
Definition register_region (child : nat) (va npages seg_type : Z) : K unit :=
  info <- getp child p_mapped_info ;;
  n <- getp child p_total_mapped_region ;;
  set_region info n va npages seg_type ;;;
  setp child (set_p_total_mapped_region (s32 (n + 1))).

(** one region of the parent, by its type *)
Definition fork_region (parent child : nat) (i : Z) : K unit :=
  info <- getp parent p_mapped_info ;;
  cinfo <- getp child p_mapped_info ;;
  ppt <- getp parent p_pagetable ;; cpt <- getp child p_pagetable ;;
  ptf <- getp parent p_trapframe ;; ctf <- getp child p_trapframe ;;
  ty <- ld32 (region info i + MR_seg_type) ;;
  va <- ld64 (region info i + MR_va) ;;
  npages <- ld32 (region info i + MR_npages) ;;
  if ty =? CONTEXT_SEGMENT then copy_trapframe ctf ptf
  else if ty =? STACK_SEGMENT then
    cva <- ld64 (region cinfo 0 + MR_va) ;;
    dst <- lookup_pa cpt cva ;;
    src <- lookup_pa ppt va ;;
    memcpy dst src PGSIZE ;;; ret tt
  else if ty =? CODE_SEGMENT then
    kfor (seq 0 (Z.to_nat npages)) (fun j =>
      let a := u64 (va + Z.of_nat j * PGSIZE) in
      addr <- lookup_pa ppt a ;;
      map_pages cpt a PGSIZE addr perm_user_rwx ;;; ret tt) ;;;
    register_region child va npages CODE_SEGMENT
  else if ty =? DATA_SEGMENT then
    kfor (seq 0 (Z.to_nat npages)) (fun j =>
      let a := u64 (va + Z.of_nat j * PGSIZE) in
      pa <- alloc_page ;;
      addr <- lookup_pa ppt a ;;
      memcpy pa addr PGSIZE ;;;
      map_pages cpt a PGSIZE pa perm_user_rw ;;; ret tt) ;;;
    register_region child va npages DATA_SEGMENT
  else ret tt.

Definition do_fork (parent : nat) : K Z :=
  child <- alloc_process ;;
  for_regions parent (fork_region parent child) ;;;
  setp child (set_p_status READY) ;;;
  ctf <- getp child p_trapframe ;;
  st64 (ctf + TF_a0) 0 ;;;
  setp child (set_p_parent (Some parent)) ;;;
  setp child (set_p_tick_count 0) ;;;
  setp child (set_p_total_tick_count 0) ;;;
  n <- getp child p_total_mapped_region ;;
  setp child (set_p_total_mem_count n) ;;;
  insert_to_ready_queue child ;;;
  pid <- getp child p_pid ;;
  ret (s32 pid).

(** the reaping of a zombie child *)
Definition reap (i : nat) : K Z :=
  child_pid <- getp i p_pid ;;
  ks <- getp i p_kstack ;;
  free_page (u64 (ks - PGSIZE)) ;;;
  for_regions i (unmap_region i) ;;;
  info <- getp i p_mapped_info ;;
  free_page info ;;;
  pt <- getp i p_pagetable ;;
  free_page pt ;;;
  setp i (fun p => set_p_total_tick_count 0 (set_p_total_mem_count 0 (set_p_tick_count 0
                    (set_p_queue_next None (set_p_parent None (set_p_status FREE p)))))) ;;;
  ret (s32 child_pid).

Definition do_wait (pid : Z) : K Z :=
  kwhile (fun '(i, havekids) =>
    if Nat.ltb i NPROC then
      parent <- getp i p_parent ;;
      cur <- gets k_current ;;
      cpid <- getp i p_pid ;;
      if negb (bool_decide (parent = cur)) then ret (inl (S i, havekids))
      else if (0 <? pid) && negb (u64 pid =? cpid) then ret (inl (S i, havekids))
      else
        st <- getp i p_status ;;
        if bool_decide (st = ZOMBIE) then r <- reap i ;; ret (inr r)
        else ret (inl (S i, true))
    else ret (inr (if havekids then -2 else -1))) (0%nat, false).

(** the counts do_getinfo prints: total, READY, RUNNING, BLOCKED, ZOMBIE *)
Definition status_counts (s : kstate) : nat * nat * nat * nat * nat :=
  let ps := take NPROC (k_procs s) in
  let n st := length (filter (fun p => p_status p = st) ps) in
  (length (filter (fun p => p_status p <> FREE) ps), n READY, n RUNNING, n BLOCKED, n ZOMBIE).
Definition do_getinfo : K Z := ret 1.
(* ------------------------------------------------------------------ *)
(** * Regions and initial mappings *)

(** writing outside the tables and the free pages keeps a page table *)
Lemma pt_ok_write root s T l m P :
  pt_ok free_pages root s T l -> same_outside P (k_mem s) m ->
  P ## table_pages T -> (forall p, p ∈ l -> p ∉ P) ->
  pt_ok free_pages root (set_k_mem m s) T l /\
  forall a, leaf m T a = leaf (k_mem s) T a.
Proof.
  intros (Hr & Hf & Hsep) Hm Hd Hl. split; [split_and!|].
  - by eapply pt_rep_outside.
  - by eapply pa_write.
  - done.
  - intros a. by eapply leaf_outside.
Qed.

(** what [mapped_info[j]] holds *)
Definition region_is (m : gmap Z Z) (info j va npages ty : Z) : Prop :=
  load64 m (region info j + MR_va) = va /\ load32 m (region info j + MR_npages) = npages /\
  load32 m (region info j + MR_seg_type) = ty.

Lemma region_addr info j o n :
  page_ok info -> 0 <= j < 256 -> 0 <= o -> 0 < n -> o + n <= 16 -> o mod n = 0 -> 16 mod n = 0 ->
  addr_ok n (region info j + o) = true /\ page_of (region info j + o) = info.
Proof.
  intros Hp Hj Ho Hn Hon Hom Hnm. unfold region, sizeof_region.
  replace (info + 16 * j + o) with (info + (16 * j + o)) by lia.
  assert (Hm : forall k, (16 * k) mod n = 0).
  { intros k. apply Z.mod_divide in Hnm; [|lia]. apply Z.mod_divide; [lia|]. by apply Z.divide_mul_l. }
  split; [|apply page_of_slot; [done|unfold PGSIZE; lia]].
  apply page_ok_addr; try done; unfold PGSIZE; try lia.
  - apply (Hm 256).
  - rewrite Z.add_mod, Hm, Hom by lia. by rewrite Z.mod_0_l by lia.
Qed.

Lemma set_region_spec s info j va npages ty :
  page_ok info -> 0 <= j < 256 -> 0 <= va < 2 ^ 64 -> 0 <= npages < 2 ^ 32 -> 0 <= ty < 2 ^ 32 ->
  exists m, set_region info j va npages ty s = Ok tt (set_k_mem m s) /\
    same_outside {[info]} (k_mem s) m /\ region_is m info j va npages ty /\
    (forall k, 0 <= k < 256 -> k <> j -> forall v n t,
       region_is (k_mem s) info k v n t -> region_is m info k v n t).
Proof.
  intros Hp Hj Hva Hn Hty.
  destruct (region_addr info j MR_va 8) as [A1 P1]; try done.
  destruct (region_addr info j MR_npages 4) as [A2 P2]; try done.
  destruct (region_addr info j MR_seg_type 4) as [A3 P3]; try done.
  unfold set_region. rewrite (bind_Ok _ _ _ _ _ (st64_ok _ va s A1)).
  erewrite bind_Ok; [|apply st32_ok, A2]. rewrite st32_ok by apply A3. simpl.
  eexists. split; [done|].
  assert (Hal : info mod 16 = 0) by (destruct Hp; unfold PGSIZE in *; dlia).
  assert (F2 : field_ok 32 (region info j + MR_npages)).
  { apply field_ok_32. unfold region, sizeof_region, MR_npages. dlia. }
  assert (F3 : field_ok 32 (region info j + MR_seg_type)).
  { apply field_ok_32. unfold region, sizeof_region, MR_seg_type. dlia. }
  assert (B2 : bit_off (region info j + MR_npages) = 0) by (unfold bit_off, region, sizeof_region, MR_npages; dlia).
  assert (B3 : bit_off (region info j + MR_seg_type) = 32) by (unfold bit_off, region, sizeof_region, MR_seg_type; dlia).
  assert (W : forall k o k' o', 0 <= o < 16 -> 0 <= o' < 16 -> k <> k' \/ o / 8 <> o' / 8 ->
     (region info k + o) / 8 <> (region info k' + o') / 8).
  { intros k o k' o' ? ? Hd. unfold region, sizeof_region. dlia. }
  split; [|split].
  - etrans; [|eapply same_outside_mono; [|apply storen_outside]; by rewrite P3].
    etrans; [|eapply same_outside_mono; [|apply storen_outside]; by rewrite P2].
    eapply same_outside_mono; [|apply store64_outside]. by rewrite P1.
  - unfold region_is, load32, store32. split_and!.
    + rewrite !load64_storen_ne by (apply W; unfold MR_va, MR_npages, MR_seg_type; try lia; right; done).
      rewrite load64_store64_eq. by apply u64_small.
    + rewrite loadn_storen_ne by (try done; right; right; rewrite B2, B3; lia).
      rewrite loadn_storen_eq by done. by apply Z.mod_small.
    + rewrite loadn_storen_eq by done. by apply Z.mod_small.
  - intros k Hk Hne v n t (E1 & E2 & E3). unfold region_is, load32, store32, loadn in *.
    by rewrite !load64_storen_ne, !load64_store64_ne by (apply W; unfold MR_va, MR_npages, MR_seg_type; try lia; by left).
Qed.
(** mapping one page *)
Lemma user_map_page root s T l va pa perm :
  pt_ok free_pages root s T l -> va mod PGSIZE = 0 -> 0 <= va -> va + PGSIZE <= MAXVA ->
  0 <= perm < 1024 -> 0 <= pa < 2 ^ 64 - PGSIZE ->
  (forall a, page_of a = va -> flag (leaf (k_mem s) T a) PTE_V = false) -> (2 <= length l)%nat ->
  exists s' T' l', user_vm_map root va PGSIZE pa perm s = Ok tt s' /\
    pt_ok free_pages root s' T' l' /\ pt_step free_pages root (s, T, l) (s', T', l') /\
    (length l <= length l' + 2)%nat /\
    (forall a, 0 <= a < MAXVA -> leaf (k_mem s') T' a =
       if decide (page_of a = va) then mkpte pa perm else leaf (k_mem s) T a).
Proof.
  intros Hok Hal Hva Hmax Hp Hpa Hinv Hl.
  destruct (user_vm_map_spec root s T l va 1 pa perm) as (s' & T' & l' & E & Hst & Hlen & Hlf);
    try done; try (unfold PGSIZE in *; lia).
  { intros a Ha. apply Hinv. apply page_of_in; [done|unfold PGSIZE in *; lia]. }
  exists s', T', l'. split_and!; [done|by eapply pt_step_ok|done|lia|].
  intros a Ha. rewrite Hlf by done.
  pose proof (page_of_iff va a Hal) as Hiff. unfold PGSIZE in *.
  repeat case_decide; try done; try (exfalso; tauto || lia).
  - f_equal. assert (page_of a = va) by (apply Hiff; lia). lia.
Qed.

(** the address space a process starts with *)
Definition initial_leaf (tf user_stack : Z) (a : Z) : Z :=
  if decide (page_of a = USER_STACK_TOP - PGSIZE) then mkpte user_stack perm_user_rw
  else if decide (page_of a = tf) then mkpte tf perm_kern_rw
  else if decide (page_of a = trap_sec_start) then mkpte trap_sec_start perm_kern_rx
  else 0.

Definition initial_regions (m : gmap Z Z) (info tf : Z) : Prop :=
  region_is m info 0 (USER_STACK_TOP - PGSIZE) 1 STACK_SEGMENT /\
  region_is m info 1 tf 1 CONTEXT_SEGMENT /\
  region_is m info 2 trap_sec_start 1 SYSTEM_SEGMENT.

Lemma leaf_page m T a b : page_of a = page_of b -> leaf m T a = leaf m T b.
Proof.
  intros E. unfold leaf. rewrite (idx_path_page a b 0 E). by rewrite (PX_page 0 a b ltac:(lia) E).
Qed.

(** one mapping and its region *)
Lemma map_and_record root s T l info j va pa perm ty :
  pt_ok free_pages root s T l -> page_ok info -> info ∉ table_pages T -> info ∉ l ->
  va mod PGSIZE = 0 -> 0 <= va -> va + PGSIZE <= MAXVA -> 0 <= perm < 1024 ->
  0 <= pa < 2 ^ 64 - PGSIZE -> 0 <= ty < 2 ^ 32 -> 0 <= j < 256 ->
  (forall a, page_of a = va -> flag (leaf (k_mem s) T a) PTE_V = false) -> (2 <= length l)%nat ->
  exists s' T' l',
    (forall A (k : K A), (user_vm_map root va PGSIZE pa perm ;;; set_region info j va 1 ty ;;; k) s = k s') /\
    pt_ok free_pages root s' T' l' /\ (info ∉ table_pages T') /\ l' `suffix_of` l /\
    (length l <= length l' + 2)%nat /\ T ⊆ T' /\ kframe s s' /\
    same_outside (table_pages T' ∪ {[info]}) (k_mem s) (k_mem s') /\
    region_is (k_mem s') info j va 1 ty /\
    (forall k, 0 <= k < 256 -> k <> j -> forall v n t,
       region_is (k_mem s) info k v n t -> region_is (k_mem s') info k v n t) /\
    (forall a, 0 <= a < MAXVA -> leaf (k_mem s') T' a =
       if decide (page_of a = va) then mkpte pa perm else leaf (k_mem s) T a) /\
    (forall p, p ∈ table_pages T' -> p ∈ table_pages T \/ p ∈ l).
Proof.
  intros Hok Hi HiT Hil Hal Hva Hmax Hp Hpa Hty Hj Hinv Hl.
  destruct (user_map_page root s T l va pa perm) as (s1 & T1 & l1 & E1 & Hok1 & Hst & Hlen & Hlf); try done.
  destruct (ps_used _ _ _ Hst) as (u & Eu & Hu). cbn [fst snd] in Eu, Hu.
  assert (Hi1 : info ∉ table_pages T1).
  { intros Hin. destruct (Hu info Hin) as [?|?]; [done|]. apply Hil. rewrite Eu. set_solver. }
  assert (Hil1 : info ∉ l1) by (rewrite Eu in Hil; set_solver).
  assert (HvaM : 0 <= va < 2 ^ 64) by (unfold MAXVA, PGSIZE in *; lia).
  destruct (set_region_spec s1 info j va 1 ty) as (m & E2 & Hm & Hr & Hk); try done.
  destruct (pt_ok_write root s1 T1 l1 m {[info]} Hok1 Hm) as [Hok2 Hlf2]; [set_solver..|].
  assert (Hinfo : forall a, page_of a = info -> load64 (k_mem s1) a = load64 (k_mem s) a).
  { intros a Ha. apply (ps_mem _ _ _ Hst). cbn [fst snd]. by rewrite Ha. }
  exists (set_k_mem m s1), T1, l1. split_and!; try done.
  - intros A k. by rewrite (bind_Ok _ _ _ _ _ E1), (bind_Ok _ _ _ _ _ E2).
  - by exists u.
  - apply Hst.
  - etrans; [apply Hst|]. apply kframe_mem.
  - etrans; [eapply same_outside_mono; [|apply Hst]; cbn [fst snd]; set_solver|].
    eapply same_outside_mono; [|exact Hm]. set_solver.
  - intros k Hk' Hne v n t (R1 & R2 & R3). apply Hk; [done..|]. unfold region_is, load32, loadn.
    destruct (region_addr info k MR_va 8) as [_ P1]; try done.
    destruct (region_addr info k MR_npages 4) as [_ P2]; try done.
    destruct (region_addr info k MR_seg_type 4) as [_ P3]; try done.
    rewrite !Hinfo by done. done.
  - intros a Ha. simpl. by rewrite Hlf2, Hlf.
  - intros p Hp'. destruct (Hu p Hp') as [?|?]; [by left|right]. rewrite Eu. by apply elem_of_app; left.
Qed.
(** an address space before any mapping: root directory [pt] and region table [info] *)
Record space_ok (s : kstate) (i : nat) (l : list Z) : Prop := {
  so_pt : pt_ok free_pages (p_pagetable (proc s i)) s (fresh_table (p_pagetable (proc s i))) l;
  so_info : page_ok (p_mapped_info (proc s i));
  so_info_pt : p_mapped_info (proc s i) <> p_pagetable (proc s i);
  so_info_l : p_mapped_info (proc s i) ∉ l;
  so_tf : page_ok (p_trapframe (proc s i));
  so_trap : p_trapframe (proc s i) <> trap_sec_start
}.

Lemma map_initial_spec s i l user_stack :
  let p := proc s i in
  space_ok s i l -> page_ok user_stack -> page_ok trap_sec_start -> (6 <= length l)%nat ->
  exists s' T l', map_initial i user_stack s = Ok tt s' /\
    pt_ok free_pages (p_pagetable p) s' T l' /\ l' `suffix_of` l /\ (length l <= length l' + 6)%nat /\
    kframe s s' /\ initial_regions (k_mem s') (p_mapped_info p) (p_trapframe p) /\
    (forall a, 0 <= a < MAXVA -> leaf (k_mem s') T a = initial_leaf (p_trapframe p) user_stack a) /\
    same_outside (table_pages T ∪ {[p_mapped_info p]}) (k_mem s) (k_mem s') /\
    (forall q, q ∈ table_pages T -> q = p_pagetable p \/ q ∈ l) /\
    (forall k v n t, 3 <= k < 256 -> region_is (k_mem s) (p_mapped_info p) k v n t -> region_is (k_mem s') (p_mapped_info p) k v n t).
Proof.
  intros p [Hok Hinfo Hip Hil Htf Hne] Hus Htr Hlen. fold p in Hok, Hinfo, Hip, Hil, Htf, Hne.
  set (pt := p_pagetable p) in *. set (info := p_mapped_info p) in *. set (tf := p_trapframe p) in *.
  assert (Htab : info ∉ table_pages (fresh_table pt)) by (rewrite table_pages_fresh; set_solver).
  assert (Hb : forall q, page_ok q -> q mod PGSIZE = 0 /\ 0 <= q /\ q + PGSIZE <= MAXVA /\ 0 <= q < 2 ^ 64 - PGSIZE /\ USER_STACK_TOP <= q).
  { intros q Hq. pose proof (page_ok_range q Hq). destruct Hq as (? & ? & ?).
    assert (PHYS_TOP < MAXVA) by done. assert (USER_STACK_TOP < DRAM_BASE) by done. split_and!; lia || done. }
  destruct (Hb tf Htf) as (T1 & T2 & T3 & T4 & T5). destruct (Hb _ Htr) as (R1 & R2 & R3 & R4 & R5).
  destruct (Hb user_stack Hus) as (_ & _ & _ & U4 & _).
  assert (Hst : USER_STACK_TOP - PGSIZE < USER_STACK_TOP) by done.
  destruct (map_and_record pt s (fresh_table pt) l info 0 (USER_STACK_TOP - PGSIZE) user_stack perm_user_rw STACK_SEGMENT)
    as (s1 & Ta & l1 & E1 & Hok1 & Hi1 & Hs1 & Hn1 & Hsub1 & Hk1 & Hm1 & Hr1 & Hkeep1 & Hlf1 & Ht1); try done; try lia.
  { intros a _. by rewrite leaf_fresh. }
  assert (Hil1 : info ∉ l1) by (destruct Hs1 as [u ->]; set_solver).
  assert (Hpage : forall a q, page_of a = q -> page_ok q -> 0 <= a < MAXVA).
  { intros a q Ha Hq. pose proof (page_of_bounds a). rewrite Ha in H. destruct (Hb q Hq) as (_ & ? & ? & _). lia. }
  destruct (map_and_record pt s1 Ta l1 info 1 tf tf perm_kern_rw CONTEXT_SEGMENT)
    as (s2 & Tb & l2 & E2 & Hok2 & Hi2 & Hs2 & Hn2 & Hsub2 & Hk2 & Hm2 & Hr2 & Hkeep2 & Hlf2 & Ht2); try done; try lia.
  { intros a Ha. rewrite Hlf1 by (by eapply Hpage). rewrite decide_False by lia. by rewrite leaf_fresh. }
  assert (Hil2 : info ∉ l2) by (destruct Hs2 as [u ->]; set_solver).
  destruct (map_and_record pt s2 Tb l2 info 2 trap_sec_start trap_sec_start perm_kern_rx SYSTEM_SEGMENT)
    as (s3 & Tc & l3 & E3 & Hok3 & Hi3 & Hs3 & Hn3 & Hsub3 & Hk3 & Hm3 & Hr3 & Hkeep3 & Hlf3 & Ht3); try done; try lia.
  { intros a Ha. rewrite Hlf2, Hlf1 by (by eapply Hpage). rewrite !decide_False by (congruence || lia). by rewrite leaf_fresh. }
  exists s3, Tc, l3. split_and!; try done.
  - unfold map_initial. do 3 (erewrite bind_Ok; [|reflexivity]).
    rewrite E1, E2. specialize (E3 unit (ret tt)). unfold bind, ret in E3 |- *.
    change (p_pagetable (proc s i)) with pt. change (p_mapped_info (proc s i)) with info.
    destruct (user_vm_map _ _ _ _ _ s2) as [[] s2'| |]; [|done..].
    by destruct (set_region _ _ _ _ _ s2') as [[] ?| |].
  - by etrans; [|etrans].
  - lia.
  - by etrans; [|etrans].
  - split_and!; [apply Hkeep3, Hkeep2; done || lia|apply Hkeep3; done || lia|done].
  - intros a Ha. rewrite Hlf3, Hlf2, Hlf1, leaf_fresh by done. unfold initial_leaf.
    repeat case_decide; try done; lia.
  - pose proof (table_pages_mono _ _ Hsub2) as S2. pose proof (table_pages_mono _ _ Hsub3) as S3.
    etrans; [eapply same_outside_mono; [|exact Hm1]; clear -S2 S3; set_solver|].
    etrans; [eapply same_outside_mono; [|exact Hm2]; clear -S3; set_solver|exact Hm3].
  - intros q Hq. assert (Hin : forall x, x ∈ l1 -> x ∈ l) by (destruct Hs1 as [u ->]; set_solver).
    destruct (Ht3 q Hq) as [Hq2|Hq2]; [|right; apply Hin; destruct Hs2 as [u ->]; set_solver].
    destruct (Ht2 q Hq2) as [Hq1|Hq1]; [|right; by apply Hin].
    destruct (Ht1 q Hq1) as [Hq0|Hq0]; [|by right]. left. rewrite table_pages_fresh in Hq0. set_solver.
  - intros k v n t Hk Hr. apply Hkeep3, Hkeep2, Hkeep1; done || lia.
Qed.
(* ------------------------------------------------------------------ *)
(** * Tearing an address space down *)

(** a recorded region: start, pages, segment type *)
Record rgn := mkRgn { r_va : Z; r_npages : nat; r_type : Z }.

(** regions the teardown unmaps, and those whose pages it frees *)
Definition unmaps (r : rgn) : bool := (0 <=? r_type r) && (r_type r <? SYSTEM_SEGMENT).
Definition releases (r : rgn) : bool :=
  (r_type r =? STACK_SEGMENT) || (r_type r =? CONTEXT_SEGMENT) || (r_type r =? DATA_SEGMENT).
Definition r_in (r : rgn) (a : Z) : Prop := r_va r <= a < r_va r + PGSIZE * Z.of_nat (r_npages r).
Definition region_pages (m : gmap Z Z) (T : gmap (list Z) Z) (r : rgn) : list Z :=
  if releases r then mapped_pages m T (r_va r) (r_npages r) else [].

(** a region [unmap_region] accepts *)
Record rgn_ok (m : gmap Z Z) (T : gmap (list Z) Z) (r : rgn) : Prop := {
  ro_align : r_va r mod PGSIZE = 0;
  ro_lo : 0 <= r_va r;
  ro_hi : r_va r + PGSIZE * Z.of_nat (r_npages r) <= MAXVA;
  ro_size : Z.of_nat (r_npages r) < 2 ^ 20;
  ro_leaf i : (i < r_npages r)%nat -> unmappable (leaf m T (r_va r + PGSIZE * Z.of_nat i))
}.

Lemma region_is_outside P m m' info j va n ty :
  page_ok info -> 0 <= j < 256 -> info ∉ P -> same_outside P m m' ->
  region_is m info j va n ty -> region_is m' info j va n ty.
Proof.
  intros Hp Hj Hi Hm (E1 & E2 & E3).
  destruct (region_addr info j MR_va 8) as [_ P1]; try done.
  destruct (region_addr info j MR_npages 4) as [_ P2]; try done.
  destruct (region_addr info j MR_seg_type 4) as [_ P3]; try done.
  unfold region_is, load32, loadn in *. rewrite !Hm; [done|congruence..].
Qed.

Lemma unmap_region_spec s i T l j r :
  let pt := p_pagetable (proc s i) in
  let info := p_mapped_info (proc s i) in
  let pas := region_pages (k_mem s) T r in
  pt_ok free_pages pt s T l -> page_ok info -> 0 <= j < 256 ->
  region_is (k_mem s) info j (r_va r) (Z.of_nat (r_npages r)) (r_type r) ->
  (unmaps r = true -> rgn_ok (k_mem s) T r) -> NoDup pas -> (forall p, p ∈ pas -> returnable s T l p) ->
  exists s', unmap_region i j s = Ok tt s' /\
    pt_ok free_pages pt s' T (reverse pas ++ l) /\ kframe s s' /\
    same_outside (table_pages T ∪ list_to_set pas) (k_mem s) (k_mem s') /\
    (forall a, 0 <= a < MAXVA -> ~ (unmaps r = true /\ r_in r a) -> leaf (k_mem s') T a = leaf (k_mem s) T a).
Proof.
  intros pt info pas Hok Hinfo Hj (E1 & E2 & E3) Hr Hnd Hret.
  destruct (region_addr info j MR_va 8) as [A1 _]; try done.
  destruct (region_addr info j MR_npages 4) as [A2 _]; try done.
  destruct (region_addr info j MR_seg_type 4) as [A3 _]; try done.
  unfold unmap_region. do 2 (erewrite bind_Ok; [|reflexivity]). fold pt info.
  rewrite (bind_Ok _ _ _ _ _ (ld32_ok _ s A3)), (bind_Ok _ _ _ _ _ (ld64_ok _ s A1)),
    (bind_Ok _ _ _ _ _ (ld32_ok _ s A2)). rewrite E1, E2, E3. cbv zeta. fold (releases r).
  assert (Hdone : unmaps r = false -> pas = [] ->
    exists s', ret tt s = Ok tt s' /\ pt_ok free_pages pt s' T (reverse pas ++ l) /\ kframe s s' /\
      same_outside (table_pages T ∪ list_to_set pas) (k_mem s) (k_mem s') /\
      (forall a, 0 <= a < MAXVA -> ~ (unmaps r = true /\ r_in r a) -> leaf (k_mem s') T a = leaf (k_mem s) T a)).
  { intros _ ->. by exists s. }
  assert (Hun : forall fr : bool, unmaps r = true -> pas = (if fr then mapped_pages (k_mem s) T (r_va r) (r_npages r) else []) ->
    exists s', user_vm_unmap pt (r_va r) (u32 (Z.of_nat (r_npages r) * PGSIZE)) fr s = Ok tt s' /\
      pt_ok free_pages pt s' T (reverse pas ++ l) /\ kframe s s' /\
      same_outside (table_pages T ∪ list_to_set pas) (k_mem s) (k_mem s') /\
      (forall a, 0 <= a < MAXVA -> ~ (unmaps r = true /\ r_in r a) -> leaf (k_mem s') T a = leaf (k_mem s) T a)).
  { intros fr Hu Hpas. destruct (Hr Hu) as [R1 R2 R3 R4 R5].
    destruct (user_vm_unmap_spec (free := free_pages) pt s T l (r_va r) (r_npages r) fr) as (s' & E & Hok' & Hk & Hm & Hlf); try done.
    { intros ->. by rewrite <- Hpas. }
    replace (u32 (Z.of_nat (r_npages r) * PGSIZE)) with (PGSIZE * Z.of_nat (r_npages r))
      by (unfold u32; rewrite Z.mod_small; unfold PGSIZE; lia).
    exists s'. rewrite Hpas in *. split_and!; [done|by destruct fr|done|by destruct fr|].
    intros a Ha Hn. rewrite Hlf by done. apply decide_False. intros Hin. apply Hn. by split. }
  unfold pas, region_pages, releases, unmaps in *.
  destruct (Z.eqb_spec (r_type r) STACK_SEGMENT) as [->|N1]; [by apply (Hun true)|].
  destruct (Z.eqb_spec (r_type r) CONTEXT_SEGMENT) as [->|N2]; [by apply (Hun true)|].
  destruct (Z.eqb_spec (r_type r) DATA_SEGMENT) as [->|N3]; [by apply (Hun true)|]. simpl orb in *. cbn match in *.
  destruct (Z.eqb_spec (r_type r) CODE_SEGMENT) as [E4|N4]; [apply (Hun false); [by rewrite E4|done]|].
  apply Hdone; [|done]. unfold STACK_SEGMENT, CONTEXT_SEGMENT, DATA_SEGMENT, CODE_SEGMENT, SYSTEM_SEGMENT in *.
  destruct (Z.leb_spec 0 (r_type r)), (Z.ltb_spec (r_type r) 4); lia || done.
Qed.
(** the region table of an address space: what is recorded, and that the regions
    are disjoint *)
Record regions_ok (m : gmap Z Z) (T : gmap (list Z) Z) (info : Z) (rs : list rgn) : Prop := {
  rs_info : page_ok info;
  rs_len : (length rs <= 256)%nat;
  rs_is (j : nat) r : rs !! j = Some r -> region_is m info (Z.of_nat j) (r_va r) (Z.of_nat (r_npages r)) (r_type r);
  rs_ok r : r ∈ rs -> unmaps r = true -> rgn_ok m T r;
  rs_disj (j k : nat) r r' a : rs !! j = Some r -> rs !! k = Some r' -> (j < k)%nat ->
     unmaps r = true -> unmaps r' = true -> r_in r a -> ~ r_in r' a
}.

(** the pages a teardown gives back *)
Definition released (m : gmap Z Z) (T : gmap (list Z) Z) (rs : list rgn) : list Z :=
  concat (region_pages m T <$> rs).

Lemma released_take m T rs j r :
  rs !! j = Some r -> released m T (take (S j) rs) = released m T (take j rs) ++ region_pages m T r.
Proof.
  intros H. unfold released. rewrite (take_S_r rs j r H), fmap_app, concat_app. simpl. by rewrite app_nil_r.
Qed.
Lemma released_prefix m T rs j : released m T (take j rs) `prefix_of` released m T rs.
Proof.
  exists (released m T (drop j rs)). unfold released. rewrite <- concat_app, <- fmap_app. by rewrite take_drop.
Qed.

Lemma region_pages_same m m' T r :
  (forall a, unmaps r = true -> r_in r a -> leaf m' T a = leaf m T a) -> region_pages m' T r = region_pages m T r.
Proof.
  intros H. unfold region_pages. destruct (releases r) eqn:E; [|done].
  assert (Hu : unmaps r = true).
  { unfold releases, unmaps in *. unfold STACK_SEGMENT, CONTEXT_SEGMENT, DATA_SEGMENT, SYSTEM_SEGMENT in *.
    repeat (apply orb_true_iff in E as [E|E]); apply Z.eqb_eq in E; by rewrite E. }
  apply list_fmap_ext. intros k i [-> Hi]%lookup_seq. rewrite H; [done..|]. unfold r_in, PGSIZE. lia.
Qed.
Lemma rgn_ok_same m m' T r :
  unmaps r = true -> (forall a, r_in r a -> leaf m' T a = leaf m T a) -> rgn_ok m T r -> rgn_ok m' T r.
Proof.
  intros Hu H [? ? ? ? Hl]. split; try done. intros i Hi. rewrite H; [by apply Hl|]. unfold r_in, PGSIZE. lia.
Qed.

(** every region is unmapped, and the pages of the stack, trapframe and data
    regions are free again *)
Lemma unmap_regions_spec s i T l rs :
  let pt := p_pagetable (proc s i) in
  let info := p_mapped_info (proc s i) in
  let pas := released (k_mem s) T rs in
  pt_ok free_pages pt s T l -> regions_ok (k_mem s) T info rs -> p_total_mapped_region (proc s i) = Z.of_nat (length rs) ->
  info ∉ table_pages T -> info ∉ pas -> NoDup pas -> (forall p, p ∈ pas -> returnable s T l p) ->
  exists s' l', for_regions i (unmap_region i) s = Ok tt s' /\
    pt_ok free_pages pt s' T l' /\ l' ≡ₚ pas ++ l /\ kframe s s' /\
    same_outside (table_pages T ∪ list_to_set pas) (k_mem s) (k_mem s').
Proof.
  intros pt info pas Hok Hrs Htot Hit Hip Hnd Hret. unfold for_regions.
  set (pre j := released (k_mem s) T (take j rs)).
  apply (kwhile_rule
    (fun x s2 => exists (j : nat) l2, x = Z.of_nat j /\ (j <= length rs)%nat /\
       pt_ok free_pages pt s2 T l2 /\ l2 ≡ₚ pre j ++ l /\ kframe s s2 /\
       same_outside (table_pages T ∪ list_to_set (pre j)) (k_mem s) (k_mem s2) /\
       (forall k r a, (j <= k)%nat -> rs !! k = Some r -> unmaps r = true -> r_in r a ->
          leaf (k_mem s2) T a = leaf (k_mem s) T a))
    (fun x => Z.of_nat (length rs) - x)
    (fun o => exists s' l', o = Ok tt s' /\
      pt_ok free_pages pt s' T l' /\ l' ≡ₚ pas ++ l /\ kframe s s' /\
      same_outside (table_pages T ∪ list_to_set pas) (k_mem s) (k_mem s'))).
  - exists 0%nat, l. by split_and!; [|lia| | | | |].
  - pose proof (rs_len _ _ _ _ Hrs). lia.
  - intros x s2 (j & l2 & -> & Hj & Hok2 & Hl2 & Hk2 & Hm2 & Hlf2).
    erewrite bind_Ok; [|reflexivity]. rewrite (kframe_proc p_total_mapped_region s s2 i) by done. rewrite Htot.
    destruct (Z.ltb_spec (Z.of_nat j) (Z.of_nat (length rs))) as [Hlt|Hge].
    2:{ assert (j = length rs) as -> by lia. unfold pre in *. rewrite firstn_all in *. by exists s2, l2. }
    destruct (lookup_lt_is_Some_2 rs j ltac:(lia)) as [r Hr].
    pose proof (released_prefix (k_mem s) T rs (S j)) as [u Hu]. rewrite (released_take _ _ _ _ _ Hr) in Hu.
    fold pas (pre j) in Hu. assert (Hnd' := Hnd). rewrite Hu in Hnd'.
    apply NoDup_app in Hnd' as (Hnd1 & _ & _). apply NoDup_app in Hnd1 as (_ & Hdj & Hndr).
    assert (Hpg : region_pages (k_mem s2) T r = region_pages (k_mem s) T r).
    { apply region_pages_same. intros a Ha1 Ha2. by apply (Hlf2 j r a). }
    destruct (unmap_region_spec s2 i T l2 (Z.of_nat j) r) as (s3 & E & Hok3 & Hk3 & Hm3 & Hlf3).
    + rewrite (kframe_proc p_pagetable s s2 i) by done. exact Hok2.
    + rewrite (kframe_proc p_mapped_info s s2 i) by done. apply Hrs.
    + pose proof (rs_len _ _ _ _ Hrs). lia.
    + rewrite (kframe_proc p_mapped_info s s2 i) by done.
      eapply region_is_outside; [apply Hrs|pose proof (rs_len _ _ _ _ Hrs); lia| |exact Hm2|by eapply rs_is].
      fold info. intros [Hx|Hx%elem_of_list_to_set]%elem_of_union; [done|]. apply Hip. rewrite Hu. set_solver.
    + intros Hun. eapply rgn_ok_same; [done| |apply (rs_ok _ _ _ _ Hrs); [by eapply list_elem_of_lookup_2|done]].
      intros a Ha. by apply (Hlf2 j r a).
    + by rewrite Hpg.
    + rewrite Hpg. intros p Hp. destruct (Hret p) as (F1 & F2 & F3 & F4); [rewrite Hu; set_solver|].
      destruct (kframe_bounds _ _ Hk2) as [Eb1 Eb2]. split_and!; [|done| |done].
      * unfold freeable, in_pool in *. by rewrite Eb1, Eb2.
      * rewrite Hl2. intros [Hx|Hx]%elem_of_app; [by apply (Hdj p)|done].
    + rewrite (kframe_proc p_pagetable s s2 i) in Hok3 by done. fold pt in Hok3. rewrite Hpg in Hok3, Hm3.
      rewrite (bind_Ok _ _ _ _ _ E). simpl. split; [|lia].
      exists (S j), (reverse (region_pages (k_mem s) T r) ++ l2). unfold pre in *. rewrite (released_take _ _ _ _ _ Hr).
      split_and!; [lia|lia|done| |by etrans| |].
      * rewrite Hl2, reverse_Permutation. rewrite !app_assoc. apply Permutation_app_tail, Permutation_app_comm.
      * etrans; [eapply same_outside_mono; [|exact Hm2]|eapply same_outside_mono; [|exact Hm3]]; set_solver.
      * intros k r' a Hk Hr' Hu' Ha. rewrite Hlf3; [apply (Hlf2 k r' a); (done || lia)| |].
        { destruct (rs_ok _ _ _ _ Hrs r' (list_elem_of_lookup_2 _ _ _ Hr') Hu') as [_ ? ? _ _]. unfold r_in in Ha. lia. }
        intros [Hu0 Ha0]. by apply (rs_disj _ _ _ _ Hrs j k r r' a).
Qed.
(** reaping a zombie: the pages given back are its kernel stack, the pages of its
    stack, trapframe and data regions, its region table and its page directory *)
Definition reap_pages (s : kstate) (i : nat) (T : gmap (list Z) Z) (rs : list rgn) : list Z :=
  p_kstack (proc s i) - PGSIZE ::
  released (k_mem s) T rs ++ [p_mapped_info (proc s i); p_pagetable (proc s i)].

Record zombie_space (s : kstate) (i : nat) (T : gmap (list Z) Z) (l : list Z) (rs : list rgn) : Prop := {
  zs_pt : pt_ok free_pages (p_pagetable (proc s i)) s T l;
  zs_regions : regions_ok (k_mem s) T (p_mapped_info (proc s i)) rs;
  zs_total : p_total_mapped_region (proc s i) = Z.of_nat (length rs);
  zs_nodup : NoDup (reap_pages s i T rs);
  zs_owned p : p ∈ reap_pages s i T rs ->
    freeable s p /\ page_ok p /\ (p ∉ l) /\ (p ∈ table_pages T -> p = p_pagetable (proc s i))
}.

Lemma freeable_frame s s' p : kframe s s' -> freeable s p -> freeable s' p.
Proof. intros [E1 E2]%kframe_bounds. unfold freeable, in_pool. by rewrite E1, E2. Qed.

Lemma reap_spec s i T l rs :
  (i < length (k_procs s))%nat -> zombie_space s i T l rs ->
  exists s' l', reap i s = Ok (s32 (p_pid (proc s i))) s' /\
    free_pages s' l' /\ l' ≡ₚ reap_pages s i T rs ++ l /\
    p_status (proc s' i) = FREE /\ p_parent (proc s' i) = None /\
    (forall j, j <> i -> p_status (proc s' j) = p_status (proc s j) /\ p_parent (proc s' j) = p_parent (proc s j)).
Proof.
  intros Hi [Hok Hrs Htot Hnd Hown]. unfold reap_pages in *.
  set (ks := p_kstack (proc s i) - PGSIZE) in *. set (pas := released (k_mem s) T rs) in *.
  set (info := p_mapped_info (proc s i)) in *. set (pt := p_pagetable (proc s i)) in *.
  apply NoDup_cons in Hnd as [Hks Hnd]. apply NoDup_app in Hnd as (Hnd & Hdj & Hnd2).
  apply NoDup_cons in Hnd2 as [Hip _].
  assert (Hipt : info <> pt) by set_solver.
  assert (Hptt : pt ∈ table_pages T).
  { apply elem_of_table_pages. exists []. apply Hok. }
  destruct (Hown ks) as (K1 & K2 & K3 & K4); [set_solver|].
  assert (Hku : u64 ks = ks) by (apply u64_small; pose proof (page_ok_range ks K2); unfold PGSIZE in *; lia).
  destruct Hok as (Hr & Hf & Hsep).
  destruct (free_page_spec s ks l Hf K1 K2 K3) as (s1 & E1 & Hf1 & Hk1 & Hm1).
  assert (Hkt : ks ∉ table_pages T) by (intros Hx; apply K4 in Hx; set_solver).
  assert (Hlf : forall a, leaf (k_mem s1) T a = leaf (k_mem s) T a) by (intros a; eapply leaf_outside; [done..|set_solver]).
  assert (Hpas : released (k_mem s1) T rs = pas).
  { unfold pas, released. f_equal. apply list_fmap_ext. intros k r _. apply region_pages_same. intros; apply Hlf. }
  assert (Hinfo1 : p_mapped_info (proc s1 i) = info) by (by apply (kframe_proc p_mapped_info)).
  assert (Hpt1 : p_pagetable (proc s1 i) = pt) by (by apply (kframe_proc p_pagetable)).
  destruct (unmap_regions_spec s1 i T (ks :: l) rs) as (s2 & l2 & E2 & (_ & Hf2 & _) & Hl2 & Hk2 & Hm2).
  { rewrite Hpt1. split_and!; [eapply pt_rep_outside; [done..|set_solver]|done|].
    intros p [->|Hp]%elem_of_cons; [done|by apply Hsep]. }
  { rewrite Hinfo1. destruct Hrs as [R1 R2 R3 R4 R5]. split; try done.
    - intros j r Hj. eapply region_is_outside; [done| |..|exact Hm1|by apply R3]; [|set_solver].
      apply lookup_lt_Some in Hj. lia.
    - intros r Hin Hu. eapply rgn_ok_same; [done| |by apply R4]. intros; apply Hlf. }
  { by rewrite (kframe_proc p_total_mapped_region s s1 i). }
  { rewrite Hinfo1. intros Hx. apply Hipt. apply (Hown info); [set_solver|done]. }
  { rewrite Hinfo1, Hpas. set_solver. }
  { by rewrite Hpas. }
  { rewrite Hpas. intros p Hp. destruct (Hown p) as (F1 & F2 & F3 & F4); [set_solver|].
    split_and!; [by eapply freeable_frame|done|set_solver|]. intros Hx. apply F4 in Hx. set_solver. }
  rewrite Hpas in Hl2.
  destruct (Hown info) as (I1 & I2 & I3 & _); [set_solver|].
  destruct (Hown pt) as (P1 & P2 & P3 & _); [set_solver|].
  assert (Hk12 : kframe s s2) by (by etrans).
  destruct (free_page_spec s2 info l2 Hf2) as (s3 & E3 & Hf3 & Hk3 & _); [by eapply freeable_frame|done|rewrite Hl2; set_solver|].
  destruct (free_page_spec s3 pt (info :: l2) Hf3) as (s4 & E4 & Hf4 & Hk4 & _);
    [eapply freeable_frame; [|exact P1]; by etrans|done|rewrite Hl2; set_solver|].
  assert (Hk : kframe s s4) by (etrans; [exact Hk12|by etrans]).
  assert (Hlen : (i < length (k_procs s4))%nat).
  { apply (f_equal (fun s => length (k_procs s))) in Hk. simpl in Hk. rewrite !length_map in Hk. lia. }
  eexists _, (pt :: info :: l2). split_and!.
  - unfold reap. do 2 (erewrite bind_Ok; [|reflexivity]). fold ks. rewrite Hku.
    rewrite (bind_Ok _ _ _ _ _ E1), (bind_Ok _ _ _ _ _ E2). erewrite bind_Ok; [|reflexivity].
    rewrite (kframe_proc p_mapped_info s s2 i) by done. fold info. rewrite (bind_Ok _ _ _ _ _ E3).
    erewrite bind_Ok; [|reflexivity]. rewrite (kframe_proc p_pagetable s s3 i) by (done || by etrans). fold pt.
    rewrite (bind_Ok _ _ _ _ _ E4). rewrite (bind_Ok _ _ _ _ _ (setp_run _ _ _)). reflexivity.
  - by eapply free_pages_frame.
  - rewrite Hl2. solve_Permutation.
  - by rewrite proc_updp_eq.
  - by rewrite proc_updp_eq.
  - intros j Hj. rewrite proc_updp_ne by done.
    split; [by apply (kframe_proc p_status)|by apply (kframe_proc p_parent)].
Qed.
(** the regions an address space starts with *)
Definition initial_rgns (tf : Z) : list rgn :=
  [mkRgn (USER_STACK_TOP - PGSIZE) 1 STACK_SEGMENT; mkRgn tf 1 CONTEXT_SEGMENT;
   mkRgn trap_sec_start 1 SYSTEM_SEGMENT].

(** readable mappings can be unmapped *)
Lemma unmappable_mkpte pa perm : Z.testbit perm 1 = true -> unmappable (mkpte pa perm).
Proof.
  intros Hb. split; [apply flag_mkpte_V|]. intros E. apply (f_equal (fun x => Z.testbit x 1)) in E.
  unfold PTE_FLAGS in E. rewrite Z.land_spec, mkpte_testbit_low, Hb in E by lia. done.
Qed.

Lemma page_ok_user q : page_ok q -> q mod PGSIZE = 0 /\ USER_STACK_TOP <= q /\ q + PGSIZE <= MAXVA /\ 0 <= q < 2 ^ 64 - PGSIZE.
Proof.
  intros Hq. pose proof (page_ok_range q Hq). destruct Hq as (? & ? & ?).
  assert (PHYS_TOP < MAXVA) by done. assert (USER_STACK_TOP < DRAM_BASE) by done. split_and!; lia || done.
Qed.

(** a process that exits with its initial address space owns its kernel stack,
    user stack, trapframe, region table and page directory *)
Lemma initial_space_zombie s i l us :
  let p := proc s i in
  let own := [p_kstack p - PGSIZE; us; p_trapframe p; p_mapped_info p; p_pagetable p] in
  space_ok s i l -> page_ok trap_sec_start -> (6 <= length l)%nat -> p_total_mapped_region p = 3 ->
  NoDup own -> (forall q, q ∈ own -> freeable s q /\ page_ok q /\ q ∉ l) ->
  exists s' T l', map_initial i us s = Ok tt s' /\ kframe s s' /\
    zombie_space s' i T l' (initial_rgns (p_trapframe p)) /\
    reap_pages s' i T (initial_rgns (p_trapframe p)) = own.
Proof.
  intros p own Hso Htr Hl Htot Hnd Hown.
  assert (Hus : page_ok us) by (apply Hown; unfold own; set_solver).
  destruct (map_initial_spec s i l us Hso Hus Htr Hl) as (s' & T & l' & E & Hok & [u Hu] & _ & Hk & (R0 & R1 & R2) & Hlf & _ & Ht & _).
  fold p in Hok, R0, R1, R2, Hlf, Ht. destruct Hso as [_ Hinfo _ _ Htf Htne]. fold p in Hinfo, Htf, Htne.
  destruct (page_ok_user _ Htf) as (F1 & F2 & F3 & F4). destruct (page_ok_user _ Hus) as (_ & _ & _ & U4).
  assert (Hst : 0 <= USER_STACK_TOP - PGSIZE < USER_STACK_TOP /\ (USER_STACK_TOP - PGSIZE) mod PGSIZE = 0) by done.
  assert (L0 : leaf (k_mem s') T (USER_STACK_TOP - PGSIZE) = mkpte us perm_user_rw).
  { rewrite Hlf by done. done. }
  assert (L1 : leaf (k_mem s') T (p_trapframe p) = mkpte (p_trapframe p) perm_kern_rw).
  { rewrite Hlf by (unfold PGSIZE in *; lia). unfold initial_leaf. rewrite (page_of_page (p_trapframe p) Htf).
    rewrite decide_False by lia. by rewrite decide_True. }
  assert (Hrel : released (k_mem s') T (initial_rgns (p_trapframe p)) = [us; p_trapframe p]).
  { unfold released, initial_rgns, region_pages, mapped_pages. simpl. rewrite !Z.add_0_r, L0, L1.
    rewrite !PTE2PA_mkpte by (try done; apply Hus || apply Htf || lia). done. }
  assert (Hrp : reap_pages s' i T (initial_rgns (p_trapframe p)) = own).
  { unfold reap_pages. rewrite Hrel, (kframe_proc p_kstack s s' i), (kframe_proc p_mapped_info s s' i),
      (kframe_proc p_pagetable s s' i) by done. done. }
  exists s', T, l'. split; [exact E|]. split; [exact Hk|]. split; [|exact Hrp]. clear E.
  split.
  - by rewrite (kframe_proc p_pagetable s s' i).
  - rewrite (kframe_proc p_mapped_info s s' i) by done. split; [done|simpl; lia|..].
    + intros [|[|[|j]]] r Hr; [..|done]; injection Hr as <-; done.
    + intros r Hr Hun. unfold initial_rgns in Hr. rewrite !elem_of_cons, elem_of_nil in Hr.
      destruct Hr as [->|[->|[->|[]]]]; [..|done]; split; simpl; try done; try lia;
        intros [|k] Hk0; try lia; simpl; rewrite Z.add_0_r, ?L0, ?L1; by apply unmappable_mkpte.
    + intros [|[|j]] [|[|[|k]]] r r' a Hr Hr' Hjk Hu1 Hu2; try lia; try done;
        injection Hr as <-; injection Hr' as <-; try done. unfold r_in. simpl. unfold PGSIZE in *. lia.
  - by rewrite (kframe_proc p_total_mapped_region s s' i).
  - by rewrite Hrp.
  - rewrite Hrp. intros q Hq. destruct (Hown q Hq) as (Q1 & Q2 & Q3). split_and!; [by eapply freeable_frame|done| |].
    + rewrite Hu in Q3. set_solver.
    + rewrite (kframe_proc p_pagetable s s' i) by done. intros Hx. by destruct (Ht q Hx).
Qed.
(** ** do_wait *)

(** process [i] is a child of the current process that [wait(pid)] considers *)
Definition waited (s : kstate) (pid : Z) (i : nat) : bool :=
  bool_decide (p_parent (proc s i) = k_current s) &&
  ((pid <=? 0) || (u64 pid =? p_pid (proc s i))).
Definition is_zombie (s : kstate) (i : nat) : bool := bool_decide (p_status (proc s i) = ZOMBIE).

(** the scan from process [i] on *)
Fixpoint wait_scan (s : kstate) (pid : Z) (i n : nat) (havekids : bool) : nat + Z :=
  match n with
  | O => inr (if havekids then -2 else -1)
  | S n' => if waited s pid i
            then if is_zombie s i then inl i else wait_scan s pid (S i) n' true
            else wait_scan s pid (S i) n' havekids
  end.

Lemma do_wait_scan s pid :
  do_wait pid s = match wait_scan s pid 0 NPROC false with
                  | inl i => reap i s
                  | inr r => Ok r s
                  end.
Proof.
  unfold do_wait. remember (match wait_scan s pid 0 NPROC false with inl i => reap i s | inr r => Ok r s end) as out eqn:Hout0.
  apply (kwhile_rule
    (fun x s' => s' = s /\ (x.1 <= NPROC)%nat /\
       out = match wait_scan s pid x.1 (NPROC - x.1) x.2 with inl i => reap i s | inr r => Ok r s end)
    (fun x => Z.of_nat (NPROC - x.1)) (fun o => o = out)).
  - split_and!; [done|apply Nat.le_0_l|exact Hout0].
  - unfold NPROC. simpl. lia.
  - intros [i hk] s' (-> & Hi & Hout). cbn [fst snd] in *.
    destruct (Nat.ltb_spec i NPROC) as [Hlt|Hge].
    2:{ assert (i = NPROC) as -> by lia. rewrite Nat.sub_diag in Hout. exact (eq_sym Hout). }
    replace (NPROC - i)%nat with (S (NPROC - S i)) in Hout by lia. cbn [wait_scan] in Hout.
    unfold waited in Hout. do 3 (erewrite bind_Ok; [|reflexivity]).
    assert (Hmeas : 0 <= Z.of_nat (NPROC - S i) < Z.of_nat (NPROC - i)) by lia.
    destruct (bool_decide (p_parent (proc s i) = k_current s)); cbn [andb negb] in *; [|by split; [split_and!; [done|exact Hlt|exact Hout]|exact Hmeas]].
    assert (Hp : (0 <? pid) && negb (u64 pid =? p_pid (proc s i)) =
                 negb ((pid <=? 0) || (u64 pid =? p_pid (proc s i)))).
    { destruct (Z.ltb_spec 0 pid), (Z.leb_spec pid 0); try lia; simpl; by destruct (u64 pid =? _). }
    rewrite Hp. destruct ((pid <=? 0) || (u64 pid =? p_pid (proc s i))); cbn [negb]; [|by split; [split_and!; [done|exact Hlt|exact Hout]|exact Hmeas]].
    erewrite bind_Ok; [|reflexivity]. unfold is_zombie in Hout.
    destruct (bool_decide (p_status (proc s i) = ZOMBIE)); [|by split; [split_and!; [done|exact Hlt|exact Hout]|exact Hmeas]].
    unfold bind. rewrite Hout. destruct (reap i s); reflexivity.
Qed.

Lemma wait_scan_first s pid i n hk j :
  (i <= j < i + n)%nat -> waited s pid j = true -> is_zombie s j = true ->
  (forall k, (i <= k < j)%nat -> waited s pid k && is_zombie s k = false) ->
  wait_scan s pid i n hk = inl j.
Proof.
  revert i hk. induction n as [|n IH]; intros i hk Hj Hw Hz Hk; [lia|]. simpl.
  destruct (decide (i = j)) as [->|Hne]; [by rewrite Hw, Hz|].
  specialize (Hk i ltac:(lia)) as Hi. destruct (waited s pid i), (is_zombie s i); try done;
    apply IH; done || lia || (intros; apply Hk; lia).
Qed.
Lemma wait_scan_none s pid i n hk :
  (forall k, (i <= k < i + n)%nat -> waited s pid k && is_zombie s k = false) ->
  wait_scan s pid i n hk =
    inr (if hk || existsb (waited s pid) (seq i n) then -2 else -1).
Proof.
  revert i hk. induction n as [|n IH]; intros i hk Hk; [by rewrite orb_false_r|]. simpl.
  specialize (Hk i ltac:(lia)) as Hi.
  assert (Hk' : forall k, (S i <= k < S i + n)%nat -> waited s pid k && is_zombie s k = false)
    by (intros; apply Hk; lia).
  destruct (waited s pid i), (is_zombie s i); try done; rewrite IH by done; simpl; by rewrite ?orb_true_r.
Qed.
(** ** init_proc_pool *)

Definition idle_proc (i : nat) : process := set_p_pid (Z.of_nat i) null_proc.

Lemma init_proc_pool_run s :
  exists s', init_proc_pool s = Ok tt s' /\ k_procs s' = idle_proc <$> seq 0 NPROC /\
    s' = set_k_procs (k_procs s') s.
Proof.
  unfold init_proc_pool. erewrite bind_Ok; [|reflexivity].
  eexists. split; [vm_compute; reflexivity|]. split; reflexivity.
Qed.

(* ------------------------------------------------------------------ *)
(** * Properties *)


(** [init_proc_pool] makes every process FREE, with its index as pid and no
    parent, so the first allocation takes process 0; when no process is FREE,
    [alloc_process] panics before touching anything. *)
Theorem init_proc_pool_free s :
  (exists s', init_proc_pool s = Ok tt s' /\ find_free_proc s' = Some 0%nat /\
    forall i, (i < NPROC)%nat -> p_status (proc s' i) = FREE /\ p_pid (proc s' i) = Z.of_nat i /\
       p_parent (proc s' i) = None) /\
  (Forall (fun p => p_status p <> FREE) (take NPROC (k_procs s)) ->
     alloc_process s = Stop (Panic "cannot find any free process structure.") s).
Proof.
  split.
  - destruct (init_proc_pool_run s) as (s' & E & Hp & _). exists s'. split_and!; [done| |].
    + unfold find_free_proc. by rewrite Hp.
    + intros i Hi. unfold proc. rewrite Hp, list_lookup_fmap, lookup_seq_lt by done. done.
  - intros H. unfold alloc_process. erewrite bind_Ok; [|reflexivity]. unfold find_free_proc.
    by rewrite (proj2 (list_find_None _ _)).
Qed.

(** C11. [wait] on a zombie child returns its pid, makes its process structure FREE
    and orphaned for reuse, and gives the allocator back exactly its kernel stack, the pages of
    its stack, trapframe and data regions, its region table and its page
    directory; no other process changes status or parent.  The inner page-table
    pages and the file table are not given back. *)
Theorem do_wait_reclaims s pid i T l rs :
  length (k_procs s) = NPROC -> waited s pid i = true -> is_zombie s i = true -> (i < NPROC)%nat ->
  (forall k, (k < i)%nat -> waited s pid k && is_zombie s k = false) ->
  zombie_space s i T l rs ->
  exists s' l', do_wait pid s = Ok (s32 (p_pid (proc s i))) s' /\
    free_pages s' l' /\ l' ≡ₚ reap_pages s i T rs ++ l /\
    p_status (proc s' i) = FREE /\ p_parent (proc s' i) = None /\
    (forall j, j <> i -> p_status (proc s' j) = p_status (proc s j) /\ p_parent (proc s' j) = p_parent (proc s j)).
Proof.
  intros Hlen Hw Hz Hi Hk Hsp. rewrite do_wait_scan, (wait_scan_first s pid 0 NPROC false i) by (try done; lia || (intros; apply Hk; lia)).
  apply reap_spec; [by rewrite Hlen|done].
Qed.
(** C29. [wait] reaps the first zombie among the children it considers (all
    children, or the one with the given positive pid); without one it changes
    nothing and returns -2 when such a child exists and -1 when none does. *)
Theorem do_wait_result s pid :
  (forall i, (i < NPROC)%nat -> waited s pid i = true -> is_zombie s i = true ->
     (forall k, (k < i)%nat -> waited s pid k && is_zombie s k = false) ->
     do_wait pid s = reap i s) /\
  ((forall i, (i < NPROC)%nat -> waited s pid i && is_zombie s i = false) ->
     do_wait pid s = Ok (if existsb (waited s pid) (seq 0 NPROC) then -2 else -1) s).
Proof.
  rewrite do_wait_scan. split.
  - intros i Hi Hw Hz Hk. rewrite (wait_scan_first s pid 0 NPROC false i); [done|lia|done|done|].
    intros k Hk'. apply Hk. lia.
  - intros H. rewrite wait_scan_none; [done|]. intros k Hk. apply H. lia.
Qed.
End Process.
(* ------------------------------------------------------------------ *)
(** * Witnesses *)

(** a free list [l], threaded through memory *)
Fixpoint chain_mem (l : list Z) : gmap Z Z :=
  match l with
  | [] => ∅
  | p :: l' => <[p / 8 := hd 0 l']> (chain_mem l')
  end.
Definition demo_free : list Z :=
  [0x80025000; 0x80026000; 0x80027000; 0x80028000; 0x80029000; 0x8002a000].
(** process 0 has a trapframe, an empty page directory and a region table *)
Definition demo_space : @kstate Demo.platform :=
  set_k_mem (chain_mem demo_free) (set_k_free_list 0x80025000
    (set_k_free_mem_start_addr 0x80020000 (set_k_free_mem_end_addr 0x80030000
      (updp 0 (fun p => set_p_pagetable 0x80021000 (set_p_trapframe 0x80022000 (set_p_mapped_info 0x80023000 p)))
        (Demo.state 0x100000))))).

Lemma demo_space_ok : space_ok demo_space 0 demo_free.
Proof.
  split; [|by vm_compute|by vm_compute| |by vm_compute|by vm_compute].
  - split_and!.
    + apply pt_rep_fresh; [by vm_compute|]. intros i Hi.
      change (p_pagetable (proc demo_space 0)) with 0x80021000. unfold load64, demo_space, demo_free. simpl k_mem.
      cbn [chain_mem hd]. rewrite !lookup_insert_ne by dlia. done.
    + split_and!; [by vm_compute| |by repeat constructor].
      apply (bool_decide_unpack _). by vm_compute.
    + intros p Hp. rewrite table_pages_fresh, elem_of_singleton.
      change (p_pagetable (proc demo_space 0)) with 0x80021000. unfold demo_free in Hp.
      rewrite !elem_of_cons, elem_of_nil in Hp. intros ->. by repeat destruct Hp as [Hp|Hp].
  - change (p_mapped_info (proc demo_space 0)) with 0x80023000. unfold demo_free.
    rewrite !elem_of_cons, elem_of_nil. intros Hp. by repeat destruct Hp as [Hp|Hp].
Qed.


Lemma init_proc_pool_free_witness :
  exists s', init_proc_pool (Demo.state 0x100000) = Ok tt s' /\ find_free_proc s' = Some 0%nat.
Proof.
  destruct (init_proc_pool_free (Demo.state 0x100000)) as [(s' & E & Hf & _) _].
  exists s'. split; [exact E|exact Hf].
Defined.

(** process 1 is a running child of process 0, the current process *)
Definition demo_family : @kstate Demo.platform :=
  set_k_current (Some 0%nat) (updp 1 (fun p => set_p_parent (Some 0%nat) (set_p_status READY (set_p_pid 1 p)))
    (Demo.state 0x100000)).
Lemma do_wait_result_witness :
  do_wait 1 demo_family = Ok (-2) demo_family /\ do_wait 7 demo_family = Ok (-1) demo_family.
Proof.
  split.
  - apply (proj2 (do_wait_result demo_family 1)). intros i Hi.
    do 32 (destruct i as [|i]; [by vm_compute|]). unfold NPROC in Hi. lia.
  - apply (proj2 (do_wait_result demo_family 7)). intros i Hi.
    do 32 (destruct i as [|i]; [by vm_compute|]). unfold NPROC in Hi. lia.
Defined.

(** process 0, a zombie child of process 1, with the initial address space *)
Definition demo_dying : @kstate Demo.platform :=
  set_k_current (Some 1%nat)
    (updp 0 (fun p => set_p_kstack 0x8002d000 (set_p_total_mapped_region 3
       (set_p_status ZOMBIE (set_p_parent (Some 1%nat) p)))) demo_space).

Lemma demo_dying_zombie :
  exists (s : @kstate Demo.platform) T l, map_initial 0 0x80024000 demo_dying = Ok tt s /\ kframe demo_dying s /\
    zombie_space s 0 T l (@initial_rgns Demo.platform 0x80022000) /\
    reap_pages s 0 T (@initial_rgns Demo.platform 0x80022000) = [0x8002c000; 0x80024000; 0x80022000; 0x80023000; 0x80021000].
Proof.
  assert (Hn : forall q, q ∈ [0x8002c000; 0x80024000; 0x80022000; 0x80023000; 0x80021000] ->
    freeable demo_dying q /\ page_ok q /\ q ∉ demo_free).
  { intros q Hq. rewrite !elem_of_cons, elem_of_nil in Hq.
    assert (bool_decide (q ∉ demo_free) = true) as Hb by (by destruct Hq as [->|[->|[->|[->|[->|[]]]]]]).
    apply bool_decide_eq_true in Hb.
    destruct Hq as [->|[->|[->|[->|[->|[]]]]]]; (split; [by vm_compute|split; [by vm_compute|exact Hb]]). }
  apply (initial_space_zombie demo_dying 0 demo_free 0x80024000).
  - destruct demo_space_ok as [S1 S2 S3 S4 S5 S6]. split; [|exact S2|exact S3|exact S4|exact S5|exact S6]. exact S1.
  - by vm_compute.
  - simpl. lia.
  - done.
  - apply (bool_decide_unpack _). by vm_compute.
  - exact Hn.
Qed.

Lemma do_wait_reclaims_witness :
  exists (s s' : @kstate Demo.platform) l l', do_wait 0 s = Ok 0 s' /\ free_pages s' l' /\
    l' ≡ₚ [0x8002c000; 0x80024000; 0x80022000; 0x80023000; 0x80021000] ++ l /\ p_status (proc s' 0) = FREE.
Proof.
  destruct demo_dying_zombie as (s & T & l & _ & Hk & Hz & Hr).
  assert (H0 : p_parent (proc s 0) = Some 1%nat /\ p_status (proc s 0) = ZOMBIE /\ p_pid (proc s 0) = 0).
  { assert (P : forall A (f : process -> A), (forall n p, f (set_p_total_mem_count n p) = f p) ->
      f (proc s 0) = f (proc demo_dying 0)) by (intros A f Hf; exact (kframe_proc f demo_dying s 0 Hf Hk)).
    by rewrite (P _ p_parent), (P _ p_status), (P _ p_pid) by reflexivity. }
  destruct H0 as (H1 & H2 & H3).
  destruct (do_wait_reclaims s 0 0 T l (@initial_rgns Demo.platform 0x80022000)) as (s' & l' & E & Hf & Hl & Hst & _).
  - apply (f_equal (fun s => length (k_procs s))) in Hk. simpl in Hk. rewrite !length_map in Hk. exact Hk.
  - unfold waited. rewrite H1, (kframe_current _ _ Hk). done.
  - unfold is_zombie. by rewrite H2.
  - by apply Nat.ltb_lt.
  - lia.
  - exact Hz.
  - exists s, s', l, l'. rewrite H3 in E. rewrite Hr in Hl. by split_and!.
Defined.
