(* ===== verification/Fork.v ===== *)
(** kernel/process.c: what fork copies.

    [do_fork] first builds the child's initial address space ([alloc_process]) and
    then goes through the parent's regions: the trapframe and the stack page are
    copied, code pages are shared, data pages are copied to fresh pages, and code
    and data regions are registered with the child.  The invariant [fork_inv]
    describes the child's address space after a prefix of the parent's regions;
    nothing outside the child's own pages and the free pages is written, so the
    parent is untouched. *)

From S2P Require Import Prelude Machine Pmm StringC Vmm Sched SpikeFile File Process.

(** an update of a process that does not look at its memory accounting *)
Definition blind (f : process -> process) : Prop :=
  forall p q, set_p_total_mem_count 0 p = set_p_total_mem_count 0 q -> set_p_total_mem_count 0 (f p) = set_p_total_mem_count 0 (f q).
Ltac solve_blind :=
  let E := fresh in
  unfold blind; intros [] [] E;
  unfold set_p_total_mem_count, set_p_trapframe, set_p_pagetable, set_p_total_mapped_region, set_p_tick_count, set_p_total_tick_count in *;
  cbn in *; injection E; intros; subst; reflexivity.

Section Fork.
Context {PLAT : Platform}.
(* ------------------------------------------------------------------ *)
(** * Steps *)

Lemma user_vm_map_inv root va size pa perm s s' :
  user_vm_map root va size pa perm s = Ok tt s' -> map_pages root va size pa perm s = Ok 0 s'.
Proof.
  unfold user_vm_map, bind. destruct (map_pages root va size pa perm s) as [r s2| |]; [|done..].
  destruct (Z.eqb_spec r 0) as [->|_]; [|done]. simpl. by injection 1 as ->.
Qed.

(** [map_pages] of one page *)
Lemma map_page root s T l va pa perm :
  pt_ok free_pages root s T l -> va mod PGSIZE = 0 -> 0 <= va -> va + PGSIZE <= MAXVA ->
  0 <= perm < 1024 -> 0 <= pa < 2 ^ 64 - PGSIZE -> leaf (k_mem s) T va = 0 -> (2 <= length l)%nat ->
  exists s' T' l', map_pages root va PGSIZE pa perm s = Ok 0 s' /\
    pt_ok free_pages root s' T' l' /\ kframe s s' /\ same_outside (table_pages T') (k_mem s) (k_mem s') /\
    l' `suffix_of` l /\ (length l <= length l' + 2)%nat /\
    (forall p, p ∈ table_pages T' -> p ∈ table_pages T \/ p ∈ l) /\
    (forall a, 0 <= a < MAXVA -> leaf (k_mem s') T' a =
       if decide (page_of a = va) then mkpte pa perm else leaf (k_mem s) T a).
Proof.
  intros Hok Hal Hva Hmax Hp Hpa Hinv Hl.
  destruct (user_map_page root s T l va pa perm) as (s' & T' & l' & E & Hok' & Hst & Hlen & Hlf); try done.
  { intros a Ha. rewrite (leaf_page _ _ a va), Hinv; [done|]. rewrite Ha. symmetry. apply page_of_in; [done|unfold PGSIZE; lia]. }
  destruct (ps_used _ _ _ Hst) as (u & Eu & Hu). cbn [fst snd] in Eu, Hu.
  exists s', T', l'. split_and!; [by apply user_vm_map_inv|done|apply Hst|apply Hst|by exists u|done| |done].
  intros p Hp'. destruct (Hu p Hp') as [?|?]; [by left|right]. rewrite Eu. by apply elem_of_app; left.
Qed.

(** such updates commute with the frame of the allocator *)
Lemma kframe_updp i f s s' : blind f -> kframe s s' -> kframe (updp i f s) (updp i f s').
Proof.
  intros Hf Hk. unfold kframe in *.
  assert (Hps : map (set_p_total_mem_count 0) (alter f i (k_procs s')) = map (set_p_total_mem_count 0) (alter f i (k_procs s))).
  { apply (f_equal k_procs) in Hk. unfold strip in Hk. cbn [k_procs set_k_procs set_k_mem set_k_free_list] in Hk.
    apply list_eq. intros j. apply (f_equal (fun l => l !! j)) in Hk.
    change (map ?g ?l) with (g <$> l) in *. rewrite !list_lookup_fmap in *.
    destruct (decide (i = j)) as [->|Hne].
    - rewrite !list_lookup_alter_eq. destruct (k_procs s !! j), (k_procs s' !! j); simpl in *; try done.
      f_equal. apply Hf. congruence.
    - by rewrite !list_lookup_alter_ne. }
  assert (Hs : forall s, strip (updp i f s) = set_k_procs (map (set_p_total_mem_count 0) (alter f i (k_procs s))) (strip s))
    by (intros []; reflexivity).
  by rewrite !Hs, Hps, Hk.
Qed.
(* ------------------------------------------------------------------ *)
(** * The invariant *)

Section Invariant.
(** the state after alloc_process, parent and child, their page tables, the free
    pages, the parent's regions and the child's stack page *)
Variables (s1 : kstate) (parent child : nat) (Tp Tc1 : gmap (list Z) Z) (l1 : list Z).
Variables (rs : list rgn) (cus : Z).
Local Abbreviation ppt := (p_pagetable (proc s1 parent)).
Local Abbreviation cpt := (p_pagetable (proc s1 child)).
Local Abbreviation ptf := (p_trapframe (proc s1 parent)).
Local Abbreviation ctf := (p_trapframe (proc s1 child)).
Local Abbreviation pinfo := (p_mapped_info (proc s1 parent)).
Local Abbreviation cinfo := (p_mapped_info (proc s1 child)).

(** the pages fork may write *)
Definition fresh_pages : gset Z := table_pages Tc1 ∪ list_to_set l1.
Definition child_pages : gset Z := fresh_pages ∪ {[ctf; cus; cinfo]}.

(** the physical page of an address of the parent *)
Definition src (a : Z) : Z := pte_pa (leaf (k_mem s1) Tp a).

(** regions registered with the child *)
Definition copies (r : rgn) : bool := (r_type r =? CODE_SEGMENT) || (r_type r =? DATA_SEGMENT).

(** regions fork can handle *)
Definition fork_rgn (r : rgn) : Prop :=
  if r_type r =? STACK_SEGMENT then
    r = mkRgn (USER_STACK_TOP - PGSIZE) 1 STACK_SEGMENT /\ page_ok (src (r_va r)) /\ src (r_va r) ∉ child_pages
  else if copies r then
    r_va r mod PGSIZE = 0 /\ 0 <= r_va r /\ r_va r + PGSIZE * Z.of_nat (r_npages r) <= USER_STACK_TOP - PGSIZE /\
    forall a, r_in r a -> page_ok (src a) /\ (src a ∉ child_pages)
  else True.

Record fork_pre : Prop := {
  fp_ne : parent <> child;
  fp_lt : (child < length (k_procs s1))%nat;
  fp_pt : pt_rep (k_mem s1) Tp ppt;
  fp_cpt : pt_ok free_pages cpt s1 Tc1 l1;
  fp_leaf a : 0 <= a < USER_STACK_TOP -> leaf (k_mem s1) Tc1 a = initial_leaf ctf cus a;
  fp_cregs : initial_regions (k_mem s1) cinfo ctf;
  fp_ctot : p_total_mapped_region (proc s1 child) = 3;
  fp_ptot : p_total_mapped_region (proc s1 parent) = Z.of_nat (length rs);
  fp_len : (length rs <= 253)%nat;
  fp_is (j : nat) r : rs !! j = Some r ->
    region_is (k_mem s1) pinfo (Z.of_nat j) (r_va r) (Z.of_nat (r_npages r)) (r_type r);
  fp_rgn r : r ∈ rs -> fork_rgn r;
  fp_disj (j k : nat) r r' a : rs !! j = Some r -> rs !! k = Some r' -> j <> k ->
    copies r = true -> copies r' = true -> r_in r a -> ~ r_in r' a;
  fp_parent p : p ∈ [pinfo; ptf] -> page_ok p /\ p ∉ child_pages;
  fp_tables p : p ∈ table_pages Tp -> p ∉ child_pages;
  fp_own : NoDup [ctf; cus; cinfo];
  fp_own_ok p : p ∈ [ctf; cus; cinfo] -> page_ok p /\ p ∉ fresh_pages
}.

(** an address of the child after its page has been copied *)
Definition copied_page (m : gmap Z Z) (Tc : gmap (list Z) Z) (D : gset Z) (ty a : Z) : Prop :=
  (ty = CODE_SEGMENT /\ leaf m Tc a = mkpte (src a) perm_user_rwx) \/
  (ty = DATA_SEGMENT /\ exists q, q ∈ D /\ leaf m Tc a = mkpte q perm_user_rw /\
     forall i, 0 <= i < 512 -> load64 m (q + 8 * i) = load64 (k_mem s1) (src a + 8 * i)).

(** the child's page table, the free pages and the data pages [D] of the child,
    after the regions [done] have been copied and [n] regions registered *)
Record fork_core (s : kstate) (Tc : gmap (list Z) Z) (l : list Z) (D : gset Z) (done : list rgn) (n : Z) : Prop := {
  fc_pt : pt_ok free_pages cpt s Tc l;
  fc_tab p : p ∈ table_pages Tc -> p ∈ fresh_pages;
  fc_suf : l `suffix_of` l1;
  fc_frame : same_outside child_pages (k_mem s1) (k_mem s);
  fc_k : kframe (updp child (set_p_total_mapped_region (3 + n)) s1) s;
  fc_data q : q ∈ D -> q ∈ l1 /\ (q ∉ l) /\ (q ∉ table_pages Tc);
  fc_bnd r a : r ∈ done -> r_in r a -> 0 <= a < MAXVA;
  fc_done r a : r ∈ done -> r_in r a -> copied_page (k_mem s) Tc D (r_type r) a;
  fc_rest a : 0 <= a < USER_STACK_TOP -> (forall r, r ∈ done -> ~ r_in r a) -> leaf (k_mem s) Tc a = initial_leaf ctf cus a
}.

Hypothesis Hpre : fork_pre.

Lemma src_page a b : page_of a = page_of b -> src a = src b.
Proof. intros E. unfold src. by rewrite (leaf_page _ _ a b). Qed.

Lemma copied_page_frame m m' Tc Tc' D D' ty a P :
  copied_page m Tc D ty a -> leaf m' Tc' a = leaf m Tc a -> D ⊆ D' -> Forall page_ok l1 ->
  same_outside P m m' -> (forall q, q ∈ D -> q ∈ l1 /\ q ∉ P) -> copied_page m' Tc' D' ty a.
Proof.
  intros [[-> E]|(-> & q & Hq & E & Hc)] Hl HD Hoks Hm HP; [left; by rewrite Hl|right].
  split; [done|]. exists q. split_and!; [set_solver|by rewrite Hl|]. intros i Hi.
  destruct (HP q Hq) as [Hin HqP]. rewrite Forall_forall in Hoks.
  rewrite Hm, Hc; [done..|]. by rewrite slot_page by auto.
Qed.

Lemma l1_ok : Forall page_ok l1 /\ NoDup l1.
Proof. destruct (fp_cpt Hpre) as (_ & Hf & _). by destruct (pa_pages _ _ Hf). Qed.

(** writing the trapframe, the stack or the region table of the child *)
Lemma core_write s Tc l D done n m p :
  fork_core s Tc l D done n -> p ∈ [ctf; cus; cinfo] -> same_outside {[p]} (k_mem s) m ->
  fork_core (set_k_mem m s) Tc l D done n.
Proof.
  intros [C1 C2 C3 C4 C5 C6 CB C7 C8] Hp Hm. destruct (fp_own_ok Hpre p Hp) as [_ Hpf].
  assert (HpT : p ∉ table_pages Tc) by (intros Hx; by apply Hpf, C2).
  assert (Hpl1 : p ∉ l1) by (intros Hx; apply Hpf; unfold fresh_pages; set_solver).
  destruct (pt_ok_write cpt s Tc l m {[p]} C1 Hm) as [Hok Hlf]; [set_solver| |].
  { intros q Hq Hqp. apply Hpl1. destruct C3 as [u ->]. set_solver. }
  split; try done.
  - etrans; [exact C4|]. eapply same_outside_mono; [|exact Hm]. unfold child_pages. set_solver.
  - intros r a Hr Ha. eapply (copied_page_frame (k_mem s)); [by eapply C7|apply Hlf|done|apply l1_ok|exact Hm|].
    intros q Hq. destruct (C6 q Hq) as (? & _). split; [done|]. set_solver.
  - intros a Ha Hr. cbn [k_mem set_k_mem]. rewrite Hlf. by apply C8.
Qed.
Lemma in_extend va (j : nat) ty a :
  va mod PGSIZE = 0 ->
  r_in (mkRgn va (S j) ty) a <-> r_in (mkRgn va j ty) a \/ page_of a = va + PGSIZE * Z.of_nat j.
Proof.
  intros Hal. rewrite page_of_iff by (unfold PGSIZE in *; dlia). unfold r_in, PGSIZE. simpl. lia.
Qed.
Lemma initial_leaf_low a : 0 <= a < USER_STACK_TOP - PGSIZE -> page_ok trap_sec_start -> initial_leaf ctf cus a = 0.
Proof.
  intros Ha Htr. destruct (fp_own_ok Hpre ctf) as [Htf _]; [set_solver|].
  destruct (page_ok_user _ Htf) as (_ & T2 & _). destruct (page_ok_user _ Htr) as (_ & R2 & _).
  pose proof (page_of_bounds a). assert ((USER_STACK_TOP - PGSIZE) mod PGSIZE = 0) by done.
  unfold initial_leaf. rewrite !decide_False; [done|unfold PGSIZE in *; lia..].
Qed.

(** mapping page [j] of a code or data region of the child *)
Lemma core_map s Tc l D done n va (j : nat) ty pa perm :
  let vj := va + PGSIZE * Z.of_nat j in
  fork_core s Tc l D (done ++ [mkRgn va j ty]) n -> page_ok trap_sec_start -> (2 <= length l)%nat ->
  va mod PGSIZE = 0 -> 0 <= va -> vj + PGSIZE <= USER_STACK_TOP - PGSIZE ->
  (forall r a, r ∈ done -> page_of a = vj -> ~ r_in r a) ->
  page_ok pa ->
  (ty = CODE_SEGMENT /\ pa = src vj /\ perm = perm_user_rwx \/
   ty = DATA_SEGMENT /\ pa ∈ D /\ perm = perm_user_rw /\
     forall i, 0 <= i < 512 -> load64 (k_mem s) (pa + 8 * i) = load64 (k_mem s1) (src vj + 8 * i)) ->
  exists s' Tc' l', map_pages cpt vj PGSIZE pa perm s = Ok 0 s' /\
    fork_core s' Tc' l' D (done ++ [mkRgn va (S j) ty]) n /\ (length l <= length l' + 2)%nat /\
    same_outside fresh_pages (k_mem s) (k_mem s').
Proof.
  intros vj [C1 C2 C3 C4 C5 C6 CB C7 C8] Htr Hl Hal Hva Hhi Hdone Hpa Hkind.
  assert (Hmax : USER_STACK_TOP < MAXVA) by done.
  assert (Hvj : vj mod PGSIZE = 0) by (unfold vj, PGSIZE in *; dlia).
  assert (Hpj : page_of vj = vj) by (apply page_of_in; [done|unfold PGSIZE; lia]).
  assert (Hnin : forall r a, r ∈ done ++ [mkRgn va j ty] -> page_of a = vj -> ~ r_in r a).
  { intros r a [Hr| ->%list_elem_of_singleton]%elem_of_app Ha; [by apply Hdone|].
    apply page_of_iff in Ha; [|done]. unfold r_in, vj in *. simpl. lia. }
  destruct (page_ok_user _ Hpa) as (_ & _ & _ & Hpa4).
  assert (Hperm : 0 <= perm < 1024) by (destruct Hkind as [(_ & _ & ->)|(_ & _ & -> & _)]; done).
  destruct (map_page cpt s Tc l vj pa perm) as (s' & Tc' & l' & E & Hok & Hk & Hm & Hs & Hlen & Ht & Hlf); try done; try (unfold PGSIZE in *; lia).
  { rewrite C8; [apply initial_leaf_low; [unfold PGSIZE in *; lia|done]|unfold PGSIZE in *; lia|].
    intros r Hr. by apply Hnin. }
  assert (Hll : forall x, x ∈ l -> x ∈ l1) by (destruct C3 as [u ->]; set_solver).
  assert (Ht' : forall p, p ∈ table_pages Tc' -> p ∈ fresh_pages).
  { intros p Hp. destruct (Ht p Hp) as [Hx|Hx]; [by apply C2|]. unfold fresh_pages.
    apply elem_of_union; right. apply elem_of_list_to_set. by apply Hll. }
  assert (HD : forall q, q ∈ D -> q ∈ l1 /\ q ∉ table_pages Tc').
  { intros q Hq. destruct (C6 q Hq) as (Q1 & Q2 & Q3). split; [done|]. intros Hx. by destruct (Ht q Hx). }
  exists s', Tc', l'. split; [exact E|]. split; [|split; [done|by eapply same_outside_mono]].
  split; try done.
  - by etrans.
  - etrans; [exact C4|]. eapply same_outside_mono; [|exact Hm]. intros p Hp. unfold child_pages. apply elem_of_union_l. by apply Ht'.
  - by etrans.
  - intros q Hq. destruct (HD q Hq). split_and!; try done. destruct (C6 q Hq) as (_ & Q2 & _).
    intros Hx. apply Q2. destruct Hs as [u ->]. by apply elem_of_app; right.
  - intros r a [Hr| ->%list_elem_of_singleton]%elem_of_app Ha; [by eapply CB; [apply elem_of_app; left|]|].
    apply in_extend in Ha as [Ha|Ha]; [by eapply CB; [apply elem_of_app; right; by apply list_elem_of_singleton|]| |done].
    apply page_of_iff in Ha; [|done]. unfold PGSIZE in *. lia.
  - intros r a Hr Ha.
    assert (Hin : (exists r', r' ∈ done ++ [mkRgn va j ty] /\ r_type r' = r_type r /\ r_in r' a) \/ page_of a = vj /\ r_type r = ty).
    { apply elem_of_app in Hr as [Hr| ->%list_elem_of_singleton]; [left; exists r; set_solver|].
      apply in_extend in Ha as [Ha|Ha]; [left; exists (mkRgn va j ty); set_solver|by right|done]. }
    destruct Hin as [(r' & Hr' & <- & Ha')|[Ha' ->]].
    + eapply copied_page_frame; [by eapply C7| |done|apply l1_ok|exact Hm|exact HD].
      assert (Hne : page_of a <> vj) by (intros Hx; by eapply Hnin).
      rewrite Hlf, decide_False by (done || by eapply CB). done.
    + assert (Hav : leaf (k_mem s') Tc' a = mkpte pa perm).
      { rewrite Hlf, decide_True; [done..|]. apply page_of_iff in Ha'; [|done]. unfold PGSIZE in *. lia. }
      assert (Hsrc : src a = src vj) by (apply src_page; by rewrite Ha', Hpj).
      unfold copied_page. rewrite Hav, Hsrc. destruct Hkind as [(-> & -> & ->)|(-> & HpD & -> & Hc)]; [by left|right].
      split; [done|]. exists pa. split_and!; [done..|]. intros i Hi. rewrite Hm, Hc; [done..|].
      rewrite slot_page by done. by apply HD.
  - intros a Ha Hr. rewrite Hlf by lia. rewrite decide_False, C8; [done..| |].
    + intros r Hr' Hin. apply elem_of_app in Hr' as [Hr'| ->%list_elem_of_singleton];
        [by apply (Hr r); [set_solver|]|]. apply (Hr (mkRgn va (S j) ty)); [set_solver|]. apply in_extend; [done|by left].
    + intros Hx. apply (Hr (mkRgn va (S j) ty)); [set_solver|]. apply in_extend; [done|by right].
Qed.

(** the parent's memory is never written *)
Lemma parent_page s Tc l D done n p m :
  fork_core s Tc l D done n -> m = k_mem s -> p ∉ child_pages -> page_ok p ->
  forall i, 0 <= i < 512 -> load64 m (p + 8 * i) = load64 (k_mem s1) (p + 8 * i).
Proof. intros HC -> Hp Hok i Hi. apply (fc_frame _ _ _ _ _ _ HC). by rewrite slot_page. Qed.
Lemma parent_lookup s Tc l D done n a :
  fork_core s Tc l D done n -> 0 <= a < MAXVA -> lookup_pa ppt a s = Ok (src a) s.
Proof.
  intros HC Ha. assert (Hd : child_pages ## table_pages Tp) by (intros p H1 H2; by apply (fp_tables Hpre p)).
  assert (Hr : pt_rep (k_mem s) Tp ppt) by (eapply pt_rep_outside; [apply Hpre|apply HC|done]).
  rewrite (lookup_pa_spec _ _ _ _ Hr) by lia. rewrite (proj2 (Z.ltb_lt _ _)) by lia.
  unfold src. by rewrite (leaf_outside _ _ _ _ _ a (fp_pt Hpre) (fc_frame _ _ _ _ _ _ HC) Hd).
Qed.

Lemma core_alloc s Tc q l D done n :
  fork_core s Tc (q :: l) D done n ->
  exists s', alloc_page s = Ok q s' /\ fork_core s' Tc l D done n /\ k_mem s' = k_mem s /\
    page_ok q /\ q ∈ l1 /\ (q ∉ l) /\ (q ∉ table_pages Tc) /\ (q ∉ D).
Proof.
  intros [(C1 & Cf & Cs) C2 C3 C4 C5 C6 CB C7 C8].
  destruct (pa_pages _ _ Cf) as [Hnd Hok]. inversion Hnd; subst. inversion Hok; subst.
  destruct (pa_alloc _ _ _ Cf) as (s' & E & Hf & Hk & Hm).
  exists s'. split_and!; try done.
  - split; rewrite ?Hm; try done.
    + split_and!; [by rewrite Hm|done|]. intros p Hp. apply Cs. by right.
    + destruct C3 as [u ->]. exists (u ++ [q]). by rewrite <- app_assoc.
    + by etrans.
    + intros x Hx. destruct (C6 x Hx) as (? & ? & ?). set_solver.
  - destruct C3 as [u ->]. set_solver.
  - apply Cs. set_solver.
  - intros Hx. destruct (C6 q Hx) as (_ & ? & _). set_solver.
Qed.

(** copying a page of the parent to a new page of the child *)
Lemma core_copy s Tc l D done n q p :
  fork_core s Tc l D done n -> page_ok q -> q ∈ l1 -> q ∉ l -> q ∉ table_pages Tc -> q ∉ D ->
  page_ok p -> p ∉ child_pages ->
  exists m, memcpy q p PGSIZE s = Ok q (set_k_mem m s) /\ fork_core (set_k_mem m s) Tc l (D ∪ {[q]}) done n /\
    same_outside fresh_pages (k_mem s) m /\
    (forall i, 0 <= i < 512 -> load64 m (q + 8 * i) = load64 (k_mem s1) (p + 8 * i)).
Proof.
  intros HC Hq Hql1 Hql HqT HqD Hp Hpc.
  assert (Hqf : q ∈ fresh_pages) by (unfold fresh_pages; set_solver).
  assert (Hne : q <> p) by (intros ->; apply Hpc; unfold child_pages; set_solver).
  destruct (memcpy_page s q p Hq Hp Hne) as (m & E & Hm & Hc).
  exists m. split; [done|]. destruct HC as [C1 C2 C3 C4 C5 C6 CB C7 C8].
  destruct (pt_ok_write cpt s Tc l m {[q]} C1 Hm) as [Hok Hlf]; [set_solver|set_solver|].
  split_and!.
  - split; try done.
    + etrans; [exact C4|]. eapply same_outside_mono; [|exact Hm]. unfold child_pages. set_solver.
    + intros x [Hx| ->%elem_of_singleton]%elem_of_union; [by apply C6|done].
    + intros r a Hr Ha. eapply (copied_page_frame (k_mem s)); [by eapply C7|apply Hlf|set_solver|apply l1_ok|exact Hm|].
      intros x Hx. destruct (C6 x Hx) as (? & _). split; [done|]. set_solver.
    + intros a Ha Hr. cbn [k_mem set_k_mem]. rewrite Hlf. by apply C8.
  - eapply same_outside_mono; [|exact Hm]. set_solver.
  - intros i Hi. rewrite Hc by done. apply C4. by rewrite slot_page.
Qed.

(** a loop over [seq 0 n] *)
Lemma kfor_seq (J : nat -> kstate -> Prop) (f : nat -> K unit) s n :
  J 0%nat s -> (forall j s2, (j < n)%nat -> J j s2 -> exists s3, f j s2 = Ok tt s3 /\ J (S j) s3) ->
  exists s', kfor (seq 0 n) f s = Ok tt s' /\ J n s'.
Proof.
  intros H0 Hstep.
  destruct (kfor_inv (fun L s2 => exists j, L = seq j (n - j) /\ (j <= n)%nat /\ J j s2) (seq 0 n) f s) as (s' & E & j & Hl & Hj & HJ).
  - exists 0%nat. rewrite Nat.sub_0_r. split_and!; [done|lia|done].
  - intros i L s2 (j & HL & Hj & HJ). destruct (n - j)%nat as [|d] eqn:Hd; [done|]. injection HL as -> ->.
    destruct (Hstep j s2 ltac:(lia) HJ) as (s3 & E & HJ'). exists s3. split; [done|]. exists (S j).
    split_and!; [f_equal; lia|lia|done].
  - exists s'. split; [done|]. destruct (n - j)%nat eqn:Hd; [|done]. by assert (j = n) as -> by lia.
Qed.

Lemma core_start s Tc l D done n va ty :
  fork_core s Tc l D done n -> fork_core s Tc l D (done ++ [mkRgn va 0 ty]) n.
Proof.
  intros [C1 C2 C3 C4 C5 C6 CB C7 C8].
  assert (He : forall a, ~ r_in (mkRgn va 0 ty) a) by (intros a; unfold r_in; simpl; lia).
  split; try done.
  - intros r a [Hr| ->%list_elem_of_singleton]%elem_of_app Ha; [by eapply CB|by apply He in Ha].
  - intros r a [Hr| ->%list_elem_of_singleton]%elem_of_app Ha; [by eapply C7|by apply He in Ha].
  - intros a Ha Hr. apply C8; [done|]. intros r Hr'. apply Hr. set_solver.
Qed.

(** copying a code or a data region *)
Definition copy_step (ty va : Z) (j : nat) : K unit :=
  let a := u64 (va + Z.of_nat j * PGSIZE) in
  if ty =? CODE_SEGMENT then addr <- lookup_pa ppt a ;; map_pages cpt a PGSIZE addr perm_user_rwx ;;; ret tt
  else pa <- alloc_page ;; addr <- lookup_pa ppt a ;; memcpy pa addr PGSIZE ;;; map_pages cpt a PGSIZE pa perm_user_rw ;;; ret tt.

Lemma copy_region s Tc l D done n r :
  fork_core s Tc l D done n -> page_ok trap_sec_start -> copies r = true -> fork_rgn r ->
  (forall r' a, r' ∈ done -> r_in r a -> ~ r_in r' a) -> (3 * r_npages r <= length l)%nat ->
  exists s' Tc' l' D', kfor (seq 0 (r_npages r)) (copy_step (r_type r) (r_va r)) s = Ok tt s' /\
    fork_core s' Tc' l' D' (done ++ [r]) n /\ (length l <= length l' + 3 * r_npages r)%nat /\
    same_outside fresh_pages (k_mem s) (k_mem s').
Proof.
  destruct r as [va np ty]. cbn [r_npages r_va r_type]. intros HC Htr Hcp Hr Hdj Hl.
  assert (Hty : ty = CODE_SEGMENT \/ ty = DATA_SEGMENT).
  { unfold copies in Hcp. apply orb_true_iff in Hcp as [Hx%Z.eqb_eq|Hx%Z.eqb_eq]; auto. }
  unfold fork_rgn in Hr. rewrite Hcp in Hr. cbn [r_npages r_va r_type] in Hr.
  rewrite (proj2 (Z.eqb_neq ty STACK_SEGMENT)) in Hr by (by destruct Hty as [-> | ->]).
  destruct Hr as (Hal & Hva & Hhi & Hsrc).
  destruct (kfor_seq (fun j s2 => exists Tc' l' D', fork_core s2 Tc' l' D' (done ++ [mkRgn va j ty]) n /\
     (length l <= length l' + 3 * j)%nat /\ same_outside fresh_pages (k_mem s) (k_mem s2))
    (copy_step ty va) s np) as (s' & E & Tc' & l' & D' & H).
  - exists Tc, l, D. split_and!; [by apply core_start|lia|done].
  - intros j s2 Hj (Tc' & l' & D' & HC2 & Hl' & Hm2).
    set (vj := va + PGSIZE * Z.of_nat j). assert (USER_STACK_TOP < MAXVA) by done.
    assert (Hvj : 0 <= vj /\ vj + PGSIZE <= USER_STACK_TOP - PGSIZE) by (unfold vj, PGSIZE in *; lia).
    assert (Hju : u64 (va + Z.of_nat j * PGSIZE) = vj).
    { unfold vj. rewrite u64_small; unfold MAXVA, PGSIZE in *; lia. }
    destruct (Hsrc vj) as [Hs1 Hs2]; [unfold r_in, vj, PGSIZE; simpl; lia|].
    assert (Hdj' : forall r a, r ∈ done -> page_of a = vj -> ~ r_in r a).
    { intros r a Hin Ha Hx. apply (Hdj r a); [done| |done]. apply page_of_iff in Ha; [|unfold vj, PGSIZE in *; dlia].
      unfold r_in, vj, PGSIZE in *; simpl; lia. }
    unfold copy_step. rewrite Hju. destruct (Z.eqb_spec ty CODE_SEGMENT) as [->|Hnc].
    + rewrite (bind_Ok _ _ _ _ _ (parent_lookup _ _ _ _ _ _ vj HC2 ltac:(unfold PGSIZE in *; lia))).
      destruct (core_map s2 Tc' l' D' done n va j CODE_SEGMENT (src vj) perm_user_rwx) as (s3 & Tc3 & l3 & E3 & HC3 & Hl3 & Hm3); try done; try lia; [by left|].
      rewrite (bind_Ok _ _ _ _ _ E3). exists s3. split; [done|]. exists Tc3, l3, D'. split_and!; [done|lia|by etrans].
    + destruct Hty as [->| ->]; [done|]. destruct l' as [|q l']; [simpl in Hl'; lia|].
      destruct (core_alloc _ _ _ _ _ _ _ HC2) as (s3 & E3 & HC3 & Hm3 & Q1 & Q2 & Q3 & Q4 & Q5).
      rewrite (bind_Ok _ _ _ _ _ E3), (bind_Ok _ _ _ _ _ (parent_lookup _ _ _ _ _ _ vj HC3 ltac:(unfold PGSIZE in *; lia))).
      destruct (core_copy s3 Tc' l' D' _ n q (src vj) HC3) as (m4 & E4 & HC4 & Hm4 & Hc4); try done.
      rewrite (bind_Ok _ _ _ _ _ E4).
      destruct (core_map (set_k_mem m4 s3) Tc' l' (D' ∪ {[q]}) done n va j DATA_SEGMENT q perm_user_rw) as (s5 & Tc5 & l5 & E5 & HC5 & Hl5 & Hm5); try done; try lia.
      { simpl in Hl'. lia. }
      { right. split_and!; [done|set_solver|done|done]. }
      rewrite (bind_Ok _ _ _ _ _ E5). exists s5. split; [done|]. exists Tc5, l5, (D' ∪ {[q]}).
      split_and!; [done|simpl in Hl'; lia|]. etrans; [exact Hm2|]. rewrite <- Hm3. etrans; [exact Hm4|exact Hm5].
  - exists s', Tc', l', D'. done.
Qed.

(** registering a region with the child *)
Lemma core_register s Tc l D done n va npages ty :
  fork_core s Tc l D done n -> 0 <= n -> 3 + n < 256 -> 0 <= va < 2 ^ 64 -> 0 <= npages < 2 ^ 32 -> 0 <= ty < 2 ^ 32 ->
  exists s', register_region child va npages ty s = Ok tt s' /\ fork_core s' Tc l D done (n + 1) /\
    same_outside {[cinfo]} (k_mem s) (k_mem s') /\ region_is (k_mem s') cinfo (3 + n) va npages ty /\
    (forall k, 0 <= k < 256 -> k <> 3 + n -> forall v np t,
       region_is (k_mem s) cinfo k v np t -> region_is (k_mem s') cinfo k v np t).
Proof.
  intros HC Hn Hlt Hva Hnp Hty.
  assert (Hlen : (child < length (k_procs s1))%nat) by apply Hpre.
  assert (Hp : forall A (f : process -> A), (forall n p, f (set_p_total_mem_count n p) = f p) ->
     f (proc s child) = f (set_p_total_mapped_region (3 + n) (proc s1 child))).
  { intros A f Hf. rewrite (kframe_proc f _ s child Hf (fc_k _ _ _ _ _ _ HC)). by rewrite proc_updp_eq. }
  destruct (fp_own_ok Hpre cinfo) as [Hi _]; [set_solver|].
  unfold register_region. do 2 (erewrite bind_Ok; [|reflexivity]).
  rewrite (Hp _ p_mapped_info), (Hp _ p_total_mapped_region) by done. cbn [p_mapped_info p_total_mapped_region set_p_total_mapped_region].
  destruct (set_region_spec s cinfo (3 + n) va npages ty) as (m & E & Hm & Hr & Hk); try done; [lia|].
  rewrite (bind_Ok _ _ _ _ _ E), s32_small by lia. eexists. split; [apply setp_run|]. split_and!; try done.
  assert (HC' : fork_core (set_k_mem m s) Tc l D done n) by (eapply core_write; [done| |done]; set_solver).
  destruct HC' as [(C1 & C1b & C1c) C2 C3 C4 C5 C6 CB C7 C8]. split; try done.
  assert (Hu : updp child (set_p_total_mapped_region (3 + (n + 1))) s1 =
    updp child (set_p_total_mapped_region (3 + n + 1)) (updp child (set_p_total_mapped_region (3 + n)) s1)).
  { unfold updp. cbn [k_procs set_k_procs]. rewrite list_alter_alter_eq.
    replace (3 + (n + 1)) with (3 + n + 1) by lia. reflexivity. }
  rewrite Hu. apply kframe_updp; [solve_blind|exact C5].
Qed.

Lemma copy_trapframe_spec s dst srcp :
  page_ok dst -> page_ok srcp -> dst <> srcp ->
  exists m, copy_trapframe dst srcp s = Ok tt (set_k_mem m s) /\ same_outside {[dst]} (k_mem s) m /\
    forall k, 0 <= k < 35 -> load64 m (dst + 8 * k) = load64 (k_mem s) (srcp + 8 * k).
Proof.
  intros Hd Hs Hne. unfold copy_trapframe.
  destruct (kfor_mem (fun k m => same_outside {[dst]} (k_mem s) m /\
     forall j, 0 <= j < Z.of_nat k -> load64 m (dst + 8 * j) = load64 (k_mem s) (srcp + 8 * j))
    (fun k => v <- ld64 (srcp + 8 * Z.of_nat k) ;; st64 (dst + 8 * Z.of_nat k) v) s 35) as (m & E & Hm & Hc).
  - split; [done|lia].
  - intros k m Hk [Hm Hc]. set (kz := Z.of_nat k) in *. assert (Hkz : 0 <= kz < 512) by lia.
    erewrite bind_Ok; [|apply ld64_ok, page_ok_addr64; done]. rewrite st64_ok by (by apply page_ok_addr64).
    cbn [k_mem set_k_mem]. eexists. split; [reflexivity|]. split.
    + etrans; [exact Hm|]. eapply same_outside_mono; [|apply store64_outside]. by rewrite slot_page.
    + intros j Hj. destruct (decide (j = kz)) as [->|Hnj].
      * rewrite load64_store64_eq, u64_small by apply load64_range. apply Hm. rewrite slot_page by done. set_solver.
      * rewrite load64_store64_ne; [apply Hc; lia|]. intros Hx. apply slot_word_inj in Hx; [lia|done|done|lia|lia].
  - exists m. split; [exact E|]. split; [exact Hm|]. intros k Hk. apply Hc. lia.
Qed.

(* ------------------------------------------------------------------ *)
(** * All regions *)

Definition done_rgns (k : nat) : list rgn := filter (fun r => copies r = true) (take k rs).
(** pages of the code and data regions *)
Definition npages_of (L : list rgn) : nat := sum_list_with (fun r => if copies r then r_npages r else 0%nat) L.

Definition fork_inv (k : nat) (s : kstate) : Prop := exists Tc l D,
  fork_core s Tc l D (done_rgns k) (Z.of_nat (length (done_rgns k))) /\
  (3 * npages_of (drop k rs) <= length l)%nat /\
  (forall (j : nat) r, (initial_rgns ctf ++ done_rgns k) !! j = Some r ->
     region_is (k_mem s) cinfo (Z.of_nat j) (r_va r) (Z.of_nat (r_npages r)) (r_type r)) /\
  ((exists r, r ∈ take k rs /\ r_type r = STACK_SEGMENT) -> forall i, 0 <= i < 512 ->
     load64 (k_mem s) (cus + 8 * i) = load64 (k_mem s1) (src (USER_STACK_TOP - PGSIZE) + 8 * i)) /\
  ((exists r, r ∈ take k rs /\ r_type r = CONTEXT_SEGMENT) -> forall i, 0 <= i < 35 ->
     load64 (k_mem s) (ctf + 8 * i) = load64 (k_mem s1) (ptf + 8 * i)).

Lemma done_rgns_S k r :
  rs !! k = Some r -> done_rgns (S k) = done_rgns k ++ (if copies r then [r] else []).
Proof.
  intros Hr. unfold done_rgns. rewrite (take_S_r _ _ _ Hr), filter_app, filter_cons.
  destruct (copies r); [by rewrite decide_True|by rewrite decide_False].
Qed.
Lemma done_rgns_elem k r : r ∈ done_rgns k -> copies r = true /\ exists j, (j < k)%nat /\ rs !! j = Some r.
Proof.
  intros [Hc Hin]%list_elem_of_filter. split; [done|].
  apply list_elem_of_lookup_1 in Hin as [j Hj]. exists j. apply lookup_take_Some in Hj as [Hj1 Hj2]. done.
Qed.
Lemma done_rgns_length k : (length (done_rgns k) <= 253)%nat.
Proof.
  unfold done_rgns. etrans; [apply length_filter|]. rewrite length_take. pose proof (fp_len Hpre). lia.
Qed.
Lemma npages_drop k r :
  rs !! k = Some r -> npages_of (drop k rs) = ((if copies r then r_npages r else 0) + npages_of (drop (S k) rs))%nat.
Proof. intros Hr. by rewrite (drop_S _ _ _ Hr). Qed.
Lemma copies_rgn r : fork_rgn r -> copies r = true ->
  r_va r mod PGSIZE = 0 /\ 0 <= r_va r /\ r_va r + PGSIZE * Z.of_nat (r_npages r) <= USER_STACK_TOP - PGSIZE /\
  (r_type r = CODE_SEGMENT \/ r_type r = DATA_SEGMENT).
Proof.
  intros Hr Hc. assert (Hty : r_type r = CODE_SEGMENT \/ r_type r = DATA_SEGMENT).
  { unfold copies in Hc. apply orb_true_iff in Hc as [Hx%Z.eqb_eq|Hx%Z.eqb_eq]; auto. }
  unfold fork_rgn in Hr. rewrite Hc, (proj2 (Z.eqb_neq _ _)) in Hr by (by destruct Hty as [-> | ->]).
  destruct Hr as (? & ? & ? & _). done.
Qed.

(** the facts about the child's own pages only depend on those pages *)
Lemma regs_keep P m m' L :
  cinfo ∉ P -> same_outside P m m' -> (length L <= 256)%nat ->
  (forall (j : nat) r, L !! j = Some r -> region_is m cinfo (Z.of_nat j) (r_va r) (Z.of_nat (r_npages r)) (r_type r)) ->
  forall (j : nat) r, L !! j = Some r -> region_is m' cinfo (Z.of_nat j) (r_va r) (Z.of_nat (r_npages r)) (r_type r).
Proof.
  intros HP Hm HL H j r Hj. destruct (fp_own_ok Hpre cinfo) as [Hi _]; [set_solver|].
  eapply region_is_outside; [done| |done|done|by apply H]. apply lookup_lt_Some in Hj. lia.
Qed.
Lemma words_keep P m m' p n (g : Z -> Z) :
  page_ok p -> p ∉ P -> same_outside P m m' -> n <= 512 ->
  (forall i, 0 <= i < n -> load64 m (p + 8 * i) = g i) -> forall i, 0 <= i < n -> load64 m' (p + 8 * i) = g i.
Proof. intros Hp HP Hm Hn H i Hi. rewrite Hm, H by (try done; rewrite slot_page by (done || lia); done). done. Qed.

(** the parent's record of the region is read *)
Lemma fork_region_read s Tc l D done n (k : nat) r :
  fork_core s Tc l D done n -> rs !! k = Some r ->
  fork_region parent child (Z.of_nat k) s =
  (if r_type r =? CONTEXT_SEGMENT then copy_trapframe ctf ptf
   else if r_type r =? STACK_SEGMENT then
     cva <- ld64 (region cinfo 0 + MR_va) ;;
     dst <- lookup_pa cpt cva ;; p <- lookup_pa ppt (r_va r) ;; memcpy dst p PGSIZE ;;; ret tt
   else if r_type r =? CODE_SEGMENT then
     kfor (seq 0 (r_npages r)) (copy_step CODE_SEGMENT (r_va r)) ;;;
     register_region child (r_va r) (Z.of_nat (r_npages r)) CODE_SEGMENT
   else if r_type r =? DATA_SEGMENT then
     kfor (seq 0 (r_npages r)) (copy_step DATA_SEGMENT (r_va r)) ;;;
     register_region child (r_va r) (Z.of_nat (r_npages r)) DATA_SEGMENT
   else ret tt) s.
Proof.
  intros HC Hr.
  assert (Hlen : (child < length (k_procs s1))%nat) by apply Hpre.
  assert (Hc : forall A (f : process -> A), (forall n p, f (set_p_total_mem_count n p) = f p) ->
     (forall n p, f (set_p_total_mapped_region n p) = f p) -> f (proc s child) = f (proc s1 child)).
  { intros A f Hf Hg. rewrite (kframe_proc f _ s child Hf (fc_k _ _ _ _ _ _ HC)). by rewrite proc_updp_eq, Hg. }
  assert (Hp : forall A (f : process -> A), (forall n p, f (set_p_total_mem_count n p) = f p) ->
     f (proc s parent) = f (proc s1 parent)).
  { intros A f Hf. rewrite (kframe_proc f _ s parent Hf (fc_k _ _ _ _ _ _ HC)).
    rewrite proc_updp_ne; [done|]. apply not_eq_sym, Hpre. }
  destruct (fp_parent Hpre pinfo) as [Hi Hic]; [set_solver|].
  assert (Hk : 0 <= Z.of_nat k < 256).
  { apply lookup_lt_Some in Hr. pose proof (fp_len Hpre). lia. }
  destruct (region_is_outside _ _ _ _ _ _ _ _ Hi Hk Hic (fc_frame _ _ _ _ _ _ HC) (fp_is Hpre k r Hr)) as (E1 & E2 & E3).
  destruct (region_addr pinfo (Z.of_nat k) MR_va 8) as [A1 _]; try done.
  destruct (region_addr pinfo (Z.of_nat k) MR_npages 4) as [A2 _]; try done.
  destruct (region_addr pinfo (Z.of_nat k) MR_seg_type 4) as [A3 _]; try done.
  unfold fork_region. do 6 (erewrite bind_Ok; [|reflexivity]).
  rewrite (Hp _ p_mapped_info), (Hp _ p_pagetable), (Hp _ p_trapframe), (Hc _ p_mapped_info), (Hc _ p_pagetable), (Hc _ p_trapframe) by done.
  rewrite (bind_Ok _ _ _ _ _ (ld32_ok _ s A3)), (bind_Ok _ _ _ _ _ (ld64_ok _ s A1)), (bind_Ok _ _ _ _ _ (ld32_ok _ s A2)).
  rewrite E1, E2, E3, Nat2Z.id. reflexivity.
Qed.

Lemma own_distinct : ctf <> cus /\ ctf <> cinfo /\ cus <> cinfo.
Proof. pose proof (fp_own Hpre) as H. rewrite !NoDup_cons in H. set_solver. Qed.
Lemma own_page p : p ∈ [ctf; cus; cinfo] -> page_ok p /\ (p ∉ fresh_pages) /\ p ∈ child_pages.
Proof. intros Hp. destruct (fp_own_ok Hpre p Hp). split_and!; [done..|]. unfold child_pages. set_solver. Qed.

(** a region that is neither code nor data changes no page table *)
Lemma fork_inv_own k r s m p :
  rs !! k = Some r -> copies r = false -> fork_inv k s -> p ∈ [ctf; cus] -> same_outside {[p]} (k_mem s) m ->
  (r_type r = STACK_SEGMENT -> p = cus /\ forall i, 0 <= i < 512 -> load64 m (cus + 8 * i) = load64 (k_mem s1) (src (USER_STACK_TOP - PGSIZE) + 8 * i)) ->
  (r_type r = CONTEXT_SEGMENT -> p = ctf /\ forall i, 0 <= i < 35 -> load64 m (ctf + 8 * i) = load64 (k_mem s1) (ptf + 8 * i)) ->
  (r_type r <> STACK_SEGMENT -> p <> cus \/ m = k_mem s) -> (r_type r <> CONTEXT_SEGMENT -> p <> ctf \/ m = k_mem s) ->
  fork_inv (S k) (set_k_mem m s).
Proof.
  intros Hr Hcp (Tc & l & D & HC & Hl & Hregs & Hst & Htf) Hp Hm S1 S2 N1 N2.
  destruct own_distinct as (D1 & D2 & D3).
  destruct (own_page ctf) as (P1 & _ & _); [set_solver|]. destruct (own_page cus) as (P2 & _ & _); [set_solver|].
  exists Tc, l, D. rewrite (done_rgns_S k r Hr), Hcp, app_nil_r. rewrite (npages_drop k r Hr), Hcp in Hl.
  cbn [k_mem set_k_mem]. split_and!; [|lia| | |].
  - eapply core_write; [done| |done]. set_solver.
  - apply (regs_keep {[p]} (k_mem s)); [set_solver|done| |done].
    rewrite length_app. pose proof (done_rgns_length k). simpl. lia.
  - intros (r' & Hr' & Hty). rewrite (take_S_r _ _ _ Hr) in Hr'.
    destruct (decide (r_type r = STACK_SEGMENT)) as [Hs|Hs]; [by apply S1|].
    apply elem_of_app in Hr' as [Hr'| ->%list_elem_of_singleton]; [|done].
    destruct (N1 Hs) as [Hne| ->]; [|apply Hst; eauto].
    eapply (words_keep {[p]} (k_mem s)); [done|set_solver|done|lia|]. apply Hst. eauto.
  - intros (r' & Hr' & Hty). rewrite (take_S_r _ _ _ Hr) in Hr'.
    destruct (decide (r_type r = CONTEXT_SEGMENT)) as [Hs|Hs]; [by apply S2|].
    apply elem_of_app in Hr' as [Hr'| ->%list_elem_of_singleton]; [|done].
    destruct (N2 Hs) as [Hne| ->]; [|apply Htf; eauto].
    eapply (words_keep {[p]} (k_mem s)); [done|set_solver|done|lia|]. apply Htf. eauto.
Qed.

(** code and data regions *)
Lemma fork_copies_step k r s :
  rs !! k = Some r -> page_ok trap_sec_start -> copies r = true -> fork_inv k s ->
  exists s', (kfor (seq 0 (r_npages r)) (copy_step (r_type r) (r_va r)) ;;;
              register_region child (r_va r) (Z.of_nat (r_npages r)) (r_type r)) s = Ok tt s' /\ fork_inv (S k) s'.
Proof.
  intros Hr Htr Hcp (Tc & l & D & HC & Hl & Hregs & Hst & Htf).
  assert (Hin : r ∈ rs) by (by eapply list_elem_of_lookup_2).
  destruct (copies_rgn r (fp_rgn Hpre r Hin) Hcp) as (R1 & R2 & R3 & R4).
  rewrite (npages_drop k r Hr), Hcp in Hl. pose proof (done_rgns_length k) as Hdl.
  destruct (copy_region s Tc l D (done_rgns k) (Z.of_nat (length (done_rgns k))) r) as (s2 & Tc2 & l2 & D2 & E2 & HC2 & Hl2 & Hm2); try done.
  { by apply Hpre. }
  { intros r' a (Hc' & j & Hj & Hr')%done_rgns_elem Ha. by eapply (fp_disj Hpre k j); [..|exact Ha]; done || lia. }
  { lia. }
  assert (USER_STACK_TOP < 2 ^ 31) by done.
  assert (Hdk : (length (done_rgns k) < 253)%nat).
  { unfold done_rgns. eapply Nat.le_lt_trans; [apply length_filter|]. rewrite length_take.
    apply lookup_lt_Some in Hr. pose proof (fp_len Hpre). lia. }
  destruct (core_register s2 Tc2 l2 D2 _ (Z.of_nat (length (done_rgns k))) (r_va r) (Z.of_nat (r_npages r)) (r_type r) HC2)
    as (s3 & E3 & HC3 & Hm3 & Hr3 & Hk3); try (unfold PGSIZE in *; lia).
  { destruct R4 as [-> | ->]; done. }
  rewrite (bind_Ok _ _ _ _ _ E2), E3. exists s3. split; [done|].
  destruct own_distinct as (D1 & D2' & D3).
  destruct (own_page ctf) as (P1 & P1f & _); [set_solver|]. destruct (own_page cus) as (P2 & P2f & _); [set_solver|].
  destruct (own_page cinfo) as (P3 & P3f & _); [set_solver|].
  exists Tc2, l2, D2. rewrite (done_rgns_S k r Hr), Hcp, length_app. simpl (length [r]).
  split_and!; [by rewrite Nat2Z.inj_add|lia| | |].
  - rewrite app_assoc. intros j r' Hj. apply lookup_app_Some in Hj as [Hj|[Hge Hj]].
    + apply lookup_lt_Some in Hj as Hlt. rewrite length_app in Hlt. simpl in Hlt. apply Hk3; [lia|lia|].
      by apply (regs_keep fresh_pages (k_mem s) _ (initial_rgns ctf ++ done_rgns k)); [|done|rewrite length_app; simpl; lia|..].
    + rewrite length_app in *. simpl in Hge, Hj.
      destruct (j - S (S (S (length (done_rgns k)))))%nat as [|d] eqn:Hd; [|done]. injection Hj as <-.
      replace (Z.of_nat j) with (3 + Z.of_nat (length (done_rgns k))) by lia. done.
  - intros (r' & Hr' & Hty). rewrite (take_S_r _ _ _ Hr) in Hr'.
    apply elem_of_app in Hr' as [Hr'| ->%list_elem_of_singleton]; [|by destruct R4 as [E|E]; rewrite E in Hty].
    eapply (words_keep {[cinfo]} (k_mem s2)); [done|set_solver|done|lia|].
    eapply (words_keep fresh_pages (k_mem s)); [done|done|done|lia|]. apply Hst. eauto.
  - intros (r' & Hr' & Hty). rewrite (take_S_r _ _ _ Hr) in Hr'.
    apply elem_of_app in Hr' as [Hr'| ->%list_elem_of_singleton]; [|by destruct R4 as [E|E]; rewrite E in Hty].
    eapply (words_keep {[cinfo]} (k_mem s2)); [done|set_solver|done|lia|].
    eapply (words_keep fresh_pages (k_mem s)); [done|done|done|lia|]. apply Htf. eauto.
Qed.

(** the stack page *)
Lemma fork_stack_step k r s :
  rs !! k = Some r -> r_type r = STACK_SEGMENT -> fork_inv k s ->
  exists s', (cva <- ld64 (region cinfo 0 + MR_va) ;;
     dst <- lookup_pa cpt cva ;; p <- lookup_pa ppt (r_va r) ;; memcpy dst p PGSIZE ;;; ret tt) s = Ok tt s' /\ fork_inv (S k) s'.
Proof.
  intros Hr Hty HI. destruct HI as (Tc & l & D & HC & HI').
  assert (Hin : r ∈ rs) by (by eapply list_elem_of_lookup_2).
  pose proof (fp_rgn Hpre r Hin) as Hrg. unfold fork_rgn in Hrg. rewrite Hty in Hrg. simpl in Hrg.
  destruct Hrg as (-> & Hs1 & Hs2). cbn [r_va] in *.
  destruct (own_page cinfo) as (P3 & _ & _); [set_solver|]. destruct (own_page cus) as (P2 & _ & P2c); [set_solver|].
  destruct (region_addr cinfo 0 MR_va 8) as [A1 _]; try done.
  destruct HI' as (Hl & Hregs & HI'). destruct (Hregs 0%nat _ eq_refl) as (E1 & _). cbn [r_va] in E1.
  change (Z.of_nat 0) with 0 in E1. rewrite (bind_Ok _ _ _ _ _ (ld64_ok _ s A1)). rewrite E1.
  set (top := USER_STACK_TOP - PGSIZE) in *. assert (Htop : 0 <= top < MAXVA) by done.
  destruct (page_ok_user _ P2) as (C1 & _ & _ & C4).
  assert (Hlk : lookup_pa cpt top s = Ok cus s).
  { destruct HC as [(Hpt & _) _ _ _ _ _ _ _ C8]. rewrite (lookup_pa_spec _ _ _ _ Hpt) by lia.
    rewrite (proj2 (Z.ltb_lt top MAXVA)) by lia. rewrite C8; [|done|].
    2:{ intros r' (Hc' & j & _ & Hr')%done_rgns_elem Hx.
        destruct (copies_rgn r' (fp_rgn Hpre r' (list_elem_of_lookup_2 _ _ _ Hr')) Hc') as (_ & _ & Hb & _).
        unfold r_in in Hx. fold top in Hb. lia. }
    unfold initial_leaf. rewrite decide_True by done. rewrite pte_pa_mkpte; [done|done|unfold PGSIZE in *; lia|done|done]. }
  rewrite (bind_Ok _ _ _ _ _ Hlk), (bind_Ok _ _ _ _ _ (parent_lookup _ _ _ _ _ _ top HC Htop)).
  assert (Hne : cus <> src top) by (intros E; by rewrite <- E in Hs2).
  destruct (memcpy_page s cus (src top) P2 Hs1 Hne) as (m & E & Hm & Hc).
  rewrite (bind_Ok _ _ _ _ _ E). exists (set_k_mem m s). split; [done|].
  eapply (fork_inv_own k _ s m cus Hr eq_refl); [by exists Tc, l, D|set_solver|done| |done|done|].
  - intros _. split; [done|]. intros i Hi. rewrite Hc by done. apply (fc_frame _ _ _ _ _ _ HC). by rewrite slot_page.
  - intros _. left. apply not_eq_sym, own_distinct.
Qed.

(** one region of the parent *)
Lemma fork_region_step k r s :
  rs !! k = Some r -> page_ok trap_sec_start -> fork_inv k s ->
  exists s', fork_region parent child (Z.of_nat k) s = Ok tt s' /\ fork_inv (S k) s'.
Proof.
  intros Hr Htr HI. pose proof HI as (Tc & l & D & HC & _).
  rewrite (fork_region_read s Tc l D _ _ k r HC Hr).
  destruct (Z.eqb_spec (r_type r) CONTEXT_SEGMENT) as [E|N1].
  { destruct (own_page ctf) as (P1 & _ & P1c); [set_solver|]. destruct (fp_parent Hpre ptf) as [Q1 Q2]; [set_solver|].
    assert (Hne : ctf <> ptf) by (intros E'; by rewrite <- E' in Q2).
    destruct (copy_trapframe_spec s ctf ptf P1 Q1 Hne) as (m & E2 & Hm & Hc).
    exists (set_k_mem m s). split; [done|]. eapply (fork_inv_own k r s m ctf Hr); [unfold copies; by rewrite E|done|set_solver|done| | | |].
    - by rewrite E.
    - intros _. split; [done|]. intros i Hi. rewrite Hc by done. apply (fc_frame _ _ _ _ _ _ HC). rewrite slot_page by (done || lia). done.
    - intros _. left. apply own_distinct.
    - done. }
  destruct (Z.eqb_spec (r_type r) STACK_SEGMENT) as [E|N2]; [by apply (fork_stack_step k r s)|].
  destruct (Z.eqb_spec (r_type r) CODE_SEGMENT) as [E|N3].
  { rewrite <- E. apply fork_copies_step; try done. unfold copies. by rewrite E. }
  destruct (Z.eqb_spec (r_type r) DATA_SEGMENT) as [E|N4].
  { rewrite <- E. apply fork_copies_step; try done. unfold copies. by rewrite E. }
  exists s. split; [done|]. destruct (own_page ctf) as (P1 & _ & _); [set_solver|].
  assert (Hcp : copies r = false) by (unfold copies; by rewrite !(proj2 (Z.eqb_neq _ _))).
  replace s with (set_k_mem (k_mem s) s) by (by destruct s).
  eapply (fork_inv_own k r s (k_mem s) ctf Hr); try done; [set_solver|by right..].
Qed.

(** the loop of do_fork *)
Lemma fork_loop :
  page_ok trap_sec_start -> (3 * npages_of rs <= length l1)%nat ->
  exists s', for_regions parent (fork_region parent child) s1 = Ok tt s' /\ fork_inv (length rs) s'.
Proof.
  intros Htr Hl. unfold for_regions.
  apply (kwhile_rule (fun x s => exists k : nat, x = Z.of_nat k /\ (k <= length rs)%nat /\ fork_inv k s)
    (fun x => Z.of_nat (length rs) - x) (fun o => exists s', o = Ok tt s' /\ fork_inv (length rs) s')).
  - exists 0%nat. split_and!; [done|lia|]. exists Tc1, l1, ∅. split_and!; [|done| |by intros (r & Hr%elem_of_nil & _)..].
    + split; [apply Hpre| |done|done| |set_solver|by intros r a Hr%elem_of_nil..|].
      * intros p Hp. unfold fresh_pages. by apply elem_of_union_l.
      * assert (Hu : updp child (set_p_total_mapped_region (3 + 0)) s1 = s1); [|change (kframe (updp child (set_p_total_mapped_region (3 + 0)) s1) s1); by rewrite Hu].
        unfold updp. enough (alter (set_p_total_mapped_region (3 + 0)) child (k_procs s1) = k_procs s1) as -> by (by destruct s1).
        apply list_eq. intros j. destruct (decide (child = j)) as [<-|Hne]; [|by rewrite list_lookup_alter_ne].
        rewrite list_lookup_alter_eq. pose proof (fp_ctot Hpre) as Ht. unfold proc in Ht.
        destruct (k_procs s1 !! child) as [p|]; [|done]. simpl in *. f_equal. destruct p. simpl in Ht. by subst.
      * intros a Ha _. by apply Hpre.
    + destruct (fp_cregs Hpre) as (R0 & R1 & R2). intros [|[|[|j]]] r Hj; [..|done]; injection Hj as <-; done.
  - pose proof (fp_len Hpre). lia.
  - intros x s (k & -> & Hk & HI). pose proof HI as (Tc & l & D & HC & _).
    erewrite bind_Ok; [|reflexivity].
    rewrite (kframe_proc p_total_mapped_region _ s parent ltac:(done) (fc_k _ _ _ _ _ _ HC)).
    rewrite proc_updp_ne by (apply not_eq_sym, Hpre). rewrite (fp_ptot Hpre).
    destruct (Z.ltb_spec (Z.of_nat k) (Z.of_nat (length rs))) as [Hlt|Hge].
    + destruct (lookup_lt_is_Some_2 rs k ltac:(lia)) as [r Hr].
      destruct (fork_region_step k r s Hr Htr HI) as (s2 & E & HI2). rewrite (bind_Ok _ _ _ _ _ E). simpl.
      split; [|lia]. exists (S k). split_and!; [lia|lia|done].
    + assert (k = length rs) as -> by lia. by exists s.
Qed.
End Invariant.
(* ------------------------------------------------------------------ *)
(** * do_fork *)

Lemma queue_updp s l i f : i ∉ l -> queue s l -> queue (updp i f s) l.
Proof.
  intros Hi (Hc & Hnd & Hlen). split_and!; [|done|by rewrite updp_length].
  eapply qchain_frame; [apply updp_length| |exact Hc]. intros j Hj. rewrite proc_updp_ne; [done|]. set_solver.
Qed.
Lemma queue_same s s' l :
  k_ready_queue_head s' = k_ready_queue_head s -> length (k_procs s') = length (k_procs s) ->
  (forall i, p_queue_next (proc s' i) = p_queue_next (proc s i)) -> queue s l -> queue s' l.
Proof.
  intros Hh Hlen Hn (Hc & Hnd & Hl). split_and!; [|done|by rewrite Hlen]. rewrite Hh. by eapply qchain_frame.
Qed.
Lemma queue_kframe s s' l : kframe s s' -> queue s l -> queue s' l.
Proof.
  intros Hk. apply queue_same.
  - by apply (f_equal k_ready_queue_head) in Hk.
  - apply (f_equal (fun s => length (k_procs s))) in Hk. simpl in Hk. by rewrite !length_map in Hk.
  - intros i. by apply (kframe_proc p_queue_next).
Qed.

(** pages with the same words have the same bytes *)
Lemma load8_pages m m' q p o :
  page_ok q -> page_ok p -> (forall i, 0 <= i < 512 -> load64 m (q + 8 * i) = load64 m' (p + 8 * i)) ->
  0 <= o < PGSIZE -> load8 m (q + o) = load8 m' (p + o).
Proof.
  intros (Hq & _) (Hp & _) H Ho. unfold load8, loadn, bit_off.
  replace (load64 m (q + o)) with (load64 m' (p + o)).
  - do 2 f_equal. unfold PGSIZE in *. dlia.
  - rewrite (load64_align m (q + o)), (load64_align m' (p + o)).
    replace (8 * ((q + o) / 8)) with (q + 8 * (o / 8)) by (unfold PGSIZE in *; dlia).
    replace (8 * ((p + o) / 8)) with (p + 8 * (o / 8)) by (unfold PGSIZE in *; dlia).
    symmetry. apply H. unfold PGSIZE in *. dlia.
Qed.

(** translation of a mapped address *)
Lemma translate_page root s T a q :
  pt_rep (k_mem s) T root -> 0 <= a < MAXVA -> pte_pa (leaf (k_mem s) T a) = q -> page_ok q ->
  user_va_to_pa root a s = Ok (q + a mod PGSIZE) s.
Proof.
  intros Hr Ha Hq Hp. rewrite (user_va_to_pa_spec _ _ _ _ Hr Ha). cbv zeta. rewrite Hq.
  rewrite (proj2 (Z.eqb_neq q 0)) by (by apply page_ok_nonzero).
  pose proof (page_ok_range q Hp). rewrite u64_small; [done|].
  pose proof (Z.mod_pos_bound a PGSIZE). unfold PGSIZE in *. lia.
Qed.
(** a region of the parent below the context segment is code, data or the stack *)
Lemma segment_copies r : 0 <= r_type r < CONTEXT_SEGMENT -> r_type r <> STACK_SEGMENT -> copies r = true.
Proof.
  unfold copies, CODE_SEGMENT, DATA_SEGMENT, STACK_SEGMENT, CONTEXT_SEGMENT.
  intros. destruct (Z.eqb_spec (r_type r) 0), (Z.eqb_spec (r_type r) 1); try done. lia.
Qed.
Lemma fork_src_ok s1 child Tp Tc1 l1 cus r a :
  fork_rgn s1 child Tp Tc1 l1 cus r -> 0 <= r_type r < CONTEXT_SEGMENT -> r_in r a ->
  0 <= a < MAXVA /\ page_ok (src s1 Tp a) /\ src s1 Tp a ∉ child_pages s1 child Tc1 l1 cus.
Proof.
  intros Hrg Hty Ha. assert (0 <= USER_STACK_TOP - PGSIZE /\ USER_STACK_TOP < MAXVA) by done. unfold fork_rgn in Hrg.
  destruct (Z.eqb_spec (r_type r) STACK_SEGMENT) as [E|N].
  - destruct Hrg as (-> & H1 & H2). cbn [r_va] in *. unfold r_in in Ha. simpl in Ha.
    rewrite (src_page s1 Tp a (USER_STACK_TOP - PGSIZE)); [split_and!; try done; unfold PGSIZE in *; lia|].
    rewrite (page_of_in (USER_STACK_TOP - PGSIZE) a); [done|done|unfold PGSIZE in *; lia].
  - rewrite (segment_copies r) in Hrg by done. destruct Hrg as (? & ? & ? & H3). destruct (H3 a Ha).
    unfold r_in in Ha. split_and!; try done; unfold PGSIZE in *; lia.
Qed.

(** after the loop, every code, data and stack address of the parent translates in
    the child, to the same page for code and to a copy of it otherwise *)
Lemma fork_translates s1 parent child Tp Tc1 l1 rs cus s2 s' m :
  fork_pre s1 parent child Tp Tc1 l1 rs cus -> fork_inv s1 parent child Tp Tc1 l1 rs cus (length rs) s2 ->
  k_mem s' = m -> same_outside {[p_trapframe (proc s1 child)]} (k_mem s2) m ->
  same_outside (child_pages s1 child Tc1 l1 cus) (k_mem s1) m /\
  forall r a, r ∈ rs -> 0 <= r_type r < CONTEXT_SEGMENT -> r_in r a ->
    exists pa pc, user_va_to_pa (p_pagetable (proc s1 parent)) a s' = Ok pa s' /\
      user_va_to_pa (p_pagetable (proc s1 child)) a s' = Ok pc s' /\
      load8 m pc = load8 m pa /\ (pc = pa <-> r_type r = CODE_SEGMENT).
Proof.
  intros Hpre (Tc & l & D & HC0 & _ & _ & Hst & _) Hm' Hm.
  set (tf := p_trapframe (proc s1 child)) in *.
  assert (Htf : tf ∈ [tf; cus; p_mapped_info (proc s1 child)]) by set_solver.
  assert (HC := core_write s1 parent child Tp Tc1 l1 rs cus Hpre s2 Tc l D _ _ m tf HC0 Htf Hm).
  assert (Hfr := fc_frame _ _ _ _ _ _ _ _ _ _ _ _ HC). cbn [k_mem set_k_mem] in Hfr. split; [exact Hfr|].
  intros r a Hr Hty Ha.
  assert (Hdj : child_pages s1 child Tc1 l1 cus ## table_pages Tp) by (intros p H1 H2; by apply (fp_tables _ _ _ _ _ _ _ _ Hpre p)).
  assert (Hrp : pt_rep (k_mem s') Tp (p_pagetable (proc s1 parent))).
  { rewrite Hm'. eapply pt_rep_outside; [by eapply fp_pt|exact Hfr|done]. }
  assert (Hlp : forall b, leaf m Tp b = leaf (k_mem s1) Tp b).
  { intros b. eapply leaf_outside; [by eapply fp_pt|exact Hfr|done]. }
  assert (Hrc : pt_rep (k_mem s') Tc (p_pagetable (proc s1 child))) by (rewrite Hm'; apply HC).
  pose proof (fp_rgn _ _ _ _ _ _ _ _ Hpre r Hr) as Hrg.
  destruct (fork_src_ok s1 child Tp Tc1 l1 cus r a) as (Hab & Hps & Hpc); [done..|].
  assert (Hpp : pte_pa (leaf (k_mem s') Tp a) = src s1 Tp a) by (by rewrite Hm', Hlp).
  pose proof (Z.mod_pos_bound a PGSIZE ltac:(done)) as Ho.
  assert (Hparent := translate_page _ _ _ a _ Hrp Hab Hpp Hps).
  (* the child's page [q] holds the words of the parent's page *)
  assert (Hfin : forall q, pte_pa (leaf m Tc a) = q -> page_ok q ->
     (forall i, 0 <= i < 512 -> load64 m (q + 8 * i) = load64 (k_mem s1) (src s1 Tp a + 8 * i)) ->
     (q = src s1 Tp a <-> r_type r = CODE_SEGMENT) ->
     exists pa pc, user_va_to_pa (p_pagetable (proc s1 parent)) a s' = Ok pa s' /\
      user_va_to_pa (p_pagetable (proc s1 child)) a s' = Ok pc s' /\
      load8 m pc = load8 m pa /\ (pc = pa <-> r_type r = CODE_SEGMENT)).
  { intros q Hq Hqk Hw Hiff. exists (src s1 Tp a + a mod PGSIZE), (q + a mod PGSIZE). split_and!.
    - exact Hparent.
    - apply (translate_page _ _ Tc); [done|done|by rewrite Hm'|done].
    - apply load8_pages; try done. intros i Hi. rewrite Hw by done. symmetry. apply Hfr. by rewrite slot_page.
    - rewrite <- Hiff. lia. }
  assert (Hdone : copies r = true -> r ∈ done_rgns rs (length rs)).
  { intros Hcp. unfold done_rgns. rewrite firstn_all. by apply list_elem_of_filter. }
  destruct (Z.eqb_spec (r_type r) STACK_SEGMENT) as [E|N].
  - (* the stack *)
    destruct (fp_own_ok _ _ _ _ _ _ _ _ Hpre cus) as [Hcus Hcf]; [set_solver|].
    unfold fork_rgn in Hrg. rewrite E in Hrg. simpl in Hrg. destruct Hrg as (Er & _).
    assert (Hpa : page_of a = USER_STACK_TOP - PGSIZE).
    { rewrite Er in Ha. unfold r_in in Ha. simpl in Ha. apply page_of_in; [done|unfold PGSIZE in *; lia]. }
    apply (Hfin cus); [|done| |].
    + assert (Hlf : leaf m Tc a = initial_leaf tf cus a).
      { apply (fc_rest _ _ _ _ _ _ _ _ _ _ _ _ HC); [rewrite Er in Ha; unfold r_in in Ha; simpl in Ha; unfold PGSIZE, USER_STACK_TOP in *; lia|]. intros r' (Hc' & j & _ & Hr')%done_rgns_elem Hx.
        destruct (copies_rgn _ _ _ _ _ _ r' (fp_rgn _ _ _ _ _ _ _ _ Hpre r' (list_elem_of_lookup_2 _ _ _ Hr')) Hc') as (_ & _ & Hb & _).
        rewrite Er in Ha. unfold r_in in *. simpl in Ha. lia. }
      rewrite Hlf. unfold initial_leaf. rewrite decide_True by done.
      destruct (page_ok_user _ Hcus) as (C1 & _ & _ & C4). rewrite pte_pa_mkpte; [done|done|unfold PGSIZE in *; lia|done|done].
    + intros i Hi. rewrite (src_page s1 Tp a (USER_STACK_TOP - PGSIZE)) by (rewrite Hpa; done).
      rewrite Hm; [apply Hst; [exists r; by rewrite firstn_all|done]|].
      rewrite slot_page by done. pose proof (fp_own _ _ _ _ _ _ _ _ Hpre) as Hnd. rewrite !NoDup_cons in Hnd. fold tf in Hnd. set_solver.
    + split; [|by rewrite E]. intros Ex. exfalso. apply Hpc. rewrite <- Ex. unfold child_pages. set_solver.
  - assert (Hcp : copies r = true) by (by apply segment_copies).
    destruct (page_ok_user _ Hps) as (S1 & _ & _ & S4).
    destruct (fc_done _ _ _ _ _ _ _ _ _ _ _ _ HC r a (Hdone Hcp) Ha) as [[Et El]|(Et & q & HqD & El & Hw)]; cbn [k_mem set_k_mem] in *.
    + apply (Hfin (src s1 Tp a)); [|done| |done].
      * rewrite El. apply pte_pa_mkpte; [done|unfold PGSIZE in *; lia|done|done].
      * intros i Hi. apply Hfr. by rewrite slot_page.
    + destruct (fc_data _ _ _ _ _ _ _ _ _ _ _ _ HC q HqD) as (Hql & _ & _).
      assert (Hqk : page_ok q) by (destruct (l1_ok _ _ _ _ _ _ _ _ Hpre) as [Hoks _]; rewrite Forall_forall in Hoks; auto).
      destruct (page_ok_user _ Hqk) as (Q1 & _ & _ & Q4).
      apply (Hfin q); [|done|done|].
      * rewrite El. apply pte_pa_mkpte; [done|unfold PGSIZE in *; lia|done|done].
      * split; [|by rewrite Et]. intros ->. exfalso. apply Hpc. unfold child_pages, fresh_pages. set_solver.
Qed.
(* ------------------------------------------------------------------ *)
(** * Properties *)

End Fork.
(* ------------------------------------------------------------------ *)
(** * Witnesses *)

(** ** Reading the representation of a concrete state *)

Definition valid_slots (m : gmap Z Z) (p : Z) : list Z :=
  filter (fun i => flag (load64 m (p + 8 * i)) PTE_V = true) (Z.of_nat <$> seq 0 512).
Fixpoint read_tables (m : gmap Z Z) (n : nat) (path : list Z) (p : Z) : list (list Z * Z) :=
  (path, p) ::
  match n with
  | O => []
  | S n' => i ← valid_slots m p; read_tables m n' (path ++ [i]) (PTE2PA (load64 m (p + 8 * i)))
  end.
Fixpoint read_chain (m : gmap Z Z) (n : nat) (p : Z) : list Z :=
  match n with
  | O => []
  | S n' => if p =? 0 then [] else p :: read_chain m n' (load64 m p)
  end.

(** a process of two pages, one of code and one of data, prepared from reset *)
Definition demo_fork_setup : @K Demo.platform nat :=
  @pmm_init Demo.platform ;;; init_proc_pool ;;;
  p <- alloc_process ;;
  code <- alloc_page ;; data <- alloc_page ;;
  pt <- getp p p_pagetable ;; info <- getp p p_mapped_info ;; tf <- getp p p_trapframe ;;
  user_vm_map pt 0x10000 PGSIZE code perm_user_rwx ;;;
  set_region info 3 0x10000 1 CODE_SEGMENT ;;;
  user_vm_map pt 0x11000 PGSIZE data perm_user_rw ;;;
  set_region info 4 0x11000 1 DATA_SEGMENT ;;;
  setp p (set_p_total_mapped_region 5) ;;; setp p (set_p_status RUNNING) ;;;
  st64 (code + 16) 0x73 ;;; st64 (data + 8) 42 ;;; st64 (tf + TF_epc) 0x10014 ;;;
  modify (set_k_current (Some p)) ;;;
  ret p.
Definition out {PLAT : Platform} {A} (d : kstate) (r : res A) : kstate :=
  match r with Ok _ s | User _ s | Stop _ s => s end.
Definition demo_fork_state : @kstate Demo.platform := out (Demo.state 0) (demo_fork_setup (Demo.state 0x60000)).
Definition demo_fork_child : @kstate Demo.platform := out (Demo.state 0) (alloc_process demo_fork_state).
(** ** Deciding [pt_rep] and the leaves *)

Definition slots : list Z := Z.of_nat <$> seq 0 512.
Definition entry_b (m : gmap Z Z) (T : gmap (list Z) Z) (path : list Z) (p i : Z) : bool :=
  match T !! (path ++ [i]) with
  | Some q => load64 m (p + 8 * i) =? mkpte q 0
  | None => negb (flag (load64 m (p + 8 * i)) PTE_V)
  end.
Definition parent_b (T : gmap (list Z) Z) (path : list Z) : bool :=
  match reverse path with
  | [] => true
  | i :: up => bool_decide (is_Some (T !! reverse up)) && (0 <=? i) && (i <? 512)
  end.
Definition table_b (m : gmap Z Z) (T : gmap (list Z) Z) (e : list Z * Z) : bool :=
  bool_decide (page_ok e.2) && parent_b T e.1 &&
  (if (length e.1 <? 2)%nat then forallb (entry_b m T e.1 e.2) slots else true).
Definition pt_rep_b (m : gmap Z Z) (T : gmap (list Z) Z) (root : Z) : bool :=
  bool_decide (T !! [] = Some root) && bool_decide (NoDup (map_to_list T).*2) &&
  forallb (table_b m T) (map_to_list T).

Lemma elem_of_slots i : 0 <= i < 512 -> In i slots.
Proof.
  intros. apply list_elem_of_In. unfold slots. apply list_elem_of_fmap. exists (Z.to_nat i). split; [lia|]. apply elem_of_seq. lia.
Qed.
Lemma forallb_elem {A} (f : A -> bool) l x : forallb f l = true -> x ∈ l -> f x = true.
Proof. intros H Hx. rewrite forallb_forall in H. apply H. by apply list_elem_of_In. Qed.

Lemma pt_rep_b_sound m T root : pt_rep_b m T root = true -> pt_rep m T root.
Proof.
  unfold pt_rep_b. intros [[Hr Hnd]%andb_true_iff Ht]%andb_true_iff.
  apply bool_decide_eq_true in Hr, Hnd.
  assert (HT : forall path p, T !! path = Some p -> page_ok p /\ parent_b T path = true /\
    ((length path < 2)%nat -> forall i, 0 <= i < 512 -> entry_b m T path p i = true)).
  { intros path p Hp%elem_of_map_to_list. apply (forallb_elem _ _ _ Ht) in Hp. unfold table_b in Hp. cbn [fst snd] in Hp.
    apply andb_true_iff in Hp as [[H1 H2]%andb_true_iff H3]. apply bool_decide_eq_true in H1.
    split_and!; [done..|]. intros Hl i Hi. apply Nat.ltb_lt in Hl. rewrite Hl in H3.
    rewrite forallb_forall in H3. by apply H3, elem_of_slots. }
  split; [done| | | |].
  - intros path p Hp. by destruct (HT path p Hp).
  - intros p1 p2 p H1%elem_of_map_to_list H2%elem_of_map_to_list.
    apply list_elem_of_lookup in H1 as [i1 H1], H2 as [i2 H2].
    assert (i1 = i2) as ->; [|congruence].
    by apply (NoDup_lookup _ _ _ p Hnd); rewrite list_lookup_fmap, ?H1, ?H2.
  - intros path i p (_ & Hp & _)%HT. unfold parent_b in Hp. rewrite reverse_snoc in Hp.
    zbool. rewrite reverse_involutive in *. by apply bool_decide_eq_true in H.
  - intros path p i (_ & _ & He)%HT Hl Hi. specialize (He Hl i Hi). unfold entry_b in He.
    destruct (T !! (path ++ [i])); zbool; lia || done.
Qed.

(** the first address of the page with the given indices *)
Definition page_at (x y i : Z) : Z := 2 ^ 30 * x + 2 ^ 21 * y + 2 ^ 12 * i.
Lemma page_at_PX a : 0 <= a < 2 ^ 39 -> page_at (PX 2 a) (PX 1 a) (PX 0 a) = page_of a.
Proof. intros. rewrite !PX_div by lia. unfold page_at, page_of, ROUNDDOWN, PGSIZE. change (2 ^ (12 + 9 * 2)) with (2 ^ 30).
  change (2 ^ (12 + 9 * 1)) with (2 ^ 21). change (2 ^ (12 + 9 * 0)) with (2 ^ 12). dlia. Qed.
Definition leaves_b {PLAT : Platform} (m : gmap Z Z) (T : gmap (list Z) Z) (tf us : Z) (e : list Z * Z) : bool :=
  match e.1 with
  | [x; y] => forallb (fun i => let va := page_at x y i in
      (USER_STACK_TOP <=? va) || (load64 m (e.2 + 8 * i) =? initial_leaf tf us va)) slots
  | _ => true
  end.
Lemma leaves_b_sound {PLAT : Platform} m T tf us :
  forallb (leaves_b m T tf us) (map_to_list T) = true -> is_Some (T !! idx_path (USER_STACK_TOP - PGSIZE) 0) ->
  USER_STACK_TOP <= tf -> USER_STACK_TOP <= trap_sec_start ->
  forall a, 0 <= a < USER_STACK_TOP -> leaf m T a = initial_leaf tf us a.
Proof.
  intros Hb Hs Htf Htr a Ha. unfold leaf.
  destruct (T !! idx_path a 0) as [p|] eqn:E.
  - pose proof (proj2 (elem_of_map_to_list _ _ _) E) as Hp. apply (forallb_elem _ _ _ Hb) in Hp.
    unfold leaves_b in Hp. cbn [fst snd idx_path] in Hp. rewrite forallb_forall in Hp.
    specialize (Hp (PX 0 a) (elem_of_slots _ (PX_range 0 a ltac:(lia)))). cbv beta zeta in Hp. rewrite page_at_PX in Hp by (unfold USER_STACK_TOP in *; lia).
    pose proof (page_of_bounds a). apply orb_true_iff in Hp as [Hp|Hp]; zbool; [lia|].
    rewrite Hp. unfold initial_leaf. by rewrite (page_of_in (page_of a) (page_of a)) by (apply page_of_aligned || (unfold PGSIZE; lia)).
  - unfold initial_leaf. pose proof (page_of_bounds a). rewrite decide_False, decide_False, decide_False; [done|..]; try (unfold PGSIZE in *; lia).
    intros Hpg. rewrite (idx_path_page a (USER_STACK_TOP - PGSIZE) 0) in E; [destruct Hs; congruence|].
    rewrite Hpg. done.
Qed.

(** ** Deciding [fork_pre] *)

Fixpoint free_chain_b (m : gmap Z Z) (head : Z) (l : list Z) : bool :=
  match l with
  | [] => head =? 0
  | p :: l' => (head =? p) && bool_decide (page_ok p) && free_chain_b m (load64 m p) l'
  end.
Lemma free_chain_b_sound m head l : free_chain_b m head l = true -> free_chain m head l.
Proof.
  revert head. induction l as [|p l IH]; intros head H; cbn [free_chain_b free_chain] in *; zbool; [done|].
  split_and!; [done|by apply (bool_decide_eq_true (page_ok p))|auto].
Qed.

Section Decide.
Context {PLAT : Platform}.
Variables (s1 : kstate) (parent child : nat) (Tp Tc1 : gmap (list Z) Z) (l1 : list Z).
Variables (rs : list rgn) (cus : Z).
Local Abbreviation pp := (proc s1 parent).
Local Abbreviation cp := (proc s1 child).
Local Abbreviation CP := (child_pages s1 child Tc1 l1 cus).

#[global] Instance region_is_dec m info j va n ty : Decision (region_is m info j va n ty).
Proof. unfold region_is. apply _. Defined.
#[global] Instance in_pool_dec p : Decision (in_pool s1 p).
Proof. unfold in_pool. apply _. Defined.

Definition src_b (a : Z) : bool := bool_decide (page_ok (src s1 Tp a)) && bool_decide (src s1 Tp a ∉ CP).
Definition fork_rgn_b (r : rgn) : bool :=
  if r_type r =? STACK_SEGMENT then
    (r_va r =? USER_STACK_TOP - PGSIZE) && (r_npages r =? 1)%nat && src_b (r_va r)
  else if copies r then
    (r_va r mod PGSIZE =? 0) && (0 <=? r_va r) && (r_va r + PGSIZE * Z.of_nat (r_npages r) <=? USER_STACK_TOP - PGSIZE) &&
    forallb (fun i => src_b (r_va r + PGSIZE * Z.of_nat i)) (seq 0 (r_npages r))
  else true.
Definition rgns_disjoint_b (r r' : rgn) : bool :=
  negb (copies r) || negb (copies r') ||
  (r_va r + PGSIZE * Z.of_nat (r_npages r) <=? r_va r') || (r_va r' + PGSIZE * Z.of_nat (r_npages r') <=? r_va r).
Fixpoint pairwise_b (l : list rgn) : bool :=
  match l with [] => true | r :: l' => forallb (rgns_disjoint_b r) l' && pairwise_b l' end.

Lemma src_b_sound a : src_b a = true -> page_ok (src s1 Tp a) /\ src s1 Tp a ∉ CP.
Proof. intros [H1 H2]%andb_true_iff. apply bool_decide_eq_true in H1, H2. done. Qed.
Lemma fork_rgn_b_sound r : fork_rgn_b r = true -> fork_rgn s1 child Tp Tc1 l1 cus r.
Proof.
  unfold fork_rgn_b, fork_rgn. destruct (r_type r =? STACK_SEGMENT) eqn:Ety; [|destruct (copies r); [|done]].
  - intros H. zbool. apply Nat.eqb_eq in H1. split; [|by apply src_b_sound].
    destruct r; simpl in *; congruence.
  - intros H. zbool. split_and!; [done..|]. intros a Ha.
    set (i := Z.to_nat ((a - r_va r) / PGSIZE)).
    rewrite (src_page s1 Tp a (r_va r + PGSIZE * Z.of_nat i)).
    + apply src_b_sound, (forallb_elem _ _ _ H0), elem_of_seq. unfold i, r_in, PGSIZE in *. dlia.
    + unfold i, r_in, page_of, ROUNDDOWN, PGSIZE in *. dlia.
Qed.
Lemma pairwise_b_sound l j k r r' :
  pairwise_b l = true -> l !! j = Some r -> l !! k = Some r' -> (j < k)%nat -> rgns_disjoint_b r r' = true.
Proof.
  revert j k. induction l as [|x l IH]; intros [|j] [|k] H Hj Hk Hlt; simpl in *; try done; try lia; zbool.
  - simplify_eq. eapply forallb_elem; [done|]. by eapply list_elem_of_lookup_2.
  - eapply IH; [done..|lia].
Qed.
Lemma rgns_disjoint_b_sound r r' a :
  rgns_disjoint_b r r' = true -> copies r = true -> copies r' = true -> r_in r a -> r_in r' a -> False.
Proof.
  unfold rgns_disjoint_b, r_in. intros H Hc Hc' ? ?. rewrite Hc, Hc' in H. simpl in H. apply orb_true_iff in H as [H|H]; zbool; lia.
Qed.

Definition fork_pre_b : bool :=
  bool_decide (parent <> child) && bool_decide (child < length (k_procs s1))%nat &&
  pt_rep_b (k_mem s1) Tp (p_pagetable pp) && pt_rep_b (k_mem s1) Tc1 (p_pagetable cp) &&
  free_chain_b (k_mem s1) (k_free_list s1) l1 && bool_decide (NoDup l1) && bool_decide (Forall (in_pool s1) l1) &&
  bool_decide (Forall (fun p => p ∉ table_pages Tc1) l1) &&
  forallb (leaves_b (k_mem s1) Tc1 (p_trapframe cp) cus) (map_to_list Tc1) &&
  bool_decide (is_Some (Tc1 !! idx_path (USER_STACK_TOP - PGSIZE) 0)) &&
  (USER_STACK_TOP <=? p_trapframe cp) && (USER_STACK_TOP <=? trap_sec_start) &&
  bool_decide (initial_regions (k_mem s1) (p_mapped_info cp) (p_trapframe cp)) &&
  (p_total_mapped_region cp =? 3) && (p_total_mapped_region pp =? Z.of_nat (length rs)) && bool_decide (length rs <= 253)%nat &&
  bool_decide (Forall (fun e : nat * rgn => region_is (k_mem s1) (p_mapped_info pp) (Z.of_nat e.1) (r_va e.2) (Z.of_nat (r_npages e.2)) (r_type e.2))
     (imap pair rs)) &&
  forallb fork_rgn_b rs && pairwise_b rs &&
  bool_decide (Forall (fun p => page_ok p /\ p ∉ CP) [p_mapped_info pp; p_trapframe pp]) &&
  bool_decide (Forall (fun e => e.2 ∉ CP) (map_to_list Tp)) &&
  bool_decide (NoDup [p_trapframe cp; cus; p_mapped_info cp]) &&
  bool_decide (Forall (fun p => page_ok p /\ p ∉ fresh_pages Tc1 l1) [p_trapframe cp; cus; p_mapped_info cp]).

Lemma fork_pre_b_sound : fork_pre_b = true -> fork_pre s1 parent child Tp Tc1 l1 rs cus.
Proof.
  unfold fork_pre_b. intros H. rewrite !andb_true_iff, !bool_decide_eq_true in H. destruct_and! H. zbool.
  rewrite !Forall_forall in *. split; try done; try lia.
  - by apply pt_rep_b_sound.
  - split_and!; [by apply pt_rep_b_sound| |done]. split_and!; [by apply free_chain_b_sound|done|by apply Forall_forall].
  - intros a Ha. by apply leaves_b_sound.
  - intros j r Hj. match goal with Hi : forall x, x ∈ imap _ _ -> _ |- _ => apply (Hi (j, r)) end. apply list_elem_of_lookup. exists j. by rewrite list_lookup_imap, Hj.
  - intros r Hr. apply fork_rgn_b_sound. by eapply forallb_elem.
  - intros j k r r' a Hj Hk Hne Hc Hc' Ha Ha'.
    match goal with Hp : pairwise_b rs = true |- _ => rename Hp into Hpw end.
    destruct (decide (j < k)%nat) as [Hlt|Hge].
    + exact (rgns_disjoint_b_sound _ _ _ (pairwise_b_sound _ _ _ _ _ Hpw Hj Hk Hlt) Hc Hc' Ha Ha').
    + exact (rgns_disjoint_b_sound _ _ _ (pairwise_b_sound _ k j _ _ Hpw Hk Hj ltac:(lia)) Hc' Hc Ha' Ha).
  - intros p [path Hp]%elem_of_table_pages. match goal with Ht : forall x, x ∈ map_to_list Tp -> _ |- _ => apply (Ht (path, p)) end. by apply elem_of_map_to_list.
Qed.
End Decide.

Definition demo_Tp : gmap (list Z) Z := list_to_map (read_tables (k_mem demo_fork_child) 2 [] (p_pagetable (proc demo_fork_child 0))).
Definition demo_Tc : gmap (list Z) Z := list_to_map (read_tables (k_mem demo_fork_child) 2 [] (p_pagetable (proc demo_fork_child 1))).
Definition demo_spare : list Z := read_chain (k_mem demo_fork_child) 64 (k_free_list demo_fork_child).
Definition demo_rgns : list rgn :=
  [mkRgn (USER_STACK_TOP - PGSIZE) 1 STACK_SEGMENT; mkRgn 0x8005e000 1 CONTEXT_SEGMENT;
   mkRgn 0x80005000 1 SYSTEM_SEGMENT; mkRgn 0x10000 1 CODE_SEGMENT; mkRgn 0x11000 1 DATA_SEGMENT].
Lemma out_ok {PLAT : Platform} d (r : res nat) a :
  match r with Ok b _ => (b =? a)%nat | _ => false end = true -> r = Ok a (out d r).
Proof. destruct r; [|done..]. intros ->%Nat.eqb_eq. done. Qed.

