(* ===== verification/Elf.v ===== *)
(** kernel/elf.c: loading a program from a host ELF file, and kernel/process.c:
    do_exec.

    The loader keeps its context, the program header it reads, the path and the
    argument buffer on the kernel stack; [frame] is the address of such a
    function's locals, passed explicitly.  [elf_info] (the open file and the
    process) is passed as two arguments. *)

From S2P Require Import Prelude Machine Pmm StringC Vmm Sched SpikeFile File Process.

Definition MAX_CMDLINE_ARGS : Z := 64.
Definition MAXARGS : Z := 10.
Definition ELF_MAGIC : Z := 0x464C457F.
Definition ELF_PROG_LOAD : Z := 1.
Definition SEGMENT_READABLE : Z := 4.
Definition SEGMENT_EXECUTABLE : Z := 1.
Definition SEGMENT_WRITABLE : Z := 2.
Definition HTIFSYS_getmainvars : Z := 2011.
Definition O_RDONLY : Z := 0.
(** elf_header *)
Definition EH_magic : Z := 0.
Definition EH_entry : Z := 24.
Definition EH_phoff : Z := 32.
Definition EH_phnum : Z := 56.
Definition sizeof_ehdr : Z := 64.
(** elf_prog_header *)
Definition PH_type : Z := 0.
Definition PH_flags : Z := 4.
Definition PH_off : Z := 8.
Definition PH_vaddr : Z := 16.
Definition PH_filesz : Z := 32.
Definition PH_memsz : Z := 40.
Definition sizeof_ph : Z := 56.

Inductive elf_status := EL_OK | EL_EIO | EL_ENOMEM | EL_NOTELF | EL_ERR.
#[global] Instance elf_status_eq_dec : EqDecision elf_status.
Proof. solve_decision. Defined.

Section Elf.
Context {PLAT : Platform}.

(* ------------------------------------------------------------------ *)
(** * The code *)

Definition ld16 (a : Z) : K Z :=
  fun s => if addr_ok 2 a then Ok (loadn 16 s.(k_mem) a) s else Stop (Fault a) s.

Definition elf_alloc_mb (p : nat) (elf_pa elf_va size : Z) : K Z :=
  if negb (size <? PGSIZE) then panic "size < PGSIZE"
  else
    pa <- alloc_page ;;
    if pa =? 0 then panic "uvmalloc mem alloc falied"
    else
      memset pa 0 PGSIZE ;;;
      pt <- getp p p_pagetable ;;
      user_vm_map pt elf_va PGSIZE pa perm_user_rwx ;;;
      ret pa.

Definition elf_fpread (f : nat) (dest nb offset : Z) : K Z :=
  r <- spike_file_pread (Some f) dest nb offset ;; ret (u64 r).

Definition elf_init (f : nat) (ehdr : Z) : K elf_status :=
  r <- elf_fpread f ehdr sizeof_ehdr 0 ;;
  if negb (r =? sizeof_ehdr) then ret EL_EIO
  else
    magic <- ld32 (ehdr + EH_magic) ;;
    if negb (magic =? ELF_MAGIC) then ret EL_NOTELF else ret EL_OK.

(** the first unused region of the process, or 256 *)
Definition find_region (info : Z) : K Z :=
  kwhile (fun j =>
    if j <? PGSIZE / sizeof_region then
      va <- ld64 (region info j + MR_va) ;;
      if va =? 0 then ret (inr j) else ret (inl (j + 1))
    else ret (inr j)) 0.

(** recording a loaded segment in mapped_info *)
Definition record_segment (p : nat) (vaddr flags : Z) : K unit :=
  info <- getp p p_mapped_info ;;
  j <- find_region info ;;
  st64 (region info j + MR_va) vaddr ;;;
  st32 (region info j + MR_npages) 1 ;;;
  (if flags =? Z.lor SEGMENT_READABLE SEGMENT_EXECUTABLE
   then st32 (region info j + MR_seg_type) CODE_SEGMENT
   else if flags =? Z.lor SEGMENT_READABLE SEGMENT_WRITABLE
   then st32 (region info j + MR_seg_type) DATA_SEGMENT
   else panic "unknown program segment encountered") ;;;
  setp p (fun q => set_p_total_mapped_region (s32 (p_total_mapped_region q + 1)) q).

(** one program header, already read to [ph]: [Some e] ends the load with [e] *)
Definition load_segment (f p : nat) (ph : Z) : K (option elf_status) :=
  type <- ld32 (ph + PH_type) ;;
  if negb (type =? ELF_PROG_LOAD) then ret None
  else
    vaddr <- ld64 (ph + PH_vaddr) ;; memsz <- ld64 (ph + PH_memsz) ;;
    filesz <- ld64 (ph + PH_filesz) ;; poff <- ld64 (ph + PH_off) ;;
    if memsz <? filesz then ret (Some EL_ERR)
    else if u64 (vaddr + memsz) <? vaddr then ret (Some EL_ERR)
    else
      dest <- elf_alloc_mb p vaddr vaddr memsz ;;
      r <- elf_fpread f dest memsz poff ;;
      if negb (r =? memsz) then ret (Some EL_EIO)
      else
        flags <- ld32 (ph + PH_flags) ;;
        record_segment p vaddr flags ;;;
        ret None.

Definition elf_load (f p : nat) (ehdr ph : Z) : K elf_status :=
  phoff <- ld64 (ehdr + EH_phoff) ;;
  kwhile (fun '(i, off) =>
    phnum <- ld16 (ehdr + EH_phnum) ;;
    if i <? phnum then
      r <- elf_fpread f ph sizeof_ph (u64 off) ;;
      if negb (r =? sizeof_ph) then ret (inr EL_EIO)
      else
        o <- load_segment f p ph ;;
        match o with
        | Some e => ret (inr e)
        | None => ret (inl (i + 1, s32 (off + sizeof_ph)))
        end
    else ret (inr EL_OK)) (0, s32 phoff).

Definition parse_args (buf : Z) : K Z :=
  r <- frontend_syscall HTIFSYS_getmainvars [buf; 8 * MAX_CMDLINE_ARGS; 0; 0; 0; 0; 0] ;;
  if negb (r =? 0) then panic "r == 0"
  else
    pk_argc <- ld64 buf ;;
    let pk_argv := buf + 8 in
    let arg := 1 in
    kwhile (fun i =>
      if u64 (arg + i) <? pk_argc then
        v <- ld64 (pk_argv + 8 * (arg + i)) ;;
        st64 (buf + 8 * i) v ;;;
        ret (inl (i + 1))
      else ret (inr tt)) 0 ;;;
    ret (u64 (pk_argc - arg)).

(** opening, reading and closing the program file, common to
    load_bincode_from_host_elf and load_shell_bincode_from_host_elf; [ehdr] and
    [ph] are locals *)
Definition load_file (p : nat) (path ehdr ph : Z) : K unit :=
  o <- spike_file_open path O_RDONLY 0 ;;
  match o with
  | inr e => if -4096 <=? e then panic "Fail on openning the input application program."
             else halt (Fault (u64 e))
  | inl f =>
      st <- elf_init f ehdr ;;
      if negb (bool_decide (st = EL_OK)) then panic "fail to init elfloader."
      else
        st <- elf_load f p ehdr ph ;;
        if negb (bool_decide (st = EL_OK)) then panic "Fail on loading elf."
        else
          entry <- ld64 (ehdr + EH_entry) ;;
          tf <- getp p p_trapframe ;;
          st64 (tf + TF_epc) entry ;;;
          spike_file_close (Some f) ;;;
          ret tt
  end.

(** locals: arg_bug_msg at [frame], elfloader.ehdr at [frame + 520], ph_addr at
    [frame + 584] *)
Definition load_bincode_from_host_elf (frame : Z) (p : nat) : K unit :=
  argc <- parse_args frame ;;
  if argc =? 0 then panic "You need to specify the application program!"
  else
    path <- ld64 frame ;;
    load_file p path (frame + 520) (frame + 584).

(** the loop that saves the old argv: physical addresses of the strings *)
Definition save_argv (pt argv : Z) : K (list Z) :=
  kwhile (fun acc : list Z =>
    v <- ld64 (argv + 8 * Z.of_nat (length acc)) ;;
    pa <- user_va_to_pa pt v ;;
    if pa =? 0 then ret (inr acc)
    else if Z.of_nat (length acc) <=? MAXARGS then ret (inl (acc ++ [pa]))
    else halt (Fault 0)) [].

(** one string of the new user stack: [sp -= 8; strcpy(pa(sp), oldargv[i])] *)
Definition push_string (pt old sp : Z) : K Z :=
  let sp := u64 (sp - 8) in
  pa <- user_va_to_pa pt sp ;; strcpy pa old ;;; ret sp.
Definition push_word (pt v sp : Z) : K Z :=
  let sp := u64 (sp - 8) in
  pa <- user_va_to_pa pt sp ;; st64 pa v ;;; ret sp.

Fixpoint push_strings (pt : Z) (olds : list Z) (sp : Z) : K (list Z * Z) :=
  match olds with
  | [] => ret ([], sp)
  | o :: olds' =>
      sp1 <- push_string pt o sp ;;
      r <- push_strings pt olds' sp1 ;;
      ret (sp1 :: r.1, r.2)
  end.
Fixpoint push_words (pt : Z) (vs : list Z) (sp : Z) : K Z :=
  match vs with
  | [] => ret sp
  | v :: vs' => sp1 <- push_word pt v sp ;; push_words pt vs' sp1
  end.

Definition TF_a1 : Z := 80.

(** building argc, argv on the new user stack *)
Definition build_ustack (i : nat) (oldargv : list Z) : K unit :=
  pt <- getp i p_pagetable ;; tf <- getp i p_trapframe ;;
  sp <- ld64 (tf + TF_sp) ;;
  r <- push_strings pt oldargv sp ;;
  sp0 <- push_word pt 0 r.2 ;;
  sp <- push_words pt (sp0 :: reverse r.1) sp0 ;;
  st64 (tf + TF_sp) sp ;;;
  st64 (tf + TF_a0) (Z.of_nat (length oldargv)) ;;;
  st64 (tf + TF_a1) sp.

Definition obj_dir : list Z := [46; 47; 111; 98; 106; 47].
(** locals: path[30] at [frame], elfloader.ehdr at [frame + 128], ph_addr at
    [frame + 192] *)
Definition load_shell_bincode_from_host_elf (frame argv : Z) : K unit :=
  pt <- cur p_pagetable ;;
  (* char path[30] = "./obj/" *)
  kfor (imap pair (obj_dir ++ replicate 24 0)) (fun '(k, c) => st8 (frame + Z.of_nat k) c) ;;;
  a0 <- ld64 argv ;;
  name <- user_va_to_pa pt a0 ;;
  strcat frame name ;;;
  oldargv <- save_argv pt argv ;;
  pid <- cur p_pid ;;
  realloc_process (Z.to_nat (s32 pid)) ;;;
  c <- gets k_current ;;
  match c with
  | None => halt (Fault 0)
  | Some i => build_ustack i oldargv ;;; load_file i frame (frame + 128) (frame + 192)
  end.

(** kernel/process.c *)
Definition do_exec (frame path argv : Z) : K Z :=
  pt <- cur p_pagetable ;;
  pa <- user_va_to_pa pt argv ;;
  load_shell_bincode_from_host_elf frame pa ;;;
  ret 1.
(* ------------------------------------------------------------------ *)
(** * Program headers *)

(** a program header in memory at [ph] *)
Record prog_header (m : gmap Z Z) (ph type flags off vaddr filesz memsz : Z) : Prop := {
  ph_place : ph mod 8 = 0 /\ DRAM_BASE <= ph /\ ph + sizeof_ph <= PHYS_TOP;
  ph_type : load32 m (ph + PH_type) = type;
  ph_flags : load32 m (ph + PH_flags) = flags;
  ph_off : load64 m (ph + PH_off) = off;
  ph_vaddr : load64 m (ph + PH_vaddr) = vaddr;
  ph_filesz : load64 m (ph + PH_filesz) = filesz;
  ph_memsz : load64 m (ph + PH_memsz) = memsz
}.

Lemma ph_addr ph o n :
  ph mod 8 = 0 /\ DRAM_BASE <= ph /\ ph + sizeof_ph <= PHYS_TOP ->
  0 <= o -> o + n <= sizeof_ph -> n = 4 \/ n = 8 -> o mod n = 0 -> addr_ok n (ph + o) = true.
Proof.
  intros (Hal & Hlo & Hhi) Ho Hon Hn Hom. unfold addr_ok. rewrite !andb_true_iff, !Z.leb_le, Z.eqb_eq.
  destruct Hn as [-> | ->]; split_and!; try lia; dlia.
Qed.

(** reading the header: the tests before anything is allocated *)
Lemma load_segment_read s f p ph flags off vaddr filesz memsz :
  prog_header (k_mem s) ph ELF_PROG_LOAD flags off vaddr filesz memsz ->
  load_segment f p ph s =
    (if memsz <? filesz then ret (Some EL_ERR)
     else if u64 (vaddr + memsz) <? vaddr then ret (Some EL_ERR)
     else
       dest <- elf_alloc_mb p vaddr vaddr memsz ;;
       r <- elf_fpread f dest memsz off ;;
       if negb (r =? memsz) then ret (Some EL_EIO)
       else
         flags <- ld32 (ph + PH_flags) ;;
         record_segment p vaddr flags ;;;
         ret None) s.
Proof.
  intros [Hp Ht Hf Ho Hv Hfs Hms]. unfold load_segment.
  erewrite bind_Ok; [|apply ld32_ok, ph_addr; try done; by left]. rewrite Ht. cbn [negb Z.eqb Pos.eqb ELF_PROG_LOAD].
  do 4 (erewrite bind_Ok; [|apply ld64_ok, ph_addr; try done; by right]). by rewrite Hv, Hms, Hfs, Ho.
Qed.

(** the first unused region *)
Lemma find_region_spec s info (k : nat) :
  page_ok info -> (k < 256)%nat ->
  (forall j, (j < k)%nat -> load64 (k_mem s) (region info (Z.of_nat j) + MR_va) <> 0) ->
  load64 (k_mem s) (region info (Z.of_nat k) + MR_va) = 0 ->
  find_region info s = Ok (Z.of_nat k) s.
Proof.
  intros Hi Hk Hlt H0. unfold find_region.
  apply (kwhile_rule (fun x s' => s' = s /\ exists j : nat, x = Z.of_nat j /\ (j <= k)%nat) (fun x => 256 - x)).
  - split; [done|]. exists 0%nat. split; [done|lia].
  - lia.
  - intros x s' (-> & j & -> & Hj). change (PGSIZE / sizeof_region) with 256.
    rewrite (proj2 (Z.ltb_lt _ _)) by lia.
    destruct (region_addr info (Z.of_nat j) MR_va 8) as [A _]; try done; try lia.
    rewrite (bind_Ok _ _ _ _ _ (ld64_ok _ s A)). destruct (decide (j = k)) as [->|Hne].
    + by rewrite H0.
    + rewrite (proj2 (Z.eqb_neq _ _)) by (apply Hlt; lia). simpl. split; [|lia]. split; [done|]. exists (S j). lia.
Qed.

Lemma elf_alloc_mb_spec s i T q l vaddr size :
  let pt := p_pagetable (proc s i) in
  pt_ok free_pages pt s T (q :: l) -> (2 <= length l)%nat -> size < PGSIZE ->
  vaddr mod PGSIZE = 0 -> 0 <= vaddr -> vaddr + PGSIZE <= MAXVA ->
  (forall a, page_of a = vaddr -> flag (leaf (k_mem s) T a) PTE_V = false) ->
  exists s' T' l', elf_alloc_mb i vaddr vaddr size s = Ok q s' /\
    pt_ok free_pages pt s' T' l' /\ kframe s s' /\ page_ok q /\ (q ∉ table_pages T') /\ (q ∉ l') /\
    l' `suffix_of` l /\ (length l <= length l' + 2)%nat /\ T ⊆ T' /\
    same_outside (table_pages T' ∪ {[q]}) (k_mem s) (k_mem s') /\
    (forall j, 0 <= j < 512 -> load64 (k_mem s') (q + 8 * j) = 0) /\
    (forall p, p ∈ table_pages T' -> p ∈ table_pages T \/ p ∈ l) /\
    (forall a, 0 <= a < MAXVA -> leaf (k_mem s') T' a =
       if decide (page_of a = vaddr) then mkpte q perm_user_rwx else leaf (k_mem s) T a).
Proof.
  intros pt (Hr & Hf & Hsep) Hl Hsz Hal Hv Hmax Hinv.
  destruct (pa_pages _ _ Hf) as [Hnd Hoks]. inversion Hnd as [|? ? Hql _]; subst. inversion Hoks as [|? ? Hq _]; subst.
  assert (HqT : q ∉ table_pages T) by (apply Hsep; set_solver).
  destruct (pa_alloc _ _ _ Hf) as (s1 & E1 & Hf1 & Hk1 & Hm1).
  destruct (memset_page s1 q Hq) as (m2 & E2 & Hm2 & Hz2). rewrite Hm1 in Hm2.
  assert (Hok1 : pt_ok free_pages pt s1 T l).
  { split_and!; [by rewrite Hm1|done|]. intros x Hx. apply Hsep. set_solver. }
  destruct (pt_ok_write pt s1 T l m2 {[q]} Hok1) as [Hok2 Hlf2]; [by rewrite Hm1|set_solver|set_solver|].
  set (s2 := set_k_mem m2 s1) in *. pose proof (page_ok_range q Hq).
  destruct (user_map_page pt s2 T l vaddr q perm_user_rwx) as (s3 & T3 & l3 & E3 & Hok3 & Hst & Hlen3 & Hlf3); try done.
  { intros a Ha. simpl. rewrite Hlf2, Hm1. by apply Hinv. }
  destruct (ps_used _ _ _ Hst) as (u & Eu & Hu). cbn [fst snd] in Eu, Hu.
  assert (HqT3 : q ∉ table_pages T3).
  { intros Hin. destruct (Hu q Hin) as [?|?]; [done|]. apply Hql. rewrite Eu. set_solver. }
  exists s3, T3, l3. split_and!; try done.
  - unfold elf_alloc_mb. rewrite (proj2 (Z.ltb_lt _ _)) by done. cbn [negb]. rewrite (bind_Ok _ _ _ _ _ E1).
    rewrite (proj2 (Z.eqb_neq _ _)) by (by apply page_ok_nonzero). rewrite (bind_Ok _ _ _ _ _ E2).
    erewrite bind_Ok; [|reflexivity].
    assert (p_pagetable (proc s2 i) = pt) as Hpt by by apply (kframe_proc p_pagetable s s1).
    change (set_k_mem m2 s1) with s2. rewrite Hpt. by rewrite (bind_Ok _ _ _ _ _ E3).
  - etrans; [exact Hk1|]. etrans; [apply (kframe_mem s1 m2)|]. exact (ps_frame _ _ _ Hst).
  - intros Hin. apply Hql. rewrite Eu. set_solver.
  - by exists u.
  - exact (ps_sub _ _ _ Hst).
  - etrans; [eapply same_outside_mono; [|exact Hm2]; set_solver|].
    eapply same_outside_mono; [|exact (ps_mem _ _ _ Hst)]. cbn [fst snd]. set_solver.
  - intros j Hj. rewrite (ps_mem _ _ _ Hst) by (rewrite page_of_slot by (done || (unfold PGSIZE; lia)); done). by apply Hz2.
  - intros x Hx. destruct (Hu x Hx) as [?|?]; [by left|right]. rewrite Eu. set_solver.
  - intros a Ha. rewrite Hlf3 by done. case_decide; [done|]. simpl. by rewrite Hlf2, Hm1.
Qed.
(* ------------------------------------------------------------------ *)
(** * Properties *)

(** the segment types elf_load records *)
Definition segment_type (flags : Z) : Z :=
  if flags =? Z.lor SEGMENT_READABLE SEGMENT_EXECUTABLE then CODE_SEGMENT else DATA_SEGMENT.

Lemma record_segment_spec s i vaddr flags (k : nat) :
  let info := p_mapped_info (proc s i) in
  page_ok info -> (k < 256)%nat -> (i < length (k_procs s))%nat ->
  (forall j, (j < k)%nat -> load64 (k_mem s) (region info (Z.of_nat j) + MR_va) <> 0) ->
  load64 (k_mem s) (region info (Z.of_nat k) + MR_va) = 0 ->
  0 <= vaddr < 2 ^ 64 -> flags = 5 \/ flags = 6 ->
  exists m, record_segment i vaddr flags s =
      Ok tt (updp i (fun q => set_p_total_mapped_region (s32 (p_total_mapped_region q + 1)) q) (set_k_mem m s)) /\
    same_outside {[info]} (k_mem s) m /\ region_is m info (Z.of_nat k) vaddr 1 (segment_type flags) /\
    (forall j, 0 <= j < 256 -> j <> Z.of_nat k -> forall v n t, region_is (k_mem s) info j v n t -> region_is m info j v n t).
Proof.
  intros info Hi Hk Hb Hlt H0 Hv Hfl. unfold record_segment. erewrite bind_Ok; [|reflexivity].
  rewrite (bind_Ok _ _ _ _ _ (find_region_spec s info k Hi Hk Hlt H0)).
  destruct (set_region_spec s info (Z.of_nat k) vaddr 1 (segment_type flags)) as (m & E & Hm & Hr & Hro); try done; try lia.
  { unfold segment_type. by destruct (_ =? _). }
  exists m. split_and!; try done. unfold set_region in E.
  assert (A : addr_ok 8 (region info (Z.of_nat k) + MR_va) = true)
    by (apply (region_addr info (Z.of_nat k) MR_va 8); try done; lia).
  assert (A2 : addr_ok 4 (region info (Z.of_nat k) + MR_npages) = true)
    by (apply (region_addr info (Z.of_nat k) MR_npages 4); try done; lia).
  assert (A3 : addr_ok 4 (region info (Z.of_nat k) + MR_seg_type) = true)
    by (apply (region_addr info (Z.of_nat k) MR_seg_type 4); try done; lia).
  rewrite (bind_Ok _ _ _ _ _ (st64_ok _ vaddr s A)) in E.
  erewrite bind_Ok in E; [|apply st32_ok, A2].
  fold info. rewrite (bind_Ok _ _ _ _ _ (st64_ok _ vaddr s A)). erewrite bind_Ok; [|apply st32_ok, A2].
  assert (E' : (if flags =? Z.lor SEGMENT_READABLE SEGMENT_EXECUTABLE
     then st32 (region info (Z.of_nat k) + MR_seg_type) CODE_SEGMENT
     else if flags =? Z.lor SEGMENT_READABLE SEGMENT_WRITABLE
     then st32 (region info (Z.of_nat k) + MR_seg_type) DATA_SEGMENT
     else panic "unknown program segment encountered") =
     st32 (region info (Z.of_nat k) + MR_seg_type) (segment_type flags)).
  { by destruct Hfl as [-> | ->]. }
  rewrite E'. rewrite (bind_Ok _ _ _ _ _ E). done.
Qed.

(** Malformed segments are refused before anything is allocated: a file size
    above the memory size, or an address range that wraps around, gives EL_ERR,
    and a segment of a page or more stops the kernel. *)
Theorem load_segment_refuses s f i ph flags off vaddr filesz memsz :
  prog_header (k_mem s) ph ELF_PROG_LOAD flags off vaddr filesz memsz ->
  (memsz < filesz \/ u64 (vaddr + memsz) < vaddr -> load_segment f i ph s = Ok (Some EL_ERR) s) /\
  (filesz <= memsz -> vaddr <= u64 (vaddr + memsz) -> PGSIZE <= memsz ->
     load_segment f i ph s = Stop (Panic "size < PGSIZE") s).
Proof.
  intros Hph. rewrite (load_segment_read s f i ph flags off vaddr filesz memsz Hph). split.
  - intros H. destruct (Z.ltb_spec memsz filesz); [done|]. by rewrite (proj2 (Z.ltb_lt _ _)) by lia.
  - intros H1 H2 H3. rewrite !(proj2 (Z.ltb_ge _ _)) by lia.
    unfold elf_alloc_mb. rewrite (proj2 (Z.ltb_ge _ _)) by lia. done.
Qed.
End Elf.
(* ------------------------------------------------------------------ *)
(** * Witnesses *)

(** a header at 0x80024000: code, 100 bytes at 0x10000 *)
Definition demo_ph (m : gmap Z Z) : gmap Z Z :=
  store64 (store64 (store64 (store64 (store32 (store32 m 0x80024000 1) 0x80024004 5)
    0x80024010 0x10000) 0x80024020 100) 0x80024028 100) 0x80024008 0.
Definition demo_load : @kstate Demo.platform := set_k_mem (demo_ph (k_mem demo_space)) demo_space.

Lemma load_segment_refuses_witness :
  load_segment 0 0 0x80024000 (set_k_mem (store64 (k_mem demo_load) 0x80024020 200) demo_load) =
    Ok (Some EL_ERR) (set_k_mem (store64 (k_mem demo_load) 0x80024020 200) demo_load).
Proof.
  apply (load_segment_refuses (set_k_mem (store64 (k_mem demo_load) 0x80024020 200) demo_load) 0 0 0x80024000 5 0 0x10000 200 100).
  - split; by vm_compute.
  - by left.
Defined.
