(* ===== verification/Load.v ===== *)
(** kernel/elf.c: what elf_load makes of a whole program file.

    The host serves the file through the interface [HostFile]: a read inside the
    file delivers its bytes.  The file is an image [img] whose byte at offset [o]
    is [load8 img o], and its program headers are read from the image the way the
    C structures are read from memory. *)

From S2P Require Import Prelude Machine Pmm StringC Vmm Sched SpikeFile Process Fork Elf.

(** elf_prog_header, as a value *)
Record phdr := mkPhdr { h_type : Z; h_flags : Z; h_off : Z; h_vaddr : Z; h_filesz : Z; h_memsz : Z }.
Record phdr_at (m : gmap Z Z) (a : Z) (h : phdr) : Prop := {
  pa_type : load32 m (a + PH_type) = h_type h;
  pa_flags : load32 m (a + PH_flags) = h_flags h;
  pa_off : load64 m (a + PH_off) = h_off h;
  pa_vaddr : load64 m (a + PH_vaddr) = h_vaddr h;
  pa_filesz : load64 m (a + PH_filesz) = h_filesz h;
  pa_memsz : load64 m (a + PH_memsz) = h_memsz h
}.
(** [n] bytes at [a] become the bytes of the image from [off] on *)
Definition served (img m m' : gmap Z Z) (a n off : Z) : Prop :=
  forall b, load8 m' b = if decide (a <= b < a + n) then load8 img (off + (b - a)) else load8 m b.

(** in the host states [fh], descriptor [fd] is open on a file of [sz] bytes *)
Class HostFile {PLAT : Platform} (fh : host_state -> Prop) (fd sz : Z) (img : gmap Z Z) : Prop :=
  pread_serves h m a n off :
    fh h -> region_ok a n -> 0 <= off -> off + n <= sz ->
    exists m' h', host_call HTIFSYS_pread (u64 <$> [fd; a; n; off; 0; 0; 0]) m h = (n, m', h') /\ fh h' /\ served img m m' a n off.

(** bytes outside a word-aligned region unchanged, hence the words *)
Lemma served_word img m m' a n off b :
  served img m m' a n off -> a mod 8 = 0 -> n mod 8 = 0 -> b < a \/ a + n <= b -> load64 m' b = load64 m b.
Proof.
  intros H Ha Hn Hb. rewrite (load64_align m'), (load64_align m). apply load64_bytes; [dlia..|].
  intros i Hi. rewrite H, decide_False; [done|]. dlia.
Qed.
(** a header that was read from the file *)
Lemma served_phdr img m m' a off h :
  served img m m' a sizeof_ph off -> a mod 8 = 0 -> off mod 8 = 0 -> phdr_at img off h -> phdr_at m' a h.
Proof.
  intros H Ha Ho []. unfold sizeof_ph in H.
  assert (H4 : forall o, 0 <= o -> o + 4 <= 56 -> o mod 4 = 0 -> load32 m' (a + o) = load32 img (off + o)).
  { intros o H1 H2 H3. apply load32_bytes; [dlia..|]. intros i Hi. rewrite H, decide_True by lia. f_equal. lia. }
  assert (H8 : forall o, 0 <= o -> o + 8 <= 56 -> o mod 8 = 0 -> load64 m' (a + o) = load64 img (off + o)).
  { intros o H1 H2 H3. apply load64_bytes; [dlia..|]. intros i Hi. rewrite H, decide_True by lia. f_equal. lia. }
  by split; [rewrite H4|rewrite H4|rewrite H8..].
Qed.

Section Load.
Context {PLAT : Platform} {fh : host_state -> Prop} {fd sz : Z} {img : gmap Z Z} `{HF : !HostFile fh fd sz img}.

Lemma elf_fpread_spec s f a n off :
  fh (k_host s) -> kfd (file s f) = fd -> region_ok a n -> 0 <= off -> off + n <= sz ->
  exists m' h', elf_fpread f a n off s = Ok n (set_k_host h' (set_k_mem m' s)) /\ fh h' /\ served img (k_mem s) m' a n off.
Proof.
  intros Hh Hf Hr Ho Hsz. destruct (pread_serves (k_host s) (k_mem s) a n off Hh Hr Ho Hsz) as (m' & h' & E & Hh' & Hs).
  exists m', h'. split_and!; [|done|done]. unfold elf_fpread, spike_file_pread, kfd_of.
  rewrite bind_assoc, (bind_Ok _ _ _ fd s) by (by rewrite getf_run, Hf). unfold bind, frontend_syscall. rewrite E. unfold ret. f_equal.
  destruct Hr as (? & ? & ?). unfold PHYS_TOP, DRAM_BASE, PKE_MAX_ALLOWABLE_RAM in *. rewrite s64_small by lia. apply u64_small. lia.
Qed.

(* ------------------------------------------------------------------ *)
(** * One segment *)

(** a segment the loader accepts *)
Record seg_ok (h : phdr) : Prop := {
  sg_type : h_type h = ELF_PROG_LOAD;
  sg_size : 0 <= h_filesz h <= h_memsz h /\ h_memsz h < PGSIZE;
  sg_file : 0 <= h_off h /\ h_off h + h_memsz h <= sz;
  sg_flags : h_flags h = 5 \/ h_flags h = 6;
  sg_align : h_vaddr h mod PGSIZE = 0;
  sg_range : 0 < h_vaddr h /\ h_vaddr h + PGSIZE <= MAXVA
}.
Definition count_region (p : process) : process := set_p_total_mapped_region (s32 (p_total_mapped_region p + 1)) p.
Lemma blind_count_region : blind count_region.
Proof. unfold count_region. solve_blind. Qed.

(** the bytes of a loaded page: the file's, then zeros *)
Definition seg_bytes (m : gmap Z Z) (q : Z) (h : phdr) : Prop :=
  forall o, 0 <= o < PGSIZE -> load8 m (q + o) = if decide (o < h_memsz h) then load8 img (h_off h + o) else 0.

(** what loading [h] into page [q] does *)
Record seg_step (i : nat) (q : Z) (h : phdr) (k : nat) (s s' : kstate) (T T' : gmap (list Z) Z) (l l' : list Z) : Prop := {
  ss_pt : pt_ok free_pages (p_pagetable (proc s i)) s' T' l';
  ss_suffix : l' `suffix_of` l;
  ss_length : (length l <= length l' + 2)%nat;
  ss_host : fh (k_host s');
  ss_frame : kframe (set_k_host (k_host s') (updp i count_region s)) s';
  ss_page : page_ok q /\ (q ∉ table_pages T') /\ (q ∉ l');
  ss_tables p : p ∈ table_pages T' -> p ∈ table_pages T \/ p ∈ l;
  ss_mem : same_outside (table_pages T' ∪ {[q; p_mapped_info (proc s i)]}) (k_mem s) (k_mem s');
  ss_leaf a : 0 <= a < MAXVA -> leaf (k_mem s') T' a = if decide (page_of a = h_vaddr h) then mkpte q perm_user_rwx else leaf (k_mem s) T a;
  ss_bytes : seg_bytes (k_mem s') q h;
  ss_region : region_is (k_mem s') (p_mapped_info (proc s i)) (Z.of_nat k) (h_vaddr h) 1 (segment_type (h_flags h));
  ss_regions j v n t : 0 <= j < 256 -> j <> Z.of_nat k -> region_is (k_mem s) (p_mapped_info (proc s i)) j v n t ->
    region_is (k_mem s') (p_mapped_info (proc s i)) j v n t
}.
Lemma zero_bytes m q o : (forall j, 0 <= j < 512 -> load64 m (q + 8 * j) = 0) -> q mod 8 = 0 -> 0 <= o < PGSIZE -> load8 m (q + o) = 0.
Proof.
  intros Hz Hq Ho. unfold load8, loadn. rewrite load64_align. replace (8 * ((q + o) / 8)) with (q + 8 * (o / 8)) by dlia.
  rewrite Hz by (unfold PGSIZE in *; dlia). unfold get_field. by rewrite Z.shiftr_0_l, Z.land_0_l.
Qed.
Lemma served_page m m' q n off : served img m m' q n off -> page_ok q -> n <= PGSIZE -> same_outside {[q]} m m'.
Proof.
  intros H Hq Hn. apply bytes_outside_page; [apply Hq|]. intros a Ha. rewrite H, decide_False; [done|]. lia.
Qed.

(** a segment in a page of its own, recorded in the first unused region *)
Lemma load_segment_spec s f i T q l ph h (k : nat) :
  let pt := p_pagetable (proc s i) in
  let info := p_mapped_info (proc s i) in
  fh (k_host s) -> kfd (file s f) = fd -> seg_ok h ->
  ph mod 8 = 0 /\ DRAM_BASE <= ph /\ ph + sizeof_ph <= PHYS_TOP -> phdr_at (k_mem s) ph h ->
  pt_ok free_pages pt s T (q :: l) -> (2 <= length l)%nat -> (i < length (k_procs s))%nat ->
  (forall a, page_of a = h_vaddr h -> flag (leaf (k_mem s) T a) PTE_V = false) ->
  page_ok info -> (k < 256)%nat ->
  (forall j, (j < k)%nat -> load64 (k_mem s) (region info (Z.of_nat j) + MR_va) <> 0) ->
  load64 (k_mem s) (region info (Z.of_nat k) + MR_va) = 0 ->
  (forall p, p = info \/ p = page_of (ph + PH_flags) -> (p ∉ table_pages T) /\ (p ∉ q :: l)) ->
  exists s' T' l', load_segment f i ph s = Ok None s' /\ seg_step i q h k s s' T T' l l'.
Proof.
  intros pt info Hfh Hfd [Hty [Hfs Hms] [Hoff Hend] Hfl Hal [Hv Hmax]] Hpp Hph Hok Hl Hib Hinv Hinfo Hk Hlt H0 Hsep.
  assert (Hph' : prog_header (k_mem s) ph ELF_PROG_LOAD (h_flags h) (h_off h) (h_vaddr h) (h_filesz h) (h_memsz h)).
  { destruct Hph. split; try done. congruence. }
  rewrite (load_segment_read s f i ph _ _ _ _ _ Hph'), (proj2 (Z.ltb_ge _ _)) by lia.
  rewrite (u64_small (h_vaddr h + h_memsz h)), (proj2 (Z.ltb_ge _ _)) by (unfold MAXVA, PGSIZE in *; lia).
  destruct (elf_alloc_mb_spec s i T q l (h_vaddr h) (h_memsz h)) as
    (s1 & T1 & l1 & E1 & Hok1 & Hk1 & Hq & HqT & Hql & Hsuf & Hlen & Hsub & Hm1 & Hz1 & Hnew & Hlf1); try done; [lia|].
  assert (Hout : forall p, p = info \/ p = page_of (ph + PH_flags) -> (p ∉ table_pages T1) /\ (p ∉ l1) /\ p <> q).
  { intros p Hp. destruct (Hsep p Hp) as [H1 H2]. split_and!.
    - intros Hin. destruct (Hnew p Hin); set_solver.
    - destruct Hsuf as [u Eu]. rewrite Eu in H2. set_solver.
    - set_solver. }
  destruct (Hout info (or_introl eq_refl)) as (Oi1 & Oi2 & Oi3).
  destruct (elf_fpread_spec s1 f q (h_memsz h) (h_off h)) as (m2 & h' & E2 & Hh' & Hs2); try done.
  { apply (f_equal k_host) in Hk1. by rewrite (Hk1 : k_host s1 = k_host s). }
  { apply (f_equal k_spike_files) in Hk1. unfold file in *. by rewrite (Hk1 : k_spike_files s1 = _). }
  { destruct Hq as (? & ? & ?). unfold region_ok, PGSIZE in *. lia. }
  assert (Hm2 : same_outside {[q]} (k_mem s1) m2) by (eapply served_page; [exact Hs2|done|lia]).
  set (s2 := set_k_host h' (set_k_mem m2 s1)) in *.
  destruct (pt_ok_write pt s1 T1 l1 m2 {[q]} Hok1 Hm2) as [Hok2 Hlf2]; [set_solver|set_solver|].
  assert (Hok2' : pt_ok free_pages pt s2 T1 l1).
  { destruct Hok2 as (A1 & A2 & A3). split_and!; [done|by apply (pa_frame (set_k_mem m2 s1))|done]. }
  assert (Hsame : forall p a, p = info \/ p = page_of (ph + PH_flags) -> page_of a = p -> load64 (k_mem s2) a = load64 (k_mem s) a).
  { intros p a Hp Ha. destruct (Hout p Hp) as (O1 & O2 & O3). cbn [k_mem s2 set_k_host set_k_mem].
    rewrite Hm2 by (rewrite Ha; set_solver). apply Hm1. rewrite Ha. set_solver. }
  assert (Hinfo2 : p_mapped_info (proc s2 i) = info) by by apply (kframe_proc p_mapped_info s s1).
  assert (Hlen2 : length (k_procs s2) = length (k_procs s)).
  { apply (f_equal (fun s => length (k_procs s))) in Hk1. cbn in Hk1. rewrite !length_map in Hk1. exact Hk1. }
  assert (Hreg : forall j o : Z, 0 <= j < 256 -> 0 <= o < 16 -> load64 (k_mem s2) (region info j + o) = load64 (k_mem s) (region info j + o)).
  { intros j o Hj Ho. apply (Hsame info); [by left|]. unfold region, sizeof_region. rewrite <- Z.add_assoc. apply page_of_slot; [done|]. unfold PGSIZE. lia. }
  destruct (record_segment_spec s2 i (h_vaddr h) (h_flags h) k) as (m3 & E3 & Hm3 & Hr3 & Hro3); rewrite ?Hinfo2; try done; try lia.
  { intros j Hj. rewrite Hreg by (unfold MR_va; lia). by apply Hlt. } { by rewrite Hreg by (unfold MR_va; lia). } { unfold MAXVA, PGSIZE in *. lia. }
  rewrite Hinfo2 in Hm3, Hr3, Hro3.
  destruct (pt_ok_write pt s2 T1 l1 m3 {[info]} Hok2' Hm3) as [Hok3 Hlf3]; [by apply disjoint_singleton_l|intros p Hp E%elem_of_singleton; by subst p|].
  exists (updp i count_region (set_k_mem m3 s2)), T1, l1. split.
  { rewrite (bind_Ok _ _ _ _ _ E1), (bind_Ok _ _ _ _ _ E2), Z.eqb_refl. cbn [negb].
    assert (Afl : ld32 (ph + PH_flags) s2 = Ok (h_flags h) s2).
    { rewrite ld32_ok by (apply ph_addr; try done; by left). f_equal. rewrite <- (pa_flags _ _ _ Hph).
      unfold load32, loadn. f_equal. by apply (Hsame (page_of (ph + PH_flags))); [right|]. }
    by rewrite (bind_Ok _ _ _ _ _ Afl), (bind_Ok _ _ _ _ _ E3). }
  split; cbn [k_mem k_host updp set_k_procs set_k_mem set_k_host]; try done.
  - unfold kframe in *. change (strip (updp i count_region (set_k_mem m3 s2))) with (strip (set_k_host h' (updp i count_region s1))).
    assert (Hc := kframe_updp i count_region s s1 blind_count_region Hk1).
    unfold kframe in Hc. by apply (f_equal (set_k_host h')) in Hc.
  - etrans; [eapply same_outside_mono; [|exact Hm1]; set_solver|]. etrans; [eapply same_outside_mono; [|exact Hm2]; set_solver|].
    eapply same_outside_mono; [|exact Hm3]. fold info. set_solver.
  - intros a Ha. rewrite Hlf3. cbn [k_mem s2 set_k_host set_k_mem]. by rewrite Hlf2, Hlf1.
  - intros o Ho. unfold load8. rewrite (outside_loadn {[info]} m2 m3); [|exact Hm3|rewrite page_of_slot by done; set_solver].
    change (load8 m2 (q + o) = if decide (o < h_memsz h) then load8 img (h_off h + o) else 0). rewrite Hs2.
    case_decide; case_decide; try lia; [do 2 f_equal; lia|]. apply zero_bytes; [done|destruct Hq; unfold PGSIZE in *; dlia|done].
  - intros j v n t Hj Hne (R1 & R2 & R3). apply Hro3; [done|done|]. unfold region_is, load32, loadn in *. by rewrite !Hreg by (unfold MR_va, MR_npages, MR_seg_type; lia).
Qed.
(* ------------------------------------------------------------------ *)
(** * The segments loaded so far *)

(** the pages that loading may write *)
Definition load_writes (T : gmap (list Z) Z) (l : list Z) (info stk : Z) : gset Z := table_pages T ∪ list_to_set l ∪ {[info; stk]}.

Section Program.
Variables (s0 : kstate) (i : nat) (T0 : gmap (list Z) Z) (l0 : list Z) (k : nat) (stk ph : Z).
Let pt := p_pagetable (proc s0 i).
Let info := p_mapped_info (proc s0 i).

(** the region table and the stack page of the locals, apart from the pages
    the loader takes; [ph] is the local program header *)
Record load_ctx : Prop := {
  lc_proc : (i < length (k_procs s0))%nat;
  lc_info : page_ok info;
  lc_stk : page_ok stk;
  lc_ph : ph mod 8 = 0 /\ stk <= ph /\ ph + sizeof_ph <= stk + PGSIZE;
  lc_apart : info <> stk;
  lc_out p : p = info \/ p = stk -> (p ∉ table_pages T0) /\ (p ∉ l0)
}.
Hypothesis Hctx : load_ctx.

Record loaded (hs : list phdr) (qs : list Z) (s : kstate) (T : gmap (list Z) Z) (l : list Z) : Prop := {
  lo_pt : pt_ok free_pages pt s T l;
  lo_suffix : l `suffix_of` l0;
  lo_length : (length l0 <= length l + 3 * length hs)%nat;
  lo_host : fh (k_host s);
  lo_frame : kframe (set_k_host (k_host s) (updp i (Nat.iter (length hs) count_region) s0)) s;
  lo_pages : length qs = length hs;
  lo_tables p : p ∈ table_pages T -> p ∈ table_pages T0 \/ p ∈ l0;
  lo_page q : q ∈ qs -> page_ok q /\ (q ∉ table_pages T) /\ (q ∉ l) /\ q ∈ l0;
  lo_stack a : page_of a = stk -> a < ph \/ ph + sizeof_ph <= a -> load64 (k_mem s) a = load64 (k_mem s0) a;
  lo_mem : same_outside (load_writes T0 l0 info stk) (k_mem s0) (k_mem s);
  lo_bytes j h q : hs !! j = Some h -> qs !! j = Some q -> seg_bytes (k_mem s) q h;
  lo_leaf j h q a : hs !! j = Some h -> qs !! j = Some q -> 0 <= a < MAXVA -> page_of a = h_vaddr h -> leaf (k_mem s) T a = mkpte q perm_user_rwx;
  lo_old a : 0 <= a < MAXVA -> page_of a ∉ (h_vaddr <$> hs) -> leaf (k_mem s) T a = leaf (k_mem s0) T0 a;
  lo_region j h : hs !! j = Some h -> region_is (k_mem s) info (Z.of_nat (k + j)) (h_vaddr h) 1 (segment_type (h_flags h));
  lo_free j : (k + length hs <= j < 256)%nat -> load64 (k_mem s) (region info (Z.of_nat j) + MR_va) = 0;
  lo_regions j v n t : (j < k)%nat -> region_is (k_mem s0) info (Z.of_nat j) v n t -> region_is (k_mem s) info (Z.of_nat j) v n t
}.

(** fields that counting regions does not change *)
Lemma count_region_field {A} (g : process -> A) n p : (forall x, g (count_region x) = g x) -> g (Nat.iter n count_region p) = g p.
Proof. intros H. induction n as [|n IH]; [done|]. simpl. by rewrite H. Qed.
Lemma loaded_proc {A} (g : process -> A) hs qs s T l :
  loaded hs qs s T l -> (forall n p, g (set_p_total_mem_count n p) = g p) -> (forall x, g (count_region x) = g x) -> g (proc s i) = g (proc s0 i).
Proof.
  intros Hl H1 H2. rewrite (kframe_proc g _ s i H1 (lo_frame _ _ _ _ _ Hl)).
  change (proc (set_k_host ?h ?s) i) with (proc s i). rewrite proc_updp_eq by apply Hctx. by apply count_region_field.
Qed.
Lemma count_total n p z : p_total_mapped_region p = z -> 0 <= z -> z + Z.of_nat n < 2 ^ 31 -> p_total_mapped_region (Nat.iter n count_region p) = z + Z.of_nat n.
Proof.
  intros Hp Hz Hn. induction n as [|n IH]; [cbn; lia|]. cbn [Nat.iter nat_rect count_region p_total_mapped_region set_p_total_mapped_region].
  change (nat_rect _ p _ n) with (Nat.iter n count_region p). rewrite IH, s32_small by lia. lia.
Qed.
Lemma loaded_total hs qs s T l :
  loaded hs qs s T l -> p_total_mapped_region (proc s0 i) = Z.of_nat k -> (k + length hs <= 256)%nat -> p_total_mapped_region (proc s i) = Z.of_nat (k + length hs).
Proof.
  intros Hl Hk Hle. rewrite (kframe_proc p_total_mapped_region _ s i ltac:(done) (lo_frame _ _ _ _ _ Hl)).
  change (proc (set_k_host ?h ?s) i) with (proc s i). rewrite proc_updp_eq by apply Hctx. rewrite (count_total _ _ _ Hk) by lia. lia.
Qed.
Lemma loaded_length hs qs s T l : loaded hs qs s T l -> length (k_procs s) = length (k_procs s0).
Proof.
  intros Hl. pose proof (lo_frame _ _ _ _ _ Hl) as Hk. apply (f_equal (fun s => length (k_procs s))) in Hk. cbn in Hk. rewrite !length_map in Hk.
  rewrite Hk. apply length_alter.
Qed.
Lemma loaded_file hs qs s T l f : loaded hs qs s T l -> file s f = file s0 f.
Proof. intros Hl. pose proof (lo_frame _ _ _ _ _ Hl) as Hk. apply (f_equal k_spike_files) in Hk. unfold file. by rewrite (Hk : k_spike_files s = _). Qed.
(** the pages of the context are apart from everything loaded *)
Lemma loaded_out hs qs s T l p : loaded hs qs s T l -> p = info \/ p = stk -> (p ∉ table_pages T) /\ (p ∉ l) /\ (p ∉ qs).
Proof.
  intros Hl Hp. destruct (lc_out Hctx p Hp) as [H1 H2]. split_and!.
  - intros Hin. by destruct (lo_tables _ _ _ _ _ Hl p Hin).
  - destruct (lo_suffix _ _ _ _ _ Hl) as [u Eu]. rewrite Eu in H2. set_solver.
  - intros Hin. by apply (lo_page _ _ _ _ _ Hl) in Hin as (_ & _ & _ & ?).
Qed.
Lemma info_page j o : (j < 256)%nat -> 0 <= o < 16 -> page_of (region info (Z.of_nat j) + o) = info.
Proof. intros Hj Ho. unfold region, sizeof_region. rewrite <- Z.add_assoc. apply page_of_slot; [apply Hctx|]. unfold PGSIZE. lia. Qed.
Lemma region_is_eq m m' j v n t :
  (j < 256)%nat -> (forall a, page_of a = info -> load64 m' a = load64 m a) -> region_is m info (Z.of_nat j) v n t -> region_is m' info (Z.of_nat j) v n t.
Proof. intros Hj H (R1 & R2 & R3). unfold region_is, load32, loadn in *. by rewrite !H by (apply info_page; [done|unfold MR_va, MR_npages, MR_seg_type; lia]). Qed.
Lemma seg_bytes_eq m m' q h : page_ok q -> (forall a, page_of a = q -> load64 m' a = load64 m a) -> seg_bytes m q h -> seg_bytes m' q h.
Proof. intros Hq H Hb o Ho. rewrite <- (Hb o Ho). unfold load8, loadn. by rewrite H by (by apply page_of_slot). Qed.

(** reading into the local header keeps what was loaded *)
Lemma loaded_stack hs qs s T l m' h' :
  loaded hs qs s T l -> (k + length hs <= 256)%nat -> same_outside {[stk]} (k_mem s) m' ->
  (forall a, page_of a = stk -> a < ph \/ ph + sizeof_ph <= a -> load64 m' a = load64 (k_mem s) a) -> fh h' ->
  loaded hs qs (set_k_host h' (set_k_mem m' s)) T l.
Proof.
  intros Hl Hk Ho Hw Hh. destruct (loaded_out _ _ _ _ _ stk Hl (or_intror eq_refl)) as (O1 & O2 & O3).
  assert (Hi : forall a, page_of a = info -> load64 m' a = load64 (k_mem s) a).
  { intros a Ha. apply Ho. rewrite Ha, elem_of_singleton. apply (lc_apart Hctx). }
  destruct Hl. destruct (pt_ok_write pt s T l m' {[stk]} lo_pt0 Ho) as [Hok Hlf]; [by apply disjoint_singleton_l|intros p Hp E%elem_of_singleton; by subst p|].
  split; cbn [k_mem k_host set_k_host set_k_mem]; try done.
  - unfold kframe in *. apply (f_equal (set_k_host h')) in lo_frame0. exact lo_frame0.
  - intros a Ha1 Ha2. rewrite Hw by done. by apply lo_stack0.
  - etrans; [exact lo_mem0|]. eapply same_outside_mono; [|exact Ho]. unfold load_writes. set_solver.
  - intros j h q Hj Hq. assert (Hqs : q ∈ qs) by (by eapply list_elem_of_lookup_2). eapply seg_bytes_eq; [by apply lo_page0| |by eapply lo_bytes0].
    intros a Ha. apply Ho. rewrite Ha, elem_of_singleton. by intros ->.
  - intros j h q a Hj Hq Ha Hp. rewrite Hlf. by eapply lo_leaf0.
  - intros a Ha Hn. rewrite Hlf. by apply lo_old0.
  - intros j h Hj. eapply region_is_eq; [|exact Hi|by apply lo_region0]. apply lookup_lt_Some in Hj. lia.
  - intros j Hj. rewrite Hi by (apply info_page; [lia|unfold MR_va; lia]). by apply lo_free0.
  - intros j v n t Hj Hr. eapply region_is_eq; [lia|exact Hi|by apply lo_regions0].
Qed.
Lemma alter_alter {A} (f g : A -> A) (n : nat) (l : list A) : alter f n (alter g n l) = alter (fun x => f (g x)) n l.
Proof. revert n. induction l as [|x l IH]; intros [|n]; cbn; f_equal; auto. Qed.
Lemma count_frame n s h s' :
  kframe (set_k_host h (updp i (Nat.iter n count_region) s0)) s -> kframe (set_k_host (k_host s') (updp i count_region s)) s' ->
  kframe (set_k_host (k_host s') (updp i (Nat.iter (S n) count_region) s0)) s'.
Proof.
  intros H1 H2. etrans; [|exact H2]. apply (kframe_updp i count_region) in H1.
  - unfold kframe in *. apply (f_equal (set_k_host (k_host s'))) in H1. etrans; [exact H1|]. unfold strip, updp. cbn. by rewrite alter_alter.
  - apply blind_count_region.
Qed.
(** one more segment *)
Lemma loaded_segment hs qs s T q l h s' T' l' :
  loaded hs qs s T (q :: l) -> (k + length hs < 256)%nat -> h_vaddr h ∉ (h_vaddr <$> hs) ->
  seg_step i q h (k + length hs) s s' T T' l l' -> loaded (hs ++ [h]) (qs ++ [q]) s' T' l'.
Proof.
  intros Hl Hk Hv [].
  assert (Hpt : p_pagetable (proc s i) = pt) by (by apply (loaded_proc p_pagetable _ _ _ _ _ Hl)).
  assert (Hin : p_mapped_info (proc s i) = info) by (by apply (loaded_proc p_mapped_info _ _ _ _ _ Hl)).
  rewrite Hpt in ss_pt0. rewrite Hin in ss_mem0, ss_region0, ss_regions0. clear Hpt Hin.
  destruct (loaded_out _ _ _ _ _ info Hl (or_introl eq_refl)) as (I1 & I2 & I3). destruct (loaded_out _ _ _ _ _ stk Hl (or_intror eq_refl)) as (O1 & O2 & O3).
  destruct Hl. destruct ss_page0 as (Hq & HqT & Hql).
  assert (Hls : l' `suffix_of` q :: l) by (by apply suffix_cons_r).
  assert (Hsub : forall p, p ∈ l' -> p ∈ q :: l) by (destruct Hls as [u ->]; set_solver).
  assert (Hl0 : forall p, p ∈ q :: l -> p ∈ l0) by (destruct lo_suffix0 as [u ->]; set_solver).
  assert (Hout : forall p, p ∉ table_pages T -> p ∉ q :: l -> p ∉ table_pages T') by (intros p H1 H2 Hin; destruct (ss_tables0 p Hin); set_solver).
  assert (Hmem : forall p a, p ∉ table_pages T -> p ∉ q :: l -> p <> info -> page_of a = p -> load64 (k_mem s') a = load64 (k_mem s) a).
  { intros p a H1 H2 H3 Ha. apply ss_mem0. rewrite Ha. specialize (Hout p H1 H2). set_solver. }
  assert (Hlen : length (hs ++ [h]) = S (length hs)) by (rewrite length_app; simpl; lia).
  split; rewrite ?Hlen; try done.
  - by etrans.
  - simpl in lo_length0. lia.
  - by eapply count_frame.
  - rewrite length_app. simpl. lia.
  - intros p Hp. destruct (ss_tables0 p Hp) as [?|?]; [by apply lo_tables0|right]. apply Hl0. set_solver.
  - intros q' [Hin| ->%list_elem_of_singleton]%elem_of_app; [|split_and!; try done; apply Hl0; set_solver].
    destruct (lo_page0 q' Hin) as (P1 & P2 & P3 & P4). split_and!; [done|by apply Hout|intros ?; by apply P3, Hsub|done].
  - intros a Ha Hw. rewrite (Hmem stk) by (done || by intros E; apply (lc_apart Hctx)). by apply lo_stack0.
  - etrans; [exact lo_mem0|]. eapply same_outside_mono; [|exact ss_mem0]. intros p Hp. unfold load_writes.
    assert (Hp' : p ∈ table_pages T0 \/ p ∈ l0 \/ p = info); [|set_solver]. apply elem_of_union in Hp as [Hp|Hp]; [|set_solver].
    destruct (ss_tables0 p Hp) as [H|H]; [destruct (lo_tables0 p H); tauto|]. right. left. apply Hl0. by right.
  - intros j h1 q1 Hj Hq1. apply lookup_snoc_Some in Hj as [[Hjl Hj]|[-> <-]].
    + rewrite lookup_app_l in Hq1 by lia. assert (Hin : q1 ∈ qs) by (by eapply list_elem_of_lookup_2). destruct (lo_page0 q1 Hin) as (P1 & P2 & P3 & P4).
      eapply seg_bytes_eq; [done| |by eapply lo_bytes0]. intros a Ha. apply (Hmem q1); [done|done| |done]. by intros ->.
    + rewrite lookup_app_r in Hq1 by lia. rewrite lo_pages0, Nat.sub_diag in Hq1. by injection Hq1 as <-.
  - intros j h1 q1 a Hj Hq1 Ha Hp. rewrite ss_leaf0 by done. apply lookup_snoc_Some in Hj as [[Hjl Hj]|[-> <-]].
    + rewrite lookup_app_l in Hq1 by lia. rewrite decide_False; [by eapply lo_leaf0|]. rewrite Hp. intros E. apply Hv. rewrite <- E. apply list_elem_of_fmap. exists h1. split; [done|]. by eapply list_elem_of_lookup_2.
    + rewrite lookup_app_r in Hq1 by lia. rewrite lo_pages0, Nat.sub_diag in Hq1. injection Hq1 as <-. by rewrite decide_True.
  - intros a Ha Hn. rewrite fmap_app in Hn. rewrite ss_leaf0, decide_False by (done || set_solver). apply lo_old0; [done|set_solver].
  - intros j h1 Hj. apply lookup_snoc_Some in Hj as [[Hjl Hj]|[-> <-]]; [|done]. apply ss_regions0; [lia|lia|by apply lo_region0].
  - intros j Hj. destruct (ss_regions0 (Z.of_nat j) 0 (load32 (k_mem s) (region info (Z.of_nat j) + MR_npages)) (load32 (k_mem s) (region info (Z.of_nat j) + MR_seg_type))) as [R _]; [lia|lia| |exact R].
    split_and!; [apply lo_free0; lia|done|done].
  - intros j v n t Hj Hr. apply ss_regions0; [lia|lia|by apply lo_regions0].
Qed.
(* ------------------------------------------------------------------ *)
(** * The whole program *)

Definition loads (hs : list phdr) : list phdr := filter (fun h => h_type h = ELF_PROG_LOAD) hs.

(** an ELF file the loader accepts: [hs] are its program headers, at [phoff] *)
Record program_ok (phoff : Z) (hs : list phdr) : Prop := {
  pg_place : 0 <= phoff /\ phoff mod 8 = 0 /\ phoff + sizeof_ph * Z.of_nat (length hs) <= sz /\ sz < 2 ^ 31;
  pg_headers j h : hs !! j = Some h -> phdr_at img (phoff + sizeof_ph * Z.of_nat j) h;
  pg_segs : Forall seg_ok (loads hs);
  pg_distinct : NoDup (h_vaddr <$> loads hs)
}.
(** room for the segments of [hs]: pages, addresses and regions *)
Record room_for (hs : list phdr) : Prop := {
  rf_pt : pt_ok free_pages pt s0 T0 l0;
  rf_pages : (3 * length (loads hs) <= length l0)%nat;
  rf_unmapped h a : h ∈ loads hs -> page_of a = h_vaddr h -> flag (leaf (k_mem s0) T0 a) PTE_V = false;
  rf_count : (k + length (loads hs) <= 256)%nat;
  rf_used j : (j < k)%nat -> load64 (k_mem s0) (region info (Z.of_nat j) + MR_va) <> 0;
  rf_free j : (k <= j < 256)%nat -> load64 (k_mem s0) (region info (Z.of_nat j) + MR_va) = 0;
  rf_total : p_total_mapped_region (proc s0 i) = Z.of_nat k
}.

Lemma loaded_start hs : room_for hs -> fh (k_host s0) -> loaded [] [] s0 T0 l0.
Proof.
  intros [] Hh. split; try done; try (by intros ? ?%elem_of_nil); try by left.
  - simpl. lia.
  - unfold kframe, strip, updp. cbn. do 2 f_equal. by rewrite list_alter_id.
  - intros j Hj. apply rf_free0. simpl in Hj. lia.
Qed.
(** the regions before the next one are used *)
Lemma loaded_used hs0 hs qs s T l j :
  room_for hs0 -> loaded hs qs s T l -> Forall seg_ok hs -> (j < k + length hs)%nat -> load64 (k_mem s) (region info (Z.of_nat j) + MR_va) <> 0.
Proof.
  intros [] [] Hok Hj. destruct (decide (j < k)%nat) as [Hlt|Hge].
  - destruct (lo_regions0 j (load64 (k_mem s0) (region info (Z.of_nat j) + MR_va)) (load32 (k_mem s0) (region info (Z.of_nat j) + MR_npages)) (load32 (k_mem s0) (region info (Z.of_nat j) + MR_seg_type)) Hlt) as [-> _]; [done|].
    by apply rf_used0.
  - destruct (lookup_lt_is_Some_2 hs (j - k)) as [h Hh]; [lia|]. destruct (lo_region0 _ _ Hh) as [R _]. replace (k + (j - k))%nat with j in R by lia. rewrite R.
    rewrite Forall_lookup in Hok. destruct (Hok _ _ Hh) as [_ _ _ _ _ [? _]]. lia.
Qed.
(** the next header, when it is a segment *)
Lemma load_next hs0 hs qs s T l f h :
  room_for hs0 -> kfd (file s0 f) = fd -> loaded hs qs s T l -> Forall seg_ok hs -> seg_ok h -> h ∈ loads hs0 -> h_vaddr h ∉ (h_vaddr <$> hs) ->
  (length hs < length (loads hs0))%nat -> phdr_at (k_mem s) ph h ->
  exists s' T' l' q, load_segment f i ph s = Ok None s' /\ loaded (hs ++ [h]) (qs ++ [q]) s' T' l'.
Proof.
  intros Hr Hfd Hl Hok Hh Hin Hv Hlen Hph. pose proof Hr as [_ Hpg Hun Hcnt _ _ _]. pose proof Hctx as [Hib Hinfo Hstk (Hp1 & Hp2 & Hp3) Hap _].
  pose proof (lo_length _ _ _ _ _ Hl) as Hll. destruct l as [|q l]; [simpl in Hll; lia|].
  assert (Hpt : p_pagetable (proc s i) = pt) by (by apply (loaded_proc p_pagetable _ _ _ _ _ Hl)).
  assert (Hif : p_mapped_info (proc s i) = info) by (by apply (loaded_proc p_mapped_info _ _ _ _ _ Hl)).
  assert (Hpf : page_of (ph + PH_flags) = stk).
  { apply page_of_in; [apply Hstk|]. unfold PH_flags, sizeof_ph in *. lia. }
  destruct (load_segment_spec s f i T q l ph h (k + length hs)) as (s' & T' & l' & E & Hst); rewrite ?Hpt, ?Hif; try done.
  - apply Hl.
  - by rewrite (loaded_file _ _ _ _ _ f Hl).
  - split_and!; [done|destruct Hstk; lia|destruct Hstk as (_ & _ & ?); lia].
  - apply Hl.
  - simpl in Hll. lia.
  - by rewrite (loaded_length _ _ _ _ _ Hl).
  - intros a Ha. pose proof (page_of_bounds a). destruct Hh as [_ _ _ _ _ [? ?]]. rewrite (lo_old _ _ _ _ _ Hl) by (lia || by rewrite Ha). by apply (Hun h).
  - lia.
  - intros j Hj. by eapply loaded_used.
  - apply Hl. lia.
  - intros p Hp. rewrite Hpf in Hp. destruct (loaded_out _ _ _ _ _ p Hl Hp) as (? & ? & _). done.
  - exists s', T', l', q. split; [done|]. eapply loaded_segment; [done|lia|done|exact Hst].
Qed.
(** reading a header into the local [ph] *)
Lemma read_header hs qs s T l f off h :
  loaded hs qs s T l -> (k + length hs <= 256)%nat -> kfd (file s0 f) = fd -> 0 <= off -> off mod 8 = 0 -> off + sizeof_ph <= sz -> phdr_at img off h ->
  exists s', elf_fpread f ph sizeof_ph off s = Ok sizeof_ph s' /\ loaded hs qs s' T l /\ phdr_at (k_mem s') ph h.
Proof.
  intros Hl Hk Hfd Ho Ha Hsz Hh. pose proof Hctx as [_ _ Hstk (Hp1 & Hp2 & Hp3) _ _]. pose proof Hstk as (Hs1 & Hs2 & Hs3).
  destruct (elf_fpread_spec s f ph sizeof_ph off) as (m' & h' & E & Hh' & Hs); try done.
  - apply Hl.
  - by rewrite (loaded_file _ _ _ _ _ f Hl).
  - unfold region_ok, sizeof_ph in *. lia.
  - exists (set_k_host h' (set_k_mem m' s)). split_and!; [exact E| |by eapply served_phdr].
    apply loaded_stack; [done|done| | |done].
    + apply bytes_outside_page; [done|]. intros a Hb. rewrite Hs, decide_False; [done|]. lia.
    + intros a _ Hb. eapply served_word; [exact Hs|done|done|done].
Qed.
(** the local ELF header, as elf_load uses it *)
Record ehdr_at (ehdr phoff : Z) (n : nat) : Prop := {
  eh_place : ehdr mod 8 = 0 /\ stk <= ehdr /\ ehdr + sizeof_ehdr <= stk + PGSIZE;
  eh_apart : ehdr + sizeof_ehdr <= ph \/ ph + sizeof_ph <= ehdr;
  eh_phoff : load64 (k_mem s0) (ehdr + EH_phoff) = phoff;
  eh_phnum : loadn 16 (k_mem s0) (ehdr + EH_phnum) = Z.of_nat n
}.
Lemma read_phnum hs qs s T l ehdr phoff n : loaded hs qs s T l -> ehdr_at ehdr phoff n -> ld16 (ehdr + EH_phnum) s = Ok (Z.of_nat n) s.
Proof.
  intros Hl [(E1 & E2 & E3) Hap _ Hn]. pose proof Hctx as [_ _ (Hs1 & Hs2 & Hs3) _ _ _]. unfold ld16, sizeof_ehdr, EH_phnum, sizeof_ph in *.
  assert (addr_ok 2 (ehdr + 56) = true) as -> by (unfold addr_ok; rewrite !andb_true_iff, !Z.leb_le, Z.eqb_eq; unfold PGSIZE in *; split_and!; [lia|lia|dlia]).
  rewrite <- Hn. unfold loadn. rewrite (lo_stack _ _ _ _ _ Hl); [done|apply page_of_in; [done|lia]|]. unfold sizeof_ph. lia.
Qed.
Lemma loads_snoc hs j h : hs !! j = Some h -> loads (take (S j) hs) = loads (take j hs) ++ (if decide (h_type h = ELF_PROG_LOAD) then [h] else []).
Proof. intros Hj. unfold loads. rewrite (take_S_r _ _ _ Hj), filter_app, filter_cons, filter_nil. done. Qed.
Lemma loads_split hs j h :
  hs !! j = Some h -> h_type h = ELF_PROG_LOAD -> exists rest, loads hs = loads (take j hs) ++ h :: rest.
Proof.
  intros Hj Ht. exists (loads (drop (S j) hs)). rewrite <- (take_drop_middle hs j h Hj) at 1. unfold loads. by rewrite filter_app, filter_cons_True.
Qed.

(** the loop of elf_load: [n] headers are done *)
Definition load_inv (phoff : Z) (hs : list phdr) (x : Z * Z) (s : kstate) : Prop :=
  exists (n : nat) qs T l, x = (Z.of_nat n, phoff + sizeof_ph * Z.of_nat n) /\ (n <= length hs)%nat /\ loaded (loads (take n hs)) qs s T l.
Definition load_post (hs : list phdr) (o : res elf_status) : Prop :=
  match o with Ok e s => e = EL_OK /\ exists qs T l, loaded (loads hs) qs s T l | _ => False end.

(** one header, already read: it is skipped or loaded *)
Lemma load_header f phoff hs n h qs s T l :
  program_ok phoff hs -> room_for hs -> kfd (file s0 f) = fd -> hs !! n = Some h -> loaded (loads (take n hs)) qs s T l -> phdr_at (k_mem s) ph h ->
  exists qs' s' T' l', load_segment f i ph s = Ok None s' /\ loaded (loads (take (S n) hs)) qs' s' T' l'.
Proof.
  intros [_ _ Hsg Hnd] Hr Hfd Hh Hl Hp. rewrite (loads_snoc _ _ _ Hh). destruct (decide (h_type h = ELF_PROG_LOAD)) as [Ht|Ht].
  - destruct (loads_split hs n h Hh Ht) as [rest Hsp]. rewrite Hsp in Hsg, Hnd. apply Forall_app in Hsg as [Hs0 [Hsh _]%Forall_cons].
    destruct (load_next hs _ _ _ _ _ f h Hr Hfd Hl Hs0 Hsh) as (s' & T' & l' & q & E & Hl'); [rewrite Hsp; set_solver| | |done|by eauto 6].
    + rewrite fmap_app, fmap_cons in Hnd. apply NoDup_app in Hnd as (_ & Hd & _). intros Hin. apply (Hd _ Hin). set_solver.
    + rewrite Hsp, length_app. simpl. lia.
  - exists qs, s, T, l. rewrite app_nil_r. split; [|done]. pose proof Hctx as [_ _ (_ & S2 & S3) (Q1 & Q2 & Q3) _ _].
    unfold load_segment. erewrite bind_Ok; [|apply ld32_ok, ph_addr; [lia|done|done|by left|done]].
    rewrite (pa_type _ _ _ Hp). by rewrite (proj2 (Z.eqb_neq _ _)).
Qed.
Lemma loads_take_length hs n : (length (loads (take n hs)) <= length (loads hs))%nat.
Proof. rewrite <- (take_drop n hs) at 2. unfold loads. rewrite filter_app, length_app. lia. Qed.

Lemma load_program f ehdr phoff hs :
  program_ok phoff hs -> room_for hs -> ehdr_at ehdr phoff (length hs) -> fh (k_host s0) -> kfd (file s0 f) = fd ->
  load_post hs (elf_load f i ehdr ph s0).
Proof.
  intros Hpg Hr Heh Hfh Hfd. pose proof Hpg as [(Po1 & Po2 & Po3 & Po4) Hhd _ _]. pose proof Heh as [(E1 & E2 & E3) _ Hoff _]. pose proof Hctx as [_ _ (Hs1 & Hs2 & Hs3) _ _ _].
  unfold elf_load. erewrite bind_Ok; [|apply ld64_ok; unfold addr_ok, EH_phoff, sizeof_ehdr, PGSIZE in *; rewrite !andb_true_iff, !Z.leb_le, Z.eqb_eq; split_and!; [lia|lia|dlia]].
  rewrite Hoff. assert (Hsp : sizeof_ph = 56) by done. rewrite (s32_small phoff) by lia.
  apply (kwhile_rule (load_inv phoff hs) (fun x => Z.of_nat (length hs) - x.1) (load_post hs)).
  - exists 0%nat, [], T0, l0. split_and!; [f_equal; lia|lia|by eapply loaded_start].
  - cbn. lia.
  - intros x s (n & qs & T & l & -> & Hn & Hl). rewrite (bind_Ok _ _ _ _ _ (read_phnum _ _ _ _ _ _ _ _ Hl Heh)).
    destruct (Z.ltb_spec (Z.of_nat n) (Z.of_nat (length hs))) as [Hlt|Hge].
    2:{ assert (n = length hs) as -> by lia. rewrite firstn_all in Hl. cbn. eauto. }
    destruct (lookup_lt_is_Some_2 hs n ltac:(lia)) as [h Hh]. rewrite u64_small by lia.
    pose proof (rf_count _ Hr). pose proof (loads_take_length hs n).
    destruct (read_header _ _ _ _ _ f (phoff + sizeof_ph * Z.of_nat n) h Hl) as (s1 & R1 & Hl1 & Hp1); [lia|done|lia|rewrite Hsp; dlia|lia|by apply Hhd|].
    rewrite (bind_Ok _ _ _ _ _ R1), Z.eqb_refl. cbn [negb].
    destruct (load_header f phoff hs n h qs s1 T l Hpg Hr Hfd Hh Hl1 Hp1) as (qs' & s' & T' & l' & E & Hl').
    rewrite (bind_Ok _ _ _ _ _ E), s32_small by lia. cbn. split; [|lia]. exists (S n), qs', T', l'. split_and!; [f_equal; lia|lia|done].
Qed.
End Program.
(* ------------------------------------------------------------------ *)
(** * load_file *)

(** the file is a program: its header, then [hs] *)
Record program_file (hs : list phdr) : Prop := {
  pf_size : sizeof_ehdr <= sz;
  pf_magic : load32 img EH_magic = ELF_MAGIC;
  pf_phnum : loadn 16 img EH_phnum = Z.of_nat (length hs);
  pf_program : program_ok (load64 img EH_phoff) hs
}.
Lemma room_for_stack s s1 i T l k stk ph hs :
  load_ctx s i T l stk ph -> room_for s i T l k hs -> k_procs s1 = k_procs s -> k_free_list s1 = k_free_list s ->
  k_free_mem_start_addr s1 = k_free_mem_start_addr s -> k_free_mem_end_addr s1 = k_free_mem_end_addr s ->
  same_outside {[stk]} (k_mem s) (k_mem s1) -> room_for s1 i T l k hs.
Proof.
  intros Hc [] Hp Hfl Hst Hen Ho. pose proof Hc as [_ Hinfo _ _ Hap _]. destruct (lc_out _ _ _ _ _ _ Hc stk (or_intror eq_refl)) as [O1 O2].
  assert (Hpr : proc s1 i = proc s i) by (unfold proc; by rewrite Hp).
  destruct (pt_ok_write _ s T l (k_mem s1) {[stk]} rf_pt0 Ho) as [(A1 & A2 & A3) Hlf]; [by apply disjoint_singleton_l|intros p Hin E%elem_of_singleton; by subst p|].
  assert (Hreg : forall j, (j < 256)%nat -> load64 (k_mem s1) (region (p_mapped_info (proc s i)) (Z.of_nat j) + MR_va) = load64 (k_mem s) (region (p_mapped_info (proc s i)) (Z.of_nat j) + MR_va)).
  { intros j Hj. apply Ho. rewrite (info_page _ _ _ _ _ _ Hc) by (done || unfold MR_va; lia). by rewrite elem_of_singleton. }
  split; rewrite ?Hpr; try done.
  - split_and!; [done| |done]. by apply (pa_frame (set_k_mem (k_mem s1) s)).
  - intros h a Hh Ha. rewrite Hlf. by apply (rf_unmapped0 h).
  - intros j Hj. rewrite Hreg by lia. by apply rf_used0.
  - intros j Hj. rewrite Hreg by lia. by apply rf_free0.
Qed.

(** elf_init fills the local header from the file *)
Lemma elf_init_spec s f i T l k stk ph ehdr hs :
  load_ctx s i T l stk ph -> room_for s i T l k hs -> program_file hs -> fh (k_host s) -> kfd (file s f) = fd ->
  ehdr mod 8 = 0 /\ stk <= ehdr /\ ehdr + sizeof_ehdr <= ph ->
  exists m h, elf_init f ehdr s = Ok EL_OK (set_k_host h (set_k_mem m s)) /\ fh h /\ same_outside {[stk]} (k_mem s) m /\
    load64 m (ehdr + EH_entry) = load64 img EH_entry /\ ehdr_at (set_k_host h (set_k_mem m s)) stk ph ehdr (load64 img EH_phoff) (length hs).
Proof.
  intros Hc Hr [Hsz Hmg Hpn _] Hh Hfd (E1 & E2 & E3). pose proof Hc as [_ _ Hstk (Hp1 & Hp2 & Hp3) _ _]. pose proof Hstk as (S1 & S2 & S3).
  unfold sizeof_ehdr, sizeof_ph in *.
  destruct (elf_fpread_spec s f ehdr 64 0) as (m & h & E & Hh' & Hs); try done; [unfold region_ok; lia|].
  assert (H8 : forall o, 0 <= o -> o + 8 <= 64 -> o mod 8 = 0 -> load64 m (ehdr + o) = load64 img o).
  { intros o H1 H2 H3. apply load64_bytes; [dlia..|]. intros j Hj. rewrite Hs, decide_True by lia. f_equal. lia. }
  exists m, h. split_and!; [| done| |by apply H8|].
  - unfold elf_init. change sizeof_ehdr with 64. rewrite (bind_Ok _ _ _ _ _ E). cbn [negb Z.eqb Pos.eqb].
    assert (Hm : load32 m (ehdr + EH_magic) = ELF_MAGIC).
    { rewrite <- Hmg. apply load32_bytes; [unfold EH_magic; dlia|done|]. intros j Hj. unfold EH_magic. rewrite Hs, decide_True by lia. f_equal. lia. }
    erewrite bind_Ok; [|apply ld32_ok; unfold addr_ok, EH_magic, PGSIZE in *; rewrite !andb_true_iff, !Z.leb_le, Z.eqb_eq; split_and!; [lia|lia|dlia]].
    cbn [k_mem set_k_host set_k_mem]. by rewrite Hm.
  - apply bytes_outside_page; [done|]. intros a Ha. rewrite Hs, decide_False; [done|]. lia.
  - split; cbn [k_mem set_k_host set_k_mem]; unfold sizeof_ehdr, sizeof_ph; [lia|lia|by apply H8|]. rewrite <- Hpn. unfold loadn. rewrite H8 by done. f_equal. unfold bit_off, EH_phnum. dlia.
Qed.
(** the program is in the address space of process [i], one page for each segment *)
Record program_loaded (s : kstate) (i : nat) (hs : list phdr) (k : nat) (T : gmap (list Z) Z) (qs : list Z) : Prop := {
  pl_pages : length qs = length hs;
  pl_bytes j h q : hs !! j = Some h -> qs !! j = Some q -> seg_bytes (k_mem s) q h;
  pl_leaf j h q a : hs !! j = Some h -> qs !! j = Some q -> 0 <= a < MAXVA -> page_of a = h_vaddr h -> leaf (k_mem s) T a = mkpte q perm_user_rwx;
  pl_region j h : hs !! j = Some h -> region_is (k_mem s) (p_mapped_info (proc s i)) (Z.of_nat (k + j)) (h_vaddr h) 1 (segment_type (h_flags h));
  pl_total : p_total_mapped_region (proc s i) = Z.of_nat (k + length hs)
}.
(** the entry point is stored in the trapframe *)
Lemma loaded_epc s0 i T0 l0 k stk ph hs qs s T l tf v :
  load_ctx s0 i T0 l0 stk ph -> (k + length hs <= 256)%nat -> p_total_mapped_region (proc s0 i) = Z.of_nat k -> loaded s0 i T0 l0 k stk ph hs qs s T l ->
  page_ok tf -> (tf ∉ table_pages T0) -> (tf ∉ l0) -> tf <> p_mapped_info (proc s0 i) -> 0 <= v < 2 ^ 64 ->
  let s' := set_k_mem (store64 (k_mem s) (tf + TF_epc) v) s in
  program_loaded s' i hs k T qs /\ pt_ok free_pages (p_pagetable (proc s0 i)) s' T l /\ load64 (k_mem s') (tf + TF_epc) = v /\
  (forall a, 0 <= a < MAXVA -> page_of a ∉ (h_vaddr <$> hs) -> leaf (k_mem s') T a = leaf (k_mem s0) T0 a).
Proof.
  intros Hc Hk Htot Hl Htf HtT Htl Hti Hv s'.
  assert (Ho : same_outside {[tf]} (k_mem s) (k_mem s')) by (eapply same_outside_mono; [|apply store64_outside]; by rewrite page_of_slot).
  assert (HtT' : tf ∉ table_pages T) by (intros Hin; by destruct (lo_tables _ _ _ _ _ _ _ _ _ _ _ _ Hl tf Hin)).
  assert (Htl' : tf ∉ l) by (destruct (lo_suffix _ _ _ _ _ _ _ _ _ _ _ _ Hl) as [u ->]; set_solver).
  destruct (pt_ok_write _ s T l (k_mem s') {[tf]} (lo_pt _ _ _ _ _ _ _ _ _ _ _ _ Hl) Ho) as [Hok Hlf]; [by apply disjoint_singleton_l|intros p Hin E%elem_of_singleton; by subst p|].
  assert (Hpi : p_mapped_info (proc s' i) = p_mapped_info (proc s0 i)) by (by apply (loaded_proc s0 i T0 l0 k stk ph Hc p_mapped_info _ _ _ _ _ Hl)).
  split_and!; [split|done| |].
  - apply Hl.
  - intros j h q Hj Hq. assert (Hin : q ∈ qs) by (by eapply list_elem_of_lookup_2). destruct (lo_page _ _ _ _ _ _ _ _ _ _ _ _ Hl q Hin) as (P1 & _ & _ & P4).
    eapply seg_bytes_eq; [done| |by eapply Hl]. intros a Ha. apply Ho. rewrite Ha. set_solver.
  - intros j h q a Hj Hq Ha Hp. rewrite Hlf. by eapply Hl.
  - intros j h Hj. rewrite Hpi. eapply (region_is_eq s0 i T0 l0 stk ph Hc); [|intros a Ha; apply Ho; rewrite Ha; set_solver|by apply Hl]. apply lookup_lt_Some in Hj. lia.
  - exact (loaded_total s0 i T0 l0 k stk ph Hc _ _ _ _ _ Hl Htot Hk).
  - cbn [s' k_mem set_k_mem]. rewrite load64_store64_eq. by apply u64_small.
  - intros a Ha Hn. rewrite Hlf. by apply Hl.
Qed.

(** closing a file that is in no descriptor slot only drops one reference *)
Lemma close_unbound s f :
  0 <= kfd (file s f) < 128 -> mjoin (k_spike_fds s !! Z.to_nat (kfd (file s f))) <> Some f -> refcnt (file s f) = 3 ->
  spike_file_close (Some f) s = Ok (-1) (updf f (set_refcnt 2) s).
Proof.
  intros Hr Hn H3. unfold spike_file_close. erewrite bind_Ok; [|apply getf_run].
  assert (E : cas_fd (kfd (file s f)) (Some f) None s = Ok (mjoin (k_spike_fds s !! Z.to_nat (kfd (file s f)))) s).
  { unfold cas_fd, get_fd. assert (fd_in_range (kfd (file s f)) = true) as -> by (unfold fd_in_range; rewrite andb_true_iff, Z.leb_le, Z.ltb_lt; change (Z.of_nat MAX_FDS) with 128; lia).
    erewrite bind_Ok; [|reflexivity]. by rewrite bool_decide_false. }
  rewrite (bind_Ok _ _ _ _ _ E), (bind_Ok _ _ _ _ _ (decref_spec s f ltac:(by rewrite H3))), H3. by rewrite bool_decide_false.
Qed.
(* ------------------------------------------------------------------ *)
(** * Properties *)

(** everything load_file does, its frame included *)
Lemma load_file_spec s f i T l k stk ehdr ph hs path name h :
  let tf := p_trapframe (proc s i) in
  load_ctx s i T l stk ph -> room_for s i T l k hs -> program_file hs ->
  ehdr mod 8 = 0 /\ stk <= ehdr /\ ehdr + sizeof_ehdr <= ph ->
  page_ok tf -> (tf ∉ table_pages T) -> (tf ∉ l) -> tf <> p_mapped_info (proc s i) ->
  cstr_at (k_mem s) path name -> length (k_spike_files s) = SpikeFile.MAX_FILES -> first_free_file s f ->
  open_request s path (Z.of_nat (length name)) O_RDONLY = (fd, k_mem s, h) -> fh h ->
  0 <= fd < 128 -> mjoin (k_spike_fds s !! Z.to_nat fd) <> Some f ->
  exists s' T' l' qs, load_file i path ehdr ph s = Ok tt s' /\
    pt_ok free_pages (p_pagetable (proc s i)) s' T' l' /\ program_loaded s' i (loads hs) k T' qs /\
    (forall a, 0 <= a < MAXVA -> page_of a ∉ (h_vaddr <$> loads hs) -> leaf (k_mem s') T' a = leaf (k_mem s) T a) /\
    load64 (k_mem s') (tf + TF_epc) = load64 img EH_entry /\ refcnt (file s' f) = 2 /\
    (forall g : process -> Z, (forall n p, g (set_p_total_mem_count n p) = g p) -> (forall x, g (count_region x) = g x) -> g (proc s' i) = g (proc s i)) /\
    (forall a, page_of a ∉ load_writes T l (p_mapped_info (proc s i)) stk -> a mod 8 = 0 -> a <> tf + TF_epc -> load64 (k_mem s') a = load64 (k_mem s) a) /\
    (forall p, p ∈ table_pages T' -> p ∈ table_pages T \/ p ∈ l) /\
    (forall (j : nat) v n t, (j < k)%nat -> region_is (k_mem s) (p_mapped_info (proc s i)) (Z.of_nat j) v n t -> region_is (k_mem s') (p_mapped_info (proc s i)) (Z.of_nat j) v n t).
Proof.
  intros tf Hc Hr Hpf Heh Htf HtT Htl Hti Hpath Hnf Hff Hreq Hh Hfd Hunb.
  destruct (openat_spec s path name O_RDONLY f fd (k_mem s) h Hpath Hnf Hff Hreq) as (s1 & E1 & [Hf1 Hfds1 Hm1 Hh1 Hs1]).
  rewrite s64_small, (proj2 (Z.leb_le _ _)) in E1, Hf1 by lia. rewrite s32_small in Hf1 by lia.
  assert (Hlt : (f < length (k_spike_files s))%nat) by (destruct Hff as ((x & Hx & _) & _); by eapply lookup_lt_Some).
  assert (Hfile1 : file s1 f = mkSpikeFile fd 3) by (unfold file; rewrite Hf1, list_lookup_insert_eq by done; done).
  assert (Hp1 : k_procs s1 = k_procs s) by (rewrite Hs1; done).
  assert (Hpr1 : proc s1 i = proc s i) by (unfold proc; by rewrite Hp1).
  assert (Hc1 : load_ctx s1 i T l stk ph) by (destruct Hc; split; rewrite ?Hpr1, ?Hp1; done).
  assert (Hr1 : room_for s1 i T l k hs) by (apply (room_for_stack s s1 i T l k stk ph hs Hc Hr); [done|by rewrite Hs1..|by rewrite Hm1]).
  destruct (elf_init_spec s1 f i T l k stk ph ehdr hs Hc1 Hr1 Hpf) as (m2 & h2 & E2 & Hh2 & Ho2 & Hen2 & Heh2); [by rewrite Hh1|by rewrite Hfile1|done|].
  set (s2 := set_k_host h2 (set_k_mem m2 s1)) in *.
  assert (Hc2 : load_ctx s2 i T l stk ph) by (destruct Hc1; by split).
  assert (Hr2 : room_for s2 i T l k hs) by (by apply (room_for_stack s1 s2 i T l k stk ph hs Hc1 Hr1)).
  pose proof (load_program s2 i T l k stk ph Hc2 f ehdr _ hs (pf_program _ Hpf) Hr2 Heh2 Hh2 ltac:(by rewrite (Hfile1 : file s2 f = _))) as Hld.
  destruct (elf_load f i ehdr ph s2) as [e s3| |] eqn:E3; [|done|done]. destruct Hld as (-> & qs & T3 & l3 & Hl3).
  assert (Htf3 : p_trapframe (proc s3 i) = tf).
  { rewrite (loaded_proc s2 i T l k stk ph Hc2 p_trapframe _ _ _ _ _ Hl3) by done. unfold tf. by rewrite <- Hpr1. }
  destruct Heh as (P1 & P2 & P3). pose proof Hc as [_ _ (S1 & S2 & S3) (Q1 & Q2 & Q3) _ _]. unfold sizeof_ehdr, sizeof_ph in *.
  assert (Hen3 : load64 (k_mem s3) (ehdr + EH_entry) = load64 img EH_entry).
  { rewrite <- Hen2. apply (lo_stack _ _ _ _ _ _ _ _ _ _ _ _ Hl3); unfold EH_entry; [apply page_of_in; [done|lia]|left; lia]. }
  destruct (loaded_epc s2 i T l k stk ph (loads hs) qs s3 T3 l3 tf (load64 img EH_entry)) as (Hpl & Hpt & Hepc & Hold);
    [done|by apply Hr|by apply Hr2|done|done|done|done|by rewrite (Hpr1 : proc s2 i = _)|apply load64_range|].
  set (s4 := set_k_mem _ s3) in *.
  assert (Hfile4 : file s4 f = mkSpikeFile fd 3) by (by rewrite <- Hfile1; apply (loaded_file s2 i T l k stk ph _ _ _ _ _ f Hl3)).
  assert (Hfds4 : k_spike_fds s4 = k_spike_fds s).
  { pose proof (lo_frame _ _ _ _ _ _ _ _ _ _ _ _ Hl3) as Hk. apply (f_equal k_spike_fds) in Hk. rewrite <- Hfds1. exact Hk. }
  exists (updf f (set_refcnt 2) s4), T3, l3, qs. split_and!; [|rewrite <- Hpr1; exact Hpt| | |exact Hepc| | | |exact (lo_tables _ _ _ _ _ _ _ _ _ _ _ _ Hl3)|].
  - unfold load_file. rewrite (bind_Ok _ _ _ _ _ E1), (bind_Ok _ _ _ _ _ E2). cbn [negb]. rewrite bool_decide_true by done. cbn [negb].
    rewrite (bind_Ok _ _ _ _ _ E3), bool_decide_true by done. cbn [negb].
    erewrite bind_Ok; [|apply ld64_ok; unfold addr_ok, EH_entry, PGSIZE in *; rewrite !andb_true_iff, !Z.leb_le, Z.eqb_eq; split_and!; [lia|lia|dlia]].
    rewrite Hen3. erewrite bind_Ok; [|reflexivity]. rewrite Htf3.
    erewrite bind_Ok; [|apply st64_ok, page_ok_addr; done]. fold s4.
    rewrite (bind_Ok _ _ _ (-1) (updf f (set_refcnt 2) s4)); [done|]. apply close_unbound; rewrite Hfile4; [done|by rewrite Hfds4|done].
  - destruct Hpl. by split.
  - intros a Ha Hn. etrans; [by apply Hold|]. destruct (lc_out _ _ _ _ _ _ Hc stk (or_intror eq_refl)) as [O1 O2].
    destruct (pt_ok_write _ s T l m2 {[stk]} (rf_pt _ _ _ _ _ _ Hr)) as [_ Hlf]; [by rewrite <- Hm1|by apply disjoint_singleton_l|intros p Hin E%elem_of_singleton; by subst p|].
    apply Hlf.
  - rewrite file_updf_eq; [done|]. unfold file in Hfile4. destruct (k_spike_files s4 !! f) eqn:Ef; [by eapply lookup_lt_Some|done].
  - intros g Hg1 Hg2. rewrite <- Hpr1. exact (loaded_proc s2 i T l k stk ph Hc2 g _ _ _ _ _ Hl3 Hg1 Hg2).
  - intros a Ha Hal Hne. change (load64 (k_mem s4) a = load64 (k_mem s) a). unfold s4. cbn [k_mem set_k_mem].
    rewrite load64_store64_ne by (destruct Htf; unfold TF_epc, PGSIZE in *; dlia).
    rewrite (lo_mem _ _ _ _ _ _ _ _ _ _ _ _ Hl3) by (by rewrite (Hpr1 : proc s2 i = _)). cbn [s2 k_mem set_k_mem set_k_host].
    rewrite Ho2, Hm1; [done|]. unfold load_writes in Ha. set_solver.
  - intros j v n t Hj Hrg. pose proof (rf_count _ _ _ _ _ _ Hr).
    apply (region_is_eq s i T l stk ph Hc (k_mem s3) (k_mem s4)); [lia| |].
    { intros a Ha. unfold s4. cbn [k_mem set_k_mem]. apply store64_outside. rewrite Ha, page_of_slot by done. set_solver. }
    rewrite <- Hpr1. apply (lo_regions _ _ _ _ _ _ _ _ _ _ _ _ Hl3); [done|]. change (proc s2 i) with (proc s1 i). rewrite Hpr1.
    apply (region_is_eq s i T l stk ph Hc (k_mem s) (k_mem s2)); [lia| |done].
    intros a Ha. cbn [s2 k_mem set_k_mem set_k_host]. rewrite Ho2, Hm1; [done|]. rewrite Ha. destruct Hc. set_solver.
Qed.

(** C22. Loading a program.  When the host opens the file and serves it, and the
    file is an ELF program whose loadable segments are shorter than a page, at
    distinct unmapped pages, load_file maps a page for every segment, filled with
    the bytes of the file and zeros after them, records and counts the segments
    in the region table, leaves every other address as it was and stores the entry
    point in the trapframe.  The file is not released: its slot keeps two
    references. *)
Theorem load_file_loads s f i T l k stk ehdr ph hs path name h :
  let tf := p_trapframe (proc s i) in
  load_ctx s i T l stk ph -> room_for s i T l k hs -> program_file hs ->
  ehdr mod 8 = 0 /\ stk <= ehdr /\ ehdr + sizeof_ehdr <= ph ->
  page_ok tf -> (tf ∉ table_pages T) -> (tf ∉ l) -> tf <> p_mapped_info (proc s i) ->
  cstr_at (k_mem s) path name -> length (k_spike_files s) = SpikeFile.MAX_FILES -> first_free_file s f ->
  open_request s path (Z.of_nat (length name)) O_RDONLY = (fd, k_mem s, h) -> fh h ->
  0 <= fd < 128 -> mjoin (k_spike_fds s !! Z.to_nat fd) <> Some f ->
  exists s' T' l' qs, load_file i path ehdr ph s = Ok tt s' /\
    pt_ok free_pages (p_pagetable (proc s i)) s' T' l' /\ program_loaded s' i (loads hs) k T' qs /\
    (forall a, 0 <= a < MAXVA -> page_of a ∉ (h_vaddr <$> loads hs) -> leaf (k_mem s') T' a = leaf (k_mem s) T a) /\
    load64 (k_mem s') (tf + TF_epc) = load64 img EH_entry /\ refcnt (file s' f) = 2.
Proof.
  intros. edestruct load_file_spec as (s' & T' & l' & qs & E & Hpt & Hpl & Hold & Hepc & Hf & _); [done..|]. by exists s', T', l', qs.
Qed.
End Load.

(* ------------------------------------------------------------------ *)
(** * Witnesses *)

(** a host with one file: a note header and a code segment of 16 bytes at
    0x10000, whose bytes are at offset 176 *)
Module DemoFile.
Definition put_phdr (a type flags off vaddr filesz memsz : Z) (m : gmap Z Z) : gmap Z Z :=
  store64 (store64 (store64 (store64 (store32 (store32 m (a + PH_type) type) (a + PH_flags) flags)
    (a + PH_off) off) (a + PH_vaddr) vaddr) (a + PH_filesz) filesz) (a + PH_memsz) memsz.
Definition img : gmap Z Z :=
  store64 (store64 (put_phdr 120 1 5 176 0x10000 16 16 (put_phdr 64 4 4 0 0 0 0
    (storen 16 (store64 (store64 (store32 ∅ EH_magic ELF_MAGIC) EH_entry 0x10000) EH_phoff 64) EH_phnum 2)))
    176 0x1234567890abcdef) 184 0x1111.
Definition size : Z := 192.
(** copying bytes of the file to memory *)
Definition deliver (a off : Z) (js : list nat) (m : gmap Z Z) : gmap Z Z :=
  foldr (fun j m => store8 m (a + Z.of_nat j) (load8 img (off + Z.of_nat j))) m js.
Definition answer (n : Z) (args : list Z) (m : gmap Z Z) (h : unit) : Z * gmap Z Z * unit :=
  match args with
  | fd :: a :: len :: off :: _ =>
      if n =? HTIFSYS_openat then (3, m, h)
      else if (n =? HTIFSYS_pread) && (fd =? 3) then (len, deliver a off (seq 0 (Z.to_nat len)) m, h)
      else (0, m, h)
  | _ => (0, m, h)
  end.
Definition platform : Platform := {|
  trap_sec_start := 0x80005000;
  smode_trap_vector := 0x80005004;
  smode_trap_handler_addr := 0x80001000;
  etext := 0x80010000;
  kernel_end := 0x80020000;
  link_addr := fun _ => 0x80001000;
  host_state := unit;
  host_call := answer
|}.
Lemma deliver_spec a off n m :
  forall b, load8 (deliver a off (seq 0 n) m) b = if decide (a <= b < a + Z.of_nat n) then load8 img (off + (b - a)) else load8 m b.
Proof.
  assert (H : forall k b, load8 (deliver a off (seq k n) m) b =
    if decide (a + Z.of_nat k <= b < a + Z.of_nat k + Z.of_nat n) then load8 img (off + (b - a)) else load8 m b).
  { induction n as [|n IH]; intros k b; [by rewrite decide_False by lia|]. cbn [seq deliver foldr]. rewrite load8_store8.
    fold (deliver a off (seq (S k) n) m). case_decide as E.
    - subst b. rewrite decide_True by lia. rewrite Z.mod_small by apply load8_range. f_equal. lia.
    - rewrite IH. case_decide; case_decide; try lia; done. }
  intros b. rewrite (H 0%nat). change (Z.of_nat 0) with 0. by rewrite !Z.add_0_r.
Qed.
#[global] Instance file : @HostFile platform (fun _ => True) 3 size img.
Proof.
  intros h m a n off _ (Hn & Ha & Hb) Ho Hs. exists (deliver a off (seq 0 (Z.to_nat n)) m), h.
  split_and!; [|done|intros b; rewrite deliver_spec, Z2Nat.id by lia; done].
  cbn [fmap list_fmap host_call platform answer]. change (u64 3) with 3. unfold size, PHYS_TOP, DRAM_BASE, PKE_MAX_ALLOWABLE_RAM in *.
  rewrite !u64_small by lia. done.
Qed.
Definition free : list Z := [0x80025000; 0x80026000; 0x80027000; 0x80028000].
(** process 0 has a trapframe, an empty page directory and a region table; the
    locals are at 0x80024000 and the path "a" at 0x80010000 *)
Definition state : @kstate platform :=
  updp 0 (fun p => set_p_pagetable 0x80021000 (set_p_trapframe 0x80022000 (set_p_mapped_info 0x80023000 p)))
    (@mkState platform (put_str 0x80010000 [97] (chain_mem free)) 0x80025000 0x80020000 0x80030000 0x100000 (replicate 32 null_proc) None None
      USER_FREE_ADDRESS_START 0 0 (fun _ => 0) 0 (replicate 10 0) (replicate 128 (mkSpikeFile (-1) 0)) (replicate 128 None) tt).
Definition headers : list phdr := [mkPhdr 4 4 0 0 0 0; mkPhdr 1 5 176 0x10000 16 16].

Lemma state_ctx : load_ctx state 0 (fresh_table 0x80021000) free 0x80024000 0x80024040.
Proof.
  split; [by apply Nat.ltb_lt|by vm_compute|by vm_compute|by vm_compute|by vm_compute|].
  intros p Hp. rewrite table_pages_fresh. change (p_mapped_info (proc state 0)) with 0x80023000 in Hp.
  by split; apply (bool_decide_unpack _); destruct Hp as [-> | ->]; vm_compute.
Qed.
(** words of memory that are zero *)
Lemma zero_words a n : forallb (fun j => load64 (k_mem state) (a + 8 * Z.of_nat j) =? 0) (seq 0 n) = true ->
  forall j, 0 <= j < Z.of_nat n -> load64 (k_mem state) (a + 8 * j) = 0.
Proof.
  intros H j Hj. rewrite forallb_forall in H. specialize (H (Z.to_nat j)). rewrite Z2Nat.id, Z.eqb_eq in H by lia. apply H. apply in_seq. lia.
Qed.
Lemma state_room : room_for state 0 (fresh_table 0x80021000) free 0 headers.
Proof.
  split.
  - split_and!.
    + apply pt_rep_fresh; [by vm_compute|]. apply (zero_words _ 512). by vm_compute.
    + split_and!; [by vm_compute|by apply (bool_decide_unpack _)|]. apply (bool_decide_unpack _). by vm_compute.
    + intros p Hp. rewrite table_pages_fresh, elem_of_singleton. intros ->. revert Hp. by apply (bool_decide_unpack _).
  - by apply Nat.leb_le.
  - intros h a _ _. by rewrite leaf_fresh.
  - by apply Nat.leb_le.
  - intros j Hj. lia.
  - intros j Hj. unfold region, sizeof_region, MR_va. change (p_mapped_info (proc state 0)) with 0x80023000.
    replace (0x80023000 + 16 * Z.of_nat j + 0) with (0x80023000 + 8 * (2 * Z.of_nat j)) by lia. apply (zero_words _ 512); [by vm_compute|lia].
  - done.
Qed.
Lemma program : @program_file size img headers.
Proof.
  split; [done|by vm_compute|by vm_compute|]. change (load64 img EH_phoff) with 64. split; [done| | |by apply (bool_decide_unpack _)].
  - intros [|[|j]] h Hj; [injection Hj as <-; split; by vm_compute|injection Hj as <-; split; by vm_compute|done].
  - apply Forall_singleton. split; try done. by left.
Qed.
End DemoFile.

Lemma load_file_loads_witness :
  exists s' T' l' qs, load_file 0 0x80010000 0x80024000 0x80024040 DemoFile.state = Ok tt s' /\
    @program_loaded DemoFile.platform DemoFile.img s' 0 (loads DemoFile.headers) 0 T' qs /\
    pt_ok free_pages 0x80021000 s' T' l' /\ load64 (k_mem s') (0x80022000 + TF_epc) = 0x10000.
Proof.
  destruct (@load_file_loads DemoFile.platform (fun _ => True) 3 DemoFile.size DemoFile.img DemoFile.file DemoFile.state 0 0 (fresh_table 0x80021000) DemoFile.free 0
    0x80024000 0x80024000 0x80024040 DemoFile.headers 0x80010000 [97] tt) as (s' & T' & l' & qs & E & Hpt & Hpl & _ & Hepc & _);
    [exact DemoFile.state_ctx|exact DemoFile.state_room|exact DemoFile.program|done|by vm_compute| | |done| |done| |by vm_compute|done|done|done|].
  - rewrite table_pages_fresh. by apply (bool_decide_unpack _).
  - by apply (bool_decide_unpack _).
  - apply cstr_check; by vm_compute.
  - split; [by eexists|lia].
  - exists s', T', l', qs. split_and!; [exact E|exact Hpl|exact Hpt|exact Hepc].
Defined.
