(* ===== verification/Argv.v ===== *)
(** kernel/elf.c, load_shell_bincode_from_host_elf: the arguments of a new
    program on its user stack.

    The stack page of the process is page [us], mapped at user address [vp]; a
    user address [va] of it is the physical address [us + (va - vp)]. *)

From S2P Require Import Prelude Machine Pmm StringC Vmm Sched Process Fork Elf.

Section Argv.
Context {PLAT : Platform}.

Section Stack.
Variables (root : Z) (T : gmap (list Z) Z) (us vp : Z).

(** the user stack: one page, not a page table *)
Record ustack (m : gmap Z Z) : Prop := {
  us_rep : pt_rep m T root;
  us_leaf a : page_of a = vp -> pte_pa (leaf m T a) = us;
  us_page : page_ok us;
  us_apart : us ∉ table_pages T;
  us_range : vp mod PGSIZE = 0 /\ 0 <= vp /\ vp + PGSIZE <= MAXVA
}.
Definition pa (va : Z) : Z := us + (va - vp).

Lemma ustack_outside m m' : ustack m -> same_outside {[us]} m m' -> ustack m'.
Proof.
  intros [] Ho. assert (Hd : {[us]} ## table_pages T) by (by apply disjoint_singleton_l).
  split; try done; [by eapply pt_rep_outside|]. intros a Ha. erewrite leaf_outside by done. by apply us_leaf0.
Qed.
Lemma ustack_pa s va : ustack (k_mem s) -> vp <= va < vp + PGSIZE -> user_va_to_pa root va s = Ok (pa va) s.
Proof.
  intros [Hr Hl Hp _ (H1 & H2 & H3)] Ha. assert (Hpg : page_of va = vp) by (by apply page_of_in).
  rewrite (translate_page root s T va us Hr) by (done || lia || by apply Hl). f_equal. unfold pa, PGSIZE in *. dlia.
Qed.
(** bytes outside [lo, hi) of the user stack are unchanged *)
Definition only (lo hi : Z) (m m' : gmap Z Z) : Prop := forall a, ~ (pa lo <= a < pa hi) -> load8 m' a = load8 m a.
Lemma only_trans lo mid hi m1 m2 m3 : lo <= mid <= hi -> only mid hi m1 m2 -> only lo mid m2 m3 -> only lo hi m1 m3.
Proof. intros Hr H1 H2 a Ha. rewrite H2, H1; [done|..]; unfold pa in *; lia. Qed.
Lemma only_page lo hi m m' : ustack m -> vp <= lo -> hi <= vp + PGSIZE -> only lo hi m m' -> same_outside {[us]} m m'.
Proof. intros [] H1 H2 H. apply bytes_outside_page; [apply us_page0|]. intros a Ha. apply H. unfold pa. lia. Qed.
Lemma only_cstr lo hi m m' p l : only lo hi m m' -> p + Z.of_nat (length l) < pa lo \/ pa hi <= p -> cstr m p l -> cstr m' p l.
Proof.
  intros H Hp [Hc H0]. split.
  - intros i c Hi. pose proof (lookup_lt_Some _ _ _ Hi). rewrite H by lia. by apply Hc.
  - rewrite H by lia. done.
Qed.
Lemma only_load64 lo hi m m' p : only lo hi m m' -> p mod 8 = 0 -> p + 8 <= pa lo \/ pa hi <= p -> load64 m' p = load64 m p.
Proof. intros H Hp Hd. apply load64_bytes; [done|done|]. intros i Hi. apply H. lia. Qed.

(** ** One push *)
Lemma push_string_spec s old sp name :
  ustack (k_mem s) -> vp <= sp - 8 -> sp <= vp + PGSIZE ->
  cstr_at (k_mem s) old name -> (length name < 8)%nat -> old + Z.of_nat (length name) < us \/ us + PGSIZE <= old ->
  exists m, push_string root old sp s = Ok (sp - 8) (set_k_mem m s) /\ only (sp - 8) sp (k_mem s) m /\ cstr m (pa (sp - 8)) name.
Proof.
  intros Hu H1 H2 Hc Hn Hd. pose proof Hu as [_ _ (P1 & P2 & P3) _ (R1 & R2 & R3)]. unfold MAXVA in *.
  destruct (strcpy_spec s (pa (sp - 8)) old name) as (m & E & Hm); [done|unfold region_ok, pa; lia|unfold pa; lia|].
  exists m. split_and!.
  - unfold push_string. rewrite u64_small by (unfold PGSIZE in *; lia). rewrite (bind_Ok _ _ _ _ _ (ustack_pa s (sp - 8) Hu ltac:(lia))). by rewrite (bind_Ok _ _ _ _ _ E).
  - intros a Ha. rewrite Hm, decide_False; [done|]. unfold pa in *. lia.
  - eapply copied_cstr; [exact Hm|apply Hc].
Qed.
Lemma push_word_spec s v sp :
  ustack (k_mem s) -> vp <= sp - 8 -> sp <= vp + PGSIZE -> sp mod 8 = 0 -> 0 <= v < 2 ^ 64 ->
  exists m, push_word root v sp s = Ok (sp - 8) (set_k_mem m s) /\ only (sp - 8) sp (k_mem s) m /\ load64 m (pa (sp - 8)) = v.
Proof.
  intros Hu H1 H2 Ha Hv. pose proof Hu as [_ _ (P1 & P2 & P3) _ (R1 & R2 & R3)]. unfold MAXVA in *.
  assert (Hal : pa (sp - 8) mod 8 = 0) by (unfold pa, PGSIZE in *; dlia).
  exists (store64 (k_mem s) (pa (sp - 8)) v). split_and!.
  - unfold push_word. rewrite u64_small by (unfold PGSIZE in *; lia). rewrite (bind_Ok _ _ _ _ _ (ustack_pa s (sp - 8) Hu ltac:(lia))).
    erewrite bind_Ok; [done|]. apply st64_ok. unfold addr_ok. rewrite !andb_true_iff, !Z.leb_le, Z.eqb_eq. unfold pa in *. split_and!; [lia|lia|done].
  - intros a Hn. unfold load8. apply loadn_store64_ne. unfold pa in *. dlia.
  - rewrite load64_store64_eq. by apply u64_small.
Qed.

(** ** Several pushes *)

(** a string of the old program: short, and not in the stack page *)
Definition arg_ok (m : gmap Z Z) (old : Z) (name : list Z) : Prop :=
  cstr_at m old name /\ (length name < 8)%nat /\ (old + Z.of_nat (length name) < us \/ us + PGSIZE <= old).
Lemma arg_ok_only lo hi m m' old name : only lo hi m m' -> vp <= lo -> hi <= vp + PGSIZE -> arg_ok m old name -> arg_ok m' old name.
Proof. intros Ho H1 H2 ((Hc & Hr) & Hl & Hd). split_and!; [|done|done]. split; [|done]. eapply only_cstr; [exact Ho| |done]. unfold pa. lia. Qed.

Lemma push_strings_spec s olds names sp :
  ustack (k_mem s) -> vp <= sp - 8 * Z.of_nat (length olds) -> sp <= vp + PGSIZE -> Forall2 (arg_ok (k_mem s)) olds names ->
  exists m addrs, push_strings root olds sp s = Ok (addrs, sp - 8 * Z.of_nat (length olds)) (set_k_mem m s) /\
    only (sp - 8 * Z.of_nat (length olds)) sp (k_mem s) m /\ length addrs = length olds /\
    (forall j va, addrs !! j = Some va -> va = sp - 8 * (Z.of_nat j + 1)) /\
    (forall j name, names !! j = Some name -> cstr m (pa (sp - 8 * (Z.of_nat j + 1))) name).
Proof.
  intros Hu Hlo Hhi Hall. revert s sp Hu Hlo Hhi Hall. revert names. induction olds as [|o olds IH]; intros names s sp Hu Hlo Hhi Hall.
  - inversion Hall; subst. exists (k_mem s), []. cbn [length push_strings] in *. rewrite Z.mul_0_r, Z.sub_0_r. split_and!; [by destruct s|done|done|done|done].
  - inversion Hall as [|? n ? names' (Hc & Hl & Hd) Hall']; subst. cbn [length] in *.
    destruct (push_string_spec s o sp n) as (m1 & E1 & Ho1 & Hc1); try done; try lia.
    assert (Hu1 : ustack m1) by (eapply ustack_outside; [done|]; eapply only_page; [done| | |exact Ho1]; lia).
    destruct (IH names' (set_k_mem m1 s) (sp - 8)) as (m2 & addrs & E2 & Ho2 & Hla & Had & Hcs); [done|lia|lia| |].
    { eapply Forall2_impl; [exact Hall'|]. intros o' n' Ha. eapply arg_ok_only; [exact Ho1|lia|lia|done]. }
    cbn [k_mem set_k_mem] in *. exists m2, (sp - 8 :: addrs).
    replace (sp - 8 * Z.of_nat (S (length olds))) with (sp - 8 - 8 * Z.of_nat (length olds)) by lia. split_and!.
    + cbn [push_strings]. rewrite (bind_Ok _ _ _ _ _ E1), (bind_Ok _ _ _ _ _ E2). done.
    + apply (only_trans _ (sp - 8) _ _ m1); [lia|done|done].
    + simpl. lia.
    + intros [|j] va Hj; [injection Hj as <-; lia|]. rewrite (Had j va Hj). lia.
    + intros [|j] name Hj; [injection Hj as <-|].
      * eapply only_cstr; [exact Ho2|right; unfold pa; lia|]. by replace (sp - 8 * (Z.of_nat 0 + 1)) with (sp - 8) by lia.
      * specialize (Hcs j name Hj). by replace (sp - 8 * (Z.of_nat (S j) + 1)) with (sp - 8 - 8 * (Z.of_nat j + 1)) by lia.
Qed.
Lemma push_words_spec s vs sp :
  ustack (k_mem s) -> vp <= sp - 8 * Z.of_nat (length vs) -> sp <= vp + PGSIZE -> sp mod 8 = 0 -> Forall (fun v => 0 <= v < 2 ^ 64) vs ->
  exists m, push_words root vs sp s = Ok (sp - 8 * Z.of_nat (length vs)) (set_k_mem m s) /\
    only (sp - 8 * Z.of_nat (length vs)) sp (k_mem s) m /\ (forall j v, vs !! j = Some v -> load64 m (pa (sp - 8 * (Z.of_nat j + 1))) = v).
Proof.
  intros Hu Hlo Hhi Hal Hall. revert s sp Hu Hlo Hhi Hal. induction Hall as [|v vs Hv Hall IH]; intros s sp Hu Hlo Hhi Hal.
  - exists (k_mem s). cbn [length push_words]. rewrite Z.mul_0_r, Z.sub_0_r. split_and!; [by destruct s|done|done].
  - cbn [length] in *. destruct (push_word_spec s v sp) as (m1 & E1 & Ho1 & Hl1); try done; try lia.
    assert (Hu1 : ustack m1) by (eapply ustack_outside; [done|]; eapply only_page; [done| | |exact Ho1]; lia).
    destruct (IH (set_k_mem m1 s) (sp - 8)) as (m2 & E2 & Ho2 & Hls); [done|lia|lia|dlia|].
    cbn [k_mem set_k_mem] in *. exists m2. replace (sp - 8 * Z.of_nat (S (length vs))) with (sp - 8 - 8 * Z.of_nat (length vs)) by lia. split_and!.
    + cbn [push_words]. rewrite (bind_Ok _ _ _ _ _ E1). exact E2.
    + apply (only_trans _ (sp - 8) _ _ m1); [lia|done|done].
    + intros [|j] w Hj; [injection Hj as <-|].
      * replace (sp - 8 * (Z.of_nat 0 + 1)) with (sp - 8) by lia. rewrite <- Hl1. eapply only_load64; [exact Ho2| |right; unfold pa; lia].
        destruct Hu as [_ _ (P1 & _) _ (R1 & _)]. unfold pa, PGSIZE in *. dlia.
      * specialize (Hls j w Hj). by replace (sp - 8 * (Z.of_nat (S j) + 1)) with (sp - 8 - 8 * (Z.of_nat j + 1)) by lia.
Qed.
End Stack.
(* ------------------------------------------------------------------ *)
(** * build_ustack *)

(** what main sees: [argv[t]], followed through the page table *)
Definition argv_string (s : kstate) (root argv t : Z) (name : list Z) : Prop :=
  exists pw ps, user_va_to_pa root (argv + 8 * t) s = Ok pw s /\
    user_va_to_pa root (load64 (k_mem s) pw) s = Ok ps s /\ cstr (k_mem s) ps name.
Definition argv_end (s : kstate) (root argv t : Z) : Prop :=
  exists pw pz, user_va_to_pa root (argv + 8 * t) s = Ok pw s /\
    user_va_to_pa root (load64 (k_mem s) pw) s = Ok pz s /\ load64 (k_mem s) pz = 0.

(** the argument vector in the stack page, as physical memory: every word points
    into the page, to a short string or, the last one, to a zero word *)
Record stack_args (m : gmap Z Z) (us vp argv : Z) (names : list (list Z)) : Prop := {
  sa_place : vp <= argv /\ argv + 8 * (Z.of_nat (length names) + 1) <= vp + PGSIZE /\ argv mod 8 = 0;
  sa_string (t : nat) name : names !! t = Some name -> (length name < 8)%nat /\
    exists w, load64 m (pa us vp (argv + 8 * Z.of_nat t)) = w /\ vp <= w /\ w + 8 <= vp + PGSIZE /\ cstr m (pa us vp w) name;
  sa_end : exists w, load64 m (pa us vp (argv + 8 * Z.of_nat (length names))) = w /\ vp <= w /\ w + 8 <= vp + PGSIZE /\ load64 m (pa us vp w) = 0
}.
Lemma stack_args_page m m' us vp argv names :
  page_ok us -> (forall a, page_of a = us -> load64 m' a = load64 m a) -> stack_args m us vp argv names -> stack_args m' us vp argv names.
Proof.
  intros Hus Hm [(P1 & P2 & P3) Hs (w & E1 & E2 & E3 & E4)].
  assert (Hpg : forall va, vp <= va < vp + PGSIZE -> load64 m' (pa us vp va) = load64 m (pa us vp va)).
  { intros va Hva. apply Hm. unfold pa. apply page_of_slot; [done|lia]. }
  split; [done| |exists w; rewrite !Hpg by (unfold PGSIZE in *; lia); done].
  intros t name Ht. pose proof (lookup_lt_Some _ _ _ Ht). destruct (Hs t name Ht) as (Hl & x & F1 & F2 & F3 & Hc & H0). split; [done|].
  exists x. rewrite Hpg by lia. split_and!; try done.
  assert (Hb : forall o, 0 <= o < 8 -> load8 m' (pa us vp x + o) = load8 m (pa us vp x + o)).
  { intros o Ho. unfold load8, loadn. f_equal. replace (pa us vp x + o) with (pa us vp (x + o)) by (unfold pa; lia). apply Hpg. lia. }
  split; [intros j c Hj; pose proof (lookup_lt_Some _ _ _ Hj)|]; rewrite Hb by lia; [by apply Hc|done].
Qed.
(** what main sees of it *)
Lemma stack_args_argv s root T us vp argv names :
  ustack root T us vp (k_mem s) -> stack_args (k_mem s) us vp argv names ->
  (forall (t : nat) name, names !! t = Some name -> argv_string s root argv (Z.of_nat t) name) /\ argv_end s root argv (Z.of_nat (length names)).
Proof.
  intros Hu [(P1 & P2 & P3) Hs (w & E1 & E2 & E3 & E4)]. split.
  - intros t name Ht. pose proof (lookup_lt_Some _ _ _ Ht). destruct (Hs t name Ht) as (Hl & x & F1 & F2 & F3 & Hc).
    exists (pa us vp (argv + 8 * Z.of_nat t)), (pa us vp x). rewrite F1. split_and!; [apply (ustack_pa root T); [done|lia]..|done].
  - exists (pa us vp (argv + 8 * Z.of_nat (length names))), (pa us vp w). rewrite E1. split_and!; [apply (ustack_pa root T); [done|lia]..|done].
Qed.

(** the words and strings on the stack, as physical memory *)
Lemma push_argv s root T us vp olds names sp :
  ustack root T us vp (k_mem s) -> let n := Z.of_nat (length olds) in
  vp <= sp - 8 * (2 * n + 2) -> sp <= vp + PGSIZE -> sp mod 8 = 0 -> Forall2 (arg_ok us (k_mem s)) olds names ->
  exists m addrs, push_strings root olds sp s = Ok (addrs, sp - 8 * n) (set_k_mem m s) /\
  exists m1, push_word root 0 (sp - 8 * n) (set_k_mem m s) = Ok (sp - 8 * (n + 1)) (set_k_mem m1 s) /\
  exists m2, push_words root (sp - 8 * (n + 1) :: reverse addrs) (sp - 8 * (n + 1)) (set_k_mem m1 s) = Ok (sp - 8 * (2 * n + 2)) (set_k_mem m2 s) /\
    same_outside {[us]} (k_mem s) m2 /\
    (forall t name, names !! t = Some name -> cstr m2 (pa us vp (sp - 8 * (Z.of_nat t + 1))) name) /\
    load64 m2 (pa us vp (sp - 8 * (n + 1))) = 0 /\ load64 m2 (pa us vp (sp - 8 * (n + 2))) = sp - 8 * (n + 1) /\
    (forall t, 0 <= t < n -> load64 m2 (pa us vp (sp - 8 * (2 * n + 2) + 8 * t)) = sp - 8 * (t + 1)).
Proof.
  intros Hu n Hlo Hhi Hal Hall. pose proof Hu as [_ _ Hpg _ (R1 & R2 & R3)]. unfold MAXVA in R3. assert (Hn : n = Z.of_nat (length olds)) by done. clearbody n.
  destruct (push_strings_spec root T us vp s olds names sp Hu) as (m & addrs & E & Ho & Hla & Had & Hcs); [lia|done|done|]. rewrite <- Hn in E, Ho.
  assert (Hu0 : ustack root T us vp m) by (eapply ustack_outside; [done|]; eapply only_page; [done| | |exact Ho]; lia).
  destruct (push_word_spec root T us vp (set_k_mem m s) 0 (sp - 8 * n)) as (m1 & E1 & Ho1 & Hz1); [done|lia|lia|dlia|done|].
  replace (sp - 8 * n - 8) with (sp - 8 * (n + 1)) in * by lia. cbn [k_mem set_k_mem] in *.
  assert (Hu1 : ustack root T us vp m1) by (eapply ustack_outside; [exact Hu0|]; eapply only_page; [done| | |exact Ho1]; lia).
  assert (Hlen : length (sp - 8 * (n + 1) :: reverse addrs) = S (length olds)) by (cbn [length]; by rewrite length_reverse, Hla).
  destruct (push_words_spec root T us vp (set_k_mem m1 s) (sp - 8 * (n + 1) :: reverse addrs) (sp - 8 * (n + 1))) as (m2 & E2 & Ho2 & Hw);
    [done|rewrite Hlen; lia|lia|dlia| |].
  { constructor; [unfold PGSIZE in *; lia|]. apply Forall_forall. intros v Hv%elem_of_reverse%list_elem_of_lookup_1. destruct Hv as [j Hj].
    rewrite reverse_involutive in Hj. pose proof (lookup_lt_Some _ _ _ Hj).
    rewrite (Had j v Hj). unfold PGSIZE in *. lia. }
  rewrite Hlen in E2, Ho2. assert (Heq : sp - 8 * (n + 1) - 8 * Z.of_nat (S (length olds)) = sp - 8 * (2 * n + 2)) by lia. rewrite Heq in E2, Ho2. cbn [k_mem set_k_mem] in *.
  assert (Ho12 : only us vp (sp - 8 * (2 * n + 2)) (sp - 8 * n) m m2) by (apply (only_trans us vp _ (sp - 8 * (n + 1)) _ _ m1); [lia|done|done]).
  exists m, addrs. split; [exact E|]. exists m1. split; [exact E1|]. exists m2. split_and!; [exact E2|..].
  - apply (only_page root T us vp (sp - 8 * (2 * n + 2)) sp); [done|lia|lia|]. apply (only_trans us vp _ (sp - 8 * n) _ _ m); [lia|done|done].
  - intros t name Ht. eapply only_cstr; [exact Ho12| |by apply Hcs]. right. pose proof (lookup_lt_Some _ _ _ Ht) as Hlt.
    rewrite <- (Forall2_length _ _ _ Hall) in Hlt. unfold pa. lia.
  - rewrite <- Hz1. eapply only_load64; [exact Ho2| |right; unfold pa; lia]. destruct Hpg as (P1 & _). unfold pa, PGSIZE in *. dlia.
  - specialize (Hw 0%nat _ eq_refl). by replace (sp - 8 * (n + 1) - 8 * (Z.of_nat 0 + 1)) with (sp - 8 * (n + 2)) in Hw by lia.
  - intros t Ht. assert (Hj : reverse addrs !! (length olds - 1 - Z.to_nat t)%nat = Some (sp - 8 * (t + 1))).
    { destruct (lookup_lt_is_Some_2 addrs (Z.to_nat t)) as [v Hv]; [lia|]. rewrite reverse_lookup by lia.
      replace (length addrs - S (length olds - 1 - Z.to_nat t))%nat with (Z.to_nat t) by lia. rewrite Hv. f_equal. rewrite (Had _ _ Hv). lia. }
    specialize (Hw (S (length olds - 1 - Z.to_nat t)) _ Hj).
    by replace (sp - 8 * (n + 1) - 8 * (Z.of_nat (S (length olds - 1 - Z.to_nat t)) + 1)) with (sp - 8 * (2 * n + 2) + 8 * t) in Hw by lia.
Qed.
(** The arguments of a new program.  With the stack page of the process
    mapped at [vp], and argument strings of at most seven characters outside
    that page, build_ustack leaves argc in a0 and argv in a1 and sp: every
    [argv[t]] points to a copy of argument [t] and [argv[argc]] to a zero word;
    only the stack page and the trapframe are written. *)
Lemma build_ustack_spec s i T us vp olds names :
  let root := p_pagetable (proc s i) in
  let tf := p_trapframe (proc s i) in
  let sp := load64 (k_mem s) (tf + TF_sp) in
  let n := Z.of_nat (length olds) in
  let argv := sp - 8 * (2 * n + 2) in
  ustack root T us vp (k_mem s) -> vp <= argv -> sp <= vp + PGSIZE -> sp mod 8 = 0 ->
  Forall2 (arg_ok us (k_mem s)) olds names -> page_ok tf -> (tf ∉ table_pages T) -> tf <> us ->
  exists m, build_ustack i olds s = Ok tt (set_k_mem m s) /\ same_outside {[us; tf]} (k_mem s) m /\
    load64 m (tf + TF_sp) = argv /\ load64 m (tf + TF_a0) = n /\ load64 m (tf + TF_a1) = argv /\
    stack_args m us vp argv names.
Proof.
  intros root tf sp n argv Hu Hlo Hhi Hal Hall Htf HtT Hne. pose proof Hu as [_ _ Hpg _ (R1 & R2 & R3)].
  destruct (push_argv s root T us vp olds names sp Hu Hlo Hhi Hal Hall) as (m & addrs & E & m1 & E1 & m2 & E2 & Ho2 & Hcs & Hz & Hlast & Hws). fold n in E, E1, E2, Hz, Hlast, Hws.
  fold argv in E2, Hws. assert (Hn : n = Z.of_nat (length olds)) by done. assert (Hav : argv = sp - 8 * (2 * n + 2)) by done. clearbody n argv.
  assert (Htal : tf mod 8 = 0) by (destruct Htf; unfold PGSIZE in *; dlia).
  assert (Hrange : 0 <= argv < 2 ^ 64 /\ 0 <= n < 2 ^ 64) by (unfold MAXVA, PGSIZE in *; lia).
  set (m3 := store64 (store64 (store64 m2 (tf + TF_sp) argv) (tf + TF_a0) n) (tf + TF_a1) argv).
  assert (Ho3 : same_outside {[tf]} m2 m3).
  { unfold m3. repeat (etrans; [|eapply same_outside_mono; [|apply store64_outside]; rewrite page_of_slot by done; done]). done. }
  assert (Hln : length names = length olds) by (symmetry; by eapply Forall2_length).
  exists m3. split_and!.
  - unfold build_ustack. erewrite bind_Ok; [|reflexivity]. erewrite bind_Ok; [|reflexivity]. fold root tf.
    erewrite bind_Ok; [|apply ld64_ok, page_ok_addr; done]. fold sp. rewrite (bind_Ok _ _ _ _ _ E). cbn [fst snd].
    rewrite (bind_Ok _ _ _ _ _ E1), (bind_Ok _ _ _ _ _ E2). do 2 (erewrite bind_Ok; [|apply st64_ok, page_ok_addr; done]). rewrite <- Hn.
    rewrite st64_ok by (apply page_ok_addr; done). done.
  - etrans; [eapply same_outside_mono; [|exact Ho2]; set_solver|]. eapply same_outside_mono; [|exact Ho3]. set_solver.
  - unfold m3. rewrite !load64_store64_ne, load64_store64_eq by (unfold TF_sp, TF_a0, TF_a1; dlia). apply u64_small. lia.
  - unfold m3. rewrite load64_store64_ne, load64_store64_eq by (unfold TF_a0, TF_a1; dlia). apply u64_small. lia.
  - unfold m3. rewrite load64_store64_eq. apply u64_small. lia.
  - apply (stack_args_page m2); [done|intros a Ha; apply Ho3; rewrite Ha; set_solver|]. split; rewrite ?Hln, <- ?Hn.
    + split_and!; [lia|lia|dlia].
    + intros t name Ht. pose proof (lookup_lt_Some _ _ _ Ht) as Hlt. split; [destruct (Forall2_lookup_r _ _ _ _ _ Hall Ht) as (o & _ & _ & ? & _); done|].
      eexists. split; [apply Hws; lia|]. split_and!; [lia|lia|by apply Hcs].
    + exists (sp - 8 * (n + 1)). replace (argv + 8 * n) with (sp - 8 * (n + 2)) by lia. split_and!; [done|lia|lia|done].
Qed.
End Argv.
