(* ===== verification/Exec.v ===== *)
(** exec: kernel/process.c, realloc_process and do_exec, with
    load_shell_bincode_from_host_elf of kernel/elf.c.

    realloc_process gives back the pages of the old program and builds the
    initial address space; the arguments go on the new stack ([Argv]) and the
    program is loaded from its file ([Load]). *)

From S2P Require Import Prelude Machine Pmm StringC Vmm Sched SpikeFile File Process Fork Elf Load Argv.

Section Exec.
Context {PLAT : Platform}.

(* ------------------------------------------------------------------ *)
(** * realloc_process *)

(** the address space of a live process: its page directory and the pages of its
    stack, trapframe and data regions are its own *)
Definition own_pages (s : kstate) (i : nat) (T : gmap (list Z) Z) (rs : list rgn) : list Z :=
  p_pagetable (proc s i) :: released (k_mem s) T rs.
Record live_space (s : kstate) (i : nat) (T : gmap (list Z) Z) (l : list Z) (rs : list rgn) : Prop := {
  lv_pt : pt_ok free_pages (p_pagetable (proc s i)) s T l;
  lv_regions : regions_ok (k_mem s) T (p_mapped_info (proc s i)) rs;
  lv_total : p_total_mapped_region (proc s i) = Z.of_nat (length rs);
  lv_nodup : NoDup (own_pages s i T rs);
  lv_owned p : p ∈ own_pages s i T rs ->
    freeable s p /\ page_ok p /\ (p ∉ l) /\ (p ∈ table_pages T -> p = p_pagetable (proc s i));
  lv_info : (p_mapped_info (proc s i) ∉ table_pages T) /\ (p_mapped_info (proc s i) ∉ own_pages s i T rs) /\ (p_mapped_info (proc s i) ∉ l)
}.

(** one update after another *)
Lemma kframe_updp2 i f g s s1 s2 :
  blind f -> kframe (updp i g s) s1 -> kframe (updp i f s1) s2 -> kframe (updp i (fun p => f (g p)) s) s2.
Proof.
  intros Hf H1 H2. etrans; [|exact H2]. etrans; [|apply (kframe_updp i f _ _ Hf H1)].
  unfold kframe, strip, updp. cbn. by rewrite alter_alter.
Qed.

(** the process after realloc_process, but for the memory accounting *)
Definition reset_proc (tf pt : Z) (p : process) : process :=
  set_p_total_tick_count 0 (set_p_tick_count 0 (set_p_total_mapped_region 3 (set_p_pagetable pt (set_p_trapframe tf p)))).

(** what realloc_process leaves: [tf], the trapframe, is the page of the old page
    directory; [pt] and [us], directory and stack, were free or are given back *)
Record fresh_space (s s' : kstate) (i : nat) (T' : gmap (list Z) Z) (tf pt us : Z) (rest l' : list Z) : Prop := {
  fs_frame : kframe (updp i (reset_proc tf pt) s) s';
  fs_pt : pt_ok free_pages pt s' T' l';
  fs_suffix : l' `suffix_of` rest;
  fs_length : (length rest <= length l' + 6)%nat;
  fs_tables q : q ∈ table_pages T' -> q = pt \/ q ∈ rest;
  fs_regions : initial_regions (k_mem s') (p_mapped_info (proc s i)) tf;
  fs_unused j : 3 <= j < 256 -> load64 (k_mem s') (region (p_mapped_info (proc s i)) j + MR_va) = 0;
  fs_leaf a : 0 <= a < MAXVA -> leaf (k_mem s') T' a = initial_leaf tf us a;
  fs_sp : load64 (k_mem s') (tf + TF_sp) = USER_STACK_TOP
}.

(** the first half: everything is given back *)
Lemma release_space s i T l rs :
  live_space s i T l rs ->
  exists s' l1, (forall A (k : K A), (for_regions i (unmap_region i) ;;; old <- getp i p_pagetable ;; free_page old ;;; k) s = k s') /\
    free_pages s' (p_pagetable (proc s i) :: l1) /\ l1 ≡ₚ released (k_mem s) T rs ++ l /\ kframe s s' /\
    same_outside (table_pages T ∪ list_to_set (own_pages s i T rs)) (k_mem s) (k_mem s').
Proof.
  intros [Hok Hrs Htot Hnd Hown (I1 & I2 & _)]. unfold own_pages in *. apply NoDup_cons in Hnd as [Hpt Hnd].
  destruct (unmap_regions_spec s i T l rs) as (s1 & l1 & E1 & (_ & Hf1 & _) & Hl1 & Hk1 & Hm1); try done; [set_solver| |].
  { intros p Hp. destruct (Hown p) as (F1 & F2 & F3 & F4); [set_solver|]. split_and!; try done. intros Hx. apply F4 in Hx. by subst p. }
  destruct (Hown (p_pagetable (proc s i))) as (P1 & P2 & P3 & _); [set_solver|].
  destruct (free_page_spec s1 (p_pagetable (proc s i)) l1 Hf1) as (s2 & E2 & Hf2 & Hk2 & Hm2);
    [by eapply freeable_frame|done|rewrite Hl1; set_solver|].
  exists s2, l1. split_and!; [|done|done|by etrans|].
  - intros A k. rewrite (bind_Ok _ _ _ _ _ E1). erewrite bind_Ok; [|reflexivity]. rewrite (kframe_proc p_pagetable s s1 i) by done.
    by rewrite (bind_Ok _ _ _ _ _ E2).
  - etrans; (eapply same_outside_mono; [|eassumption]); cbn [list_to_set list_to_set_disj]; set_solver.
Qed.
Lemma region_is_zero m info j : page_ok info -> 0 <= j < 256 -> (forall k, 0 <= k < 512 -> load64 m (info + 8 * k) = 0) -> region_is m info j 0 0 0.
Proof.
  intros [Ha _] Hj Hz. assert (Hw : forall o, 0 <= o < 16 -> load64 m (info + 16 * j + o) = 0).
  { intros o Ho. rewrite load64_align. replace (8 * ((info + 16 * j + o) / 8)) with (info + 8 * (2 * j + o / 8)) by (unfold PGSIZE in *; dlia). apply Hz. dlia. }
  unfold region_is, load32, loadn, region, sizeof_region, MR_va, MR_npages, MR_seg_type, get_field. rewrite !Hw by lia. by rewrite !Z.shiftr_0_l.
Qed.
Lemma kframe_mem_count i v s : kframe s (updp i (set_p_total_mem_count v) s).
Proof.
  apply kframe_procs. apply list_eq. intros j. change (map ?g ?l) with (g <$> l). rewrite !list_lookup_fmap.
  destruct (decide (i = j)) as [->|Hne]; [|by rewrite list_lookup_alter_ne]. rewrite list_lookup_alter_eq. by destruct (k_procs s !! j).
Qed.

(** the new trapframe, page directory and user stack, and a cleared region table *)
Definition new_pages (i : nat) : K Z :=
  tf <- alloc_page ;; setp i (set_p_trapframe tf) ;;;
  memset tf 0 TF_size ;;;
  pt <- alloc_page ;; setp i (set_p_pagetable pt) ;;;
  memset pt 0 PGSIZE ;;;
  user_stack <- alloc_page ;;
  st64 (tf + TF_sp) USER_STACK_TOP ;;;
  info <- getp i p_mapped_info ;;
  memset info 0 PGSIZE ;;;
  ret user_stack.

Lemma new_pages_spec s i tf pt us rest :
  let info := p_mapped_info (proc s i) in
  (i < length (k_procs s))%nat -> free_pages s (tf :: pt :: us :: rest) -> page_ok info -> info ∉ tf :: pt :: us :: rest -> tf <> trap_sec_start ->
  exists s', new_pages i s = Ok us s' /\ space_ok s' i rest /\ kframe (updp i (fun p => set_p_pagetable pt (set_p_trapframe tf p)) s) s' /\
    same_outside {[tf; pt; info]} (k_mem s) (k_mem s') /\ load64 (k_mem s') (tf + TF_sp) = USER_STACK_TOP /\
    (forall k, 0 <= k < 512 -> load64 (k_mem s') (info + 8 * k) = 0).
Proof.
  intros info Hi Hf Hinfo Hni Htv. destruct (pa_pages _ _ Hf) as [Hnd Hoks]. apply NoDup_cons in Hnd as [N1 Hnd]. apply NoDup_cons in Hnd as [N2 Hnd]. apply NoDup_cons in Hnd as [N3 _].
  apply Forall_cons in Hoks as [Htf Hoks]. apply Forall_cons in Hoks as [Hpt Hoks]. apply Forall_cons in Hoks as [Hus _].
  destruct (pa_alloc _ _ _ Hf) as (s1 & E1 & Hf1 & Hk1 & Hm1). set (s1' := updp i (set_p_trapframe tf) s1).
  destruct (memset_spec s1' tf 0 TF_size) as (m2 & E2 & Hfill); [destruct Htf as (? & ? & ?); unfold region_ok, TF_size, PGSIZE in *; lia|].
  assert (Ho2 : same_outside {[tf]} (k_mem s) m2).
  { rewrite <- Hm1. apply bytes_outside_page; [apply Htf|]. intros a Ha. rewrite Hfill, decide_False; [done|]. unfold TF_size, PGSIZE in *. lia. }
  assert (Hf2 : free_pages (set_k_mem m2 s1') (pt :: us :: rest)) by (apply (pa_write s1' _ m2 {[tf]}); [done|by rewrite <- Hm1 in Ho2|set_solver]).
  destruct (pa_alloc _ _ _ Hf2) as (s3 & E3 & Hf3 & Hk3 & Hm3). cbn [k_mem set_k_mem] in Hm3. set (s3' := updp i (set_p_pagetable pt) s3).
  destruct (memset_page s3' pt Hpt) as (m4 & E4 & Ho4 & Hz4).
  assert (Hf4 : free_pages (set_k_mem m4 s3') (us :: rest)) by (apply (pa_write s3' _ m4 {[pt]}); [done|done|set_solver]).
  destruct (pa_alloc _ _ _ Hf4) as (s5 & E5 & Hf5 & Hk5 & Hm5). cbn [k_mem set_k_mem] in Hm5.
  set (m6 := store64 m4 (tf + TF_sp) USER_STACK_TOP).
  assert (Ho6 : same_outside {[tf]} m4 m6) by (eapply same_outside_mono; [|apply store64_outside]; by rewrite page_of_slot).
  destruct (memset_page (set_k_mem m6 s5) info Hinfo) as (m7 & E7 & Ho7 & Hz7). cbn [k_mem set_k_mem] in Ho7.
  assert (Hk : kframe (updp i (fun p => set_p_pagetable pt (set_p_trapframe tf p)) s) s5).
  { etrans; [|exact Hk5]. eapply (kframe_updp2 i (set_p_pagetable pt) (set_p_trapframe tf) s s3); [solve_blind| |done].
    etrans; [exact (kframe_updp i (set_p_trapframe tf) s s1 ltac:(solve_blind) Hk1)|exact Hk3]. }
  assert (Hpr : proc (updp i (fun p => set_p_pagetable pt (set_p_trapframe tf p)) s) i = set_p_pagetable pt (set_p_trapframe tf (proc s i))) by (by rewrite proc_updp_eq).
  set (s7 := set_k_mem m7 s5) in *.
  assert (Gi : p_mapped_info (proc s7 i) = info) by (change (proc s7 i) with (proc s5 i); rewrite (kframe_proc p_mapped_info _ _ i ltac:(done) Hk), Hpr; done).
  assert (Gt : p_trapframe (proc s7 i) = tf) by (change (proc s7 i) with (proc s5 i); rewrite (kframe_proc p_trapframe _ _ i ltac:(done) Hk), Hpr; done).
  assert (Gp : p_pagetable (proc s7 i) = pt) by (change (proc s7 i) with (proc s5 i); rewrite (kframe_proc p_pagetable _ _ i ltac:(done) Hk), Hpr; done).
  exists s7. split_and!; [|split|exact Hk| | |].
  - unfold new_pages. rewrite (bind_Ok _ _ _ _ _ E1), (bind_Ok _ _ _ _ _ (setp_run _ _ _)), (bind_Ok _ _ _ _ _ E2), (bind_Ok _ _ _ _ _ E3), (bind_Ok _ _ _ _ _ (setp_run _ _ _)),
      (bind_Ok _ _ _ _ _ E4), (bind_Ok _ _ _ _ _ E5). erewrite bind_Ok; [|apply st64_ok, page_ok_addr; done]. rewrite Hm5. fold m6.
    erewrite bind_Ok; [|reflexivity]. change (p_mapped_info (proc (set_k_mem m6 s5) i)) with (p_mapped_info (proc s7 i)). rewrite Gi. by rewrite (bind_Ok _ _ _ _ _ E7).
  - rewrite Gp. split_and!.
    + apply pt_rep_fresh; [done|]. intros k Hkr. cbn [s7 k_mem set_k_mem]. rewrite Ho7, Ho6; [by apply Hz4|..]; rewrite page_of_slot by (done || (unfold PGSIZE; lia)); set_solver.
    + apply (pa_write s5 _ m7 {[tf; info]}); [done| |set_solver]. rewrite Hm5. etrans; [eapply same_outside_mono; [|exact Ho6]; set_solver|]. eapply same_outside_mono; [|exact Ho7]; set_solver.
    + intros p Hp. rewrite table_pages_fresh. set_solver.
  - by rewrite Gi.
  - rewrite Gi, Gp. set_solver.
  - rewrite Gi. set_solver.
  - by rewrite Gt.
  - by rewrite Gt.
  - cbn [s7 k_mem set_k_mem]. etrans; [eapply same_outside_mono; [|exact Ho2]; set_solver|]. rewrite <- Hm3.
    etrans; [eapply same_outside_mono; [|exact Ho4]; set_solver|]. etrans; [eapply same_outside_mono; [|exact Ho6]; set_solver|]. eapply same_outside_mono; [|exact Ho7]; set_solver.
  - cbn [s7 k_mem set_k_mem]. rewrite Ho7 by (rewrite page_of_slot by done; set_solver). unfold m6. by rewrite load64_store64_eq.
  - exact Hz7.
Qed.
(** the code, with its second half as above *)
Lemma realloc_split i s :
  realloc_process i s = (for_regions i (unmap_region i) ;;; old <- getp i p_pagetable ;; free_page old ;;;
    us <- new_pages i ;; map_initial i us ;;;
    setp i (set_p_total_mapped_region 3) ;;; setp i (set_p_tick_count 0) ;;; setp i (set_p_total_tick_count 0) ;;; setp i (set_p_total_mem_count 3)) s.
Proof.
  unfold realloc_process, new_pages.
  do 3 (apply bind_ext; intros ? ? _). do 10 (rewrite bind_assoc; apply bind_ext; intros ? ? _). done.
Qed.
(** The old program is discarded: realloc_process gives back the page
    directory and the pages of the stack, trapframe and data regions, and builds
    the initial address space, and nothing but it, from free pages: a new stack, a
    cleared trapframe with the stack pointer at the top (in the page of the old
    directory), an empty region table but for the three initial regions. *)
Lemma realloc_spec s i T l rs :
  let tf := p_pagetable (proc s i) in
  (i < length (k_procs s))%nat -> live_space s i T l rs -> page_ok trap_sec_start -> tf <> trap_sec_start ->
  (8 <= length (released (k_mem s) T rs ++ l))%nat ->
  exists s' T' pt us rest l', realloc_process i s = Ok tt s' /\
    pt :: us :: rest ≡ₚ released (k_mem s) T rs ++ l /\ fresh_space s s' i T' tf pt us rest l' /\
    same_outside (table_pages T ∪ list_to_set (p_mapped_info (proc s i) :: tf :: released (k_mem s) T rs ++ l)) (k_mem s) (k_mem s').
Proof.
  intros tf Hi Hlv Htr Hne Hlen. destruct (release_space s i T l rs Hlv) as (s1 & l1 & E1 & Hf1 & Hl1 & Hk1 & Hm1).
  destruct l1 as [|pt [|us rest]]; [apply Permutation_length in Hl1; cbn in *; lia..|].
  destruct Hlv as [_ Hrs _ _ Hown (I1 & I2 & I3)]. set (info := p_mapped_info (proc s i)) in *.
  assert (Hinfo1 : p_mapped_info (proc s1 i) = info) by (by apply (kframe_proc p_mapped_info)).
  assert (Hi1 : (i < length (k_procs s1))%nat).
  { apply (f_equal (fun s => length (k_procs s))) in Hk1. cbn in Hk1. rewrite !length_map in Hk1. lia. }
  assert (Hni : info ∉ tf :: pt :: us :: rest) by (rewrite Hl1; unfold own_pages in *; set_solver).
  destruct (new_pages_spec s1 i tf pt us rest) as (s2 & E2 & Hso & Hk2 & Hm2 & Hsp2 & Hz2); rewrite ?Hinfo1; try done; [apply Hrs|].
  rewrite Hinfo1 in Hm2, Hz2.
  destruct (pa_pages _ _ Hf1) as [Hnd1 Hok1]. assert (Hus : page_ok us) by (rewrite !Forall_cons in Hok1; tauto).
  assert (Hlr : (6 <= length rest)%nat) by (apply Permutation_length in Hl1; cbn in *; lia).
  destruct (map_initial_spec s2 i rest us Hso Hus Htr Hlr) as (s3 & T' & l' & E3 & Hok3 & Hsuf & Hlen3 & Hk3 & Hreg & Hlf & Hm3 & Htab & Hkeep).
  assert (Hpr : proc (updp i (fun p => set_p_pagetable pt (set_p_trapframe tf p)) s1) i = set_p_pagetable pt (set_p_trapframe tf (proc s1 i))) by (by rewrite proc_updp_eq).
  assert (Gi : p_mapped_info (proc s2 i) = info) by (by rewrite (kframe_proc p_mapped_info _ _ i ltac:(done) Hk2), Hpr).
  assert (Gt : p_trapframe (proc s2 i) = tf) by (by rewrite (kframe_proc p_trapframe _ _ i ltac:(done) Hk2), Hpr).
  assert (Gp : p_pagetable (proc s2 i) = pt) by (by rewrite (kframe_proc p_pagetable _ _ i ltac:(done) Hk2), Hpr).
  rewrite Gi in Hreg, Hm3, Hkeep. rewrite Gt in Hreg, Hlf. rewrite Gp in Hok3, Htab.
  eexists _, T', pt, us, rest, l'. split_and!.
  - rewrite realloc_split, E1, (bind_Ok _ _ _ _ _ E2), (bind_Ok _ _ _ _ _ E3), !(bind_Ok _ _ _ _ _ (setp_run _ _ _)). apply setp_run.
  - done.
  - split; try done.
    + etrans; [|apply kframe_mem_count]. unfold reset_proc.
      eapply (kframe_updp2 i (set_p_total_tick_count 0)); [solve_blind| |reflexivity]. eapply (kframe_updp2 i (set_p_tick_count 0)); [solve_blind| |reflexivity].
      eapply (kframe_updp2 i (set_p_total_mapped_region 3)); [solve_blind| |reflexivity]. etrans; [|exact Hk3]. etrans; [|exact Hk2].
      apply kframe_updp; [solve_blind|done].
    + intros j Hj. destruct (Hkeep j 0 0 0 Hj) as [R _]; [|exact R]. apply region_is_zero; [apply Hrs|lia|done].
    + change (load64 (k_mem s3) (tf + TF_sp) = USER_STACK_TOP). rewrite Hm3; [done|]. rewrite page_of_slot by (done || by rewrite Forall_cons in Hok1; apply Hok1).
      apply NoDup_cons in Hnd1 as [Htf _]. intros [Hin|Hin%elem_of_singleton]%elem_of_union; [|apply Hni; rewrite <- Hin; by left].
      apply Htf. rewrite !elem_of_cons. destruct (Htab tf Hin); tauto.
  - change (same_outside (table_pages T ∪ list_to_set (info :: tf :: released (k_mem s) T rs ++ l)) (k_mem s) (k_mem s3)).
    assert (Hin : forall p, p ∈ pt :: us :: rest -> p ∈ released (k_mem s) T rs ++ l) by (intros p Hp; by rewrite <- Hl1).
    assert (Hsub : forall P : gset Z, (forall p, p ∈ P -> p ∈ table_pages T \/ p = info \/ p = tf \/ p ∈ released (k_mem s) T rs ++ l) ->
      P ⊆ table_pages T ∪ list_to_set (info :: tf :: released (k_mem s) T rs ++ l)).
    { intros P HP p Hp. rewrite elem_of_union, elem_of_list_to_set, !elem_of_cons. by apply HP. }
    etrans; [eapply same_outside_mono; [|exact Hm1]; apply Hsub|etrans; [eapply same_outside_mono; [|exact Hm2]; apply Hsub|eapply same_outside_mono; [|exact Hm3]; apply Hsub]].
    + intros p [?|Hp%elem_of_list_to_set]%elem_of_union; [by left|]. unfold own_pages in Hp. rewrite elem_of_cons in Hp. rewrite elem_of_app. tauto.
    + intros p Hp. rewrite !elem_of_union, !elem_of_singleton in Hp. destruct Hp as [[-> | ->] | ->]; [tauto| |tauto]. do 3 right. apply Hin. by left.
    + intros p [Hp|Hp%elem_of_singleton]%elem_of_union; [|tauto]. do 3 right. apply Hin. rewrite !elem_of_cons. destruct (Htab p Hp); tauto.
Qed.
(* ------------------------------------------------------------------ *)
(** * The path and the old arguments *)

Lemma store_bytes frame l s :
  region_ok frame (Z.of_nat (length l)) ->
  exists m, kfor (imap pair l) (fun '(k, c) => st8 (frame + Z.of_nat k) c) s = Ok tt (set_k_mem m s) /\
    (forall (k : nat) c, l !! k = Some c -> load8 m (frame + Z.of_nat k) = c mod 256) /\
    (forall a, ~ (frame <= a < frame + Z.of_nat (length l)) -> load8 m a = load8 (k_mem s) a).
Proof.
  induction l as [|c l IH] using rev_ind; intros Hr.
  - exists (k_mem s). split_and!; [by destruct s|done|done].
  - rewrite length_app in *. cbn [length] in *. destruct IH as (m & E & Hb & Ho); [unfold region_ok in *; lia|].
    exists (store8 m (frame + Z.of_nat (length l)) c). split_and!.
    + rewrite imap_app, kfor_app, (bind_Ok _ _ _ _ _ E). cbn. rewrite Nat.add_0_r. unfold bind, st8. rewrite (addr_ok_1 frame (Z.of_nat (length l + 1))) by (done || lia). done.
    + intros k d Hk. rewrite load8_store8. apply lookup_snoc_Some in Hk as [[Hlt Hk]|[-> <-]]; [rewrite decide_False by lia; by apply Hb|by rewrite decide_True].
    + intros a Ha. rewrite load8_store8, decide_False by lia. apply Ho. lia.
Qed.

(** [argv] holds [vs], then an address that is not mapped *)
Lemma save_argv_spec s root argv vs olds vn :
  (length vs <= Z.to_nat MAXARGS)%nat ->
  (forall (j : nat) v, (vs ++ [vn]) !! j = Some v -> ld64 (argv + 8 * Z.of_nat j) s = Ok v s) ->
  Forall2 (fun v o => user_va_to_pa root v s = Ok o s /\ o <> 0) vs olds -> user_va_to_pa root vn s = Ok 0 s ->
  save_argv root argv s = Ok olds s.
Proof.
  intros Hlen Hw Hall Hn. unfold save_argv. pose proof (Forall2_length _ _ _ Hall) as Hlo. change (Z.to_nat MAXARGS) with 10%nat in Hlen.
  apply (kwhile_rule (fun acc s' => s' = s /\ exists j : nat, (j <= length olds)%nat /\ acc = take j olds) (fun acc => Z.of_nat (length olds) - Z.of_nat (length acc)) (fun o => o = Ok olds s)).
  - split; [done|]. exists 0%nat. split; [lia|done].
  - cbn. lia.
  - intros acc s' (-> & j & Hj & ->). rewrite length_take_le by lia. destruct (decide (j < length olds)%nat) as [Hlt|Hge].
    + destruct (lookup_lt_is_Some_2 olds j Hlt) as [o Ho]. destruct (Forall2_lookup_r _ _ _ _ _ Hall Ho) as (v & Hv & Htr & Hnz).
      rewrite (bind_Ok _ _ _ _ _ (Hw j v ltac:(by apply lookup_app_l_Some))), (bind_Ok _ _ _ _ _ Htr), (proj2 (Z.eqb_neq _ _)) by done.
      rewrite (proj2 (Z.leb_le _ _)) by (unfold MAXARGS; lia). cbn. rewrite <- (take_S_r _ _ _ Ho), length_take_le by lia.
      split; [|lia]. split; [done|]. exists (S j). split; [lia|done].
    + assert (j = length olds) as -> by lia. rewrite firstn_all.
      rewrite (bind_Ok _ _ _ _ _ (Hw (length olds) vn ltac:(rewrite lookup_app_r by lia; by rewrite Hlo, Nat.sub_diag))), (bind_Ok _ _ _ _ _ Hn). done.
Qed.

(** writing to a page that is not part of the process *)
Lemma live_space_outside s i T l rs p m :
  live_space s i T l rs -> same_outside {[p]} (k_mem s) m -> (p ∉ table_pages T) -> p <> p_mapped_info (proc s i) -> (p ∉ l) ->
  live_space (set_k_mem m s) i T l rs /\ released m T rs = released (k_mem s) T rs /\ (forall a, leaf m T a = leaf (k_mem s) T a).
Proof.
  intros [Hok Hrs Htot Hnd Hown Hi] Ho HpT Hpi Hpl.
  destruct (pt_ok_write _ s T l m {[p]} Hok Ho) as [Hok' Hlf]; [by apply disjoint_singleton_l|intros q Hq E%elem_of_singleton; by subst q|].
  assert (Hrel : released m T rs = released (k_mem s) T rs).
  { unfold released. f_equal. apply list_fmap_ext. intros k r _. apply region_pages_same. intros; apply Hlf. }
  split_and!; [|done|done]. assert (Hown' : own_pages (set_k_mem m s) i T rs = own_pages s i T rs) by (unfold own_pages; cbn [k_mem set_k_mem]; by rewrite Hrel).
  split; rewrite ?Hown'; try done. destruct Hrs as [R1 R2 R3 R4 R5]. split; try done.
  - intros j r Hj. eapply region_is_outside; [done| |..|exact Ho|by apply R3]; [apply lookup_lt_Some in Hj; lia|]. by apply not_elem_of_singleton.
  - intros r Hr Hu. eapply rgn_ok_same; [done| |by apply R4]. intros; apply Hlf.
Qed.
(** a string inside a page that is not written *)
Definition in_one_page (p : Z) (l : list Z) : Prop := p + Z.of_nat (length l) < page_of p + PGSIZE.
Lemma cstr_page P m m' p l : same_outside P m m' -> page_of p ∉ P -> in_one_page p l -> cstr m p l -> cstr m' p l.
Proof.
  intros Ho Hp Hl [Hc H0]. unfold in_one_page in Hl. pose proof (page_of_bounds p) as Hb. pose proof (page_of_aligned p).
  assert (Hw : forall k, 0 <= k <= Z.of_nat (length l) -> load8 m' (p + k) = load8 m (p + k)).
  { intros k Hk. unfold load8. apply (outside_loadn P); [done|]. by rewrite (page_of_in (page_of p) (p + k)) by (done || lia). }
  split; [|by rewrite Hw by lia]. intros k c Hk. pose proof (lookup_lt_Some _ _ _ Hk). rewrite Hw by lia. by apply Hc.
Qed.
(* ------------------------------------------------------------------ *)
(** * exec *)

(** an argument of exec: its user address, its physical address and its text *)
Record arg := mkArg { a_va : Z; a_pa : Z; a_name : list Z }.
(** it is mapped, short, inside one page, and not in a [busy] page *)
Record arg_in (m : gmap Z Z) (T : gmap (list Z) Z) (busy : gset Z) (a : arg) : Prop := {
  ai_va : 0 <= a_va a < MAXVA;
  ai_map : pte_pa (leaf m T (a_va a)) = page_of (a_pa a);
  ai_page : page_ok (page_of (a_pa a));
  ai_off : a_pa a = page_of (a_pa a) + a_va a mod PGSIZE;
  ai_text : cstr_at m (a_pa a) (a_name a);
  ai_short : (length (a_name a) < 8)%nat;
  ai_in : in_one_page (a_pa a) (a_name a);
  ai_free : page_of (a_pa a) ∉ busy
}.
(** [argv], in physical memory, lists [args] and ends with an unmapped address *)
Record argv_at (m : gmap Z Z) (T : gmap (list Z) Z) (busy : gset Z) (argv : Z) (args : list arg) (vn : Z) : Prop := {
  av_count : (length args <= Z.to_nat MAXARGS)%nat;
  av_word (j : nat) v : ((a_va <$> args) ++ [vn]) !! j = Some v ->
    addr_ok 8 (argv + 8 * Z.of_nat j) = true /\ (page_of (argv + 8 * Z.of_nat j) ∉ busy) /\ load64 m (argv + 8 * Z.of_nat j) = v;
  av_args : Forall (arg_in m T busy) args;
  av_end : 0 <= vn < MAXVA /\ pte_pa (leaf m T vn) = 0
}.
(** the kernel stack of the process, with the locals at [frame] *)
Record kstack_at (stk frame : Z) : Prop := {
  ks_page : page_ok stk;
  ks_frame : frame mod 8 = 0 /\ stk <= frame /\ frame + 192 + sizeof_ph <= stk + PGSIZE
}.

(** the path, the arguments, and the process restarted *)
Lemma exec_prefix s i root T stk frame argv args a0 vn busy :
  k_current s = Some i -> p_pagetable (proc s i) = root -> s32 (p_pid (proc s i)) = Z.of_nat i -> pt_rep (k_mem s) T root ->
  kstack_at stk frame -> stk ∈ busy -> stk ∉ table_pages T ->
  argv_at (k_mem s) T busy argv (a0 :: args) vn -> (length (a_name a0) <= 23)%nat ->
  exists m, same_outside {[stk]} (k_mem s) m /\ cstr_at m frame (obj_dir ++ a_name a0) /\
    load_shell_bincode_from_host_elf frame argv s =
      (realloc_process i ;;; c <- gets k_current ;;
       match c with
       | None => halt (Fault 0)
       | Some i => build_ustack i (a_pa <$> (a0 :: args)) ;;; load_file i frame (frame + 128) (frame + 192)
       end) (set_k_mem m s).
Proof.
  intros Hc Hroot Hpid Hrep [Hstk (F1 & F2 & F3)] Hbusy HsT [Hcnt Hw Hargs [Hvn He]] Hlen. pose proof Hstk as (S1 & S2 & S3). unfold sizeof_ph in F3.
  destruct (store_bytes frame (obj_dir ++ replicate 24 0) s) as (m1 & E1 & Hb1 & Ho1); [unfold region_ok; cbn; lia|]. cbn [length app obj_dir replicate] in Ho1.
  assert (Hp1 : same_outside {[stk]} (k_mem s) m1) by (apply bytes_outside_page; [done|]; intros a Ha; apply Ho1; lia).
  assert (Hpath : cstr_at m1 frame obj_dir).
  { split; [|unfold region_ok; cbn; lia]. split; [|by apply (Hb1 6%nat 0)]. intros k c Hk.
    assert (Hr : c mod 256 = c /\ c <> 0) by (do 6 (destruct k as [|k]; [by injection Hk as <-|]); done). destruct Hr as [Hr ?].
    split; [done|]. rewrite (Hb1 k c) by (by apply lookup_app_l_Some). done. }
  assert (Hdisj : {[stk]} ## table_pages T) by (by apply disjoint_singleton_l).
  assert (Hrep1 : pt_rep m1 T root) by (by apply (pt_rep_outside (k_mem s) _ T root {[stk]})).
  assert (Hlf1 : forall a, leaf m1 T a = leaf (k_mem s) T a) by (intros a; by apply (leaf_outside (k_mem s) _ T root {[stk]})).
  apply Forall_cons in Hargs as [[V0 M0 P0 O0 T0 L0 I0 B0] Hargs].
  assert (Hne0 : page_of (a_pa a0) <> stk) by (intros Hx; apply B0; by rewrite Hx).
  assert (Hname : cstr_at m1 (a_pa a0) (a_name a0)).
  { split; [|apply T0]. eapply cstr_page; [exact Hp1| |done|apply T0]. by apply not_elem_of_singleton. }
  destruct (strcat_spec (set_k_mem m1 s) frame (a_pa a0) obj_dir (a_name a0)) as (m2 & E2 & Hc2 & Ho2); [done|done|unfold region_ok; cbn; lia| |].
  { unfold in_one_page in I0. pose proof (page_of_bounds (a_pa a0)). pose proof (page_of_aligned (a_pa a0)). cbn [length obj_dir]. unfold PGSIZE in *. dlia. }
  cbn [k_mem set_k_mem length obj_dir] in Ho2.
  assert (Hp2 : same_outside {[stk]} (k_mem s) m2) by (etrans; [exact Hp1|]; apply bytes_outside_page; [done|]; intros a Ha; apply Ho2; lia).
  assert (Hrep2 : pt_rep m2 T root) by (by apply (pt_rep_outside (k_mem s) _ T root {[stk]})).
  assert (Hlf2 : forall a, leaf m2 T a = leaf (k_mem s) T a) by (intros a; by apply (leaf_outside (k_mem s) _ T root {[stk]})).
  assert (Hld : forall m, same_outside {[stk]} (k_mem s) m -> forall (j : nat) v, ((a_va <$> (a0 :: args)) ++ [vn]) !! j = Some v -> ld64 (argv + 8 * Z.of_nat j) (set_k_mem m s) = Ok v (set_k_mem m s)).
  { intros m Hm j v Hj. destruct (Hw j v Hj) as (A1 & A2 & A3). rewrite ld64_ok by done. cbn [k_mem set_k_mem]. rewrite Hm, A3; [done|].
    rewrite elem_of_singleton. intros Hx. apply A2. by rewrite Hx. }
  exists m2. split_and!; [done|done|]. unfold load_shell_bincode_from_host_elf, cur.
  erewrite bind_Ok; [|unfold bind, gets; by rewrite Hc]. rewrite (bind_Ok _ _ _ _ _ E1).
  assert (E0 : ld64 argv (set_k_mem m1 s) = Ok (a_va a0) (set_k_mem m1 s)) by (rewrite <- (Hld m1 Hp1 0%nat (a_va a0) eq_refl); f_equal; lia).
  rewrite (bind_Ok _ _ _ _ _ E0), Hroot. erewrite bind_Ok; [|apply (translate_page root (set_k_mem m1 s) T); [done|done|cbn [k_mem set_k_mem]; by rewrite Hlf1|done]].
  rewrite <- O0, (bind_Ok _ _ _ _ _ E2). change (set_k_mem m2 (set_k_mem m1 s)) with (set_k_mem m2 s).
  assert (E3 : save_argv root argv (set_k_mem m2 s) = Ok (a_pa <$> (a0 :: args)) (set_k_mem m2 s)).
  { apply (save_argv_spec _ _ _ (a_va <$> (a0 :: args)) _ vn); [by rewrite length_fmap|by apply Hld| |].
    - apply Forall2_fmap_2, Forall_Forall2_diag, Forall_cons. split; [|eapply Forall_impl; [exact Hargs|]].
      + split; [|rewrite O0; pose proof (page_ok_range _ P0); destruct P0; unfold DRAM_BASE in *; pose proof (Z.mod_pos_bound (a_va a0) PGSIZE ltac:(done)); lia].
        rewrite (translate_page root _ T _ (page_of (a_pa a0))); [by rewrite <- O0|done|done|cbn [k_mem set_k_mem]; by rewrite Hlf2|done].
      + intros a [V M P O _ _ _ _]. split; [|rewrite O; destruct P; unfold DRAM_BASE in *; pose proof (Z.mod_pos_bound (a_va a) PGSIZE ltac:(done)); lia].
        rewrite (translate_page root _ T _ (page_of (a_pa a))); [by rewrite <- O|done|done|cbn [k_mem set_k_mem]; by rewrite Hlf2|done].
    - rewrite (user_va_to_pa_spec _ _ _ T) by done. cbn [k_mem set_k_mem]. by rewrite Hlf2, He. }
  rewrite (bind_Ok _ _ _ _ _ E3). erewrite bind_Ok; [|unfold bind, gets; cbn [k_current set_k_mem]; by rewrite Hc].
  change (proc (set_k_mem m2 s) i) with (proc s i). rewrite Hpid, Nat2Z.id. done.
Qed.
(** the process is ready for its new program *)
Record exec_ready (s s' : kstate) (i : nat) (T' : gmap (list Z) Z) (tf pt us : Z) (l' : list Z) (stk frame : Z) (a0 : arg) (args : list arg) : Prop := {
  er_frame : kframe (updp i (reset_proc tf pt) s) s';
  er_pt : pt_ok free_pages pt s' T' l';
  er_leaf a : 0 <= a < MAXVA -> leaf (k_mem s') T' a = initial_leaf tf us a;
  er_regions : initial_regions (k_mem s') (p_mapped_info (proc s i)) tf;
  er_path : cstr_at (k_mem s') frame (obj_dir ++ a_name a0);
  er_tf : page_ok tf /\ (tf ∉ table_pages T') /\ (tf ∉ l') /\ tf <> p_mapped_info (proc s i) /\ tf <> us;
  er_argc : load64 (k_mem s') (tf + TF_a0) = Z.of_nat (length (a0 :: args));
  er_stack : ustack pt T' us (USER_STACK_TOP - PGSIZE) (k_mem s');
  er_args : stack_args (k_mem s') us (USER_STACK_TOP - PGSIZE) (load64 (k_mem s') (tf + TF_a1)) (a_name <$> (a0 :: args));
  er_apart p : p = us \/ p = tf -> p ∉ load_writes T' l' (p_mapped_info (proc s i)) stk;
  er_sp : load64 (k_mem s') (tf + TF_sp) = load64 (k_mem s') (tf + TF_a1);
  er_ctx : load_ctx s' i T' l' stk (frame + 192);
  er_room hs : (forall h, h ∈ loads hs -> 0 <= h_vaddr h < USER_STACK_TOP - PGSIZE) -> (3 * length (loads hs) <= length l')%nat -> (length (loads hs) <= 253)%nat ->
    room_for s' i T' l' 3 hs
}.
(** what exec must not touch while it copies the arguments *)
Definition busy_pages (s : kstate) (i : nat) (T : gmap (list Z) Z) (l : list Z) (rs : list rgn) (stk : Z) : gset Z :=
  {[stk]} ∪ table_pages T ∪ list_to_set (p_mapped_info (proc s i) :: own_pages s i T rs ++ l).

(** ** From the fresh address space to the arguments *)
Section Fresh.
Variables (s s2 : kstate) (i : nat) (T T' : gmap (list Z) Z) (l rest l' : list Z) (rs : list rgn) (pt us stk frame : Z).
Let tf := p_pagetable (proc s i).
Let info := p_mapped_info (proc s i).
Hypothesis Hlv : live_space s i T l rs.
Hypothesis Hi : (i < length (k_procs s))%nat.
Hypothesis Htake : pt :: us :: rest ≡ₚ released (k_mem s) T rs ++ l.
Hypothesis Hfs : fresh_space s s2 i T' tf pt us rest l'.
Hypothesis Hks : kstack_at stk frame.
Hypothesis Hstk : (stk ∉ table_pages T) /\ stk <> info /\ (stk ∉ own_pages s i T rs ++ l).

(** the pages of the new address space are pairwise different, and apart from the
    region table and the kernel stack *)
Lemma fresh_nodup : NoDup (tf :: pt :: us :: rest) /\ Forall page_ok (tf :: pt :: us :: rest) /\ (info ∉ tf :: pt :: us :: rest) /\ (stk ∉ tf :: pt :: us :: rest).
Proof.
  destruct Hlv as [(_ & Hf & _) _ _ Hnd Hown (_ & I2 & I3)]. destruct Hstk as (_ & _ & Hs). unfold own_pages in *. destruct (pa_pages _ _ Hf) as [Hndl Hokl].
  assert (HP : tf :: pt :: us :: rest ≡ₚ own_pages s i T rs ++ l) by (unfold own_pages; cbn; by rewrite Htake). unfold own_pages in HP.
  split_and!; rewrite ?HP; try done.
  - apply NoDup_app. split_and!; [done| |done]. intros p Hp. by apply (Hown p).
  - apply Forall_app. split; [|done]. apply Forall_forall. intros p Hp. by apply (Hown p).
  - rewrite elem_of_app. tauto.
Qed.
Lemma fresh_out p : p ∉ tf :: pt :: us :: rest -> (p ∉ table_pages T') /\ (p ∉ l') /\ p <> us /\ p <> tf.
Proof.
  intros Hp. rewrite !elem_of_cons in Hp. split_and!; [| |tauto..].
  - intros Hin. destruct (fs_tables _ _ _ _ _ _ _ _ _ Hfs p Hin); tauto.
  - destruct (fs_suffix _ _ _ _ _ _ _ _ _ Hfs) as [u Eu]. rewrite Eu, elem_of_app in Hp. tauto.
Qed.
Lemma fresh_us_tf : (us ∉ table_pages T') /\ (us ∉ l') /\ (tf ∉ table_pages T') /\ (tf ∉ l') /\ tf <> us.
Proof.
  destruct fresh_nodup as (Hnd & _). rewrite !NoDup_cons, !elem_of_cons in Hnd. destruct Hnd as (N1 & N2 & N3 & _).
  destruct (fs_suffix _ _ _ _ _ _ _ _ _ Hfs) as [u Eu]. rewrite Eu, elem_of_app in *.
  split_and!; [intros Hin; destruct (fs_tables _ _ _ _ _ _ _ _ _ Hfs us Hin) as [E|E]|tauto|intros Hin; destruct (fs_tables _ _ _ _ _ _ _ _ _ Hfs tf Hin) as [E|E]|tauto|tauto]; rewrite ?Eu, ?elem_of_app in E; try tauto; rewrite E in *; tauto.
Qed.
Lemma fresh_proc {A} (g : process -> A) : (forall n p, g (set_p_total_mem_count n p) = g p) -> g (proc s2 i) = g (reset_proc tf pt (proc s i)).
Proof. intros Hg. rewrite (kframe_proc g _ _ i Hg (fs_frame _ _ _ _ _ _ _ _ _ Hfs)). by rewrite proc_updp_eq. Qed.
Lemma fresh_ustack : ustack pt T' us (USER_STACK_TOP - PGSIZE) (k_mem s2).
Proof.
  destruct fresh_nodup as (_ & Hok & _). rewrite !Forall_cons in Hok. destruct Hok as (_ & _ & Hus & _). split; [apply Hfs| |done|apply fresh_us_tf|done].
  intros a Ha. pose proof (page_of_bounds a). assert (Hr : 0 <= a < MAXVA) by (rewrite Ha in *; unfold USER_STACK_TOP, PGSIZE, MAXVA in *; lia).
  rewrite (fs_leaf _ _ _ _ _ _ _ _ _ Hfs a Hr). unfold initial_leaf. rewrite decide_True by done. pose proof (page_ok_range us Hus). unfold PGSIZE in *.
  apply pte_pa_mkpte; [done|lia|apply Hus|done].
Qed.
(** an argument is still there, and not in the new stack page *)
Lemma fresh_arg m a :
  same_outside (table_pages T ∪ list_to_set (info :: tf :: released (k_mem s) T rs ++ l)) m (k_mem s2) ->
  arg_in m T (busy_pages s i T l rs stk) a -> arg_ok us (k_mem s2) (a_pa a) (a_name a).
Proof.
  intros Hm [_ _ _ _ [Hc Hr] Hsh Hin Hfree]. unfold busy_pages, own_pages in Hfree. fold tf info in Hfree.
  rewrite !elem_of_union, elem_of_singleton, elem_of_list_to_set in Hfree. cbn [app] in Hfree.
  split_and!; [|done|].
  - split; [|done]. eapply cstr_page; [exact Hm| |done|done]. rewrite elem_of_union, elem_of_list_to_set. tauto.
  - assert (Hne : page_of (a_pa a) <> us).
    { intros E. apply Hfree. right. rewrite E, !elem_of_cons. do 2 right. rewrite <- Htake, !elem_of_cons. tauto. }
    destruct fresh_nodup as (_ & Hok & _). rewrite !Forall_cons in Hok. destruct Hok as (_ & _ & (Hus & _) & _).
    unfold in_one_page in Hin. pose proof (page_of_bounds (a_pa a)). pose proof (page_of_aligned (a_pa a)). unfold PGSIZE in *. dlia.
Qed.
Lemma fresh_room m hs :
  same_outside {[us; tf]} (k_mem s2) m -> (forall h, h ∈ loads hs -> 0 <= h_vaddr h < USER_STACK_TOP - PGSIZE) ->
  (3 * length (loads hs) <= length l')%nat -> (length (loads hs) <= 253)%nat -> page_ok trap_sec_start ->
  pt_ok free_pages pt (set_k_mem m s2) T' l' -> (forall a, leaf m T' a = leaf (k_mem s2) T' a) -> room_for (set_k_mem m s2) i T' l' 3 hs.
Proof.
  intros Ho Hva Hpg Hcnt Htr Hok Hlf. destruct fresh_nodup as (_ & Hoks & Hni & _). rewrite !Forall_cons in Hoks. destruct Hoks as (Htf & _ & _ & _).
  destruct (fresh_out info Hni) as (_ & _ & Hi1 & Hi2). pose proof (rs_info _ _ _ _ (lv_regions _ _ _ _ _ Hlv)) as Hinfo. fold info in Hinfo.
  change (proc (set_k_mem m s2) i) with (proc s2 i) in *.
  assert (Gp : p_pagetable (proc s2 i) = pt) by (by rewrite (fresh_proc p_pagetable)). assert (Gi : p_mapped_info (proc s2 i) = info) by (by rewrite (fresh_proc p_mapped_info)).
  assert (Hreg : forall j, 0 <= j < 256 -> load64 m (region info j + MR_va) = load64 (k_mem s2) (region info j + MR_va)).
  { intros j Hj. apply Ho. destruct (region_addr info j MR_va 8) as [_ ->]; try done; try (unfold MR_va; lia). rewrite not_elem_of_union, !not_elem_of_singleton. by split. }
  destruct (fs_regions _ _ _ _ _ _ _ _ _ Hfs) as ((R0 & _) & (R1 & _) & (R2 & _)). fold info in R0, R1, R2.
  split; change (proc (set_k_mem m s2) i) with (proc s2 i); rewrite ?Gp, ?Gi; cbn [k_mem set_k_mem]; try done.
  - intros h a Hh Ha. specialize (Hva h Hh). pose proof (page_of_bounds a). rewrite Ha in *. assert (Hr : 0 <= a < MAXVA) by (unfold USER_STACK_TOP, PGSIZE, MAXVA in *; lia).
    rewrite Hlf, (fs_leaf _ _ _ _ _ _ _ _ _ Hfs a Hr). unfold initial_leaf. destruct (page_ok_user _ Htf) as (_ & ? & _). destruct (page_ok_user _ Htr) as (_ & ? & _).
    rewrite !decide_False by (rewrite Ha; unfold PGSIZE in *; lia). done.
  - lia.
  - intros j Hj. rewrite Hreg by lia. destruct j as [|[|[|j]]]; [| | |lia].
    + change (Z.of_nat 0) with 0. by rewrite R0.
    + change (Z.of_nat 1) with 1. rewrite R1. by apply page_ok_nonzero.
    + change (Z.of_nat 2) with 2. rewrite R2. by apply page_ok_nonzero.
  - intros j Hj. rewrite Hreg by lia. apply Hfs. lia.
  - by rewrite (fresh_proc p_total_mapped_region).
Qed.

(** the arguments are copied: the process is ready *)
Lemma fresh_ready a0 args :
  same_outside (table_pages T ∪ list_to_set (info :: tf :: released (k_mem s) T rs ++ l)) (k_mem s) (k_mem s2) ->
  page_ok trap_sec_start -> Forall (arg_in (k_mem s) T (busy_pages s i T l rs stk)) (a0 :: args) -> (length (a0 :: args) <= Z.to_nat MAXARGS)%nat ->
  cstr_at (k_mem s) frame (obj_dir ++ a_name a0) -> (length (a_name a0) <= 23)%nat ->
  exists s3, build_ustack i (a_pa <$> (a0 :: args)) s2 = Ok tt s3 /\ exec_ready s s3 i T' tf pt us l' stk frame a0 args.
Proof.
  intros Ho2 Htr Hargs Hcnt Hpath Hlen. destruct fresh_nodup as (_ & Hoks & Hni & Hns). rewrite !Forall_cons in Hoks. destruct Hoks as (Htf & _ & _ & _).
  destruct fresh_us_tf as (U1 & U2 & F1 & F2 & F3). destruct (fresh_out info Hni) as (I1 & I2 & I3 & I4). destruct (fresh_out stk Hns) as (S1 & S2 & S3 & S4).
  pose proof (rs_info _ _ _ _ (lv_regions _ _ _ _ _ Hlv)) as Hinfo. fold info in Hinfo. destruct Hks as [Hstkp (K1 & K2 & K3)]. destruct Hstk as (_ & Hsi & Hso). destruct Hstk as (HsT & _ & _). unfold own_pages in Hso. fold tf in Hso.
  assert (Gp : p_pagetable (proc s2 i) = pt) by (by rewrite (fresh_proc p_pagetable)). assert (Gt : p_trapframe (proc s2 i) = tf) by (by rewrite (fresh_proc p_trapframe)).
  assert (Gi : p_mapped_info (proc s2 i) = info) by (by rewrite (fresh_proc p_mapped_info)).
  assert (Hall : Forall2 (arg_ok us (k_mem s2)) (a_pa <$> (a0 :: args)) (a_name <$> (a0 :: args))).
  { apply Forall2_fmap_2, Forall_Forall2_diag. eapply Forall_impl; [exact Hargs|]. intros a Ha. by eapply fresh_arg. }
  change (Z.to_nat MAXARGS) with 10%nat in Hcnt.
  destruct (build_ustack_spec s2 i T' us (USER_STACK_TOP - PGSIZE) (a_pa <$> (a0 :: args)) (a_name <$> (a0 :: args))) as (m & E & Ho & M1 & M2 & M3 & M4);
    rewrite ?Gt, ?Gp, ?(fs_sp _ _ _ _ _ _ _ _ _ Hfs), ?length_fmap in *; try done; [apply fresh_ustack|unfold PGSIZE; cbn [length] in *; lia|].
  destruct (pt_ok_write _ s2 T' l' m {[us; tf]} (fs_pt _ _ _ _ _ _ _ _ _ Hfs) Ho) as [Hok3 Hlf3]; [set_solver|set_solver|].
  exists (set_k_mem m s2). split; [exact E|]. split.
  - exact (fs_frame _ _ _ _ _ _ _ _ _ Hfs).
  - done.
  - intros a Ha. cbn [k_mem set_k_mem]. rewrite Hlf3. by apply Hfs.
  - destruct (fs_regions _ _ _ _ _ _ _ _ _ Hfs) as (R0 & R1 & R2). fold info in R0, R1, R2.
    split_and!; (eapply region_is_outside; [done|lia| |exact Ho|done]); set_solver.
  - split; [|apply Hpath]. assert (Hp : page_of frame = stk) by (apply page_of_in; [apply Hstkp|]; unfold sizeof_ph in *; lia).
    assert (Hin : in_one_page frame (obj_dir ++ a_name a0)) by (unfold in_one_page; rewrite Hp, length_app; cbn [length obj_dir]; unfold sizeof_ph, PGSIZE in *; lia).
    eapply cstr_page; [exact Ho|by rewrite Hp, not_elem_of_union, !not_elem_of_singleton|done|]. eapply cstr_page; [exact Ho2| |done|apply Hpath].
    rewrite Hp, elem_of_union, elem_of_list_to_set, elem_of_cons. cbn [app] in *. tauto.
  - split_and!; done || congruence.
  - exact M2.
  - destruct fresh_ustack as [_ Hl ? ? ?]. split; try done; [apply Hok3|]. intros a Ha. cbn [k_mem set_k_mem]. rewrite Hlf3. by apply Hl.
  - cbn [k_mem set_k_mem]. rewrite M3. exact M4.
  - unfold load_writes. fold info. intros p Hp. rewrite !elem_of_union, elem_of_list_to_set, !elem_of_singleton. destruct Hp as [-> | ->]; naive_solver congruence.
  - cbn [k_mem set_k_mem]. by rewrite M1, M3.
  - split; change (proc (set_k_mem m s2) i) with (proc s2 i); rewrite ?Gi; try done; [|unfold sizeof_ph in *; dlia|by intros p [-> | ->]].
    pose proof (f_equal (fun s => length (k_procs s)) (fs_frame _ _ _ _ _ _ _ _ _ Hfs)) as Hl. cbn in Hl. rewrite !length_map, length_alter in Hl. cbn. lia.
  - intros hs H1 H2 H3. by apply fresh_room.
Qed.
End Fresh.

Lemma arg_in_outside p m m' T root busy a :
  same_outside {[p]} m m' -> p ∈ busy -> p ∉ table_pages T -> pt_rep m T root -> arg_in m T busy a -> arg_in m' T busy a.
Proof.
  intros Ho Hb Hp Hr [A1 A2 A3 A4 [A5 A5'] A6 A7 A8]. split; try done; [by rewrite (leaf_outside m m' T root {[p]}) by (done || by apply disjoint_singleton_l)|].
  split; [|done]. eapply cstr_page; [exact Ho| |done|done]. intros E%elem_of_singleton. apply A8. by rewrite E.
Qed.

(** The call sys_user_exec makes, on a process whose address space is its own, with
    at most ten arguments in pages that exec neither frees nor writes: do_exec builds the path "./obj/" and the
    name of the first argument, gives the old program's pages back and leaves the
    process with the initial address space alone -- a fresh stack, a trapframe, the three initial
    regions, no page of the old program mapped -- with argc in a0, argv in a1 and
    sp, argv[t] leading to a copy of argument t and argv[argc] to a zero word; what is left
    is load_file on that path, in a state that has room for the
    segments of the file. Nothing else of the kernel state is changed. *)
Lemma do_exec_ready s i T l rs stk frame path argv_va argv a0 args vn :
  let tf := p_pagetable (proc s i) in
  k_current s = Some i -> s32 (p_pid (proc s i)) = Z.of_nat i -> (i < length (k_procs s))%nat ->
  live_space s i T l rs -> page_ok trap_sec_start -> tf <> trap_sec_start -> (8 <= length (released (k_mem s) T rs ++ l))%nat ->
  kstack_at stk frame -> (stk ∉ table_pages T) -> stk <> p_mapped_info (proc s i) -> (stk ∉ own_pages s i T rs ++ l) ->
  user_va_to_pa tf argv_va s = Ok argv s ->
  argv_at (k_mem s) T (busy_pages s i T l rs stk) argv (a0 :: args) vn -> (length (a_name a0) <= 23)%nat ->
  exists s' T' pt us l', do_exec frame path argv_va s = (load_file i frame (frame + 128) (frame + 192) ;;; ret 1) s' /\
    exec_ready s s' i T' tf pt us l' stk frame a0 args /\ (length (released (k_mem s) T rs ++ l) <= length l' + 8)%nat.
Proof.
  intros tf Hc Hpid Hi Hlv Htr Hne Hlen Hks K1 K2 K3 Hva Hav Hname.
  assert (Hb : stk ∈ busy_pages s i T l rs stk) by (unfold busy_pages; rewrite !elem_of_union, elem_of_singleton; tauto).
  pose proof (lv_pt _ _ _ _ _ Hlv) as (Hrep & _).
  destruct (exec_prefix s i tf T stk frame argv args a0 vn (busy_pages s i T l rs stk)) as (m & Ho & Hp & E); try done.
  destruct (live_space_outside s i T l rs stk m Hlv Ho K1 K2) as (Hlv1 & Hrel & Hlf); [by rewrite elem_of_app in K3; tauto|].
  set (s1 := set_k_mem m s) in *.
  assert (Hbusy : busy_pages s1 i T l rs stk = busy_pages s i T l rs stk) by (unfold busy_pages, own_pages; cbn [s1 k_mem set_k_mem]; by rewrite Hrel).
  assert (Hown : own_pages s1 i T rs = own_pages s i T rs) by (unfold own_pages; cbn [s1 k_mem set_k_mem]; by rewrite Hrel).
  destruct (realloc_spec s1 i T l rs) as (s2 & T' & pt & us & rest & l' & E2 & Htake & Hfs & Hm2); try done; [cbn [s1 k_mem set_k_mem]; by rewrite Hrel|].
  destruct Hav as [Hcnt _ Hargs _]. pose proof (fs_frame _ _ _ _ _ _ _ _ _ Hfs) as Hf.
  destruct (fresh_ready s1 s2 i T T' l rest l' rs pt us stk frame) with (a0 := a0) (args := args) as (s3 & E3 & []); try done.
  { by rewrite Hown. }
  { rewrite Hbusy. eapply Forall_impl; [exact Hargs|]. intros a Ha. by apply (arg_in_outside stk (k_mem s) m T tf). }
  exists s3, T', pt, us, l'. split_and!; [|by split|].
  2:{ apply Permutation_length in Htake. cbn [s1 k_mem set_k_mem] in Htake. rewrite Hrel in Htake. pose proof (fs_length _ _ _ _ _ _ _ _ _ Hfs). cbn [length] in Htake. lia. }
  assert (E4 : load_shell_bincode_from_host_elf frame argv s = load_file i frame (frame + 128) (frame + 192) s3).
  { rewrite E, (bind_Ok _ _ _ _ _ E2). assert (Hc2 : k_current s2 = Some i) by (apply (f_equal k_current) in Hf; cbn in Hf; congruence).
    erewrite bind_Ok; [|unfold gets; by rewrite Hc2]. cbv beta iota. by rewrite (bind_Ok _ _ _ _ _ E3). }
  unfold do_exec, cur. erewrite bind_Ok; [|unfold bind, gets; by rewrite Hc]. rewrite (bind_Ok _ _ _ _ _ Hva). unfold bind at 1. by rewrite E4.
Qed.

(* ------------------------------------------------------------------ *)
(** * Properties *)

Section Program.
Context {fh : host_state -> Prop} {fd sz : Z} {img : gmap Z Z} `{HF : !HostFile fh fd sz img}.

(** process [i] of [s'] starts the program with headers [hs] on the arguments [names]:
    [tf] and [pt] are its trapframe and page directory, [us] its stack page *)
Record program_started (s' : kstate) (i : nat) (info tf pt us : Z) (hs : list phdr) (T' : gmap (list Z) Z) (l' qs : list Z) (names : list (list Z)) : Prop := {
  st_proc : p_pagetable (proc s' i) = pt /\ p_trapframe (proc s' i) = tf /\ p_mapped_info (proc s' i) = info;
  st_ticks : p_tick_count (proc s' i) = 0 /\ p_total_tick_count (proc s' i) = 0;
  st_pt : pt_ok free_pages pt s' T' l';
  st_program : @program_loaded _ img s' i (loads hs) 3 T' qs;
  st_regions : initial_regions (k_mem s') info tf;
  st_leaf a : 0 <= a < MAXVA -> page_of a ∉ (h_vaddr <$> loads hs) -> leaf (k_mem s') T' a = initial_leaf tf us a;
  st_entry : load64 (k_mem s') (tf + TF_epc) = load64 img EH_entry;
  st_argc : load64 (k_mem s') (tf + TF_a0) = Z.of_nat (length names);
  st_sp : load64 (k_mem s') (tf + TF_sp) = load64 (k_mem s') (tf + TF_a1);
  st_argv (t : nat) name : names !! t = Some name -> argv_string s' pt (load64 (k_mem s') (tf + TF_a1)) (Z.of_nat t) name;
  st_end : argv_end s' pt (load64 (k_mem s') (tf + TF_a1)) (Z.of_nat (length names))
}.

Lemma ready_started s s' s'' i T' tf pt us l' stk frame a0 args hs T'' l'' qs :
  exec_ready s s' i T' tf pt us l' stk frame a0 args -> (i < length (k_procs s))%nat ->
  (forall h, h ∈ loads hs -> 0 <= h_vaddr h < USER_STACK_TOP - PGSIZE /\ h_vaddr h mod PGSIZE = 0) ->
  pt_ok free_pages pt s'' T'' l'' -> @program_loaded _ img s'' i (loads hs) 3 T'' qs ->
  (forall a, 0 <= a < MAXVA -> page_of a ∉ (h_vaddr <$> loads hs) -> leaf (k_mem s'') T'' a = leaf (k_mem s') T' a) ->
  load64 (k_mem s'') (tf + TF_epc) = load64 img EH_entry -> (forall p, p ∈ table_pages T'' -> p ∈ table_pages T' \/ p ∈ l') ->
  (forall g : process -> Z, (forall n p, g (set_p_total_mem_count n p) = g p) -> (forall x, g (count_region x) = g x) -> g (proc s'' i) = g (proc s' i)) ->
  (forall a, page_of a ∉ load_writes T' l' (p_mapped_info (proc s i)) stk -> a mod 8 = 0 -> a <> tf + TF_epc -> load64 (k_mem s'') a = load64 (k_mem s') a) ->
  (forall (j : nat) v n t, (j < 3)%nat -> region_is (k_mem s') (p_mapped_info (proc s i)) (Z.of_nat j) v n t -> region_is (k_mem s'') (p_mapped_info (proc s i)) (Z.of_nat j) v n t) ->
  program_started s'' i (p_mapped_info (proc s i)) tf pt us hs T'' l'' qs (a_name <$> (a0 :: args)).
Proof.
  intros [F1 F2 F3 F4 F5 (F6 & F7 & F8 & F9 & F9') F10 F11 F12 F13 F14 F15 F16] Hi Hva Hpt Hpl Hold Hepc Htab Hg Hmem Hreg.
  assert (Gp : forall g : process -> Z, (forall n p, g (set_p_total_mem_count n p) = g p) -> (forall x, g (count_region x) = g x) -> g (proc s'' i) = g (reset_proc tf pt (proc s i))).
  { intros g H1 H2. rewrite (Hg g H1 H2), (kframe_proc g _ _ i H1 F1). by rewrite proc_updp_eq. }
  assert (Htw : forall o, 0 <= o < PGSIZE -> o mod 8 = 0 -> o <> TF_epc -> load64 (k_mem s'') (tf + o) = load64 (k_mem s') (tf + o)).
  { intros o H1 H2 H3. apply Hmem; [rewrite page_of_slot by done; apply F13; by right|destruct F6; unfold PGSIZE in *; dlia|lia]. }
  pose proof F11 as [_ Hul Hus _ Hur]. assert (Hua := F13 us (or_introl eq_refl)). unfold load_writes in Hua. rewrite !elem_of_union, elem_of_list_to_set in Hua.
  assert (Hsp : USER_STACK_TOP - PGSIZE ∉ (h_vaddr <$> loads hs)) by (intros (h & E & Hh)%list_elem_of_fmap; specialize (Hva h Hh); lia).
  assert (Hst : ustack pt T'' us (USER_STACK_TOP - PGSIZE) (k_mem s'')).
  { split; [apply Hpt| |done|intros Hin; destruct (Htab us Hin); tauto|done]. intros a Ha. pose proof (page_of_bounds a).
    rewrite Hold by (rewrite ?Ha in *; first [done|unfold USER_STACK_TOP, PGSIZE, MAXVA in *; lia]). by apply Hul. }
  assert (Hsa : stack_args (k_mem s'') us (USER_STACK_TOP - PGSIZE) (load64 (k_mem s'') (tf + TF_a1)) (a_name <$> (a0 :: args))).
  { rewrite (Htw TF_a1) by done. eapply stack_args_page; [done| |exact F12]. intros a Ha. rewrite !(load64_align _ a). pose proof (page_of_bounds a).
    assert (Hp : page_of (8 * (a / 8)) = us) by (apply page_of_in; [apply Hus|]; destruct Hus; unfold PGSIZE in *; dlia).
    apply Hmem; [rewrite Hp; apply F13; by left|dlia|]. intros E. apply F9'. rewrite <- Hp, E. symmetry. by apply page_of_slot. }
  destruct (stack_args_argv s'' pt T'' us _ _ _ Hst Hsa) as [Hav Hae].
  split; try done.
  - split_and!; [by rewrite (Gp p_pagetable)|by rewrite (Gp p_trapframe)|by rewrite (Gp p_mapped_info)].
  - split; [by rewrite (Gp p_tick_count)|by rewrite (Gp p_total_tick_count)].
  - destruct F4 as (R0 & R1 & R2). split_and!; [apply (Hreg 0%nat)|apply (Hreg 1%nat)|apply (Hreg 2%nat)]; try done; lia.
  - intros a Ha Hn. rewrite Hold by done. by apply F3.
  - by rewrite (Htw TF_a0), F10, length_fmap.
  - by rewrite (Htw TF_sp), (Htw TF_a1).
Qed.

End Program.
End Exec.

(* ------------------------------------------------------------------ *)
(** * Witnesses *)

(** process 0 runs a program whose code page, 0x8002e000 at 0x10000, holds the
    strings "a" and "bc" and, at 0x10040, argv; its kernel stack is at 0x8002f000 *)
Module DemoExec.
Definition pool : list Z := (fun k => 0x80030000 + PGSIZE * Z.of_nat k) <$> seq 0 20.
Definition base : @kstate DemoFile.platform :=
  set_k_current (Some 0%nat) (set_k_mem (store64 (store64 (put_str 0x8002e010 [98; 99] (put_str 0x8002e000 [97] (chain_mem pool))) 0x8002e040 0x10000) 0x8002e048 0x10010)
    (set_k_free_list 0x80030000 (set_k_free_mem_end_addr 0x80050000 DemoFile.state))).
Definition setup : @K DemoFile.platform unit :=
  map_initial 0 0x80024000 ;;;
  user_vm_map 0x80021000 0x10000 PGSIZE 0x8002e000 perm_user_rwx ;;;
  set_region 0x80023000 3 0x10000 1 CODE_SEGMENT ;;;
  setp 0 (set_p_total_mapped_region 4).
Definition state : @kstate DemoFile.platform := out base (setup base).
Definition tables : gmap (list Z) Z := list_to_map (read_tables (k_mem state) 2 [] 0x80021000).
Definition free : list Z := drop 6 pool.
Definition rgns : list rgn :=
  [mkRgn (USER_STACK_TOP - PGSIZE) 1 STACK_SEGMENT; mkRgn 0x80022000 1 CONTEXT_SEGMENT;
   mkRgn 0x80005000 1 SYSTEM_SEGMENT; mkRgn 0x10000 1 CODE_SEGMENT].
Definition args : list arg := [mkArg 0x10010 0x8002e010 [98; 99]].


Lemma state_released : released (k_mem state) tables rgns = [0x80024000; 0x80022000].
Proof. by vm_compute. Qed.
Lemma state_own : own_pages state 0 tables rgns = [0x80021000; 0x80024000; 0x80022000].
Proof. by vm_compute. Qed.
Lemma state_regions : regions_ok (k_mem state) tables 0x80023000 rgns.
Proof.
  split; [by vm_compute|by apply Nat.leb_le| | |].
  - intros [|[|[|[|j]]]] r Hj; [injection Hj as <-; by vm_compute..|done].
  - intros r Hr _. unfold rgns in Hr. rewrite !elem_of_cons, elem_of_nil in Hr.
    destruct Hr as [-> |[-> |[-> |[-> |[]]]]]; (split; [by vm_compute..|]); intros [|i] Hi; [|cbn in Hi; lia| |cbn in Hi; lia| |cbn in Hi; lia| |cbn in Hi; lia]; (split; by vm_compute).
  - intros [|[|[|[|j]]]] [|[|[|[|k]]]] r r' a Hj Hk Hlt; try lia; try done; injection Hj as <-; injection Hk as <-; intros _ _; unfold r_in, USER_STACK_TOP, PGSIZE; cbn; lia.
Qed.
Lemma state_rep : pt_rep (k_mem state) tables 0x80021000.
Proof. apply pt_rep_b_sound. by vm_compute. Qed.
Lemma state_live : live_space state 0 tables free rgns.
Proof.
  split; rewrite ?state_own; [|exact state_regions|by vm_compute|apply (bool_decide_unpack _); by vm_compute| |].
  - split_and!; [exact state_rep| |].
    + split_and!; [apply free_chain_b_sound; by vm_compute|apply (bool_decide_unpack _); by vm_compute|apply (bool_decide_unpack _); by vm_compute].
    + intros p Hp. assert (H : Forall (fun p => p ∉ table_pages tables) free) by (apply (bool_decide_unpack _); by vm_compute). rewrite Forall_forall in H. by apply H.
  - intros p Hp. assert (H : Forall (fun p => (in_pool state p /\ p mod PGSIZE = 0 /\ page_ok p /\ p ∉ free) /\ (p ∈ table_pages tables -> p = 0x80021000)) [0x80021000; 0x80024000; 0x80022000]) by (apply (bool_decide_unpack _); by vm_compute).
    rewrite Forall_forall in H. destruct (H p Hp) as ((? & ? & ? & ?) & ?). by split_and!.
  - split_and!; apply (bool_decide_unpack _); by vm_compute.
Qed.
Definition busy : gset Z := busy_pages state 0 tables free rgns 0x8002f000.
Lemma busy_free : 0x8002e000 ∉ busy.
Proof. apply (bool_decide_unpack _). by vm_compute. Qed.
Lemma state_argv : argv_at (k_mem state) tables busy 0x8002e040 (mkArg 0x10000 0x8002e000 [97] :: args) 0.
Proof.
  split; [by apply Nat.leb_le| | |by vm_compute].
  - intros [|[|[|j]]] v Hj; [injection Hj as <-; split_and!; [by vm_compute|exact busy_free|by vm_compute]..|done].
  - apply Forall_cons_2; [|apply Forall_singleton].
    all: split; [by vm_compute|by vm_compute|by vm_compute|by vm_compute|apply cstr_check; by vm_compute|by apply Nat.ltb_lt|by vm_compute|exact busy_free].
Qed.
End DemoExec.

