(* ===== verification/Syscall.v ===== *)
(** kernel/syscall.c: the system calls and their dispatcher.

    Arguments and results are 64-bit values ([long]); a call that reschedules does
    not return.  [print] and [getinfo] only write to the console, which is not
    part of the state. *)

From S2P Require Import Prelude Machine Pmm StringC Vmm Sched SpikeFile File Process Elf.

Definition SYS_user_base : Z := 64.
Definition SYS_user_print : Z := SYS_user_base + 0.
Definition SYS_user_exit : Z := SYS_user_base + 1.
Definition SYS_user_allocate_page : Z := SYS_user_base + 2.
Definition SYS_user_free_page : Z := SYS_user_base + 3.
Definition SYS_user_fork : Z := SYS_user_base + 4.
Definition SYS_user_yield : Z := SYS_user_base + 5.
Definition SYS_user_wait : Z := SYS_user_base + 14.
Definition SYS_user_getline : Z := SYS_user_base + 15.
Definition SYS_user_exec : Z := SYS_user_base + 16.
Definition SYS_user_open : Z := SYS_user_base + 17.
Definition SYS_user_read : Z := SYS_user_base + 18.
Definition SYS_user_write : Z := SYS_user_base + 19.
Definition SYS_user_close : Z := SYS_user_base + 20.
Definition SYS_user_getinfo : Z := SYS_user_base + 21.

Section Syscall.
Context {PLAT : Platform}.

(* ------------------------------------------------------------------ *)
(** * The code *)

(** [current], faulting when it is NULL and dereferenced *)
Definition current : K nat :=
  c <- gets k_current ;;
  match c with Some i => ret i | None => halt (Fault 0) end.
(** [assert(current)] *)
Definition assert_current : K nat :=
  c <- gets k_current ;;
  match c with Some i => ret i | None => halt (Poweroff "current") end.

Definition sys_user_print (buf n : Z) : K Z :=
  i <- assert_current ;;
  pt <- getp i p_pagetable ;;
  user_va_to_pa pt buf ;;;
  ret 0.

Definition sys_user_exit (code : Z) : K Z :=
  i <- current ;;
  free_process i ;;;
  schedule.

Definition sys_user_allocate_page : K Z :=
  pa <- alloc_page ;;
  va <- gets k_ufree_page ;;
  modify (set_k_ufree_page (u64 (va + PGSIZE))) ;;;
  pt <- cur p_pagetable ;;
  user_vm_map pt va PGSIZE pa perm_user_rw ;;;
  ret va.

Definition sys_user_free_page (va : Z) : K Z :=
  pt <- cur p_pagetable ;;
  user_vm_unmap pt va PGSIZE true ;;;
  ret 0.

Definition sys_user_fork : K Z := i <- current ;; do_fork i.

Definition sys_user_yield : K Z :=
  i <- current ;;
  insert_to_ready_queue i ;;;
  schedule.

Definition sys_user_wait (pid : Z) : K Z := do_wait pid.

Definition sys_user_getline (dst size : Z) : K Z :=
  i <- assert_current ;;
  pt <- getp i p_pagetable ;;
  pa <- user_va_to_pa pt dst ;;
  sgetline pa size ;;;
  ret 0.

Definition sys_user_exec (frame path argv : Z) : K Z := do_exec frame path argv ;;; ret 0.

Definition sys_user_open (pathva flags : Z) : K Z :=
  pt <- cur p_pagetable ;;
  pathpa <- user_va_to_pa pt pathva ;;
  do_open pathpa flags.

(** the loop shared by sys_user_read and sys_user_write: [i] is an int, compared
    with and added to 64-bit values *)
Definition transfer (io : Z -> Z -> Z -> K Z) (fd bufva count : Z) : K Z :=
  kwhile (fun i =>
    if u64 i <? count then
      let addr := u64 (bufva + i) in
      pt <- cur p_pagetable ;;
      pa <- lookup_pa pt addr ;;
      let off := addr - ROUNDDOWN addr PGSIZE in
      let len := if u64 (count - i) <? PGSIZE - off then u64 (count - i) else PGSIZE - off in
      r0 <- io fd (u64 (pa + off)) len ;;
      let r := u64 r0 in
      let i := s32 (i + r) in
      if r <? len then ret (inr i) else ret (inl i)
    else ret (inr (s64 count))) 0.

Definition sys_user_read (fd bufva count : Z) : K Z := transfer do_read fd bufva count.
Definition sys_user_write (fd bufva count : Z) : K Z := transfer do_write fd bufva count.
Definition sys_user_close (fd : Z) : K Z := do_close fd.
Definition sys_user_getinfo : K Z := do_getinfo.

(** the register values are converted to the types of the parameters *)
Definition do_syscall (frame a0 a1 a2 a3 a4 a5 a6 a7 : Z) : K Z :=
  if a0 =? SYS_user_print then sys_user_print a1 a2
  else if a0 =? SYS_user_exit then sys_user_exit a1
  else if a0 =? SYS_user_allocate_page then sys_user_allocate_page
  else if a0 =? SYS_user_free_page then sys_user_free_page a1
  else if a0 =? SYS_user_fork then sys_user_fork
  else if a0 =? SYS_user_yield then sys_user_yield
  else if a0 =? SYS_user_wait then sys_user_wait (s32 a1)
  else if a0 =? SYS_user_getline then sys_user_getline a1 (s32 a2)
  else if a0 =? SYS_user_exec then sys_user_exec frame a1 a2
  else if a0 =? SYS_user_open then sys_user_open a1 (s32 a2)
  else if a0 =? SYS_user_read then sys_user_read (s32 a1) a2 a3
  else if a0 =? SYS_user_write then sys_user_write (s32 a1) a2 a3
  else if a0 =? SYS_user_close then sys_user_close (s32 a1)
  else if a0 =? SYS_user_getinfo then sys_user_getinfo
  else panic "Unknown syscall".
(* ------------------------------------------------------------------ *)
(** * Properties *)

Lemma current_run s i : k_current s = Some i -> current s = Ok i s.
Proof. intros H. unfold current, bind, gets. by rewrite H. Qed.
Lemma cur_run {A} (f : process -> A) s i : k_current s = Some i -> cur f s = Ok (f (proc s i)) s.
Proof. intros H. unfold cur, bind, gets. by rewrite H. Qed.

(** the saved context of process [h] *)
Definition saved_context (s : kstate) (h : nat) : user_entry :=
  mkUser (trap_regs (k_mem s) (p_trapframe (proc s h)))
         (load64 (k_mem s) (p_trapframe (proc s h) + TF_epc))
         (MAKE_SATP (p_pagetable (proc s h))).

Lemma schedule_saved {A} s h l :
  queue s (h :: l) -> p_status (proc s h) = READY -> page_ok (p_trapframe (proc s h)) ->
  exists s', schedule (A := A) s = User (saved_context s h) s' /\ queue s' l /\
    k_current s' = Some h /\ k_procs s' = k_procs s.
Proof.
  intros Hq Hst Htf. destruct (schedule_pop (A := A) s h l Hq Hst Htf)
    as ([regs pc sa] & s' & E & Hq' & Er & Ep & Es & Hcur & Hps & _).
  cbn [ue_regs ue_pc ue_satp] in *. subst. exists s'. done.
Qed.

Lemma yield_rotate {A} s i h l :
  queue s l -> (i < NPROC)%nat -> i ∉ l -> runnable s l ->
  head (l ++ [i]) = Some h ->
  exists s', (insert_to_ready_queue i ;;; schedule (A := A)) s = User (saved_context s h) s' /\
    queue s' (tail (l ++ [i])) /\ k_current s' = Some h /\ p_status (proc s' i) = READY.
Proof.
  intros Hq Hi Hnin Hr Hh. destruct (insert_new s l i Hq Hi Hnin) as (s1 & E1 & Hq1 & Hfr & Hpi & Hpj).
  pose proof (runnable_insert s s1 l i Hr Hpi Hpj) as [Hr1 Ht1].
  destruct (l ++ [i]) as [|h' l'] eqn:El; [done|]. simpl in Hh. simplify_eq.
  assert (Hhb : (h < NPROC)%nat) by (destruct Hq1 as ((_ & Hb & _) & _ & <-); done).
  destruct (schedule_saved (A := A) s1 h l' Hq1 (Hr1 h ltac:(set_solver)) (Ht1 h Hhb)) as (s' & E & Hq' & Hc & Hps).
  assert (Hsame : saved_context s1 h = saved_context s h).
  { assert (k_mem s1 = k_mem s) by (destruct Hfr as [-> _]; done). unfold saved_context.
    assert (p_trapframe (proc s1 h) = p_trapframe (proc s h) /\ p_pagetable (proc s1 h) = p_pagetable (proc s h)) as [-> ->].
    { destruct (decide (h = i)) as [->|Hne]; [by rewrite Hpi|]. by destruct (Hpj h Hne) as [q ->]. }
    congruence. }
  exists s'. rewrite (bind_Ok _ _ _ _ _ E1), E, Hsame. split_and!; try done.
  unfold proc. rewrite Hps. change (p_status (proc s1 i) = READY). by rewrite Hpi.
Qed.

(** C27. [yield] is round robin: the calling process goes to the end of the ready
    queue and the head of the resulting queue runs, with its saved registers, pc
    and address space; alone in the system, the caller resumes. *)
Theorem sys_user_yield_rotates s i h l :
  k_current s = Some i -> queue s l -> (i < NPROC)%nat -> i ∉ l -> runnable s l ->
  head (l ++ [i]) = Some h ->
  exists s', sys_user_yield s = User (saved_context s h) s' /\
    queue s' (tail (l ++ [i])) /\ k_current s' = Some h /\ p_status (proc s' i) = READY.
Proof.
  intros Hc Hq Hi Hnin Hr Hh. unfold sys_user_yield. rewrite (bind_Ok _ _ _ _ _ (current_run s i Hc)).
  by apply yield_rotate.
Qed.

(** C28. [exit] turns the caller into a zombie and never returns to it: the head
    of the ready queue runs next; with an empty queue the machine shuts down with
    code 0 when every other process is FREE or ZOMBIE. *)
Theorem sys_user_exit_next s i code :
  k_current s = Some i -> (i < NPROC)%nat -> length (k_procs s) = NPROC ->
  (forall h l, queue s (h :: l) -> i ∉ h :: l -> runnable s (h :: l) ->
     exists s', sys_user_exit code s = User (saved_context s h) s' /\ queue s' l /\
       k_current s' = Some h /\ p_status (proc s' i) = ZOMBIE) /\
  (queue s [] -> (forall j, (j < NPROC)%nat -> j <> i -> p_status (proc s j) = FREE \/ p_status (proc s j) = ZOMBIE) ->
     exists s', sys_user_exit code s = Stop (Shutdown 0) s').
Proof.
  intros Hc Hi Hlen. set (s1 := updp i (set_p_status ZOMBIE) s).
  assert (E : forall A (k : K A), (free_process i ;;; k) s = k s1) by done.
  assert (Hq1 : forall l, queue s l -> queue s1 l).
  { intros l (Hch & Hnd & Hln). split_and!; [|done|unfold s1; by rewrite updp_length].
    apply (qchain_frame s); [unfold s1; by rewrite updp_length| |done].
    intros j _. unfold s1. rewrite proc_updp by lia. by case_decide. }
  unfold sys_user_exit. rewrite (bind_Ok _ _ _ _ _ (current_run s i Hc)), E. split.
  - intros h l Hq Hnin [Hr Ht]. assert (Hhi : h <> i) by (intros ->; set_solver).
    assert (Hhb : (h < NPROC)%nat) by (destruct Hq as ((_ & Hb & _) & _ & <-); done).
    assert (Hph : proc s1 h = proc s h) by (unfold s1; by rewrite proc_updp_ne).
    destruct (schedule_saved (A := Z) s1 h l (Hq1 _ Hq)) as (s' & E' & Hq' & Hc' & Hps).
    { rewrite Hph. apply Hr. set_solver. } { rewrite Hph. by apply Ht. }
    exists s'. rewrite E'. split_and!; [|done|done|].
    + unfold saved_context. by rewrite Hph.
    + unfold proc. rewrite Hps. change (p_status (proc s1 i) = ZOMBIE). unfold s1. by rewrite proc_updp_eq by lia.
  - intros Hq Hj. exists s1. rewrite (schedule_empty s1 (Hq1 _ Hq)).
    assert (should_shutdown s1 = true) as ->; [|done].
    unfold should_shutdown. apply forallb_forall. intros j Hjs. apply in_seq in Hjs.
    rewrite orb_true_iff, !bool_decide_eq_true. unfold s1. rewrite proc_updp by lia.
    case_decide as Heq; [by right|]. apply Hj; [lia|done].
Qed.

(** A 64-bit count of bytes is reported as transferred although nothing is:
    [read] and [write] return the requested count for every descriptor and
    buffer, because the -1 of [do_read] and [do_write] is compared as an unsigned
    number. *)
Theorem sys_user_read_write_claim s i T fd bufva count :
  k_current s = Some i -> pt_rep (k_mem s) T (p_pagetable (proc s i)) ->
  0 <= bufva < 2 ^ 64 -> 0 < count < 2 ^ 63 ->
  sys_user_read fd bufva count s = Ok count s /\ sys_user_write fd bufva count s = Ok count s.
Proof.
  intros Hc Hr Hb Hcnt.
  assert (H : forall io, (forall a b c s', io a b c s' = Ok (-1) s') -> transfer io fd bufva count s = Ok count s).
  { intros io Hio. unfold transfer.
    apply (kwhile_rule (fun i s' => s' = s /\ (i = 0 \/ i = -1)) (fun i => i + 1)); [by split; [|left]|lia|].
    intros k s' (-> & Hk). destruct Hk as [-> | ->].
    - rewrite (u64_small 0), (proj2 (Z.ltb_lt 0 count)) by lia.
      rewrite (bind_Ok _ _ _ _ _ (cur_run p_pagetable s i Hc)).
      rewrite (bind_Ok _ _ _ _ _ (lookup_pa_spec _ _ _ _ Hr (proj1 (u64_range _)))).
      rewrite (bind_Ok _ _ _ _ _ (Hio _ _ _ _)).
      set (addr := u64 (bufva + 0)).
      assert (Hlen : (if u64 (count - 0) <? PGSIZE - (addr - ROUNDDOWN addr PGSIZE)
                      then u64 (count - 0) else PGSIZE - (addr - ROUNDDOWN addr PGSIZE)) <= u64 (-1)).
      { change (u64 (-1)) with (2 ^ 64 - 1). rewrite (u64_small (count - 0)) by lia.
        unfold ROUNDDOWN, PGSIZE. zcase; dlia. }
      rewrite (proj2 (Z.ltb_ge _ _)) by done. assert (s32 (0 + u64 (-1)) = -1) as -> by done.
      split; [by split; [|right]|lia].
    - change (u64 (-1)) with (2 ^ 64 - 1). rewrite (proj2 (Z.ltb_ge _ _)) by lia. simpl.
      by rewrite s64_small by lia. }
  split; by apply H.
Qed.
(** one page taken from the allocator: the page table is undisturbed *)
Lemma alloc_keeps_table root s T p l :
  pt_ok free_pages root s T (p :: l) ->
  exists s1, alloc_page s = Ok p s1 /\ pt_ok free_pages root s1 T l /\ kframe s s1 /\
    k_mem s1 = k_mem s /\ page_ok p /\ freeable s1 p /\ (p ∉ l) /\ (p ∉ table_pages T).
Proof.
  intros (Hr & Hf & Hsep). destruct (pa_pages _ _ Hf) as [Hnd Hoks].
  inversion Hnd; subst. inversion Hoks as [|? ? Hp _]; subst.
  destruct (pa_alloc _ _ _ Hf) as (s1 & E & Hf1 & Hk & Hm). exists s1. split_and!; try done.
  - split_and!; [by rewrite Hm|done|]. intros q Hq. apply Hsep. set_solver.
  - split; [apply Hp|]. destruct (kframe_bounds _ _ Hk) as [E1 E2]. unfold in_pool. rewrite E1, E2.
    destruct Hf as (_ & _ & Hin). by inversion Hin.
  - apply Hsep. set_solver.
Qed.

(** C8. User pages: [allocate_page] maps a free page, readable and writable, at
    the heap address [g_ufree_page], advances that address by a page and returns
    it; [free_page] of that address then gives the physical page back and leaves
    every translation as it was before. *)
Theorem user_page_roundtrip s i T p l :
  let pt := p_pagetable (proc s i) in
  let va := k_ufree_page s in
  k_current s = Some i -> pt_ok free_pages pt s T (p :: l) -> (2 <= length l)%nat ->
  va mod PGSIZE = 0 -> 0 <= va -> va + PGSIZE <= MAXVA ->
  (forall a, page_of a = va -> flag (leaf (k_mem s) T a) PTE_V = false) ->
  exists s1 s2 T1 l1, sys_user_allocate_page s = Ok va s1 /\
    k_ufree_page s1 = va + PGSIZE /\ pt_ok free_pages pt s1 T1 l1 /\
    (forall a, 0 <= a < MAXVA -> page_of a = va -> user_va_to_pa pt a s1 = Ok (p + a mod PGSIZE) s1) /\
    sys_user_free_page va s1 = Ok 0 s2 /\ pt_ok free_pages pt s2 T1 (p :: l1) /\
    forall a, 0 <= a < MAXVA -> exists v, user_va_to_pa pt a s = Ok v s /\ user_va_to_pa pt a s2 = Ok v s2.
Proof.
  intros pt va Hc Hok Hl Hal Hva Hmax Hinv.
  destruct (alloc_keeps_table pt s T p l Hok) as (sa & Ea & Hoka & Hka & Hma & Hp & Hfr & Hpl & HpT).
  set (sb := set_k_ufree_page (u64 (va + PGSIZE)) sa).
  assert (Hokb : pt_ok free_pages pt sb T l).
  { destruct Hoka as (H1 & H2 & H3). split_and!; [done|by apply (pa_frame sa)|done]. }
  assert (Hcb : k_current sb = Some i) by (rewrite <- Hc; exact (kframe_current _ _ Hka)).
  assert (Hptb : p_pagetable (proc sb i) = pt) by by apply (kframe_proc p_pagetable s sa).
  pose proof (page_ok_range p Hp) as Hpr.
  destruct (user_map_page pt sb T l va p perm_user_rw) as (s1 & T1 & l1 & E1 & Hok1 & Hst & _ & Hlf); try done.
  { intros a Ha. simpl. rewrite Hma. by apply Hinv. }
  pose proof (ps_frame _ _ _ Hst) as Hk1. cbn [fst snd] in Hk1.
  assert (Hc1 : k_current s1 = Some i) by (rewrite (kframe_current _ _ Hk1); done).
  assert (Hpt1 : p_pagetable (proc s1 i) = pt) by (rewrite <- Hptb; by apply (kframe_proc p_pagetable sb s1)).
  assert (Hpl1 : (p ∉ l1) /\ (p ∉ table_pages T1)).
  { destruct (ps_used _ _ _ Hst) as (u & Eu & Hu). cbn [fst snd] in Eu, Hu. rewrite Eu in Hpl.
    split; [set_solver|]. intros Hin. destruct (Hu p Hin); set_solver. }
  destruct Hpl1 as [Hpl1 HpT1].
  assert (Hleaf : leaf (k_mem s1) T1 va = mkpte p perm_user_rw).
  { rewrite Hlf by (unfold PGSIZE in *; lia). rewrite decide_True; [done|]. apply page_of_in; [done|unfold PGSIZE; lia]. }
  assert (Hpa : mapped_pages (k_mem s1) T1 va 1 = [p]).
  { change (mapped_pages (k_mem s1) T1 va 1) with [PTE2PA (leaf (k_mem s1) T1 (va + PGSIZE * Z.of_nat 0))].
    rewrite Z.mul_0_r, Z.add_0_r, Hleaf, PTE2PA_mkpte; [done|done|unfold PGSIZE in *; lia|apply Hp]. }
  destruct (kframe_bounds _ _ Hk1) as [B1 B2].
  destruct (user_vm_unmap_spec pt s1 T1 l1 va 1 true) as (s2 & E2 & Hok2 & _ & _ & Hlf2); try done.
  { intros [|k] Hk; [|lia]. rewrite Z.mul_0_r, Z.add_0_r, Hleaf. split; [apply flag_mkpte_V|].
    intros E%(f_equal (fun z => Z.testbit z 1)). unfold PTE_FLAGS in E. change 0x3FF with (Z.ones 10) in E.
    rewrite Z.land_spec, mkpte_testbit_low in E by lia. done. }
  { intros _. rewrite Hpa. split; [apply NoDup_singleton|]. intros q ->%list_elem_of_singleton.
    split_and!; try done. unfold freeable, in_pool in *. rewrite B1, B2. done. }
  exists s1, s2, T1, l1. split_and!; try done.
  - unfold sys_user_allocate_page. rewrite (bind_Ok _ _ _ _ _ Ea). erewrite bind_Ok; [|reflexivity].
    assert (k_ufree_page sa = va) as -> by (apply (f_equal k_ufree_page) in Hka; done).
    rewrite (bind_Ok _ _ _ tt sb) by done. rewrite (bind_Ok _ _ _ _ _ (cur_run p_pagetable sb i Hcb)), Hptb.
    by rewrite (bind_Ok _ _ _ _ _ E1).
  - apply (f_equal k_ufree_page) in Hk1. etrans; [exact Hk1|]. simpl. apply u64_small. unfold MAXVA, PGSIZE in *. lia.
  - intros a Ha Hpg. rewrite (user_va_to_pa_spec pt a s1 T1 (proj1 Hok1) Ha), Hlf, decide_True by done.
    cbv zeta. rewrite pte_pa_mkpte; [|done|unfold PGSIZE in *; lia|apply Hp|done].
    rewrite (proj2 (Z.eqb_neq _ _)) by (by apply page_ok_nonzero). f_equal. apply u64_small. unfold PGSIZE in *. dlia.
  - unfold sys_user_free_page. rewrite (bind_Ok _ _ _ _ _ (cur_run p_pagetable s1 i Hc1)), Hpt1.
    by rewrite (bind_Ok _ _ _ _ _ E2).
  - by rewrite Hpa in Hok2.
  - intros a Ha. destruct Hok as (Hr & _). eexists. split; [by apply (user_va_to_pa_spec pt a s T)|].
    rewrite (user_va_to_pa_spec pt a s2 T1 (proj1 Hok2) Ha), Hlf2, Hlf by done. simpl k_mem. rewrite Hma.
    case_decide as D1; [|case_decide as D2; [|done]].
    + assert (E : flag (leaf (k_mem s) T a) PTE_V = false).
      { apply Hinv. apply page_of_in; [done|unfold PGSIZE in *; lia]. }
      unfold pte_pa. by rewrite E.
    + exfalso. apply D1. apply page_of_iff in D2; [|done]. unfold PGSIZE in *. lia.
Qed.

(** The dispatcher panics on every number that is not a system call, and
    leaves the state alone. *)
Theorem do_syscall_unknown s frame a0 a1 a2 a3 a4 a5 a6 a7 :
  a0 < SYS_user_base \/ SYS_user_yield < a0 < SYS_user_wait \/ SYS_user_getinfo < a0 ->
  do_syscall frame a0 a1 a2 a3 a4 a5 a6 a7 s = Stop (Panic "Unknown syscall") s.
Proof.
  intros H. unfold do_syscall, SYS_user_print, SYS_user_exit, SYS_user_allocate_page, SYS_user_free_page,
    SYS_user_fork, SYS_user_yield, SYS_user_wait, SYS_user_getline, SYS_user_exec, SYS_user_open,
    SYS_user_read, SYS_user_write, SYS_user_close, SYS_user_getinfo, SYS_user_base in *.
  repeat (rewrite (proj2 (Z.eqb_neq a0 _)) by lia). done.
Qed.
End Syscall.
(* ------------------------------------------------------------------ *)
(** * Witnesses *)

(** process 5 runs, process 2 is ready *)
Definition demo_two : @kstate Demo.platform := set_k_current (Some 5%nat) demo_ready.

Lemma demo_two_proc i :
  (i < NPROC)%nat -> proc demo_two i =
    if decide (2%nat = i) then set_p_status READY (set_p_trapframe 0x80030000 null_proc)
    else set_p_trapframe 0x80030000 null_proc.
Proof.
  intros Hi. change (proc demo_two i) with (proc (updp 2 (set_p_status READY) demo_procs) i).
  rewrite proc_updp by (apply Nat.ltb_lt; by vm_compute). by rewrite demo_proc.
Qed.
Lemma demo_two_queue : queue demo_two [2%nat].
Proof. split_and!; [split_and!; [done|apply Nat.ltb_lt; by vm_compute|done]|apply NoDup_singleton|done]. Qed.
Lemma demo_two_runnable : runnable demo_two [2%nat].
Proof.
  split.
  - intros i ->%list_elem_of_singleton. done.
  - intros i Hi. rewrite demo_two_proc by done. case_decide; by vm_compute.
Qed.

Lemma sys_user_yield_rotates_witness :
  exists s', sys_user_yield demo_two = User (saved_context demo_two 2) s' /\
    queue s' [5%nat] /\ k_current s' = Some 2%nat /\ p_status (proc s' 5) = READY.
Proof.
  apply (sys_user_yield_rotates demo_two 5 2 [2%nat]);
    [done|apply demo_two_queue|by apply Nat.ltb_lt|by rewrite list_elem_of_singleton|apply demo_two_runnable|done].
Defined.
Lemma sys_user_exit_next_witness :
  exists s', sys_user_exit 0 demo_two = User (saved_context demo_two 2) s' /\ queue s' [] /\
    k_current s' = Some 2%nat /\ p_status (proc s' 5) = ZOMBIE.
Proof.
  apply (proj1 (sys_user_exit_next demo_two 5 0 eq_refl ltac:(by apply Nat.ltb_lt) eq_refl));
    [apply demo_two_queue|by rewrite list_elem_of_singleton|apply demo_two_runnable].
Defined.

(** process 0 runs in the address space of [demo_space] *)
Definition demo_user : @kstate Demo.platform := set_k_current (Some 0%nat) demo_space.
Lemma demo_user_pt : pt_ok free_pages 0x80021000 demo_user (fresh_table 0x80021000) demo_free.
Proof. exact (so_pt _ _ _ demo_space_ok). Qed.

Lemma sys_user_read_write_claim_witness :
  sys_user_read 3 0x400000 100 demo_user = Ok 100 demo_user /\
  sys_user_write 3 0x400000 100 demo_user = Ok 100 demo_user.
Proof.
  apply (sys_user_read_write_claim demo_user 0 (fresh_table 0x80021000) 3 0x400000 100);
    [done|apply demo_user_pt|lia|lia].
Defined.
Lemma user_page_roundtrip_witness :
  exists s1 s2 T1 l1, sys_user_allocate_page demo_user = Ok 0x400000 s1 /\
    user_va_to_pa 0x80021000 0x400008 s1 = Ok 0x80025008 s1 /\
    sys_user_free_page 0x400000 s1 = Ok 0 s2 /\ pt_ok free_pages 0x80021000 s2 T1 (0x80025000 :: l1).
Proof.
  destruct (user_page_roundtrip demo_user 0 (fresh_table 0x80021000) 0x80025000
    [0x80026000; 0x80027000; 0x80028000; 0x80029000; 0x8002a000])
    as (s1 & s2 & T1 & l1 & E1 & _ & _ & Ha & E2 & Hok & _);
    [done|apply demo_user_pt|simpl; lia|done|done|done|intros a _; by rewrite leaf_fresh|].
  exists s1, s2, T1, l1. split; [exact E1|]. clear E1. split; [|split; [exact E2|exact Hok]]. clear E2.
  apply (Ha 0x400008); done.
Defined.
Lemma do_syscall_unknown_witness :
  do_syscall 0 72 0 0 0 0 0 0 0 demo_user = Stop (Panic "Unknown syscall") demo_user.
Proof. apply (do_syscall_unknown demo_user 0 72 0 0 0 0 0 0 0). right. left. done. Defined.
