(* ===== verification/Trap.v ===== *)
(** kernel/strap.c, kernel/machine/mtrap.c, kernel/machine/minit.c,
    kernel/kernel.c: traps and the boot sequence.

    The memory-mapped timer (CLINT) is read and written without the bounds of the
    direct map: machine mode runs before and beside paging. *)

From S2P Require Import Prelude Machine Pmm StringC Vmm Sched SpikeFile File Process Elf Syscall Dts.

(** riscv.h *)
Definition CAUSE_MISALIGNED_FETCH : Z := 0.
Definition CAUSE_FETCH_ACCESS : Z := 1.
Definition CAUSE_ILLEGAL_INSTRUCTION : Z := 2.
Definition CAUSE_BREAKPOINT : Z := 3.
Definition CAUSE_MISALIGNED_LOAD : Z := 4.
Definition CAUSE_LOAD_ACCESS : Z := 5.
Definition CAUSE_MISALIGNED_STORE : Z := 6.
Definition CAUSE_STORE_ACCESS : Z := 7.
Definition CAUSE_USER_ECALL : Z := 8.
Definition CAUSE_FETCH_PAGE_FAULT : Z := 12.
Definition CAUSE_LOAD_PAGE_FAULT : Z := 13.
Definition CAUSE_STORE_PAGE_FAULT : Z := 15.
Definition CAUSE_MTIMER : Z := 0x8000000000000007.
Definition CAUSE_MTIMER_S_TRAP : Z := 0x8000000000000001.
Definition SIP_SSIP : Z := 2.
Definition TIME_SLICE_LEN : Z := 2.
Definition MSTATUS_MPP_MASK : Z := Z.shiftl 3 11.
Definition MSTATUS_MPP_S : Z := Z.shiftl 1 11.
Definition MSTATUS_MIE : Z := Z.shiftl 1 3.
Definition MIP_SSIP : Z := Z.shiftl 1 1.
Definition MIP_STIP : Z := Z.shiftl 1 5.
Definition MIP_SEIP : Z := Z.shiftl 1 9.
Definition MIE_MTIE : Z := Z.shiftl 1 7.
Definition SIE_SEIE : Z := Z.shiftl 1 9.
Definition SIE_STIE : Z := Z.shiftl 1 5.
Definition SIE_SSIE : Z := Z.shiftl 1 1.
Definition CLINT_MTIMECMP (hartid : Z) : Z := 0x2000000 + 0x4000 + 8 * hartid.
Definition CLINT_MTIME : Z := 0x2000000 + 0xBFF8.
Definition TIMER_INTERVAL : Z := 1000000.

Section Trap.
Context {PLAT : Platform}.

(* ------------------------------------------------------------------ *)
(** * kernel/strap.c *)

(** the [k]-th argument register, a0 being 0 *)
Definition tf_arg (tf k : Z) : Z := tf + TF_a0 + 8 * k.

Definition handle_syscall (frame tf : Z) : K unit :=
  epc <- ld64 (tf + TF_epc) ;;
  st64 (tf + TF_epc) (u64 (epc + 4)) ;;;
  a0 <- ld64 (tf_arg tf 0) ;; a1 <- ld64 (tf_arg tf 1) ;; a2 <- ld64 (tf_arg tf 2) ;;
  a3 <- ld64 (tf_arg tf 3) ;; a4 <- ld64 (tf_arg tf 4) ;; a5 <- ld64 (tf_arg tf 5) ;;
  a6 <- ld64 (tf_arg tf 6) ;; a7 <- ld64 (tf_arg tf 7) ;;
  r <- do_syscall frame a0 a1 a2 a3 a4 a5 a6 a7 ;;
  st64 (tf_arg tf 0) (u64 r).

Definition handle_mtimer_trap : K unit :=
  t <- gets k_ticks ;;
  modify (set_k_ticks (u64 (t + 1))) ;;;
  x <- read_csr sip ;;
  write_csr sip (Z.land x (Z.lnot SIP_SSIP)).

Definition handle_user_page_fault (mcause sepc stval : Z) : K unit :=
  if mcause =? CAUSE_STORE_PAGE_FAULT then
    newpage <- alloc_page ;;
    pt <- cur p_pagetable ;;
    user_vm_map pt (ROUNDDOWN stval PGSIZE) PGSIZE newpage perm_user_rw
  else ret tt.

Definition rrsched : K unit :=
  i <- current ;;
  setp i (fun p => set_p_tick_count (s32 (p_tick_count p + 1)) p) ;;;
  setp i (fun p => set_p_total_tick_count (s32 (p_total_tick_count p + 1)) p) ;;;
  t <- getp i p_tick_count ;;
  if TIME_SLICE_LEN <=? t then
    setp i (set_p_tick_count 0) ;;;
    insert_to_ready_queue i ;;;
    schedule
  else ret tt.

Definition smode_trap_handler {A} (frame : Z) : K A :=
  x <- read_csr sstatus ;;
  if negb (Z.land x SSTATUS_SPP =? 0) then panic "usertrap: not from user mode"
  else
    i <- assert_current ;;
    tf <- getp i p_trapframe ;;
    pc <- read_csr sepc ;;
    st64 (tf + TF_epc) pc ;;;
    cause <- read_csr scause ;;
    (if cause =? CAUSE_USER_ECALL then handle_syscall frame tf
     else if cause =? CAUSE_MTIMER_S_TRAP then handle_mtimer_trap ;;; rrsched
     else if (cause =? CAUSE_STORE_PAGE_FAULT) || (cause =? CAUSE_LOAD_PAGE_FAULT) then
       pc <- read_csr sepc ;; va <- read_csr stval ;; handle_user_page_fault cause pc va
     else panic "unexpected exception happened.") ;;;
    c <- gets k_current ;;
    match c with
    | Some i => switch_to i
    | None => halt (Poweroff "proc")
    end.

(** A trap from user mode with registers [regs] (x1 to x31), pc [pc], cause [cause]
    and [stval], through kernel/strap_vector.S: smode_trap_vector.  The registers
    go to the trapframe sscratch points to.  The vector keeps that address in t6
    before it stores t6, so entry 30 receives the address of the trapframe and the
    user's t6 is lost; sscratch is left with the user's a0.  Then the kernel page
    table is restored, and the handler whose address is in the trapframe runs.
    [Asm] derives this from the instructions. *)
Definition saved_regs (tf : Z) (regs : list Z) : list Z := <[30%nat := tf]> regs.
Definition trap_vector (regs : list Z) : K Z :=
  tf <- read_csr sscratch ;;
  write_csr sscratch (default 0 (regs !! 9%nat)) ;;;
  kfor (imap pair (saved_regs tf regs)) (fun '(k, v) => st64 (tf + 8 * Z.of_nat k) v) ;;;
  ld64 (tf + TF_kernel_sp) ;;;
  handler <- ld64 (tf + TF_kernel_trap) ;;
  ksatp <- ld64 (tf + TF_kernel_satp) ;;
  write_csr satp ksatp ;;;
  ret handler.
Definition smode_trap_entry {A} (frame : Z) (regs : list Z) (pc cause tval : Z) : K A :=
  write_csr sepc pc ;;; write_csr scause cause ;;; write_csr stval tval ;;;
  x <- read_csr sstatus ;;
  write_csr sstatus (Z.land x (Z.lnot SSTATUS_SPP)) ;;;
  handler <- trap_vector regs ;;
  if handler =? u64 smode_trap_handler_addr then smode_trap_handler frame else halt (Fault handler).

(* ------------------------------------------------------------------ *)
(** * kernel/machine/mtrap.c and minit.c *)

Definition clint_ld (a : Z) : K Z := gets (fun s => load64 (k_mem s) a).
Definition clint_st (a v : Z) : K unit := modify (fun s => set_k_mem (store64 (k_mem s) a v) s).

Definition handle_timer : K unit :=
  let cpuid := 0 in
  t <- clint_ld (CLINT_MTIMECMP cpuid) ;;
  clint_st (CLINT_MTIMECMP cpuid) (u64 (t + TIMER_INTERVAL)) ;;;
  write_csr sip SIP_SSIP.

Definition handle_instruction_access_fault : K unit := panic "Instruction access fault!".
Definition handle_load_access_fault : K unit := panic "Load access fault!".
Definition handle_store_access_fault : K unit := panic "Store/AMO access fault!".
Definition handle_illegal_instruction : K unit := panic "Illegal instruction!".
Definition handle_misaligned_load : K unit := panic "Misaligned Load!".
Definition handle_misaligned_store : K unit := panic "Misaligned AMO!".

Definition handle_mtrap : K unit :=
  c <- read_csr mcause ;;
  if c =? CAUSE_MTIMER then handle_timer
  else if c =? CAUSE_FETCH_ACCESS then handle_instruction_access_fault
  else if c =? CAUSE_LOAD_ACCESS then handle_load_access_fault ;;; handle_store_access_fault
  else if c =? CAUSE_STORE_ACCESS then handle_store_access_fault
  else if c =? CAUSE_ILLEGAL_INSTRUCTION then handle_illegal_instruction
  else if c =? CAUSE_MISALIGNED_LOAD then handle_misaligned_load
  else if c =? CAUSE_MISALIGNED_STORE then handle_misaligned_store
  else panic "unexpected exception happened in M-mode.".

Definition supports_extension (ext : Z) : K bool :=
  x <- read_csr misa ;; ret (negb (Z.land x (Z.shiftl 1 (ext - 65)) =? 0)).

Definition delegated_interrupts : Z := Z.lor (Z.lor MIP_SSIP MIP_STIP) MIP_SEIP.
Definition delegated_exceptions : Z :=
  Z.lor (Z.shiftl 1 CAUSE_MISALIGNED_FETCH) (Z.lor (Z.shiftl 1 CAUSE_FETCH_PAGE_FAULT)
    (Z.lor (Z.shiftl 1 CAUSE_BREAKPOINT) (Z.lor (Z.shiftl 1 CAUSE_LOAD_PAGE_FAULT)
      (Z.lor (Z.shiftl 1 CAUSE_STORE_PAGE_FAULT) (Z.shiftl 1 CAUSE_USER_ECALL))))).

Definition delegate_traps : K unit :=
  b <- supports_extension 83 ;;
  if negb b then ret tt
  else
    write_csr mideleg delegated_interrupts ;;;
    write_csr medeleg delegated_exceptions ;;;
    i <- read_csr mideleg ;;
    e <- read_csr medeleg ;;
    if negb (i =? delegated_interrupts) then halt (Poweroff "read_csr(mideleg) == interrupts")
    else if negb (e =? delegated_exceptions) then halt (Poweroff "read_csr(medeleg) == exceptions")
    else ret tt.

Definition timerinit (hartid : Z) : K unit :=
  t <- clint_ld CLINT_MTIME ;;
  clint_st (CLINT_MTIMECMP hartid) (u64 (t + TIMER_INTERVAL)) ;;;
  x <- read_csr mie ;;
  write_csr mie (Z.lor x MIE_MTIE).

(** [h0] and [m0] are the uninitialised scan structures on the stacks of the two
    queries, with the value of [htif].  The messages are not modelled. *)
Definition init_dtb (dtb : Z) (h0 : htif_scan) (m0 : mem_scan) : K unit :=
  query_htif dtb h0 ;;;
  query_mem dtb m0.

(** mret then enters s_start *)
Definition m_start (hartid dtb : Z) (h0 : htif_scan) (m0 : mem_scan) : K unit :=
  spike_file_init ;;;
  init_dtb dtb h0 m0 ;;;
  write_csr mscratch (link_addr "g_itrframe") ;;;
  x <- read_csr mstatus ;;
  write_csr mstatus (Z.lor (Z.land x (Z.lnot MSTATUS_MPP_MASK)) MSTATUS_MPP_S) ;;;
  write_csr mepc (link_addr "s_start") ;;;
  write_csr mtvec (link_addr "mtrapvec") ;;;
  x <- read_csr mstatus ;;
  write_csr mstatus (Z.lor x MSTATUS_MIE) ;;;
  delegate_traps ;;;
  x <- read_csr sie ;;
  write_csr sie (Z.lor (Z.lor (Z.lor x SIE_SEIE) SIE_STIE) SIE_SSIE) ;;;
  timerinit hartid.

(* ------------------------------------------------------------------ *)
(** * kernel/kernel.c *)

Definition enable_paging : K unit :=
  root <- gets k_kernel_pagetable ;;
  write_csr satp (MAKE_SATP root).

Definition load_user_program (frame : Z) : K nat :=
  proc <- alloc_process ;;
  load_bincode_from_host_elf frame proc ;;;
  ret proc.

Definition s_start {A} (frame : Z) : K A :=
  write_csr satp 0 ;;;
  pmm_init ;;;
  kern_vm_init ;;;
  enable_paging ;;;
  init_proc_pool ;;;
  fs_init ;;;
  p <- load_user_program frame ;;
  insert_to_ready_queue p ;;;
  schedule.
(* ------------------------------------------------------------------ *)
(** * Properties *)

(** a page is left alone by writes elsewhere *)
Definition same_page (p : Z) (m m' : gmap Z Z) : Prop := forall a, page_of a = p -> load64 m' a = load64 m a.

Lemma same_page_regs p m m' : page_ok p -> same_page p m m' -> trap_regs m' p = trap_regs m p.
Proof.
  intros Hp H. unfold trap_regs. apply list_fmap_ext. intros k i [-> Hi]%lookup_seq.
  apply H. apply page_of_slot; [done|]. unfold PGSIZE. lia.
Qed.

(** entering the handler from user mode: the saved state before the cause is
    handled *)
Definition entered (s : kstate) (i : nat) (pc : Z) : kstate :=
  set_k_mem (store64 (k_mem s) (p_trapframe (proc s i) + TF_epc) pc) s.

Lemma handler_dispatch {A} frame s i cause (h : K unit) :
  k_current s = Some i -> page_ok (p_trapframe (proc s i)) ->
  Z.land (k_csr s sstatus) SSTATUS_SPP = 0 -> k_csr s scause = cause ->
  (cause = CAUSE_USER_ECALL /\ h = handle_syscall frame (p_trapframe (proc s i)) \/
   cause = CAUSE_MTIMER_S_TRAP /\ h = (handle_mtimer_trap ;;; rrsched) \/
   (cause = CAUSE_STORE_PAGE_FAULT \/ cause = CAUSE_LOAD_PAGE_FAULT) /\
     h = (pc <- read_csr sepc ;; va <- read_csr stval ;; handle_user_page_fault cause pc va)) ->
  smode_trap_handler (A := A) frame s =
  (h ;;; c <- gets k_current ;; match c with Some i => switch_to i | None => halt (Poweroff "proc") end)
    (entered s i (k_csr s sepc)).
Proof.
  intros Hc Htf Hspp Hcause Hh. unfold smode_trap_handler. erewrite bind_Ok; [|reflexivity].
  rewrite Hspp. cbn [Z.eqb negb]. rewrite (bind_Ok _ _ _ i s) by (unfold assert_current, bind, gets; by rewrite Hc).
  do 2 (erewrite bind_Ok; [|reflexivity]).
  rewrite (bind_Ok _ _ _ tt (entered s i (k_csr s sepc))).
  2:{ apply st64_ok, page_ok_addr; done. }
  erewrite bind_Ok; [|reflexivity]. change (k_csr (entered s i (k_csr s sepc)) scause) with (k_csr s scause).
  rewrite Hcause. destruct Hh as [[-> ->]|[[-> ->]|[[-> | ->] ->]]]; reflexivity.
Qed.

(** resuming the current process *)
Lemma resume {A} s i :
  k_current s = Some i -> page_ok (p_trapframe (proc s i)) ->
  exists s', (c <- gets k_current ;; match c with Some i => switch_to i | None => halt (Poweroff "proc") end) s =
    (User (saved_context s i) s' : res A) /\ k_current s' = Some i.
Proof.
  intros Hc Htf. destruct (switch_to_spec (A := A) s i Htf) as (c' & E & _).
  eexists. unfold bind at 1, gets. rewrite Hc, E. done.
Qed.
(** the state in which a system call runs: pc past the ecall instruction *)
Definition in_syscall (s : kstate) (i : nat) : kstate :=
  entered (entered s i (k_csr s sepc)) i (u64 (k_csr s sepc + 4)).
(** argument register [k] in the trapframe of process [i] *)
Definition arg (s : kstate) (i : nat) (k : Z) : Z := load64 (k_mem s) (tf_arg (p_trapframe (proc s i)) k).


Lemma entered_regs s i pc :
  page_ok (p_trapframe (proc s i)) ->
  trap_regs (k_mem (entered s i pc)) (p_trapframe (proc s i)) = trap_regs (k_mem s) (p_trapframe (proc s i)).
Proof.
  intros Hp. unfold trap_regs. apply list_fmap_ext. intros k j [-> Hj]%lookup_seq. simpl.
  apply load64_store64_ne. destruct Hp. unfold TF_epc, PGSIZE in *. dlia.
Qed.

(** A system call that returns resumes its caller: the process continues
    after the ecall instruction with the result in a0 and every other register as
    the trapframe has it, whatever the call did elsewhere, provided the call left the process
    current and its trapframe page alone. *)
Theorem syscall_resumes frame s i r s2 :
  let tf := p_trapframe (proc s i) in
  let s1 := in_syscall s i in
  k_current s = Some i -> page_ok tf ->
  Z.land (k_csr s sstatus) SSTATUS_SPP = 0 -> k_csr s scause = CAUSE_USER_ECALL ->
  do_syscall frame (arg s i 0) (arg s i 1) (arg s i 2) (arg s i 3) (arg s i 4) (arg s i 5) (arg s i 6) (arg s i 7) s1
    = Ok r s2 ->
  k_current s2 = Some i -> p_trapframe (proc s2 i) = tf -> same_page tf (k_mem s1) (k_mem s2) ->
  exists u s', smode_trap_handler (A := unit) frame s = User u s' /\ k_current s' = Some i /\
    ue_pc u = u64 (k_csr s sepc + 4) /\
    ue_regs u = <[9%nat := u64 r]> (trap_regs (k_mem s) tf) /\
    ue_satp u = MAKE_SATP (p_pagetable (proc s2 i)).
Proof.
  intros tf s1 Hc Htf Hspp Hcause Hcall Hc2 Htf2 Hpg.
  rewrite (handler_dispatch frame s i CAUSE_USER_ECALL (handle_syscall frame tf)) by (done || by left).
  set (s0 := entered s i (k_csr s sepc)).
  assert (Hok : forall o, 0 <= o -> o + 8 <= PGSIZE -> o mod 8 = 0 -> addr_ok 8 (tf + o) = true)
    by (intros; by apply page_ok_addr).
  assert (Hal : tf mod 8 = 0) by (destruct Htf; unfold PGSIZE in *; dlia).
  assert (E1 : handle_syscall frame tf s0 = Ok tt (set_k_mem (store64 (k_mem s2) (tf + 72) (u64 r)) s2)).
  { unfold handle_syscall. rewrite (bind_Ok _ _ _ _ _ (ld64_ok _ _ (Hok TF_epc ltac:(done) ltac:(done) ltac:(done)))).
    assert (load64 (k_mem s0) (tf + TF_epc) = u64 (k_csr s sepc)) as -> by apply load64_store64_eq.
    rewrite (bind_Ok _ _ _ tt s1).
    2:{ rewrite st64_ok by (by apply Hok). unfold s1, in_syscall. do 2 f_equal. unfold u64.
        rewrite Zplus_mod_idemp_l. done. }
    assert (Harg : forall k, 0 <= k < 8 -> ld64 (tf_arg tf k) s1 = Ok (arg s i k) s1).
    { intros k Hk. rewrite ld64_ok.
      - f_equal. unfold arg, s1, in_syscall, entered. cbn [k_mem set_k_mem].
        change (p_trapframe (proc (set_k_mem _ s) i)) with tf. fold tf. unfold tf_arg, TF_a0, TF_epc.
        rewrite !load64_store64_ne by dlia. done.
      - unfold tf_arg, TF_a0. rewrite <- Z.add_assoc. apply Hok; unfold PGSIZE; dlia. }
    do 8 (erewrite bind_Ok; [|apply Harg; lia]). rewrite (bind_Ok _ _ _ _ _ Hcall).
    unfold tf_arg. rewrite Z.mul_0_r, Z.add_0_r. by apply st64_ok, Hok. }
  rewrite (bind_Ok _ _ _ _ _ E1). set (s3 := set_k_mem _ s2).
  assert (Htf3 : p_trapframe (proc s3 i) = tf) by done.
  destruct (resume (A := unit) s3 i) as (s' & E & Hc'); [done|by rewrite Htf3|].
  exists (saved_context s3 i), s'. rewrite E. unfold saved_context. cbn [ue_pc ue_regs ue_satp]. rewrite Htf3.
  split_and!; try done.
  - simpl. rewrite load64_store64_ne by (unfold TF_epc; dlia).
    rewrite Hpg by (by apply page_of_slot). unfold s1, in_syscall, entered. simpl. fold tf.
    rewrite load64_store64_eq. apply Z.mod_mod. done.
  - change (tf + 72) with (tf + 8 * Z.of_nat 9) in s3. unfold s3. cbn [k_mem set_k_mem].
    rewrite trap_regs_insert by (done || lia || apply u64_range). f_equal.
    rewrite (same_page_regs tf (k_mem s1)) by done. unfold s1, in_syscall.
    change tf with (p_trapframe (proc s0 i)). rewrite entered_regs by done.
    change (p_trapframe (proc s0 i)) with tf. by apply entered_regs.
Qed.

(** the state after a timer interrupt of process [i] has been counted *)
Definition ticked (s : kstate) (i : nat) : kstate :=
  updp i (fun p => set_p_total_tick_count (s32 (p_total_tick_count p + 1)) p)
    (updp i (fun p => set_p_tick_count (s32 (p_tick_count p + 1)) p)
      (set_k_csr (fun r => if decide (r = sip) then Z.land (k_csr s sip) (Z.lnot SIP_SSIP) else k_csr s r)
        (set_k_ticks (u64 (k_ticks s + 1)) (entered s i (k_csr s sepc))))).

Lemma ticked_proc s i j :
  (i < length (k_procs s))%nat ->
  proc (ticked s i) j = if decide (i = j)
    then set_p_total_tick_count (s32 (p_total_tick_count (proc s j) + 1))
           (set_p_tick_count (s32 (p_tick_count (proc s j) + 1)) (proc s j))
    else proc s j.
Proof.
  intros Hi. unfold ticked. rewrite !proc_updp by (rewrite ?updp_length; done). by case_decide.
Qed.

Lemma timer_run {A} frame s i :
  k_current s = Some i -> (i < length (k_procs s))%nat -> page_ok (p_trapframe (proc s i)) ->
  Z.land (k_csr s sstatus) SSTATUS_SPP = 0 -> k_csr s scause = CAUSE_MTIMER_S_TRAP ->
  smode_trap_handler (A := A) frame s =
  ((t <- getp i p_tick_count ;;
    if TIME_SLICE_LEN <=? t then setp i (set_p_tick_count 0) ;;; insert_to_ready_queue i ;;; schedule else ret tt) ;;;
   c <- gets k_current ;; match c with Some i => switch_to i | None => halt (Poweroff "proc") end) (ticked s i).
Proof.
  intros Hc Hi Htf Hspp Hcause.
  rewrite (handler_dispatch frame s i CAUSE_MTIMER_S_TRAP (handle_mtimer_trap ;;; rrsched)) by (done || by right; left).
  rewrite bind_assoc. unfold handle_mtimer_trap. rewrite !bind_assoc. erewrite bind_Ok; [|reflexivity].
  rewrite bind_assoc. erewrite bind_Ok; [|reflexivity]. rewrite bind_assoc. erewrite bind_Ok; [|reflexivity].
  erewrite bind_Ok; [|reflexivity]. unfold rrsched. rewrite bind_assoc.
  rewrite (bind_Ok _ _ _ i _) by by apply current_run. rewrite !bind_assoc.
  erewrite bind_Ok; [|apply setp_run]. rewrite bind_assoc. erewrite bind_Ok; [|apply setp_run]. reflexivity.
Qed.

(** A timer interrupt within the time slice is invisible to the process: it
    resumes at the interrupted pc with its saved registers and address space; the
    interrupt is counted in [g_ticks] and in the process, and the pending bit is
    cleared. *)
Theorem timer_within_slice frame s i :
  let p := proc s i in
  k_current s = Some i -> (i < length (k_procs s))%nat -> page_ok (p_trapframe p) ->
  Z.land (k_csr s sstatus) SSTATUS_SPP = 0 -> k_csr s scause = CAUSE_MTIMER_S_TRAP ->
  p_tick_count p = 0 -> 0 <= k_csr s sepc < 2 ^ 64 ->
  exists s', smode_trap_handler (A := unit) frame s =
      User (mkUser (trap_regs (k_mem s) (p_trapframe p)) (k_csr s sepc) (MAKE_SATP (p_pagetable p))) s' /\
    k_current s' = Some i /\ k_ticks s' = u64 (k_ticks s + 1) /\
    p_tick_count (proc s' i) = 1 /\ Z.testbit (k_csr s' sip) 1 = false.
Proof.
  intros p Hc Hi Htf Hspp Hcause Ht Hpc. rewrite (timer_run frame s i) by done.
  assert (Hp : proc (ticked s i) i = set_p_total_tick_count (s32 (p_total_tick_count p + 1)) (set_p_tick_count 1 p)).
  { rewrite ticked_proc, decide_True by done. fold p. by rewrite Ht. }
  rewrite (bind_Ok _ _ _ tt (ticked s i)).
  2:{ erewrite bind_Ok; [|reflexivity]. rewrite Hp. done. }
  assert (Htf' : p_trapframe (proc (ticked s i) i) = p_trapframe p) by (by rewrite Hp).
  destruct (switch_to_spec (A := unit) (ticked s i) i) as (c' & E & Hcsr); [by rewrite Htf'|].
  eexists. split.
  { unfold bind, gets. change (k_current (ticked s i)) with (k_current s). rewrite Hc, E. rewrite Htf', Hp.
    change (k_mem (ticked s i)) with (k_mem (entered s i (k_csr s sepc))). unfold p at 1. rewrite entered_regs by done.
    f_equal. f_equal. unfold entered. cbn [k_mem set_k_mem]. fold p. rewrite load64_store64_eq. by apply u64_small. }
  split_and!; [done|done| |].
  - change (p_tick_count (proc (ticked s i) i) = 1). by rewrite Hp.
  - cbn [k_csr set_k_csr]. rewrite Hcsr. unfold user_csrs. cbv iota. cbn [k_csr set_k_csr ticked updp set_k_procs].
    rewrite decide_True, Z.land_spec, Z.lnot_spec by (done || lia). change (Z.testbit SIP_SSIP 1) with true.
    by rewrite andb_false_r.
Qed.


(** Traps from kernel mode, and traps with an unexpected cause, panic. *)
Theorem unexpected_traps_panic frame s i :
  (Z.land (k_csr s sstatus) SSTATUS_SPP <> 0 ->
     smode_trap_handler (A := unit) frame s = Stop (Panic "usertrap: not from user mode") s) /\
  (Z.land (k_csr s sstatus) SSTATUS_SPP = 0 -> k_current s = Some i -> page_ok (p_trapframe (proc s i)) ->
     k_csr s scause ∉ [CAUSE_USER_ECALL; CAUSE_MTIMER_S_TRAP; CAUSE_STORE_PAGE_FAULT; CAUSE_LOAD_PAGE_FAULT] ->
     exists s', smode_trap_handler (A := unit) frame s = Stop (Panic "unexpected exception happened.") s').
Proof.
  split.
  - intros H. unfold smode_trap_handler. erewrite bind_Ok; [|reflexivity].
    by rewrite (proj2 (Z.eqb_neq _ _)).
  - intros Hspp Hc Htf Hcause. exists (entered s i (k_csr s sepc)). unfold smode_trap_handler.
    erewrite bind_Ok; [|reflexivity]. rewrite Hspp. cbn [Z.eqb negb].
    rewrite (bind_Ok _ _ _ i s) by (unfold assert_current, bind, gets; by rewrite Hc).
    do 2 (erewrite bind_Ok; [|reflexivity]).
    rewrite (bind_Ok _ _ _ tt (entered s i (k_csr s sepc))) by (apply st64_ok, page_ok_addr; done).
    erewrite bind_Ok; [|reflexivity]. change (k_csr (entered s i (k_csr s sepc)) scause) with (k_csr s scause).
    rewrite !elem_of_cons, elem_of_nil in Hcause.
    by rewrite !(proj2 (Z.eqb_neq _ _)) by tauto.
Qed.
(** C26. A store to an unmapped page grows the address space: the handler takes a
    free page, maps it readable and writable for the user at the faulting page,
    and the process resumes at the faulting instruction with its registers, the
    faulting address now translating into the new page and every other address as
    before. *)
Theorem store_fault_maps_page frame s i T q l va :
  let p := proc s i in
  let tf := p_trapframe p in
  let pt := p_pagetable p in
  k_current s = Some i -> page_ok tf -> pt_ok free_pages pt s T (q :: l) -> (2 <= length l)%nat ->
  (tf ∉ table_pages T) -> (tf ∉ q :: l) ->
  Z.land (k_csr s sstatus) SSTATUS_SPP = 0 -> k_csr s scause = CAUSE_STORE_PAGE_FAULT ->
  k_csr s stval = va -> 0 <= va -> page_of va + PGSIZE <= MAXVA -> 0 <= k_csr s sepc < 2 ^ 64 ->
  (forall a, page_of a = page_of va -> flag (leaf (k_mem s) T a) PTE_V = false) ->
  exists s' T', smode_trap_handler (A := unit) frame s =
      User (mkUser (trap_regs (k_mem s) tf) (k_csr s sepc) (MAKE_SATP pt)) s' /\
    pt_rep (k_mem s') T' pt /\
    forall a, 0 <= a < MAXVA -> exists v, user_va_to_pa pt a s = Ok v s /\
      user_va_to_pa pt a s' = Ok (if decide (page_of a = page_of va) then q + a mod PGSIZE else v) s'.
Proof.
  intros p tf pt Hc Htf Hok Hl HtT Htl Hspp Hcause Hst Hva Hmax Hpc Hinv.
  rewrite (handler_dispatch frame s i CAUSE_STORE_PAGE_FAULT
    (pc <- read_csr sepc ;; va <- read_csr stval ;; handle_user_page_fault CAUSE_STORE_PAGE_FAULT pc va))
    by (done || by right; right; split; [left|]).
  set (s0 := entered s i (k_csr s sepc)).
  assert (Hm0 : same_outside {[tf]} (k_mem s) (k_mem s0)).
  { unfold s0, entered. cbn [k_mem set_k_mem]. eapply same_outside_mono; [|apply store64_outside].
    fold p tf. by rewrite page_of_slot. }
  destruct (pt_ok_write pt s T (q :: l) (k_mem s0) {[tf]} Hok Hm0) as [Hok0 Hlf0]; [set_solver|set_solver|].
  change (set_k_mem (k_mem s0) s) with s0 in Hok0.
  destruct (alloc_keeps_table pt s0 T q l Hok0) as (s1 & E1 & Hok1 & Hk1 & Hm1 & Hq & _ & Hql & HqT).
  assert (Hal : page_of va mod PGSIZE = 0) by apply page_of_aligned.
  assert (Hge : 0 <= page_of va) by (unfold page_of, ROUNDDOWN, PGSIZE; dlia).
  destruct (user_map_page pt s1 T l (page_of va) q perm_user_rw) as (s2 & T2 & l2 & E2 & Hok2 & Hst2 & _ & Hlf2); try done.
  { by apply page_ok_range. } { intros a Ha. rewrite Hm1, Hlf0. by apply Hinv. }
  assert (HtT2 : tf ∉ table_pages T2).
  { destruct (ps_used _ _ _ Hst2) as (u & Eu & Hu). cbn [fst snd] in Eu, Hu. intros Hin.
    destruct (Hu tf Hin) as [?|?]; [done|]. apply Htl. rewrite Eu. set_solver. }
  assert (Hk2 : kframe s0 s2) by (etrans; [done|]; exact (ps_frame _ _ _ Hst2)).
  assert (Hc2 : k_current s2 = Some i) by (rewrite (kframe_current _ _ Hk2); exact Hc).
  assert (Htf2 : p_trapframe (proc s2 i) = tf) by by apply (kframe_proc p_trapframe s0 s2).
  assert (Hpt2 : p_pagetable (proc s2 i) = pt) by by apply (kframe_proc p_pagetable s0 s2).
  assert (Hpg : same_page tf (k_mem s0) (k_mem s2)).
  { intros a Ha. rewrite <- Hm1. apply (ps_mem _ _ _ Hst2). cbn [fst snd]. by rewrite Ha. }
  destruct (switch_to_spec (A := unit) s2 i) as (c' & E3 & _); [by rewrite Htf2|]. rewrite Htf2, Hpt2 in E3.
  assert (Hregs : trap_regs (k_mem s2) tf = trap_regs (k_mem s) tf).
  { rewrite (same_page_regs tf (k_mem s0)) by done. by apply entered_regs. }
  assert (Hepc : load64 (k_mem s2) (tf + TF_epc) = k_csr s sepc).
  { rewrite Hpg by (by apply page_of_slot). unfold s0, entered. cbn [k_mem set_k_mem]. fold p tf.
    rewrite load64_store64_eq. by apply u64_small. }
  rewrite Hregs, Hepc in E3. set (m3 := armed _ _ _ _) in E3.
  assert (Hm3 : same_outside {[tf]} (k_mem s2) m3) by by apply armed_outside.
  destruct (pt_ok_write pt s2 T2 l2 m3 {[tf]} Hok2 Hm3) as [(Hr3 & _) Hlf3]; [set_solver| |].
  { destruct (ps_used _ _ _ Hst2) as (u & Eu & _). cbn [fst snd] in Eu. rewrite Eu in Htl. set_solver. }
  match type of E3 with _ = User _ ?st => exists st, T2 end. split; [|split; [exact Hr3|]].
  - rewrite !bind_assoc. erewrite bind_Ok; [|reflexivity]. rewrite bind_assoc. erewrite bind_Ok; [|reflexivity].
    unfold handle_user_page_fault. rewrite Z.eqb_refl. rewrite bind_assoc, (bind_Ok _ _ _ _ _ E1), bind_assoc.
    assert (Hc1 : k_current s1 = Some i) by (rewrite (kframe_current _ _ Hk1); exact Hc).
    rewrite (bind_Ok _ _ _ _ _ (cur_run p_pagetable s1 i Hc1)).
    assert (p_pagetable (proc s1 i) = pt) as -> by by apply (kframe_proc p_pagetable s0 s1).
    change (k_csr s0 stval) with (k_csr s stval). rewrite Hst. change (ROUNDDOWN va PGSIZE) with (page_of va).
    rewrite (bind_Ok _ _ _ _ _ E2). unfold bind, gets. rewrite Hc2, E3. reflexivity.
  - intros a Ha. destruct Hok as (Hr & _). eexists. split; [by apply (user_va_to_pa_spec pt a s T)|].
    rewrite (user_va_to_pa_spec pt a _ T2) by done. cbn [k_mem set_k_mem set_k_csr]. rewrite Hlf3, Hlf2, Hm1, Hlf0 by done.
    case_decide; [|done]. pose proof (page_ok_range q Hq).
    cbv zeta. rewrite pte_pa_mkpte; [|done|unfold PGSIZE in *; lia|apply Hq|done].
    rewrite (proj2 (Z.eqb_neq _ _)) by (by apply page_ok_nonzero). f_equal. apply u64_small. unfold PGSIZE in *. dlia.
Qed.

Lemma spike_file_init_run s :
  k_spike_files s = replicate MAX_FILES (mkSpikeFile (-1) 0) -> k_spike_fds s = replicate MAX_FDS None ->
  exists s', spike_file_init s = Ok tt s' /\
    s' = set_k_spike_files (k_spike_files s') (set_k_spike_fds (k_spike_fds s') s) /\
    (forall k, (k < 3)%nat -> k_spike_fds s' !! k = Some (Some k) /\
       k_spike_files s' !! k = Some (mkSpikeFile (Z.of_nat k) 4)).
Proof.
  intros Hf Hd. destruct s as [mm fl fs fe ms ps cu rq uf ti kp cs rb vd sf sd ho].
  cbn [k_spike_files k_spike_fds] in Hf, Hd. subst.
  eexists. split; [vm_compute; reflexivity|]. split; [reflexivity|].
  intros k Hk. destruct k as [|[|[|k]]]; [done..|lia].
Qed.

Lemma small_bits z (l : list Z) b :
  0 <= z < 2 ^ 16 -> Forall (fun i => 0 <= i < 16) l ->
  forallb (fun i => Bool.eqb (Z.testbit z i) (bool_decide (i ∈ l))) (Z.of_nat <$> seq 0 16) = true ->
  0 <= b -> Z.testbit z b = bool_decide (b ∈ l).
Proof.
  intros Hz Hl H Hb. destruct (decide (b < 16)) as [Hlt|Hge].
  - rewrite forallb_forall in H. apply eqb_prop, H. apply list_elem_of_In, list_elem_of_fmap.
    exists (Z.to_nat b). rewrite Z2Nat.id by lia. split; [done|]. apply elem_of_seq. lia.
  - rewrite <- (Z.mod_small z (2 ^ 16)), Z.mod_pow2_bits_high by lia. symmetry. apply bool_decide_eq_false.
    rewrite Forall_forall in Hl. intros Hin%Hl. lia.
Qed.

Lemma init_dtb_run s dtb h0 m0 ts vals :
  boot_tree (k_mem s) dtb ts vals -> 0 < boot_mem_size (k_mem s) ts vals ->
  init_dtb dtb h0 m0 s = Ok tt (set_k_mem_size (boot_mem_size (k_mem s) ts vals) s).
Proof.
  intros [Ht Hl Hh Hm] Hsz. unfold init_dtb.
  rewrite (bind_Ok _ _ _ _ _ (query_htif_spec dtb ts vals h0 s Ht (Hl "compatible" ltac:(set_solver)) (Hl "ucb,htif0" ltac:(set_solver)) Hh)).
  rewrite (query_mem_spec dtb ts vals m0 s Ht (Hl "device_type" ltac:(set_solver)) (Hl "memory" ltac:(set_solver)) (Hl "reg" ltac:(set_solver)) Hm).
  fold (boot_mem_size (k_mem s) ts vals). by rewrite (proj2 (Z.ltb_lt _ _) Hsz).
Qed.

(** C36. Machine-mode setup on a hart with supervisor mode and a well-formed device
    tree: [m_start] takes the memory size from the tree, opens the three standard
    files, delegates to supervisor mode exactly the supervisor
    interrupts and the page faults, breakpoints, misaligned fetches and user
    ecalls, and prepares mret to enter [s_start] in supervisor mode. *)
Theorem m_start_delegates s hartid dtb h0 m0 ts vals :
  Z.testbit (k_csr s misa) 18 = true ->
  k_spike_files s = replicate MAX_FILES (mkSpikeFile (-1) 0) -> k_spike_fds s = replicate MAX_FDS None ->
  boot_tree (k_mem s) dtb ts vals -> 0 < boot_mem_size (k_mem s) ts vals ->
  exists s', m_start hartid dtb h0 m0 s = Ok tt s' /\
    k_mem_size s' = boot_mem_size (k_mem s) ts vals /\ k_csr s' mepc = link_addr "s_start" /\
    (forall b, 0 <= b -> Z.testbit (k_csr s' mideleg) b = bool_decide (b ∈ [1; 5; 9])) /\
    (forall b, 0 <= b -> Z.testbit (k_csr s' medeleg) b = bool_decide (b ∈ [0; 3; 8; 12; 13; 15])) /\
    Z.land (k_csr s' mstatus) MSTATUS_MPP_MASK = MSTATUS_MPP_S /\
    (forall k, (k < 3)%nat -> k_spike_fds s' !! k = Some (Some k) /\ k_spike_files s' !! k = Some (mkSpikeFile (Z.of_nat k) 4)).
Proof.
  intros Hmisa Hf Hd Hbt Hsz. destruct (spike_file_init_run s Hf Hd) as (s1 & E1 & Hs1 & Hk).
  unfold m_start. rewrite (bind_Ok _ _ _ _ _ E1). rewrite (bind_Ok _ _ _ _ _ (init_dtb_run s1 dtb h0 m0 ts vals ltac:(by rewrite Hs1) ltac:(by rewrite Hs1))).
  set (sz := boot_mem_size (k_mem s1) ts vals). assert (Hsz1 : sz = boot_mem_size (k_mem s) ts vals) by (unfold sz; by rewrite Hs1).
  do 7 (erewrite bind_Ok; [|reflexivity]).
  unfold delegate_traps, supports_extension. rewrite !bind_assoc. erewrite bind_Ok; [|reflexivity]. rewrite bind_ret.
  match goal with |- context [negb (negb (Z.land ?x ?y =? 0))] =>
    assert (Hx : negb (Z.land x y =? 0) = true); [|rewrite Hx] end.
  { change (flag (k_csr s1 misa) (2 ^ 18) = true). rewrite flag_bit by lia. by rewrite Hs1. }
  cbn [negb]. rewrite !bind_assoc. do 4 (erewrite bind_Ok; [|reflexivity]; rewrite ?bind_assoc).
  rewrite !Z.eqb_refl. cbn [negb]. rewrite bind_ret. do 2 (erewrite bind_Ok; [|reflexivity]).
  eexists. split; [reflexivity|]. split_and!; [done|done| | | |done].
  - intros b Hb. change (Z.testbit delegated_interrupts b = bool_decide (b ∈ [1; 5; 9])).
    apply small_bits; [by vm_compute|repeat constructor; lia|by vm_compute|done].
  - intros b Hb. change (Z.testbit delegated_exceptions b = bool_decide (b ∈ [0; 3; 8; 12; 13; 15])).
    apply small_bits; [by vm_compute|repeat constructor; lia|by vm_compute|done].
  - match goal with |- Z.land ?x _ = _ =>
      change x with (Z.lor (Z.lor (Z.land (k_csr s1 mstatus) (Z.lnot MSTATUS_MPP_MASK)) MSTATUS_MPP_S) MSTATUS_MIE) end.
    rewrite !Z.land_lor_distr_l, <- Z.land_assoc.
    assert (Z.land (Z.lnot MSTATUS_MPP_MASK) MSTATUS_MPP_MASK = 0) as -> by done. by rewrite Z.land_0_r.
Qed.
End Trap.
(* ------------------------------------------------------------------ *)
(** * Witnesses *)

(** a trap from user mode with [cause], at pc 0x10000, faulting address [tval] *)
Definition with_trap (cause tval : Z) (s : @kstate Demo.platform) : @kstate Demo.platform :=
  set_k_csr (fun r => match r with scause => cause | sepc => 0x10000 | stval => tval | _ => 0 end) s.

(** the user asks for system call [SYS_user_getinfo] *)
Definition demo_ecall : @kstate Demo.platform :=
  with_trap CAUSE_USER_ECALL 0
    (set_k_mem (store64 (k_mem demo_user) 0x80022048 SYS_user_getinfo) demo_user).

Lemma syscall_resumes_witness :
  exists u s', smode_trap_handler (A := unit) 0 demo_ecall = User u s' /\ k_current s' = Some 0%nat /\
    ue_pc u = 0x10004 /\ ue_regs u = <[9%nat := 1]> (trap_regs (k_mem demo_ecall) 0x80022000).
Proof.
  destruct (syscall_resumes 0 demo_ecall 0 1 (in_syscall demo_ecall 0)) as (u & s' & E & Hc & Hpc & Hregs & _);
    [done|by vm_compute|done|done| |done|done|done|].
  { by vm_compute. }
  exists u, s'. split; [exact E|]. clear E. split_and!; [exact Hc|exact Hpc|exact Hregs].
Defined.

Lemma timer_within_slice_witness :
  exists s', smode_trap_handler (A := unit) 0 (with_trap CAUSE_MTIMER_S_TRAP 0 demo_user) =
      User (mkUser (trap_regs (k_mem demo_user) 0x80022000) 0x10000 (MAKE_SATP 0x80021000)) s' /\
    k_ticks s' = 1.
Proof.
  destruct (timer_within_slice 0 (with_trap CAUSE_MTIMER_S_TRAP 0 demo_user) 0) as (s' & E & _ & Ht & _);
    [done|by apply Nat.ltb_lt|by vm_compute|done|done|done|done|].
  exists s'. split; [exact E|exact Ht].
Defined.

(** process 5 has used one tick, process 2 is ready *)
Definition demo_slice : @kstate Demo.platform :=
  with_trap CAUSE_MTIMER_S_TRAP 0 (updp 5 (set_p_tick_count 1) demo_two).

Lemma unexpected_traps_panic_witness :
  exists s', smode_trap_handler (A := unit) 0 (with_trap CAUSE_BREAKPOINT 0 demo_user) =
    Stop (Panic "unexpected exception happened.") s'.
Proof.
  apply (proj2 (unexpected_traps_panic 0 (with_trap CAUSE_BREAKPOINT 0 demo_user) 0)); [done|done|by vm_compute|].
  apply (bool_decide_unpack _). by vm_compute.
Defined.

Lemma store_fault_maps_page_witness :
  exists s' T', smode_trap_handler (A := unit) 0 (with_trap CAUSE_STORE_PAGE_FAULT 0x7fffd010 demo_user) =
      User (mkUser (trap_regs (k_mem demo_user) 0x80022000) 0x10000 (MAKE_SATP 0x80021000)) s' /\
    pt_rep (k_mem s') T' 0x80021000 /\
    user_va_to_pa 0x80021000 0x7fffd010 s' = Ok 0x80025010 s'.
Proof.
  destruct (store_fault_maps_page 0 (with_trap CAUSE_STORE_PAGE_FAULT 0x7fffd010 demo_user) 0 (fresh_table 0x80021000)
    0x80025000 [0x80026000; 0x80027000; 0x80028000; 0x80029000; 0x8002a000] 0x7fffd010)
    as (s' & T' & E & Hr & Ha);
    [done|by vm_compute|exact demo_user_pt|simpl; lia| | |done|done|done|done|by vm_compute|done|intros a _; by rewrite leaf_fresh|].
  - rewrite table_pages_fresh, elem_of_singleton. done.
  - apply (bool_decide_unpack _). by vm_compute.
  - exists s', T'. split; [exact E|]. clear E. split; [exact Hr|].
    destruct (Ha 0x7fffd010) as (v & _ & Hv); [done|]. exact Hv.
Defined.

Lemma m_start_delegates_witness :
  exists s', @m_start DemoTree.platform 0 0x82000000 demo_htif (mkMemScan 0 0 0) (set_k_csr (fun _ => Z.shiftl 1 18) DemoTree.state) = Ok tt s' /\
    k_mem_size s' = 0x100000.
Proof.
  destruct (m_start_delegates (set_k_csr (fun _ => Z.shiftl 1 18) DemoTree.state) 0 0x82000000 demo_htif (mkMemScan 0 0 0) DemoTree.tree DemoTree.vals)
    as (s' & E & Hm & _); [reflexivity|reflexivity|reflexivity|exact demo_boot_tree| |].
  - change (k_mem (set_k_csr _ DemoTree.state)) with (k_mem DemoTree.state). rewrite demo_boot_size. reflexivity.
  - exists s'. split; [exact E|]. rewrite Hm. exact demo_boot_size.
Defined.
