(* ===== verification/Asm.v ===== *)
(** The assembly of the kernel: kernel/machine/mentry.S, mtrap_vector.S,
    kernel/strap_vector.S and util/load_store.S.

    The instructions these files use are a small instruction set with a register
    file of 32 words; programs are the lists of the sources, macros expanded.
    Machine mode accesses physical memory, supervisor mode the direct map (the
    trapframe page is mapped at its physical address in every user table, too).
    A call of a C function leaves arbitrary values in the registers it need not
    preserve; only sp and what the program reloads matter afterwards.

    The theorems relate the programs to the definitions the rest of the
    development uses ([Trap.trap_vector], [Sched.return_to_user]) and state what a
    trap preserves. *)

From S2P Require Import Prelude Machine Pmm StringC Vmm Sched SpikeFile Dts Process Elf Syscall Trap.

(* ------------------------------------------------------------------ *)
(** * Registers and instructions *)

(** x0 to x31 by their ABI names *)
Definition X0 : nat := 0.
Definition RA : nat := 1.
Definition SP : nat := 2.
Definition GP : nat := 3.
Definition TP : nat := 4.
Definition T0 : nat := 5.
Definition T1 : nat := 6.
Definition T2 : nat := 7.
Definition S0 : nat := 8.
Definition S1 : nat := 9.
Definition A0 : nat := 10.
Definition A1 : nat := 11.
Definition A2 : nat := 12.
Definition A3 : nat := 13.
Definition A4 : nat := 14.
Definition A5 : nat := 15.
Definition A6 : nat := 16.
Definition A7 : nat := 17.
Definition S2 : nat := 18.
Definition S3 : nat := 19.
Definition S4 : nat := 20.
Definition S5 : nat := 21.
Definition S6 : nat := 22.
Definition S7 : nat := 23.
Definition S8 : nat := 24.
Definition S9 : nat := 25.
Definition S10 : nat := 26.
Definition S11 : nat := 27.
Definition T3 : nat := 28.
Definition T4 : nat := 29.
Definition T5 : nat := 30.
Definition T6 : nat := 31.

Inductive instr :=
  | Csrrw (rd : nat) (c : csr) (rs : nat)
  | Csrr (rd : nat) (c : csr)
  | Csrw (c : csr) (rs : nat)
  | La (rd : nat) (sym : string)
  | Li (rd : nat) (imm : Z)
  | Addi (rd rs : nat) (imm : Z)
  | Add (rd r1 r2 : nat)
  | Mul (rd r1 r2 : nat)
  | Ld (rd : nat) (off : Z) (base : nat)
  | Sd (rs : nat) (off : Z) (base : nat)
  | Sfence.

(** the register file: 32 words, x0 reads as 0 *)
Definition rget (R : list Z) (r : nat) : Z := if Nat.eqb r 0 then 0 else default 0 (R !! r).
Definition rset (r : nat) (v : Z) (R : list Z) : list Z := <[r := v]> R.

Section Asm.
Context {PLAT : Platform}.

(** loads and stores of the mode a program runs in *)
Record mode := mkMode { m_ld : Z -> K Z; m_st : Z -> Z -> K unit }.
Definition supervisor : mode := mkMode ld64 st64.
Definition machine : mode :=
  mkMode (fun a s => if phys_ok 8 a then Ok (load64 (k_mem s) a) s else Stop (Fault a) s)
         (fun a v s => if phys_ok 8 a then Ok tt (set_k_mem (store64 (k_mem s) a v) s) else Stop (Fault a) s).

Definition exec (md : mode) (i : instr) (R : list Z) : K (list Z) :=
  match i with
  | Csrrw rd c rs => v <- read_csr c ;; write_csr c (rget R rs) ;;; ret (rset rd v R)
  | Csrr rd c => v <- read_csr c ;; ret (rset rd v R)
  | Csrw c rs => write_csr c (rget R rs) ;;; ret R
  | La rd sym => ret (rset rd (link_addr sym) R)
  | Li rd imm => ret (rset rd (u64 imm) R)
  | Addi rd rs imm => ret (rset rd (u64 (rget R rs + imm)) R)
  | Add rd r1 r2 => ret (rset rd (u64 (rget R r1 + rget R r2)) R)
  | Mul rd r1 r2 => ret (rset rd (u64 (rget R r1 * rget R r2)) R)
  | Ld rd off base => v <- m_ld md (u64 (rget R base + off)) ;; ret (rset rd v R)
  | Sd rs off base => m_st md (u64 (rget R base + off)) (rget R rs) ;;; ret R
  | Sfence => ret R
  end.
Fixpoint run (md : mode) (prog : list instr) (R : list Z) : K (list Z) :=
  match prog with
  | [] => ret R
  | i :: prog' => R' <- exec md i R ;; run md prog' R'
  end.

(* ------------------------------------------------------------------ *)
(** * The programs *)

(** util/load_store.S *)
Definition store_all_registers : list instr :=
  [Sd RA 0 T6; Sd SP 8 T6; Sd GP 16 T6; Sd TP 24 T6; Sd T0 32 T6; Sd T1 40 T6; Sd T2 48 T6;
   Sd S0 56 T6; Sd S1 64 T6; Sd A0 72 T6; Sd A1 80 T6; Sd A2 88 T6; Sd A3 96 T6; Sd A4 104 T6;
   Sd A5 112 T6; Sd A6 120 T6; Sd A7 128 T6; Sd S2 136 T6; Sd S3 144 T6; Sd S4 152 T6;
   Sd S5 160 T6; Sd S6 168 T6; Sd S7 176 T6; Sd S8 184 T6; Sd S9 192 T6; Sd S10 200 T6;
   Sd S11 208 T6; Sd T3 216 T6; Sd T4 224 T6; Sd T5 232 T6; Sd T6 240 T6].
Definition restore_all_registers : list instr :=
  [Ld RA 0 T6; Ld SP 8 T6; Ld GP 16 T6; Ld TP 24 T6; Ld T0 32 T6; Ld T1 40 T6; Ld T2 48 T6;
   Ld S0 56 T6; Ld S1 64 T6; Ld A0 72 T6; Ld A1 80 T6; Ld A2 88 T6; Ld A3 96 T6; Ld A4 104 T6;
   Ld A5 112 T6; Ld A6 120 T6; Ld A7 128 T6; Ld S2 136 T6; Ld S3 144 T6; Ld S4 152 T6;
   Ld S5 160 T6; Ld S6 168 T6; Ld S7 176 T6; Ld S8 184 T6; Ld S9 192 T6; Ld S10 200 T6;
   Ld S11 208 T6; Ld T3 216 T6; Ld T4 224 T6; Ld T5 232 T6; Ld T6 240 T6].

(** sp = stack0 + 4096 * (mhartid + 1) *)
Definition set_stack : list instr :=
  [La SP "stack0"; Li A3 4096; Csrr A4 mhartid; Addi A4 A4 1; Mul A3 A3 A4; Add SP SP A3].

(** kernel/machine/mentry.S *)
Definition mentry_code : list instr := Csrw mscratch X0 :: set_stack.
Definition mentry (R : list Z) (h0 : htif_scan) (m0 : mem_scan) : K unit :=
  R <- run machine mentry_code R ;;
  m_start (rget R A0) (rget R A1) h0 m0.

(** kernel/machine/mtrap_vector.S, up to and after the call *)
Definition mtrapvec_save : list instr :=
  [Csrrw A0 mscratch A0; Addi T6 A0 0] ++ store_all_registers ++
  [Csrr T0 mscratch; Sd T0 72 A0] ++ set_stack ++ [Csrw mscratch A0].
Definition mtrapvec_restore : list instr := Csrr T6 mscratch :: restore_all_registers.
(** [junk] are the registers as handle_mtrap leaves them; mret follows *)
Definition mtrapvec (junk R : list Z) : K (list Z) :=
  run machine mtrapvec_save R ;;;
  handle_mtrap ;;;
  run machine mtrapvec_restore junk.

(** kernel/strap_vector.S *)
Definition smode_vector_code : list instr :=
  [Csrrw A0 sscratch A0; Addi T6 A0 0] ++ store_all_registers ++
  [Csrr T0 sscratch; Sd T0 72 A0; Ld SP 248 A0; Ld T0 256 A0; Ld T1 272 A0; Csrw satp T1; Sfence].
Definition return_code : list instr :=
  [Csrw satp A1; Sfence; Csrw sscratch A0; Addi T6 A0 0] ++ restore_all_registers.

(* ------------------------------------------------------------------ *)
(** * Runs *)

Lemma run_app md p1 p2 R s : run md (p1 ++ p2) R s = (R' <- run md p1 R ;; run md p2 R') s.
Proof.
  revert R s. induction p1 as [|i p1 IH]; intros R s; [done|]. cbn [app run]. rewrite bind_assoc.
  unfold bind. destruct (exec md i R s) as [R' s'| |]; [apply IH|done..].
Qed.

(** the words [l] stored from [a] on *)
Fixpoint stores (a : Z) (l : list Z) (m : gmap Z Z) : gmap Z Z :=
  match l with
  | [] => m
  | v :: l' => stores (a + 8) l' (store64 m a v)
  end.
Lemma stores_lookup a l m k :
  a mod 8 = 0 -> stores a l m !! k =
  if decide (a / 8 <= k < a / 8 + Z.of_nat (length l)) then l !! Z.to_nat (k - a / 8) else m !! k.
Proof.
  revert a m. induction l as [|v l IH]; intros a m Ha; cbn [stores length].
  - by rewrite decide_False by lia.
  - rewrite IH by dlia. replace ((a + 8) / 8) with (a / 8 + 1) by dlia. unfold store64.
    destruct (decide (k = a / 8)) as [->|Hne].
    + rewrite decide_False, decide_True, lookup_insert_eq by lia. by replace (Z.to_nat (a / 8 - a / 8)) with 0%nat by lia.
    + rewrite lookup_insert_ne by done. destruct (decide (a / 8 + 1 <= k < a / 8 + 1 + Z.of_nat (length l))).
      * rewrite decide_True by lia. replace (Z.to_nat (k - a / 8)) with (S (Z.to_nat (k - (a / 8 + 1)))) by lia. done.
      * by rewrite decide_False by lia.
Qed.
Lemma stores_load a l m (i : nat) v : a mod 8 = 0 -> l !! i = Some v -> load64 (stores a l m) (a + 8 * Z.of_nat i) = u64 v.
Proof.
  intros Ha Hi. pose proof (lookup_lt_Some _ _ _ Hi). unfold load64. replace ((a + 8 * Z.of_nat i) / 8) with (a / 8 + Z.of_nat i) by dlia.
  rewrite stores_lookup, decide_True by (done || lia). replace (Z.to_nat _) with i by lia. by rewrite Hi.
Qed.
Lemma stores_other a l m b :
  a mod 8 = 0 -> ~ (a / 8 <= b / 8 < a / 8 + Z.of_nat (length l)) -> load64 (stores a l m) b = load64 m b.
Proof. intros Ha Hb. unfold load64. by rewrite stores_lookup, decide_False by done. Qed.

(** a mode that accesses the words of [f, f + 8 * n) as memory *)
Record accesses (md : mode) (f n : Z) : Prop := {
  ac_ld i s : 0 <= i < n -> m_ld md (f + 8 * i) s = Ok (load64 (k_mem s) (f + 8 * i)) s;
  ac_st i v s : 0 <= i < n -> m_st md (f + 8 * i) v s = Ok tt (set_k_mem (store64 (k_mem s) (f + 8 * i) v) s);
  ac_al : f mod 8 = 0;
  ac_word : 0 <= f /\ f + 8 * n < 2 ^ 64
}.
Lemma supervisor_accesses p n : page_ok p -> 0 <= n <= 512 -> accesses supervisor p n.
Proof.
  intros Hp Hn. pose proof (page_ok_range p Hp). split.
  - intros i s Hi. apply ld64_ok, page_ok_addr64; [done|lia].
  - intros i v s Hi. apply st64_ok, page_ok_addr64; [done|lia].
  - destruct Hp. unfold PGSIZE in *. dlia.
  - unfold PGSIZE in *. lia.
Qed.
Lemma machine_accesses f n : f mod 8 = 0 -> 0 <= f -> f + 8 * n <= 2 ^ 56 -> accesses machine f n.
Proof.
  intros Ha Hf Hn. assert (Hok : forall i, 0 <= i < n -> phys_ok 8 (f + 8 * i) = true).
  { intros i Hi. unfold phys_ok. rewrite !andb_true_iff, !Z.leb_le, Z.eqb_eq. dlia. }
  split; [intros i s Hi|intros i v s Hi|done|lia]; unfold machine; cbn [m_ld m_st]; by rewrite Hok.
Qed.

(** ** The register file *)

Definition regfile (R : list Z) : Prop := length R = 32%nat /\ Forall (fun v => 0 <= v < 2 ^ 64) R.
(** x1 to x31, as a trapframe holds them *)
Definition xregs (R : list Z) : list Z := (fun n => rget R (S n)) <$> seq 0 31.

Lemma rget_rset_eq r v R : length R = 32%nat -> (0 < r < 32)%nat -> rget (rset r v R) r = v.
Proof.
  intros Hl Hr. unfold rget, rset. rewrite (proj2 (Nat.eqb_neq r 0)), list_lookup_insert_eq by lia. done.
Qed.
Lemma rget_rset_ne r r' v R : r <> r' -> rget (rset r v R) r' = rget R r'.
Proof. intros Hr. unfold rget, rset. by rewrite list_lookup_insert_ne. Qed.
Lemma rset_length r v R : length (rset r v R) = length R.
Proof. apply length_insert. Qed.
Lemma rget_word R r : regfile R -> 0 <= rget R r < 2 ^ 64.
Proof.
  intros [Hl Hw]. unfold rget. destruct (Nat.eqb r 0); [lia|]. destruct (R !! r) as [v|] eqn:E; simpl; [|lia].
  exact (Forall_lookup_1 _ _ _ _ Hw E).
Qed.
Lemma xregs_lookup R n : (n < 31)%nat -> xregs R !! n = Some (rget R (S n)).
Proof. intros Hn. unfold xregs. by rewrite list_lookup_fmap, lookup_seq_lt. Qed.
Lemma xregs_ext R l : length l = 31%nat -> (forall n v, (n < 31)%nat -> l !! n = Some v -> rget R (S n) = v) -> xregs R = l.
Proof.
  intros Hl H. apply list_eq. intros n. destruct (decide (n < 31)%nat) as [Hn|Hn].
  - rewrite xregs_lookup by done. destruct (lookup_lt_is_Some_2 l n ltac:(lia)) as [v E]. rewrite E. f_equal. by apply H.
  - rewrite !lookup_ge_None_2; [done|lia|unfold xregs; rewrite length_fmap, length_seq; lia].
Qed.

Lemma store_all_eq : store_all_registers = (fun n => Sd (S n) (8 * Z.of_nat n) T6) <$> seq 0 31.
Proof. reflexivity. Qed.
Lemma restore_all_eq : restore_all_registers = (fun n => Ld (S n) (8 * Z.of_nat n) T6) <$> seq 0 31.
Proof. reflexivity. Qed.

Section Frame.
Variables (md : mode) (f n : Z).
Hypothesis Hacc : accesses md f n.
Hypothesis Hn : 31 <= n.

Lemma frame_u64 i : 0 <= i < n -> u64 (f + 8 * i) = f + 8 * i.
Proof. intros Hi. apply u64_small. destruct (ac_word _ _ _ Hacc). lia. Qed.
Lemma run_stores j k R s :
  (k + j <= 31)%nat -> rget R T6 = f ->
  run md ((fun i => Sd (S i) (8 * Z.of_nat i) T6) <$> seq k j) R s =
  Ok R (set_k_mem (stores (f + 8 * Z.of_nat k) ((fun i => rget R (S i)) <$> seq k j) (k_mem s)) s).
Proof.
  intros Hk Hf. revert k s Hk. induction j as [|j IH]; intros k s Hk; [by destruct s|].
  cbn [seq fmap list_fmap run exec stores]. rewrite bind_assoc, Hf, frame_u64 by lia.
  rewrite (bind_Ok _ _ _ _ _ (ac_st _ _ _ Hacc (Z.of_nat k) _ s ltac:(lia))), bind_ret, IH by lia.
  replace (f + 8 * Z.of_nat (S k)) with (f + 8 * Z.of_nat k + 8) by lia. done.
Qed.
Lemma run_store_all R s :
  rget R T6 = f -> run md store_all_registers R s = Ok R (set_k_mem (stores f (xregs R) (k_mem s)) s).
Proof. intros Hf. rewrite store_all_eq, run_stores by (done || lia). by rewrite Z.add_0_r. Qed.

Lemma run_loads j k R s :
  (k + j = 31)%nat -> rget R T6 = f -> length R = 32%nat ->
  exists R', run md ((fun i => Ld (S i) (8 * Z.of_nat i) T6) <$> seq k j) R s = Ok R' s /\ length R' = 32%nat /\
    forall i, (i < 31)%nat -> rget R' (S i) = if decide (k <= i)%nat then load64 (k_mem s) (f + 8 * Z.of_nat i) else rget R (S i).
Proof.
  revert k R. induction j as [|j IH]; intros k R Hk Hf Hl.
  - exists R. split_and!; [done|done|]. intros i Hi. by rewrite decide_False by lia.
  - cbn [seq fmap list_fmap run exec]. rewrite bind_assoc, Hf, frame_u64 by lia.
    rewrite (bind_Ok _ _ _ _ _ (ac_ld _ _ _ Hacc (Z.of_nat k) s ltac:(lia))), bind_ret.
    set (v := load64 (k_mem s) (f + 8 * Z.of_nat k)). destruct j as [|j].
    + exists (rset (S k) v R). split_and!; [done|by rewrite rset_length|]. intros i Hi. case_decide.
      * replace i with k by lia. by rewrite rget_rset_eq by lia.
      * by rewrite rget_rset_ne by lia.
    + destruct (IH (S k) (rset (S k) v R)) as (R' & E & Hl' & H'); [lia|by rewrite rget_rset_ne by (unfold T6; lia)|by rewrite rset_length|].
      exists R'. split_and!; [done|done|]. intros i Hi. rewrite H' by done. repeat case_decide; try lia; try done.
      * replace i with k by lia. by rewrite rget_rset_eq by lia.
      * by rewrite rget_rset_ne by lia.
Qed.
Lemma run_restore_all R s :
  rget R T6 = f -> length R = 32%nat ->
  exists R', run md restore_all_registers R s = Ok R' s /\ length R' = 32%nat /\ xregs R' = trap_regs (k_mem s) f.
Proof.
  intros Hf Hl. rewrite restore_all_eq. destruct (run_loads 31 0 R s eq_refl Hf Hl) as (R' & E & Hl' & H').
  exists R'. split_and!; [done|done|]. unfold xregs, trap_regs. apply list_fmap_ext. intros i j [-> Hi]%lookup_seq.
  rewrite H' by lia. by rewrite decide_True by lia.
Qed.
End Frame.

(** memory of a frame after both saves: x1 to x31 with the frame's address for t6 *)
Lemma stores_a0 f R a0 m :
  f mod 8 = 0 -> length R = 32%nat -> 
  store64 (stores f (xregs (rset T6 f (rset A0 f R))) m) (f + 72) a0 =
  stores f (<[30%nat := f]> (<[9%nat := a0]> (xregs R))) m.
Proof.
  intros Hf Hl. apply map_eq. intros k. unfold store64. replace ((f + 72) / 8) with (f / 8 + 9) by dlia.
  assert (Hx : forall R, length (xregs R) = 31%nat) by (intros; unfold xregs; by rewrite length_fmap, length_seq).
  destruct (decide (k = f / 8 + 9)) as [->|Hne].
  - rewrite lookup_insert_eq, stores_lookup, decide_True by (rewrite ?length_insert, ?Hx; done || lia).
    replace (Z.to_nat _) with 9%nat by lia. rewrite list_lookup_insert_ne, list_lookup_insert_eq by (rewrite ?Hx; lia). done.
  - rewrite lookup_insert_ne, !stores_lookup by done. rewrite !length_insert, !Hx. case_decide; [|done].
    set (i := Z.to_nat (k - f / 8)). assert (Hi : (i < 31)%nat /\ i <> 9%nat) by lia. rewrite xregs_lookup by lia.
    destruct (decide (i = 30%nat)) as [->|H30].
    + rewrite list_lookup_insert_eq by (rewrite length_insert, Hx; lia). f_equal. apply rget_rset_eq; [by rewrite rset_length|unfold T6; lia].
    + rewrite !list_lookup_insert_ne, xregs_lookup by lia. f_equal.
      rewrite !rget_rset_ne by (unfold T6, A0; lia). done.
Qed.

(* ------------------------------------------------------------------ *)
(** * Supervisor mode *)

Lemma kfor_stores tf l k s :
  page_ok tf -> (k + length l <= 512)%nat ->
  kfor (imap (fun i v => ((k + i)%nat, v)) l) (fun '(i, v) => st64 (tf + 8 * Z.of_nat i) v) s =
  Ok tt (set_k_mem (stores (tf + 8 * Z.of_nat k) l (k_mem s)) s).
Proof.
  intros Hp. revert k s. induction l as [|v l IH]; intros k s Hk; [by destruct s|].
  cbn [imap kfor stores length] in *. rewrite Nat.add_0_r, (bind_Ok _ _ _ _ _ (st64_ok _ _ _ (page_ok_addr64 tf (Z.of_nat k) Hp ltac:(lia)))).
  assert (E : imap ((fun i a => ((k + i)%nat, a)) ∘ S) l = imap (fun i a => ((S k + i)%nat, a)) l) by (apply imap_ext; intros; simpl; f_equal; lia).
  rewrite E, IH by lia. replace (tf + 8 * Z.of_nat (S k)) with (tf + 8 * Z.of_nat k + 8) by lia. done.
Qed.

(** the csrs with one of them changed *)
Definition upd_csr (r : csr) (v : Z) (s : kstate) : kstate :=
  set_k_csr (fun r' => if decide (r' = r) then v else k_csr s r') s.

Lemma smode_vector_spec R s :
  let tf := k_csr s sscratch in
  regfile R -> page_ok tf ->
  exists R' s', run supervisor smode_vector_code R s = Ok R' s' /\ trap_vector (xregs R) s = Ok (rget R' T0) s' /\
    s' = upd_csr satp (load64 (k_mem s) (tf + TF_kernel_satp))
           (set_k_mem (stores tf (saved_regs tf (xregs R)) (k_mem s)) (upd_csr sscratch (rget R A0) s)) /\
    rget R' T0 = load64 (k_mem s) (tf + TF_kernel_trap) /\ rget R' SP = load64 (k_mem s) (tf + TF_kernel_sp).
Proof.
  intros tf HR Htf. pose proof HR as [Hl Hw]. pose proof (supervisor_accesses tf 512 Htf ltac:(lia)) as Hacc.
  assert (Hal : tf mod 8 = 0) by apply Hacc. assert (Htw : 0 <= tf /\ tf + 4096 < 2 ^ 64) by (pose proof (ac_word _ _ _ Hacc); lia).
  set (s1 := upd_csr sscratch (rget R A0) s). set (R1 := rset A0 tf R). set (R2 := rset T6 tf R1).
  assert (HT6 : rget R2 T6 = tf) by (apply rget_rset_eq; [unfold R1; by rewrite rset_length|unfold T6; lia]).
  assert (HA0 : rget R2 A0 = tf).
  { unfold R2. rewrite rget_rset_ne by (unfold T6, A0; lia). apply rget_rset_eq; [done|unfold A0; lia]. }
  set (m1 := stores tf (xregs R2) (k_mem s)). set (R3 := rset T0 (rget R A0) R2).
  set (m2 := stores tf (saved_regs tf (xregs R)) (k_mem s)).
  assert (Em : store64 m1 (tf + 72) (rget R A0) = m2).
  { unfold m1, R2, R1, m2, saved_regs. by rewrite stores_a0. }
  assert (Hm2 : forall o, 248 <= o -> load64 m2 (tf + o) = load64 (k_mem s) (tf + o)).
  { intros o Ho. apply stores_other; [done|]. unfold saved_regs, xregs. rewrite length_insert, length_fmap, length_seq. dlia. }
  set (R4 := rset SP (load64 m2 (tf + 248)) R3). set (R5 := rset T0 (load64 m2 (tf + 256)) R4). set (R6 := rset T1 (load64 m2 (tf + 272)) R5).
  assert (Hl6 : length R4 = 32%nat /\ length R5 = 32%nat) by (unfold R5, R4, R3, R2, R1; by rewrite !rset_length).
  set (s' := upd_csr satp (load64 (k_mem s) (tf + TF_kernel_satp)) (set_k_mem m2 s1)).
  assert (Hb : forall R', (R' = R3 \/ R' = R4 \/ R' = R5) -> rget R' A0 = tf).
  { intros R' Hc. enough (rget R3 A0 = tf) as E3.
    - destruct Hc as [->|[->| ->]]; unfold R5, R4; by rewrite ?rget_rset_ne by (unfold A0, T0, SP; lia).
    - unfold R3. by rewrite rget_rset_ne by (unfold A0, T0; lia). }
  assert (Hld : forall R' rd o s, (R' = R3 \/ R' = R4 \/ R' = R5) -> 0 <= o < 512 -> k_mem s = m2 ->
    exec supervisor (Ld rd (8 * o) A0) R' s = Ok (rset rd (load64 m2 (tf + 8 * o)) R') s).
  { intros R' rd o s0 Hc Ho Em0. cbn [exec]. rewrite (Hb R' Hc), u64_small by lia.
    by rewrite (bind_Ok _ _ _ _ _ (ac_ld _ _ _ Hacc o s0 Ho)), Em0. }
  assert (HT0 : rget R6 T0 = load64 (k_mem s) (tf + TF_kernel_trap)).
  { unfold R6, R5. rewrite rget_rset_ne by (unfold T0, T1; lia). rewrite rget_rset_eq by (unfold T0; lia || apply Hl6). by apply Hm2. }
  exists R6, s'. split_and!; [| |done|done|].
  - assert (Epre : run supervisor [Csrrw A0 sscratch A0; Addi T6 A0 0] R s = Ok R2 s1).
    { change (run supervisor [Csrrw A0 sscratch A0; Addi T6 A0 0] R s) with (Ok (rset T6 (u64 (rget R1 A0 + 0)) R1) s1).
      unfold R1 at 1. by rewrite rget_rset_eq, Z.add_0_r, u64_small by (done || unfold A0; lia). }
    unfold smode_vector_code. rewrite run_app, (bind_Ok _ _ _ _ _ Epre).
    rewrite run_app, (bind_Ok _ _ _ _ _ (run_store_all supervisor tf 512 Hacc ltac:(lia) R2 s1 HT6)).
    change (k_mem s1) with (k_mem s). fold m1. cbn [run]. erewrite bind_Ok by reflexivity.
    change (rset T0 (k_csr (set_k_mem m1 s1) sscratch) R2) with R3.
    assert (Hst : exec supervisor (Sd T0 72 A0) R3 (set_k_mem m1 s1) = Ok R3 (set_k_mem m2 s1)).
    { cbn [exec]. rewrite (Hb R3 ltac:(auto)), u64_small by lia.
      rewrite (bind_Ok _ _ _ _ _ (ac_st _ _ _ Hacc 9 _ _ ltac:(lia))). change (tf + 8 * 9) with (tf + 72).
      assert (HT3 : rget R3 T0 = rget R A0) by (apply rget_rset_eq; unfold R2, R1, T0; rewrite ?rset_length; lia).
      rewrite HT3. cbn [k_mem set_k_mem]. by rewrite Em. }
    rewrite (bind_Ok _ _ _ _ _ Hst).
    change 248 with (8 * 31). change 256 with (8 * 32). change 272 with (8 * 34).
    rewrite (bind_Ok _ _ _ _ _ (Hld R3 SP 31 (set_k_mem m2 s1) ltac:(auto) ltac:(lia) eq_refl)). change (tf + 8 * 31) with (tf + 248). fold R4.
    rewrite (bind_Ok _ _ _ _ _ (Hld R4 T0 32 (set_k_mem m2 s1) ltac:(auto) ltac:(lia) eq_refl)). change (tf + 8 * 32) with (tf + 256). fold R5.
    rewrite (bind_Ok _ _ _ _ _ (Hld R5 T1 34 (set_k_mem m2 s1) ltac:(auto) ltac:(lia) eq_refl)). change (tf + 8 * 34) with (tf + 272). fold R6.
    assert (HT1 : rget R6 T1 = load64 (k_mem s) (tf + TF_kernel_satp)).
    { unfold R6. rewrite rget_rset_eq by (unfold T1; lia || apply Hl6). by apply Hm2. }
    unfold s'. rewrite <- HT1. reflexivity.
  - unfold trap_vector. erewrite bind_Ok by reflexivity. fold tf. erewrite bind_Ok by reflexivity. rewrite xregs_lookup by lia. cbn [default].
    change (rget R 10) with (rget R A0). fold s1.
    erewrite bind_Ok.
    2:{ apply (kfor_stores tf (saved_regs tf (xregs R)) 0 s1 Htf). unfold saved_regs, xregs. rewrite length_insert, length_fmap, length_seq. lia. }
    rewrite Z.mul_0_r, Z.add_0_r. change (k_mem s1) with (k_mem s). fold m2.
    do 3 (erewrite bind_Ok; [|apply ld64_ok, page_ok_addr; unfold TF_kernel_sp, TF_kernel_trap, TF_kernel_satp, PGSIZE; done]).
    cbn [k_mem set_k_mem]. unfold TF_kernel_trap, TF_kernel_satp in *. rewrite !Hm2 by lia. erewrite bind_Ok by reflexivity.
    unfold ret. rewrite HT0. done.
  - unfold R6, R5. rewrite !rget_rset_ne by (unfold T0, T1, SP; lia). unfold R4. rewrite rget_rset_eq by (unfold R3, R2, R1, SP; rewrite ?rset_length; lia).
    by apply Hm2.
Qed.

Lemma return_code_spec {A} R s :
  length R = 32%nat -> page_ok (rget R A0) -> 0 <= rget R A0 < 2 ^ 64 ->
  exists R' s', run supervisor return_code R s = Ok R' s' /\
    return_to_user (A := A) (rget R A0) (rget R A1) s = User (mkUser (xregs R') (k_csr s' sepc) (k_csr s' satp)) s'.
Proof.
  intros Hl Htf Hw. set (tf := rget R A0) in *. pose proof (supervisor_accesses tf 512 Htf ltac:(lia)) as Hacc.
  set (s1 := upd_csr sscratch tf (upd_csr satp (rget R A1) s)). set (R1 := rset T6 (u64 (tf + 0)) R).
  destruct (run_restore_all supervisor tf 512 Hacc ltac:(lia) R1 s1) as (R' & E & Hl' & Hx).
  { unfold R1. by rewrite rget_rset_eq, Z.add_0_r, u64_small by (done || unfold T6; lia). }
  { unfold R1. by rewrite rset_length. }
  exists R', s1. split.
  - unfold return_code. rewrite run_app, (bind_Ok _ _ _ R1 s1) by reflexivity. done.
  - unfold return_to_user. do 2 (erewrite bind_Ok by reflexivity). fold (upd_csr satp (rget R A1) s).
    do 2 (erewrite bind_Ok; [|apply ld64_ok; first [by apply page_ok_addr | apply (page_ok_base tf 8); done]]).
    erewrite bind_Ok by reflexivity. rewrite Hx. done.
Qed.

(* ------------------------------------------------------------------ *)
(** * Machine mode *)

Lemma set_stack_run md R s :
  length R = 32%nat ->
  exists R', run md set_stack R s = Ok R' s /\ length R' = 32%nat /\
    rget R' SP = u64 (link_addr "stack0" + u64 (u64 4096 * u64 (k_csr s mhartid + 1))) /\
    forall r, r <> SP -> r <> A3 -> r <> A4 -> rget R' r = rget R r.
Proof.
  intros Hl. eexists. split; [reflexivity|]. split; [by rewrite !rset_length|]. split.
  - rewrite rget_rset_eq by (rewrite ?rset_length; unfold SP; lia).
    repeat (first [rewrite rget_rset_eq by (rewrite ?rset_length; unfold SP, A3, A4; lia)
                  |rewrite rget_rset_ne by (unfold SP, A3, A4; lia)]). done.
  - intros r H1 H2 H3. by rewrite !rget_rset_ne by done.
Qed.

(** mentry hands m_start the registers the machine booted with, on the stack of its hart *)
Lemma mentry_calls_m_start R h0 m0 s :
  length R = 32%nat ->
  mentry R h0 m0 s = m_start (rget R A0) (rget R A1) h0 m0 (upd_csr mscratch 0 s) /\
  exists R', run machine mentry_code R s = Ok R' (upd_csr mscratch 0 s) /\
    rget R' SP = u64 (link_addr "stack0" + u64 (u64 4096 * u64 (k_csr s mhartid + 1))).
Proof.
  intros Hl. destruct (set_stack_run machine R (upd_csr mscratch 0 s) Hl) as (R' & E & _ & Hsp & Hr).
  assert (E' : run machine mentry_code R s = Ok R' (upd_csr mscratch 0 s)).
  { unfold mentry_code. cbn [run]. by rewrite (bind_Ok _ _ _ R (upd_csr mscratch 0 s)). }
  split; [|by exists R']. unfold mentry. rewrite (bind_Ok _ _ _ _ _ E'), !Hr by (unfold A0, A1, SP, A3, A4; lia). done.
Qed.

(** the save part: the frame holds the registers, mscratch its address again *)
Lemma mtrapvec_save_spec R s :
  let f := k_csr s mscratch in
  regfile R -> f mod 8 = 0 -> 0 <= f -> f + 248 <= 2 ^ 56 ->
  exists R' s', run machine mtrapvec_save R s = Ok R' s' /\
    k_mem s' = stores f (saved_regs f (xregs R)) (k_mem s) /\ (forall r, k_csr s' r = k_csr s r).
Proof.
  intros f [Hl Hw] Hal Hf Hf2. pose proof (machine_accesses f 31 Hal Hf ltac:(lia)) as Hacc.
  set (s1 := upd_csr mscratch (rget R A0) s). set (R1 := rset A0 f R). set (R2 := rset T6 f R1).
  assert (HT6 : rget R2 T6 = f) by (apply rget_rset_eq; [unfold R1; by rewrite rset_length|unfold T6; lia]).
  assert (Epre : run machine [Csrrw A0 mscratch A0; Addi T6 A0 0] R s = Ok R2 s1).
  { change (run machine [Csrrw A0 mscratch A0; Addi T6 A0 0] R s) with (Ok (rset T6 (u64 (rget R1 A0 + 0)) R1) s1).
    unfold R1 at 1. by rewrite rget_rset_eq, Z.add_0_r, u64_small by (done || unfold A0; lia). }
  set (m1 := stores f (xregs R2) (k_mem s)). set (m2 := stores f (saved_regs f (xregs R)) (k_mem s)). set (R3 := rset T0 (rget R A0) R2).
  assert (HA3 : rget R3 A0 = f).
  { unfold R3, R2. rewrite !rget_rset_ne by (unfold T0, T6, A0; lia). apply rget_rset_eq; [done|unfold A0; lia]. }
  assert (Hst : run machine [Csrr T0 mscratch; Sd T0 72 A0] R2 (set_k_mem m1 s1) = Ok R3 (set_k_mem m2 s1)).
  { cbn [run]. rewrite (bind_Ok _ _ _ R3 (set_k_mem m1 s1)) by reflexivity. cbn [exec]. rewrite bind_assoc, HA3, u64_small by lia.
    rewrite (bind_Ok _ _ _ _ _ (ac_st _ _ _ Hacc 9 _ _ ltac:(lia))), bind_ret. change (f + 8 * 9) with (f + 72).
    assert (HT3 : rget R3 T0 = rget R A0) by (apply rget_rset_eq; unfold R2, R1, T0; rewrite ?rset_length; lia).
    rewrite HT3. cbn [k_mem set_k_mem]. unfold m1, R2, R1. by rewrite stores_a0. }
  destruct (set_stack_run machine R3 (set_k_mem m2 s1)) as (R4 & E4 & Hl4 & _ & H4); [unfold R3, R2, R1; by rewrite !rset_length|].
  exists R4, (upd_csr mscratch f (set_k_mem m2 s1)). split_and!.
  - unfold mtrapvec_save. rewrite run_app, (bind_Ok _ _ _ _ _ Epre), run_app.
    rewrite (bind_Ok _ _ _ _ _ (run_store_all machine f 31 Hacc ltac:(lia) R2 s1 HT6)). change (k_mem s1) with (k_mem s). fold m1.
    rewrite run_app, (bind_Ok _ _ _ _ _ Hst), run_app, (bind_Ok _ _ _ _ _ E4). cbn [run exec].
    rewrite (H4 A0), HA3 by (unfold A0, SP, A3, A4; lia). reflexivity.
  - done.
  - intros r. unfold upd_csr. cbn [k_csr set_k_csr set_k_mem s1 upd_csr]. by repeat case_decide; subst.
Qed.

(** the frame is not the timer register *)
Definition off_timer (f : Z) : Prop := f + 248 <= CLINT_MTIMECMP 0 \/ CLINT_MTIMECMP 0 + 8 <= f.

(** C24. A timer interrupt in machine mode is almost transparent: [mtrapvec] saves
    the registers of the interrupted code, advances the timer comparator, raises
    the supervisor software interrupt and restores the registers, all but t6,
    which comes back as the address of the interrupt frame.  No other csr changes,
    and no memory but the frame and the comparator. *)
Theorem mtrapvec_timer R junk s :
  let f := k_csr s mscratch in
  regfile R -> length junk = 32%nat -> f mod 8 = 0 -> 0 <= f -> f + 248 <= 2 ^ 56 -> off_timer f ->
  k_csr s mcause = CAUSE_MTIMER ->
  exists R' s', mtrapvec junk R s = Ok R' s' /\
    (forall r, (0 < r < T6)%nat -> rget R' r = rget R r) /\ rget R' T6 = f /\
    (forall r, k_csr s' r = if decide (r = sip) then SIP_SSIP else k_csr s r) /\
    load64 (k_mem s') (CLINT_MTIMECMP 0) = u64 (load64 (k_mem s) (CLINT_MTIMECMP 0) + TIMER_INTERVAL) /\
    forall a, ~ (f / 8 <= a / 8 < f / 8 + 31) -> a / 8 <> CLINT_MTIMECMP 0 / 8 -> load64 (k_mem s') a = load64 (k_mem s) a.
Proof.
  intros f HR Hj Hal Hf Hf2 Hoff Hmc. destruct (mtrapvec_save_spec R s HR Hal Hf Hf2) as (R1 & s1 & E1 & Hm1 & Hc1). fold f in Hm1.
  pose proof (machine_accesses f 31 Hal Hf ltac:(lia)) as Hacc. set (cmp := CLINT_MTIMECMP 0) in *.
  set (t := load64 (k_mem s1) cmp). set (s2 := upd_csr sip SIP_SSIP (set_k_mem (store64 (k_mem s1) cmp (u64 (t + TIMER_INTERVAL))) s1)).
  assert (E2 : handle_mtrap s1 = Ok tt s2) by (unfold handle_mtrap; erewrite bind_Ok by reflexivity; by rewrite Hc1, Hmc).
  assert (Hms : k_csr s2 mscratch = f) by (unfold s2, upd_csr; cbn [k_csr set_k_csr set_k_mem]; rewrite decide_False by done; apply Hc1).
  destruct (run_restore_all machine f 31 Hacc ltac:(lia) (rset T6 f junk) s2) as (R' & E3 & Hl' & Hx).
  { apply rget_rset_eq; [done|unfold T6; lia]. } { by rewrite rset_length. }
  assert (Hlen : length (saved_regs f (xregs R)) = 31%nat) by (unfold saved_regs, xregs; by rewrite length_insert, length_fmap, length_seq).
  assert (Hcmp : forall a, ~ (f / 8 <= a / 8 < f / 8 + 31) -> load64 (k_mem s1) a = load64 (k_mem s) a).
  { intros a Ha. rewrite Hm1. apply stores_other; [done|]. by rewrite Hlen. }
  assert (Hfr : ~ (f / 8 <= cmp / 8 < f / 8 + 31)) by (unfold off_timer, cmp, CLINT_MTIMECMP in *; dlia).
  assert (Hreg : forall n, (n < 31)%nat -> rget R' (S n) = u64 (default 0 (saved_regs f (xregs R) !! n))).
  { intros n Hn. assert (Hxn : xregs R' !! n = trap_regs (k_mem s2) f !! n) by (by rewrite Hx).
    unfold trap_regs in Hxn. rewrite xregs_lookup, list_lookup_fmap, lookup_seq_lt in Hxn by done. injection Hxn as ->.
    unfold s2, upd_csr. cbn [k_mem set_k_csr set_k_mem]. rewrite load64_store64_ne by dlia. rewrite Hm1.
    destruct (lookup_lt_is_Some_2 (saved_regs f (xregs R)) n ltac:(lia)) as [v Ev]. by rewrite (stores_load _ _ _ _ _ Hal Ev), Ev. }
  exists R', s2. split_and!.
  - unfold mtrapvec. rewrite (bind_Ok _ _ _ _ _ E1), (bind_Ok _ _ _ _ _ E2). unfold mtrapvec_restore. cbn [run].
    rewrite (bind_Ok _ _ _ (rset T6 f junk) s2); [done|]. cbn [exec]. erewrite bind_Ok by reflexivity. by rewrite Hms.
  - intros [|n] Hr; [lia|]. unfold T6 in Hr. rewrite Hreg by lia. unfold saved_regs. rewrite list_lookup_insert_ne, xregs_lookup by lia.
    cbn [default]. apply u64_small, rget_word, HR.
  - unfold T6. rewrite Hreg by lia. unfold saved_regs. rewrite list_lookup_insert_eq by (unfold xregs; rewrite length_fmap, length_seq; lia).
    cbn [default]. apply u64_small. lia.
  - intros r. unfold s2, upd_csr. cbn [k_csr set_k_csr set_k_mem]. case_decide; [done|]. apply Hc1.
  - unfold s2, upd_csr. cbn [k_mem set_k_csr set_k_mem]. rewrite load64_store64_eq. unfold t. rewrite Hcmp by done. apply Z.mod_mod. done.
  - intros a Ha Hne. unfold s2, upd_csr. cbn [k_mem set_k_csr set_k_mem]. rewrite load64_store64_ne by done. by apply Hcmp.
Qed.

(* ------------------------------------------------------------------ *)
(** * Traps from user mode *)

(** the state in which the handler starts *)
Definition trapped (regs : list Z) (pc cause tval : Z) (s : kstate) : kstate :=
  let tf := k_csr s sscratch in
  upd_csr satp (load64 (k_mem s) (tf + TF_kernel_satp))
    (set_k_mem (stores tf (saved_regs tf regs) (k_mem s))
      (upd_csr sscratch (default 0 (regs !! 9%nat))
        (upd_csr sstatus (Z.land (k_csr s sstatus) (Z.lnot SSTATUS_SPP))
          (upd_csr stval tval (upd_csr scause cause (upd_csr sepc pc s)))))).

Lemma trap_entry_run {A} frame R pc cause tval s :
  let tf := k_csr s sscratch in
  regfile R -> page_ok tf -> load64 (k_mem s) (tf + TF_kernel_trap) = u64 smode_trap_handler_addr ->
  smode_trap_entry (A := A) frame (xregs R) pc cause tval s = smode_trap_handler frame (trapped (xregs R) pc cause tval s).
Proof.
  intros tf HR Htf Hh. unfold smode_trap_entry. do 5 (erewrite bind_Ok by reflexivity).
  set (s0 := set_k_csr _ _). change (k_csr s sscratch) with (k_csr s0 sscratch) in tf.
  destruct (smode_vector_spec R s0 HR Htf) as (R' & s' & _ & E & Es & ET0 & _). rewrite (bind_Ok _ _ _ _ _ E), ET0.
  change (load64 (k_mem s0)) with (load64 (k_mem s)). fold tf. rewrite Hh, Z.eqb_refl. f_equal. rewrite Es. unfold trapped.
  rewrite xregs_lookup by lia. reflexivity.
Qed.
Lemma trapped_regs R pc cause tval s :
  let tf := k_csr s sscratch in
  regfile R -> page_ok tf -> trap_regs (k_mem (trapped (xregs R) pc cause tval s)) tf = saved_regs tf (xregs R).
Proof.
  intros tf HR Htf. pose proof (page_ok_range tf Htf) as Htr. assert (Hal : tf mod 8 = 0) by (destruct Htf; unfold PGSIZE in *; dlia).
  apply list_eq. intros n. unfold trap_regs. rewrite list_lookup_fmap.
  assert (Hlen : length (saved_regs tf (xregs R)) = 31%nat) by (unfold saved_regs, xregs; by rewrite length_insert, length_fmap, length_seq).
  destruct (decide (n < 31)%nat) as [Hn|Hn].
  - rewrite lookup_seq_lt by done. destruct (lookup_lt_is_Some_2 (saved_regs tf (xregs R)) n ltac:(lia)) as [v Ev]. rewrite Ev. cbn [fmap option_fmap option_map]. f_equal.
    unfold trapped, upd_csr. cbn [k_mem set_k_csr set_k_mem]. fold tf. rewrite (stores_load _ _ _ _ _ Hal Ev). apply u64_small.
    unfold saved_regs in Ev. apply list_lookup_insert_Some in Ev as [(_ & <- & _)|[_ Ev]]; [unfold PGSIZE in *; lia|].
    rewrite xregs_lookup in Ev by done. injection Ev as <-. by apply rget_word.
  - rewrite !lookup_ge_None_2; [done|lia|rewrite length_seq; lia].
Qed.

(** the argument registers of the frame *)
Lemma trap_regs_arg s i R k :
  let tf := p_trapframe (proc s i) in
  trap_regs (k_mem s) tf = saved_regs tf (xregs R) -> (k < 8)%nat -> arg s i (Z.of_nat k) = rget R (10 + k).
Proof.
  intros tf Hreg Hk. apply (inj Some). change (10 + k)%nat with (S (9 + k)). rewrite <- (xregs_lookup R (9 + k)) by lia.
  rewrite <- (list_lookup_insert_ne (xregs R) 30 (9 + k) tf) by lia. fold (saved_regs tf (xregs R)). rewrite <- Hreg.
  unfold trap_regs. rewrite list_lookup_fmap, lookup_seq_lt by lia. cbn [fmap option_fmap option_map].
  unfold arg, tf_arg. fold tf. unfold TF_a0. do 2 f_equal. lia.
Qed.

(** C7. The vectors of strap_vector.S implement the definitions the kernel model is
    written with.  On any registers, the entry code leaves the state of
    [trap_vector], with the handler's address in t0 and the kernel stack in sp; the
    return code leaves user mode's registers, pc and address space as
    [return_to_user] does. *)
Theorem vectors_refine R s :
  regfile R ->
  (page_ok (k_csr s sscratch) ->
     exists R' s', run supervisor smode_vector_code R s = Ok R' s' /\ trap_vector (xregs R) s = Ok (rget R' T0) s' /\
       rget R' SP = load64 (k_mem s) (k_csr s sscratch + TF_kernel_sp)) /\
  (page_ok (rget R A0) ->
     exists R' s', run supervisor return_code R s = Ok R' s' /\
       return_to_user (A := unit) (rget R A0) (rget R A1) s = User (mkUser (xregs R') (k_csr s' sepc) (k_csr s' satp)) s').
Proof.
  intros HR. split; intros Hp.
  - destruct (smode_vector_spec R s HR Hp) as (R' & s' & E1 & E2 & _ & _ & E3). eauto 10.
  - apply return_code_spec; [apply HR|done|by apply rget_word].
Qed.

End Asm.

(* ------------------------------------------------------------------ *)
(** * Witnesses *)

(** registers that hold 100, 101, ..., but a0 the number of a system call *)
Definition demo_regs : list Z := <[A0 := SYS_user_getinfo]> (Z.of_nat <$> seq 100 32).
Lemma demo_regfile : regfile demo_regs.
Proof.
  split; [done|]. apply Forall_forall. intros v Hv. apply list_elem_of_lookup in Hv as (k & Hk). unfold demo_regs in Hk.
  apply list_lookup_insert_Some in Hk as [(_ & <- & _)|[_ Hk]]; [unfold SYS_user_getinfo, SYS_user_base; lia|].
  rewrite list_lookup_fmap in Hk. destruct (seq 100 32 !! k) as [n|] eqn:E; [|done]. injection Hk as <-. apply lookup_seq in E. lia.
Qed.
(** machine mode is interrupted by its timer; the frame is at 0x80015000 *)
Definition demo_mtimer : @kstate Demo.platform :=
  set_k_csr (fun r => match r with mscratch => 0x80015000 | mcause => CAUSE_MTIMER | _ => 0 end) (Demo.state 0).
Lemma mtrapvec_timer_witness :
  exists R' s', @mtrapvec Demo.platform (replicate 32 7) demo_regs demo_mtimer = Ok R' s' /\
    rget R' A1 = 111 /\ rget R' T6 = 0x80015000 /\ load64 (k_mem s') (CLINT_MTIMECMP 0) = TIMER_INTERVAL.
Proof.
  destruct (mtrapvec_timer demo_regs (replicate 32 7) demo_mtimer) as (R' & s' & E & Hr & Ht & _ & Hc & _);
    [exact demo_regfile|done|done|done|done|by right|done|].
  exists R', s'. split_and!; [exact E| |exact Ht|exact Hc]. rewrite Hr by (unfold A1, T6; lia). done.
Defined.

(** process 0 of [demo_user] in user mode *)
Definition demo_in_user : @kstate Demo.platform :=
  set_k_csr (fun r => match r with sscratch => 0x80022000 | _ => 0 end)
    (set_k_mem (store64 (k_mem demo_user) 0x80022100 (@smode_trap_handler_addr Demo.platform)) demo_user).
Lemma vectors_refine_witness :
  exists R' s', run (PLAT := Demo.platform) supervisor smode_vector_code demo_regs demo_in_user = Ok R' s' /\
    trap_vector (xregs demo_regs) demo_in_user = Ok (rget R' T0) s'.
Proof.
  destruct (vectors_refine demo_regs demo_in_user demo_regfile) as [H _]. destruct (H ltac:(by vm_compute)) as (R' & s' & E1 & E2 & _).
  exists R', s'. split; [exact E1|exact E2].
Defined.
