(* ===== verification/Typing.v ===== *)
(** The C types of the kernel's globals, and that the kernel keeps them.

    [well_typed] says of a kernel state that every global, csr and field of the
    process and file tables lies in its C type, that the tables have their sizes,
    and that the index pointers (current, the ready queue, parents, descriptors)
    stay inside their tables.  [stable] is a program logic for the code that
    leaves scheduling alone: such code preserves [well_typed], the view the
    scheduler has of the processes, and stops the machine only for reasons other
    than the two of the scheduler.  Every function of the kernel below the system
    calls is shown to be stable here; [System] uses it for the rest. *)

From S2P Require Import Prelude Machine Pmm StringC Dts Vmm Sched SpikeFile Dev Rfs Vfs File Process Elf Syscall Trap Asm.

(* ------------------------------------------------------------------ *)
(** * Types *)

Definition word (v : Z) : Prop := 0 <= v < 2 ^ 64.
Definition int (v : Z) : Prop := - 2 ^ 31 <= v < 2 ^ 31.
Definition uint (v : Z) : Prop := 0 <= v < 2 ^ 32.
Definition below (n : nat) (o : option nat) : Prop := forall i, o = Some i -> (i < n)%nat.

(** kernel/process.h: struct process *)
Record proc_ok (p : process) : Prop := {
  po_kstack : word (p_kstack p);
  po_pagetable : word (p_pagetable p);
  po_trapframe : word (p_trapframe p);
  po_mapped_info : word (p_mapped_info p);
  po_pfiles : word (p_pfiles p);
  po_pid : word (p_pid p);
  po_region : int (p_total_mapped_region p);
  po_tick : int (p_tick_count p);
  po_ticks : int (p_total_tick_count p);
  po_mem : int (p_total_mem_count p);
  po_parent : below NPROC (p_parent p);
  po_next : below NPROC (p_queue_next p)
}.
(** spike_interface/spike_file.h: spike_file_t *)
Record file_ok (f : spike_file) : Prop := { fo_kfd : int (kfd f); fo_ref : uint (refcnt f) }.

Create HintDb typed discriminated.

Section Typing.
Context {PLAT : Platform}.

Record well_typed (s : kstate) : Prop := {
  wt_free_list : word (k_free_list s);
  wt_start : word (k_free_mem_start_addr s);
  wt_end : word (k_free_mem_end_addr s);
  wt_size : word (k_mem_size s);
  wt_ufree : word (k_ufree_page s);
  wt_ticks : word (k_ticks s);
  wt_kpt : word (k_kernel_pagetable s);
  wt_csr r : word (k_csr s r);
  wt_disk : word (k_ramdisk0_base s);
  wt_nprocs : length (k_procs s) = NPROC;
  wt_procs : Forall proc_ok (k_procs s);
  wt_current : below NPROC (k_current s);
  wt_head : below NPROC (k_ready_queue_head s);
  wt_ndev : length (k_vdev_list s) = MAX_DEV;
  wt_dev : Forall word (k_vdev_list s);
  wt_nfiles : length (k_spike_files s) = MAX_FILES;
  wt_files : Forall file_ok (k_spike_files s);
  wt_nfds : length (k_spike_fds s) = MAX_FDS;
  wt_fds : Forall (below MAX_FILES) (k_spike_fds s)
}.

(** ** What the scheduler sees *)

(** [C] selects the csrs that keep their values, too *)
Record same_view (C : csr -> bool) (s s' : kstate) : Prop := {
  sv_current : k_current s' = k_current s;
  sv_head : k_ready_queue_head s' = k_ready_queue_head s;
  sv_length : length (k_procs s') = length (k_procs s);
  sv_status i : p_status (proc s' i) = p_status (proc s i);
  sv_next i : p_queue_next (proc s' i) = p_queue_next (proc s i);
  sv_pid i : p_pid (proc s' i) = p_pid (proc s i);
  sv_csr r : C r = true -> k_csr s' r = k_csr s r
}.
#[global] Instance same_view_preorder C : PreOrder (same_view C).
Proof.
  split.
  - intros s. by split.
  - intros s1 s2 s3 [] []. split; intros; try congruence. rewrite sv_csr1 by done. by apply sv_csr0.
Qed.

(** the two reasons for which the scheduler stops the machine: processes that are
    neither finished nor ready, and a queued process that is not READY *)
Definition sched_stop (h : stop) : bool :=
  match h with
  | Panic x => bool_decide (x = "Not handled: we should let system wait for unfinished processes.")
  | Poweroff x => bool_decide (x = "current->status == READY")
  | _ => false
  end.
Definition benign (h : stop) : Prop := sched_stop h = false.

(* ------------------------------------------------------------------ *)
(** * The logic *)

Definition stable {A} (C : csr -> bool) (Q : A -> Prop) (c : K A) : Prop := forall s, well_typed s ->
  match c s with
  | Ok a s' => well_typed s' /\ same_view C s s' /\ Q a
  | User _ _ => False
  | Stop h _ => benign h
  end.

Section Rules.
Context (C : csr -> bool).

Lemma stable_ret {A} (Q : A -> Prop) a : Q a -> stable C Q (ret a).
Proof. by intros HQ s Hs. Qed.
Lemma stable_bind {A B} (P : A -> Prop) (Q : B -> Prop) c f :
  stable C P c -> (forall a, P a -> stable C Q (f a)) -> stable C Q (x <- c ;; f x).
Proof.
  intros Hc Hf s Hs. specialize (Hc s Hs). unfold bind. destruct (c s) as [a s1| |]; [|done..].
  destruct Hc as (H1 & Hv & HP). specialize (Hf a HP s1 H1). destruct (f a s1) as [b s2| |]; [|done..].
  destruct Hf as (H2 & Hv2 & HQ). split_and!; [done|by etrans|done].
Qed.
Lemma stable_mono {A} (P Q : A -> Prop) c : (forall a, P a -> Q a) -> stable C P c -> stable C Q c.
Proof. intros H Hc s Hs. specialize (Hc s Hs). destruct (c s); naive_solver. Qed.
Lemma stable_any {A} (P : A -> Prop) c : stable C P c -> stable C (fun _ => True) c.
Proof. by apply stable_mono. Qed.
Lemma stable_halt {A} (Q : A -> Prop) h : benign h -> stable C Q (halt h).
Proof. by intros Hh s Hs. Qed.
Lemma stable_gets {A} (Q : A -> Prop) f : (forall s, well_typed s -> Q (f s)) -> stable C Q (gets f).
Proof. intros H s Hs. split_and!; [done|done|by apply H]. Qed.
Lemma stable_modify f :
  (forall s, well_typed s -> well_typed (f s) /\ same_view C s (f s)) -> stable C (fun _ => True) (modify f).
Proof. intros H s Hs. destruct (H s Hs). by split_and!. Qed.
Lemma stable_kfor {A} (l : list A) f : (forall i, stable C (fun _ => True) (f i)) -> stable C (fun _ => True) (kfor l f).
Proof.
  intros Hf. induction l as [|i l IH]; cbn [kfor]; [by apply stable_ret|].
  eapply stable_bind; [apply Hf|by intros].
Qed.
Definition sum_post {X R} (I : X -> Prop) (Q : R -> Prop) (y : X + R) : Prop :=
  match y with inl x => I x | inr r => Q r end.
Lemma stable_while {X R} (I : X -> Prop) (Q : R -> Prop) body x :
  I x -> (forall x, I x -> stable C (sum_post I Q) (body x)) -> stable C Q (kwhile body x).
Proof.
  intros Hx Hb s Hs. apply (kwhile_partial (fun x s' => I x /\ well_typed s' /\ same_view C s s')
    (fun r => match r with Ok a s' => well_typed s' /\ same_view C s s' /\ Q a | User _ _ => False | Stop h _ => benign h end)); [done| |done].
  intros y s1 (Hy & H1 & Hv). specialize (Hb y Hy s1 H1). destruct (body y s1) as [[x'|r] s2| |]; [| |done|done];
    destruct Hb as (H2 & Hv2 & HQ); cbn [iter_post]; split_and!; first [done | by etrans].
Qed.

(** ** Memory, csrs, globals *)

Lemma typed_mem m s : well_typed s -> well_typed (set_k_mem m s) /\ same_view C s (set_k_mem m s).
Proof. by intros []; split. Qed.
Lemma load64_word m a : word (load64 m a).
Proof. unfold load64. apply u64_range. Qed.
Lemma stable_ld64 a : stable C word (ld64 a).
Proof. intros s Hs. unfold ld64. destruct (addr_ok 8 a); [|done]. split_and!; [done|done|apply load64_word]. Qed.
Lemma stable_st64 a v : stable C (fun _ => True) (st64 a v).
Proof. intros s Hs. unfold st64. destruct (addr_ok 8 a); [|done]. by destruct (typed_mem (store64 (k_mem s) a v) s Hs). Qed.
Lemma stable_ld32 a : stable C (fun _ => True) (ld32 a).
Proof. intros s Hs. unfold ld32. by destruct (addr_ok 4 a). Qed.
Lemma stable_st32 a v : stable C (fun _ => True) (st32 a v).
Proof. intros s Hs. unfold st32. destruct (addr_ok 4 a); [|done]. by destruct (typed_mem (store32 (k_mem s) a v) s Hs). Qed.
Lemma stable_ld16 a : stable C (fun _ => True) (ld16 a).
Proof. intros s Hs. unfold ld16. by destruct (addr_ok 2 a). Qed.
Lemma stable_ld8 a : stable C (fun _ => True) (ld8 a).
Proof. intros s Hs. unfold ld8. by destruct (addr_ok 1 a). Qed.
Lemma stable_st8 a v : stable C (fun _ => True) (st8 a v).
Proof. intros s Hs. unfold st8. destruct (addr_ok 1 a); [|done]. by destruct (typed_mem (store8 (k_mem s) a v) s Hs). Qed.
Lemma stable_mld32 a : stable C (fun _ => True) (mld32 a).
Proof. intros s Hs. unfold mld32. by destruct (phys_ok 4 a). Qed.
Lemma stable_mst32 a v : stable C (fun _ => True) (mst32 a v).
Proof. intros s Hs. unfold mst32. destruct (phys_ok 4 a); [|done]. by destruct (typed_mem (store32 (k_mem s) a v) s Hs). Qed.
Lemma stable_mld8 a : stable C (fun _ => True) (mld8 a).
Proof. intros s Hs. unfold mld8. by destruct (phys_ok 1 a). Qed.
Lemma stable_read_csr r : stable C word (read_csr r).
Proof. apply stable_gets. intros s Hs. apply Hs. Qed.
Lemma stable_write_csr r v : C r = false -> word v -> stable C (fun _ => True) (write_csr r v).
Proof.
  intros Hr Hv. apply stable_modify. intros s Hs. split.
  - destruct Hs. split; try done. intros r'. cbn [k_csr set_k_csr]. by case_decide.
  - split; try done. intros r' Hr'. cbn [k_csr set_k_csr]. case_decide; [congruence|done].
Qed.
Lemma stable_frontend n args : stable C (fun _ => True) (frontend_syscall n args).
Proof.
  intros s Hs. unfold frontend_syscall. destruct (host_call _ _ _ _) as [[r m] h].
  split_and!; [|by split|done]. destruct Hs. by split.
Qed.

(** ** Processes *)
Lemma null_proc_ok : proc_ok null_proc.
Proof. by split. Qed.
Lemma proc_typed s i : well_typed s -> proc_ok (proc s i).
Proof.
  intros Hs. unfold proc. destruct (k_procs s !! i) as [p|] eqn:E; [|apply null_proc_ok].
  exact (Forall_lookup_1 _ _ _ _ (wt_procs _ Hs) E).
Qed.
Lemma stable_getp {A} (Q : A -> Prop) i f : (forall p, proc_ok p -> Q (f p)) -> stable C Q (getp i f).
Proof. intros H. apply stable_gets. intros s Hs. by apply H, proc_typed. Qed.
Lemma typed_updp i f s :
  (forall p, proc_ok p -> proc_ok (f p)) -> well_typed s -> well_typed (updp i f s).
Proof.
  intros Hf []. split; try done.
  - by rewrite updp_length.
  - cbn [k_procs updp set_k_procs]. apply Forall_alter; [done|]. intros p _ Hp. by apply Hf.
Qed.
(** an update that leaves what the scheduler sees *)
Definition unseen (f : process -> process) : Prop := forall p,
  (proc_ok p -> proc_ok (f p)) /\ p_status (f p) = p_status p /\ p_queue_next (f p) = p_queue_next p /\ p_pid (f p) = p_pid p.
Lemma stable_setp i f : unseen f -> stable C (fun _ => True) (setp i f).
Proof.
  intros Hf. apply stable_modify. intros s Hs. fold (updp i f s). split; [apply typed_updp; [apply Hf|done]|].
  assert (Hp : forall j, proc (updp i f s) j = proc s j \/ proc (updp i f s) j = f (proc s j)).
  { intros j. destruct (decide (i < length (k_procs s))%nat) as [Hi|Hi].
    - rewrite proc_updp by done. case_decide; auto.
    - left. unfold updp, proc. cbn [k_procs set_k_procs].
      destruct (decide (i = j)) as [->|Hj]; [|by rewrite list_lookup_alter_ne].
      rewrite list_lookup_alter_eq, !lookup_ge_None_2 by lia. done. }
  split; try done; [apply updp_length|..]; intros j; destruct (Hp j) as [-> | ->]; try done; apply Hf.
Qed.
End Rules.
End Typing.

(* ------------------------------------------------------------------ *)
(** * Automation *)

(** Where the linker places code and data is a 64-bit address. *)
Class LinkWords (PLAT : Platform) : Prop := {
  lw_vector : word smode_trap_vector;
  lw_link x : word (link_addr x)
}.

Lemma u64_word x : word (u64 x).
Proof. apply u64_range. Qed.
Lemma s32_int x : int (s32 x).
Proof. apply s32_range. Qed.
Lemma u32_uint x : uint (u32 x).
Proof. apply u32_range. Qed.
Lemma below_None n : below n None.
Proof. done. Qed.
Lemma below_Some n i : (i < n)%nat -> below n (Some i).
Proof. by intros ? j [= <-]. Qed.
Lemma land_word x y : word x -> word (Z.land x y).
Proof.
  intros Hx. unfold word. rewrite <- (Z.mod_small x (2 ^ 64)), <- Z.land_ones, <- Z.land_assoc, (Z.land_comm _ y), Z.land_assoc, Z.land_ones by (done || lia).
  apply Z.mod_pos_bound. lia.
Qed.
Lemma lor_word x y : word x -> word y -> word (Z.lor x y).
Proof.
  intros Hx Hy. unfold word. rewrite <- (Z.mod_small x (2 ^ 64)), <- (Z.mod_small y (2 ^ 64)), <- !Z.land_ones, <- Z.land_lor_distr_l, Z.land_ones by (done || lia).
  apply Z.mod_pos_bound. lia.
Qed.
Lemma MAKE_SATP_word x : word x -> word (MAKE_SATP x).
Proof. intros [? ?]. apply lor_word; [done|]. rewrite Z.shiftr_div_pow2 by lia. split; [dlia|]. apply Z.div_lt_upper_bound; lia. Qed.

#[export] Hint Resolve u64_word s32_int u32_uint below_None below_Some land_word lor_word MAKE_SATP_word load64_word lw_vector lw_link : typed.
#[export] Hint Extern 1 (word (Zpos _)) => done : typed.
#[export] Hint Extern 1 (word 0) => done : typed.
#[export] Hint Extern 1 (int _) => done : typed.
#[export] Hint Extern 1 (uint _) => done : typed.
#[export] Hint Extern 1 (unseen _) => intros []; split_and!; [intros []; split; cbn in *; eauto with typed|done..] : typed.
#[export] Hint Extern 1 (benign _) => reflexivity : typed.
#[export] Hint Resolve stable_ld64 stable_st64 stable_ld32 stable_st32 stable_ld16 stable_ld8 stable_st8 stable_mld32 stable_mst32 stable_mld8
  stable_read_csr stable_frontend stable_setp : typed.

Section Globals.
Context {PLAT : Platform} (C : csr -> bool).

Ltac global := intros; first [apply stable_gets; intros ? []; done
  | apply stable_modify; intros ? []; split; [by split|done]].
Lemma stable_free_list : stable C word (gets k_free_list). Proof. global. Qed.
Lemma stable_start : stable C word (gets k_free_mem_start_addr). Proof. global. Qed.
Lemma stable_end : stable C word (gets k_free_mem_end_addr). Proof. global. Qed.
Lemma stable_size : stable C word (gets k_mem_size). Proof. global. Qed.
Lemma stable_ufree : stable C word (gets k_ufree_page). Proof. global. Qed.
Lemma stable_ticks : stable C word (gets k_ticks). Proof. global. Qed.
Lemma stable_kpt : stable C word (gets k_kernel_pagetable). Proof. global. Qed.
Lemma stable_current : stable C (below NPROC) (gets k_current). Proof. global. Qed.
Lemma stable_head : stable C (below NPROC) (gets k_ready_queue_head). Proof. global. Qed.
Lemma stable_set_free_list v : word v -> stable C (fun _ => True) (modify (set_k_free_list v)). Proof. global. Qed.
Lemma stable_set_start v : word v -> stable C (fun _ => True) (modify (set_k_free_mem_start_addr v)). Proof. global. Qed.
Lemma stable_set_end v : word v -> stable C (fun _ => True) (modify (set_k_free_mem_end_addr v)). Proof. global. Qed.
Lemma stable_set_size v : word v -> stable C (fun _ => True) (modify (set_k_mem_size v)). Proof. global. Qed.
Lemma stable_set_ufree v : word v -> stable C (fun _ => True) (modify (set_k_ufree_page v)). Proof. global. Qed.
Lemma stable_set_ticks v : word v -> stable C (fun _ => True) (modify (set_k_ticks v)). Proof. global. Qed.
Lemma stable_set_kpt v : word v -> stable C (fun _ => True) (modify (set_k_kernel_pagetable v)). Proof. global. Qed.
Lemma stable_set_disk v : word v -> stable C (fun _ => True) (modify (set_k_ramdisk0_base v)). Proof. global. Qed.
Lemma stable_gets_any {A} (f : kstate -> A) : stable C (fun _ => True) (gets f). Proof. by apply stable_gets. Qed.

Ltac field := apply stable_getp; by intros ? [].
Lemma stable_kstack i : stable C word (getp i p_kstack). Proof. field. Qed.
Lemma stable_pagetable i : stable C word (getp i p_pagetable). Proof. field. Qed.
Lemma stable_trapframe i : stable C word (getp i p_trapframe). Proof. field. Qed.
Lemma stable_mapped_info i : stable C word (getp i p_mapped_info). Proof. field. Qed.
Lemma stable_region i : stable C int (getp i p_total_mapped_region). Proof. field. Qed.
Lemma stable_getp_any {A} i (f : process -> A) : stable C (fun _ => True) (getp i f). Proof. by apply stable_getp. Qed.
End Globals.
#[export] Hint Resolve stable_free_list stable_start stable_end stable_size stable_ufree stable_ticks stable_kpt stable_current stable_head
  stable_set_free_list stable_set_start stable_set_end stable_set_size stable_set_ufree stable_set_ticks stable_set_kpt stable_set_disk
  stable_kstack stable_pagetable stable_trapframe stable_mapped_info stable_region : typed.
#[export] Hint Resolve stable_gets_any stable_getp_any | 10 : typed.

(** a call of a function that is known to be stable *)
Ltac call := solve [eauto 4 with typed | eapply stable_any; eauto 4 with typed].
Ltac side := cbn [sum_post]; solve [done | eauto with typed | lia].
(** one step of a proof that a computation is stable *)
Ltac stab1 :=
  match goal with
  | |- stable _ _ (bind _ _) => first [eapply stable_bind; [call|intros ? ?] | apply (stable_bind _ (fun _ => True)); [repeat stab1|intros ? ?]]
  | |- stable _ _ (ret _) => apply stable_ret; side
  | |- stable _ _ (halt _) => apply stable_halt; side
  | |- stable _ _ (panic _) => apply stable_halt; side
  | |- stable _ _ (kfor _ _) => apply stable_kfor; intros ?
  | |- stable _ _ (kwhile _ _) => apply (stable_while _ (fun _ => True)); [done|intros ? ?]
  | |- stable _ _ (match ?x with _ => _ end) => destruct x eqn:?; cbn [fst snd] in *
  | |- stable _ _ (let _ := _ in _) => cbv zeta
  | |- stable _ _ _ => call
  end.
Ltac stab := repeat stab1.

(* ------------------------------------------------------------------ *)
(** * The kernel's functions *)

Section Functions.
Context {PLAT : Platform} {LW : LinkWords PLAT} (C : csr -> bool).

(** ** pmm.c *)
Lemma stable_count_mem d : stable C (fun _ => True) (count_mem d).
Proof. unfold count_mem. stab. Qed.
#[local] Hint Resolve stable_count_mem : typed.
Lemma stable_free_page pa : stable C (fun _ => True) (free_page pa).
Proof.
  unfold free_page. stab. apply stable_set_free_list.
  apply orb_false_iff in Heqb as [[_ ?%Z.ltb_ge]%orb_false_iff ?%Z.leb_gt]. unfold word in *. lia.
Qed.
Lemma stable_alloc_page : stable C word alloc_page.
Proof. unfold alloc_page. stab. Qed.
#[local] Hint Resolve stable_free_page stable_alloc_page : typed.
Lemma stable_pmm_init : stable C (fun _ => True) pmm_init.
Proof.
  unfold pmm_init, create_freepage_list. cbv zeta. eapply stable_bind; [apply stable_set_start; unfold ROUNDUP; side|].
  intros _ _. eapply stable_bind; [call|]. intros sz Hsz. eapply stable_bind; [apply stable_set_size|intros; stab].
  unfold MIN. destruct (_ <? _); side.
Qed.

(** ** string.c *)
Lemma stable_memcpy d p n : stable C (fun _ => True) (memcpy d p n).
Proof. unfold memcpy. stab. Qed.
Lemma stable_memset d b n : stable C (fun _ => True) (memset d b n).
Proof. unfold memset. stab. Qed.
Lemma stable_strlen p : stable C (fun _ => True) (strlen p).
Proof. unfold strlen, strlen_by. stab. Qed.
Lemma stable_mstrlen p : stable C (fun _ => True) (strlen_by mld8 p).
Proof. unfold strlen_by. stab. Qed.
Lemma stable_strcmp p q : stable C (fun _ => True) (strcmp p q).
Proof. unfold strcmp, strcmp_by. stab. Qed.
Lemma stable_strcpy p q : stable C (fun _ => True) (strcpy p q).
Proof. unfold strcpy. stab. Qed.
#[local] Hint Resolve stable_memcpy stable_memset stable_strlen stable_mstrlen stable_strcmp stable_strcpy : typed.
Lemma stable_strcat p q : stable C (fun _ => True) (strcat p q).
Proof. unfold strcat. stab. Qed.
#[local] Hint Resolve stable_strcat : typed.

(** ** vmm.c *)
Lemma stable_page_walk_levels l pt va alloc : stable C (fun _ => True) (page_walk_levels l pt va alloc).
Proof. revert pt. induction l as [|l IH]; intros pt; cbn [page_walk_levels]; stab. Qed.
#[local] Hint Resolve stable_page_walk_levels : typed.
Lemma stable_page_walk pt va alloc : stable C (fun _ => True) (page_walk pt va alloc).
Proof. unfold page_walk. stab. Qed.
#[local] Hint Resolve stable_page_walk : typed.
Lemma stable_map_pages pt va sz pa perm : stable C (fun _ => True) (map_pages pt va sz pa perm).
Proof. unfold map_pages. stab. Qed.
Lemma stable_lookup_pa pt va : stable C (fun _ => True) (lookup_pa pt va).
Proof. unfold lookup_pa. stab. Qed.
#[local] Hint Resolve stable_map_pages stable_lookup_pa : typed.
Lemma stable_kern_vm_init : stable C (fun _ => True) kern_vm_init.
Proof. unfold kern_vm_init, kern_vm_map. stab. Qed.
Lemma stable_user_va_to_pa pt va : stable C (fun _ => True) (user_va_to_pa pt va).
Proof. unfold user_va_to_pa. stab. Qed.
Lemma stable_user_vm_map pt va sz pa perm : stable C (fun _ => True) (user_vm_map pt va sz pa perm).
Proof. unfold user_vm_map. stab. Qed.
Lemma stable_user_vm_unmap pt va sz free : stable C (fun _ => True) (user_vm_unmap pt va sz free).
Proof. unfold user_vm_unmap. stab. Qed.
#[local] Hint Resolve stable_kern_vm_init stable_user_va_to_pa stable_user_vm_map stable_user_vm_unmap : typed.
(** ** spike_file.c, hostfs.c *)
Lemma stable_setf f g : (forall x, file_ok x -> file_ok (g x)) -> stable C (fun _ => True) (setf f g).
Proof.
  intros Hg. apply stable_modify. intros s []. split; [|done]. split; try done; cbn [k_spike_files set_k_spike_files].
  - by rewrite length_alter.
  - apply Forall_alter; [done|]. intros x _ Hx. by apply Hg.
Qed.
Lemma stable_getf {A} (Q : A -> Prop) f g : (forall x, file_ok x -> Q (g x)) -> stable C Q (getf f g).
Proof.
  intros Hg. apply stable_gets. intros s Hs. apply Hg. destruct (k_spike_files s !! f) as [x|] eqn:E; [|by split].
  exact (Forall_lookup_1 _ _ _ _ (wt_files _ Hs) E).
Qed.
Lemma stable_getf_any {A} f (g : spike_file -> A) : stable C (fun _ => True) (getf f g).
Proof. by apply stable_getf. Qed.
Lemma stable_set_refcnt f r : uint r -> stable C (fun _ => True) (setf f (set_refcnt r)).
Proof. intros Hr. apply stable_setf. by intros x []. Qed.
Lemma stable_set_kfd f k : int k -> stable C (fun _ => True) (setf f (set_kfd k)).
Proof. intros Hr. apply stable_setf. by intros x []. Qed.
#[local] Hint Resolve stable_getf_any stable_set_refcnt stable_set_kfd : typed.
Lemma stable_decref f : stable C (fun _ => True) (spike_file_decref f).
Proof. unfold spike_file_decref. stab. Qed.
Lemma stable_incref f : stable C (fun _ => True) (spike_file_incref f).
Proof. unfold spike_file_incref. stab. Qed.
#[local] Hint Resolve stable_decref stable_incref : typed.
Lemma stable_set_fd i o : below MAX_FILES o -> stable C (fun _ => True) (modify (fun s => set_k_spike_fds (<[i := o]> (k_spike_fds s)) s)).
Proof.
  intros Ho. apply stable_modify. intros s []. split; [|done]. split; try done; cbn [k_spike_fds set_k_spike_fds].
  - by rewrite length_insert.
  - by apply Forall_insert.
Qed.
Lemma stable_get_fd i : stable C (below MAX_FILES) (get_fd i).
Proof.
  unfold get_fd. stab. apply stable_gets. intros s Hs. destruct (k_spike_fds s !! Z.to_nat i) as [o|] eqn:E; [|done].
  exact (Forall_lookup_1 _ _ _ _ (wt_fds _ Hs) E).
Qed.
#[local] Hint Resolve stable_set_fd stable_get_fd : typed.
Lemma stable_close f : stable C (fun _ => True) (spike_file_close f).
Proof. unfold spike_file_close, cas_fd. stab. Qed.
Lemma stable_get_free : stable C (below MAX_FILES) spike_file_get_free.
Proof.
  unfold spike_file_get_free. stab.
  apply stable_ret, below_Some. apply list_find_Some in Heqo as (E & _). apply lookup_lt_Some in E. rewrite length_take in E. lia.
Qed.
Lemma stable_dup f : (f < MAX_FILES)%nat -> stable C (fun _ => True) (spike_file_dup f).
Proof. intros Hf. unfold spike_file_dup. stab. Qed.
#[local] Hint Resolve stable_close stable_get_free stable_dup : typed.
Lemma stable_file_init : stable C (fun _ => True) spike_file_init.
Proof.
  unfold spike_file_init. cbn [kfor]. repeat (eapply stable_bind; [|intros _ _]); [| | |by apply stable_ret];
    (eapply stable_bind; [call|]; intros [f|] Hf; [|stab]; specialize (Hf f eq_refl); stab).
Qed.
Lemma stable_open fn flags mode :
  stable C (fun r => forall f, r = inl f -> (f < MAX_FILES)%nat) (spike_file_open fn flags mode).
Proof.
  unfold spike_file_open, spike_file_openat. eapply stable_bind; [call|]. intros [f|] Hf; [|by apply stable_ret].
  specialize (Hf f eq_refl). stab. apply stable_ret. by intros ? [= <-].
Qed.
#[local] Hint Resolve stable_file_init stable_open : typed.
Lemma stable_kfd_of f : stable C (fun _ => True) (kfd_of f).
Proof. unfold kfd_of. stab. Qed.
#[local] Hint Resolve stable_kfd_of : typed.
Lemma stable_pread f buf n off : stable C (fun _ => True) (spike_file_pread f buf n off).
Proof. unfold spike_file_pread. stab. Qed.
Lemma stable_sgetline dst n : stable C (fun _ => True) (sgetline dst n).
Proof. unfold sgetline, spike_file_read. stab. Qed.
Lemma stable_host_open p flags : stable C (fun _ => True) (host_open p flags).
Proof. unfold host_open. eapply stable_bind; [call|]. intros [f|e] Hf; [specialize (Hf f eq_refl)|]; stab. Qed.
#[local] Hint Resolve stable_pread stable_sgetline stable_host_open : typed.

(** ** dev.c, ramdev.c, rfs.c, vfs.c, file.c *)
Lemma stable_ramdisk0_input p n : stable C (fun _ => True) (ramdisk0_input p n).
Proof. unfold ramdisk0_input. stab. Qed.
Lemma stable_ramdisk0_output p n : stable C (fun _ => True) (ramdisk0_output p n).
Proof. unfold ramdisk0_output. stab. Qed.
#[local] Hint Resolve stable_ramdisk0_input stable_ramdisk0_output : typed.
Lemma stable_set_vdev i v : word v -> stable C (fun _ => True) (modify (fun s => set_k_vdev_list (<[i := v]> (k_vdev_list s)) s)).
Proof.
  intros Ho. apply stable_modify. intros s []. split; [|done]. split; try done; cbn [k_vdev_list set_k_vdev_list].
  - by rewrite length_insert.
  - by apply Forall_insert.
Qed.
#[local] Hint Resolve stable_set_vdev : typed.
Lemma stable_dev_init : stable C (fun _ => True) dev_init.
Proof. unfold dev_init, init_ramdisk0, dev_init_ramdisk0. stab. Qed.
Lemma stable_r1block r n : stable C (fun _ => True) (rfs_r1block r n).
Proof. unfold rfs_r1block, dop_output. stab. Qed.
Lemma stable_check_w1block r n site : benign (Panic site) -> stable C (fun _ => True) (check (rfs_w1block r n) site).
Proof. intros. unfold check, rfs_w1block, dop_input. stab. Qed.
#[local] Hint Resolve stable_dev_init stable_r1block stable_check_w1block : typed.
Lemma stable_rfs_do_mount d fs : stable C (fun _ => True) (rfs_do_mount d fs).
Proof.
  unfold rfs_do_mount, rfs_alloc, rfs_write_super, rfs_write_bitmap, rfs_write_inodes, rfs_write_root, rfs_write_dir, rfs_set_ops,
    alloc_fs, set_dinode. stab.
Qed.
Lemma stable_rfs_create_inode r d i : stable C (fun _ => True) (rfs_create_inode r d i).
Proof. unfold rfs_create_inode, alloc_inode, rfs_get_ops. stab. Qed.
#[local] Hint Resolve stable_rfs_do_mount stable_rfs_create_inode : typed.
Lemma stable_rfs_get_root fs : stable C (fun _ => True) (rfs_get_root fs).
Proof. unfold rfs_get_root, rfs_load_dinode, check. stab. Qed.
Lemma stable_rfs_lookup n p : stable C (fun _ => True) (rfs_lookup n p).
Proof. unfold rfs_lookup, rfs_lookup_block. stab. Qed.
Lemma stable_find_device d : stable C (fun _ => True) (find_device d).
Proof. unfold find_device. stab. Qed.
#[local] Hint Resolve stable_rfs_get_root stable_rfs_lookup stable_find_device : typed.
Lemma stable_fs_init : stable C (fun _ => True) fs_init.
Proof. unfold fs_init, rfs_init, rfs_mount, vfs_mount. stab. Qed.
Lemma stable_vfs_open p flags : stable C (fun _ => True) (vfs_open p flags).
Proof. unfold vfs_open, vfs_lookup, get_device, vfs_get_root, fsop_get_root, vop_lookup. stab. Qed.
Lemma stable_cur {A} (f : process -> A) : stable C (fun _ => True) (cur f).
Proof. unfold cur. stab. Qed.
#[local] Hint Resolve stable_fs_init stable_vfs_open stable_cur : typed.
Lemma stable_do_open p flags : stable C (fun _ => True) (do_open p flags).
Proof. unfold do_open, find_entry, vop_fstat, rfs_fstat, inc_nfile. stab. Qed.
Lemma stable_files_create : stable C word files_create.
Proof. unfold files_create, host_entry, none_entry, inc_nfile. stab. Qed.
#[local] Hint Resolve stable_do_open stable_files_create : typed.

(** ** process.c *)
Lemma stable_map_initial i us : stable C (fun _ => True) (map_initial i us).
Proof. unfold map_initial, set_region. stab. Qed.
#[local] Hint Resolve stable_map_initial : typed.
Lemma stable_for_regions i body : (forall j, stable C (fun _ => True) (body j)) -> stable C (fun _ => True) (for_regions i body).
Proof. intros Hb. unfold for_regions. stab. Qed.
Lemma stable_unmap_region i j : stable C (fun _ => True) (unmap_region i j).
Proof. unfold unmap_region. stab. Qed.
Lemma stable_fork_region i j n : stable C (fun _ => True) (fork_region i j n).
Proof. unfold fork_region, copy_trapframe, register_region, set_region. stab. Qed.
#[local] Hint Resolve stable_for_regions stable_unmap_region stable_fork_region : typed.
Lemma stable_realloc_process i : stable C (fun _ => True) (realloc_process i).
Proof. unfold realloc_process. stab. Qed.
#[local] Hint Resolve stable_realloc_process : typed.
(** a process is allocated in the first free slot *)
Lemma alloc_process_stable s : well_typed s ->
  match alloc_process s with
  | Ok i s' => well_typed s' /\ same_view C s s' /\ find_free_proc s = Some i
  | User _ _ => False
  | Stop h _ => benign h
  end.
Proof.
  intros Hs. unfold alloc_process, bind at 1, gets at 1. destruct (find_free_proc s) as [i|] eqn:E; [|done].
  match goal with |- match ?c s with _ => _ end => assert (H : stable C (eq i) c) by stab; specialize (H s Hs); destruct (c s) end; [|done..].
  by destruct H as (? & ? & <-).
Qed.

(** ** elf.c *)
Lemma stable_elf_fpread f d n o : stable C (fun _ => True) (elf_fpread f d n o).
Proof. unfold elf_fpread. stab. Qed.
#[local] Hint Resolve stable_elf_fpread : typed.
Lemma stable_load_segment f p ph : stable C (fun _ => True) (load_segment f p ph).
Proof. unfold load_segment, elf_alloc_mb, record_segment, find_region. stab. Qed.
#[local] Hint Resolve stable_load_segment : typed.
Lemma stable_load_file p path e ph : stable C (fun _ => True) (load_file p path e ph).
Proof. unfold load_file, elf_init, elf_load. stab. Qed.
#[local] Hint Resolve stable_load_file : typed.
Lemma stable_load_bincode fr p : stable C (fun _ => True) (load_bincode_from_host_elf fr p).
Proof. unfold load_bincode_from_host_elf, parse_args. stab. Qed.
Lemma stable_push_word pt v sp : stable C (fun _ => True) (push_word pt v sp).
Proof. unfold push_word. stab. Qed.
Lemma stable_push_words pt vs sp : stable C (fun _ => True) (push_words pt vs sp).
Proof. revert sp. induction vs as [|v vs IH]; intros sp; cbn [push_words]; [by apply stable_ret|]. eapply stable_bind; [apply stable_push_word|eauto]. Qed.
Lemma stable_push_strings pt vs sp : stable C (fun _ => True) (push_strings pt vs sp).
Proof. revert sp. induction vs as [|v vs IH]; intros sp; cbn [push_strings]; unfold push_string; stab. Qed.
#[local] Hint Resolve stable_load_bincode stable_push_word stable_push_words stable_push_strings : typed.
Lemma stable_build_ustack i argv : stable C (fun _ => True) (build_ustack i argv).
Proof. unfold build_ustack. stab. Qed.
#[local] Hint Resolve stable_build_ustack : typed.
Lemma stable_do_exec fr path argv : stable C (fun _ => True) (do_exec fr path argv).
Proof. unfold do_exec, load_shell_bincode_from_host_elf, save_argv. stab. Qed.
#[local] Hint Resolve stable_do_exec : typed.

(** ** syscall.c: the calls that do not schedule *)
Lemma stable_current_proc : stable C (fun i => (i < NPROC)%nat) current.
Proof. unfold current. eapply stable_bind; [call|]. intros [i|] Hi; [apply stable_ret; by apply Hi|by apply stable_halt]. Qed.
Lemma stable_assert_current : stable C (fun i => (i < NPROC)%nat) assert_current.
Proof. unfold assert_current. eapply stable_bind; [call|]. intros [i|] Hi; [apply stable_ret; by apply Hi|by apply stable_halt]. Qed.
#[local] Hint Resolve stable_current_proc stable_assert_current : typed.
Lemma stable_sys_user_print b n : stable C (fun _ => True) (sys_user_print b n).
Proof. unfold sys_user_print. stab. Qed.
Lemma stable_sys_user_allocate_page : stable C (fun _ => True) sys_user_allocate_page.
Proof. unfold sys_user_allocate_page. stab. Qed.
Lemma stable_sys_user_free_page va : stable C (fun _ => True) (sys_user_free_page va).
Proof. unfold sys_user_free_page. stab. Qed.
Lemma stable_sys_user_getline d n : stable C (fun _ => True) (sys_user_getline d n).
Proof. unfold sys_user_getline. stab. Qed.
Lemma stable_sys_user_exec fr p a : stable C (fun _ => True) (sys_user_exec fr p a).
Proof. unfold sys_user_exec. stab. Qed.
Lemma stable_sys_user_open p f : stable C (fun _ => True) (sys_user_open p f).
Proof. unfold sys_user_open. stab. Qed.
Lemma stable_sys_user_read fd b n : stable C (fun _ => True) (sys_user_read fd b n).
Proof. unfold sys_user_read, transfer, do_read. stab. Qed.
Lemma stable_sys_user_write fd b n : stable C (fun _ => True) (sys_user_write fd b n).
Proof. unfold sys_user_write, transfer, do_write. stab. Qed.

(** ** strap.c, mtrap.c *)
Lemma stable_handle_user_page_fault c pc va : stable C (fun _ => True) (handle_user_page_fault c pc va).
Proof. unfold handle_user_page_fault. stab. Qed.
Lemma stable_handle_mtimer_trap : C sip = false -> stable C (fun _ => True) handle_mtimer_trap.
Proof. intros. unfold handle_mtimer_trap. stab. by apply stable_write_csr; [|side]. Qed.
Lemma stable_clint_st a v : stable C (fun _ => True) (clint_st a v).
Proof. apply stable_modify. intros s. apply typed_mem. Qed.
Lemma stable_clint_ld a : stable C word (clint_ld a).
Proof. apply stable_gets. intros s _. side. Qed.
#[local] Hint Resolve stable_clint_st stable_clint_ld : typed.
Lemma stable_handle_mtrap : C sip = false -> stable C (fun _ => True) handle_mtrap.
Proof. intros. unfold handle_mtrap, handle_timer, handle_instruction_access_fault, handle_load_access_fault, handle_store_access_fault,
    handle_illegal_instruction, handle_misaligned_load, handle_misaligned_store. stab. by apply stable_write_csr. Qed.

(** ** dts_parse.c, spike_memory.c, spike_htif.c *)
Lemma stable_strcmp_lit p lit : stable C (fun _ => True) (strcmp_lit p lit).
Proof. unfold strcmp_lit, strcmp_by. stab. Qed.
#[local] Hint Resolve stable_strcmp_lit : typed.
Lemma stable_get_cells n v : stable C (fun r => word r.2) (get_cells n v).
Proof.
  unfold get_cells. apply (stable_while _ (fun x => word x.2)); [done|]. intros [[k v'] r] Hr. cbn [snd] in *. stab.
Qed.
#[local] Hint Resolve stable_get_cells : typed.

Section Scan.
Context {E : Type} (cb : fdt_cb E).
(** callbacks that are stable *)
Record cb_stable : Prop := {
  cs_open f : cb_open cb = Some f -> forall n e, stable C (fun _ => True) (f n e);
  cs_prop p e : stable C (fun _ => True) (cb_prop cb p e);
  cs_done f : cb_done cb = Some f -> forall n e, stable C (fun _ => True) (f n e);
  cs_close f : cb_close cb = Some f -> forall n e, stable C (fun _ => True) (f n e)
}.
Hypothesis Hcb : cb_stable.

Lemma stable_call_open n e : stable C (fun _ => True) (call_open cb n e).
Proof. unfold call_open. stab. by eapply cs_open. Qed.
Lemma stable_call_done last n e : stable C (fun _ => True) (call_done cb last n e).
Proof. unfold call_done. stab. by eapply cs_done. Qed.
#[local] Hint Resolve stable_call_open stable_call_done cs_prop : typed.
Lemma stable_helper strings depth lex node e : stable C (fun _ => True) (fdt_scan_helper cb strings depth lex node e).
Proof.
  revert lex node e. induction depth as [|d IH]; intros lex node e; cbn [fdt_scan_helper]; [by apply stable_halt|].
  cbv zeta. apply (stable_while _ (fun _ => True)); [done|]. intros [[[[lx last] child] nd] e'] _.
  unfold scan_token, set_cells, erase. stab; try by eapply cs_close.
Qed.
#[local] Hint Resolve stable_helper : typed.
Lemma stable_fdt_scan fdt e : stable C (fun _ => True) (fdt_scan fdt cb e).
Proof. unfold fdt_scan. stab. Qed.
End Scan.

Lemma mem_cb_stable : cb_stable mem_cb.
Proof.
  split; cbn [cb_open cb_prop cb_done cb_close mem_cb].
  - intros f [= <-] n e. unfold mem_open. stab.
  - intros p e. unfold mem_prop. stab.
  - intros f [= <-] n e. unfold mem_done, mem_step, fdt_get_address, fdt_get_size. stab.
  - done.
Qed.
Lemma htif_cb_stable : cb_stable htif_cb.
Proof.
  split; cbn [cb_open cb_prop cb_done cb_close htif_cb].
  - intros f [= <-] n e. unfold htif_open. stab.
  - intros p e. unfold htif_prop. stab.
  - intros f [= <-] n e. unfold htif_done. stab.
  - done.
Qed.
Lemma stable_init_dtb dtb h0 m0 : stable C (fun _ => True) (init_dtb dtb h0 m0).
Proof.
  unfold init_dtb, query_htif, query_mem.
  eapply stable_bind; [eapply stable_bind; [apply stable_fdt_scan, htif_cb_stable|intros; stab]|]. intros _ _.
  eapply stable_bind; [by apply stable_set_size|]. intros _ _. eapply stable_bind; [apply stable_fdt_scan, mem_cb_stable|]. intros; stab.
Qed.

(** ** The assembly: registers stay words *)
Definition csr_written (i : instr) : option csr :=
  match i with Csrrw _ c _ => Some c | Csrw c _ => Some c | _ => None end.
Definition writes_outside (i : instr) : Prop := forall c, csr_written i = Some c -> C c = false.

Section Code.
Context (md : mode).
Hypothesis Hld : forall a, stable C word (m_ld md a).
Hypothesis Hst : forall a v, stable C (fun _ => True) (m_st md a v).

Lemma stable_exec i R : writes_outside i -> Forall word R -> stable C (Forall word) (exec md i R).
Proof.
  intros Hc HR. assert (Hr : forall r, word (rget R r)).
  { intros r. unfold rget. destruct (Nat.eqb r 0); [done|]. destruct (R !! r) as [v|] eqn:E; [|done]. exact (Forall_lookup_1 _ _ _ _ HR E). }
  assert (Hs : forall r v, word v -> Forall word (rset r v R)) by (intros; by apply Forall_insert).
  destruct i; cbn [exec]; stab; (apply stable_write_csr; [by apply Hc|side]).
Qed.
Lemma stable_run prog R : Forall writes_outside prog -> Forall word R -> stable C (Forall word) (run md prog R).
Proof.
  intros Hp. revert R. induction Hp as [|i prog Hi Hp IH]; intros R HR; cbn [run]; [by apply stable_ret|].
  eapply stable_bind; [by apply stable_exec|]. intros R'. apply IH.
Qed.
End Code.

Lemma stable_machine_run prog R : Forall writes_outside prog -> Forall word R -> stable C (Forall word) (run machine prog R).
Proof.
  apply stable_run.
  - intros a s Hs. cbn [m_ld machine]. destruct (phys_ok 8 a); [|done]. split_and!; [done|done|side].
  - intros a v s Hs. cbn [m_st machine]. destruct (phys_ok 8 a); [|done]. by destruct (typed_mem C (store64 (k_mem s) a v) s Hs).
Qed.
(** decides [writes_outside] for the instructions of a program *)
Lemma writes_outside_all prog :
  forallb (fun i => match csr_written i with Some c => negb (C c) | None => true end) prog = true -> Forall writes_outside prog.
Proof.
  intros H. apply Forall_forall. intros i Hi c Hc. rewrite forallb_forall in H. specialize (H i (proj1 (list_elem_of_In _ _) Hi)).
  rewrite Hc in H. by destruct (C c).
Qed.
Lemma stable_mtrapvec junk R :
  C sip = false -> C mscratch = false -> Forall word junk -> Forall word R -> stable C (Forall word) (mtrapvec junk R).
Proof.
  intros Hsip Hm Hj HR. assert (Hp : Forall writes_outside mtrapvec_save) by (apply writes_outside_all; cbn; by rewrite !Hm).
  unfold mtrapvec. eapply stable_bind; [by apply stable_machine_run|]. intros _ _.
  eapply stable_bind; [by apply stable_handle_mtrap|]. intros _ _. apply stable_machine_run; [|done]. by apply writes_outside_all.
Qed.

(** ** minit.c *)
Lemma stable_m_start hartid dtb h0 m0 : (forall r, C r = false) -> stable C (fun _ => True) (m_start hartid dtb h0 m0).
Proof.
  intros HC. assert (Hw : forall r v, word v -> stable C (fun _ => True) (write_csr r v)) by (intros; by apply stable_write_csr).
  unfold m_start, delegate_traps, supports_extension, timerinit. pose proof stable_init_dtb.
  stab; apply Hw; repeat apply lor_word; first [done | by apply land_word].
Qed.
End Functions.

#[export] Hint Resolve stable_free_page stable_alloc_page stable_pmm_init stable_kern_vm_init stable_memcpy stable_memset stable_user_vm_map
  stable_user_vm_unmap stable_for_regions stable_unmap_region stable_fork_region stable_load_bincode stable_fs_init
  stable_current_proc stable_assert_current stable_sys_user_print stable_sys_user_allocate_page stable_sys_user_free_page
  stable_sys_user_getline stable_sys_user_exec stable_sys_user_open stable_sys_user_read stable_sys_user_write
  stable_handle_user_page_fault : typed.
