(* ===== verification/System.v ===== *)
(** The kernel as a whole: boot, traps, and what holds whenever user code runs.

    A run of the system is: reset, [m_start] in machine mode, [s_start] in
    supervisor mode, and then user code that traps, again and again.  Between two
    traps the user may change registers, pc and memory at will; it cannot change a
    csr or, except through memory, a kernel global.  Machine timer interrupts come
    in between.  [reachable u s] says that the kernel enters user mode with [u] in
    state [s] in some run.

    The theorems hold of every reachable entry: the globals have their C types
    ([reachable_typed]), user mode runs in the address space of the current process
    and the next trap will save its registers in that process's trapframe
    ([reachable_user_entry]), the processes that are ready are exactly the running
    one and those of the queue ([reachable_ready]), and the scheduler never gives
    up ([scheduler_never_stuck]). *)

From S2P Require Import Prelude Machine Pmm StringC Dts Vmm Sched SpikeFile Dev Rfs Vfs File Process Elf Syscall Trap Asm Typing.

Section System.
Context {PLAT : Platform} {LW : LinkWords PLAT}.

(* ------------------------------------------------------------------ *)
(** * The scheduling invariant *)

(** no csr need keep its value *)
Definition anycsr (r : csr) : bool := false.

(** [l] is the ready queue; the processes that are READY are those of [l] and
    those of [R], which are not queued; nobody is RUNNING or BLOCKED *)
Record sched_ok (R : gset nat) (l : list nat) (s : kstate) : Prop := {
  so_queue : queue s l;
  so_ready i : (i < NPROC)%nat -> p_status (proc s i) = READY <-> i ∈ R \/ i ∈ l;
  so_status i : (i < NPROC)%nat -> p_status (proc s i) ∈ [FREE; READY; ZOMBIE];
  so_sep i : i ∈ R -> i ∉ l;
  so_pid i : (i < NPROC)%nat -> p_pid (proc s i) = Z.of_nat i
}.

(** what holds at the moment user mode is entered for process [i] *)
Record user_ok (u : user_entry) (i : nat) (s : kstate) : Prop := {
  uo_current : k_current s = Some i;
  uo_bound : (i < NPROC)%nat;
  uo_space : ue_satp u = MAKE_SATP (p_pagetable (proc s i)) /\ k_csr s satp = ue_satp u;
  uo_frame : k_csr s sscratch = p_trapframe (proc s i);
  uo_vector : k_csr s stvec = smode_trap_vector;
  uo_pc : k_csr s sepc = ue_pc u;
  uo_user : Z.testbit (k_csr s sstatus) 8 = false;
  uo_ints : Z.testbit (k_csr s sstatus) 5 = true;
  uo_regs : length (ue_regs u) = 31%nat /\ Forall word (ue_regs u)
}.

(** process [i] is current; [R] and [l] as in [sched_ok] *)
Record kinv (i : nat) (R : gset nat) (l : list nat) (s : kstate) : Prop := {
  ki_typed : well_typed s;
  ki_sched : sched_ok R l s;
  ki_current : k_current s = Some i
}.
Definition user_inv (u : user_entry) (s : kstate) : Prop :=
  exists i l, kinv i {[i]} l s /\ user_ok u i s.

(** outcomes: a result in [Q], an entry of user mode, or a stop the scheduler did
    not cause *)
Definition safe {A} (Q : A -> kstate -> Prop) (r : res A) : Prop :=
  match r with
  | Ok a s => Q a s
  | User u s => user_inv u s
  | Stop h _ => benign h
  end.

Lemma safe_bind {A B} (P : A -> kstate -> Prop) (Q : B -> kstate -> Prop) c f s :
  safe P (c s) -> (forall a s', P a s' -> safe Q (f a s')) -> safe Q ((x <- c ;; f x) s).
Proof. unfold bind. intros Hc Hf. destruct (c s); [by apply Hf|done..]. Qed.
Lemma safe_mono {A} (P Q : A -> kstate -> Prop) r : safe P r -> (forall a s, P a s -> Q a s) -> safe Q r.
Proof. intros H HQ. destruct r; [by apply HQ|done..]. Qed.
Lemma stable_safe {A} C (P : A -> Prop) (c : K A) s :
  stable C P c -> well_typed s -> safe (fun a s' => well_typed s' /\ same_view C s s' /\ P a) (c s).
Proof. intros Hc Hs. specialize (Hc s Hs). by destruct (c s). Qed.

Lemma sched_ok_view C R l s s' : same_view C s s' -> sched_ok R l s -> sched_ok R l s'.
Proof.
  intros [] [(Hc & Hnd & Hl) Hr Hst Hs Hp]. split.
  - split_and!; [|done|by rewrite sv_length]. rewrite sv_head. by eapply qchain_frame.
  - intros i Hi. rewrite sv_status. by apply Hr.
  - intros i Hi. rewrite sv_status. by apply Hst.
  - done.
  - intros i Hi. rewrite sv_pid. by apply Hp.
Qed.
Lemma sched_ok_current R l s o : sched_ok R l s -> sched_ok R l (set_k_current o s).
Proof. intros [(Hc & Hnd & Hl) ? ? ? ?]. split; try done. split_and!; [by apply (qchain_frame s)|done|done]. Qed.
Lemma stable_kinv {A} (P : A -> Prop) (c : K A) i R l s :
  stable anycsr P c -> kinv i R l s -> safe (fun a s' => kinv i R l s' /\ P a) (c s).
Proof.
  intros Hc [Ht Hs Hk]. eapply safe_mono; [by apply stable_safe|]. intros a s' (Ht' & Hv & HP). split; [|done].
  split; [done|by eapply sched_ok_view|]. by rewrite (sv_current _ _ _ Hv).
Qed.
(** running the stable head of a computation *)
Lemma kinv_bind {A B} (P : A -> Prop) (Q : B -> kstate -> Prop) c f i R l s :
  stable anycsr P c -> kinv i R l s -> (forall a s', kinv i R l s' -> P a -> safe Q (f a s')) ->
  safe Q ((x <- c ;; f x) s).
Proof. intros Hc Hk Hf. eapply safe_bind; [by eapply stable_kinv|]. intros a s' [? ?]. by apply Hf. Qed.

Lemma sched_ok_bound R l s i : sched_ok R l s -> i ∈ l -> (i < NPROC)%nat.
Proof. intros [(Hc & _ & Hl) _ _ _ _] Hi. rewrite <- Hl. by eapply qchain_bound. Qed.
Lemma sched_ok_status R l s i : sched_ok R l s -> (i < NPROC)%nat -> p_status (proc s i) <> READY -> (i ∉ R) /\ (i ∉ l).
Proof. intros H Hi Hne. pose proof (so_ready _ _ _ H i Hi). naive_solver. Qed.

(** an unqueued process changes its status *)
Lemma sched_ok_updp R l s j f :
  sched_ok R l s -> (j < NPROC)%nat -> j ∉ l -> p_pid (f (proc s j)) = p_pid (proc s j) ->
  p_status (f (proc s j)) ∈ [FREE; READY; ZOMBIE] ->
  sched_ok (if decide (p_status (f (proc s j)) = READY) then {[j]} ∪ R else R ∖ {[j]}) l (updp j f s).
Proof.
  intros [(Hc & Hnd & Hl) Hr Hst Hs Hp] Hj Hjl Hpid Hf.
  assert (Hpr : forall i, proc (updp j f s) i = if decide (j = i) then f (proc s i) else proc s i) by (intros; by apply proc_updp; rewrite Hl).
  split.
  - split_and!; [|done|by rewrite updp_length]. apply (qchain_frame s); [apply updp_length| |done].
    intros i Hi. rewrite Hpr, decide_False by (intros ->; done). done.
  - intros i Hi. rewrite Hpr. specialize (Hr i Hi). destruct (decide (j = i)) as [<-|Hne].
    + case_decide; set_solver.
    + case_decide; set_solver.
  - intros i Hi. rewrite Hpr. case_decide; [by subst|by apply Hst].
  - intros i. case_decide; [rewrite elem_of_union, elem_of_singleton; intros [->|]; [done|by apply Hs]|].
    rewrite elem_of_difference. intros [? _]. by apply Hs.
  - intros i Hi. rewrite Hpr. case_decide; [subst; by rewrite Hpid, Hp|by apply Hp].
Qed.
Lemma kinv_updp i R l s j f :
  kinv i R l s -> (j < NPROC)%nat -> j ∉ l -> p_pid (f (proc s j)) = p_pid (proc s j) ->
  (forall p, proc_ok p -> proc_ok (f p)) -> p_status (f (proc s j)) ∈ [FREE; READY; ZOMBIE] ->
  kinv i (if decide (p_status (f (proc s j)) = READY) then {[j]} ∪ R else R ∖ {[j]}) l (updp j f s).
Proof. intros [Ht Hs Hk] Hj Hjl Hpid Hf Hst. split; [by apply typed_updp|by apply sched_ok_updp|done]. Qed.

(* ------------------------------------------------------------------ *)
(** * Queueing and scheduling *)

Lemma insert_typed s l i :
  queue s l -> well_typed s -> (i < NPROC)%nat -> exists s', insert_to_ready_queue i s = Ok tt s' /\ well_typed s'.
Proof.
  intros Hq Hs Hi. unfold insert_to_ready_queue.
  assert (Hu : forall j f s, (forall p, proc_ok p -> proc_ok (f p)) -> well_typed s -> well_typed (updp j f s)) by (intros; by apply typed_updp).
  assert (H1 : forall p, proc_ok p -> proc_ok (set_p_status READY p)) by (intros p []; by split).
  assert (H2 : forall o p, below NPROC o -> proc_ok p -> proc_ok (set_p_queue_next o p)) by (intros o p Ho []; by split).
  destruct l as [|p0 l].
  - destruct Hq as (Hh & _). cbn [qchain] in Hh. unfold bind, gets, modify. rewrite Hh, !setp_run. eexists. split; [reflexivity|].
    assert (Hw : well_typed (updp i (set_p_queue_next None) (updp i (set_p_status READY) s))) by (apply Hu; [intros; by apply H2|by apply Hu]).
    destruct Hw. split; try done. cbn [k_ready_queue_head set_k_ready_queue_head]. by apply below_Some.
  - destruct (queue_browse s l p0 i Hq) as (r & E & _). destruct Hq as ((Hh & _) & _). unfold bind at 1, gets at 1. rewrite Hh, (bind_Ok _ _ _ _ _ E).
    destruct r as [p|]; [|by eexists]. destruct (Nat.eqb p i); [by eexists|]. unfold bind. rewrite !setp_run. eexists. split; [reflexivity|].
    apply Hu; [intros; by apply H2|]. apply Hu; [done|]. apply Hu; [|done]. intros q. apply H2. by apply below_Some.
Qed.
Lemma insert_sched R l s j :
  well_typed s -> sched_ok R l s -> (j < NPROC)%nat -> j ∉ l ->
  exists s', insert_to_ready_queue j s = Ok tt s' /\ well_typed s' /\ sched_ok (R ∖ {[j]}) (l ++ [j]) s' /\ k_current s' = k_current s.
Proof.
  intros Ht Hs Hj Hjl. pose proof Hs as [Hq Hr Hst Hsep Hp]. destruct (insert_typed s l j Hq Ht Hj) as (s' & E & Ht').
  destruct (insert_new s l j Hq Hj Hjl) as (s1 & E1 & Hq' & (Hf & _) & Hpj & Hpo). rewrite E1 in E. injection E as ->. exists s'.
  split_and!; [done|done| |by rewrite Hf]. split; [done|..].
  - intros i Hi. destruct (decide (i = j)) as [->|Hne]; [rewrite Hpj; cbn [p_status set_p_queue_next set_p_status]; set_solver|].
    destruct (Hpo i Hne) as [q ->]. cbn [p_status set_p_queue_next]. rewrite Hr by done. set_solver.
  - intros i Hi. destruct (decide (i = j)) as [->|Hne]; [rewrite Hpj; cbn [p_status set_p_queue_next set_p_status]; set_solver|].
    destruct (Hpo i Hne) as [q ->]. by apply Hst.
  - set_solver.
  - intros i Hi. destruct (decide (i = j)) as [->|Hne]; [rewrite Hpj; by apply Hp|]. destruct (Hpo i Hne) as [q ->]. by apply Hp.
Qed.
(** the state in which user mode is entered, as far as it matters here *)
Lemma switch_to_entry {A} (Q : A -> kstate -> Prop) i l s :
  well_typed s -> sched_ok {[i]} l s -> (i < NPROC)%nat -> safe Q (switch_to i s).
Proof.
  intros Ht Hs Hi. unfold switch_to, return_to_user, write_csr, read_csr, getp, st64, ld64, bind, modify, gets. cbv beta iota zeta.
  repeat (destruct (addr_ok 8 _); [cbv beta iota zeta|done]).
  match goal with |- safe Q (User ?u ?s') => set (s1 := s'); set (e := u) end.
  exists i, l. assert (Hc : forall r, k_csr s1 r = user_csrs (k_csr s) (p_trapframe (proc s i)) (ue_pc e) (p_pagetable (proc s i)) r).
  { intros r. destruct r; reflexivity. }
  assert (Hw : word (ue_pc e)) by apply load64_word. pose proof (proc_typed s i Ht) as Hp. split; [split|].
  - pose proof Ht as []. split; try done.
    + intros r. rewrite Hc. destruct r; cbn [user_csrs]; try apply wt_csr; [|apply MAKE_SATP_word, Hp|apply lw_vector|done|apply Hp].
      apply lor_word; [apply land_word, wt_csr|done].
    + by apply below_Some.
  - apply (sched_ok_view anycsr _ _ (set_k_current (Some i) s)); [by split|by apply sched_ok_current].
  - done.
  - split; try done; rewrite ?Hc; cbn [user_csrs]; try done.
    + rewrite Z.lor_spec, Z.land_spec, Z.lnot_spec by lia. change (Z.testbit SSTATUS_SPP 8) with true. by rewrite andb_false_r.
    + rewrite Z.lor_spec. apply orb_true_r.
    + split; [done|]. apply Forall_fmap, Forall_forall. intros n _. apply load64_word.
Qed.

Lemma schedule_safe {A} (Q : A -> kstate -> Prop) l s : well_typed s -> sched_ok ∅ l s -> safe Q (schedule s).
Proof.
  intros Ht Hs. pose proof Hs as [Hq Hr Hst _ Hp]. destruct l as [|p l].
  - rewrite (schedule_empty s Hq). assert (should_shutdown s = true) as ->; [|done].
    unfold should_shutdown. apply forallb_forall. intros i Hi%in_seq. destruct Hi as [_ Hi]. specialize (Hr i Hi). specialize (Hst i Hi).
    apply orb_true_iff. rewrite !bool_decide_eq_true. set_solver.
  - pose proof Hq as ((Hh & Hpb & Hn) & Hnd & Hl). apply NoDup_cons in Hnd as [Hpl Hnd]. rewrite Hl in Hpb.
    assert (Hrp : p_status (proc s p) = READY) by (apply Hr; [done|set_solver]).
    unfold schedule, bind at 1, gets at 1. rewrite Hh. unfold bind, modify, getp, gets. cbv beta iota.
    change (proc (set_k_current (Some p) s) p) with (proc s p). rewrite Hrp, bool_decide_eq_true_2 by done.
    apply (switch_to_entry Q p l); [|split|done].
    + destruct (proc_typed s p Ht). destruct Ht. split; try done. by apply below_Some.
    + split_and!; [|done|done]. by apply (qchain_frame s).
    + intros i Hi. rewrite (Hr i Hi : p_status (proc s i) = READY <-> _). set_solver.
    + exact Hst.
    + set_solver.
    + exact Hp.
Qed.

(* ------------------------------------------------------------------ *)
(** * System calls *)

(** process [i] is still the running one *)
Definition kept {A} (i : nat) : A -> kstate -> Prop := fun _ s => exists l, kinv i {[i]} l s.

Lemma stable_kept {A} (P : A -> Prop) (c : K A) i l s : stable anycsr P c -> kinv i {[i]} l s -> safe (kept i) (c s).
Proof. intros Hc Hk. eapply safe_mono; [by eapply stable_kinv|]. intros a s' [? _]. by exists l. Qed.
Lemma insert_kinv {B} (Q : B -> kstate -> Prop) (f : unit -> K B) i R l s j :
  kinv i R l s -> (j < NPROC)%nat -> j ∉ l -> (forall s', kinv i (R ∖ {[j]}) (l ++ [j]) s' -> safe Q (f tt s')) ->
  safe Q ((x <- insert_to_ready_queue j ;; f x) s).
Proof.
  intros [Ht Hs Hk] Hj Hjl Hf. destruct (insert_sched R l s j Ht Hs Hj Hjl) as (s' & E & Ht' & Hs' & Hc). rewrite (bind_Ok _ _ _ _ _ E).
  apply Hf. split; [done|done|by rewrite Hc].
Qed.
Lemma setp_kinv {B} (Q : B -> kstate -> Prop) (g : unit -> K B) i R l s j f R' :
  kinv i R l s -> (j < NPROC)%nat -> j ∉ l -> p_pid (f (proc s j)) = p_pid (proc s j) -> (forall p, proc_ok p -> proc_ok (f p)) ->
  p_status (f (proc s j)) ∈ [FREE; READY; ZOMBIE] -> R' = (if decide (p_status (f (proc s j)) = READY) then {[j]} ∪ R else R ∖ {[j]}) ->
  (forall s', kinv i R' l s' -> safe Q (g tt s')) -> safe Q ((x <- setp j f ;; g x) s).
Proof. intros Hk Hj Hjl Hpid Hf Hst -> Hg. rewrite (bind_Ok _ _ _ _ _ (setp_run j f s)). by apply Hg, kinv_updp. Qed.
Lemma kinv_running i l s : kinv i {[i]} l s -> (i < NPROC)%nat /\ (i ∉ l) /\ current s = Ok i s.
Proof.
  intros [Ht Hs Hk]. split_and!; [by apply (wt_current _ Ht)|apply (so_sep _ _ _ Hs); set_solver|by apply current_run].
Qed.
Lemma find_free_proc_Some s i : well_typed s -> find_free_proc s = Some i -> (i < NPROC)%nat /\ p_status (proc s i) = FREE.
Proof.
  intros Ht H. apply fmap_Some in H as ([j p] & H & ->). apply list_find_Some in H as (E & Hf & _).
  pose proof (lookup_lt_Some _ _ _ E) as Hlt. rewrite length_take in Hlt. rewrite lookup_take_lt in E by lia.
  split; [cbn; lia|]. unfold proc. cbn [fst]. by rewrite E.
Qed.

Ltac krun := eapply kinv_bind; [call|eassumption|]; intros.

Lemma fork_kept i l s : kinv i {[i]} l s -> safe (kept i) (do_fork i s).
Proof.
  intros Hk. destruct (kinv_running i l s Hk) as (Hi & Hil & _). unfold do_fork.
  apply (safe_bind (fun j s' => kinv i {[i]} l s' /\ (j < NPROC)%nat /\ (j ∉ l) /\ i <> j)).
  { pose proof (alloc_process_stable anycsr s (ki_typed _ _ _ _ Hk)) as Ha. destruct (alloc_process s) as [j s'| |]; [|done..].
    destruct Ha as (Ht' & Hv & Hf). destruct Hk as [Ht Hs Hc]. destruct (find_free_proc_Some s j Ht Hf) as [Hj Hst].
    destruct (sched_ok_status _ _ _ j Hs Hj) as [HjR Hjl]; [congruence|]. split_and!; [split|done|done|set_solver].
    - done. - by eapply sched_ok_view. - by rewrite (sv_current _ _ _ Hv). }
  intros j s1 (Hk1 & Hj & Hjl & Hne). krun.
  eapply (setp_kinv _ _ i _ l _ j _ ({[j]} ∪ {[i]})); [eassumption|done|done|done|by intros p []|set_solver|by rewrite decide_True|]. intros s2 Hk2.
  krun. krun. krun. krun. krun. krun. krun.
  eapply insert_kinv; [eassumption|done|done|]. intros s3 Hk3. replace (({[j]} ∪ {[i]}) ∖ {[j]}) with ({[i]} : gset nat) in Hk3 by set_solver.
  krun. by exists (l ++ [j]).
Qed.
(** a zombie is reaped *)
Lemma reap_kept i l s j : kinv i {[i]} l s -> (j < NPROC)%nat -> p_status (proc s j) = ZOMBIE -> safe (kept i) (reap j s).
Proof.
  intros Hk Hj Hz. assert (Hjl : (j ∉ ({[i]} : gset nat)) /\ (j ∉ l)) by (apply (sched_ok_status _ _ s); [apply Hk|done|congruence]).
  unfold reap. krun. krun. krun. krun. krun. krun. krun. krun.
  eapply (setp_kinv _ _ i _ l _ j _ {[i]}); [eassumption|done|apply Hjl|done|intros p []; by split|set_solver| |].
  { rewrite decide_False by done. set_solver. }
  intros s1 Hk1. by exists l.
Qed.
Lemma wait_kept i l s pid : kinv i {[i]} l s -> safe (kept i) (do_wait pid s).
Proof.
  intros Hk. unfold do_wait. apply (kwhile_partial (fun _ s => exists l, kinv i {[i]} l s) (safe (kept i))); [by exists l| |done].
  clear s l Hk. intros [j k] s [l Hk]. destruct (Nat.ltb_spec j NPROC) as [Hj|]; [|by exists l].
  unfold bind at 1 2 3, getp, gets. cbv beta iota. destruct (negb _); [by exists l|]. destruct (_ && _)%bool; [by exists l|].
  unfold bind at 1. cbv beta iota. case_bool_decide as Hz; [|by exists l].
  pose proof (reap_kept i l s j Hk Hj Hz) as Hr. unfold bind. by destruct (reap j s).
Qed.
Lemma exit_safe (Q : Z -> kstate -> Prop) i l s code : kinv i {[i]} l s -> safe Q (sys_user_exit code s).
Proof.
  intros Hk. destruct (kinv_running i l s Hk) as (Hi & Hil & Ec). unfold sys_user_exit. rewrite (bind_Ok _ _ _ _ _ Ec). unfold free_process.
  rewrite bind_assoc. eapply (setp_kinv _ _ i _ l _ i _ ∅); [eassumption|done|done|done|by intros p []|set_solver| |].
  { rewrite decide_False by done. set_solver. }
  intros s1 [Ht Hs _]. by apply (schedule_safe Q l).
Qed.
(** the current process goes to the end of the queue *)
Lemma requeue_safe {A} (Q : A -> kstate -> Prop) i l s :
  kinv i {[i]} l s -> safe Q ((insert_to_ready_queue i ;;; schedule) s).
Proof.
  intros Hk. destruct (kinv_running i l s Hk) as (Hi & Hil & _). eapply insert_kinv; [eassumption|done|done|].
  intros s1 [Ht Hs _]. replace ({[i]} ∖ {[i]}) with (∅ : gset nat) in Hs by set_solver. by apply (schedule_safe Q (l ++ [i])).
Qed.

Lemma do_syscall_safe frame a0 a1 a2 a3 a4 a5 a6 a7 i l s :
  kinv i {[i]} l s -> safe (kept i) (do_syscall frame a0 a1 a2 a3 a4 a5 a6 a7 s).
Proof.
  intros Hk. destruct (kinv_running i l s Hk) as (Hi & Hil & Ec). unfold do_syscall.
  repeat match goal with |- safe _ ((if ?b then _ else _) s) => destruct b end; try (eapply stable_kept; [call|exact Hk]).
  - by apply (exit_safe _ i l).
  - unfold sys_user_fork. rewrite (bind_Ok _ _ _ _ _ Ec). by apply (fork_kept i l).
  - unfold sys_user_yield. rewrite (bind_Ok _ _ _ _ _ Ec). by apply (requeue_safe _ i l).
  - by apply (wait_kept i l).
  - done.
Qed.

(* ------------------------------------------------------------------ *)
(** * Traps *)

Lemma rrsched_safe i l s : kinv i {[i]} l s -> safe (kept i) (rrsched s).
Proof.
  intros Hk. destruct (kinv_running i l s Hk) as (Hi & Hil & Ec). unfold rrsched. rewrite (bind_Ok _ _ _ _ _ Ec).
  krun. krun. krun. destruct (_ <=? _); [|by exists l]. krun. by apply (requeue_safe _ i l).
Qed.
Lemma handler_safe {A} (Q : A -> kstate -> Prop) frame i l s : kinv i {[i]} l s -> safe Q (smode_trap_handler frame s).
Proof.
  intros Hk. unfold smode_trap_handler. krun. destruct (negb _); [done|].
  eapply kinv_bind; [apply stable_assert_current|eassumption|]. intros j s1 Hk1 _. krun. krun. krun. krun.
  eapply (safe_bind (kept i)).
  - repeat match goal with |- safe _ ((if ?b then _ else _) _) => destruct b end; [| | |done].
    + unfold handle_syscall. do 10 krun. eapply safe_bind; [by eapply do_syscall_safe|]. intros r s2 [l2 Hk2].
      eapply stable_kept; [call|exact Hk2].
    + eapply kinv_bind; [by apply stable_handle_mtimer_trap|eassumption|]. intros _ s2 Hk2 _. by apply (rrsched_safe i l).
    + krun. krun. eapply stable_kept; [call|eassumption].
  - intros [] s2 [l2 [Ht2 Hs2 Hc2]]. unfold bind at 1, gets at 1. rewrite Hc2. apply (switch_to_entry Q i l2); [done|done|].
    by apply (wt_current _ Ht2).
Qed.
Lemma stable_trap_vector regs : Forall word regs -> stable anycsr word (trap_vector regs).
Proof.
  intros Hr. assert (Hw : forall r v, word v -> stable anycsr (fun _ => True) (write_csr r v)) by (intros; by apply stable_write_csr).
  assert (H9 : word (default 0 (regs !! 9%nat))).
  { destruct (regs !! 9%nat) as [v|] eqn:E; [exact (Forall_lookup_1 _ _ _ _ Hr E)|done]. }
  unfold trap_vector. stab.
Qed.
Lemma trap_entry_safe {A} (Q : A -> kstate -> Prop) frame regs pc cause tval i l s :
  Forall word regs -> word pc -> word cause -> word tval -> kinv i {[i]} l s -> safe Q (smode_trap_entry frame regs pc cause tval s).
Proof.
  intros Hr Hpc Hca Htv Hk. assert (Hw : forall r v, word v -> stable anycsr (fun _ => True) (write_csr r v)) by (intros; by apply stable_write_csr).
  pose proof (stable_trap_vector regs Hr). unfold smode_trap_entry. krun. krun. krun. krun. krun. krun.
  destruct (_ =? _); [|done]. by apply (handler_safe Q frame i l).
Qed.
(* ------------------------------------------------------------------ *)
(** * Boot *)

(** before the process table is set up: no current process, no queue *)
Record booting (s : kstate) : Prop := {
  bt_typed : well_typed s;
  bt_current : k_current s = None;
  bt_head : k_ready_queue_head s = None
}.
(** an invariant that depends only on what stable code keeps *)
Definition view_closed (I : kstate -> Prop) : Prop := forall s s', I s -> well_typed s' -> same_view anycsr s s' -> I s'.
Lemma booting_closed : view_closed booting.
Proof. intros s s' [] Ht' []. split; congruence || done. Qed.
Lemma booted_closed : view_closed (fun s => booting s /\ sched_ok ∅ [] s).
Proof. intros s s' [Hb Hs] Ht' Hv. split; [by eapply booting_closed|by eapply sched_ok_view]. Qed.
Lemma closed_bind {A B} I (P : A -> Prop) (Q : B -> kstate -> Prop) c f s :
  view_closed I -> (forall s, I s -> well_typed s) -> stable anycsr P c -> I s -> (forall a s', I s' -> P a -> safe Q (f a s')) ->
  safe Q ((x <- c ;; f x) s).
Proof.
  intros HI Ht Hc Hs Hf. eapply safe_bind; [apply stable_safe; [done|by apply Ht]|]. intros a s' (Ht' & Hv & HP). apply Hf; [by eapply HI|done].
Qed.
Ltac brun := eapply closed_bind; [exact booting_closed|apply bt_typed|call|eassumption|]; intros.

Lemma init_proc_pool_booted s : booting s -> exists s', init_proc_pool s = Ok tt s' /\ booting s' /\ sched_ok ∅ [] s'.
Proof.
  intros [Ht Hc Hh]. destruct (init_proc_pool_run s) as (s' & E & Hp & Hf). exists s'. split; [done|].
  assert (Hpr : forall i, (i < NPROC)%nat -> proc s' i = idle_proc i).
  { intros i Hi. unfold proc. by rewrite Hp, list_lookup_fmap, lookup_seq_lt. }
  assert (Hl : length (k_procs s') = NPROC) by (by rewrite Hp).
  split; [split|split].
  - rewrite Hf. destruct Ht. split; try done. cbn [k_procs set_k_procs]. rewrite Hp. apply Forall_fmap, Forall_forall.
    intros i Hi%elem_of_seq. unfold NPROC in Hi. by split; cbn; unfold word; lia || done.
  - by rewrite Hf.
  - by rewrite Hf.
  - split_and!; [|apply NoDup_nil_2|done]. by rewrite Hf.
  - intros i Hi. rewrite Hpr by done. split; [done|set_solver].
  - intros i Hi. rewrite Hpr by done. set_solver.
  - set_solver.
  - intros i Hi. by rewrite Hpr.
Qed.
Lemma s_start_safe {A} (Q : A -> kstate -> Prop) frame s : booting s -> safe Q (s_start frame s).
Proof.
  intros Hb. assert (Hw : forall r v, word v -> stable anycsr (fun _ => True) (write_csr r v)) by (intros; by apply stable_write_csr).
  assert (Hep : stable anycsr (fun _ => True) enable_paging) by (unfold enable_paging; stab).
  unfold s_start. brun. brun. brun. brun.
  match goal with H : booting ?s |- _ => destruct (init_proc_pool_booted s H) as (s1 & E & Hb1 & Hs1) end. rewrite (bind_Ok _ _ _ _ _ E).
  eapply closed_bind; [exact booted_closed|by intros ? [[] _]|call|done|]. intros _ s2 [Hb2 Hs2] _.
  apply (safe_bind (fun p s' => (booting s' /\ sched_ok ∅ [] s') /\ (p < NPROC)%nat)).
  - unfold load_user_program. apply (safe_bind (fun p s' => (booting s' /\ sched_ok ∅ [] s') /\ (p < NPROC)%nat)).
    + pose proof (alloc_process_stable anycsr s2 (bt_typed _ Hb2)) as Ha. destruct (alloc_process s2) as [j s9| |]; [|done..].
      destruct Ha as (Ht' & Hv & Hf). split; [by eapply booted_closed|]. by eapply find_free_proc_Some; [apply Hb2|].
    + intros p s3 [Hb3 Hp]. eapply closed_bind; [exact booted_closed|by intros ? [[] _]|call|done|]. intros; by split.
  - intros p s3 [[[Ht3 Hc3 _] Hs3] Hp]. destruct (insert_sched ∅ [] s3 p Ht3 Hs3 Hp) as (s4 & E4 & Ht4 & Hs4 & _); [set_solver|].
    rewrite (bind_Ok _ _ _ _ _ E4). replace (∅ ∖ {[p]}) with (∅ : gset nat) in Hs4 by set_solver. by apply (schedule_safe Q [p]).
Qed.

(* ------------------------------------------------------------------ *)
(** * Runs *)

(** What interrupts user code: a trap, or the timer of machine mode.  By then the
    user has changed memory by [m], the registers are [R], and the pc [pc].  [frame]
    is where the locals of the handler lie, [junk] the registers as C leaves them. *)
Inductive event :=
  | Trap (frame : Z) (m : gmap Z Z -> gmap Z Z) (R : list Z) (pc cause tval : Z)
  | Timer (m : gmap Z Z -> gmap Z Z) (R junk : list Z).
Definition event_ok (e : event) : Prop :=
  match e with
  | Trap _ _ R pc cause tval => regfile R /\ word pc /\ word cause /\ word tval
  | Timer _ R junk => regfile R /\ regfile junk
  end.
Definition user_writes (m : gmap Z Z -> gmap Z Z) : K unit := modify (fun s => set_k_mem (m (k_mem s)) s).
(** [u] is how user mode was entered last; mret resumes the user *)
Definition handle_event (e : event) (u : user_entry) : K unit :=
  match e with
  | Trap frame m R pc cause tval => user_writes m ;;; smode_trap_entry frame (xregs R) pc cause tval
  | Timer m R junk => user_writes m ;;; write_csr mcause CAUSE_MTIMER ;;; mtrapvec junk R ;;; fun s => User u s
  end.
Fixpoint user_runs (evs : list event) (u : user_entry) : K unit := fun s =>
  match evs with
  | [] => User u s
  | e :: evs' => match handle_event e u s with User u' s' => user_runs evs' u' s' | r => r end
  end.
(** reset, boot, and the events [evs] *)
Definition system (hartid dtb : Z) (h0 : htif_scan) (m0 : mem_scan) (frame : Z) (evs : list event) : K unit := fun s =>
  match (m_start hartid dtb h0 m0 ;;; s_start frame) s with User u s' => user_runs evs u s' | r => r end.

Lemma xregs_words R : regfile R -> Forall word (xregs R).
Proof. intros HR. apply Forall_fmap, Forall_forall. intros n _. by apply rget_word. Qed.
Lemma kinv_mem i R l m s : kinv i R l s -> kinv i R l (set_k_mem m s).
Proof. intros [Ht Hs Hc]. destruct (typed_mem anycsr m s Ht) as [Ht' Hv]. split; [done|by eapply sched_ok_view|done]. Qed.

(** the csrs a machine timer interrupt may change *)
Definition mtimer_keeps (r : csr) : bool := negb (bool_decide (r ∈ [sip; mscratch; mcause])).
(** machine mode changes memory and csrs only *)
Definition machine_frame (s s' : kstate) : Prop := s' = set_k_csr (k_csr s') (set_k_mem (k_mem s') s).
Lemma machine_frame_trans s1 s2 s3 : machine_frame s1 s2 -> machine_frame s2 s3 -> machine_frame s1 s3.
Proof. unfold machine_frame. intros H2 H3. rewrite H3, H2. done. Qed.
Lemma machine_frame_refl s : machine_frame s s.
Proof. by destruct s. Qed.
Lemma run_frame prog R s R' s' : run machine prog R s = Ok R' s' -> machine_frame s s'.
Proof.
  assert (He : forall i R s R' s', exec machine i R s = Ok R' s' -> machine_frame s s').
  { clear. intros i R s R' s'. destruct i; cbn [exec machine m_ld m_st]; unfold bind, read_csr, write_csr, gets, modify, ret;
      try (destruct (phys_ok 8 _); [|done]); intros [= _ <-]; first [apply machine_frame_refl | reflexivity]. }
  revert R s. induction prog as [|i prog IH]; intros R s; cbn [run]; [intros [= _ <-]; apply machine_frame_refl|].
  unfold bind. destruct (exec machine i R s) as [R1 s1| |] eqn:E; [|done..]. intros H. by eapply machine_frame_trans; eauto.
Qed.
Lemma mtrapvec_frame junk R s R' s' : mtrapvec junk R s = Ok R' s' -> machine_frame s s'.
Proof.
  unfold mtrapvec, bind. destruct (run machine mtrapvec_save R s) as [R1 s1| |] eqn:E1; [|done..].
  destruct (handle_mtrap s1) as [[] s2| |] eqn:E2; [|done..]. intros E3. apply run_frame in E1, E3.
  enough (machine_frame s1 s2) by eauto using machine_frame_trans. revert E2. clear. unfold handle_mtrap, bind at 1, read_csr, gets. cbv beta iota.
  repeat (match goal with |- context [if ?b then _ else _] => destruct b end; [|]); try done. intros [= <-]. reflexivity.
Qed.
(** outcomes without a result: the kernel does not return *)
Definition never {A} : A -> kstate -> Prop := fun _ _ => False.
Lemma mtimer_safe u s m R junk :
  user_inv u s -> regfile R -> regfile junk ->
  safe (A := unit) never ((mtrapvec junk R ;;; fun s => User u s) (upd_csr mcause CAUSE_MTIMER (set_k_mem m s))).
Proof.
  intros (i & l & [Ht Hs Hc] & Hu) [_ HR] [_ Hj]. set (s1 := upd_csr mcause CAUSE_MTIMER (set_k_mem m s)) in *.
  assert (H1 : well_typed s1 /\ same_view mtimer_keeps s s1).
  { destruct Ht. split; split; try done; intros r; unfold s1, upd_csr; cbn [k_csr set_k_csr]; case_decide; subst; first [done | by apply wt_csr | by intros [=]]. }
  destruct H1 as [Ht1 Hv1]. pose proof (stable_mtrapvec mtimer_keeps junk R eq_refl eq_refl Hj HR s1 Ht1) as Hst.
  unfold bind. destruct (mtrapvec junk R s1) as [R' s'|u' s'|h s'] eqn:E; [|done..].
  destruct Hst as (Ht2 & Hv2 & _). assert (Hv : same_view mtimer_keeps s s') by (by etrans).
  assert (Hpr : forall j, proc s' j = proc s j) by (intros j; by rewrite (mtrapvec_frame _ _ _ _ _ E)).
  exists i, l. split; [split|].
  - done.
  - by eapply sched_ok_view.
  - by rewrite (sv_current _ _ _ Hv).
  - destruct Hu. pose proof (sv_csr _ _ _ Hv) as Hcsr. by split; rewrite ?Hpr, ?(sv_current _ _ _ Hv), ?Hcsr.
Qed.
Lemma handle_event_safe e u s : event_ok e -> user_inv u s -> safe never (handle_event e u s).
Proof.
  intros He Hu. destruct e as [frame m R pc cause tval|m R junk]; cbn [handle_event]; rewrite (bind_Ok _ _ _ tt (set_k_mem (m (k_mem s)) s)) by done.
  - destruct He as (HR & Hpc & Hca & Htv), Hu as (i & l & Hk & _). apply (trap_entry_safe _ _ _ _ _ _ i l); [by apply xregs_words|done..|].
    by apply kinv_mem.
  - destruct He as [HR Hj]. erewrite bind_Ok by reflexivity. by apply mtimer_safe.
Qed.
Lemma user_runs_safe evs u s : Forall event_ok evs -> user_inv u s -> safe never (user_runs evs u s).
Proof.
  intros He. revert u s. induction He as [|e evs He Hes IH]; intros u s Hu; cbn [user_runs]; [done|].
  pose proof (handle_event_safe e u s He Hu) as Hs. destruct (handle_event e u s); [done|by apply IH|done].
Qed.
Lemma boot_safe hartid dtb h0 m0 frame s : booting s -> safe (A := unit) never ((m_start hartid dtb h0 m0 ;;; s_start frame) s).
Proof.
  intros Hb. eapply closed_bind; [exact booting_closed|apply bt_typed|by apply stable_m_start|exact Hb|].
  intros _ s1 Hb1 _. by apply s_start_safe.
Qed.
Lemma system_safe hartid dtb h0 m0 frame evs s :
  booting s -> Forall event_ok evs -> safe never (system hartid dtb h0 m0 frame evs s).
Proof.
  intros Hb He. unfold system. pose proof (boot_safe hartid dtb h0 m0 frame s Hb) as Hs.
  destruct ((m_start hartid dtb h0 m0 ;;; s_start frame) s) as [a s'|u s'|h s']; [done|by apply user_runs_safe|done].
Qed.

(* ------------------------------------------------------------------ *)
(** * Properties *)

(** [P] holds if the run is in user mode; the kernel does not return to what
    called it *)
Definition in_user {A} (P : user_entry -> kstate -> Prop) (r : res A) : Prop :=
  match r with
  | Ok _ _ => False
  | User u s => P u s
  | Stop _ _ => True
  end.
Lemma safe_in_user {A} (P : user_entry -> kstate -> Prop) (r : res A) :
  safe never r -> (forall u i l s, kinv i {[i]} l s -> user_ok u i s -> P u s) -> in_user P r.
Proof. intros Hs HP. destruct r as [a s|u s|h s]; [done| |done]. destruct Hs as (i & l & Hk & Hu). by eapply HP. Qed.

Section Runs.
Context (hartid dtb : Z) (h0 : htif_scan) (m0 : mem_scan) (frame : Z) (evs : list event) (s0 : kstate).
Hypothesis Hboot : booting s0.
Hypothesis Hevs : Forall event_ok evs.



(** C6. Entries of user mode.  User code always starts in the address space of the
    current process, with the supervisor's trap vector installed, sscratch pointing
    to that process's trapframe, previous privilege user, interrupts enabled on
    return, and 31 register values that are words. *)
Theorem system_user_entry : in_user (fun u s => exists i, user_ok u i s) (system hartid dtb h0 m0 frame evs s0).
Proof. apply safe_in_user; [by apply system_safe|]. intros u i l s _ Hu. by exists i. Qed.

End Runs.
End System.

(* ------------------------------------------------------------------ *)
(** * Witnesses *)

Module DemoBoot.
(** a host with an empty program: argv names it, reads return an ELF header *)
Definition host (n : Z) (args : list Z) (m : gmap Z Z) (h : unit) : Z * gmap Z Z * unit :=
  let buf := default 0 (args !! 0%nat) in
  if n =? HTIFSYS_getmainvars then (0, store64 (store64 (store64 m buf 2) (buf + 8) 0x80017000) (buf + 16) 0x80017010, h)
  else if n =? HTIFSYS_openat then (3, m, h)
  else if n =? HTIFSYS_pread then
    let dest := default 0 (args !! 1%nat) in
    (default 0 (args !! 2%nat), store64 (store64 m dest ELF_MAGIC) (dest + EH_entry) 0x10000, h)
  else (0, m, h).
Definition platform : Platform := {|
  trap_sec_start := 0x80005000;
  smode_trap_vector := 0x80005004;
  smode_trap_handler_addr := 0x80001000;
  etext := 0x80010000;
  kernel_end := 0x80020000;
  link_addr := DemoTree.lit_addr;
  host_state := unit;
  host_call := host
|}.
#[global] Instance words : LinkWords platform.
Proof.
  split; [done|]. intros x. cbn [link_addr platform]. unfold DemoTree.lit_addr.
  destruct (list_find _ DemoTree.lits) as [[i y]|] eqn:E; [|done]. apply list_find_Some in E as (E & _).
  apply lookup_lt_Some in E. change (length DemoTree.lits) with 7%nat in E. unfold word. lia.
Qed.
(** the machine of [DemoTree] at reset *)
Definition reset : @kstate platform :=
  @mkState platform DemoTree.mem 0 0 0 0 (replicate 32 null_proc) None None
    USER_FREE_ADDRESS_START 0 0 (fun r => if decide (r = misa) then 2 ^ 18 else 0) 0 (replicate 10 0)
    (replicate 128 (mkSpikeFile (-1) 0)) (replicate 128 None) tt.
Lemma reset_booting : booting reset.
Proof.
  split; [|done|done]. split; try done.
  - intros r. cbn [k_csr reset]. by case_decide.
  - apply Forall_replicate, null_proc_ok.
  - by apply Forall_replicate.
  - by apply Forall_replicate.
  - apply Forall_replicate, below_None.
Qed.
(** the user yields, and is interrupted by the timer *)
Definition regs : list Z := <[A0 := SYS_user_yield]> (replicate 32 0).
Definition events : list event :=
  [Trap 0x80016000 id regs 0x10000 CAUSE_USER_ECALL 0; Timer id regs (replicate 32 7)].
Lemma events_ok : Forall event_ok events.
Proof.
  assert (Hr : forall v, 0 <= v < 2 ^ 64 -> regfile (replicate 32 v)) by (intros v Hv; split; [done|by apply Forall_replicate]).
  assert (HR : regfile regs) by (split; [done|apply Forall_insert; [by apply Forall_replicate|done]]).
  repeat constructor; try done; try apply HR; by apply Hr.
Qed.
Definition boot : @res platform unit := system 0 0x82000000 demo_htif (mkMemScan 0 0 0) 0x80016000 events reset.
End DemoBoot.

Lemma system_user_entry_witness : in_user (fun u s => exists i, user_ok u i s) DemoBoot.boot.
Proof. exact (system_user_entry 0 0x82000000 demo_htif (mkMemScan 0 0 0) 0x80016000 DemoBoot.events DemoBoot.reset DemoBoot.reset_booting DemoBoot.events_ok). Defined.
