(* ===== verification/UserLib.v ===== *)
(** User programs: the system-call library user/user_lib.c.

    A user program runs on its own memory, addressed virtually, and reaches the
    kernel through [ecall] only.  The kernel is the class [UserEnv]: a system call
    takes the argument registers and the memory and either comes back with a0 and
    the memory, or does not come back (exit, a successful exec).  A computation of
    the monad [U] returns ([URet]), leaves for good in a system call ([Gone], with
    the registers of the call), touches an invalid address ([Segv]) or, for the
    loops that wait for the kernel, runs out of the rounds it is given ([Waiting]). *)

From S2P Require Import Prelude Machine StringC Snprintf Pmm Vmm Sched SpikeFile Dev Rfs Vfs File Process Elf Syscall.

(* ------------------------------------------------------------------ *)
(** * The user machine *)

Class UserEnv := {
  env : Type;
  ecall : list Z -> gmap Z Z -> env -> option (Z * gmap Z Z * env)
}.

Section UserState.
Context {UE : UserEnv}.
Record ustate := mkU { u_mem : gmap Z Z; u_env : env }.
End UserState.

Inductive ures {UE : UserEnv} (A : Type) :=
  | URet (a : A) (s : ustate)
  | Gone (regs : list Z) (s : ustate)
  | Segv (a : Z)
  | Waiting.
Arguments URet {_ _}.
Arguments Gone {_ _}.
Arguments Segv {_ _}.
Arguments Waiting {_ _}.

Definition U {UE : UserEnv} (A : Type) : Type := ustate -> ures A.

Section UMonad.
Context {UE : UserEnv}.
Definition uret {A} (a : A) : U A := fun s => URet a s.
Definition ubind {A B} (c : U A) (f : A -> U B) : U B := fun s =>
  match c s with
  | URet a s' => f a s'
  | Gone r s' => Gone r s'
  | Segv a => Segv a
  | Waiting => Waiting
  end.
Definition umem : U (gmap Z Z) := fun s => URet (u_mem s) s.
Definition uput (f : gmap Z Z -> gmap Z Z) : U unit := fun s => URet tt (mkU (f (u_mem s)) (u_env s)).
(** [ecall] with the argument registers a0-a7 *)
Definition trap (args : list Z) : U Z := fun s =>
  match ecall args (u_mem s) (u_env s) with
  | Some (a0, m, e) => URet a0 (mkU m e)
  | None => Gone args s
  end.

Lemma ubind_URet {A B} (c : U A) (f : A -> U B) s a s' : c s = URet a s' -> ubind c f s = f a s'.
Proof. unfold ubind. by intros ->. Qed.
Lemma ubind_Gone {A B} (c : U A) (f : A -> U B) s r s' : c s = Gone r s' -> ubind c f s = Gone r s'.
Proof. unfold ubind. by intros ->. Qed.
Lemma ubind_assoc {A B C} (c : U A) (f : A -> U B) (g : B -> U C) s :
  ubind (ubind c f) g s = ubind c (fun x => ubind (f x) g) s.
Proof. unfold ubind. by destruct (c s). Qed.
Lemma ubind_uret {A B} (a : A) (f : A -> U B) s : ubind (uret a) f s = f a s.
Proof. done. Qed.
End UMonad.

Declare Scope user_scope.
Delimit Scope user_scope with user.
Notation "x <~ c ;; k" := (ubind c (fun x => k)) (at level 100, c at next level, right associativity) : user_scope.
Notation "c ;;~ k" := (ubind c (fun _ => k)) (at level 100, right associativity) : user_scope.
#[global] Open Scope user_scope.

(* ------------------------------------------------------------------ *)
(** * Strings in user memory *)

(** strlen of a string in user memory: bytes outside the map are 0, so the string
    is no longer than the map is large *)
Fixpoint scan_nul (m : gmap Z Z) (n : nat) (s : Z) : nat :=
  match n with
  | O => O
  | S n' => if load8 m s =? 0 then O else S (scan_nul m n' (s + 1))
  end.
Definition ustrlen (m : gmap Z Z) (s : Z) : nat := scan_nul m (8 * size m) s.
Definition read_cstr (m : gmap Z Z) (s : Z) : list Z :=
  (fun i : nat => load8 m (s + Z.of_nat i)) <$> seq 0 (ustrlen m s).

Lemma cstr_app m p l1 l2 : cstr m p (l1 ++ l2) -> cstr m (p + Z.of_nat (length l1)) l2.
Proof.
  intros [H H0]. split.
  - intros i c Hi. destruct (H (length l1 + i)%nat c) as [? <-]; [by rewrite lookup_app_r, Nat.add_sub_swap, Nat.sub_diag by lia|].
    split; [done|f_equal; lia].
  - rewrite <- H0, length_app. f_equal. lia.
Qed.
Lemma cstr_first m p l : cstr m p l -> load8 m p = default 0 (head l) /\ (load8 m p = 0 <-> l = []).
Proof.
  intros H. destruct (cstr_byte m p l 0 H ltac:(lia)) as [E Hz]. rewrite Z.add_0_r in E. rewrite E.
  destruct l; simpl in *; [done|]. split; [done|]. rewrite Hz. split; [lia|done].
Qed.
Lemma load8_dom m a : load8 m a <> 0 -> a / 8 ∈ dom m.
Proof.
  intros H. apply elem_of_dom. destruct (m !! (a / 8)) eqn:E; [done|]. destruct H.
  unfold load8, loadn, load64. rewrite E. unfold get_field. simpl. by rewrite Z.shiftr_0_l, Z.land_0_l.
Qed.
Lemma cstr_size m p l : cstr m p l -> (length l <= 8 * size m)%nat.
Proof.
  intros [H _]. set (k := ((length l + 7) / 8)%nat).
  assert (Hk : (8 * k < length l + 8 /\ length l <= 8 * k)%nat) by (unfold k; pose proof (Nat.div_mod_eq (length l + 7) 8); pose proof (Nat.mod_upper_bound (length l + 7) 8); lia).
  cut (k <= size m)%nat; [lia|]. rewrite <- size_dom. set (ks := (fun i : nat => (p + 8 * Z.of_nat i) / 8) <$> seq 0 k).
  assert (Hnd : NoDup ks).
  { apply NoDup_fmap_2_strong; [|apply NoDup_seq]. intros x y _ _ E. dlia. }
  replace k with (length ks) by (unfold ks; by rewrite length_fmap, length_seq).
  rewrite <- (size_list_to_set (C := gset Z)) by done. apply subseteq_size. intros x Hx%elem_of_list_to_set.
  apply list_elem_of_fmap in Hx as (i & -> & Hi%elem_of_seq).
  destruct (lookup_lt_is_Some_2 l (8 * i)%nat ltac:(lia)) as [c Hc]. apply load8_dom. destruct (H _ _ Hc) as [Hne E].
  replace (p + 8 * Z.of_nat i) with (p + Z.of_nat (8 * i)) by lia. by rewrite E.
Qed.
Lemma ustrlen_spec m p l : cstr m p l -> ustrlen m p = length l.
Proof.
  intros Hc. unfold ustrlen. pose proof (cstr_size m p l Hc) as Hs. revert Hs. generalize (8 * size m)%nat as n. intros n.
  revert p l Hc. induction n as [|n IH]; intros p l Hc Hs; [simpl; lia|]. cbn [scan_nul].
  destruct (cstr_first m p l Hc) as [E Hz]. destruct l as [|c l].
  - rewrite E. done.
  - rewrite (proj2 (Z.eqb_neq _ _)); [|by intros ?%Hz]. simpl in *. f_equal. apply IH; [|lia]. by apply (cstr_app m p [c] l).
Qed.
Lemma read_cstr_spec m p l : cstr m p l -> read_cstr m p = l.
Proof.
  intros Hc. unfold read_cstr. rewrite (ustrlen_spec m p l Hc). apply list_eq. intros i. rewrite list_lookup_fmap.
  destruct (decide (i < length l)%nat) as [Hi|Hi].
  - rewrite lookup_seq_lt by done. destruct (lookup_lt_is_Some_2 l i Hi) as [c Ec]. rewrite Ec. simpl. f_equal. by apply (proj1 Hc).
  - rewrite !lookup_ge_None_2; [done|lia|rewrite length_seq; lia].
Qed.

Lemma put_bytes_snoc p l c m :
  fold_left (fun m '(i, c) => store8 m (p + Z.of_nat i) c) (imap pair (l ++ [c])) m =
  store8 (fold_left (fun m '(i, c) => store8 m (p + Z.of_nat i) c) (imap pair l) m) (p + Z.of_nat (length l)) c.
Proof. rewrite imap_app, fold_left_app. simpl. by rewrite Nat.add_0_r. Qed.
Lemma put_bytes_byte p l m a :
  load8 (fold_left (fun m '(i, c) => store8 m (p + Z.of_nat i) c) (imap pair l) m) a =
  if decide (p <= a < p + Z.of_nat (length l)) then u8 (default 0 (l !! Z.to_nat (a - p))) else load8 m a.
Proof.
  induction l as [|c l IH] using rev_ind; [simpl; by rewrite decide_False by lia|].
  rewrite put_bytes_snoc, load8_store8, length_app. simpl. destruct (decide (p + Z.of_nat (length l) = a)) as [<-|Hne].
  - rewrite decide_True by lia. replace (Z.to_nat _) with (length l) by lia. by rewrite lookup_app_r, Nat.sub_diag by lia.
  - rewrite IH. destruct (decide (p <= a < p + Z.of_nat (length l))).
    + rewrite decide_True, lookup_app_l by lia. done.
    + by rewrite decide_False by lia.
Qed.
Lemma put_str_outside p l m a : a < p \/ p + Z.of_nat (length l) < a -> load8 (put_str p l m) a = load8 m a.
Proof. intros Ha. unfold put_str. rewrite put_bytes_byte, length_app. simpl. by rewrite decide_False by lia. Qed.
Lemma put_str_byte p l m (i : nat) c : l !! i = Some c -> load8 (put_str p l m) (p + Z.of_nat i) = u8 c.
Proof.
  intros Hi. pose proof (lookup_lt_Some _ _ _ Hi). unfold put_str. rewrite put_bytes_byte, length_app. simpl.
  rewrite decide_True by lia. replace (Z.to_nat _) with i by lia. by rewrite lookup_app_l, Hi by lia.
Qed.

(* ------------------------------------------------------------------ *)
(** * user_lib.c *)

Section UserLib.
Context {UE : UserEnv}.

(** the low half of a0 is stored to an [int], which is returned as uint64 *)
Definition do_user_call (sysnum a1 a2 a3 a4 a5 a6 a7 : Z) : U Z :=
  a0 <~ trap (u64 <$> [sysnum; a1; a2; a3; a4; a5; a6; a7]) ;; uret (u64 (s32 a0)).

(** [out] is the local buffer, [text] what vsnprintf renders *)
Definition put_text (out n : Z) (text : list Z) (m : gmap Z Z) : gmap Z Z :=
  StringC.put_str out (take (Z.to_nat (n - 1)) text) m.
Definition printu (out : Z) (text : list Z) : U Z :=
  uput (put_text out 256 text) ;;~
  let res := s32 (Z.of_nat (length text)) in
  let n := if u64 res <? 256 then u64 res else 256 in
  r <~ do_user_call SYS_user_print out n 0 0 0 0 0 ;; uret (s32 r).

Definition exit (code : Z) : U Z := r <~ do_user_call SYS_user_exit code 0 0 0 0 0 0 ;; uret (s32 r).
Definition naive_malloc : U Z := do_user_call SYS_user_allocate_page 0 0 0 0 0 0 0.
Definition naive_free (va : Z) : U unit := do_user_call SYS_user_free_page va 0 0 0 0 0 0 ;;~ uret tt.
Definition fork : U Z := r <~ do_user_call SYS_user_fork 0 0 0 0 0 0 0 ;; uret (s32 r).
Definition yield : U unit := do_user_call SYS_user_yield 0 0 0 0 0 0 0 ;;~ uret tt.
Fixpoint wait (rounds : nat) (pid : Z) : U Z :=
  match rounds with
  | O => fun _ => Waiting
  | S rounds' =>
      r <~ do_user_call SYS_user_wait pid 0 0 0 0 0 0 ;;
      let ret := s32 r in
      if ret =? -2 then yield ;;~ wait rounds' pid else uret ret
  end.
Definition getlineu (dst size : Z) : U Z := r <~ do_user_call SYS_user_getline dst size 0 0 0 0 0 ;; uret (s32 r).
Definition exec (path argv : Z) : U Z := r <~ do_user_call SYS_user_exec path argv 0 0 0 0 0 ;; uret (s32 r).
Definition open (pathname flags : Z) : U Z := r <~ do_user_call SYS_user_open pathname flags 0 0 0 0 0 ;; uret (s32 r).
Definition read (fd buf count : Z) : U Z := r <~ do_user_call SYS_user_read fd buf count 0 0 0 0 ;; uret (s32 r).
Definition write (fd buf count : Z) : U Z := r <~ do_user_call SYS_user_write fd buf count 0 0 0 0 ;; uret (s32 r).
Definition close (fd : Z) : U Z := r <~ do_user_call SYS_user_close fd 0 0 0 0 0 0 ;; uret (s32 r).
Definition getinfo : U Z := r <~ do_user_call SYS_user_getinfo 0 0 0 0 0 0 0 ;; uret (s32 r).

(* ------------------------------------------------------------------ *)
(** * wait *)

Definition call_regs (sysnum a1 : Z) : list Z := u64 <$> [sysnum; a1; 0; 0; 0; 0; 0; 0].

(** the kernel answers [n - 1] times "not yet" (-2) to wait, returns from the
    yields between, and then answers [v] *)
Inductive waits (pid : Z) : nat -> ustate -> Z -> ustate -> Prop :=
  | w_done s a0 m e :
      ecall (call_regs SYS_user_wait pid) (u_mem s) (u_env s) = Some (a0, m, e) -> s32 a0 <> -2 ->
      waits pid 1 s (s32 a0) (mkU m e)
  | w_again n s a0 m1 e1 y m2 e2 v s' :
      ecall (call_regs SYS_user_wait pid) (u_mem s) (u_env s) = Some (a0, m1, e1) -> s32 a0 = -2 ->
      ecall (call_regs SYS_user_yield 0) m1 e1 = Some (y, m2, e2) ->
      waits pid n (mkU m2 e2) v s' -> waits pid (S n) s v s'.

Lemma s32_u64 x : s32 (u64 x) = s32 x.
Proof. unfold s32, sgn, u64. by rewrite Z.mod_mod_divide by (by exists (2 ^ 32)). Qed.
Lemma s32_u64_s32 a : s32 (u64 (s32 a)) = s32 a.
Proof. rewrite s32_u64. apply s32_small, s32_range. Qed.
Lemma do_user_call_run sysnum a1 s a0 m e :
  ecall (call_regs sysnum a1) (u_mem s) (u_env s) = Some (a0, m, e) ->
  do_user_call sysnum a1 0 0 0 0 0 0 s = URet (u64 (s32 a0)) (mkU m e).
Proof. intros E. unfold do_user_call, ubind, trap. fold (call_regs sysnum a1). by rewrite E. Qed.
End UserLib.

(* ------------------------------------------------------------------ *)
(** * Properties *)

Section Properties.
Context {UE : UserEnv}.

(** C31. [wait] waits as long as the kernel says "not yet": if the n-th answer is the
    first one other than -2, it is returned after exactly n calls, with a yield
    after each of the others; with fewer rounds it is still waiting. *)
Theorem wait_returns pid n s v s' rounds :
  waits pid n s v s' ->
  wait rounds pid s = if decide (n <= rounds)%nat then URet v s' else Waiting.
Proof.
  intros H. revert rounds. induction H as [s a0 m e E Hv|n s a0 m1 e1 y m2 e2 v s' E Ev Ey H IH]; intros [|rounds]; try done;
    cbn [wait]; rewrite (ubind_URet _ _ _ _ _ (do_user_call_run _ _ _ _ _ _ E)), s32_u64_s32; cbv zeta.
  - rewrite (proj2 (Z.eqb_neq _ _) Hv). rewrite decide_True by lia. done.
  - rewrite Ev. cbn [Z.eqb Pos.eqb]. unfold yield. rewrite ubind_assoc.
    rewrite (ubind_URet _ _ _ _ _ (do_user_call_run _ _ (mkU m1 e1) _ _ _ Ey)), ubind_uret, IH.
    destruct (decide (n <= rounds)%nat); [by rewrite decide_True by lia|by rewrite decide_False by lia].
Qed.
End Properties.

(** a kernel whose child exits after [n] more calls *)
Definition demo_env : UserEnv := {|
  env := nat;
  ecall := fun regs m n =>
    if (default 0 (head regs)) =? SYS_user_wait then
      match n with O => Some (7, m, O) | S n' => Some (2 ^ 64 - 2, m, n') end
    else Some (0, m, n)
|}.
Lemma wait_returns_witness : @wait demo_env 10 (-1) (mkU ∅ (3%nat : @env demo_env)) = URet 7 (mkU ∅ (0%nat : @env demo_env)).
Proof.
  rewrite (wait_returns (UE := demo_env) (-1) 4 (mkU ∅ (3%nat : @env demo_env)) 7 (mkU ∅ (0%nat : @env demo_env)) 10); [done|].
  do 3 (eapply w_again; [vm_compute; reflexivity|done|vm_compute; reflexivity|]).
  apply (w_done (UE := demo_env) (-1) _ 7); [vm_compute; reflexivity|done].
Defined.
