(* ===== verification/Shell.v ===== *)
(** The shell: user/sh.c.

    The command line lies in user memory as a C string.  The scanning loops
    [while (s < es && ...) s++] recurse on the distance to the end of the line, the
    argument loop on the free slots of the argument vector, so parsing terminates
    by construction; the read-eval loop [mysh] is given a number of rounds.
    Characters are unsigned, as on RISC-V.  The reference is [words], the split of
    a line at blanks. *)

From S2P Require Import Prelude Machine StringC Snprintf Syscall UserLib.

(* ------------------------------------------------------------------ *)
(** * Code *)

Definition MAXLEN : Z := 256.
Definition MAXARGS : nat := 10.
Definition EXEC : Z := 1.

(** struct execcmd: offsets *)
Definition EC_type : Z := 0.
Definition EC_argv (i : nat) : Z := 8 + 8 * Z.of_nat i.
Definition EC_eargv (i : nat) : Z := 88 + 8 * Z.of_nat i.
Definition EC_size : Z := 168.

(** [strchr(set, c)] for the local arrays; the NUL of an array is not found *)
Definition in_set (set : list Z) (c : Z) : bool := existsb (Z.eqb c) set.
Arguments in_set : simpl never.
Definition whitespace : list Z := [32; 9; 13; 10; 11].
Definition symbols : list Z := [60; 124; 62; 38; 59; 40; 41].

(** [while (s < es && P( *s)) s++], with [n = es - s] *)
Fixpoint skip (P : Z -> bool) (m : gmap Z Z) (n : nat) (s : Z) : Z :=
  match n with
  | O => s
  | S n' => if P (load8 m s) then skip P m n' (s + 1) else s
  end.
Definition skip_to (P : Z -> bool) (m : gmap Z Z) (s es : Z) : Z := skip P m (Z.to_nat (es - s)) s.

(** the token, *q, *eq and the new *ps *)
Definition gettoken (m : gmap Z Z) (ps es : Z) : Z * Z * Z * Z :=
  let s := skip_to (in_set whitespace) m ps es in
  let q := s in
  let c := load8 m s in
  let '(ret, s) :=
    if c =? 0 then (c, s)
    else if in_set [124; 40; 41; 59; 38; 60] c then (c, s + 1)
    else if c =? 62 then
      if load8 m (s + 1) =? 62 then (43, s + 2) else (c, s + 1)
    else (97, skip_to (fun c => negb (in_set whitespace c) && negb (in_set symbols c)) m s es) in
  let eq := s in
  (ret, q, eq, skip_to (in_set whitespace) m s es).

(** the answer and the new *ps *)
Definition peek (m : gmap Z Z) (ps es : Z) (toks : list Z) : bool * Z :=
  let s := skip_to (in_set whitespace) m ps es in
  (negb (load8 m s =? 0) && in_set toks (load8 m s), s).

Section Shell.
Context {UE : UserEnv}.
(** the address of the buffers of printu on the stack *)
Variable out : Z.

Definition nl : list Z := [10].

Definition panic (msg : string) : U unit :=
  printu out (chars_of msg ++ nl) ;;~ exit (-1) ;;~ uret tt.

(** memset(cmd, 0, sizeof( *cmd)), by words *)
Definition clear (a : Z) (words : nat) (m : gmap Z Z) : gmap Z Z :=
  fold_left (fun m i => store64 m (a + 8 * Z.of_nat i) 0) (seq 0 words) m.
Definition execcmd : U Z :=
  cmd <~ naive_malloc ;;
  uput (clear cmd 21) ;;~
  uput (fun m => store32 m (cmd + EC_type) EXEC) ;;~
  uret cmd.

(** the loop of parseexec, with [left = MAXARGS - argc] *)
Fixpoint parse_args (cmd es : Z) (left : nat) (ps : Z) : U (nat * Z) :=
  let argc := (MAXARGS - left)%nat in
  m <~ umem ;;
  let '(stop, ps) := peek m ps es [124; 41; 38; 59] in
  if stop : bool then uret (argc, ps)
  else
    let '(tok, q, eq, ps) := gettoken m ps es in
    if tok =? 0 then uret (argc, ps)
    else
      (if negb (tok =? 97) then panic "syntax" else uret tt) ;;~
      uput (fun m => store64 m (cmd + EC_argv argc) q) ;;~
      uput (fun m => store64 m (cmd + EC_eargv argc) eq) ;;~
      match left with
      | S ((S _) as left') => parse_args cmd es left' ps
      | _ => panic "too many args" ;;~ fun _ => Segv (cmd + EC_argv MAXARGS) (* past the vector *)
      end.

Definition parseexec (ps es : Z) : U (Z * Z) :=
  cmd <~ execcmd ;;
  r <~ parse_args cmd es MAXARGS ps ;;
  let '(argc, ps) := r in
  uput (fun m => store64 m (cmd + EC_argv argc) 0) ;;~
  uput (fun m => store64 m (cmd + EC_eargv argc) 0) ;;~
  uret (cmd, ps).
Definition parsepipe (ps es : Z) : U (Z * Z) := parseexec ps es.
Definition parseline (ps es : Z) : U (Z * Z) := parsepipe ps es.

(** [for (i = 0; argv[i]; ++i) *eargv[i] = 0]; the vector has MAXARGS entries *)
Fixpoint nul_args (cmd : Z) (left : nat) : U unit :=
  let i := (MAXARGS - left)%nat in
  match left with
  | O => fun _ => Segv (cmd + EC_argv MAXARGS)
  | S left' =>
      m <~ umem ;;
      if load64 m (cmd + EC_argv i) =? 0 then uret tt
      else uput (fun m => store8 m (load64 m (cmd + EC_eargv i)) 0) ;;~ nul_args cmd left'
  end.
Definition nulterminate (cmd : Z) : U Z :=
  if cmd =? 0 then uret 0
  else
    m <~ umem ;;
    (if load32 m (cmd + EC_type) =? EXEC then nul_args cmd MAXARGS else uret tt) ;;~ uret cmd.

Definition parsecmd (s : Z) : U Z :=
  m <~ umem ;;
  let es := s + Z.of_nat (ustrlen m s) in
  r <~ parseline s es ;;
  let '(cmd, s) := r in
  m <~ umem ;;
  let s := snd (peek m s es []) in
  (if negb (s =? es) then
     m <~ umem ;;
     printu out (chars_of "leftovers: " ++ read_cstr m s ++ nl) ;;~ panic "syntax"
   else uret tt) ;;~
  nulterminate cmd ;;~
  uret cmd.

(** the argument listing of runcmd *)
Fixpoint show_args (cmd : Z) (left : nat) : U unit :=
  let i := (MAXARGS - left)%nat in
  match left with
  | O => fun _ => Segv (cmd + EC_argv MAXARGS)
  | S left' =>
      m <~ umem ;;
      let a := load64 m (cmd + EC_argv i) in
      if a =? 0 then uret tt
      else printu out (chars_of "argv[" ++ dec_text (Z.of_nat i) ++ chars_of "]=" ++ read_cstr m a ++ nl) ;;~ show_args cmd left'
  end.
Definition runcmd (cmd : Z) : U unit :=
  (if cmd =? 0 then exit 0 ;;~ uret tt else uret tt) ;;~
  m <~ umem ;;
  (if load32 m (cmd + EC_type) =? EXEC then
     (if load64 m (cmd + EC_argv 0) =? 0 then exit 0 ;;~ uret tt else uret tt) ;;~
     show_args cmd MAXARGS ;;~
     m <~ umem ;;
     exec (load64 m (cmd + EC_argv 0)) (cmd + EC_argv 0) ;;~
     m <~ umem ;;
     printu out (chars_of "exec " ++ read_cstr m (load64 m (cmd + EC_argv 0)) ++ chars_of " failed" ++ nl) ;;~ uret tt
   else panic ("Unknown command!" +:+ String (Ascii.ascii_of_nat 10) "")) ;;~
  exit 0 ;;~ uret tt.

Definition isExit (m : gmap Z Z) (s : Z) : bool :=
  let es := s + Z.of_nat (ustrlen m s) in
  let s := skip_to (in_set whitespace) m s es in
  (load8 m s =? 101) && (load8 m (s + 1) =? 120) && (load8 m (s + 2) =? 105) && (load8 m (s + 3) =? 116).

(** [buf] is the local line buffer; [rounds] bounds the commands and the waits *)
Fixpoint mysh (rounds : nat) (buf : Z) : U unit :=
  match rounds with
  | O => fun _ => Waiting
  | S rounds' =>
      printu out (chars_of "mysh$ ") ;;~
      getlineu buf MAXLEN ;;~
      m <~ umem ;;
      if isExit m buf then uret tt
      else
        rc <~ fork ;;
        (if rc =? 0 then cmd <~ parsecmd buf ;; runcmd cmd
         else wait rounds (-1) ;;~ uret tt) ;;~
        mysh rounds' buf
  end.
End Shell.

(* ------------------------------------------------------------------ *)
(** * Reference: the words of a line *)

Local Abbreviation blank := (in_set whitespace).
Local Abbreviation symbol := (in_set symbols).
Definition word_char (c : Z) : bool := negb (in_set whitespace c) && negb (in_set symbols c).

(** the maximal runs of non-blank characters, with their addresses *)
Fixpoint words_from (a : Z) (l : list Z) : list (Z * list Z) :=
  match l with
  | [] => []
  | c :: l' =>
      if in_set whitespace c then words_from (a + 1) l'
      else match words_from (a + 1) l' with
           | (b, w) :: ws => if b =? a + 1 then (a, c :: w) :: ws else (a, [c]) :: (b, w) :: ws
           | [] => [(a, [c])]
           end
  end.
Definition words (l : list Z) : list (list Z) := snd <$> words_from 0 l.

(** [r] does not start with a character of [P] *)
Definition stops (P : Z -> bool) (r : list Z) : Prop := match r with [] => True | c :: _ => P c = false end.
Definition all (P : Z -> bool) (l : list Z) : Prop := Forall (fun c => P c = true) l.

Lemma span P l : exists b r, l = b ++ r /\ all P b /\ stops P r.
Proof.
  induction l as [|c l IH]; [by exists [], []; repeat constructor|]. destruct (P c) eqn:E.
  - destruct IH as (b & r & -> & Hb & Hr). exists (c :: b), r. repeat constructor; done.
  - exists [], (c :: l). repeat constructor; done.
Qed.

Lemma words_from_lb a l : Forall (fun x => a <= fst x) (words_from a l).
Proof.
  revert a. induction l as [|c l IH]; intros a; cbn [words_from]; [constructor|].
  pose proof (IH (a + 1)) as H. assert (Hw : Forall (fun x => a <= fst x) (words_from (a + 1) l)).
  { eapply Forall_impl; [exact H|]. simpl. lia. }
  destruct (in_set whitespace c); [done|]. destruct (words_from (a + 1) l) as [|[b w] ws].
  - repeat constructor. simpl. lia.
  - apply Forall_cons in Hw as [? Hw]. zcase; repeat constructor; simpl in *; try lia; done.
Qed.
Lemma words_from_blanks a b r : all (in_set whitespace) b -> words_from a (b ++ r) = words_from (a + Z.of_nat (length b)) r.
Proof.
  revert a. induction b as [|c b IH]; intros a Hb; [f_equal; simpl; lia|]. apply Forall_cons in Hb as [Hc Hb].
  cbn [words_from app]. rewrite Hc, IH by done. f_equal. simpl. lia.
Qed.
Lemma words_from_stop a r : stops (fun c => negb (in_set whitespace c)) r -> Forall (fun x => a < fst x) (words_from a r).
Proof.
  destruct r as [|c r]; intros H; [constructor|]. simpl in H. apply negb_false_iff in H. cbn [words_from]. rewrite H.
  eapply Forall_impl; [apply words_from_lb|]. simpl. lia.
Qed.
Lemma words_from_word a w r :
  w <> [] -> all (fun c => negb (in_set whitespace c)) w -> stops (fun c => negb (in_set whitespace c)) r ->
  words_from a (w ++ r) = (a, w) :: words_from (a + Z.of_nat (length w)) r.
Proof.
  revert a. induction w as [|c w IH]; intros a Hne Hw Hr; [done|]. apply Forall_cons in Hw as [Hc Hw].
  apply negb_true_iff in Hc. cbn [words_from app]. rewrite Hc. destruct w as [|d w].
  - replace (a + Z.of_nat (length [c])) with (a + 1) by (simpl; lia). cbn [app].
    pose proof (words_from_stop (a + 1) r Hr) as Hs. destruct (words_from (a + 1) r) as [|[b w] ws]; [done|].
    apply Forall_cons in Hs as [Hs _]. simpl in Hs. rewrite (proj2 (Z.eqb_neq b (a + 1))) by lia. done.
  - rewrite IH by done. rewrite Z.eqb_refl. do 2 f_equal. simpl. lia.
Qed.
(** each word lies in the line, is made of non-blank characters, and a blank or
    the end follows *)
Lemma words_from_in a l q w :
  (q, w) ∈ words_from a l -> exists pre post, l = pre ++ w ++ post /\ q = a + Z.of_nat (length pre) /\
    all (fun c => negb (in_set whitespace c)) w /\ stops (fun c => negb (in_set whitespace c)) post.
Proof.
  remember (length l) as k eqn:Ek. revert a l Ek. induction k as [k IH] using lt_wf_ind. intros a l -> Hin.
  destruct (span (in_set whitespace) l) as (b & r & -> & Hb & Hr). rewrite words_from_blanks in Hin by done.
  destruct (span (fun c => negb (in_set whitespace c)) r) as (v & r' & -> & Hv & Hr').
  destruct v as [|c v].
  { destruct r' as [|c r']; [by apply not_elem_of_nil in Hin|]. simpl in Hr, Hr'. by rewrite Hr in Hr'. }
  rewrite words_from_word in Hin by done. apply elem_of_cons in Hin as [[= -> ->]|Hin].
  - exists b, r'. split_and!; [done|lia|done|done].
  - destruct (IH (length r') ltac:(rewrite !length_app; simpl; lia) _ r' eq_refl Hin) as (pre & post & -> & -> & ? & ?).
    exists (b ++ (c :: v) ++ pre), post. rewrite !length_app. split_and!; [by rewrite <- !app_assoc|lia|done|done].
Qed.

(* ------------------------------------------------------------------ *)
(** * Scanning *)

Lemma skip_spec P m p b r :
  cstr m p (b ++ r) -> all P b -> stops P r -> skip P m (length (b ++ r)) p = p + Z.of_nat (length b).
Proof.
  revert p. induction b as [|c b IH]; intros p Hc Hb Hr.
  - destruct r as [|c r]; simpl; [lia|]. destruct (cstr_first m p _ Hc) as [-> _]. simpl in *. rewrite Hr. lia.
  - apply Forall_cons in Hb as [Hb1 Hb]. cbn [app length skip]. destruct (cstr_first m p _ Hc) as [-> _]. simpl. rewrite Hb1.
    rewrite IH; [simpl; lia| |done|done]. by apply (cstr_app m p [c] (b ++ r)).
Qed.
Lemma skip_to_spec P m p b r :
  cstr m p (b ++ r) -> all P b -> stops P r ->
  skip_to P m p (p + Z.of_nat (length (b ++ r))) = p + Z.of_nat (length b).
Proof. intros. unfold skip_to. replace (Z.to_nat _) with (length (b ++ r)) by lia. by apply skip_spec. Qed.

Lemma peek_spec m p b r toks :
  cstr m p (b ++ r) -> all (in_set whitespace) b -> stops (in_set whitespace) r ->
  peek m p (p + Z.of_nat (length (b ++ r))) toks =
  (match r with [] => false | c :: _ => in_set toks c end, p + Z.of_nat (length b)).
Proof.
  intros Hc Hb Hr. unfold peek. rewrite (skip_to_spec _ m p b r Hc Hb Hr). apply cstr_app in Hc.
  destruct (cstr_first _ _ _ Hc) as [E Hz]. rewrite E. destruct r as [|c r]; [done|]. simpl in *.
  rewrite E in Hz. rewrite (proj2 (Z.eqb_neq c 0)); [done|]. by intros ?%Hz.
Qed.

Lemma in_set_spec set c : in_set set c = true <-> c ∈ set.
Proof. unfold in_set. rewrite existsb_exists. setoid_rewrite Z.eqb_eq. rewrite list_elem_of_In. split; [by intros (x & ? & ->)|eauto]. Qed.
Lemma in_set_false set c : in_set set c = false <-> c ∉ set.
Proof. rewrite <- not_true_iff_false, in_set_spec. done. Qed.
Lemma blank_not_symbol c : in_set whitespace c = true -> in_set symbols c = false.
Proof. rewrite in_set_spec, in_set_false. unfold whitespace, symbols. set_solver. Qed.

Lemma skip_to_none P m p r : cstr m p r -> stops P r -> skip_to P m p (p + Z.of_nat (length r)) = p.
Proof. intros Hc Hr. etrans; [apply (skip_to_spec P m p [] r Hc); [constructor|done]|]. simpl. lia. Qed.

Lemma gettoken_end m p : cstr m p [] -> gettoken m p p = (0, p, p, p).
Proof.
  intros Hc. unfold gettoken. destruct (cstr_first _ _ _ Hc) as [E _]. simpl in E.
  assert (Hs : forall P, skip_to P m p p = p) by (intros P; unfold skip_to; by rewrite Z.sub_diag).
  rewrite !Hs, E. cbn [Z.eqb]. by rewrite Hs.
Qed.
Lemma gettoken_word m p w b r :
  cstr m p (w ++ b ++ r) -> w <> [] -> all word_char w -> all (in_set whitespace) b -> stops (in_set whitespace) r ->
  stops word_char (b ++ r) ->
  gettoken m p (p + Z.of_nat (length (w ++ b ++ r))) =
  (97, p, p + Z.of_nat (length w), p + Z.of_nat (length w) + Z.of_nat (length b)).
Proof.
  intros Hc Hne Hw Hb Hr Hs. destruct w as [|c w]; [done|]. pose proof Hw as [Hc1 _]%Forall_cons. unfold word_char in Hc1.
  apply andb_true_iff in Hc1 as [Hnb Hns]. apply negb_true_iff in Hnb, Hns.
  unfold gettoken. rewrite skip_to_none by done. destruct (cstr_first _ _ _ Hc) as [E Hz]. simpl in E, Hz. rewrite E in *.
  rewrite (proj2 (Z.eqb_neq c 0)) by (by intros ?%Hz).
  assert (Hc2 : in_set [124; 40; 41; 59; 38; 60] c = false /\ c <> 62).
  { rewrite in_set_false in *. unfold symbols in Hns. set_solver. }
  destruct Hc2 as [-> Hgt]. rewrite (proj2 (Z.eqb_neq c 62)) by done.
  change (fun c0 : Z => negb (in_set whitespace c0) && negb (in_set symbols c0)) with word_char.
  rewrite (skip_to_spec word_char m p (c :: w) (b ++ r)) by done. apply cstr_app in Hc.
  replace (p + Z.of_nat (length ((c :: w) ++ b ++ r))) with (p + Z.of_nat (length (c :: w)) + Z.of_nat (length (b ++ r))) by (rewrite (length_app (c :: w)); lia).
  by rewrite skip_to_spec.
Qed.
Lemma gettoken_symbol m p c r :
  cstr m p (c :: r) -> c ∈ [60; 62; 40] ->
  exists tok q eq ps, gettoken m p (p + Z.of_nat (length (c :: r))) = (tok, q, eq, ps) /\ tok <> 0 /\ tok <> 97.
Proof.
  intros Hc Hin. assert (Hnb : in_set whitespace c = false) by (rewrite in_set_false; unfold whitespace; set_solver).
  unfold gettoken. rewrite skip_to_none by done. destruct (cstr_first _ _ _ Hc) as [E _]. simpl in E. rewrite E.
  assert (Hc0 : c <> 0 /\ c <> 97) by (rewrite !elem_of_cons, elem_of_nil in Hin; lia). destruct Hc0 as [Hc0 Hc1]. rewrite (proj2 (Z.eqb_neq c 0)) by done.
  destruct (in_set [124; 40; 41; 59; 38; 60] c) eqn:Es; [by do 4 eexists|]. apply in_set_false in Es.
  destruct (c =? 62) eqn:Eg.
  - destruct (load8 m (p + 1) =? 62); by do 4 eexists.
  - apply Z.eqb_neq in Eg. rewrite !elem_of_cons, elem_of_nil in *. lia.
Qed.

(* ------------------------------------------------------------------ *)
(** * The argument loop *)

Section Parse.
Context {UE : UserEnv}.
Variables (out cmd lo es : Z).
(** the kernel ends the process at exit, and print returns *)
Hypothesis Hexit : forall code m e, ecall (call_regs SYS_user_exit code) m e = None.
Hypothesis Hprint : forall a n m e, is_Some (ecall (u64 <$> [SYS_user_print; a; n; 0; 0; 0; 0; 0]) m e).
(** the command structure and the line [lo, es] do not overlap *)
Hypothesis Hal : cmd mod 8 = 0.
Hypothesis Hsep : cmd + EC_size <= lo \/ es + 1 <= cmd.
Hypothesis Hlo : 0 < lo.
Hypothesis Hes : es < 2 ^ 64.

Lemma exit_gone code s : exit code s = Gone (call_regs SYS_user_exit code) s.
Proof.
  unfold exit. apply ubind_Gone. unfold do_user_call. apply ubind_Gone. unfold trap.
  fold (call_regs SYS_user_exit code). by rewrite Hexit.
Qed.
(** print comes back, with memory possibly changed *)
Lemma printu_returns t s : exists a m e, printu out t s = URet a (mkU m e).
Proof.
  unfold printu. cbv zeta. erewrite ubind_URet by reflexivity. set (n := if _ <? 256 then _ else _). unfold do_user_call, trap, ubind.
  match goal with |- context [ecall _ ?m ?e] => destruct (Hprint out n m e) as [[[a0 m1] e1] E] end.
  rewrite E. by do 3 eexists.
Qed.
Lemma panic_gone msg s : exists s', panic out msg s = Gone (call_regs SYS_user_exit (-1)) s'.
Proof.
  unfold panic. destruct (printu_returns (chars_of msg ++ nl) s) as (a & m & e & E). rewrite (ubind_URet _ _ _ _ _ E).
  eexists. apply ubind_Gone, exit_gone.
Qed.

(** memory outside the command structure is unchanged *)
Definition line_same (m m' : gmap Z Z) : Prop := forall a, ~ (cmd <= a < cmd + EC_size) -> load8 m' a = load8 m a.
Lemma line_cstr m m' p l : line_same m m' -> lo <= p -> p + Z.of_nat (length l) <= es -> cstr m p l -> cstr m' p l.
Proof.
  intros Hm Hp Hl [H H0]. unfold line_same in Hm. split.
  - intros i c Hi. pose proof (lookup_lt_Some _ _ _ Hi). destruct (H i c Hi) as [? <-]. split; [done|]. apply Hm. lia.
  - rewrite <- H0. apply Hm. lia.
Qed.
Lemma store_line m o v : 0 <= o -> o + 8 <= EC_size -> o mod 8 = 0 -> line_same m (store64 m (cmd + o) v).
Proof.
  intros Ho Hs Ha a Hout. rewrite load8_store64 by dlia. by rewrite decide_False by lia.
Qed.

(** the vectors hold the words from entry [i] on *)
Definition args_written (m m' : gmap Z Z) (i : nat) (ws : list (Z * list Z)) : Prop :=
  line_same m m' /\
  (forall k, (k < i)%nat -> load64 m' (cmd + EC_argv k) = load64 m (cmd + EC_argv k) /\
                            load64 m' (cmd + EC_eargv k) = load64 m (cmd + EC_eargv k)) /\
  load64 m' (cmd + EC_type) = load64 m (cmd + EC_type) /\
  (forall j q w, ws !! j = Some (q, w) -> load64 m' (cmd + EC_argv (i + j)) = u64 q /\
     load64 m' (cmd + EC_eargv (i + j)) = u64 (q + Z.of_nat (length w))).

Lemma args_written_cons m m' i q w ws :
  (i < MAXARGS)%nat ->
  args_written (store64 (store64 m (cmd + EC_argv i) q) (cmd + EC_eargv i) (q + Z.of_nat (length w))) m' (S i) ws ->
  args_written m m' i ((q, w) :: ws).
Proof.
  intros Hi (H1 & H2 & Ht & H3). set (m1 := store64 _ _ _) in *. unfold args_written, EC_argv, EC_eargv, EC_type, MAXARGS in *.
  assert (Hld : forall a, a / 8 <> (cmd + (8 + 8 * Z.of_nat i)) / 8 -> a / 8 <> (cmd + (88 + 8 * Z.of_nat i)) / 8 -> load64 m1 a = load64 m a).
  { intros a Ha1 Ha2. unfold m1. rewrite !load64_store64_ne by done. done. }
  split_and!.
  - intros a Ha. rewrite (H1 a Ha). unfold m1. rewrite !store_line; [done|..]; unfold EC_size; try lia; try dlia; done.
  - intros k Hk. destruct (H2 k ltac:(lia)) as [-> ->]. rewrite !Hld by dlia. done.
  - rewrite Ht. apply Hld; dlia.
  - intros [|j] q' w' Hj; simpl in Hj.
    + injection Hj as <- <-. rewrite Nat.add_0_r. destruct (H2 i ltac:(lia)) as [-> ->]. unfold m1.
      rewrite load64_store64_eq. rewrite load64_store64_ne by dlia. by rewrite load64_store64_eq.
    + replace (i + S j)%nat with (S i + j)%nat by lia. by apply H3.
Qed.

Definition symbol_free (l : list Z) : Prop := all (fun c => negb (in_set symbols c)) l.

Lemma word_split r :
  r <> [] -> stops (in_set whitespace) r -> stops (in_set symbols) r ->
  exists w b r', r = w ++ b ++ r' /\ w <> [] /\ all word_char w /\ all (in_set whitespace) b /\ stops (in_set whitespace) r' /\ stops word_char (b ++ r').
Proof.
  intros Hne Hb Hs. destruct (span word_char r) as (w & r1 & -> & Hw & Hr1). destruct (span (in_set whitespace) r1) as (b & r' & -> & Hb' & Hr').
  exists w, b, r'. split_and!; try done. intros ->. simpl in *. destruct (b ++ r') as [|c l]; [done|].
  simpl in *. unfold word_char in Hr1. rewrite Hb, Hs in Hr1. done.
Qed.
Lemma word_char_nonblank w : all word_char w -> all (fun c => negb (in_set whitespace c)) w.
Proof. intros H. eapply Forall_impl; [exact H|]. unfold word_char. intros c. rewrite andb_true_iff. tauto. Qed.

Lemma symbol_free_rest b w b' r' :
  all (in_set whitespace) b -> all word_char w -> all (in_set whitespace) b' ->
  symbol_free (b ++ w ++ b' ++ r') <-> symbol_free r'.
Proof.
  intros Hb Hw Hb'. unfold symbol_free, all. rewrite !Forall_app. split; [tauto|]. intros Hr.
  assert (Hbl : forall l, all (in_set whitespace) l -> Forall (fun c => negb (in_set symbols c) = true) l).
  { intros l Hl. eapply Forall_impl; [exact Hl|]. simpl. intros c Hc. by rewrite (blank_not_symbol c Hc). }
  split_and!; auto. eapply Forall_impl; [exact Hw|]. unfold word_char. simpl. intros c. rewrite andb_true_iff. tauto.
Qed.

(** what the loop does on the rest [l] of the line *)
Definition parsed (l : list Z) (p : Z) (left : nat) (s : ustate) (r : ures (nat * Z)) : Prop :=
  let ws := words_from p l in
  (symbol_free l -> (length ws < left)%nat -> exists m', r = URet ((MAXARGS - left + length ws)%nat, es) (mkU m' (u_env s)) /\
     args_written (u_mem s) m' (MAXARGS - left) ws) /\
  ((symbol_free l -> (left <= length ws)%nat) ->
     (exists s', r = Gone (call_regs SYS_user_exit (-1)) s') \/
     (exists i p' s', r = URet (i, p') s' /\ p' < es /\ (i < MAXARGS)%nat /\ line_same (u_mem s) (u_mem s') /\
        load64 (u_mem s') (cmd + EC_type) = load64 (u_mem s) (cmd + EC_type) /\ p <= p' /\ load8 (u_mem s) p' <> 0 /\ in_set whitespace (load8 (u_mem s) p') = false)).

Lemma line_same_trans m1 m2 m3 : line_same m1 m2 -> line_same m2 m3 -> line_same m1 m3.
Proof. intros H1 H2 a Ha. by rewrite H2, H1. Qed.

(** the words of a rest that starts with blanks and a word *)
Lemma words_from_step p b w b' r' :
  all (in_set whitespace) b -> w <> [] -> all word_char w -> all (in_set whitespace) b' -> stops word_char (b' ++ r') -> symbol_free r' ->
  words_from p (b ++ w ++ b' ++ r') =
  (p + Z.of_nat (length b), w) :: words_from (p + Z.of_nat (length b) + Z.of_nat (length w) + Z.of_nat (length b')) r'.
Proof.
  intros Hb Hne Hw Hb' Hst Hf. rewrite words_from_blanks, words_from_word, words_from_blanks; [done|done|done|by apply word_char_nonblank| |done].
  destruct b' as [|d b']; [destruct r' as [|d r']; [done|]|]; simpl in *.
  - apply Forall_cons in Hf as [Hd _]. apply negb_true_iff in Hd. unfold word_char in Hst. rewrite Hd, andb_true_r in Hst. done.
  - apply Forall_cons in Hb' as [-> _]. done.
Qed.

(** the loop stops before an operator, or gives up *)
Lemma parsed_stop l p p1 left s :
  ~ symbol_free l -> p <= p1 < es -> (0 < left <= MAXARGS)%nat -> load8 (u_mem s) p1 <> 0 -> in_set whitespace (load8 (u_mem s) p1) = false ->
  parsed l p left s (URet ((MAXARGS - left)%nat, p1) s).
Proof.
  intros Hns Hp Hl Hnz Hnb. split; [by intros Hf; apply Hns in Hf|]. intros _. right. exists (MAXARGS - left)%nat, p1, s.
  split_and!; try done; unfold MAXARGS in *; lia.
Qed.
Lemma parsed_gone l p left s s' :
  ~ (symbol_free l /\ (length (words_from p l) < left)%nat) -> parsed l p left s (Gone (call_regs SYS_user_exit (-1)) s').
Proof. intros H. split; [intros Hf Hlt; by destruct H|]. intros _. left. by exists s'. Qed.

(** one word is entered in the vectors and the loop goes on *)
Lemma parsed_word b w b' r' p left s r :
  let i := (MAXARGS - S (S left))%nat in
  let p1 := p + Z.of_nat (length b) in let e1 := p1 + Z.of_nat (length w) in let p2 := e1 + Z.of_nat (length b') in
  let m2 := store64 (store64 (u_mem s) (cmd + EC_argv i) p1) (cmd + EC_eargv i) e1 in
  all (in_set whitespace) b -> w <> [] -> all word_char w -> all (in_set whitespace) b' -> stops word_char (b' ++ r') ->
  (S (S left) <= MAXARGS)%nat -> line_same (u_mem s) m2 -> lo <= p ->
  parsed r' p2 (S left) (mkU m2 (u_env s)) r -> parsed (b ++ w ++ b' ++ r') p (S (S left)) s r.
Proof.
  intros i p1 e1 p2 m2 Hb Hw0 Hw Hb' Hst Hle Hls Hlo' [IH1 IH2].
  assert (Hsf : symbol_free (b ++ w ++ b' ++ r') <-> symbol_free r') by (by apply symbol_free_rest).
  assert (Hi : (i < MAXARGS)%nat) by (unfold i, MAXARGS in *; lia).
  replace (MAXARGS - S left)%nat with (S i) in * by (unfold i, MAXARGS in *; lia). cbn [u_mem u_env] in *. split.
  - intros Hf%Hsf. rewrite (words_from_step p b w b' r') by done. cbn [length]. intros Hlt. destruct (IH1 Hf ltac:(unfold p2, e1, p1; lia)) as (m' & -> & Hm').
    exists m'. split; [|by apply args_written_cons]. do 2 f_equal. unfold i, p2, e1, p1. lia.
  - intros Hcond. destruct IH2 as [Hg|(k & p' & s' & Er & Hp' & Hk & Hls' & Hty & Hpp & Hnz & Hnb)].
    + intros Hf. specialize (Hcond (proj2 Hsf Hf)). rewrite (words_from_step p b w b' r') in Hcond by done. cbn [length] in Hcond. unfold p2, e1, p1. lia.
    + by left.
    + right. exists k, p', s'. assert (Hld : load8 m2 p' = load8 (u_mem s) p') by (apply Hls; unfold p2, e1, p1, EC_size in *; lia). rewrite Hld in *.
      split_and!; try done; [by eapply line_same_trans| |unfold p2, e1, p1 in *; lia].
      rewrite Hty. unfold m2, EC_type, EC_argv, EC_eargv. rewrite !load64_store64_ne by dlia. done.
Qed.

Lemma parse_args_spec left l p s :
  (1 <= left <= MAXARGS)%nat -> lo <= p -> p + Z.of_nat (length l) = es -> cstr (u_mem s) p l ->
  parsed l p left s (parse_args out cmd es left p s).
Proof.
  revert l p s. induction left as [|left IH]; intros l p s Hleft Hp Hend Hc; [lia|].
  destruct (span (in_set whitespace) l) as (b & r & -> & Hb & Hr). cbn [parse_args]. set (i := (MAXARGS - S left)%nat).
  rewrite (ubind_URet umem _ s (u_mem s) s eq_refl). rewrite <- Hend, (peek_spec _ _ _ _ _ Hc Hb Hr). rewrite Hend.
  set (p1 := p + Z.of_nat (length b)) in *. pose proof (cstr_app _ _ _ _ Hc) as Hc1. fold p1 in Hc1.
  assert (Hend1 : p1 + Z.of_nat (length r) = es) by (rewrite <- Hend, length_app; lia).
  destruct r as [|c r].
  { assert (p1 = es) as -> by (simpl in Hend1; lia). rewrite gettoken_end by done. cbn [Z.eqb].
    unfold parsed. rewrite words_from_blanks by done. cbn [words_from length]. split.
    - intros _ _. exists (u_mem s). split; [by rewrite Nat.add_0_r; destruct s|]. split_and!; [done|done|done|]. intros j q w Hj. done.
    - intros H. exfalso. enough (symbol_free (b ++ [])) by (apply H in H0; lia). apply (symbol_free_rest b [] [] []); try constructor. done. }
  destruct (cstr_first _ _ _ Hc1) as [Hld Hz]. simpl in Hld. cbn [length] in Hend1.
  assert (Hsym : in_set symbols c = true -> ~ symbol_free (b ++ c :: r)).
  { intros Hsym [_ Hf]%Forall_app. apply Forall_cons in Hf as [Hf _]. by rewrite Hsym in Hf. }
  destruct (in_set [124; 41; 38; 59] c) eqn:Estop.
  { apply parsed_stop; [|unfold p1 in *; lia|lia|by intros ?%Hz|by rewrite Hld]. apply Hsym. apply in_set_spec in Estop. apply in_set_spec. unfold symbols. set_solver. }
  destruct (in_set symbols c) eqn:Esym.
  { assert (Hin : c ∈ [60; 62; 40]).
    { apply in_set_spec in Esym. apply in_set_false in Estop. unfold symbols in Esym. set_solver. }
    destruct (gettoken_symbol _ _ _ _ Hc1 Hin) as (tok & q & eq & ps & Eg & Ht0 & Ht1). cbn [length] in Eg. rewrite Hend1 in Eg. rewrite Eg.
    rewrite (proj2 (Z.eqb_neq tok 0)), (proj2 (Z.eqb_neq tok 97)) by done. cbn [negb].
    destruct (panic_gone "syntax" s) as (s' & Ep). rewrite (ubind_Gone _ _ _ _ _ Ep). apply parsed_gone. intros [Hf _]. by apply Hsym in Hf. }
  destruct (word_split (c :: r)) as (w & b' & r' & E & Hw0 & Hw & Hb' & Hr' & Hst); [done|done|done|].
  change (p1 + Z.of_nat (length (c :: r)) = es) in Hend1. rewrite E in *. clear Hsym Hz Hld.
  rewrite <- Hend1, gettoken_word by done. rewrite Hend1. cbn [Z.eqb Pos.eqb negb]. rewrite ubind_uret.
  rewrite (ubind_URet (uput _) _ s tt _ eq_refl), (ubind_URet (uput _) _ _ tt _ eq_refl). cbn [u_mem u_env].
  set (m2 := store64 (store64 (u_mem s) _ _) _ _).
  assert (Hls : line_same (u_mem s) m2).
  { unfold m2, i. eapply line_same_trans; apply store_line; unfold EC_argv, EC_eargv, EC_size, MAXARGS in *; try lia; dlia. }
  destruct left as [|left].
  { destruct (panic_gone "too many args" (mkU m2 (u_env s))) as (s' & Ep). rewrite (ubind_Gone _ _ _ _ _ Ep). apply parsed_gone.
    intros [Hf%symbol_free_rest Hlt]; [|done..]. rewrite words_from_step in Hlt by done. simpl in Hlt. lia. }
  apply (parsed_word b w b' r' p left s); try done; [lia|]. apply IH; [unfold MAXARGS in *; lia|lia| |].
  - rewrite <- Hend1, !length_app. fold p1. lia.
  - eapply line_cstr; [exact Hls|lia|rewrite <- Hend1, !length_app; fold p1; lia|]. rewrite app_assoc in Hc1. apply cstr_app in Hc1.
    rewrite length_app in Hc1. fold p1. by replace (p1 + Z.of_nat (length w) + Z.of_nat (length b')) with (p1 + Z.of_nat (length w + length b')) by lia.
Qed.

(* ------------------------------------------------------------------ *)
(** * Terminating the words *)

Definition ends (ws : list (Z * list Z)) : list Z := (fun x => fst x + Z.of_nat (length (snd x))) <$> ws.
(** [m'] is [m] with NULs at the addresses [E], the command structure unchanged *)
Definition nulled (m m' : gmap Z Z) (E : list Z) : Prop :=
  (forall a, load8 m' a = if decide (a ∈ E) then 0 else load8 m a) /\
  (forall o, 0 <= o -> o + 8 <= EC_size -> o mod 8 = 0 -> load64 m' (cmd + o) = load64 m (cmd + o)).

Lemma nulled_cons m m' e E :
  lo <= e <= es -> nulled (store8 m e 0) m' E -> nulled m m' (e :: E).
Proof.
  intros He [H1 H2]. split.
  - intros a. rewrite H1, load8_store8. destruct (decide (a ∈ E)); [by rewrite decide_True by (by right)|].
    destruct (decide (e = a)) as [->|]; [by rewrite decide_True by left|]. rewrite decide_False; [done|]. by intros [->|]%elem_of_cons.
  - intros o Ho Hs Ha. rewrite H2 by done. unfold store8. apply load64_storen_ne. unfold EC_size in *. dlia.
Qed.

Lemma nul_args_spec left ws s :
  let i := (MAXARGS - left)%nat in let m := u_mem s in
  (length ws < left <= MAXARGS)%nat ->
  (forall j q w, ws !! j = Some (q, w) -> load64 m (cmd + EC_argv (i + j)) = q /\
     load64 m (cmd + EC_eargv (i + j)) = q + Z.of_nat (length w) /\ 0 < q /\ lo <= q + Z.of_nat (length w) <= es) ->
  load64 m (cmd + EC_argv (i + length ws)) = 0 ->
  exists m', nul_args cmd left s = URet tt (mkU m' (u_env s)) /\ nulled m m' (ends ws).
Proof.
  revert ws s. induction left as [|left IH]; intros ws s i m Hlen Hws H0; [lia|]. cbn [nul_args]. fold i.
  rewrite (ubind_URet umem _ s (u_mem s) s eq_refl). fold m. destruct ws as [|[q w] ws].
  - rewrite Nat.add_0_r in H0. rewrite H0. exists m. split; [by unfold m; destruct s|]. split; [intros a; by rewrite decide_False by (by intros ?%elem_of_nil)|done].
  - destruct (Hws 0%nat q w eq_refl) as (Eq & Ee & Hq & He). rewrite Nat.add_0_r in Eq, Ee.
    rewrite Eq, (proj2 (Z.eqb_neq q 0)) by lia. rewrite (ubind_URet (uput _) _ s tt _ eq_refl). fold m. rewrite Ee.
    set (e := q + Z.of_nat (length w)) in *. cbn [length] in *.
    assert (Hld : forall o, 0 <= o -> o + 8 <= EC_size -> o mod 8 = 0 -> load64 (store8 m e 0) (cmd + o) = load64 m (cmd + o)).
    { intros o Ho Hs Ha. unfold store8. apply load64_storen_ne. unfold EC_size in *. dlia. }
    assert (Hii : (MAXARGS - left)%nat = S i) by (unfold i, MAXARGS in *; lia).
    destruct (IH ws (mkU (store8 m e 0) (u_env s))) as (m' & E & Hm'); cbn [u_mem u_env]; rewrite ?Hii.
    + lia.
    + intros j q' w' Hj. pose proof (lookup_lt_Some _ _ _ Hj). rewrite !Hld by (unfold EC_argv, EC_eargv, EC_size, i, MAXARGS in *; try lia; dlia).
      replace (S i + j)%nat with (i + S j)%nat by lia. by apply Hws.
    + rewrite Hld by (unfold EC_argv, EC_size, i, MAXARGS in *; try lia; dlia). by replace (S i + length ws)%nat with (i + S (length ws))%nat by lia.
    + exists m'. split; [exact E|]. by apply nulled_cons.
Qed.

(** a word keeps its characters and is followed by its NUL *)
Lemma nulled_words l m m' ws :
  cstr m lo l -> lo + Z.of_nat (length l) = es -> ws = words_from lo l -> nulled m m' (ends ws) ->
  forall q w, (q, w) ∈ ws -> cstr m' q w.
Proof.
  intros [Hc _] Hend -> [Hn _] q w Hin. destruct (words_from_in _ _ _ _ Hin) as (pre & post & El & -> & Hw & Hp).
  split.
  - intros k c Hk. pose proof (lookup_lt_Some _ _ _ Hk) as Hlt.
    assert (Hlk : l !! (length pre + k)%nat = Some c).
    { rewrite El, lookup_app_r, Nat.add_sub_swap, Nat.sub_diag by lia. by apply lookup_app_l_Some. }
    destruct (Hc _ _ Hlk) as [Hnz Hld]. split; [done|].
    replace (lo + Z.of_nat (length pre) + Z.of_nat k) with (lo + Z.of_nat (length pre + k)) by lia.
    rewrite Hn, decide_False; [done|]. intros [[q' w'] [Ee Hin']]%list_elem_of_fmap. simpl in Ee.
    destruct (words_from_in _ _ _ _ Hin') as (pre' & post' & El' & -> & _ & Hp').
    assert (Hpos : (length pre + k = length (pre' ++ w'))%nat) by (rewrite length_app; lia).
    rewrite El', app_assoc, Hpos, lookup_app_r, Nat.sub_diag in Hlk by lia. destruct post' as [|d post']; [done|]. injection Hlk as ->.
    simpl in Hp'. assert (Hcw : negb (in_set whitespace c) = true) by (by eapply (Forall_lookup_1 _ _ _ _ Hw)). congruence.
  - rewrite Hn, decide_True; [done|]. apply list_elem_of_fmap. by exists (lo + Z.of_nat (length pre), w).
Qed.

(* ------------------------------------------------------------------ *)
(** * parsecmd *)

Lemma clear_line n m : (n <= 21)%nat -> line_same m (clear cmd n m).
Proof.
  unfold clear. induction n as [|n IH]; intros Hn; [done|]. rewrite seq_S, fold_left_app. simpl.
  eapply line_same_trans; [apply IH; lia|]. apply store_line; unfold EC_size; try lia. dlia.
Qed.

(** execcmd: a cleared structure of type EXEC; the line is unchanged *)
Lemma execcmd_spec s a0 m1 e1 :
  ecall (call_regs SYS_user_allocate_page 0) (u_mem s) (u_env s) = Some (a0, m1, e1) -> u64 (s32 a0) = cmd ->
  exists m2, execcmd s = URet cmd (mkU m2 e1) /\ line_same m1 m2 /\ load32 m2 (cmd + EC_type) = EXEC.
Proof.
  intros E Ha. unfold execcmd, naive_malloc. rewrite (ubind_URet _ _ _ _ _ (do_user_call_run _ _ _ _ _ _ E)), Ha.
  rewrite (ubind_URet (uput _) _ _ tt _ eq_refl), (ubind_URet (uput _) _ _ tt _ eq_refl). cbn [u_mem u_env].
  eexists. split; [reflexivity|]. split.
  - intros a Ho. unfold EC_type. rewrite <- (clear_line 21 m1 ltac:(lia) a Ho).
    unfold store32, storen. rewrite load8_store64 by dlia. rewrite decide_False by (unfold EC_size in *; lia). done.
  - unfold load32, store32, EC_type. rewrite loadn_storen_eq; [done|]. apply field_ok_32. dlia.
Qed.

Lemma load32_type m m' : load64 m' (cmd + EC_type) = load64 m (cmd + EC_type) -> load32 m' (cmd + EC_type) = load32 m (cmd + EC_type).
Proof. unfold load32, loadn. by intros ->. Qed.

(** the state after the end of parseexec, when the loop ended with [n] words *)
Definition closed (n : nat) (m : gmap Z Z) : gmap Z Z := store64 (store64 m (cmd + EC_argv n) 0) (cmd + EC_eargv n) 0.
Lemma closed_same n m : (n < MAXARGS)%nat -> line_same m (closed n m) /\ load64 (closed n m) (cmd + EC_type) = load64 m (cmd + EC_type).
Proof.
  intros Hn. unfold closed, EC_argv, EC_eargv, EC_type, MAXARGS in *. split.
  - eapply line_same_trans; apply store_line; unfold EC_size; try lia; dlia.
  - rewrite !load64_store64_ne by dlia. done.
Qed.

Section Line.
Variables (l : list Z) (s : ustate) (a0 : Z) (m1 : gmap Z Z) (e1 : env).
Hypothesis Hline : cstr (u_mem s) lo l.
Hypothesis Hend : lo + Z.of_nat (length l) = es.
(** naive_malloc returns [cmd] and leaves the line alone *)
Hypothesis Hmalloc : ecall (call_regs SYS_user_allocate_page 0) (u_mem s) (u_env s) = Some (a0, m1, e1).
Hypothesis Hcmd : u64 (s32 a0) = cmd.
Hypothesis Hnz : cmd <> 0.
Hypothesis Hkeep : forall a, lo <= a <= es -> load8 m1 a = load8 (u_mem s) a.

Lemma line_m1 m2 : line_same m1 m2 -> cstr m2 lo l.
Proof.
  intros Hs. destruct Hline as [H H0]. split.
  - intros i c Hi. pose proof (lookup_lt_Some _ _ _ Hi). destruct (H i c Hi) as [? <-]. split; [done|].
    rewrite Hs by (unfold EC_size in *; lia). apply Hkeep. lia.
  - rewrite <- H0, Hs by (unfold EC_size in *; lia). apply Hkeep. lia.
Qed.

(** up to the argument loop *)
Lemma parsecmd_start :
  exists m2, line_same m1 m2 /\ load32 m2 (cmd + EC_type) = EXEC /\
  forall r, parse_args out cmd es MAXARGS lo (mkU m2 e1) = r ->
    parsecmd out lo s =
    (match r with
     | URet (argc, ps) s' =>
         (let ps := snd (peek (closed argc (u_mem s')) ps es []) in
          (if negb (ps =? es) then
             m <~ umem ;; printu out (chars_of "leftovers: " ++ read_cstr m ps ++ nl) ;;~ panic out "syntax"
           else uret tt) ;;~ nulterminate cmd ;;~ uret cmd) (mkU (closed argc (u_mem s')) (u_env s'))
     | Gone x s' => Gone x s'
     | Segv x => Segv x
     | Waiting => Waiting
     end).
Proof.
  destruct (execcmd_spec s a0 m1 e1 Hmalloc Hcmd) as (m2 & E & Hs & Ht). exists m2. split_and!; [done|done|]. intros r Er.
  unfold parsecmd. rewrite (ubind_URet umem _ s (u_mem s) s eq_refl). rewrite (ustrlen_spec _ _ l Hline), Hend.
  unfold parseline, parsepipe, parseexec. rewrite ubind_assoc, (ubind_URet _ _ _ _ _ E), ubind_assoc. unfold ubind at 1. rewrite Er.
  destruct r as [[argc ps] s'| | |]; done.
Qed.

Lemma parsecmd_ok :
  let ws := words_from lo l in
  symbol_free l -> (length ws < MAXARGS)%nat ->
  exists m', parsecmd out lo s = URet cmd (mkU m' e1) /\
    (forall j q w, ws !! j = Some (q, w) -> load64 m' (cmd + EC_argv j) = q /\ cstr m' q w) /\
    load64 m' (cmd + EC_argv (length ws)) = 0 /\ load32 m' (cmd + EC_type) = EXEC.
Proof.
  intros ws Hf Hws. destruct parsecmd_start as (m2 & Hs & Ht & Hpc).
  pose proof (line_m1 m2 Hs) as Hc2.
  destruct (parse_args_spec MAXARGS l lo (mkU m2 e1) ltac:(unfold MAXARGS; lia) ltac:(lia) Hend Hc2) as [H1 _].
  destruct (H1 Hf Hws) as (m3 & Er & Hls & _ & Hty & Hw). cbn [u_mem u_env] in *. rewrite (Hpc _ Er). clear Hpc Er H1.
  replace (MAXARGS - MAXARGS + length (words_from lo l))%nat with (length ws) by (unfold ws; lia).
  set (m4 := closed (length ws) m3). destruct (closed_same (length ws) m3 Hws) as [Hls4 Hty4]. fold m4 in Hls4, Hty4.
  assert (Hpk : snd (peek m4 es es []) = es) by (unfold peek, skip_to; rewrite Z.sub_diag; done).
  cbn [u_mem u_env]. fold m4. cbv zeta. rewrite Hpk, Z.eqb_refl. cbn [negb]. rewrite ubind_uret.
  assert (Hpos : forall j q w, ws !! j = Some (q, w) -> lo <= q /\ q + Z.of_nat (length w) <= es).
  { intros j q w Hj%list_elem_of_lookup_2. destruct (words_from_in _ _ _ _ Hj) as (pre & post & El & -> & _ & _).
    rewrite <- Hend, El, !length_app. lia. }
  assert (Hm4 : forall j q w, ws !! j = Some (q, w) -> load64 m4 (cmd + EC_argv (0 + j)) = q /\
     load64 m4 (cmd + EC_eargv (0 + j)) = q + Z.of_nat (length w) /\ 0 < q /\ lo <= q + Z.of_nat (length w) <= es).
  { intros j q w Hj. pose proof (lookup_lt_Some _ _ _ Hj). destruct (Hw j q w Hj) as [Hq He]. destruct (Hpos j q w Hj).
    rewrite !u64_small in Hq, He by lia. unfold m4, closed, EC_argv, EC_eargv, MAXARGS in *.
    rewrite !load64_store64_ne by dlia. split_and!; [done|done|lia|lia|lia]. }
  assert (H0 : load64 m4 (cmd + EC_argv (0 + length ws)) = 0).
  { unfold m4, closed, EC_argv, EC_eargv, MAXARGS in *. rewrite load64_store64_ne by dlia. rewrite load64_store64_eq. done. }
  destruct (nul_args_spec MAXARGS ws (mkU m4 e1) ltac:(lia) Hm4 H0) as (m5 & En & Hn). cbn [u_mem u_env] in *.
  assert (Ht4 : load32 m4 (cmd + EC_type) = EXEC) by (rewrite (load32_type m3 m4), (load32_type m2 m3); done).
  exists m5. split; [|split_and!].
  - unfold nulterminate. rewrite (proj2 (Z.eqb_neq cmd 0)) by done. rewrite !ubind_assoc, (ubind_URet umem _ (mkU m4 e1) m4 (mkU m4 e1) eq_refl).
    rewrite Ht4, Z.eqb_refl. by rewrite ubind_assoc, (ubind_URet _ _ _ _ _ En).
  - intros j q w Hj. pose proof (lookup_lt_Some _ _ _ Hj). destruct (Hm4 j q w Hj) as (Hq & _). split.
    + rewrite <- Hq. apply (proj2 Hn); unfold EC_argv, EC_size, MAXARGS in *; try lia; dlia.
    + eapply (nulled_words l m4 m5 ws); [|done|done|exact Hn|by eapply list_elem_of_lookup_2].
      apply line_m1. eapply line_same_trans; [exact Hs|]. eapply line_same_trans; [exact Hls|exact Hls4].
  - rewrite <- H0. apply (proj2 Hn); unfold EC_argv, EC_size, MAXARGS in *; try lia; dlia.
  - rewrite <- Ht4. apply load32_type, (proj2 Hn); unfold EC_type, EC_size; lia || done.
Qed.

Lemma parsecmd_bad :
  ~ (symbol_free l /\ (length (words_from lo l) < MAXARGS)%nat) ->
  exists s', parsecmd out lo s = Gone (call_regs SYS_user_exit (-1)) s'.
Proof.
  intros Hbad. destruct parsecmd_start as (m2 & Hs & Ht & Hpc). pose proof (line_m1 m2 Hs) as Hc2.
  destruct (parse_args_spec MAXARGS l lo (mkU m2 e1) ltac:(unfold MAXARGS; lia) ltac:(lia) Hend Hc2) as [_ H2]. cbn [u_mem u_env] in *.
  destruct H2 as [(s' & Er)|(i & p' & s' & Er & Hp' & Hi & Hls & Hty & Hlop & Hnz' & Hnb)].
  - intros Hf. destruct (decide (length (words_from lo l) < MAXARGS)%nat); [by destruct Hbad|lia].
  - exists s'. by rewrite (Hpc _ Er).
  - rewrite (Hpc _ Er). set (m4 := closed i (u_mem s')). destruct (closed_same i (u_mem s') Hi) as [Hls4 _]. fold m4 in Hls4.
    assert (Hld : load8 m4 p' = load8 m2 p') by (rewrite Hls4, Hls by (unfold EC_size in *; lia); done).
    assert (Hpk : snd (peek m4 p' es []) = p').
    { unfold peek, skip_to. destruct (Z.to_nat (es - p')) eqn:En; [lia|]. cbn [skip]. rewrite Hld, Hnb. done. }
    cbv zeta. rewrite Hpk, (proj2 (Z.eqb_neq p' es)) by lia. cbn [negb]. rewrite !ubind_assoc.
    rewrite (ubind_URet umem _ (mkU m4 (u_env s')) m4 (mkU m4 (u_env s')) eq_refl), ubind_assoc.
    match goal with |- context [printu out ?t] => destruct (printu_returns t (mkU m4 (u_env s'))) as (a & m5 & e5 & Ep) end.
    rewrite (ubind_URet _ _ _ _ _ Ep). destruct (panic_gone "syntax" (mkU m5 e5)) as (s6 & E6).
    exists s6. by rewrite (ubind_Gone _ _ _ _ _ E6).
Qed.
End Line.
End Parse.

Lemma words_from_shift a k l : words_from (a + k) l = prod_map (Z.add k) id <$> words_from a l.
Proof.
  revert a. induction l as [|c l IH]; intros a; [done|]. cbn [words_from]. replace (a + k + 1) with (a + 1 + k) by lia. rewrite IH.
  destruct (in_set whitespace c); [done|]. destruct (words_from (a + 1) l) as [|[b w] ws]; simpl; [by rewrite Z.add_comm|].
  destruct (Z.eqb_spec b (a + 1)) as [->|Hne].
  - rewrite (proj2 (Z.eqb_eq (k + (a + 1)) (a + 1 + k))) by lia. simpl. by rewrite (Z.add_comm k a).
  - rewrite (proj2 (Z.eqb_neq (k + b) (a + 1 + k))) by lia. simpl. by rewrite (Z.add_comm k a).
Qed.
Lemma words_from_words a l : snd <$> words_from a l = words l.
Proof.
  unfold words. replace a with (0 + a) by lia. rewrite words_from_shift, <- list_fmap_compose.
  apply list_fmap_ext. intros i [q w] _. done.
Qed.
Lemma words_from_lookup a l j w : words l !! j = Some w -> exists q, words_from a l !! j = Some (q, w).
Proof.
  rewrite <- (words_from_words a). rewrite list_lookup_fmap. destruct (words_from a l !! j) as [[q v]|]; simpl; [|done].
  intros [= ->]. eauto.
Qed.

(* ------------------------------------------------------------------ *)
(** * runcmd *)

Section Run.
Context {UE : UserEnv}.
Variables (out cmd : Z) (ws : list (Z * list Z)).
(** print returns without touching the memory of the caller *)
Hypothesis Hprint : forall a n m e, exists r e', ecall (u64 <$> [SYS_user_print; a; n; 0; 0; 0; 0; 0]) m e = Some (r, m, e').
Hypothesis Hal : cmd mod 8 = 0.
Hypothesis Hout : cmd + EC_size <= out \/ out + 256 <= cmd.

(** the argument vector of [ws] *)
Definition has_args (m : gmap Z Z) : Prop :=
  load32 m (cmd + EC_type) = EXEC /\ load64 m (cmd + EC_argv (length ws)) = 0 /\
  forall j q w, ws !! j = Some (q, w) -> load64 m (cmd + EC_argv j) = q /\ cstr m q w.
Hypothesis Hn : (length ws < MAXARGS)%nat.
Hypothesis Hpos : Forall (fun x => 0 < fst x) ws.
Hypothesis Hws : Forall (fun x => fst x + Z.of_nat (length (snd x)) < out \/ out + 256 <= fst x) ws.

Definition same_but_out (m m' : gmap Z Z) : Prop := forall a, ~ (out <= a < out + 256) -> load8 m' a = load8 m a.
Lemma has_args_same m m' : same_but_out m m' -> has_args m -> has_args m'.
Proof.
  intros Hs (Ht & H0 & Ha).
  assert (Hld : forall o, 0 <= o -> o + 8 <= EC_size -> o mod 8 = 0 -> load64 m' (cmd + o) = load64 m (cmd + o)).
  { intros o Ho Hs' Hm. apply load64_bytes; [dlia|dlia|]. intros i Hi. apply Hs. lia. }
  split_and!.
  - rewrite <- Ht. unfold load32, loadn. rewrite Hld by done. done.
  - rewrite <- H0. apply Hld; unfold EC_argv, EC_size, MAXARGS in *; try lia; dlia.
  - intros j q w Hj. pose proof (lookup_lt_Some _ _ _ Hj). destruct (Ha j q w Hj) as [Hq [Hc Hc0]].
    rewrite Forall_forall in Hws. pose proof (Hws _ (list_elem_of_lookup_2 _ _ _ Hj)) as Hd. simpl in Hd. split.
    + rewrite <- Hq. apply Hld; unfold EC_argv, EC_size, MAXARGS in *; try lia; dlia.
    + split; [|rewrite <- Hc0; apply Hs; lia]. intros i c Hi. pose proof (lookup_lt_Some _ _ _ Hi). destruct (Hc i c Hi) as [? <-].
      split; [done|]. apply Hs. lia.
Qed.
Lemma printu_run t s : exists r m e, printu out t s = URet r (mkU m e) /\ same_but_out (u_mem s) m.
Proof.
  unfold printu. cbv zeta. erewrite ubind_URet by reflexivity. set (n := if _ <? 256 then _ else _). unfold do_user_call, trap, ubind. cbn [u_mem u_env].
  destruct (Hprint out n (put_text out 256 t (u_mem s)) (u_env s)) as (r & e' & E). rewrite E. do 3 eexists. split; [reflexivity|].
  intros a Ha. unfold put_text. apply put_str_outside. rewrite length_take. lia.
Qed.
Lemma show_args_run left s :
  (MAXARGS - left <= length ws < MAXARGS)%nat -> (0 < left <= MAXARGS)%nat -> has_args (u_mem s) ->
  exists m e, show_args out cmd left s = URet tt (mkU m e) /\ has_args m.
Proof.
  revert s. induction left as [|left IH]; intros s Hle Hl Ha; [lia|]. cbn [show_args]. rewrite (ubind_URet umem _ s (u_mem s) s eq_refl).
  set (i := (MAXARGS - S left)%nat) in *. destruct Ha as (Ht & H0 & Hq).
  destruct (decide (i = length ws)) as [->|Hne]; [rewrite H0; exists (u_mem s), (u_env s); by destruct s|].
  destruct (lookup_lt_is_Some_2 ws i ltac:(lia)) as [[q w] Hw]. destruct (Hq i q w Hw) as [-> _].
  assert (0 < q) by (rewrite Forall_forall in Hpos; exact (Hpos _ (list_elem_of_lookup_2 _ _ _ Hw))).
  rewrite (proj2 (Z.eqb_neq q 0)) by lia.
  match goal with |- context [printu out ?t] => destruct (printu_run t s) as (r & m & e & E & Hs) end.
  rewrite (ubind_URet _ _ _ _ _ E). apply IH; cbn [u_mem]; [unfold i, MAXARGS in *; lia..|]. eapply has_args_same; [exact Hs|done].
Qed.

(** exec does not come back when it succeeds *)
Definition exec_regs (path argv : Z) : list Z := u64 <$> [SYS_user_exec; path; argv; 0; 0; 0; 0; 0].
Lemma runcmd_exec s q w :
  cmd <> 0 -> ws !! 0%nat = Some (q, w) -> has_args (u_mem s) ->
  (forall m e, ecall (exec_regs q (cmd + EC_argv 0)) m e = None) ->
  exists s', runcmd out cmd s = Gone (exec_regs q (cmd + EC_argv 0)) s' /\ has_args (u_mem s').
Proof.
  intros Hc Hw Ha Hexec. unfold runcmd. rewrite (proj2 (Z.eqb_neq cmd 0)) by done. rewrite ubind_uret.
  rewrite (ubind_URet umem _ s (u_mem s) s eq_refl). pose proof Ha as (Ht & _ & Hq). rewrite Ht, Z.eqb_refl.
  destruct (Hq 0%nat q w Hw) as [E0 _]. rewrite E0.
  assert (0 < q) by (rewrite Forall_forall in Hpos; exact (Hpos _ (list_elem_of_lookup_2 _ _ _ Hw))).
  rewrite (proj2 (Z.eqb_neq q 0)) by lia. rewrite !ubind_assoc, ubind_uret.
  destruct (show_args_run MAXARGS s ltac:(lia) ltac:(unfold MAXARGS; lia) Ha) as (m & e & E & Ha').
  rewrite ubind_assoc, (ubind_URet _ _ _ _ _ E), ubind_assoc, (ubind_URet umem _ (mkU m e) m (mkU m e) eq_refl).
  destruct Ha' as (Ht' & H0' & Hq'). destruct (Hq' 0%nat q w Hw) as [E0' _]. rewrite E0'.
  exists (mkU m e). split; [|done]. rewrite ubind_assoc. apply ubind_Gone. unfold exec. apply ubind_Gone. unfold do_user_call. apply ubind_Gone.
  unfold trap. fold (exec_regs q (cmd + EC_argv 0)). by rewrite Hexec.
Qed.
End Run.

(* ------------------------------------------------------------------ *)
(** * isExit *)

(** [isExit] looks at the first four characters after the blanks only: "exit" ends
    the shell, and so does any line that begins with it ("exitcode", "exits"). *)
Theorem isExit_prefix m p l b r :
  cstr m p l -> l = b ++ r -> all (in_set whitespace) b -> stops (in_set whitespace) r ->
  isExit m p = true <-> exists rest, r = chars_of "exit" ++ rest.
Proof.
  intros Hc -> Hb Hr. unfold isExit. rewrite (ustrlen_spec _ _ _ Hc), (skip_to_spec _ m p b r Hc Hb Hr). apply cstr_app in Hc.
  set (q := p + Z.of_nat (length b)) in *. rewrite !andb_true_iff, !Z.eqb_eq.
  assert (Hat : forall i : nat, (i <= length r)%nat -> load8 m (q + Z.of_nat i) = default 0 (r !! i)).
  { intros i Hi. by destruct (cstr_byte m q r i Hc Hi). }
  assert (H0 : load8 m q = default 0 (r !! 0%nat)) by (rewrite <- Hat, Z.add_0_r by lia; done).
  split.
  - intros [[[E0 E1] E2] E3]. pose proof (fun H => Hat 1%nat H) as H1. pose proof (fun H => Hat 2%nat H) as H2.
    pose proof (fun H => Hat 3%nat H) as H3. change (Z.of_nat 1) with 1 in H1. change (Z.of_nat 2) with 2 in H2. change (Z.of_nat 3) with 3 in H3.
    rewrite E0 in H0. rewrite E1 in H1. rewrite E2 in H2. rewrite E3 in H3.
    destruct r as [|c0 [|c1 [|c2 [|c3 rest]]]]; cbn in *; [done|by specialize (H1 ltac:(lia))|by specialize (H2 ltac:(lia))|by specialize (H3 ltac:(lia))|].
    exists rest. rewrite <- H0, <- H1, <- H2, <- H3 by lia. done.
  - intros [rest ->]. split_and!; [done|by apply (Hat 1%nat); simpl; lia|by apply (Hat 2%nat); simpl; lia|by apply (Hat 3%nat); simpl; lia].
Qed.

(* ------------------------------------------------------------------ *)
(** * Properties *)

Section Properties.
Context {UE : UserEnv}.

(** the kernel as far as the shell relies on it: exit and a successful exec do not
    return, print does and changes no memory of the caller *)
Record shell_kernel : Prop := {
  sk_exit code m e : ecall (call_regs SYS_user_exit code) m e = None;
  sk_print a n m e : exists r e', ecall (u64 <$> [SYS_user_print; a; n; 0; 0; 0; 0; 0]) m e = Some (r, m, e');
  sk_exec p a m e : ecall (exec_regs p a) m e = None
}.
(** the line [l] in the buffer [buf]; a page at [cmd] for the command; the print
    buffer [out]; the three do not overlap *)
Record command_line (s : ustate) (buf : Z) (l : list Z) (out cmd : Z) (e1 : env) : Prop := {
  cl_line : cstr (u_mem s) buf l;
  cl_buf : 0 < buf /\ buf + Z.of_nat (length l) < 2 ^ 64;
  cl_malloc : exists a0 m1, ecall (call_regs SYS_user_allocate_page 0) (u_mem s) (u_env s) = Some (a0, m1, e1) /\
    u64 (s32 a0) = cmd /\ forall a, buf <= a <= buf + Z.of_nat (length l) -> load8 m1 a = load8 (u_mem s) a;
  cl_cmd : cmd <> 0 /\ cmd mod 8 = 0;
  cl_sep : cmd + EC_size <= buf \/ buf + Z.of_nat (length l) + 1 <= cmd;
  cl_out : (cmd + EC_size <= out \/ out + 256 <= cmd) /\ (buf + Z.of_nat (length l) < out \/ out + 256 <= buf)
}.

Lemma print_some : shell_kernel ->
  forall a n m e, is_Some (ecall (u64 <$> [SYS_user_print; a; n; 0; 0; 0; 0; 0]) m e).
Proof. intros [_ H _] a n m e. destruct (H a n m e) as (r & e' & ->). by eexists. Qed.

(** C16. The shell runs the command that was typed: for a line without operator
    characters and with one to nine words, the child parses it and calls exec with
    a NULL-terminated argument vector whose entries are, in order, NUL-terminated
    strings equal to the words of the line, the first of them as the path. *)
Theorem shell_executes_words s buf l out cmd e1 w0 :
  shell_kernel -> command_line s buf l out cmd e1 ->
  symbol_free l -> words l !! 0%nat = Some w0 -> (length (words l) < MAXARGS)%nat ->
  exists q s', (c <~ parsecmd out buf ;; runcmd out c) s = Gone (exec_regs q (cmd + EC_argv 0)) s' /\
    cstr (u_mem s') q w0 /\ load64 (u_mem s') (cmd + EC_argv (length (words l))) = 0 /\
    (forall j w, words l !! j = Some w -> cstr (u_mem s') (load64 (u_mem s') (cmd + EC_argv j)) w).
Proof.
  intros Hk [Hline Hbuf (a0 & m1 & Hm & Ha & Hkeep) [Hnz Hal] Hsep [Ho1 Ho2]] Hf Hw0 Hn.
  assert (El : length (words_from buf l) = length (words l)) by (by rewrite <- (words_from_words buf l), length_fmap).
  destruct (parsecmd_ok out cmd buf (buf + Z.of_nat (length l)) (sk_exit Hk) (print_some Hk) Hal Hsep ltac:(lia) ltac:(lia)
    l s a0 m1 e1 Hline eq_refl Hm Ha Hnz Hkeep Hf) as (m' & E & Hargs & H0 & Ht); [lia|].
  rewrite (ubind_URet _ _ _ _ _ E).
  assert (Hin : forall q w, (q, w) ∈ words_from buf l -> buf <= q /\ q + Z.of_nat (length w) <= buf + Z.of_nat (length l)).
  { intros q w Hi. destruct (words_from_in _ _ _ _ Hi) as (pre & post & -> & -> & _). rewrite !length_app. lia. }
  destruct (words_from_lookup buf l 0 w0 Hw0) as (q & Hq).
  destruct (runcmd_exec out cmd (words_from buf l) (sk_print Hk) Hal Ho1 ltac:(lia)) with (s := mkU m' e1) (q := q) (w := w0)
    as (s' & Er & Ht' & H0' & Ha'); try done.
  - apply Forall_forall. intros [q' w'] Hi. simpl. destruct (Hin q' w' Hi). lia.
  - apply Forall_forall. intros [q' w'] Hi. simpl. destruct (Hin q' w' Hi). lia.
  - apply (sk_exec Hk).
  - exists q, s'. split_and!; [done| |by rewrite <- El|].
    + by destruct (Ha' 0%nat q w0 Hq).
    + intros j w Hj. destruct (words_from_lookup buf l j w Hj) as (qj & Hqj). by destruct (Ha' j qj w Hqj) as [-> ?].
Qed.

(** C35. Everything else is refused: a line with an operator character or with ten or
    more words makes the child print a message and exit with -1, without exec. *)
Theorem shell_rejects s buf l out cmd e1 :
  shell_kernel -> command_line s buf l out cmd e1 ->
  ~ (symbol_free l /\ (length (words l) < MAXARGS)%nat) ->
  exists s', (c <~ parsecmd out buf ;; runcmd out c) s = Gone (call_regs SYS_user_exit (-1)) s'.
Proof.
  intros Hk [Hline Hbuf (a0 & m1 & Hm & Ha & Hkeep) [Hnz Hal] Hsep [Ho1 Ho2]] Hbad.
  rewrite <- (words_from_words buf l), length_fmap in Hbad.
  destruct (parsecmd_bad out cmd buf (buf + Z.of_nat (length l)) (sk_exit Hk) (print_some Hk) Hal Hsep ltac:(lia) ltac:(lia)
    l s a0 m1 e1 Hline eq_refl Hm Ha Hnz Hkeep Hbad) as (s' & E).
  exists s'. by rewrite (ubind_Gone _ _ _ _ _ E).
Qed.
End Properties.

(* ------------------------------------------------------------------ *)
(** * Witnesses *)

(** exit and exec do not return, malloc hands out 0x400000 *)
Definition demo_kernel : UserEnv := {|
  env := unit;
  ecall := fun regs m e =>
    let n := default 0 (head regs) in
    if (n =? SYS_user_exit) || (n =? SYS_user_exec) then None
    else if n =? SYS_user_allocate_page then Some (0x400000, m, e) else Some (0, m, e)
|}.
Definition demo_line (l : list Z) : @ustate demo_kernel := mkU (put_str 0x7fffe000 l ∅) (tt : @env demo_kernel).
Lemma demo_shell_kernel : @shell_kernel demo_kernel.
Proof. split; [done|intros; by eexists _, _|done]. Qed.
Lemma demo_command_line l :
  (length l <= 256)%nat -> cstr (u_mem (demo_line l)) 0x7fffe000 l ->
  @command_line demo_kernel (demo_line l) 0x7fffe000 l 0x7fffd000 0x400000 (tt : @env demo_kernel).
Proof.
  intros Hl Hc. split; [done|lia| |done|unfold EC_size; lia|unfold EC_size; lia].
  exists 0x400000, (u_mem (demo_line l)). split_and!; done.
Qed.

(** "ls -l" *)
Lemma shell_executes_words_witness : exists q s',
  (c <~ parsecmd 0x7fffd000 0x7fffe000 ;; runcmd 0x7fffd000 c) (demo_line [108; 115; 32; 45; 108]) =
    Gone (exec_regs q (0x400000 + EC_argv 0)) s' /\ cstr (u_mem s') q [108; 115].
Proof.
  destruct (shell_executes_words (demo_line [108; 115; 32; 45; 108]) 0x7fffe000 [108; 115; 32; 45; 108] 0x7fffd000 0x400000 (tt : @env demo_kernel) [108; 115])
    as (q & s' & E & Hc & _).
  - exact demo_shell_kernel.
  - apply demo_command_line; [simpl; lia|]. split; [|by vm_compute]. intros i c Hi. do 5 (destruct i as [|i]; [injection Hi as <-; by vm_compute|]). done.
  - repeat constructor.
  - done.
  - vm_compute. lia.
  - exists q, s'. split; [exact E|exact Hc].
Defined.
(** "a|b" *)
Lemma shell_rejects_witness : exists s',
  (c <~ parsecmd 0x7fffd000 0x7fffe000 ;; runcmd 0x7fffd000 c) (demo_line [97; 124; 98]) = Gone (call_regs SYS_user_exit (-1)) s'.
Proof.
  apply (shell_rejects (demo_line [97; 124; 98]) 0x7fffe000 [97; 124; 98] 0x7fffd000 0x400000 (tt : @env demo_kernel)).
  - exact demo_shell_kernel.
  - apply demo_command_line; [simpl; lia|]. split; [|by vm_compute]. intros i c Hi. do 3 (destruct i as [|i]; [injection Hi as <-; by vm_compute|]). done.
  - intros [Hf _]. apply Forall_cons in Hf as [_ Hf]. apply Forall_cons in Hf as [Hf _]. vm_compute in Hf. discriminate.
Defined.
