(* ===== verification/Apps.v ===== *)
(** The applications: user/echo.c, cat.c, touch.c, top.c, createproc.c and
    app_shell.c.

    Each [main] gets [argc] and the address [argv] of the argument vector;
    [out] is the buffer of printu on its stack.  A [main] ends in [exit], so on a
    kernel that ends the process it is [Gone] with the registers of that call.
    Loops over the arguments recurse on the number of arguments left. *)

From S2P Require Import Prelude Machine StringC Snprintf Syscall UserLib.

(* ------------------------------------------------------------------ *)
(** * Code *)

Section Apps.
Context {UE : UserEnv}.
Variable out : Z.

Definition newline : list Z := [10].
Definition say (x : string) : U unit := printu out (chars_of x ++ newline) ;;~ uret tt.
Definition quit : U unit := exit 0 ;;~ uret tt.
(** [argv[i]] *)
Definition argument (argv i : Z) : U Z := m <~ umem ;; uret (load64 m (argv + 8 * i)).

(** echo.c *)
Fixpoint echo_args (argc argv : Z) (left : nat) : U unit :=
  let i := argc - Z.of_nat left in
  match left with
  | O => uret tt
  | S left' =>
      a <~ argument argv i ;;
      m <~ umem ;;
      printu out (read_cstr m a ++ (if i =? argc - 1 then newline else [32])) ;;~
      echo_args argc argv left'
  end.
Definition echo_main (argc argv : Z) : U unit :=
  say "===== echo =====" ;;~
  echo_args argc argv (Z.to_nat (argc - 1)) ;;~
  quit.

(** cat.c; [buf] is the local array of MAXBUF bytes *)
Definition MAXBUF : Z := 512.
Fixpoint cat_files (buf argc argv : Z) (left : nat) : U unit :=
  let i := argc - Z.of_nat left in
  match left with
  | O => uret tt
  | S left' =>
      a <~ argument argv i ;;
      fd <~ open a 0 ;;
      (if fd <? 0 then
         m <~ umem ;;
         printu out (chars_of "cat: cannot open file " ++ read_cstr m a ++ newline) ;;~ quit
       else uret tt) ;;~
      n <~ read fd buf MAXBUF ;;
      write 1 buf n ;;~
      close fd ;;~
      cat_files buf argc argv left'
  end.
Definition cat_main (buf argc argv : Z) : U unit :=
  say "===== cat =====" ;;~
  (if argc <=? 1 then say "Too few arguments. " ;;~ quit else uret tt) ;;~
  cat_files buf argc argv (Z.to_nat (argc - 1)) ;;~
  quit.

(** touch.c, top.c *)
Definition touch_main (argc argv : Z) : U unit :=
  say "===== touch =====" ;;~
  (if argc <=? 1 then say "Too few arguments. " ;;~ quit else uret tt) ;;~
  quit.
Definition top_main (argc argv : Z) : U unit :=
  say "===== top =====" ;;~ getinfo ;;~ quit.

(** createproc.c; atol is linked into the application *)
Fixpoint skip_spaces (l : list Z) : list Z :=
  match l with
  | 32 :: l' => skip_spaces l'
  | _ => l
  end.
Definition uatol (l : list Z) : Z :=
  let l := skip_spaces l in
  match l with
  | c :: l' =>
      if c =? 45 then s64 (- atol_acc 0 l') else if c =? 43 then atol_acc 0 l' else atol_acc 0 l
  | [] => 0
  end.
(** the child counts to 50000000, which has no effect, and exits *)
Fixpoint create_procs (left : nat) : U unit :=
  match left with
  | O => uret tt
  | S left' =>
      rc <~ fork ;;
      (if rc =? 0 then quit else uret tt) ;;~
      create_procs left'
  end.
Definition createproc_main (argc argv : Z) : U unit :=
  say "===== createproc =====" ;;~
  nproc <~ (if argc <=? 1 then uret 2
            else a <~ argument argv 1 ;; m <~ umem ;; uret (uatol (read_cstr m a))) ;;
  printu out (chars_of "Will create " ++ dec_text (s32 nproc) ++ chars_of " process(s)..." ++ newline) ;;~
  create_procs (Z.to_nat nproc) ;;~
  quit.

(** app_shell.c; [p1] and [p2] are the addresses of its literals *)
Definition app_shell_main (p1 p2 : Z) : U unit :=
  open p1 0 ;;~
  open p2 0 ;;~
  say "open success" ;;~
  quit.

(* ------------------------------------------------------------------ *)
(** * A kernel with a console *)

(** the characters print is called with *)
Definition printed_bytes (m : gmap Z Z) (a n : Z) : list Z :=
  (fun i : nat => load8 m (a + Z.of_nat i)) <$> seq 0 (Z.to_nat n).
Definition print_regs (a n : Z) : list Z := u64 <$> [SYS_user_print; a; n; 0; 0; 0; 0; 0].

Section Console.
Variable log : env -> list Z.
(** print appends its characters to the console and leaves memory alone, exit
    does not return *)
Record console_kernel : Prop := {
  ck_print a n m e : 0 <= a < 2 ^ 64 -> 0 <= n < 2 ^ 64 -> exists r e', ecall (print_regs a n) m e = Some (r, m, e') /\ log e' = log e ++ printed_bytes m a n;
  ck_exit code m e : ecall (call_regs SYS_user_exit code) m e = None
}.
Hypothesis Hk : console_kernel.
Hypothesis Hout : 0 <= out < 2 ^ 64.

Definition characters (t : list Z) : Prop := Forall (fun c => 0 <= c < 256) t.
Lemma quit_gone s : quit s = Gone (call_regs SYS_user_exit 0) s.
Proof.
  unfold quit, exit, do_user_call. do 3 apply ubind_Gone. unfold trap. fold (call_regs SYS_user_exit 0). by rewrite (ck_exit Hk).
Qed.
(** a short text reaches the console as it is; memory changes in the buffer only *)
Lemma printu_prints t s :
  characters t -> (length t < 256)%nat ->
  exists r m e, printu out t s = URet r (mkU m e) /\ log e = log (u_env s) ++ t /\
    forall a, ~ (out <= a < out + 256) -> load8 m a = load8 (u_mem s) a.
Proof.
  intros Ht Hl. unfold printu. cbv zeta. rewrite (ubind_URet (uput _) _ s tt _ eq_refl). rewrite s32_small, u64_small by lia.
  rewrite (proj2 (Z.ltb_lt _ 256)) by lia. set (m := put_text out 256 t (u_mem s)).
  destruct (ck_print Hk out (Z.of_nat (length t)) m (u_env s) Hout ltac:(lia)) as (r & e & E & Hlog).
  unfold do_user_call, trap. unfold ubind at 1 2. cbn [u_mem u_env]. fold m. unfold print_regs in E. rewrite E.
  eexists _, m, e. split; [reflexivity|]. unfold m, put_text in *. rewrite take_ge in * by lia. split.
  - rewrite Hlog. f_equal. unfold printed_bytes. rewrite Nat2Z.id. apply list_eq. intros i. rewrite list_lookup_fmap.
    destruct (decide (i < length t)%nat) as [Hi|Hi].
    + rewrite lookup_seq_lt by done. destruct (lookup_lt_is_Some_2 t i Hi) as [c Ec]. rewrite Ec. simpl. f_equal.
      rewrite (put_str_byte out t (u_mem s) i c Ec). unfold u8. apply Z.mod_small. by eapply (Forall_lookup_1 _ _ _ _ Ht).
    + rewrite !lookup_ge_None_2; [done|lia|rewrite length_seq; lia].
  - intros a Ha. apply put_str_outside. lia.
Qed.
Lemma chars_of_characters x : characters (chars_of x).
Proof.
  unfold characters, chars_of. apply Forall_fmap, Forall_true. intros c. simpl. pose proof (Ascii.N_ascii_bounded c). lia.
Qed.

(* ------------------------------------------------------------------ *)
(** * echo *)

(** entry [i + j] of the argument vector is the string [ws !! j], apart from the
    buffer of printu *)
Definition arguments (m : gmap Z Z) (argv i : Z) (ws : list (list Z)) : Prop :=
  argv mod 8 = 0 /\ (argv + 8 * (i + Z.of_nat (length ws)) <= out \/ out + 256 <= argv) /\ 0 <= i /\
  forall (j : nat) w, ws !! j = Some w -> exists p, load64 m (argv + 8 * (i + Z.of_nat j)) = p /\ cstr m p w /\
    (length w < 255)%nat /\ (p + Z.of_nat (length w) < out \/ out + 256 <= p).
Lemma arguments_same m m' argv i ws :
  (forall a, ~ (out <= a < out + 256) -> load8 m' a = load8 m a) -> arguments m argv i ws -> arguments m' argv i ws.
Proof.
  intros Hs (Ha & Hv & Hi & Hw). split_and!; [done..|]. intros j w Hj. pose proof (lookup_lt_Some _ _ _ Hj).
  destruct (Hw j w Hj) as (p & Hp & [Hc H0] & Hl & Hd). exists p. split_and!; [|split|done|done].
  - rewrite <- Hp. apply load64_bytes; [dlia|dlia|]. intros k Hk'. apply Hs. lia.
  - intros k c Hc'. pose proof (lookup_lt_Some _ _ _ Hc'). destruct (Hc k c Hc') as [? <-]. split; [done|]. apply Hs. lia.
  - rewrite <- H0. apply Hs. lia.
Qed.
Lemma arguments_tail m argv i w ws : arguments m argv i (w :: ws) -> arguments m argv (i + 1) ws.
Proof.
  intros (Ha & Hv & Hi & Hw). split_and!; [done|simpl in Hv; lia|lia|]. intros j v Hj. destruct (Hw (S j) v Hj) as (p & Hp & H).
  exists p. split; [|done]. rewrite <- Hp. f_equal. lia.
Qed.
Lemma cstr_characters m p w : cstr m p w -> characters w.
Proof.
  intros [H _]. apply Forall_forall. intros c [i Hi]%list_elem_of_lookup. destruct (H i c Hi) as [_ <-].
  apply (get_field_range _ _ 8). lia.
Qed.

(** the words separated by blanks and ended by a newline *)
Fixpoint joined (ws : list (list Z)) : list Z :=
  match ws with
  | [] => []
  | [w] => w ++ newline
  | w :: ws' => w ++ [32] ++ joined ws'
  end.
Lemma echo_args_run argc argv ws s :
  arguments (u_mem s) argv (argc - Z.of_nat (length ws)) ws ->
  exists s', echo_args argc argv (length ws) s = URet tt s' /\ log (u_env s') = log (u_env s) ++ joined ws.
Proof.
  revert s. induction ws as [|w ws IH]; intros s Ha; [exists s; split; [done|by rewrite app_nil_r]|].
  cbn [echo_args length]. set (i := argc - Z.of_nat (S (length ws))). unfold argument. rewrite !ubind_assoc.
  rewrite (ubind_URet umem _ s (u_mem s) s eq_refl), ubind_uret, (ubind_URet umem _ s (u_mem s) s eq_refl).
  pose proof Ha as (_ & _ & _ & Hw). destruct (Hw 0%nat w eq_refl) as (p & Hp & Hc & Hl & Hd). rewrite Z.add_0_r in Hp.
  cbn [length] in Hp. fold i in Hp. rewrite Hp, (read_cstr_spec _ _ _ Hc).
  assert (Hsep : (if i =? argc - 1 then newline else [32]) = match ws with [] => newline | _ => [32] end).
  { unfold i. destruct ws; simpl; zcase; done || lia. }
  rewrite Hsep. destruct (printu_prints (w ++ match ws with [] => newline | _ => [32] end) s) as (r & m & e & E & Hlog & Hm).
  { apply Forall_app. split; [by eapply cstr_characters|]. destruct ws; by repeat constructor. }
  { rewrite length_app. destruct ws; simpl; lia. }
  rewrite (ubind_URet _ _ _ _ _ E). destruct (IH (mkU m e)) as (s' & Es & Hs').
  { eapply arguments_same; [exact Hm|]. replace (argc - Z.of_nat (length ws)) with (i + 1) by lia. by eapply arguments_tail. }
  exists s'. split; [exact Es|]. rewrite Hs'. cbn [u_env]. rewrite Hlog, <- app_assoc. f_equal.
  destruct ws; [by rewrite app_nil_r|]. cbn [joined]. by rewrite <- app_assoc.
Qed.

(** [echo] prints its arguments: with arguments of less than 255 characters
    each, the console shows the banner and then the arguments in order, separated
    by single blanks and ended by a newline (nothing when there are none), and the
    process exits with code 0. *)
Theorem echo_prints argc argv ws s :
  arguments (u_mem s) argv 1 ws -> argc = Z.of_nat (length ws) + 1 ->
  exists s', echo_main argc argv s = Gone (call_regs SYS_user_exit 0) s' /\
    log (u_env s') = log (u_env s) ++ chars_of "===== echo =====" ++ newline ++ joined ws.
Proof.
  intros Ha ->. unfold echo_main, say. rewrite ubind_assoc.
  destruct (printu_prints (chars_of "===== echo =====" ++ newline) s) as (r & m & e & E & Hlog & Hm).
  { apply Forall_app. split; [apply chars_of_characters|by repeat constructor]. }
  { simpl. lia. }
  rewrite (ubind_URet _ _ _ _ _ E), ubind_uret. replace (Z.to_nat _) with (length ws) by lia.
  destruct (echo_args_run (Z.of_nat (length ws) + 1) argv ws (mkU m e)) as (s' & Es & Hs').
  { replace (_ - _) with 1 by lia. by eapply arguments_same. }
  exists s'. rewrite (ubind_URet _ _ _ _ _ Es). split; [apply quit_gone|]. rewrite Hs'. cbn [u_env]. rewrite Hlog, <- !app_assoc. done.
Qed.
End Console.
End Apps.

(* ------------------------------------------------------------------ *)
(** * Witness *)

Definition demo_console : UserEnv := {|
  env := list Z;
  ecall := fun regs m e =>
    match regs with
    | [n; a; k; _; _; _; _; _] =>
        if n =? SYS_user_exit then None
        else if n =? SYS_user_print then Some (0, m, e ++ printed_bytes m a k)
        else Some (0, m, e)
    | _ => Some (0, m, e)
    end
|}.
Lemma demo_console_kernel : @console_kernel demo_console id.
Proof.
  split; [|done]. intros a n m e Ha Hn. eexists _, _. unfold print_regs. cbn [fmap list_fmap ecall demo_console].
  rewrite (u64_small a), (u64_small n) by lia. split; [reflexivity|done].
Qed.
(** echo hi you *)
Definition demo_words : list (list Z) := [chars_of "hi"; chars_of "you"].
Definition demo_args : @ustate demo_console :=
  mkU (store64 (store64 (put_str 0x7fffe100 (chars_of "hi") (put_str 0x7fffe200 (chars_of "you") ∅)) 0x7fffe008 0x7fffe100) 0x7fffe010 0x7fffe200)
    ([] : @env demo_console).
Lemma echo_prints_witness : exists s',
  @echo_main demo_console 0x7fffd000 3 0x7fffe000 demo_args = Gone (call_regs SYS_user_exit 0) s' /\
  u_env s' = chars_of "===== echo =====" ++ [10] ++ chars_of "hi you" ++ [10].
Proof.
  destruct (@echo_prints demo_console 0x7fffd000 id demo_console_kernel ltac:(lia) 3 0x7fffe000 demo_words demo_args) as (s' & E & H).
  - split_and!; [done|simpl; lia|lia|]. intros [|[|j]] w Hw; [| |done]; injection Hw as <-; eexists; (split; [vm_compute; reflexivity|]);
      (split_and!; [|simpl; lia|simpl; lia]); (split; [|by vm_compute]); intros i c Hi;
      do 4 (destruct i as [|i]; [try (injection Hi as <-; by vm_compute); done|]); done.
  - done.
  - exists s'. split; [exact E|]. exact H.
Defined.
